(* ===== verification/_CoqProject ===== *)
-Q . S2P
Prelude.v
GoStd.v
GoFlag.v
GoTime.v
Base64.v
Effects.v
Api.v
Cloud.v
GoMem.v
SdkClient.v
Fake.v
DeepCopy.v
Ctrl.v
Machine.v
Pass.v
World.v
Deletion.v
TwoPhase.v
Provisioning.v
Cloning.v
Webhook.v
Bootstrap.v
LoadBalancer.v
Ccm.v
ClusterCtl.v
ClusterUp.v
ClusterDown.v
Account.v
Stack.v
Template.v
Credentials.v
Factory.v
Ssh.v
Main.v
CcmMain.v
