(* ===== verification/Prelude.v ===== *)
(** * Cluster API Provider Verda: a verification development

    The program is a Kubernetes operator that turns Cluster API objects into
    virtual machines of the Verda cloud, and the cloud controller manager that
    runs in the clusters it builds.

    ** The parts and their files

    - [Prelude.v]: tactics, hint databases and lemmas on strings and lists.
    - [GoStd.v], [GoFlag.v], [GoTime.v], [Base64.v]: what the program uses of
      Go's standard library: errors, strings, fmt, slices, path; command line
      flags; RFC 3339 times; base64.
    - [Effects.v]: programs with calls.  A handler of the source is a program
      that mutates one object and calls services; [exec] and [wpM] speak about
      all answers the services may give, [run] and [wr] about one world.
    - [Api.v]: the API types of [api/v1beta1].  The helpers of Cluster API are
      the class [CapiUtil] with its laws [CapiUtilLaws].
    - [GoMem.v], [DeepCopy.v]: memory as Go has it, cells with pointers, slices
      and maps, and the deep copies of [api/v1beta1/zz_generated.deepcopy.go] in
      it, with the API types as they lie in memory.
    - [Cloud.v]: the interface [Client] of [internal/cloud/client.go], as the
      signature [ClientE] and the class [CloudClient] of what an implementation
      promises; [SdkClient.v] and [Fake.v] are the two implementations
      ([client.go], [fake.go]) and discharge it.
    - [Credentials.v], [Factory.v]: [internal/cloud/credentials.go] and
      [factory.go], the latter with the interleavings of concurrent calls.
    - [Ctrl.v]: the calls and helpers the controllers of
      [internal/controller] share; [Machine.v], [ClusterCtl.v] and [Template.v]:
      the controllers of VerdaMachine ([verdamachine_controller.go]),
      VerdaCluster ([verdacluster_controller.go], [verdacluster_servicelb.go])
      and VerdaMachineTemplate ([verdamachinetemplate_controller.go]).
    - [Pass.v], [World.v], [Deletion.v], [Provisioning.v], [Cloning.v]: the
      machine controller run against a cloud ([Fake] in all but the first) and a
      management cluster; [TwoPhase.v]: against [sdkClient] over a Verda API;
      [ClusterUp.v], [ClusterDown.v]: the cluster controller run against [Fake].
    - [Account.v]: passes of both controllers over many objects and accounts,
      interleaved call by call; [Stack.v]: a pass of either controller over
      [sdkClient], down to the calls of the Verda API.
    - [Webhook.v]: the admission webhooks of [internal/webhook/v1beta1].
    - [Bootstrap.v]: [internal/bootstrap/cloudconfig.go], cloud-config to shell.
    - [LoadBalancer.v], [Ssh.v]: the configuration files, scripts and templates
      of [internal/loadbalancer]; its key pairs and the updates over SSH
      ([haproxy.go], [ssh.go]).
    - [Ccm.v]: the cloud controller manager, [internal/ccm].
    - [Main.v], [CcmMain.v]: the programs [cmd/main.go] and
      [cmd/cloud-controller-manager/main.go], with the scheme, the
      [SetupWithManager] of the controllers, the registration of the webhooks
      and the making of a provider.

    A definition has the name of the Go function it translates; methods of an
    implementation carry a prefix ([sdk_], [fake_]), fields of a record the name
    of their struct.  A part of a long function that has a name of its own in
    the model says so where it is defined.

    ** How the code is modelled

    A controller pass is a program over [CtrlE]: it may do nothing but what its
    calls do, and nothing is assumed of the answers (any call may fail, reads
    may be stale, writes may be lost).  The theorems about a pass quantify over
    all its histories of calls: they say which calls can be made, given the
    calls before.  A pointer the code mutates is the object a handler threads
    through, so changes survive an error return as they do in Go; [defer] is
    written out.  Maps are [gmap]s; where the code ranges over a map, the order
    is that of the class [MapRange], any order at all.  Machine
    integers are [Z] with the wrap-around written out where it matters
    ([Template.v]); instants are nanoseconds.

    ** What the theorems show

    - Nothing foreign is touched: no call of the client shuts down or deletes
      anything without the tag of the provider ([SdkClient.v]), and the
      controllers delete only what they found under their own ID or tag
      ([Machine.v], [ClusterCtl.v]); both together, down to the calls of the API
      ([Stack.v], by composing the protocols of the two layers).
    - Nothing is created twice: creation is guarded by the lookup by tag
      ([Machine.v], [ClusterCtl.v]), and so no two existing instances of an
      account carry the same tag of a machine or of a load balancer, whatever the
      management cluster does and however passes interleave, as long as an object
      has one pass at a time and the account behaves like [Fake], which shows an
      instance that is gone as discontinued ([Account.v], by induction over the
      steps; [World.v] for whole passes).
    - Nothing on record is leaked: finalizers go only after the recorded instance
      is gone with its volumes, and its startup script and clone are dealt with
      ([Machine.v], [ClusterCtl.v]; what is found by tag only is purged for the
      load balancer of the control plane alone); a purge that reports nothing
      pending is complete ([SdkClient.v]).
    - Something happens, against a management cluster that answers: over the
      real client, and an API where accepted requests have taken effect by the
      next pass, the deletion of a machine goes through its phases, one pass
      each, and is complete after at most four, volumes, script and the clone it
      booted from included ([TwoPhase.v]).  The others are over [Fake], which
      deletes an instance in one step: the deletion of a machine is complete
      after at most two passes ([Deletion.v]); a new machine gets its instance in the first pass and is provisioned in the
      first pass after the instance runs ([Provisioning.v]), or clones its OS
      volume first and boots from the clone ([Cloning.v]); a new cluster gets
      its load balancer and then its endpoint, and its control plane machines are
      pushed as backends ([ClusterUp.v]); and the deletion of a cluster is
      complete after at most three passes, scripts included ([ClusterDown.v]).
    - A copy is the value: the deep copies never panic, and an object and its
      copy share no memory ([DeepCopy.v]).  This is why handlers that copy an
      object and mutate the copy are modelled by plain values.
    - What is reported is true: provisioned machines, endpoints, backends,
      capacities, addresses of services, existence of nodes.
    - What is stored stays valid: the webhooks keep specs valid and, but for the
      SSH keys of machines, immutable over any sequence of writes, and admit what the controllers write back
      ([Webhook.v]).
    - What is shipped arrives: commands are read back by a model of the shell's
      quoting; the lines for files and the loader of compressed scripts are run by
      a small model of the shell, with pipelines, redirections and
      here-documents, on the files of a machine ([Bootstrap.v]); install scripts
      are read back likewise ([LoadBalancer.v]); updates go only to the host with the stored key
      ([Ssh.v]); the secret published for the cloud controller manager is the
      one it reads ([ClusterCtl.v]).
    - Credentials: the sources and their precedence, the parser of the file
      against its specification and its round trip ([Credentials.v]); a client
      always acts with the credentials its cluster names ([Factory.v]).
    - Ports of the shared load balancer are divided fairly and independently of
      the order of listings ([Ccm.v]).
    - The programs do what their command lines say: each flag sets its variable,
      the manager and its controllers are made with what the flags ask for
      ([asked] of [Main.v], written without the code's own functions),
      everything is registered before the manager starts, and the first failure
      ends the program with an error ([Main.v], [CcmMain.v]).

    Four theorems show behaviour the source does not intend:
    [nocapacity_write_refused] ([Webhook.v]), [gone_load_balancer_adopted]
    ([ClusterCtl.v]), [gzip_file_misread] ([Bootstrap.v]) and
    [deleted_instance_masks] ([Stack.v]).

    ** Bounds

    All loops of the source run over finite data and are structural here, but
    two: [wrap_loop] of [Bootstrap.v] takes the length of its text as fuel, one
    unit per line of 76 bytes ([wrap_loop_enough] shows that this is enough),
    and the readers of shell words and tokens take the length of their input, one
    unit per word or token.

    ** Not modelled

    Logging; controller-runtime, the cloud-provider framework and the YAML decoder, which
    are library code, called or parameters; Unicode white space and case in Go's
    string functions (ASCII only); metadata fields no code reads. *)

From stdpp Require Export base list gmap strings sorting pretty.
From Stdlib Require Export ZArith Lia Ascii.
From stdpp Require Import options.

Export Stdlib.Strings.String (length, prefix, substring).

(** ** Scope, hint databases *)

Declare Scope go_scope.
Delimit Scope go_scope with go.

Create HintDb verda.
Create Rewrite HintDb verda_str.
Create HintDb verda_wp.

(** ** Tactics *)

(** Turn the boolean tests of the code into propositions. *)
Ltac bool_to_prop :=
  repeat match goal with
  | H : bool_decide _ = true |- _ => apply bool_decide_eq_true in H
  | H : bool_decide _ = false |- _ => apply bool_decide_eq_false in H
  | H : ¬ (_ ≠ _) |- _ => apply dec_stable in H
  | H : andb _ _ = true |- _ => apply andb_true_iff in H as [? ?]
  | H : orb _ _ = false |- _ => apply orb_false_iff in H as [? ?]
  | H : negb _ = true |- _ => apply negb_true_iff in H
  | H : negb _ = false |- _ => apply negb_false_iff in H
  | H : (_ =? _)%Z = true |- _ => apply Z.eqb_eq in H
  | H : (_ =? _)%Z = false |- _ => apply Z.eqb_neq in H
  | H : (_ <? _)%Z = true |- _ => apply Z.ltb_lt in H
  | H : (_ <? _)%Z = false |- _ => apply Z.ltb_ge in H
  | H : (_ <=? _)%Z = true |- _ => apply Z.leb_le in H
  | H : (_ <=? _)%Z = false |- _ => apply Z.leb_gt in H
  end.

(** Case analysis on every test the goal still depends on. *)
Ltac split_cases :=
  repeat (case_match; simplify_eq/=; bool_to_prop).

(** ** Strings as byte sequences

    A Go [string] or [[]byte] is a [string]: a sequence of 8-bit characters. *)

Lemma string_app_cons c (a b : string) : String c a +:+ b = String c (a +:+ b).
Proof. done. Qed.

Lemma string_app_nil_l (a : string) : "" +:+ a = a.
Proof. done. Qed.

Lemma string_app_assoc (a b c : string) : (a +:+ b) +:+ c = a +:+ b +:+ c.
Proof. induction a as [|x a IH]; [done|]. rewrite !string_app_cons. by f_equal. Qed.

Lemma string_app_nil_r (a : string) : a +:+ "" = a.
Proof. induction a as [|x a IH]; [done|]. rewrite string_app_cons. by f_equal. Qed.

Lemma string_length_app (a b : string) :
  String.length (a +:+ b) = String.length a + String.length b.
Proof. induction a as [|x a IH]; [done|]. rewrite string_app_cons; cbn. by f_equal. Qed.

Lemma string_app_inj_r (a b c : string) : a +:+ c = b +:+ c → a = b.
Proof.
  revert b. induction a as [|x a IH]; intros [|y b]; [done|..]; intros H.
  - apply (f_equal String.length) in H. rewrite !string_length_app in H. cbn in H. lia.
  - apply (f_equal String.length) in H. rewrite !string_length_app in H. cbn in H. lia.
  - rewrite !string_app_cons in H. simplify_eq. f_equal. by apply IH.
Qed.

Lemma string_app_eq_len (a b c d : string) :
  String.length a = String.length b → a +:+ c = b +:+ d → a = b ∧ c = d.
Proof.
  revert b. induction a as [|x a IH]; intros [|y b] Hl H; [done|done|done|].
  rewrite !string_app_cons in H. simplify_eq/=.
  destruct (IH b) as [-> ->]; auto.
Qed.

Lemma string_app_eq_len_r (a b c d : string) :
  String.length c = String.length d → a +:+ c = b +:+ d → a = b ∧ c = d.
Proof.
  intros Hl H. apply string_app_eq_len; [|done].
  apply (f_equal String.length) in H. rewrite !string_length_app in H. lia.
Qed.

#[export] Hint Rewrite string_app_assoc string_app_nil_r string_app_nil_l
  string_length_app : verda_str.

(** The characters of a string. *)
Fixpoint chars (s : string) : list ascii :=
  match s with "" => [] | String c s => c :: chars s end.

Lemma chars_app a b : chars (a +:+ b) = chars a ++ chars b.
Proof. induction a as [|x a IH]; [done|]. rewrite string_app_cons; cbn. by f_equal. Qed.

Lemma chars_length s : List.length (chars s) = String.length s.
Proof. induction s; cbn; auto. Qed.

#[export] Hint Rewrite chars_app : verda_str.

(** [s[n:]] for [n <= len(s)]. *)
Fixpoint str_drop (n : nat) (s : string) : string :=
  match n, s with
  | O, _ => s
  | S n, String _ s => str_drop n s
  | S _, "" => ""
  end.

(** [s[:n]] for [n <= len(s)]. *)
Fixpoint str_take (n : nat) (s : string) : string :=
  match n, s with
  | O, _ => ""
  | S n, String c s => String c (str_take n s)
  | S _, "" => ""
  end.

Lemma str_take_drop n s : str_take n s +:+ str_drop n s = s.
Proof. revert s; induction n as [|n IH]; intros [|c s]; cbn; [done..|].
  rewrite string_app_cons. by f_equal. Qed.

Lemma str_take_length n s : String.length (str_take n s) = n `min` String.length s.
Proof. revert s; induction n as [|n IH]; intros [|c s]; cbn; auto. Qed.

Lemma str_drop_length n s : String.length (str_drop n s) = String.length s - n.
Proof. revert s; induction n as [|n IH]; intros [|c s]; cbn; auto. Qed.

Lemma str_drop_app a b : str_drop (String.length a) (a +:+ b) = b.
Proof. induction a; [done|]. by rewrite string_app_cons. Qed.

Lemma str_take_app a b : str_take (String.length a) (a +:+ b) = a.
Proof. induction a as [|x a IH]; [by destruct b|]. rewrite string_app_cons; cbn. by f_equal. Qed.

Lemma prefix_spec p s : String.prefix p s = true ↔ ∃ r, s = p +:+ r.
Proof.
  revert s. induction p as [|c p IH]; intros s; cbn.
  - split; [by exists s|by destruct s].
  - destruct s as [|d s]; [split; [done|by intros [? ?]]|].
    cbn. case_match; simplify_eq.
    + rewrite IH. split; [by intros [r ->]; exists r|].
      intros [r Hr]. rewrite string_app_cons in Hr. simplify_eq. by exists r.
    + split; [done|]. intros [r Hr]. rewrite string_app_cons in Hr. by inv Hr.
Qed.

Lemma prefix_app p s : String.prefix p (p +:+ s) = true.
Proof. apply prefix_spec. by eexists. Qed.

(** ** Lists *)

Lemma Forall_flat_map {A B} (P : B → Prop) (f : A → list B) l :
  Forall (λ a, Forall P (f a)) l → Forall P (flat_map f l).
Proof. induction 1; cbn; [done|]. by apply Forall_app. Qed.

Lemma NoDup_app_disjoint {A} (l k : list A) x : NoDup (l ++ k) → x ∈ l → x ∈ k → False.
Proof. intros (_ & H & _)%NoDup_app ? ?. naive_solver. Qed.

(** A list sorted by a total order is the only sorted permutation of itself. *)
Lemma merge_sort_unique {A} (R : relation A) `{!RelDecision R, !PartialOrder R, !Total R} l k :
  l ≡ₚ k → merge_sort R l = merge_sort R k.
Proof.
  intros Hp. apply (Sorted_unique R).
  - by apply Sorted_merge_sort.
  - by apply Sorted_merge_sort.
  - by rewrite !merge_sort_Permutation.
Qed.

(** The same for a preorder that tells the elements of the list apart by a key. *)
Lemma merge_sort_unique_key {A B} (R : relation A) (key : A → B)
    `{!RelDecision R, !PreOrder R, !Total R} l k :
  (∀ x y, R x y → R y x → key x = key y) → NoDup (key <$> l) →
  l ≡ₚ k → merge_sort R l = merge_sort R k.
Proof.
  intros Hkey Hnd Hp. apply (Sorted_unique_strong R).
  - intros x y Hx Hy Hxy Hyx. rewrite merge_sort_Permutation in Hx, Hy. rewrite <-Hp in Hy.
    apply list_elem_of_lookup in Hx as [i Hi]. apply list_elem_of_lookup in Hy as [j Hj].
    assert (i = j) as ->; [|congruence].
    eapply (NoDup_lookup (key <$> l)); [done|by rewrite list_lookup_fmap, Hi|].
    rewrite list_lookup_fmap, Hj. cbn. f_equal. symmetry. auto.
  - by apply Sorted_merge_sort.
  - by apply Sorted_merge_sort.
  - by rewrite !merge_sort_Permutation.
Qed.

(** A key at least as fine as one without repetitions has none. *)
Lemma NoDup_fmap_finer {A B C} (f : A → B) (g : A → C) l :
  (∀ x y, x ∈ l → y ∈ l → g x = g y → f x = f y) → NoDup (f <$> l) → NoDup (g <$> l).
Proof.
  induction l as [|x l IH]; [constructor|]. intros Hfg. cbn. intros [Hx Hl]%NoDup_cons.
  apply NoDup_cons. split; [|apply IH; [intros; apply Hfg; by try right|done]].
  intros (y & Hy & Hin)%list_elem_of_fmap. apply Hx, list_elem_of_fmap. exists y. split; [|done].
  apply Hfg; [by left|by right|done].
Qed.

Lemma elem_of_List_filter {A} (f : A → bool) l x : x ∈ List.filter f l ↔ x ∈ l ∧ f x = true.
Proof. rewrite !list_elem_of_In. apply filter_In. Qed.
