(* ===== verification/GoStd.v ===== *)
(** * The Go standard library, as far as the program uses it

    [strings], [strconv], [fmt], [slices], [errors] and [path].  Strings are byte sequences.  The functions of Go that
    look at Unicode code points ([strings.ToLower], [strings.TrimSpace],
    [strings.EqualFold], the verb [%q]) are written out for ASCII and leave
    bytes above 127 as they are; every name, tag, status, path and key the
    program passes to them is ASCII. *)

From S2P Require Import Prelude.
From stdpp Require Import options.

(** ** package errors, and the error values of the program

    [ErrNotFound], [ErrNotManaged], [ErrHostnameInUse] and
    [ErrScriptTooLarge] are the sentinels of [internal/cloud/client.go] and
    [internal/bootstrap/cloudconfig.go], [ErrNotExist] is that of package os.  [APIError] is the error type of the
    Verda SDK, [KubeError] the status error of the Kubernetes API machinery
    with the reason its predicates test. *)

Inductive KubeReason := ReasonNotFound | ReasonAlreadyExists | ReasonInvalid | ReasonOther.

Inductive error :=
| ErrNotFound
| ErrNotManaged
| ErrHostnameInUse
| ErrScriptTooLarge
| ErrNotExist
| APIError (StatusCode : Z) (msg : string)
| KubeError (reason : KubeReason) (msg : string)
| errorString (msg : string)
| wrapError (pre : string) (inner : error) (post : string)
| joinError (a b : error).

#[export] Instance KubeReason_eq_dec : EqDecision KubeReason.
Proof. solve_decision. Defined.
#[export] Instance error_eq_dec : EqDecision error.
Proof. solve_decision. Defined.

(** [errors.Is(err, target)] for a sentinel [target]. *)
Fixpoint errors_Is (err target : error) : bool :=
  bool_decide (err = target) ||
  match err with
  | wrapError _ e _ => errors_Is e target
  | joinError a b => errors_Is a target || errors_Is b target
  | _ => false
  end.

(** [errors.As(err, &apiErr)] for [*verda.APIError]: the status code of the
    first one in the tree. *)
Fixpoint errors_As_APIError (err : error) : option Z :=
  match err with
  | APIError code _ => Some code
  | wrapError _ e _ => errors_As_APIError e
  | joinError a b =>
      match errors_As_APIError a with
      | Some c => Some c
      | None => errors_As_APIError b
      end
  | _ => None
  end.

(** [apierrors.ReasonForError(err)]: the reason of the first status error. *)
Fixpoint ReasonForError (err : error) : option KubeReason :=
  match err with
  | KubeError r _ => Some r
  | wrapError _ e _ => ReasonForError e
  | joinError a b =>
      match ReasonForError a with
      | Some r => Some r
      | None => ReasonForError b
      end
  | _ => None
  end.

Definition IsNotFound (err : error) : bool :=
  bool_decide (ReasonForError err = Some ReasonNotFound).
Definition IsAlreadyExists (err : error) : bool :=
  bool_decide (ReasonForError err = Some ReasonAlreadyExists).

(** The [error] interface method. *)
Fixpoint Error (err : error) : string :=
  match err with
  | ErrNotFound => "resource not found"
  | ErrNotManaged => "resource is not managed by cluster-api-provider-verda"
  | ErrHostnameInUse =>
      "hostname is in use by an instance not managed by cluster-api-provider-verda"
  | ErrScriptTooLarge => "startup script exceeds Verda's 49152 byte limit"
  | ErrNotExist => "file does not exist"
  | APIError _ msg | KubeError _ msg | errorString msg => msg
  | wrapError pre e post => pre +:+ Error e +:+ post
  | joinError a b => Error a +:+ "; " +:+ Error b
  end.

(** A Go function with results [(T, error)]. *)
Inductive result (A : Type) := Ok (a : A) | Err (e : error).
Arguments Ok {A} a.
Arguments Err {A} e.

#[export] Instance result_eq_dec `{EqDecision A} : EqDecision (result A).
Proof. solve_decision. Defined.

Lemma errors_Is_refl e : errors_Is e e = true.
Proof. destruct e; cbn; by rewrite bool_decide_eq_true_2. Qed.

Lemma errors_Is_wrap pre e post t :
  t ≠ wrapError pre e post → errors_Is (wrapError pre e post) t = errors_Is e t.
Proof. intros. cbn. by rewrite bool_decide_eq_false_2 by done. Qed.

(** ** package strings *)

Definition is_space (c : ascii) : bool :=
  match nat_of_ascii c with
  | 9 | 10 | 11 | 12 | 13 | 32 => true
  | _ => false
  end.

Definition lower_char (c : ascii) : ascii :=
  let n := nat_of_ascii c in
  if ((65 <=? n) && (n <=? 90))%nat then ascii_of_nat (n + 32) else c.

Fixpoint ToLower (s : string) : string :=
  match s with
  | "" => ""
  | String c s => String (lower_char c) (ToLower s)
  end.

Definition EqualFold (a b : string) : bool := bool_decide (ToLower a = ToLower b).

Definition HasPrefix (s p : string) : bool := String.prefix p s.

Definition HasSuffix (s suf : string) : bool :=
  (String.length suf <=? String.length s)%nat &&
  bool_decide (str_drop (String.length s - String.length suf) s = suf).

Definition TrimPrefix (s p : string) : string :=
  if HasPrefix s p then str_drop (String.length p) s else s.

(** [before, after, found := strings.Cut(s, sep)]; [None] when not found. *)
Fixpoint Cut (s sep : string) : option (string * string) :=
  if String.prefix sep s then Some ("", str_drop (String.length sep) s)
  else match s with
       | "" => None
       | String c s' =>
           match Cut s' sep with
           | Some (before, after) => Some (String c before, after)
           | None => None
           end
       end.

Fixpoint trim_left (s : string) : string :=
  match s with
  | "" => ""
  | String c s' => if is_space c then trim_left s' else s
  end.

Fixpoint trim_right (s : string) : string :=
  match s with
  | "" => ""
  | String c s' =>
      match trim_right s' with
      | "" => if is_space c then "" else String c ""
      | t => String c t
      end
  end.

Definition TrimSpace (s : string) : string := trim_right (trim_left s).

(** [strings.ReplaceAll(s, old, new)] for a non-empty [old]: occurrences are
    replaced from the left and do not overlap; [skip] counts the bytes of the
    last occurrence still to be passed over. *)
Fixpoint replace_from (old new : string) (skip : nat) (s : string) : string :=
  match s with
  | "" => ""
  | String c s' =>
      match skip with
      | S k => replace_from old new k s'
      | O => if String.prefix old s
             then new +:+ replace_from old new (String.length old - 1) s'
             else String c (replace_from old new 0 s')
      end
  end.
Definition ReplaceAll (s old new : string) : string := replace_from old new 0 s.

Fixpoint Join (l : list string) (sep : string) : string :=
  match l with
  | [] => ""
  | [x] => x
  | x :: l => x +:+ sep +:+ Join l sep
  end.

Definition nl : string := String (ascii_of_nat 10) "".
Definition dq : string := String (ascii_of_nat 34) "".
Definition sq : string := String (ascii_of_nat 39) "".

(** [strings.Split(s, sep)] for a one-byte separator. *)
Fixpoint split_char (sep : ascii) (s : string) : list string :=
  match s with
  | "" => [""]
  | String c s' =>
      if ascii_dec c sep then "" :: split_char sep s'
      else match split_char sep s' with
           | w :: ws => String c w :: ws
           | [] => [String c ""]
           end
  end.

Lemma split_char_nil_free (s : string) sep :
  Forall (λ c, c ≠ sep) (chars s) → split_char sep s = [s].
Proof.
  induction s as [|c s IH]; [done|]. cbn -[ascii_dec]. intros [Hc Hs]%Forall_cons.
  destruct (ascii_dec c sep); [done|]. by rewrite IH.
Qed.

Lemma split_char_app (a b : string) sep :
  Forall (λ c, c ≠ sep) (chars a) → split_char sep (a +:+ String sep b) = a :: split_char sep b.
Proof.
  induction a as [|c a IH]; cbn [chars]; [intros _|intros [Hc Ha]%Forall_cons].
  - rewrite string_app_nil_l. cbn -[ascii_dec]. by destruct (ascii_dec sep sep).
  - rewrite string_app_cons. cbn -[ascii_dec]. destruct (ascii_dec c sep); [done|]. by rewrite IH.
Qed.

(** A separator of one byte that does not occur before. *)
Lemma Cut_char (sep : ascii) (a b : string) :
  sep ∉ chars a → Cut (a +:+ String sep b) (String sep "") = Some (a, b).
Proof.
  induction a as [|c a IH]; intros Hn.
  - rewrite string_app_nil_l. cbn -[ascii_dec]. destruct (ascii_dec sep sep); [by destruct b|done].
  - rewrite string_app_cons. cbn in Hn. cbn -[ascii_dec].
    destruct (ascii_dec sep c) as [<-|Hne]; [set_solver|]. rewrite IH; [done|set_solver].
Qed.

(** ** package path *)

Definition clean_step (rooted : bool) (acc : list string) (elem : string) : list string :=
  if bool_decide (elem = "") || bool_decide (elem = ".") then acc
  else if bool_decide (elem = "..") then
    match acc with
    | [] => if rooted then [] else [".."]
    | top :: rest => if bool_decide (top = "..") then ".." :: acc else rest
    end
  else elem :: acc.

(** [path.Clean] *)
Definition path_Clean (p : string) : string :=
  if bool_decide (p = "") then "."
  else
    let rooted := HasPrefix p "/" in
    let out := Join (rev (fold_left (clean_step rooted) (split_char "/" p) [])) "/" in
    if rooted then "/" +:+ out else if bool_decide (out = "") then "." else out.

(** Everything up to and including the last slash. *)
Definition path_SplitDir (p : string) : string :=
  match rev (split_char "/" p) with
  | _ :: (_ :: _) as dirs => Join (rev (match dirs with _ :: ds => ds | [] => [] end)) "/" +:+ "/"
  | _ => ""
  end.

Definition path_Dir (p : string) : string := path_Clean (path_SplitDir p).

(** ** fmt *)

(** [%d] *)
Definition fmt_d (z : Z) : string := pretty z.

Lemma fmt_d_inj a b : fmt_d a = fmt_d b → a = b.
Proof. apply (inj pretty). Qed.

Definition hex_digit (n : nat) : ascii :=
  if (n <? 10)%nat then ascii_of_nat (48 + n) else ascii_of_nat (87 + n).

(** One byte of [strconv.Quote]. *)
Definition quote_char (c : ascii) : string :=
  let n := nat_of_ascii c in
  let bs := String (ascii_of_nat 92) in
  match n with
  | 34 => bs (String c "")
  | 92 => bs (String c "")
  | 7 => bs "a" | 8 => bs "b" | 9 => bs "t" | 10 => bs "n"
  | 11 => bs "v" | 12 => bs "f" | 13 => bs "r"
  | _ => if (n <? 32)%nat || (n =? 127)%nat
         then bs (String "x" (String (hex_digit (n / 16)) (String (hex_digit (n mod 16)) "")))
         else String c ""
  end.

Fixpoint quote_body (s : string) : string :=
  match s with "" => "" | String c s => quote_char c +:+ quote_body s end.

(** [%q] *)
Definition fmt_q (s : string) : string :=
  let dq := String (ascii_of_nat 34) "" in dq +:+ quote_body s +:+ dq.

(** ** package slices *)

(** [slices.Sort] on strings: bytewise lexicographic order. *)
Definition Sort_strings (l : list string) : list string := merge_sort String.le l.

Lemma Sort_strings_perm l : Sort_strings l ≡ₚ l.
Proof. apply merge_sort_Permutation. Qed.

Lemma Sort_strings_sorted l : Sorted String.le (Sort_strings l).
Proof. apply Sorted_merge_sort, _. Qed.

Lemma Sort_strings_unique l k : l ≡ₚ k → Sort_strings l = Sort_strings k.
Proof. apply merge_sort_unique; apply _. Qed.

#[export] Hint Resolve Sort_strings_perm Sort_strings_sorted : verda.
