(* ===== verification/GoFlag.v ===== *)
(** * Command lines (Go's packages flag and strconv)

    [flag.Parse] over the flags a program registers: the parser of one
    argument, the setters of the flag kinds the programs use, and integer
    literals as [strconv.ParseInt] with base 0 reads them.  A flag set is a
    function from names; it may hold flags that imported packages registered. *)

From S2P Require Import Prelude GoStd.
From stdpp Require Import options.

Local Open Scope go_scope.

(** ** package strconv *)

Definition digit_value (c : ascii) : option Z :=
  let n := nat_of_ascii (lower_char c) in
  if ((48 <=? n) && (n <=? 57))%nat then Some (Z.of_nat (n - 48))
  else if ((97 <=? n) && (n <=? 122))%nat then Some (Z.of_nat (n - 97 + 10))
  else None.

(** [1<<64 - 1] *)
Definition MaxUint64 : Z := 2 ^ 64 - 1.

(** The digit loop of [ParseUint] for 64 bits; underscores are skipped, as for
    base 0. *)
Fixpoint uint_loop (base : Z) (s : string) (n : Z) : option Z :=
  match s with
  | "" => Some n
  | String c s' =>
      if ascii_dec c "_" then uint_loop base s' n
      else match digit_value c with
           | None => None
           | Some d =>
               if (base <=? d)%Z then None
               else let n1 := (n * base + d)%Z in
                    if (MaxUint64 <? n1)%Z then None else uint_loop base s' n1
           end
  end.

(** The base of a literal and its digits. *)
Definition split_base (s : string) : Z * string :=
  match s with
  | String "0" (String c (String d rest)) =>
      let l := lower_char c in
      if ascii_dec l "b" then (2%Z, String d rest)
      else if ascii_dec l "o" then (8%Z, String d rest)
      else if ascii_dec l "x" then (16%Z, String d rest)
      else (8%Z, String c (String d rest))
  | String "0" rest => (8%Z, rest)
  | _ => (10%Z, s)
  end.

(** What [underscoreOK] saw last. *)
Inductive seen := SawStart | SawDigit | SawUnderscore | SawOther.

Fixpoint underscore_loop (hex : bool) (i : seen) (s : string) : bool :=
  match s with
  | "" => match i with SawUnderscore => false | _ => true end
  | String c s' =>
      if match digit_value c with Some d => (d <? 10)%Z || hex && (d <? 16)%Z | None => false end
      then underscore_loop hex SawDigit s'
      else if ascii_dec c "_" then
        match i with SawDigit => underscore_loop hex SawUnderscore s' | _ => false end
      else match i with SawUnderscore => false | _ => underscore_loop hex SawOther s' end
  end.

Definition underscoreOK (s : string) : bool :=
  match s with
  | String "0" (String c rest) =>
      let l := lower_char c in
      if ascii_dec l "x" then underscore_loop true SawDigit rest
      else if ascii_dec l "b" then underscore_loop false SawDigit rest
      else if ascii_dec l "o" then underscore_loop false SawDigit rest
      else underscore_loop false SawStart s
  | _ => underscore_loop false SawStart s
  end.

Definition ParseUint0 (s : string) : option Z :=
  match s with
  | "" => None
  | _ =>
      let '(base, digits) := split_base s in
      match uint_loop base digits 0 with
      | None => None
      | Some n => if bool_decide ("_"%char ∈ chars digits) && negb (underscoreOK s) then None else Some n
      end
  end.

(** [strconv.ParseInt(s, 0, 64)]; [None] is an error. *)
Definition ParseInt0 (s : string) : option Z :=
  let '(neg, digits) :=
    match s with
    | String "+" r => (false, r)
    | String "-" r => (true, r)
    | _ => (false, s)
    end in
  match ParseUint0 digits with
  | None => None
  | Some un =>
      if negb neg && (2 ^ 63 <=? un)%Z then None
      else if neg && (2 ^ 63 <? un)%Z then None
      else Some (if neg then - un else un)%Z
  end.

Definition ParseBool (s : string) : option bool :=
  if bool_decide (s ∈ ["1"; "t"; "T"; "TRUE"; "true"; "True"]) then Some true
  else if bool_decide (s ∈ ["0"; "f"; "F"; "FALSE"; "false"; "False"]) then Some false
  else None.

(** [strconv.FormatBool] *)
Definition FormatBool (b : bool) : string := if b then "true" else "false".

(** ** package flag *)

(** A registered flag, as [Value]: its [Set] on the variables [V]. *)
Record Flag (V : Type) := mkFlag {
  IsBoolFlag : bool;
  Flag_Set : string → V → option V
}.
Arguments mkFlag {V}.
Arguments IsBoolFlag {V}.
Arguments Flag_Set {V}.

Definition StringVar {V} (upd : string → V → V) : Flag V := mkFlag false (λ s v, Some (upd s v)).
Definition IntVar {V} (upd : Z → V → V) : Flag V :=
  mkFlag false (λ s v, (λ z, upd z v) <$> ParseInt0 s).
Definition BoolVar {V} (upd : bool → V → V) : Flag V :=
  mkFlag true (λ s v, (λ b, upd b v) <$> ParseBool s).

(** [FlagSet.formal] *)
Definition FlagSet (V : Type) : Type := string → option (Flag V).

Inductive parsed (V : Type) : Type :=
| Parsed (v : V) (rest : list string)
| ErrHelp
| ParseFailed (msg : string).
Arguments Parsed {V}.
Arguments ErrHelp {V}.
Arguments ParseFailed {V}.

(** One argument: not a flag, the end of the flags, bad syntax, or a name with
    the value after an equals sign. *)
Inductive arg := NotFlag | Terminator | BadSyntax | FlagArg (name : string) (value : option string).

(** An equals sign cannot be the first character of the name. *)
Definition split_name (name : string) : arg :=
  match name with
  | "" => BadSyntax
  | String c rest =>
      if ascii_dec c "-" then BadSyntax
      else if ascii_dec c "=" then BadSyntax
      else match Cut rest "=" with
           | Some (before, value) => FlagArg (String c before) (Some value)
           | None => FlagArg name None
           end
  end.

Definition classify_arg (s : string) : arg :=
  match s with
  | String "-" "" => NotFlag
  | String "-" (String "-" "") => Terminator
  | String "-" (String "-" name) => split_name name
  | String "-" name => split_name name
  | _ => NotFlag
  end.

Definition bad_value (name value : string) : string :=
  "invalid value " +:+ fmt_q value +:+ " for flag -" +:+ name.

(** [FlagSet.Parse]: [parseOne] until it reports the end or an error. *)
Fixpoint flag_Parse {V} (formal : FlagSet V) (args : list string) (v : V) : parsed V :=
  match args with
  | [] => Parsed v []
  | s :: args' =>
      match classify_arg s with
      | NotFlag => Parsed v args
      | Terminator => Parsed v args'
      | BadSyntax => ParseFailed ("bad flag syntax: " +:+ s)
      | FlagArg name value =>
          match formal name with
          | None =>
              if bool_decide (name = "help") || bool_decide (name = "h") then ErrHelp
              else ParseFailed ("flag provided but not defined: -" +:+ name)
          | Some flag =>
              if IsBoolFlag flag then
                let value := default "true" value in
                match Flag_Set flag value v with
                | Some v' => flag_Parse formal args' v'
                | None => ParseFailed (bad_value name value)
                end
              else match value, args' with
                   | Some value, _ =>
                       match Flag_Set flag value v with
                       | Some v' => flag_Parse formal args' v'
                       | None => ParseFailed (bad_value name value)
                       end
                   | None, value :: args'' =>
                       match Flag_Set flag value v with
                       | Some v' => flag_Parse formal args'' v'
                       | None => ParseFailed (bad_value name value)
                       end
                   | None, [] => ParseFailed ("flag needs an argument: -" +:+ name)
                   end
          end
      end
  end.

(** ** Literals that are printed are read back *)

Lemma digit_value_char x : (x < 10)%N → digit_value (pretty_N_char x) = Some (Z.of_N x).
Proof.
  intros Hx. assert (x = 0 ∨ x = 1 ∨ x = 2 ∨ x = 3 ∨ x = 4 ∨ x = 5 ∨ x = 6 ∨ x = 7 ∨ x = 8 ∨ x = 9)%N
    as Hin by lia.
  by destruct_or! Hin; subst x.
Qed.

Lemma pretty_N_char_not_underscore x : pretty_N_char x ≠ "_"%char.
Proof. unfold pretty_N_char. by repeat case_match. Qed.

Lemma uint_loop_pretty x s :
  (Z.of_N x <= MaxUint64)%Z → uint_loop 10 (pretty_N_go x s) 0 = uint_loop 10 s (Z.of_N x).
Proof.
  revert s. induction (N.lt_wf_0 x) as [x _ IH]; intros s Hx.
  destruct (decide (x = 0)%N) as [->|Hn]; [by rewrite pretty_N_go_0|].
  rewrite pretty_N_go_step by lia.
  pose proof (N.mod_lt x 10 ltac:(done)) as Hm. pose proof (N.div_mod x 10 ltac:(done)) as Hd.
  rewrite IH; [|apply N.div_lt; lia|etrans; [|exact Hx]; apply N2Z.inj_le, N.Div0.div_le_upper_bound; lia]. cbn [uint_loop].
  destruct (ascii_dec _ _) as [?%pretty_N_char_not_underscore|_]; [done|].
  rewrite digit_value_char by lia.
  replace (Z.of_N (x `div` 10) * 10 + Z.of_N (x `mod` 10))%Z with (Z.of_N x) by lia.
  destruct (_ <=? _)%Z eqn:?; bool_to_prop; [lia|]. destruct (_ <? _)%Z eqn:?; bool_to_prop; [lia|done].
Qed.

(** The first digit of a number that is not zero. *)
Lemma pretty_N_go_head x s :
  (0 < x)%N → ∃ d r, (0 < d < 10)%N ∧ pretty_N_go x s = String (pretty_N_char d) r.
Proof.
  revert s. induction (N.lt_wf_0 x) as [x _ IH]; intros s Hx. rewrite pretty_N_go_step by done.
  destruct (decide (x < 10)%N) as [Hs|Hs].
  - rewrite N.div_small, pretty_N_go_0 by done. exists x, s. by rewrite N.mod_small by done.
  - apply IH; [apply N.div_lt; lia|]. apply N.div_str_pos. lia.
Qed.

Lemma split_base_decimal d r :
  (0 < d < 10)%N → split_base (String (pretty_N_char d) r) = (10%Z, String (pretty_N_char d) r).
Proof.
  intros Hd. assert (d = 1 ∨ d = 2 ∨ d = 3 ∨ d = 4 ∨ d = 5 ∨ d = 6 ∨ d = 7 ∨ d = 8 ∨ d = 9)%N
    as Hin by lia.
  by destruct_or! Hin; subst d.
Qed.

Lemma pretty_N_go_no_underscore x s :
  "_"%char ∉ chars s → "_"%char ∉ chars (pretty_N_go x s).
Proof.
  revert s. induction (N.lt_wf_0 x) as [x _ IH]; intros s Hs.
  destruct (decide (x = 0)%N) as [->|Hn]; [by rewrite pretty_N_go_0|].
  rewrite pretty_N_go_step by lia. apply IH; [apply N.div_lt; lia|]. cbn.
  apply not_elem_of_cons. split; [|done]. intros Heq. by eapply pretty_N_char_not_underscore.
Qed.

Lemma ParseUint0_pretty (p : positive) :
  (Z.pos p <= MaxUint64)%Z → ParseUint0 (pretty p) = Some (Z.pos p).
Proof.
  intros Hp. change (pretty p) with (pretty_N_go (Npos p) "").
  destruct (pretty_N_go_head (Npos p) "") as (d & r & Hd & Heq); [done|].
  unfold ParseUint0. rewrite Heq at 1. rewrite Heq at 1. rewrite split_base_decimal by done.
  rewrite <-Heq, uint_loop_pretty by done. cbn [uint_loop].
  rewrite bool_decide_eq_false_2; [done|]. apply pretty_N_go_no_underscore. set_solver.
Qed.

Lemma pretty_N_go_sign x c r :
  c = "-"%char ∨ c = "+"%char → (0 < x)%N → pretty_N_go x "" ≠ String c r.
Proof.
  intros Hc Hx. destruct (pretty_N_go_head x "" Hx) as (d & r' & _ & ->). intros [= Heq _].
  revert Heq. destruct Hc as [-> | ->]; unfold pretty_N_char; by repeat case_match.
Qed.

(** The sign of a literal. *)
Lemma ParseInt0_digits s :
  (∀ r, s ≠ String "+" r) → (∀ r, s ≠ String "-" r) →
  ParseInt0 s = match ParseUint0 s with
                | None => None
                | Some un => if (2 ^ 63 <=? un)%Z then None else Some un
                end.
Proof.
  intros Hp Hm. unfold ParseInt0. destruct s as [|c s]; [done|].
  destruct (decide (c = "+"%char)) as [->|?]; [by destruct (Hp s)|].
  destruct (decide (c = "-"%char)) as [->|?]; [by destruct (Hm s)|].
  destruct c as [[] [] [] [] [] [] [] []]; done.
Qed.

(** Every 64-bit integer is read back from its decimal form. *)
Lemma ParseInt0_fmt_d z : (- 2 ^ 63 <= z < 2 ^ 63)%Z → ParseInt0 (fmt_d z) = Some z.
Proof.
  intros Hz. unfold fmt_d. destruct z as [|p|p]; [done|..].
  - change (pretty (Z.pos p)) with (pretty p). rewrite ParseInt0_digits.
    + rewrite ParseUint0_pretty by (unfold MaxUint64; lia). cbn -[Z.pow].
      destruct (_ <=? _)%Z eqn:?; bool_to_prop; [lia|done].
    + intros r. apply (pretty_N_go_sign (Npos p) "+"); [by right|done].
    + intros r. apply (pretty_N_go_sign (Npos p) "-"); [by left|done].
  - change (pretty (Z.neg p)) with ("-" +:+ pretty p). unfold ParseInt0.
    change ("-" +:+ pretty p) with (String "-" (pretty p)). cbn beta iota.
    rewrite ParseUint0_pretty by (unfold MaxUint64; lia). cbn -[Z.pow].
    destruct (_ <? _)%Z eqn:?; bool_to_prop; [lia|done].
Qed.

Lemma ParseBool_FormatBool b : ParseBool (FormatBool b) = Some b.
Proof. by destruct b. Qed.

(** ** Arguments of the form [--name=value] *)

Definition flag_arg (nv : string * string) : string := "--" +:+ nv.1 +:+ "=" +:+ nv.2.

(** A name as programs register them. *)
Definition plain_name (name : string) : Prop :=
  ∃ c rest, name = String c rest ∧ c ≠ "-"%char ∧ c ≠ "="%char ∧ "="%char ∉ chars rest.

Lemma Cut_first a b : "="%char ∉ chars a → Cut (a +:+ "=" +:+ b) "=" = Some (a, b).
Proof.
  induction a as [|c a IH]; intros Ha.
  - by destruct b.
  - rewrite string_app_cons. cbn [chars] in Ha. apply not_elem_of_cons in Ha as [Hc Ha].
    cbn [Cut String.prefix]. destruct (ascii_dec "=" c) as [?|_]; [done|]. by rewrite IH.
Qed.

Lemma classify_flag_arg nv : plain_name nv.1 → classify_arg (flag_arg nv) = FlagArg nv.1 (Some nv.2).
Proof.
  destruct nv as [n v]. cbn [fst snd]. intros (c & rest & -> & Hm & He & Hr). unfold flag_arg. cbn [fst snd].
  rewrite !(string_app_cons "-"), string_app_nil_l, (string_app_cons c rest).
  cbn -[Cut]. destruct (ascii_dec c "-") as [?|_]; [done|].
  destruct (ascii_dec c "=") as [?|_]; [done|]. by rewrite (Cut_first rest v).
Qed.

(** The flags are set in the order of the arguments. *)
Fixpoint set_all {V} (formal : FlagSet V) (nvs : list (string * string)) (v : V) : option V :=
  match nvs with
  | [] => Some v
  | (n, x) :: nvs => f ← formal n; v' ← Flag_Set f x v; set_all formal nvs v'
  end.

Lemma set_all_cons {V} (formal : FlagSet V) n f x nvs v v' w :
  formal n = Some f → Flag_Set f x v = Some v' → set_all formal nvs v' = Some w →
  set_all formal ((n, x) :: nvs) v = Some w.
Proof. intros Hf Hs Hw. cbn. rewrite Hf. cbn. by rewrite Hs. Qed.

Lemma IntVar_Set {V} (upd : Z → V → V) z v :
  (- 2 ^ 63 <= z < 2 ^ 63)%Z → Flag_Set (IntVar upd) (fmt_d z) v = Some (upd z v).
Proof. intros Hz. cbn -[ParseInt0 fmt_d]. by rewrite ParseInt0_fmt_d. Qed.

Lemma BoolVar_Set {V} (upd : bool → V → V) b v :
  Flag_Set (BoolVar upd) (FormatBool b) v = Some (upd b v).
Proof. by destruct b. Qed.

Lemma flag_Parse_args {V} (formal : FlagSet V) nvs v v' :
  Forall (λ nv, plain_name nv.1) nvs → set_all formal nvs v = Some v' →
  flag_Parse formal (flag_arg <$> nvs) v = Parsed v' [].
Proof.
  intros Hn. revert v. induction Hn as [|[n x] nvs Hnv _ IH]; intros v; cbn; [by intros [= ->]|].
  intros Hset. rewrite (classify_flag_arg (n, x)) by done. cbn [fst snd].
  destruct (formal n) as [f|]; [|done]. cbn in Hset.
  change (default "true" (Some x)) with x.
  destruct (Flag_Set f x v) as [w|]; [|done]. cbn in Hset.
  specialize (IH w Hset). by destruct (IsBoolFlag f).
Qed.
