(* ===== verification/GoTime.v ===== *)
(** * Go's package time, as far as the program uses it

    Instants and durations are nanoseconds.  [FormatRFC3339] is
    [t.UTC().Format(time.RFC3339)] for the years 1970 to 9599 and
    [ParseRFC3339] is [time.Parse(time.RFC3339, s)] on the strings of the
    RFC 3339 grammar (fractional seconds and numeric offsets included; the
    one-digit hours Go's parser also lets through are refused). *)

From S2P Require Import Prelude GoStd.
From stdpp Require Import options.

Local Open Scope Z_scope.

Definition Second : Z := 1000000000.
Definition Minute : Z := 60 * Second.

(** ** The calendar *)

(** Year, month and day of a day counted from 1970-01-01. *)
Definition civil_of_doe (doe : Z) : Z * Z * Z :=
  let yoe := (doe - doe / 1460 + doe / 36524 - doe / 146096) / 365 in
  let doy := doe - (365 * yoe + yoe / 4 - yoe / 100) in
  let mp := (5 * doy + 2) / 153 in
  let d := doy - (153 * mp + 2) / 5 + 1 in
  let m := if mp <? 10 then mp + 3 else mp - 9 in
  (if m <=? 2 then yoe + 1 else yoe, m, d).

Definition civil_of_days (days : Z) : Z * Z * Z :=
  let z := days + 719468 in
  let '(y, m, d) := civil_of_doe (z mod 146097) in
  (y + 400 * (z / 146097), m, d).

Definition days_of_civil (y m d : Z) : Z :=
  let y := if m <=? 2 then y - 1 else y in
  let yoe := y mod 400 in
  let doy := (153 * (if 2 <? m then m - 3 else m + 9) + 2) / 5 + d - 1 in
  (y / 400) * 146097 + (yoe * 365 + yoe / 4 - yoe / 100 + doy) - 719468.

Definition leap (y : Z) : bool := (y mod 4 =? 0) && (negb (y mod 100 =? 0) || (y mod 400 =? 0)).

Definition days_in (y m : Z) : Z :=
  if m =? 2 then (if leap y then 29 else 28)
  else if (m =? 4) || (m =? 6) || (m =? 9) || (m =? 11) then 30 else 31.

(** ** Digits *)

Definition digit (n : Z) : ascii := ascii_of_nat (48 + Z.to_nat n).

Definition pad2 (n : Z) : string := String (digit (n / 10)) (String (digit (n mod 10)) "").
Definition pad4 (n : Z) : string := pad2 (n / 100) +:+ pad2 (n mod 100).

Definition digit_value (c : ascii) : option Z :=
  let n := Z.of_nat (nat_of_ascii c) in
  if (48 <=? n) && (n <=? 57) then Some (n - 48) else None.

Definition parse2 (a b : ascii) : option Z :=
  match digit_value a, digit_value b with
  | Some x, Some y => Some (10 * x + y)
  | _, _ => None
  end.

(** ** RFC 3339 *)

Definition FormatRFC3339 (t : Z) : string :=
  let secs := t / Second in
  let '(y, m, d) := civil_of_days (secs / 86400) in
  let s := secs mod 86400 in
  pad4 y +:+ "-" +:+ pad2 m +:+ "-" +:+ pad2 d +:+ "T" +:+
  pad2 (s / 3600) +:+ ":" +:+ pad2 (s / 60 mod 60) +:+ ":" +:+ pad2 (s mod 60) +:+ "Z".

(** Nanoseconds of the digits after the point, and the rest; digits after the
    ninth are dropped. *)
Fixpoint parse_fraction (s : string) (scale acc : Z) : Z * string :=
  match s with
  | String c s' => match digit_value c with
                   | Some v => parse_fraction s' (scale / 10) (acc + v * scale)
                   | None => (acc, s)
                   end
  | "" => (acc, s)
  end.

Definition parse_zone (s : string) : option Z :=
  match s with
  | "Z" => Some 0
  | String sgn (String a (String b (String ":" (String c (String d ""))))) =>
      match parse2 a b, parse2 c d with
      | Some h, Some m =>
          if (h <=? 24) && (m <? 60) then
            match sgn with
            | "+"%char => Some ((h * 60 + m) * Minute)
            | "-"%char => Some (- ((h * 60 + m) * Minute))
            | _ => None
            end
          else None
      | _, _ => None
      end
  | _ => None
  end.

Definition instant (y m d h mi s : Z) : option Z :=
  if (1 <=? m) && (m <=? 12) && (1 <=? d) && (d <=? days_in y m)
     && (h <? 24) && (mi <? 60) && (s <? 60)
  then Some ((days_of_civil y m d * 86400 + h * 3600 + mi * 60 + s) * Second)
  else None.

Definition ParseRFC3339 (str : string) : option Z :=
  match str with
  | String y1 (String y2 (String y3 (String y4 (String "-" (String m1 (String m2
      (String "-" (String d1 (String d2 (String "T" (String h1 (String h2 (String ":"
      (String i1 (String i2 (String ":" (String s1 (String s2 rest)))))))))))))))))) =>
      match parse2 y1 y2, parse2 y3 y4, parse2 m1 m2, parse2 d1 d2, parse2 h1 h2,
            parse2 i1 i2, parse2 s1 s2 with
      | Some ya, Some yb, Some m, Some d, Some h, Some mi, Some s =>
          let '(frac, zone) :=
            match rest with
            | String "." (String c _ as digits) =>
                match digit_value c with
                | Some _ => parse_fraction (match digits with String _ _ => digits | "" => "" end)
                              (Second / 10) 0
                | None => (0, rest)
                end
            | _ => (0, rest)
            end in
          match instant (100 * ya + yb) m d h mi s, parse_zone zone with
          | Some t, Some off => Some (t + frac - off)
          | _, _ => None
          end
      | _, _, _, _, _, _, _ => None
      end
  | _ => None
  end.

(** The years 1970 to 9599. *)
Definition time_in_range (t : Z) : Prop := 0 ≤ t < 2786860 * 86400 * Second.

(** ** Round trip *)

(** The first day of a year of the cycle, counted from March. *)
Definition year_start (yoe : Z) : Z := 365 * yoe + yoe / 4 - yoe / 100.
Definition year_of_doe (doe : Z) : Z := (doe - doe / 1460 + doe / 36524 - doe / 146096) / 365.

Fixpoint all_below (P : Z → bool) (n : nat) : bool :=
  match n with
  | O => true
  | S n => P (Z.of_nat n) && all_below P n
  end.

Lemma all_below_spec P n k : all_below P n = true → 0 ≤ k < Z.of_nat n → P k = true.
Proof.
  induction n as [|n IH]; intros Hall Hk; [lia|]. cbn in Hall.
  apply andb_true_iff in Hall as [H1 H2].
  destruct (decide (k = Z.of_nat n)) as [->|Hne]; [done|]. apply IH; [done|lia].
Qed.

(** The 400 years of a Gregorian cycle: first and last day are in the year,
    and it has 366 days only when its February is in a leap year. *)
Lemma year_bounds yoe : 0 ≤ yoe < 400 →
  year_of_doe (year_start yoe) = yoe ∧
  let last := if yoe =? 399 then 146096 else year_start (yoe + 1) - 1 in
  year_of_doe last = yoe ∧ last - year_start yoe ≤ 365 ∧
  (last - year_start yoe = 365 → leap (yoe + 1) = true).
Proof.
  intros Hy.
  assert (((year_of_doe (year_start yoe) =? yoe) &&
    let last := if yoe =? 399 then 146096 else year_start (yoe + 1) - 1 in
    (year_of_doe last =? yoe) && (last - year_start yoe <=? 365) &&
    (negb (last - year_start yoe =? 365) || leap (yoe + 1))) = true) as Hb.
  { revert yoe Hy. refine (λ yoe, all_below_spec (λ yoe, _) 400 yoe _). vm_compute. reflexivity. }
  cbn zeta in *. apply andb_true_iff in Hb as [H1 H2]. apply andb_true_iff in H2 as [H2 H4].
  bool_to_prop. split_and!; try done. intros He. by rewrite (proj2 (Z.eqb_eq _ _) He) in H4.
Qed.

(** The 366 days of a year that starts in March. *)
Definition month_day (doy : Z) : Z * Z :=
  let mp := (5 * doy + 2) / 153 in
  (if mp <? 10 then mp + 3 else mp - 9, doy - (153 * mp + 2) / 5 + 1).

Lemma month_day_ok doy m d : 0 ≤ doy < 366 → month_day doy = (m, d) →
  1 ≤ m ≤ 12 ∧ 1 ≤ d ∧ (153 * (if 2 <? m then m - 3 else m + 9) + 2) / 5 + d - 1 = doy ∧
  (doy < 365 → d ≤ days_in 1 m) ∧ (doy = 365 → m = 2 ∧ d = 29).
Proof.
  intros Hd Hmd.
  assert ((let '(m, d) := month_day doy in
    (1 <=? m) && (m <=? 12) && (1 <=? d) &&
    ((153 * (if 2 <? m then m - 3 else m + 9) + 2) / 5 + d - 1 =? doy) &&
    (negb (doy <? 365) || (d <=? days_in 1 m)) &&
    (negb (doy =? 365) || ((m =? 2) && (d =? 29)))) = true) as Hb.
  { clear Hmd. revert doy Hd. refine (λ doy, all_below_spec (λ doy, _) 366 doy _).
    vm_compute. reflexivity. }
  rewrite Hmd in Hb. bool_to_prop. split_and!; try lia.
Qed.

Lemma year_of_doe_step c : 0 ≤ c →
  c - c / 1460 + c / 36524 - c / 146096 ≤
  (c + 1) - (c + 1) / 1460 + (c + 1) / 36524 - (c + 1) / 146096.
Proof.
  intros Hc. change 146096 with (36524 * 4). rewrite <-!Z.div_div by lia.
  set (q := c / 36524). assert ((c + 1) / 36524 = q ∨ (c + 1) / 36524 = q + 1) as [-> | ->]
    by (subst q; Z.div_mod_to_equations; lia).
  - assert ((c + 1) / 1460 ≤ c / 1460 + 1) by (Z.div_mod_to_equations; lia). lia.
  - assert ((c + 1) / 1460 ≤ c / 1460 + 1) by (Z.div_mod_to_equations; lia).
    assert ((q + 1) / 4 ≤ q / 4 + 1) by (Z.div_mod_to_equations; lia). lia.
Qed.

Lemma year_of_doe_mono a b : 0 ≤ a ≤ b → year_of_doe a ≤ year_of_doe b.
Proof.
  intros [Ha Hab]. unfold year_of_doe. apply Z.div_le_mono; [lia|].
  revert b Hab. apply Zlt_lower_bound_ind. intros b IH Hab.
  destruct (decide (a = b)) as [->|Hne]; [lia|].
  pose proof (IH (b - 1) ltac:(lia)). pose proof (year_of_doe_step (b - 1) ltac:(lia)).
  replace (b - 1 + 1) with b in * by lia. lia.
Qed.

(** Every day of the cycle lies in the year [year_of_doe] computes. *)
Lemma doe_year doe : 0 ≤ doe < 146097 →
  let yoe := year_of_doe doe in
  0 ≤ yoe < 400 ∧
  year_start yoe ≤ doe ≤ (if yoe =? 399 then 146096 else year_start (yoe + 1) - 1).
Proof.
  intros Hd yoe.
  assert (0 ≤ yoe < 400) as Hy.
  { pose proof (year_of_doe_mono 0 doe ltac:(lia)) as H0.
    pose proof (year_of_doe_mono doe 146096 ltac:(lia)) as H1.
    change (year_of_doe 0) with 0 in H0. change (year_of_doe 146096) with 399 in H1.
    subst yoe. lia. }
  assert (∀ y, 0 ≤ y < 400 → 0 ≤ year_start y) as Hpos.
  { intros y ?. unfold year_start. Z.div_mod_to_equations; lia. }
  split; [done|]. split.
  - apply Z.nlt_ge. intros Hlt. destruct (decide (yoe = 0)) as [H0|H0].
    + rewrite H0 in Hlt. change (year_start 0) with 0 in Hlt. lia.
    + destruct (year_bounds (yoe - 1) ltac:(lia)) as [_ (Hl & _)].
      rewrite (proj2 (Z.eqb_neq (yoe - 1) 399)) in Hl by lia.
      replace (yoe - 1 + 1) with yoe in Hl by lia.
      pose proof (year_of_doe_mono doe (year_start yoe - 1) ltac:(lia)). subst yoe. lia.
  - destruct (Z.eqb_spec yoe 399); [lia|]. apply Z.nlt_ge. intros Hlt.
    destruct (year_bounds (yoe + 1) ltac:(lia)) as [Hs _].
    pose proof (Hpos (yoe + 1) ltac:(lia)).
    pose proof (year_of_doe_mono (year_start (yoe + 1)) doe ltac:(lia)). subst yoe. lia.
Qed.

Lemma days_in_400 y m k : days_in (y + 400 * k) m = days_in y m.
Proof.
  unfold days_in, leap.
  assert ((y + 400 * k) mod 4 = y mod 4) as ->
    by (rewrite <-(Z.mod_add y (100 * k) 4) by lia; f_equal; lia).
  assert ((y + 400 * k) mod 100 = y mod 100) as ->
    by (rewrite <-(Z.mod_add y (4 * k) 100) by lia; f_equal; lia).
  assert ((y + 400 * k) mod 400 = y mod 400) as ->
    by (rewrite <-(Z.mod_add y k 400) by lia; f_equal; lia).
  done.
Qed.

Lemma days_of_civil_400 y m d k :
  days_of_civil (y + 400 * k) m d = days_of_civil y m d + 146097 * k.
Proof.
  unfold days_of_civil.
  set (y' := if m <=? 2 then y - 1 else y).
  assert ((if m <=? 2 then y + 400 * k - 1 else y + 400 * k) = y' + k * 400) as ->
    by (subst y'; case_match; lia).
  rewrite Z.div_add, Z.mod_add by lia. lia.
Qed.

Lemma days_in_common y m : days_in 1 m ≤ days_in y m.
Proof. unfold days_in. change (leap 1) with false. repeat case_match; lia. Qed.

Lemma civil_of_doe_eq doe :
  civil_of_doe doe =
  let yoe := year_of_doe doe in
  let '(m, d) := month_day (doe - year_start yoe) in
  (if m <=? 2 then yoe + 1 else yoe, m, d).
Proof. done. Qed.

Lemma civil_of_doe_ok doe y m d :
  0 ≤ doe < 146097 → civil_of_doe doe = (y, m, d) →
  days_of_civil y m d = doe - 719468 ∧ 1 ≤ m ≤ 12 ∧ 1 ≤ d ≤ days_in y m ∧ 0 ≤ y ≤ 400.
Proof.
  intros Hd. rewrite civil_of_doe_eq.
  destruct (doe_year doe Hd) as [Hy Hs]. set (yoe := year_of_doe doe) in *. cbn zeta.
  destruct (year_bounds yoe Hy) as [_ (_ & Hlen & Hleap)].
  destruct (month_day (doe - year_start yoe)) as [m' d'] eqn:Hmd. intros [= <- <- <-].
  destruct (month_day_ok (doe - year_start yoe) m' d' ltac:(lia) Hmd)
    as (Hm & Hd1 & Hdoy & Hcommon & Hlast).
  unfold days_of_civil.
  assert ((if m' <=? 2 then (if m' <=? 2 then yoe + 1 else yoe) - 1
           else (if m' <=? 2 then yoe + 1 else yoe)) = yoe) as -> by (destruct (m' <=? 2); lia).
  rewrite Z.mod_small, Z.div_small by lia.
  split_and!; try lia.
  - unfold year_start in *. lia.
  - destruct (decide (doe - year_start yoe = 365)) as [H365|H365].
    + destruct (Hlast H365) as [-> ->]. cbn. unfold days_in. cbn.
      rewrite Hleap; lia.
    + etransitivity; [apply Hcommon; lia|apply days_in_common].
  - destruct (m' <=? 2); lia.
  - destruct (m' <=? 2); lia.
Qed.

Lemma civil_round_trip days y m d :
  civil_of_days days = (y, m, d) →
  days_of_civil y m d = days ∧ 1 ≤ m ≤ 12 ∧ 1 ≤ d ≤ days_in y m ∧
  400 * ((days + 719468) / 146097) ≤ y ≤ 400 + 400 * ((days + 719468) / 146097).
Proof.
  unfold civil_of_days. set (z := days + 719468).
  pose proof (Z.mod_pos_bound z 146097 ltac:(lia)) as Hb.
  destruct (civil_of_doe (z mod 146097)) as [[y0 m0] d0] eqn:Hc. intros [= <- <- <-].
  apply civil_of_doe_ok in Hc as (Hc & ? & ? & ?); [|done].
  rewrite days_of_civil_400, days_in_400.
  pose proof (Z.div_mod z 146097 ltac:(lia)). subst z. lia.
Qed.

(** ** Digits, again *)

Lemma digit_value_digit n : 0 ≤ n < 10 → digit_value (digit n) = Some n.
Proof.
  intros Hn. unfold digit_value, digit. rewrite nat_ascii_embedding by lia.
  replace (Z.of_nat (48 + Z.to_nat n)) with (48 + n) by lia.
  rewrite (proj2 (Z.leb_le 48 _)), (proj2 (Z.leb_le _ 57)) by lia. cbn. f_equal. lia.
Qed.

Lemma parse2_digits n : 0 ≤ n < 100 → parse2 (digit (n / 10)) (digit (n mod 10)) = Some n.
Proof.
  intros Hn. unfold parse2.
  rewrite !digit_value_digit by (Z.div_mod_to_equations; lia).
  f_equal. Z.div_mod_to_equations; lia.
Qed.

(** What [time.Parse] returns on the parts of a formatted instant. *)
Lemma ParseRFC3339_parts y m d h mi s :
  0 ≤ y < 10000 → 0 ≤ m < 100 → 0 ≤ d < 100 → 0 ≤ h < 100 → 0 ≤ mi < 100 → 0 ≤ s < 100 →
  ParseRFC3339 (pad4 y +:+ "-" +:+ pad2 m +:+ "-" +:+ pad2 d +:+ "T" +:+
    pad2 h +:+ ":" +:+ pad2 mi +:+ ":" +:+ pad2 s +:+ "Z") = instant y m d h mi s.
Proof.
  intros Hy Hm Hd Hh Hmi Hs. unfold pad4, pad2.
  repeat progress (rewrite ?string_app_assoc, ?string_app_cons, ?string_app_nil_l).
  cbn -[digit parse2 instant Z.div Z.modulo Z.mul Z.add].
  rewrite !parse2_digits by (Z.div_mod_to_equations; lia).
  rewrite <-Z.div_mod by lia. destruct (instant _ _ _ _ _ _); [|done]. f_equal. lia.
Qed.

(** [time.Parse] undoes [Format] up to the fraction of a second the layout
    drops. *)
Lemma Parse_Format t :
  time_in_range t → ParseRFC3339 (FormatRFC3339 t) = Some (t / Second * Second).
Proof.
  unfold time_in_range, FormatRFC3339, Second. intros Ht.
  set (secs := t / 1000000000).
  assert (0 ≤ secs < 2786860 * 86400) as Hs.
  { subst secs. split; [apply Z.div_pos; lia|]. apply Z.div_lt_upper_bound; lia. }
  clearbody secs. assert (0 ≤ secs / 86400 < 2786860) as Hdays.
  { split; [apply Z.div_pos; lia|]. apply Z.div_lt_upper_bound; lia. }
  pose proof (Z.mod_pos_bound secs 86400 ltac:(lia)) as Hmod.
  pose proof (Z.div_mod secs 86400 ltac:(lia)) as Hdm.
  destruct (civil_of_days (secs / 86400)) as [[y m] d] eqn:Hc.
  apply civil_round_trip in Hc as (Hback & Hm & Hd & Hy).
  assert (0 ≤ (secs / 86400 + 719468) / 146097 < 24) as Hcyc.
  { split; [apply Z.div_pos; lia|]. apply Z.div_lt_upper_bound; lia. }
  set (r := secs mod 86400) in *. clearbody r.
  assert (days_in y m ≤ 31) by (unfold days_in; repeat case_match; lia).
  rewrite ParseRFC3339_parts by (Z.div_mod_to_equations; lia).
  unfold instant.
  assert ((1 <=? m) && (m <=? 12) && (1 <=? d) && (d <=? days_in y m)
     && (r / 3600 <? 24) && (r / 60 mod 60 <? 60) && (r mod 60 <? 60) = true) as ->.
  { repeat (apply andb_true_iff; split); rewrite ?Z.leb_le, ?Z.ltb_lt;
      try lia; Z.div_mod_to_equations; lia. }
  rewrite Hback. unfold Second. do 2 f_equal.
  assert (r / 3600 * 3600 + r / 60 mod 60 * 60 + r mod 60 = r)
    by (Z.div_mod_to_equations; lia). lia.
Qed.

#[global] Arguments ParseRFC3339 : simpl never.
#[global] Arguments FormatRFC3339 : simpl never.
