(* ===== verification/Base64.v ===== *)
(** * encoding/base64, [StdEncoding]

    [EncodeToString] and [DecodeString] of Go's standard library: the decoder
    skips carriage returns and newlines, demands padding, and does not look at
    the trailing bits of the last digit. *)

From S2P Require Import Prelude GoStd GoTime.
From stdpp Require Import options.

Local Open Scope Z_scope.

Definition byte (c : ascii) : Z := Z.of_nat (nat_of_ascii c).
Definition char (n : Z) : ascii := ascii_of_nat (Z.to_nat n).

(** ** The alphabet *)

Definition enc_digit (d : Z) : ascii :=
  if d <? 26 then char (65 + d)
  else if d <? 52 then char (97 + (d - 26))
  else if d <? 62 then char (48 + (d - 52))
  else if d =? 62 then "+"%char else "/"%char.

Definition dec_digit (c : ascii) : option Z :=
  let n := byte c in
  if (65 <=? n) && (n <=? 90) then Some (n - 65)
  else if (97 <=? n) && (n <=? 122) then Some (n - 97 + 26)
  else if (48 <=? n) && (n <=? 57) then Some (n - 48 + 52)
  else if n =? 43 then Some 62
  else if n =? 47 then Some 63
  else None.

(** ** Encoding *)

Definition enc3 (a b c : Z) : Z := a * 65536 + b * 256 + c.

Fixpoint EncodeToString (s : string) : string :=
  match s with
  | String a (String b (String c rest)) =>
      let n := enc3 (byte a) (byte b) (byte c) in
      String (enc_digit (n / 262144)) (String (enc_digit (n / 4096 mod 64))
        (String (enc_digit (n / 64 mod 64)) (String (enc_digit (n mod 64)) (EncodeToString rest))))
  | String a (String b "") =>
      let n := enc3 (byte a) (byte b) 0 in
      String (enc_digit (n / 262144)) (String (enc_digit (n / 4096 mod 64))
        (String (enc_digit (n / 64 mod 64)) "="))
  | String a "" =>
      let n := enc3 (byte a) 0 0 in
      String (enc_digit (n / 262144)) (String (enc_digit (n / 4096 mod 64)) "==")
  | "" => ""
  end.

(** ** Decoding *)

Definition is_newline (c : ascii) : bool := (byte c =? 10) || (byte c =? 13).

Fixpoint strip_newlines (s : string) : string :=
  match s with
  | "" => ""
  | String c s => if is_newline c then strip_newlines s else String c (strip_newlines s)
  end.

Definition CorruptInput : error := errorString "illegal base64 data".

Fixpoint decode_quanta (s : string) : result string :=
  match s with
  | "" => Ok ""
  | String a (String b (String c (String d rest))) =>
      match dec_digit a, dec_digit b with
      | Some x, Some y =>
          match dec_digit c, dec_digit d with
          | Some z, Some w =>
              let n := x * 262144 + y * 4096 + z * 64 + w in
              match decode_quanta rest with
              | Ok t => Ok (String (char (n / 65536)) (String (char (n / 256 mod 256))
                          (String (char (n mod 256)) t)))
              | Err e => Err e
              end
          | Some z, None =>
              if bool_decide (d = "="%char) && bool_decide (rest = "") then
                let n := x * 262144 + y * 4096 + z * 64 in
                Ok (String (char (n / 65536)) (String (char (n / 256 mod 256)) ""))
              else Err CorruptInput
          | None, _ =>
              if bool_decide (c = "="%char) && bool_decide (d = "="%char) && bool_decide (rest = "") then
                let n := x * 262144 + y * 4096 in Ok (String (char (n / 65536)) "")
              else Err CorruptInput
          end
      | _, _ => Err CorruptInput
      end
  | _ => Err CorruptInput
  end.

Definition DecodeString (s : string) : result string := decode_quanta (strip_newlines s).

(** ** Round trip *)

Lemma byte_bound c : 0 ≤ byte c < 256.
Proof. unfold byte. pose proof (nat_ascii_bounded c). lia. Qed.

Lemma char_byte c : char (byte c) = c.
Proof. unfold char, byte. rewrite Nat2Z.id. apply ascii_nat_embedding. Qed.

Lemma byte_char n : 0 ≤ n < 256 → byte (char n) = n.
Proof. intros Hn. unfold byte, char. rewrite nat_ascii_embedding by lia. lia. Qed.

(** The 64 digits. *)
Lemma dec_enc_digit d : 0 ≤ d < 64 → dec_digit (enc_digit d) = Some d.
Proof.
  intros Hd. cut (bool_decide (dec_digit (enc_digit d) = Some d) = true).
  { apply bool_decide_eq_true. }
  revert d Hd. refine (λ d, all_below_spec (λ d, bool_decide (dec_digit (enc_digit d) = Some d)) 64 d _).
  vm_compute. reflexivity.
Qed.

(** No digit is a newline or belongs to the text around an encoded file. *)
Definition is_b64 (c : ascii) : bool :=
  match dec_digit c with Some _ => true | None => bool_decide (c = "="%char) end.

Lemma enc_digit_b64 d : 0 ≤ d < 64 → is_b64 (enc_digit d) = true.
Proof. intros Hd. unfold is_b64. by rewrite dec_enc_digit. Qed.

Lemma enc3_digits a b c : 0 ≤ a < 256 → 0 ≤ b < 256 → 0 ≤ c < 256 →
  let n := enc3 a b c in
  0 ≤ n / 262144 < 64 ∧ 0 ≤ n / 4096 mod 64 < 64 ∧ 0 ≤ n / 64 mod 64 < 64 ∧ 0 ≤ n mod 64 < 64 ∧
  n / 262144 * 262144 + n / 4096 mod 64 * 4096 + n / 64 mod 64 * 64 + n mod 64 = n.
Proof.
  intros Ha Hb Hc. unfold enc3. cbn zeta. set (n := a * 65536 + b * 256 + c).
  assert (0 ≤ n < 16777216) as Hn by lia. clearbody n.
  split_and!; Z.div_mod_to_equations; lia.
Qed.

Lemma enc3_bytes a b c : 0 ≤ a < 256 → 0 ≤ b < 256 → 0 ≤ c < 256 →
  let n := enc3 a b c in n / 65536 = a ∧ n / 256 mod 256 = b ∧ n mod 256 = c.
Proof. intros Ha Hb Hc. unfold enc3. cbn zeta. split_and!; Z.div_mod_to_equations; lia. Qed.

Lemma string_ind3 (P : string → Prop) :
  P "" → (∀ a, P (String a "")) → (∀ a b, P (String a (String b ""))) →
  (∀ a b c s, P s → P (String a (String b (String c s)))) → ∀ s, P s.
Proof.
  intros H0 H1 H2 H3. cut (∀ n s, (String.length s <= n)%nat → P s).
  { intros H s. by apply (H (String.length s)). }
  induction n as [|n IH]; intros s Hs; destruct s as [|a [|b [|c s]]]; cbn in Hs; try lia; auto.
  apply H3, IH. lia.
Qed.

Lemma decode_quanta_encode s : decode_quanta (EncodeToString s) = Ok s.
Proof.
  induction s as [|a|a b|a b c s IH] using string_ind3.
  - done.
  - destruct (enc3_digits (byte a) 0 0) as (H1 & H2 & H3 & H4 & Hn); [apply byte_bound|lia..|].
    destruct (enc3_bytes (byte a) 0 0) as (Hb1 & Hb2 & Hb3); [apply byte_bound|lia..|].
    cbn -[enc_digit dec_digit Z.div Z.modulo Z.mul Z.add]. rewrite !dec_enc_digit by done.
    cbn -[enc_digit dec_digit Z.div Z.modulo Z.mul Z.add].
    set (n := enc3 (byte a) 0 0) in *.
    assert (n / 64 mod 64 = 0 ∧ n mod 64 = 0) as [Hz1 Hz2].
    { subst n. unfold enc3. pose proof (byte_bound a). split; Z.div_mod_to_equations; lia. }
    replace (n / 262144 * 262144 + n / 4096 mod 64 * 4096) with n by lia.
    by rewrite Hb1, char_byte.
  - destruct (enc3_digits (byte a) (byte b) 0) as (H1 & H2 & H3 & H4 & Hn); [apply byte_bound|apply byte_bound|lia|].
    destruct (enc3_bytes (byte a) (byte b) 0) as (Hb1 & Hb2 & Hb3); [apply byte_bound|apply byte_bound|lia|].
    cbn -[enc_digit dec_digit Z.div Z.modulo Z.mul Z.add]. rewrite !dec_enc_digit by done.
    cbn -[enc_digit dec_digit Z.div Z.modulo Z.mul Z.add].
    set (n := enc3 (byte a) (byte b) 0) in *.
    assert (n mod 64 = 0) as Hz.
    { subst n. unfold enc3. pose proof (byte_bound a). pose proof (byte_bound b). Z.div_mod_to_equations; lia. }
    replace (n / 262144 * 262144 + n / 4096 mod 64 * 4096 + n / 64 mod 64 * 64) with n by lia.
    by rewrite Hb1, Hb2, !char_byte.
  - destruct (enc3_digits (byte a) (byte b) (byte c)) as (H1 & H2 & H3 & H4 & Hn); [apply byte_bound..|].
    destruct (enc3_bytes (byte a) (byte b) (byte c)) as (Hb1 & Hb2 & Hb3); [apply byte_bound..|].
    cbn -[enc_digit dec_digit Z.div Z.modulo Z.mul Z.add]. rewrite !dec_enc_digit by done.
    rewrite IH, Hn, Hb1, Hb2, Hb3. by rewrite !char_byte.
Qed.

(** Every character of an encoding is of the alphabet. *)
Lemma EncodeToString_b64 s : Forall (λ c, is_b64 c = true) (chars (EncodeToString s)).
Proof.
  induction s as [|a|a b|a b c s IH] using string_ind3; cbn -[enc_digit Z.div Z.modulo].
  - constructor.
  - destruct (enc3_digits (byte a) 0 0) as (? & ? & ? & ? & _); [apply byte_bound|lia..|].
    repeat constructor; by apply enc_digit_b64.
  - destruct (enc3_digits (byte a) (byte b) 0) as (? & ? & ? & ? & _); [apply byte_bound|apply byte_bound|lia|].
    repeat constructor; by apply enc_digit_b64.
  - destruct (enc3_digits (byte a) (byte b) (byte c)) as (? & ? & ? & ? & _); [apply byte_bound..|].
    repeat (constructor; [by apply enc_digit_b64|]). done.
Qed.

Lemma b64_not_newline c : is_b64 c = true → is_newline c = false.
Proof.
  unfold is_newline. destruct (byte c =? 10) eqn:H1; [|destruct (byte c =? 13) eqn:H2; [|done]].
  - apply Z.eqb_eq in H1. rewrite <-(char_byte c), H1. by vm_compute.
  - apply Z.eqb_eq in H2. rewrite <-(char_byte c), H2. by vm_compute.
Qed.

Lemma strip_newlines_app a b : strip_newlines (a +:+ b) = strip_newlines a +:+ strip_newlines b.
Proof.
  induction a as [|c a IH]; [done|]. rewrite string_app_cons. cbn. rewrite IH. by destruct (is_newline c).
Qed.

Lemma strip_newlines_b64 s : Forall (λ c, is_b64 c = true) (chars s) → strip_newlines s = s.
Proof.
  induction s as [|c s IH]; [done|]. cbn. intros [Hc Hs]%Forall_cons. by rewrite b64_not_newline, IH.
Qed.

(** Decoding undoes encoding. *)
Lemma DecodeString_EncodeToString s : DecodeString (EncodeToString s) = Ok s.
Proof.
  unfold DecodeString. rewrite strip_newlines_b64 by apply EncodeToString_b64.
  apply decode_quanta_encode.
Qed.
