(* ===== verification/Effects.v ===== *)
(** * Programs with external calls

    The controllers, the Verda client and the cloud controller manager are
    sequences of calls to services (the Verda API, the Kubernetes API, a
    clock, an SSH session) interleaved with updates of an object in memory.
    A [prog E A] is such a program: it returns an [A], or performs a call of
    the signature [E] and continues with whatever the service answers.  No
    behaviour of the services is built in: [exec] ranges over all answers, [run]
    executes a program against a handler, and [wp] is the rule-based way to
    prove a fact about all executions.

    [M O E A] adds what a Go handler has besides calls: an object of type [O]
    that it mutates through a pointer (the changes survive an error return)
    and results of the form [(A, error)]. *)

From S2P Require Import Prelude GoStd.
From stdpp Require Import options.

Inductive prog (E : Type → Type) (A : Type) : Type :=
| Ret (a : A)
| Vis (X : Type) (e : E X) (k : X → prog E A).
Arguments Ret {E A} a.
Arguments Vis {E A X} e k.

Fixpoint bind {E A B} (p : prog E A) (f : A → prog E B) : prog E B :=
  match p with
  | Ret a => f a
  | Vis e k => Vis e (λ x, bind (k x) f)
  end.

Definition trigger {E X} (e : E X) : prog E X := Vis e Ret.

(** Replace each call by a program over another signature. *)
Fixpoint translate {E F A} (h : ∀ X, E X → prog F X) (p : prog E A) : prog F A :=
  match p with
  | Ret a => Ret a
  | Vis e k => bind (h _ e) (λ x, translate h (k x))
  end.

(** Two signatures side by side. *)
Inductive sumE (E F : Type → Type) (X : Type) : Type :=
| inlE (e : E X)
| inrE (f : F X).
Arguments inlE {E F X} e.
Arguments inrE {E F X} f.

(** ** Executions *)

(** A call with its answer. *)
Inductive obs (E : Type → Type) : Type := Obs (X : Type) (e : E X) (r : X).
Arguments Obs {E X} e r.

(** The calls made so far, the last one first. *)
Abbreviation hist E := (list (obs E)).

(** What is required of a call when it is made ([guar]), and what is known of
    its answer ([rely]), both given the calls before it. *)
Record protocol (E : Type → Type) := Protocol {
  guar : hist E → ∀ X, E X → Prop;
  rely : hist E → ∀ X, E X → X → Prop
}.
Arguments Protocol {E} guar rely.
Arguments guar {E} p h X e.
Arguments rely {E} p h X e r.

(** Nothing is known of the answers. *)
Definition any_answer {E} (G : hist E → ∀ X, E X → Prop) : protocol E :=
  Protocol G (λ _ _ _ _, True).

Section semantics.
Context {E : Type → Type}.

(** [exec P p h h' a]: started after the calls [h], [p] can return [a] after
    the calls [h'], with answers allowed by [P]. *)
Fixpoint exec (P : protocol E) {A} (p : prog E A) (h h' : hist E) (a : A) : Prop :=
  match p with
  | Ret b => h' = h ∧ a = b
  | Vis e k => ∃ r, rely P h _ e r ∧ exec P (k r) (Obs e r :: h) h' a
  end.

(** Every call of the history satisfied its guarantee when it was made. *)
Fixpoint respects (P : protocol E) (h : hist E) : Prop :=
  match h with
  | [] => True
  | Obs e r :: h => guar P h _ e ∧ respects P h
  end.

Fixpoint wp (P : protocol E) {A} (p : prog E A) (h : hist E) (Q : hist E → A → Prop) : Prop :=
  match p with
  | Ret a => Q h a
  | Vis e k => guar P h _ e ∧ ∀ r, rely P h _ e r → wp P (k r) (Obs e r :: h) Q
  end.

Context (P : protocol E).

Lemma wp_mono {A} (p : prog E A) h (Q Q' : hist E → A → Prop) :
  (∀ h a, Q h a → Q' h a) → wp P p h Q → wp P p h Q'.
Proof.
  intros HQ. revert h. induction p as [a|X e k IH]; intros h; cbn; [auto|].
  intros [Hg Hk]. split; [done|]. intros r Hr. apply IH, Hk, Hr.
Qed.

Lemma wp_bind {A B} (p : prog E A) (f : A → prog E B) h Q :
  wp P p h (λ h' a, wp P (f a) h' Q) → wp P (bind p f) h Q.
Proof.
  revert h. induction p as [a|X e k IH]; intros h; cbn; [auto|].
  intros [Hg Hk]. split; [done|]. intros r Hr. apply IH, Hk, Hr.
Qed.

Lemma wp_conj {A} (p : prog E A) h (Q Q' : hist E → A → Prop) :
  wp P p h Q → wp P p h Q' → wp P p h (λ h a, Q h a ∧ Q' h a).
Proof.
  revert h. induction p as [a|X e k IH]; intros h; cbn; [auto|].
  intros [Hg Hk] [_ Hk']. split; [done|]. intros r Hr. apply IH; auto.
Qed.

Lemma wp_any {A} (p : prog E A) h (Q : hist E → A → Prop) :
  (∀ h X e, guar P h X e) → (∀ h a, Q h a) → wp P p h Q.
Proof. intros HG HQ. revert h. induction p as [a|X e k IH]; intros h; cbn; auto. Qed.

(** The calls made before are still in the history. *)
Lemma wp_grow {A} (p : prog E A) h (Q : hist E → A → Prop) :
  wp P p h Q → wp P p h (λ h' a, h ⊆ h' ∧ Q h' a).
Proof.
  revert h. induction p as [a|X e k IH]; intros h; cbn; [done|].
  intros [Hg Hk]. split; [done|]. intros r Hr. eapply wp_mono; [|by apply IH, Hk].
  intros h' a [Hsub HQ]. split; [set_solver|done].
Qed.

(** Adequacy: what [wp] shows holds of every execution. *)
Theorem wp_exec {A} (p : prog E A) h h' a Q :
  wp P p h Q → respects P h → exec P p h h' a → Q h' a ∧ respects P h'.
Proof.
  revert h. induction p as [b|X e k IH]; intros h; cbn.
  - by intros ? ? [-> ->].
  - intros [Hg Hk] Hh (r & Hr & Hex). apply (IH r (Obs e r :: h)); cbn; auto.
Qed.

Lemma exec_bind {A B} (p : prog E A) (f : A → prog E B) h h2 b :
  exec P (bind p f) h h2 b ↔ ∃ h1 a, exec P p h h1 a ∧ exec P (f a) h1 h2 b.
Proof.
  revert h. induction p as [a|X e k IH]; intros h; cbn.
  - split; [intros Hf; by exists h, a|]. by intros (h1 & a' & [-> ->] & Hf).
  - split.
    + intros (r & Hr & (h1 & a & H1 & H2)%IH). exists h1, a. split; [by exists r|done].
    + intros (h1 & a & (r & Hr & H1) & H2). exists r. split; [done|].
      apply IH. by exists h1, a.
Qed.

(** An execution only adds calls. *)
Lemma exec_suffix {A} (p : prog E A) h h' a : exec P p h h' a → ∃ t, h' = t ++ h.
Proof.
  revert h. induction p as [b|X e k IH]; intros h; cbn.
  - intros [-> _]. by exists [].
  - intros (r & _ & [t ->]%IH). exists (t ++ [Obs e r]). by rewrite <-app_assoc.
Qed.
End semantics.

(** [p] run to the end, from the beginning, with any answers. *)
Definition runs {E A} (p : prog E A) (h : hist E) (a : A) : Prop :=
  exec (any_answer (λ _ _ _, True)) p [] h a.

Lemma exec_any {E A} G G' (p : prog E A) h h' a :
  exec (any_answer G) p h h' a → exec (any_answer G') p h h' a.
Proof.
  revert h. induction p as [b|X e k IH]; intros h; cbn; [done|].
  intros (r & Hr & Hex). exists r. auto.
Qed.

Lemma exec_rely {E A} (P P' : protocol E) (p : prog E A) h h' a :
  (∀ h X (e : E X) r, rely P h X e r → rely P' h X e r) → exec P p h h' a → exec P' p h h' a.
Proof.
  intros HR. revert h. induction p as [b|X e k IH]; intros h; cbn; [done|].
  intros (r & Hr & Hex). exists r. auto.
Qed.

(** ** Running against a handler *)

Section run.
Context {E : Type → Type} {S : Type} (hdl : ∀ X, E X → S → S * X).

Fixpoint run {A} (p : prog E A) (s : S) : S * A :=
  match p with
  | Ret a => (s, a)
  | Vis e k => let '(s', x) := hdl _ e s in run (k x) s'
  end.

Lemma run_bind {A B} (p : prog E A) (f : A → prog E B) s :
  run (bind p f) s = let '(s', a) := run p s in run (f a) s'.
Proof.
  revert s. induction p as [a|X e k IH]; intros s; cbn; [done|].
  destruct (hdl X e s) as [s' x]. apply IH.
Qed.

(** A run is one of the executions. *)
Lemma run_exec {A} G (p : prog E A) s h :
  ∃ h', exec (any_answer G) p h h' (run p s).2.
Proof.
  revert s h. induction p as [a|X e k IH]; intros s h; cbn.
  - by exists h.
  - destruct (hdl X e s) as [s' x]. destruct (IH x s' (Obs e x :: h)) as [h' Hh'].
    exists h', x. done.
Qed.
End run.

(** A run with the calls it makes. *)
Fixpoint trace {E : Type → Type} {S A} (hdl : ∀ X, E X → S → S * X) (p : prog E A) (s : S) (h : hist E) :
    S * hist E * A :=
  match p with
  | Ret a => (s, h, a)
  | Vis e k => let '(s', x) := hdl _ e s in trace hdl (k x) s' (Obs e x :: h)
  end.

Lemma trace_exec {E : Type → Type} {S A} (hdl : ∀ X, E X → S → S * X) (p : prog E A) s h :
  exec (any_answer (λ _ _ _, True)) p h (trace hdl p s h).1.2 (trace hdl p s h).2.
Proof.
  revert s h. induction p as [a|X e k IH]; intros s h; cbn; [done|].
  destruct (hdl X e s) as [s' x]. exists x. split; [done|]. apply IH.
Qed.

(** The same under a protocol the handler keeps. *)
Lemma trace_exec_rely {E : Type → Type} {S A} (hdl : ∀ X, E X → S → S * X) (P : protocol E) (p : prog E A) s h :
  (∀ h X (e : E X) s, rely P h X e (hdl X e s).2) →
  exec P p h (trace hdl p s h).1.2 (trace hdl p s h).2.
Proof.
  intros Hh. revert s h. induction p as [a|X e k IH]; intros s h; cbn; [done|].
  pose proof (Hh h X e s) as Hr. destruct (hdl X e s) as [s' x]. exists x. split; [done|]. apply IH.
Qed.

(** What [wp] shows holds of a run against a handler that keeps an invariant
    and answers as the protocol expects. *)
Lemma run_wp {E : Type → Type} {S A} (hdl : ∀ X, E X → S → S * X) (Inv : S → Prop) (P : protocol E)
    (p : prog E A) h Q s :
  (∀ h X (e : E X) s, Inv s → Inv (hdl X e s).1 ∧ rely P h X e (hdl X e s).2) →
  wp P p h Q → Inv s →
  Inv (run hdl p s).1 ∧ ∃ h', Q h' (run hdl p s).2 ∧ exec P p h h' (run hdl p s).2.
Proof.
  intros Hh. revert h s. induction p as [a|X e k IH]; intros h s; cbn.
  - intros HQ Hs. split; [done|]. by exists h.
  - intros [Hg Hk] Hs. destruct (Hh h X e s Hs) as [Hs' Hr].
    destruct (hdl X e s) as [s' x]; cbn in *.
    destruct (IH x (Obs e x :: h) s' (Hk x Hr) Hs') as [HI (h' & HQ & Hex)].
    split; [done|]. exists h'. split; [done|]. by exists x.
Qed.

(** A run whose calls respect the protocol keeps an invariant of the history
    and the state, if each allowed call does. *)
Lemma run_inv {E : Type → Type} {S A} (hdl : ∀ X, E X → S → S * X) (I : hist E → S → Prop)
    (P : protocol E) (p : prog E A) h Q s :
  (∀ h X (e : E X) s, I h s → guar P h X e →
     rely P h X e (hdl X e s).2 ∧ I (Obs e (hdl X e s).2 :: h) (hdl X e s).1) →
  wp P p h Q → I h s → ∃ h', I h' (run hdl p s).1 ∧ Q h' (run hdl p s).2.
Proof.
  intros Hh. revert h s. induction p as [a|X e k IH]; intros h s; cbn.
  - intros HQ Hs. by exists h.
  - intros [Hg Hk] Hs. destruct (Hh h X e s Hs Hg) as [Hr Hs'].
    destruct (hdl X e s) as [s' x]; cbn in *. by apply (IH x (Obs e x :: h)); [apply Hk|].
Qed.

Lemma run_translate {E F S} (hdl : ∀ X, F X → S → S * X) (t : ∀ X, E X → prog F X)
    {A} (p : prog E A) s :
  run hdl (translate t p) s = run (λ X e, run hdl (t X e)) p s.
Proof.
  revert s. induction p as [a|X e k IH]; intros s; cbn; [done|].
  rewrite run_bind. destruct (run hdl (t X e) s) as [s' x]. apply IH.
Qed.

(** ** Go handlers *)

Definition M (O : Type) (E : Type → Type) (A : Type) : Type := O → prog E (O * result A).

Section M.
Context {O : Type} {E : Type → Type}.

Definition retM {A} (a : A) : M O E A := λ o, Ret (o, Ok a).
Definition throw {A} (e : error) : M O E A := λ o, Ret (o, Err e).
Definition getM : M O E O := λ o, Ret (o, Ok o).
Definition modify (f : O → O) : M O E unit := λ o, Ret (f o, Ok tt).

(** [x, err := m; if err != nil { return err }] *)
Definition bindM {A B} (m : M O E A) (f : A → M O E B) : M O E B :=
  λ o, bind (m o) (λ '(o', r), match r with
                               | Ok a => f a o'
                               | Err e => Ret (o', Err e)
                               end).

(** [x, err := m] with [err] handled by the code that follows. *)
Definition bindR {A B} (m : M O E A) (f : result A → M O E B) : M O E B :=
  λ o, bind (m o) (λ '(o', r), f r o').

(** A call whose answer is [(A, error)]. *)
Definition call {A} (e : E (result A)) : M O E A := λ o, Vis e (λ r, Ret (o, r)).

(** A call that cannot fail. *)
Definition ask {X} (e : E X) : M O E X := λ o, Vis e (λ x, Ret (o, Ok x)).
End M.

Notation "'let!' x := m 'in' k" := (bindM m (λ x, k))
  (at level 10, x name, m at level 100, k at level 200) : go_scope.
Notation "'do!' m 'in' k" := (bindM m (λ _, k))
  (at level 10, m at level 100, k at level 200) : go_scope.
Notation "'let?' x := m 'in' k" := (bindR m (λ x, k))
  (at level 10, x name, m at level 100, k at level 200) : go_scope.

(** The weakest precondition of a handler, its object written out. *)
Definition wpM {O E A} (P : protocol E) (m : M O E A) (o : O) (h : hist E)
    (Q : hist E → O → result A → Prop) : Prop :=
  wp P (m o) h (λ h' '(o', r), Q h' o' r).

Section wpM.
Context {O : Type} {E : Type → Type} (P : protocol E).

Lemma wpM_mono {A} (m : M O E A) o h Q Q' :
  wpM P m o h Q → (∀ h' o' r, Q h' o' r → Q' h' o' r) → wpM P m o h Q'.
Proof. intros Hm HQ. eapply wp_mono; [|exact Hm]. intros h' [o' r]. apply HQ. Qed.

Lemma wpM_bindM {A B} (m : M O E A) (f : A → M O E B) o h Q :
  wpM P m o h (λ h' o' r, match r with
                          | Ok a => wpM P (f a) o' h' Q
                          | Err e => Q h' o' (Err e)
                          end) →
  wpM P (bindM m f) o h Q.
Proof.
  intros Hm. apply wp_bind. eapply wp_mono; [|exact Hm].
  intros h' [o' [a|e]] H; apply H.
Qed.

Lemma wpM_bindR {A B} (m : M O E A) (f : result A → M O E B) o h Q :
  wpM P m o h (λ h' o' r, wpM P (f r) o' h' Q) → wpM P (bindR m f) o h Q.
Proof. intros Hm. apply wp_bind. eapply wp_mono; [|exact Hm]. intros h' [o' r] H. apply H. Qed.

Lemma wpM_grow {A} (m : M O E A) o h Q :
  wpM P m o h Q → wpM P m o h (λ h' o' r, h ⊆ h' ∧ Q h' o' r).
Proof. intros Hm%wp_grow. eapply wp_mono; [|exact Hm]. by intros h' [o' r]. Qed.

Lemma wpM_ret {A} (a : A) (o : O) h Q : Q h o (Ok a) → wpM P (retM a) o h Q.
Proof. done. Qed.

Lemma wpM_throw {A} e (o : O) h (Q : hist E → O → result A → Prop) :
  Q h o (Err e) → wpM P (throw e) o h Q.
Proof. done. Qed.

Lemma wpM_modify f (o : O) h Q : Q h (f o) (Ok tt) → wpM P (modify f) o h Q.
Proof. done. Qed.

Lemma wpM_get o h (Q : hist E → O → result O → Prop) : Q h o (Ok o) → wpM P getM o h Q.
Proof. done. Qed.

Lemma wpM_call {A} (e : E (result A)) (o : O) h Q :
  guar P h _ e → (∀ r, rely P h _ e r → Q (Obs e r :: h) o r) → wpM P (call e) o h Q.
Proof. intros Hg HQ. split; [done|]. intros r Hr. apply HQ, Hr. Qed.

Lemma wpM_ask {X} (e : E X) (o : O) h Q :
  guar P h _ e → (∀ x, rely P h _ e x → Q (Obs e x :: h) o (Ok x)) → wpM P (ask e) o h Q.
Proof. intros Hg HQ. split; [done|]. intros x Hx. apply HQ, Hx. Qed.

(** The form in which component theorems are stated: all executions from an
    empty history. *)
Lemma wpM_exec {A} (m : M O E A) o h' o' r Q :
  wpM P m o [] Q → exec P (m o) [] h' (o', r) → Q h' o' r ∧ respects P h'.
Proof. intros Hm Hex. exact (wp_exec P (m o) [] h' (o', r) _ Hm I Hex). Qed.
End wpM.

(** The executions of a handler, construct by construct. *)
Section execM.
Context {O : Type} {E : Type → Type} (P : protocol E).

Lemma exec_bindM {A B} (m : M O E A) (f : A → M O E B) o h h2 o2 r :
  exec P (bindM m f o) h h2 (o2, r) ↔
  ∃ h1 o1 r1, exec P (m o) h h1 (o1, r1) ∧
    match r1 with
    | Ok a => exec P (f a o1) h1 h2 (o2, r)
    | Err e => h2 = h1 ∧ o2 = o1 ∧ r = Err e
    end.
Proof.
  unfold bindM. rewrite exec_bind. split.
  - intros (h1 & [o1 [a|e]] & H1 & H2); exists h1, o1; [by exists (Ok a)|].
    exists (Err e). split; [done|]. cbn in H2. by destruct H2 as [-> [= -> ->]].
  - intros (h1 & o1 & [a|e] & H1 & H2); exists h1; [by exists (o1, Ok a)|].
    exists (o1, Err e). split; [done|]. by destruct H2 as (-> & -> & ->).
Qed.

Lemma exec_bindR {A B} (m : M O E A) (f : result A → M O E B) o h h2 o2 r :
  exec P (bindR m f o) h h2 (o2, r) ↔
  ∃ h1 o1 r1, exec P (m o) h h1 (o1, r1) ∧ exec P (f r1 o1) h1 h2 (o2, r).
Proof.
  unfold bindR. rewrite exec_bind. split.
  - intros (h1 & [o1 r1] & H1 & H2). by exists h1, o1, r1.
  - intros (h1 & o1 & r1 & H1 & H2). by exists h1, (o1, r1).
Qed.

Lemma exec_call {A} (e : E (result A)) (o o' : O) h h' r :
  exec P (call e o) h h' (o', r) ↔ rely P h _ e r ∧ h' = Obs e r :: h ∧ o' = o.
Proof.
  unfold call. cbn. split; [|intros (? & -> & ->); by exists r].
  by intros (r' & Hr & -> & [= -> ->]).
Qed.

Lemma exec_retM {A} (a : A) (o o' : O) h h' r :
  exec P (retM a o) h h' (o', r) ↔ h' = h ∧ o' = o ∧ r = Ok a.
Proof. unfold retM. cbn. split; [by intros [-> [= -> ->]]|by intros (-> & -> & ->)]. Qed.

Lemma exec_throw {A} e (o o' : O) h h' (r : result A) :
  exec P (throw e o) h h' (o', r) ↔ h' = h ∧ o' = o ∧ r = Err e.
Proof. unfold throw. cbn. split; [by intros [-> [= -> ->]]|by intros (-> & -> & ->)]. Qed.
End execM.

#[export] Hint Resolve wpM_ret wpM_throw wpM_modify wpM_get : verda_wp.

(** One step of symbolic execution of a handler. *)
Ltac wp_step :=
  lazymatch goal with
  | |- wpM _ (bindM _ _) _ _ _ => apply wpM_bindM
  | |- wpM _ (bindR _ _) _ _ _ => apply wpM_bindR
  | |- wpM _ (retM _) _ _ _ => apply wpM_ret
  | |- wpM _ (throw _) _ _ _ => apply wpM_throw
  | |- wpM _ (modify _) _ _ _ => apply wpM_modify
  | |- wpM _ getM _ _ _ => apply wpM_get
  | |- wpM _ (call _) _ _ _ => apply wpM_call; [|intros ? ?]
  | |- wpM _ (ask _) _ _ _ => apply wpM_ask; [|intros ? ?]
  | |- wpM _ (match ?x with _ => _ end) _ _ _ => destruct x eqn:?; simplify_eq/=
  | |- wpM _ (if ?b then _ else _) _ _ _ => destruct b eqn:?; simplify_eq/=
  | |- match ?r with Ok _ => _ | Err _ => _ end => destruct r as [?|?] eqn:?; simplify_eq/=
  end.
Ltac wp_steps := repeat (cbn beta iota zeta; wp_step); try exact I.

(** Inversion of an execution of a handler, one construct. *)
Ltac exec_step H :=
  lazymatch type of H with
  | exec _ (bindM _ _ _) _ _ (_, _) => apply exec_bindM in H as (? & ? & ? & ? & H)
  | exec _ (bindR _ _ _) _ _ (_, _) => apply exec_bindR in H as (? & ? & ? & ? & H)
  | exec _ (call _ _) _ _ (_, _) => apply exec_call in H as (? & ? & ?); simplify_eq
  | exec _ (retM _ _) _ _ (_, _) => apply exec_retM in H as (? & ? & ?); simplify_eq
  | exec _ (throw _ _) _ _ (_, _) => apply exec_throw in H as (? & ? & ?); simplify_eq
  end.

(** Turn a goal about an execution [Hex] of a handler into a [wpM]. *)
Ltac exec_to_wp Hex :=
  lazymatch type of Hex with
  | exec ?P (?m ?o) [] ?h' (?o', ?r) =>
      pattern h', o', r;
      lazymatch goal with
      | |- ?Q _ _ _ =>
          refine (proj1 (wpM_exec P m o h' o' r Q _ Hex)); clear Hex
      end
  end.

(** ** Histories that grow by calls of one kind *)

Definition grows {E} (p : obs E → Prop) (h h' : hist E) : Prop :=
  ∃ t, h' = t ++ h ∧ Forall p t.

Section grows.
Context {E : Type → Type} (p : obs E → Prop).

Lemma grows_refl h : grows p h h.
Proof. by exists []. Qed.

Lemma grows_cons o h h' : p o → grows p h h' → grows p h (o :: h').
Proof. intros Ho (t & -> & Ht). exists (o :: t). auto. Qed.

Lemma grows_trans h1 h2 h3 : grows p h1 h2 → grows p h2 h3 → grows p h1 h3.
Proof.
  intros (t & -> & Ht) (u & -> & Hu). exists (u ++ t). split; [by rewrite app_assoc|].
  by apply Forall_app.
Qed.

Lemma grows_sub h h' : grows p h h' → h ⊆ h'.
Proof. intros (t & -> & _) x Hx. apply elem_of_app. by right. Qed.

(** A call of another kind was there before. *)
Lemma grows_old o h h' : grows p h h' → o ∈ h' → ¬ p o → o ∈ h.
Proof.
  intros (t & -> & Ht) [Hin|Hin]%elem_of_app Hp; [|done].
  by rewrite Forall_forall in Ht; apply Ht in Hin.
Qed.
End grows.

(** The guarantee of a call, read off a history that respects the protocol. *)
Lemma respects_split {E} (P : protocol E) h1 h2 X (e : E X) r :
  respects P (h1 ++ Obs e r :: h2) → guar P h2 X e.
Proof. induction h1 as [|[Y f s] h1 IH]; cbn; [by intros [? _]|]. intros [_ Hh]. by apply IH. Qed.

Lemma respects_elem {E} (P : protocol E) h X (e : E X) r :
  respects P h → Obs e r ∈ h → ∃ h', guar P h' X e.
Proof.
  intros Hh (h1 & h2 & ->)%list_elem_of_split. exists h2. by eapply respects_split.
Qed.

(** A protocol that asks for less, on histories that respect the first one and
    hold what [I] says, and allows fewer answers. *)
Lemma wp_weaken_inv {E} (P P' : protocol E) (I : hist E → Prop) {A} (p : prog E A) h Q :
  (∀ o h, I h → I (o :: h)) →
  (∀ h X (e : E X), I h → respects P h → guar P h X e → guar P' h X e) →
  (∀ h X (e : E X) r, rely P' h X e r → rely P h X e r) →
  I h → respects P h → wp P p h Q → wp P' p h Q.
Proof.
  intros HI HG HR. revert h. induction p as [a|X e k IH]; intros h Hi Hh; cbn; [done|].
  intros [Hg Hk]. split; [by apply HG|]. intros r Hr. apply IH; [by apply HI|done|]. by apply Hk, HR.
Qed.

Lemma wp_weaken {E} (P P' : protocol E) {A} (p : prog E A) h Q :
  (∀ h X (e : E X), respects P h → guar P h X e → guar P' h X e) →
  (∀ h X (e : E X) r, rely P' h X e r → rely P h X e r) →
  respects P h → wp P p h Q → wp P' p h Q.
Proof. intros HG HR. apply (wp_weaken_inv P P' (λ _, True)); auto. Qed.

(** Two guarantees and two postconditions at once. *)
Lemma wp_both {E} (P1 P2 P : protocol E) {A} (p : prog E A) h Q1 Q2 :
  (∀ h X (e : E X), guar P1 h X e → guar P2 h X e → guar P h X e) →
  (∀ h X (e : E X) r, rely P h X e r → rely P1 h X e r ∧ rely P2 h X e r) →
  wp P1 p h Q1 → wp P2 p h Q2 → wp P p h (λ h a, Q1 h a ∧ Q2 h a).
Proof.
  intros HG HR. revert h. induction p as [a|X e k IH]; intros h; cbn; [done|].
  intros [Hg1 Hk1] [Hg2 Hk2]. split; [by apply HG|]. intros r [Hr1 Hr2]%HR. apply IH; auto.
Qed.

(** ** A component on top of another

    The calls of [p] over [E] are carried out by programs over [F].  If the
    implementation [impl] of every call makes only calls allowed by [G] and ends as
    [R] says, then every call of the composed program is one the component below
    makes on behalf of a call the component above may make. *)

Section compose.
Context {E F : Type → Type} (impl : ∀ X, E X → prog F X) (P : protocol E).
Context (G : ∀ X, E X → hist F → ∀ Y, F Y → Prop) (R : ∀ X, E X → hist F → X → Prop).
Context (answers : ∀ Y, F Y → Y → Prop).

(** The calls below belong to the calls above, in the same order. *)
Inductive expands : hist E → hist F → Prop :=
| expands_nil : expands [] []
| expands_cons h hs X (e : E X) r t :
    expands h hs → guar P h X e → R X e t r → expands (Obs e r :: h) (t ++ hs).

Definition below : protocol F :=
  Protocol (λ hs Y f, ∃ h hs0 t X e, expands h hs0 ∧ hs = t ++ hs0 ∧ guar P h X e ∧ G X e t Y f)
    (λ _, answers).

Lemma wp_impl {A} (q : prog F A) h hs t X (e : E X) Q :
  expands h hs → guar P h X e →
  wp (Protocol (G X e) (λ _, answers)) q t Q → wp below q (t ++ hs) (λ hs' a, ∃ t', hs' = t' ++ hs ∧ Q t' a).
Proof.
  intros Hx Hg. revert t. induction q as [a|Y f k IH]; intros t; cbn.
  - intros HQ. by exists t.
  - intros [Hf Hk]. split; [by exists h, hs, t, X, e|]. intros r Hr. apply (IH r (Obs f r :: t)), Hk, Hr.
Qed.

Lemma wp_compose {A} (p : prog E A) h hs Q :
  (∀ X e, wp (Protocol (G X e) (λ _, answers)) (impl X e) [] (λ t r, R X e t r ∧ ∀ h, rely P h X e r)) →
  wp P p h Q → expands h hs →
  wp below (translate impl p) hs (λ hs' a, ∃ h', expands h' hs' ∧ Q h' a).
Proof.
  intros Himpl. revert h hs. induction p as [a|X e k IH]; intros h hs; cbn.
  - intros HQ Hx. by exists h.
  - intros [Hg Hk] Hx. apply wp_bind.
    eapply wp_mono; [|by eapply (wp_impl _ h hs []), Himpl].
    intros hs' r (t & -> & HR & Hr). apply (IH r (Obs e r :: h)); [by apply Hk|by constructor].
Qed.

(** The calls below that carried out a call above. *)
Lemma expands_elem h hs X (e : E X) r :
  expands h hs → Obs e r ∈ h → ∃ t, R X e t r ∧ t ⊆ hs.
Proof.
  set (Ro := λ (o : obs E) t, let '@Obs _ X e r := o in R X e t r).
  assert (expands h hs → ∀ o, o ∈ h → ∃ t, Ro o t ∧ t ⊆ hs) as Hall.
  { induction 1 as [|h hs Y f s t Hx IH Hg HR]; intros o Hin; [by apply not_elem_of_nil in Hin|].
    apply elem_of_cons in Hin as [->|Hin].
    - exists t. split; [done|]. intros x ?. apply elem_of_app. by left.
    - destruct (IH o Hin) as (t' & HR' & Hs). exists t'. split; [done|]. intros x Hx'. apply elem_of_app. right. auto. }
  intros Hx Hin. exact (Hall Hx _ Hin).
Qed.
End compose.

(** ** Handlers that read their object first

    [Reconcile] gets the object, returns on an error, and otherwise runs a
    handler on it, whose final object is dropped. *)
Definition get_then {E : Type → Type} {O A : Type} (get : E (result O)) (onerr : error → result A)
    (m : M O E A) : prog E (result A) :=
  bind (trigger get) (λ r,
    match r with
    | Err err => Ret (onerr err)
    | Ok o => bind (m o) (λ '(_, r), Ret r)
    end).

(** Every later call satisfies the guarantee for the object that was read. *)
Lemma get_then_call {E : Type → Type} {O A : Type} (get : E (result O)) onerr (m : M O E A)
    (G : O → hist E → ∀ X, E X → Prop) (isget : obs E → bool) h r X (e : E X) a after before :
  (∀ x, isget (Obs get x) = true) → (∀ o, G o [] _ get) →
  (∀ o, wpM (any_answer (G o)) m o [Obs get (Ok o)] (λ _ _ _, True)) →
  runs (get_then get onerr m) h r → h = after ++ Obs e a :: before → isget (Obs e a) = false →
  ∃ o, Obs get (Ok o) ∈ before ∧ G o before X e.
Proof.
  intros Hget HG Hm Hex Hh Hne. unfold runs, get_then in Hex.
  apply exec_bind in Hex as (h0 & r0 & Hg & Hex). cbn in Hg. destruct Hg as (r1 & _ & -> & ->).
  destruct (exec_suffix _ _ _ _ _ Hex) as [t Ht]. rewrite Hh in Ht.
  assert (Obs get r1 ∈ before) as Hin.
  { destruct before as [|x before _] using rev_ind.
    - apply (app_inj_tail after t) in Ht as [_ Ht]. apply (f_equal isget) in Ht.
      rewrite Hget in Ht. congruence.
    - change (Obs e a :: before ++ [x]) with ((Obs e a :: before) ++ [x]) in Ht.
      rewrite app_assoc in Ht. apply app_inj_tail in Ht as [_ ->]. apply elem_of_app. right. by left. }
  destruct r1 as [o|err].
  - exists o. split; [done|]. apply exec_bind in Hex as (h1 & [o' r'] & Hex & Hret). cbn in Hret.
    destruct Hret as [-> ->]. rewrite Hh in Hex.
    refine (respects_split (any_answer (G o)) after before X e a _).
    refine (proj2 (wp_exec (any_answer (G o)) _ _ _ _ (λ _ '(_, _), True) _ _ (exec_any _ _ _ _ _ _ Hex))).
    + apply Hm.
    + split; [apply HG|done].
  - exfalso. destruct Hex as [Hlen _]. rewrite Hh in Hlen. apply (f_equal List.length) in Hlen.
    rewrite length_app in Hlen. cbn in Hlen. destruct before; [by apply not_elem_of_nil in Hin|].
    cbn in Hlen. lia.
Qed.

Ltac grow :=
  lazymatch goal with
  | |- grows _ ?h ?h => apply grows_refl
  | |- grows _ _ (_ :: _) => apply grows_cons; [exact I|grow]
  | H : grows _ ?h1 ?h |- grows _ _ ?h => eapply grows_trans; [|exact H]; grow
  end.

(** ** Programs of another component

    A program whose calls are passed on to a larger signature, one by one. *)

Definition embed_obs {E F : Type → Type} (inj : ∀ X, E X → F X) (o : obs E) : obs F :=
  let '@Obs _ X e r := o in Obs (inj X e) r.

Lemma wp_embed {E F : Type → Type} {A} (inj : ∀ X, E X → F X) (P : protocol F) (p : prog E A)
    h0 h (Q : hist E → A → Prop) :
  (∀ h X (e : F X), guar P h X e) →
  wp (any_answer (λ _ _ _, True)) p h0 Q →
  wp P (translate (λ X e, trigger (inj X e)) p) h
     (λ h' a, ∃ t, h' = (embed_obs inj <$> t) ++ h ∧ Q (t ++ h0) a).
Proof.
  intros HG. revert h0 h. induction p as [a|X e k IH]; intros h0 h; cbn.
  - intros HQ. by exists [].
  - intros [_ Hk]. split; [apply HG|]. intros r _.
    eapply wp_mono; [|by apply (IH r (Obs e r :: h0)), Hk]. cbn beta.
    intros h' a (t & -> & HQ). exists (t ++ [Obs e r]). split; [|by rewrite <-app_assoc].
    by rewrite fmap_app, <-app_assoc.
Qed.

(** The same with a protocol for each of the two signatures. *)
Lemma wp_embed_protocol {E F : Type → Type} {A} (inj : ∀ X, E X → F X) (P0 : protocol E) (P : protocol F)
    (p : prog E A) t0 (Q : hist E → A → Prop) :
  (∀ t X (e : E X), guar P0 t X e → guar P (embed_obs inj <$> t) X (inj X e)) →
  (∀ t X (e : E X) r, rely P (embed_obs inj <$> t) X (inj X e) r → rely P0 t X e r) →
  wp P0 p t0 Q →
  wp P (translate (λ X e, trigger (inj X e)) p) (embed_obs inj <$> t0)
     (λ h' a, ∃ t, h' = embed_obs inj <$> t ∧ Q t a).
Proof.
  intros HG HR. revert t0. induction p as [a|X e k IH]; intros t0; cbn.
  - intros HQ. by exists t0.
  - intros [Hg Hk]. split; [by apply HG|]. intros r Hr. apply (IH r (Obs e r :: t0)), Hk, HR, Hr.
Qed.

Lemma embed_elem {E F : Type → Type} (inj : ∀ X, E X → F X) X (e : E X) r (t : hist E) :
  Obs e r ∈ t → Obs (inj X e) r ∈ embed_obs inj <$> t.
Proof. intros Hin. apply list_elem_of_fmap. by exists (Obs e r). Qed.

(** Membership in a history extended by the calls just made. *)
Lemma hist_sub_cons {E} (o : obs E) (h : hist E) : h ⊆ o :: h.
Proof. intros x Hx. by apply list_elem_of_further. Qed.

Lemma hist_sub_trans {E} (h1 h2 h3 : hist E) : h1 ⊆ h2 → h2 ⊆ h3 → h1 ⊆ h3.
Proof. intros H1 H2 x Hx. auto. Qed.

Ltac hist :=
  lazymatch goal with
  | |- _ ∈ _ :: _ =>
      first [ apply list_elem_of_here | apply list_elem_of_further; hist ]
  | Hs : ?h ⊆ ?h' |- _ ∈ ?h' => apply Hs; hist
  | Hs : grows _ ?h ?h' |- _ ∈ ?h' => first [assumption | apply (grows_sub _ _ _ Hs); hist]
  | |- _ ∈ _ => assumption
  | |- ?h ⊆ ?h => intros ? ?; assumption
  | |- ?h ⊆ _ :: _ => eapply hist_sub_trans; [|apply hist_sub_cons]; hist
  | Hs : grows _ ?h1 ?h2 |- _ ⊆ ?h2 =>
      first [assumption | eapply hist_sub_trans; [|exact (grows_sub _ _ _ Hs)]; hist]
  | |- _ ⊆ _ => assumption
  end.

(** ** Running a handler against a handler of its calls

    [wr hdl m o s Q]: run from the object [o] and the state [s] of the world,
    [m] ends as [Q] says.  Unlike [wpM] this is about the one run there is, so
    it also shows what must happen. *)

Definition wr {O E S A} (hdl : ∀ X, E X → S → S * X) (m : M O E A) (o : O) (s : S)
    (Q : S → O → result A → Prop) : Prop :=
  let '(s', (o', r)) := run hdl (m o) s in Q s' o' r.

Arguments wr : simpl never.

Section wr.
Context {O : Type} {E : Type → Type} {S : Type} (hdl : ∀ X, E X → S → S * X).

Lemma wr_bindM {A B} (m : M O E A) (f : A → M O E B) o s Q :
  wr hdl m o s (λ s' o' r, match r with
                           | Ok a => wr hdl (f a) o' s' Q
                           | Err e => Q s' o' (Err e)
                           end) →
  wr hdl (bindM m f) o s Q.
Proof. unfold wr, bindM. rewrite run_bind. by destruct (run hdl (m o) s) as [s' [o' [a|e]]]. Qed.

Lemma wr_bindR {A B} (m : M O E A) (f : result A → M O E B) o s Q :
  wr hdl m o s (λ s' o' r, wr hdl (f r) o' s' Q) → wr hdl (bindR m f) o s Q.
Proof. unfold wr, bindR. rewrite run_bind. by destruct (run hdl (m o) s) as [s' [o' r]]. Qed.

Lemma wr_call {A} (e : E (result A)) (o : O) s Q :
  Q (hdl _ e s).1 o (hdl _ e s).2 → wr hdl (call e) o s Q.
Proof. unfold wr. cbn. by destruct (hdl _ e s). Qed.

Lemma wr_ask {X} (e : E X) (o : O) s Q :
  Q (hdl _ e s).1 o (Ok (hdl _ e s).2) → wr hdl (ask e) o s Q.
Proof. unfold wr. cbn. by destruct (hdl _ e s). Qed.

Lemma wr_mono {A} (m : M O E A) o s Q Q' :
  wr hdl m o s Q → (∀ s' o' r, Q s' o' r → Q' s' o' r) → wr hdl m o s Q'.
Proof. unfold wr. destruct (run hdl (m o) s) as [s' [o' r]]. auto. Qed.

Lemma wr_ret {A} (a : A) (o : O) s Q : Q s o (Ok a) → wr hdl (retM a) o s Q.
Proof. done. Qed.
Lemma wr_throw {A} e (o : O) s (Q : S → O → result A → Prop) : Q s o (Err e) → wr hdl (throw e) o s Q.
Proof. done. Qed.
Lemma wr_modify f (o : O) s Q : Q s (f o) (Ok tt) → wr hdl (modify f) o s Q.
Proof. done. Qed.
Lemma wr_get (o : O) s (Q : S → O → result O → Prop) : Q s o (Ok o) → wr hdl getM o s Q.
Proof. done. Qed.
End wr.

(** One construct of a run. *)
Ltac wr_step :=
  lazymatch goal with
  | |- wr _ (bindM _ _) _ _ _ => apply wr_bindM
  | |- wr _ (bindR _ _) _ _ _ => apply wr_bindR
  | |- wr _ (retM _) _ _ _ => apply wr_ret
  | |- wr _ (throw _) _ _ _ => apply wr_throw
  | |- wr _ (modify _) _ _ _ => apply wr_modify
  | |- wr _ getM _ _ _ => apply wr_get
  | |- wr _ (call _) _ _ _ => apply wr_call
  | |- wr _ (ask _) _ _ _ => apply wr_ask
  end; cbn beta iota zeta.
Ltac wr_steps := repeat wr_step.
