(* ===== verification/Api.v ===== *)
(** * The API types ([api/v1beta1]) and the Cluster API data they refer to

    One record per Go struct, with the source's field names after the struct's
    name.  [TypeMeta], and the fields of Kubernetes' [ObjectMeta] no code of the
    program reads or writes, are left out.  The helpers of Cluster API and
    controller-runtime ([util/conditions], [controllerutil],
    [util.IsControlPlaneMachine]) are not part of the repository: they are the
    operations of the class [CapiUtil], and what the program relies on is
    the class [CapiUtilLaws]. *)

From S2P Require Import Prelude GoStd.
From stdpp Require Import options.

(** ** metav1 *)

Inductive ConditionStatus := ConditionTrue | ConditionFalse | ConditionUnknown.
#[export] Instance ConditionStatus_eq_dec : EqDecision ConditionStatus.
Proof. solve_decision. Defined.

Record Condition := mkCondition {
  Condition_Type : string;
  Condition_Status : ConditionStatus;
  Condition_Reason : string;
  Condition_Message : string
}.

(** Instants are nanoseconds since the Unix epoch. *)
Record ObjectMeta := mkObjectMeta {
  Meta_Name : string;
  Meta_Namespace : string;
  Meta_Labels : gmap string string;
  Meta_Annotations : gmap string string;
  Meta_Finalizers : list string;
  Meta_CreationTimestamp : Z;
  Meta_DeletionTimestamp : option Z
}.

(** [!obj.DeletionTimestamp.IsZero()] *)
Definition deleting (m : ObjectMeta) : bool := bool_decide (Meta_DeletionTimestamp m ≠ None).

Definition set_Annotations (a : gmap string string) (m : ObjectMeta) : ObjectMeta :=
  mkObjectMeta (Meta_Name m) (Meta_Namespace m) (Meta_Labels m) a (Meta_Finalizers m)
    (Meta_CreationTimestamp m) (Meta_DeletionTimestamp m).
Definition set_Finalizers (f : list string) (m : ObjectMeta) : ObjectMeta :=
  mkObjectMeta (Meta_Name m) (Meta_Namespace m) (Meta_Labels m) (Meta_Annotations m) f
    (Meta_CreationTimestamp m) (Meta_DeletionTimestamp m).

(** ** clusterv1 *)

Record APIEndpoint := mkAPIEndpoint { APIEndpoint_Host : string; APIEndpoint_Port : Z }.
#[export] Instance APIEndpoint_eq_dec : EqDecision APIEndpoint.
Proof. solve_decision. Defined.

Record FailureDomain := mkFailureDomain {
  FailureDomain_Name : string;
  FailureDomain_ControlPlane : option bool
}.

Inductive MachineAddressType := MachineHostName | MachineExternalIP | MachineInternalIP | MachineOtherAddress.
#[export] Instance MachineAddressType_eq_dec : EqDecision MachineAddressType.
Proof. solve_decision. Defined.

Record MachineAddress := mkMachineAddress {
  MachineAddress_Type : MachineAddressType;
  MachineAddress_Address : string
}.
#[export] Instance MachineAddress_eq_dec : EqDecision MachineAddress.
Proof. solve_decision. Defined.

(** [clusterv1.Cluster]: the fields the controllers read. *)
Record Cluster := mkCluster {
  Cluster_Meta : ObjectMeta;
  Cluster_ControlPlaneEndpoint : APIEndpoint;
  Cluster_InfrastructureRef_Name : string;
  Cluster_InfrastructureRef_Kind : string;
  Cluster_InfrastructureRef_IsDefined : bool;
  Cluster_InfrastructureProvisioned : option bool
}.

(** [clusterv1.Machine]: the fields the controllers read. *)
Record Machine := mkMachine {
  Machine_Meta : ObjectMeta;
  Machine_DataSecretName : option string
}.

Definition ReadyCondition := "Ready".
Definition ReadyReason := "Ready".
Definition NotReadyReason := "NotReady".
Definition DeletingReason := "Deleting".
Definition ClusterNameLabel := "cluster.x-k8s.io/cluster-name".
Definition MachineControlPlaneLabel := "cluster.x-k8s.io/control-plane".

(** ** Helpers of Cluster API and controller-runtime *)

Class CapiUtil := {
  conditions_Set : Condition → list Condition → list Condition;
  conditions_Delete : string → list Condition → list Condition;
  conditions_IsTrue : list Condition → string → bool;
  conditions_GetReason : list Condition → string → string;
  conditions_GetMessage : list Condition → string → string;
  RemoveFinalizer : string → list string → list string;
  IsControlPlaneMachine : Machine → bool
}.

(** The documented behaviour the program relies on. *)
Class CapiUtilLaws `{CapiUtil} : Prop := {
  IsTrue_Set c cs t :
    conditions_IsTrue (conditions_Set c cs) t =
    if decide (t = Condition_Type c) then bool_decide (Condition_Status c = ConditionTrue)
    else conditions_IsTrue cs t;
  GetReason_Set c cs t :
    conditions_GetReason (conditions_Set c cs) t =
    if decide (t = Condition_Type c) then Condition_Reason c else conditions_GetReason cs t;
  GetMessage_Set c cs t :
    conditions_GetMessage (conditions_Set c cs) t =
    if decide (t = Condition_Type c) then Condition_Message c else conditions_GetMessage cs t;
  IsTrue_Delete d cs t :
    conditions_IsTrue (conditions_Delete d cs) t =
    if decide (t = d) then false else conditions_IsTrue cs t;
  elem_of_RemoveFinalizer f g fs : f ∈ RemoveFinalizer g fs ↔ f ∈ fs ∧ f ≠ g
}.

(** ** VerdaMachine ([verdamachine_types.go]) *)

Definition MachineFinalizer := "verdamachine.infrastructure.cluster.x-k8s.io".
Definition ProviderIDPrefix := "verda://".
Definition ProviderID (hostname : string) : string := ProviderIDPrefix +:+ hostname.

Definition InstanceReadyCondition := "InstanceReady".
Definition OSVolumeReadyCondition := "OSVolumeReady".

Record AdditionalVolume := mkAdditionalVolume {
  AdditionalVolume_Name : string;
  AdditionalVolume_SizeGB : Z;
  AdditionalVolume_Type : string
}.
#[export] Instance AdditionalVolume_eq_dec : EqDecision AdditionalVolume.
Proof. solve_decision. Defined.

Record VerdaMachineSpec := mkVerdaMachineSpec {
  MSpec_ProviderID : string;
  MSpec_InstanceType : string;
  MSpec_Image : string;
  MSpec_OSVolumeID : string;
  MSpec_SSHKeyIDs : list string;
  MSpec_OSVolumeSizeGB : Z;
  MSpec_Contract : string;
  MSpec_Spot : option bool;
  MSpec_SpotDiscontinuePolicy : string;
  MSpec_AdditionalVolumes : list AdditionalVolume
}.
#[export] Instance VerdaMachineSpec_eq_dec : EqDecision VerdaMachineSpec.
Proof. solve_decision. Defined.

Record VerdaMachineStatus := mkVerdaMachineStatus {
  MStatus_Provisioned : option bool;
  MStatus_Conditions : list Condition;
  MStatus_Addresses : list MachineAddress;
  MStatus_FailureDomain : string;
  MStatus_InstanceID : string;
  MStatus_InstanceState : string;
  MStatus_OSVolumeID : string;
  MStatus_StartupScriptID : string
}.

Record VerdaMachine := mkVerdaMachine {
  VM_Meta : ObjectMeta;
  VM_Spec : VerdaMachineSpec;
  VM_Status : VerdaMachineStatus
}.

(** Field assignments through the pointer. *)
Definition vm_name (vm : VerdaMachine) : string := Meta_Name (VM_Meta vm).
Definition vm_namespace (vm : VerdaMachine) : string := Meta_Namespace (VM_Meta vm).

Definition vm_set_meta (m : ObjectMeta) (vm : VerdaMachine) : VerdaMachine :=
  mkVerdaMachine m (VM_Spec vm) (VM_Status vm).
Definition vm_set_ProviderID (v : string) (vm : VerdaMachine) : VerdaMachine :=
  let s := VM_Spec vm in
  mkVerdaMachine (VM_Meta vm)
    (mkVerdaMachineSpec v (MSpec_InstanceType s) (MSpec_Image s) (MSpec_OSVolumeID s)
       (MSpec_SSHKeyIDs s) (MSpec_OSVolumeSizeGB s) (MSpec_Contract s) (MSpec_Spot s)
       (MSpec_SpotDiscontinuePolicy s) (MSpec_AdditionalVolumes s))
    (VM_Status vm).
Definition vm_set_status (st : VerdaMachineStatus) (vm : VerdaMachine) : VerdaMachine :=
  mkVerdaMachine (VM_Meta vm) (VM_Spec vm) st.
Definition vm_set_Provisioned (v : option bool) (vm : VerdaMachine) : VerdaMachine :=
  let s := VM_Status vm in
  vm_set_status (mkVerdaMachineStatus v (MStatus_Conditions s) (MStatus_Addresses s)
    (MStatus_FailureDomain s) (MStatus_InstanceID s) (MStatus_InstanceState s)
    (MStatus_OSVolumeID s) (MStatus_StartupScriptID s)) vm.
Definition vm_set_Conditions (v : list Condition) (vm : VerdaMachine) : VerdaMachine :=
  let s := VM_Status vm in
  vm_set_status (mkVerdaMachineStatus (MStatus_Provisioned s) v (MStatus_Addresses s)
    (MStatus_FailureDomain s) (MStatus_InstanceID s) (MStatus_InstanceState s)
    (MStatus_OSVolumeID s) (MStatus_StartupScriptID s)) vm.
Definition vm_set_Addresses (v : list MachineAddress) (vm : VerdaMachine) : VerdaMachine :=
  let s := VM_Status vm in
  vm_set_status (mkVerdaMachineStatus (MStatus_Provisioned s) (MStatus_Conditions s) v
    (MStatus_FailureDomain s) (MStatus_InstanceID s) (MStatus_InstanceState s)
    (MStatus_OSVolumeID s) (MStatus_StartupScriptID s)) vm.
Definition vm_set_FailureDomain (v : string) (vm : VerdaMachine) : VerdaMachine :=
  let s := VM_Status vm in
  vm_set_status (mkVerdaMachineStatus (MStatus_Provisioned s) (MStatus_Conditions s)
    (MStatus_Addresses s) v (MStatus_InstanceID s) (MStatus_InstanceState s)
    (MStatus_OSVolumeID s) (MStatus_StartupScriptID s)) vm.
Definition vm_set_InstanceID (v : string) (vm : VerdaMachine) : VerdaMachine :=
  let s := VM_Status vm in
  vm_set_status (mkVerdaMachineStatus (MStatus_Provisioned s) (MStatus_Conditions s)
    (MStatus_Addresses s) (MStatus_FailureDomain s) v (MStatus_InstanceState s)
    (MStatus_OSVolumeID s) (MStatus_StartupScriptID s)) vm.
Definition vm_set_InstanceState (v : string) (vm : VerdaMachine) : VerdaMachine :=
  let s := VM_Status vm in
  vm_set_status (mkVerdaMachineStatus (MStatus_Provisioned s) (MStatus_Conditions s)
    (MStatus_Addresses s) (MStatus_FailureDomain s) (MStatus_InstanceID s) v
    (MStatus_OSVolumeID s) (MStatus_StartupScriptID s)) vm.
Definition vm_set_OSVolumeID (v : string) (vm : VerdaMachine) : VerdaMachine :=
  let s := VM_Status vm in
  vm_set_status (mkVerdaMachineStatus (MStatus_Provisioned s) (MStatus_Conditions s)
    (MStatus_Addresses s) (MStatus_FailureDomain s) (MStatus_InstanceID s)
    (MStatus_InstanceState s) v (MStatus_StartupScriptID s)) vm.
Definition vm_set_StartupScriptID (v : string) (vm : VerdaMachine) : VerdaMachine :=
  let s := VM_Status vm in
  vm_set_status (mkVerdaMachineStatus (MStatus_Provisioned s) (MStatus_Conditions s)
    (MStatus_Addresses s) (MStatus_FailureDomain s) (MStatus_InstanceID s)
    (MStatus_InstanceState s) (MStatus_OSVolumeID s) v) vm.

(** ** VerdaCluster ([verdacluster_types.go]) *)

Definition ClusterFinalizer := "verdacluster.infrastructure.cluster.x-k8s.io".
Definition ControlPlaneEndpointReadyCondition := "ControlPlaneEndpointReady".
Definition LoadBalancerReadyCondition := "LoadBalancerReady".
Definition ServiceLoadBalancerReadyCondition := "ServiceLoadBalancerReady".
Definition ServiceLoadBalancerSecretName := "verda-service-lb".
Definition DefaultLoadBalancerInstanceType := "CPU.4V.16G".
Definition DefaultLoadBalancerImage := "24.04.base".

Record ControlPlaneLoadBalancer := mkControlPlaneLoadBalancer {
  LB_Enabled : option bool;
  LB_InstanceType : string;
  LB_Image : string;
  LB_SSHKeyIDs : list string
}.
#[export] Instance ControlPlaneLoadBalancer_eq_dec : EqDecision ControlPlaneLoadBalancer.
Proof. solve_decision. Defined.

Record VerdaClusterSpec := mkVerdaClusterSpec {
  CSpec_Location : string;
  CSpec_ControlPlaneEndpoint : APIEndpoint;
  CSpec_IdentityRef : option string;
  CSpec_ControlPlaneLoadBalancer : ControlPlaneLoadBalancer;
  CSpec_ServiceLoadBalancer : ControlPlaneLoadBalancer
}.
#[export] Instance VerdaClusterSpec_eq_dec : EqDecision VerdaClusterSpec.
Proof. solve_decision. Defined.

Record LoadBalancerStatus := mkLoadBalancerStatus {
  LBStatus_InstanceID : string;
  LBStatus_StartupScriptID : string;
  LBStatus_Address : string;
  LBStatus_Backends : list string;
  LBStatus_SecretPublished : option bool
}.

Definition empty_LoadBalancerStatus : LoadBalancerStatus := mkLoadBalancerStatus "" "" "" [] None.

Record VerdaClusterStatus := mkVerdaClusterStatus {
  CStatus_Provisioned : option bool;
  CStatus_Conditions : list Condition;
  CStatus_LoadBalancer : LoadBalancerStatus;
  CStatus_ServiceLoadBalancer : LoadBalancerStatus;
  CStatus_FailureDomains : list FailureDomain
}.

Record VerdaCluster := mkVerdaCluster {
  VC_Meta : ObjectMeta;
  VC_Spec : VerdaClusterSpec;
  VC_Status : VerdaClusterStatus
}.

Definition deref_bool (b : option bool) : bool := default false b.

Definition IdentitySecretName (c : VerdaCluster) : string :=
  match CSpec_IdentityRef (VC_Spec c) with None => "" | Some name => name end.

Definition LoadBalancerEnabled (c : VerdaCluster) : bool :=
  deref_bool (LB_Enabled (CSpec_ControlPlaneLoadBalancer (VC_Spec c))).

Definition ServiceLoadBalancerEnabled (c : VerdaCluster) : bool :=
  deref_bool (LB_Enabled (CSpec_ServiceLoadBalancer (VC_Spec c))).

Definition vc_name (c : VerdaCluster) : string := Meta_Name (VC_Meta c).
Definition vc_namespace (c : VerdaCluster) : string := Meta_Namespace (VC_Meta c).

Definition vc_set_meta (m : ObjectMeta) (c : VerdaCluster) : VerdaCluster :=
  mkVerdaCluster m (VC_Spec c) (VC_Status c).
Definition vc_set_ControlPlaneEndpoint (e : APIEndpoint) (c : VerdaCluster) : VerdaCluster :=
  let s := VC_Spec c in
  mkVerdaCluster (VC_Meta c)
    (mkVerdaClusterSpec (CSpec_Location s) e (CSpec_IdentityRef s)
       (CSpec_ControlPlaneLoadBalancer s) (CSpec_ServiceLoadBalancer s))
    (VC_Status c).
Definition vc_set_status (st : VerdaClusterStatus) (c : VerdaCluster) : VerdaCluster :=
  mkVerdaCluster (VC_Meta c) (VC_Spec c) st.
Definition vc_set_Provisioned (v : option bool) (c : VerdaCluster) : VerdaCluster :=
  let s := VC_Status c in
  vc_set_status (mkVerdaClusterStatus v (CStatus_Conditions s) (CStatus_LoadBalancer s)
    (CStatus_ServiceLoadBalancer s) (CStatus_FailureDomains s)) c.
Definition vc_set_Conditions (v : list Condition) (c : VerdaCluster) : VerdaCluster :=
  let s := VC_Status c in
  vc_set_status (mkVerdaClusterStatus (CStatus_Provisioned s) v (CStatus_LoadBalancer s)
    (CStatus_ServiceLoadBalancer s) (CStatus_FailureDomains s)) c.
Definition vc_set_LoadBalancer (v : LoadBalancerStatus) (c : VerdaCluster) : VerdaCluster :=
  let s := VC_Status c in
  vc_set_status (mkVerdaClusterStatus (CStatus_Provisioned s) (CStatus_Conditions s) v
    (CStatus_ServiceLoadBalancer s) (CStatus_FailureDomains s)) c.
Definition vc_set_ServiceLoadBalancer (v : LoadBalancerStatus) (c : VerdaCluster) : VerdaCluster :=
  let s := VC_Status c in
  vc_set_status (mkVerdaClusterStatus (CStatus_Provisioned s) (CStatus_Conditions s)
    (CStatus_LoadBalancer s) v (CStatus_FailureDomains s)) c.
Definition vc_set_FailureDomains (v : list FailureDomain) (c : VerdaCluster) : VerdaCluster :=
  let s := VC_Status c in
  vc_set_status (mkVerdaClusterStatus (CStatus_Provisioned s) (CStatus_Conditions s)
    (CStatus_LoadBalancer s) (CStatus_ServiceLoadBalancer s) v) c.

Definition lbs_set_InstanceID (v : string) (s : LoadBalancerStatus) : LoadBalancerStatus :=
  mkLoadBalancerStatus v (LBStatus_StartupScriptID s) (LBStatus_Address s) (LBStatus_Backends s)
    (LBStatus_SecretPublished s).
Definition lbs_set_StartupScriptID (v : string) (s : LoadBalancerStatus) : LoadBalancerStatus :=
  mkLoadBalancerStatus (LBStatus_InstanceID s) v (LBStatus_Address s) (LBStatus_Backends s)
    (LBStatus_SecretPublished s).
Definition lbs_set_Address (v : string) (s : LoadBalancerStatus) : LoadBalancerStatus :=
  mkLoadBalancerStatus (LBStatus_InstanceID s) (LBStatus_StartupScriptID s) v (LBStatus_Backends s)
    (LBStatus_SecretPublished s).
Definition lbs_set_Backends (v : list string) (s : LoadBalancerStatus) : LoadBalancerStatus :=
  mkLoadBalancerStatus (LBStatus_InstanceID s) (LBStatus_StartupScriptID s) (LBStatus_Address s) v
    (LBStatus_SecretPublished s).
Definition lbs_set_SecretPublished (v : option bool) (s : LoadBalancerStatus) : LoadBalancerStatus :=
  mkLoadBalancerStatus (LBStatus_InstanceID s) (LBStatus_StartupScriptID s) (LBStatus_Address s)
    (LBStatus_Backends s) v.

(** ** VerdaMachineTemplate ([verdamachinetemplate_types.go]) *)

Definition CapacityReadyCondition := "CapacityReady".

Record NodeInfo := mkNodeInfo { NodeInfo_Architecture : string; NodeInfo_OperatingSystem : string }.

(** A [corev1.ResourceList]; a quantity is its integer value. *)
Abbreviation ResourceList := (gmap string Z).

Record VerdaMachineTemplateStatus := mkVerdaMachineTemplateStatus {
  TStatus_Capacity : ResourceList;
  TStatus_NodeInfo : NodeInfo;
  TStatus_Conditions : list Condition
}.

Record VerdaMachineTemplate := mkVerdaMachineTemplate {
  VMT_Meta : ObjectMeta;
  VMT_Spec : VerdaMachineSpec;
  VMT_Status : VerdaMachineTemplateStatus
}.

(** ** The interfaces [client.Object] and [conditions.Setter] *)

Class Object (O : Type) := {
  obj_meta : O → ObjectMeta;
  obj_set_meta : ObjectMeta → O → O;
  GetConditions : O → list Condition;
  SetConditions : list Condition → O → O
}.

Class ObjectLaws (O : Type) `{Object O} : Prop := {
  obj_meta_set m o : obj_meta (obj_set_meta m o) = m;
  obj_meta_SetConditions c o : obj_meta (SetConditions c o) = obj_meta o;
  GetConditions_set c o : GetConditions (SetConditions c o) = c;
  GetConditions_set_meta m o : GetConditions (obj_set_meta m o) = GetConditions o
}.

#[export] Instance VerdaMachine_Object : Object VerdaMachine := {|
  obj_meta := VM_Meta;
  obj_set_meta := vm_set_meta;
  GetConditions vm := MStatus_Conditions (VM_Status vm);
  SetConditions := vm_set_Conditions
|}.
#[export] Instance VerdaCluster_Object : Object VerdaCluster := {|
  obj_meta := VC_Meta;
  obj_set_meta := vc_set_meta;
  GetConditions c := CStatus_Conditions (VC_Status c);
  SetConditions := vc_set_Conditions
|}.
#[export] Instance VerdaMachineTemplate_Object : Object VerdaMachineTemplate := {|
  obj_meta := VMT_Meta;
  obj_set_meta m t := mkVerdaMachineTemplate m (VMT_Spec t) (VMT_Status t);
  GetConditions t := TStatus_Conditions (VMT_Status t);
  SetConditions c t :=
    mkVerdaMachineTemplate (VMT_Meta t) (VMT_Spec t)
      (mkVerdaMachineTemplateStatus (TStatus_Capacity (VMT_Status t))
         (TStatus_NodeInfo (VMT_Status t)) c)
|}.

#[export] Instance VerdaMachine_ObjectLaws : ObjectLaws VerdaMachine.
Proof. by split. Qed.
#[export] Instance VerdaCluster_ObjectLaws : ObjectLaws VerdaCluster.
Proof. by split. Qed.
#[export] Instance VerdaMachineTemplate_ObjectLaws : ObjectLaws VerdaMachineTemplate.
Proof. by split. Qed.

(** ** The helpers, concretely

    One implementation of [CapiUtil] that has the documented behaviour. *)
Module CapiExamples.

Definition find_condition (cs : list Condition) (t : string) : option Condition :=
  List.find (λ c, bool_decide (Condition_Type c = t)) cs.

Definition capi : CapiUtil := {|
  conditions_Set c cs :=
    c :: List.filter (λ d, bool_decide (Condition_Type d ≠ Condition_Type c)) cs;
  conditions_Delete t cs := List.filter (λ d, bool_decide (Condition_Type d ≠ t)) cs;
  conditions_IsTrue cs t :=
    match find_condition cs t with
    | Some c => bool_decide (Condition_Status c = ConditionTrue)
    | None => false
    end;
  conditions_GetReason cs t := default "" (Condition_Reason <$> find_condition cs t);
  conditions_GetMessage cs t := default "" (Condition_Message <$> find_condition cs t);
  RemoveFinalizer f fs := List.filter (λ g, bool_decide (g ≠ f)) fs;
  IsControlPlaneMachine m := bool_decide (is_Some (Meta_Labels (Machine_Meta m) !! MachineControlPlaneLabel))
|}.

Lemma find_condition_filter t t' cs :
  find_condition (List.filter (λ d, bool_decide (Condition_Type d ≠ t)) cs) t' =
  if decide (t' = t) then None else find_condition cs t'.
Proof.
  unfold find_condition. induction cs as [|d cs IH]; cbn; [by case_decide|].
  repeat case_bool_decide; cbn; repeat case_bool_decide; repeat case_decide; try congruence.
Qed.

Lemma capi_laws : @CapiUtilLaws capi.
Proof.
  assert (∀ c cs t, find_condition (@conditions_Set capi c cs) t =
    if decide (t = Condition_Type c) then Some c else find_condition cs t) as Hset.
  { intros c cs t. cbn. unfold find_condition at 1. cbn. case_bool_decide.
    - by rewrite decide_True.
    - fold (find_condition (List.filter (λ d, bool_decide (Condition_Type d ≠ Condition_Type c)) cs) t).
      rewrite find_condition_filter. by repeat case_decide. }
  split.
  - intros c cs t. unfold conditions_IsTrue at 1, capi at 1. rewrite Hset. by case_decide.
  - intros c cs t. unfold conditions_GetReason at 1, capi at 1. rewrite Hset. by case_decide.
  - intros c cs t. unfold conditions_GetMessage at 1, capi at 1. rewrite Hset. by case_decide.
  - intros d cs t. unfold conditions_IsTrue, conditions_Delete, capi.
    rewrite find_condition_filter. by case_decide.
  - intros f g fs. cbn. rewrite !list_elem_of_In, filter_In, bool_decide_eq_true. naive_solver.
Qed.

End CapiExamples.
