(* ===== verification/Cloud.v ===== *)
(** * The Verda client interface ([internal/cloud/client.go])

    The tags, statuses and data types of the package, and the interface
    [Client] the controllers are written against, as the call signature
    [ClientE]. *)

From S2P Require Import Prelude GoStd Effects.
From stdpp Require Import options.

Definition TagCluster := "capi-cluster".
Definition TagMachine := "capi-machine".
Definition TagLoadBalancer := "capi-loadbalancer".
Definition TagServiceLoadBalancer := "capi-service-loadbalancer".
Definition TagManagedBy := "capi-managed-by".
Definition TagRole := "capi-role".
Definition ManagedByValue := "cluster-api-provider-verda".

Definition StatusRunning := "running".
Definition StatusOffline := "offline".
Definition StatusDeleting := "deleting".
Definition StatusDiscontinued := "discontinued".
Definition StatusDeleted := "deleted".
Definition StatusError := "error".
Definition StatusNoCapacity := "no_capacity".
Definition StatusNotFound := "notfound".

Definition VolumeStatusDetached := "detached".
Definition VolumeStatusAttached := "attached".
Definition VolumeStatusDeleting := "deleting".
Definition VolumeStatusDeleted := "deleted".

Record Instance := mkInstance {
  Instance_ID : string;
  Instance_Hostname : string;
  Instance_Status : string;
  Instance_IP : string;
  Instance_Location : string;
  Instance_InstanceType : string;
  Instance_StartupScriptID : string;
  Instance_OSVolumeID : string;
  Instance_Tags : gmap string string
}.
#[export] Instance Instance_eq_dec : EqDecision Instance.
Proof. solve_decision. Defined.

Record Volume := mkVolume {
  Volume_ID : string;
  Volume_Name : string;
  Volume_Status : string;
  Volume_Location : string;
  Volume_IsOSVolume : bool;
  Volume_InstanceID : string;
  Volume_Managed : bool
}.
#[export] Instance Volume_eq_dec : EqDecision Volume.
Proof. solve_decision. Defined.

Record DataVolumeSpec := mkDataVolumeSpec {
  DataVolumeSpec_Name : string;
  DataVolumeSpec_SizeGB : Z;
  DataVolumeSpec_Type : string
}.
#[export] Instance DataVolumeSpec_eq_dec : EqDecision DataVolumeSpec.
Proof. solve_decision. Defined.

Record InstanceSpec := mkInstanceSpec {
  InstanceSpec_Hostname : string;
  InstanceSpec_Description : string;
  InstanceSpec_InstanceType : string;
  InstanceSpec_Image : string;
  InstanceSpec_Location : string;
  InstanceSpec_SSHKeyIDs : list string;
  InstanceSpec_OSVolumeSizeGB : Z;
  InstanceSpec_Contract : string;
  InstanceSpec_Spot : bool;
  InstanceSpec_SpotDiscontinuePolicy : string;
  InstanceSpec_DataVolumes : list DataVolumeSpec;
  InstanceSpec_StartupScript : string;
  InstanceSpec_Tags : gmap string string
}.
#[export] Instance InstanceSpec_eq_dec : EqDecision InstanceSpec.
Proof. solve_decision. Defined.

Record InstanceTypeInfo := mkInstanceTypeInfo {
  InstanceTypeInfo_InstanceType : string;
  InstanceTypeInfo_CPUs : Z;
  InstanceTypeInfo_MemoryGB : Z;
  InstanceTypeInfo_GPUs : Z;
  InstanceTypeInfo_GPUModel : string
}.
#[export] Instance InstanceTypeInfo_eq_dec : EqDecision InstanceTypeInfo.
Proof. solve_decision. Defined.

(** [m[k]] of a Go [map[string]string]. *)
Definition map_get (m : gmap string string) (k : string) : string := default "" (m !! k).

(** [for k, v := range m]: Go leaves the order of iteration open. *)
Class MapRange := {
  map_range : ∀ {A}, gmap string A → list (string * A);
  map_range_perm : ∀ {A} (m : gmap string A), map_range m ≡ₚ map_to_list m
}.

(** Carries the tag every resource of the provider is created with. *)
Definition managed (tags : gmap string string) : bool :=
  bool_decide (map_get tags TagManagedBy = ManagedByValue).

(** The tags that say whose an instance is, and that one of them does. *)
Definition ownerKeys : list string := [TagMachine; TagLoadBalancer; TagServiceLoadBalancer].
Definition tagged_only (tags : gmap string string) (key value : string) : Prop :=
  map_get tags key = value ∧ ∀ key', key' ∈ ownerKeys → key' ≠ key → map_get tags key' = "".

(** For tags that are written out. *)
Ltac tagged_only :=
  let key := fresh "key" in let Hk := fresh "Hk" in let Hne := fresh "Hne" in
  split; [by vm_compute|]; intros key Hk Hne; unfold ownerKeys in Hk;
  repeat (apply elem_of_cons in Hk as [->|Hk]; [by first [by vm_compute|destruct Hne]|]);
  by apply not_elem_of_nil in Hk.

(** [type Client interface] *)
Inductive ClientE : Type → Type :=
| GetInstanceType (instanceType : string) : ClientE (result InstanceTypeInfo)
| GetInstance (id : string) : ClientE (result Instance)
| FindInstanceByHostname (hostname : string) : ClientE (result Instance)
| FindInstanceByTag (key value : string) : ClientE (result Instance)
| CreateInstance (spec : InstanceSpec) : ClientE (result Instance)
| DeleteStartupScriptByName (name : string) : ClientE (result unit)
| DeleteInstance (id : string) : ClientE (result unit)
| PurgeInstanceVolumes (id : string) : ClientE (result Z)
| DeleteStartupScript (id : string) : ClientE (result unit)
| GetVolume (id : string) : ClientE (result Volume)
| FindVolumeByName (name : string) : ClientE (result Volume)
| CloneVolume (sourceID name location : string) : ClientE (result string)
| DeleteVolume (id : string) : ClientE (result unit)
| EnsureVolumeTag (id : string) : ClientE (result unit).

(** The loop of [FindInstanceByHostname] and [FindInstanceByTag], in
    [sdkClient] over the listing and in [Fake] over the map: the first match
    that is not discontinued, or else the last discontinued one. *)
Fixpoint find_live (matches : Instance → bool) (instances : list Instance)
    (gone : option Instance) : option Instance :=
  match instances with
  | [] => gone
  | inst :: instances =>
      if negb (matches inst) then find_live matches instances gone
      else if bool_decide (Instance_Status inst = StatusDiscontinued)
           then find_live matches instances (Some inst)
           else Some inst
  end.

Definition live_match (matches : Instance → bool) (i : Instance) : bool :=
  matches i && bool_decide (Instance_Status i ≠ StatusDiscontinued).

Lemma find_live_gone matches instances gone :
  find_live matches instances gone =
  match List.find (live_match matches) instances with
  | Some live => Some live
  | None => match last (List.filter matches instances) with
            | Some g => Some g
            | None => gone
            end
  end.
Proof.
  revert gone. unfold live_match. induction instances as [|i l IH]; intros gone; [done|]. cbn.
  destruct (matches i) eqn:Hm; cbn; [|apply IH].
  repeat case_bool_decide; try done. rewrite IH. case_match; [done|].
  rewrite last_cons. by case_match.
Qed.

(** Lookup by tag or hostname: the result is the first matching instance that
    is not discontinued; only when there is none, the last discontinued match;
    and nothing exactly when no instance matches. *)
Theorem find_live_spec matches instances :
  find_live matches instances None =
  match List.find (live_match matches) instances with
  | Some live => Some live
  | None => last (List.filter matches instances)
  end.
Proof. rewrite find_live_gone. by repeat case_match. Qed.

Lemma find_live_unique matches l inst gone :
  inst ∈ l → live_match matches inst = true →
  (∀ x, x ∈ l → live_match matches x = true → x = inst) →
  find_live matches l gone = Some inst.
Proof.
  intros Hin Hm Hu. rewrite find_live_gone.
  destruct (List.find _ l) as [x|] eqn:Hf.
  - apply find_some in Hf as [Hx%list_elem_of_In Hmx]. f_equal. by apply Hu.
  - apply list_elem_of_In in Hin. rewrite (find_none _ _ Hf _ Hin) in Hm. done.
Qed.

Lemma find_live_sound matches l gone inst :
  find_live matches l gone = Some inst → gone = Some inst ∨ (inst ∈ l ∧ matches inst = true).
Proof.
  revert gone. induction l as [|i l IH]; intros gone; cbn; [by left|].
  destruct (matches i) eqn:Hm; cbn; [case_bool_decide|]; intros Hf.
  - apply IH in Hf as [[= ->]|[Hin ?]]; right; split; try done; [by left|by right].
  - simplify_eq. right. split; [by left|done].
  - apply IH in Hf as [->|[Hin ?]]; [by left|]. right. split; [by right|done].
Qed.

(** ** What an implementation of [Client] promises

    The controllers rely on lookups returning what was asked for.  The class
    is discharged by [sdkClient] over any Verda API, and by [Fake]. *)
Definition client_ok (X : Type) (e : ClientE X) : X → Prop :=
  match e in ClientE X return X → Prop with
  | GetInstanceType t => λ r, ∀ i, r = Ok i → InstanceTypeInfo_InstanceType i = t
  | FindInstanceByHostname hn => λ r, ∀ i, r = Ok i → Instance_Hostname i = hn
  | FindInstanceByTag k v => λ r, ∀ i, r = Ok i → map_get (Instance_Tags i) k = v
  | FindVolumeByName n => λ r, ∀ v, r = Ok v → Volume_Name v = n
  | PurgeInstanceVolumes _ => λ r, ∀ n, r = Ok n → (0 ≤ n)%Z
  | _ => λ _, True
  end.

Class CloudClient {S : Type} (Inv : S → Prop) (hdl : ∀ X, ClientE X → S → S * X) : Prop := {
  client_inv X e s : Inv s → Inv (hdl X e s).1;
  client_sound X e s : Inv s → client_ok X e (hdl X e s).2
}.
