(* ===== verification/GoMem.v ===== *)
(** * Memory

    Where the program shares memory (pointers, slices, maps) and a claim depends
    on it: a heap of typed cells, the operations of Go on it, and what it means
    for a copy to be deep. *)

From S2P Require Import Prelude GoStd Cloud.
From stdpp Require Import options.

Abbreviation loc := positive.

(** ** Programs on a heap *)

(** A heap of cells; a program that panics has no result. *)
Abbreviation heap := (gmap loc).
Definition HM (cell A : Type) := heap cell → option (heap cell * A).

#[export] Instance HM_ret cell : MRet (HM cell) := λ A a h, Some (h, a).
#[export] Instance HM_bind cell : MBind (HM cell) := λ A B k m h,
  match m h with
  | Some (h', a) => k a h'
  | None => None
  end.

(** Cells hold values of several types; a location is read at the type it was
    written at. *)
Class Storable (cell A : Type) := {
  inject : A → cell;
  project : cell → option A;
  project_inject a : project (inject a) = Some a
}.

(** The zero value of a type. *)
Class Zero (A : Type) := zero : A.

Section operations.
Context {cell : Type}.

Definition peek `{!Storable cell A} (h : heap cell) (l : loc) : option A := h !! l ≫= project.

Definition load `{!Storable cell A} (l : loc) : HM cell A := λ h, (λ a, (h, a)) <$> peek h l.

Definition store `{!Storable cell A} (l : loc) (a : A) : HM cell unit := λ h,
  (λ _ : A, (<[l := inject a]> h, tt)) <$> peek h l.

(** [new(A)], [make]. *)
Definition alloc `{!Storable cell A} (a : A) : HM cell loc := λ h,
  let l := fresh (dom h) in Some (<[l := inject a]> h, l).
End operations.

(** [*A]; [None] is nil. *)
Record ptr (A : Type) := Ptr { addr : option loc }.
Arguments Ptr {_}.
Arguments addr {_}.

(** [[]A]: nil, or [len] elements of an array from [off] on. *)
Inductive slice (A : Type) := SliceNil | SliceAt (array : loc) (off len : nat).
Arguments SliceNil {_}.
Arguments SliceAt {_}.

(** [map[string]A]. *)
Record mapref (A : Type) := MapRef { map_addr : option loc }.
Arguments MapRef {_}.
Arguments map_addr {_}.

#[export] Instance ptr_zero A : Zero (ptr A) := Ptr None.
#[export] Instance slice_zero A : Zero (slice A) := SliceNil.
#[export] Instance mapref_zero A : Zero (mapref A) := MapRef None.
#[export] Instance string_zero : Zero string := "".
#[export] Instance Z_zero : Zero Z := 0%Z.
#[export] Instance bool_zero : Zero bool := false.

(** ** What a value means

    A value in memory and what is found by following its references. *)

Class GoData (cell Mem Pure : Type) := {
  reads : heap cell → Mem → Pure → Prop;
  reads_mono h h' m p : h ⊆ h' → reads h m p → reads h' m p
}.

(** A type without references. *)
Definition flat {cell A B} (f : A → B) : GoData cell A B :=
  {| reads _ m p := f m = p; reads_mono _ _ _ _ _ H := H |}.

#[export] Instance string_data cell : GoData cell string string := flat id.
#[export] Instance Z_data cell : GoData cell Z Z := flat id.
#[export] Instance bool_data cell : GoData cell bool bool := flat id.

Section data.
Context {cell : Type}.

Lemma peek_mono `{!Storable cell A} (h h' : heap cell) l (a : A) : h ⊆ h' → peek h l = Some a → peek h' l = Some a.
Proof. intros Hs. unfold peek. rewrite !bind_Some. intros (c & Hc & Hp). exists c. split; [|done]. by eapply lookup_weaken. Qed.

Context `{!GoData cell A P, !Storable cell A}.

Definition ptr_reads (h : heap cell) (p : ptr A) (x : option P) : Prop :=
  match addr p, x with
  | None, None => True
  | Some l, Some x => ∃ a, peek h l = Some a ∧ reads h a x
  | _, _ => False
  end.

#[export] Program Instance ptr_data : GoData cell (ptr A) (option P) := {| reads := ptr_reads |}.
Next Obligation.
  intros h h' [[l|]] [x|] Hs; cbn; try done. intros (a & Ha & Hr). exists a.
  split; [by eapply peek_mono|by eapply reads_mono].
Qed.
End data.

Section sequences.
Context {cell : Type} `{!GoData cell A P}.

Definition list_reads (h : heap cell) (l : list A) (x : list P) : Prop := Forall2 (reads h) l x.

Lemma list_reads_mono h h' l x : h ⊆ h' → list_reads h l x → list_reads h' l x.
Proof. intros Hs Hl. eapply Forall2_impl; [exact Hl|]. intros. by eapply reads_mono. Qed.

Definition window (arr : list A) (off len : nat) : list A := take len (drop off arr).

Definition slice_reads `{!Storable cell (list A)} (h : heap cell) (s : slice A) (x : list P) : Prop :=
  match s with
  | SliceNil => x = []
  | SliceAt a off len =>
      ∃ arr, peek h a = Some arr ∧ (off + len ≤ List.length arr)%nat ∧ list_reads h (window arr off len) x
  end.

#[export] Program Instance slice_data `{!Storable cell (list A)} : GoData cell (slice A) (list P) :=
  {| reads := slice_reads |}.
Next Obligation.
  intros ? h h' [|a off len] x Hs; cbn; [done|]. intros (arr & Ha & Hlen & Hr). exists arr.
  split_and!; [by eapply peek_mono|done|by eapply list_reads_mono].
Qed.

Definition map_reads `{!Storable cell (gmap string A)} (h : heap cell) (m : mapref A) (x : gmap string P) : Prop :=
  match map_addr m with
  | None => x = ∅
  | Some l => ∃ m, peek h l = Some m ∧ ∀ k, option_Forall2 (reads h) (m !! k) (x !! k)
  end.

#[export] Program Instance map_data `{!Storable cell (gmap string A)} : GoData cell (mapref A) (gmap string P) :=
  {| reads := map_reads |}.
Next Obligation.
  intros ? h h' [[l|]] x Hs; cbn; [|done]. intros (m & Hm & Hr). exists m. split; [by eapply peek_mono|].
  intros k. destruct (Hr k); constructor. by eapply reads_mono.
Qed.
End sequences.

(** ** Copies *)

Section copies.
Context {cell : Type}.

(** [*out = new(A); **out = **in], if [in] is not nil. *)
Definition copy_ptr `{!Storable cell A, !Zero A} (p : ptr A) : HM cell (ptr A) :=
  match addr p with
  | None => mret p
  | Some l =>
      out ← alloc (zero : A);
      v ← load l;
      _ ← store out (v : A);
      mret (Ptr (Some out))
  end.

Definition slice_len {A} (s : slice A) : nat :=
  match s with SliceNil => 0 | SliceAt _ _ len => len end.

(** [make([]A, n)] *)
Definition make_slice {A} `{!Storable cell (list A), !Zero A} (n : nat) : HM cell (slice A) :=
  a ← alloc (replicate n (zero : A));
  mret (SliceAt a 0 n).

(** [s[i]], and an assignment to it: a panic if [i] is out of range. *)
Definition index {A} `{!Storable cell (list A)} (s : slice A) (i : nat) : HM cell A := λ h,
  match s with
  | SliceNil => None
  | SliceAt a off len =>
      if bool_decide (i < len)%nat then
        arr ← peek h a; (λ x : A, (h, x)) <$> (arr !! (off + i)%nat)
      else None
  end.
Definition set_index {A} `{!Storable cell (list A)} (s : slice A) (i : nat) (x : A) : HM cell unit := λ h,
  match s with
  | SliceNil => None
  | SliceAt a off len =>
      if bool_decide (i < len)%nat then
        arr ← peek h a; Some (<[a := inject (<[(off + i)%nat := x]> (arr : list A))]> h, tt)
      else None
  end.

(** [for i := range in { f(&in[i], &out[i]) }], from [i] on for [n] elements;
    [f] gives the value it writes. *)
Fixpoint copy_elements {A} `{!Storable cell (list A)} (f : A → HM cell A) (s out : slice A) (i n : nat) :
    HM cell unit :=
  match n with
  | 0 => mret tt
  | S n =>
      x ← index s i;
      y ← f x;
      _ ← set_index out i y;
      copy_elements f s out (S i) n
  end.

(** [*out = make([]A, len( *in)); for i := range *in { ... }], if [in] is not nil.
    [copy( *out, *in)] is the loop that assigns the elements. *)
Definition copy_slice_with {A} `{!Storable cell (list A), !Zero A} (f : A → HM cell A) (s : slice A) :
    HM cell (slice A) :=
  match s with
  | SliceNil => mret s
  | SliceAt _ _ _ =>
      out ← make_slice (slice_len s);
      _ ← copy_elements f s out 0 (slice_len s);
      mret out
  end.
Definition copy_slice {A} `{!Storable cell (list A), !Zero A} : slice A → HM cell (slice A) :=
  copy_slice_with mret.

(** [for key, val := range *in { ( *out)[key] = f(val) }] *)
Fixpoint copy_entries {A} `{!Storable cell (gmap string A)} (f : A → HM cell A) (out : loc) (l : list (string * A)) :
    HM cell unit :=
  match l with
  | [] => mret tt
  | (key, val) :: l =>
      v ← f val;
      m ← load out;
      _ ← store out (<[key := v]> (m : gmap string A));
      copy_entries f out l
  end.

Definition copy_map `{!MapRange} {A} `{!Storable cell (gmap string A)} (f : A → HM cell A) (m : mapref A) :
    HM cell (mapref A) :=
  match map_addr m with
  | None => mret m
  | Some l =>
      out ← alloc (∅ : gmap string A);
      src ← load l;
      _ ← copy_entries f out (map_range src);
      mret (MapRef (Some out))
  end.

(** The method [DeepCopy] of a type with the method [DeepCopyInto]. *)
Definition DeepCopy {A} `{!Storable cell A, !Zero A} (DeepCopyInto : A → HM cell A) (p : ptr A) : HM cell (ptr A) :=
  match addr p with
  | None => mret (Ptr None)
  | Some l =>
      out ← alloc (zero : A);
      v ← load l;
      v' ← DeepCopyInto v;
      _ ← store out v';
      mret (Ptr (Some out))
  end.
End copies.

(** ** Deep copies *)

(** A program that returns, with the heap and the result it returns. *)
Definition hwp {cell A} (m : HM cell A) (h : heap cell) (Q : heap cell → A → Prop) : Prop :=
  ∃ h' a, m h = Some (h', a) ∧ Q h' a.

Section hwp.
Context {cell : Type}.
Implicit Types h : heap cell.

Lemma hwp_ret {A} (a : A) h (Q : heap cell → A → Prop) : Q h a → hwp (mret a) h Q.
Proof. intros HQ. by exists h, a. Qed.

Lemma hwp_bind {A B} (m : HM cell A) (k : A → HM cell B) h Q :
  hwp m h (λ h' a, hwp (k a) h' Q) → hwp (m ≫= k) h Q.
Proof. intros (h1 & a & Hm & h2 & b & Hk & HQ). exists h2, b. split; [|done]. unfold mbind, HM_bind. by rewrite Hm. Qed.

Lemma hwp_mono {A} (m : HM cell A) h (Q Q' : heap cell → A → Prop) :
  hwp m h Q → (∀ h' a, Q h' a → Q' h' a) → hwp m h Q'.
Proof. intros (h' & a & Hm & HQ) Himp. exists h', a. auto. Qed.

Context `{!Storable cell A}.

Lemma hwp_load l (a : A) h Q : peek h l = Some a → Q h a → hwp (load l) h Q.
Proof. intros Hl HQ. exists h, a. unfold load. by rewrite Hl. Qed.

Lemma hwp_store l (a b : A) h Q : peek h l = Some b → Q (<[l := inject a]> h) tt → hwp (store l a) h Q.
Proof. intros Hl HQ. eexists _, tt. unfold store. by rewrite Hl. Qed.

Lemma hwp_alloc (a : A) h Q :
  (∀ l, l ∉ dom h → Q (<[l := inject a]> h) l) → hwp (alloc a) h Q.
Proof. intros HQ. eexists _, _. split; [done|]. apply HQ, is_fresh. Qed.

Lemma peek_insert l (a : A) h : peek (<[l := inject a]> h) l = Some a.
Proof. unfold peek. rewrite lookup_insert_eq. apply project_inject. Qed.
End hwp.

(** Everything the result refers to is new, and nothing that was there changed. *)
Definition copies {cell Mem Pure} `{!GoData cell Mem Pure} (f : Mem → HM cell Mem) : Prop :=
  ∀ h m x, reads h m x → hwp (f m) h (λ h' m', h ⊆ h' ∧ reads (h' ∖ h) m' x).

Section heaps.
Context {cell : Type}.
Implicit Types h : heap cell.

Lemma diff_mono_l h h1 h2 : h1 ⊆ h2 → h1 ∖ h ⊆ h2 ∖ h.
Proof.
  intros Hs. apply map_subseteq_spec. intros l c. rewrite !lookup_difference_Some.
  intros [Hc Hn]. split; [by eapply lookup_weaken|done].
Qed.
Lemma diff_mono_r h h1 h2 : dom h1 ⊆ dom h2 → h ∖ h2 ⊆ h ∖ h1.
Proof.
  intros Hs. apply map_subseteq_spec. intros l c. rewrite !lookup_difference_Some, <-!not_elem_of_dom.
  set_solver.
Qed.
Lemma alloc_subseteq h l c : l ∉ dom h → h ⊆ <[l := c]> h.
Proof. intros Hl. by apply insert_subseteq, not_elem_of_dom. Qed.

(** A cell that was not there before can be written without a trace in what was. *)
Lemma insert_new h h' l c : h ⊆ h' → l ∉ dom h → h ⊆ <[l := c]> h'.
Proof.
  intros Hs Hl. apply map_subseteq_spec. intros k d Hk. rewrite lookup_insert_ne; [by eapply lookup_weaken|].
  intros ->. by apply Hl, elem_of_dom_2 with d.
Qed.
Lemma insert_old h h' l c : l ∈ dom h → <[l := c]> h' ∖ h = h' ∖ h.
Proof.
  intros [d Hd]%elem_of_dom. apply map_eq. intros k. apply option_eq. intros e.
  rewrite !lookup_difference_Some. destruct (decide (k = l)) as [->|].
  - rewrite Hd. naive_solver.
  - by rewrite lookup_insert_ne.
Qed.
Lemma peek_diff `{!Storable cell A} h h' l : l ∉ dom h → peek (h' ∖ h) l = (peek h' l : option A).
Proof. intros Hl. unfold peek. by rewrite lookup_difference, (not_elem_of_dom_1 _ _ Hl). Qed.
End heaps.

(** A type without references. *)
Class Flat (cell A P : Type) `{!GoData cell A P} : Prop :=
  flat_reads h h' a x : reads h a x → reads h' a x.

#[export] Instance string_flat cell : Flat cell string string.
Proof. by intros ????. Qed.
#[export] Instance Z_flat cell : Flat cell Z Z.
Proof. by intros ????. Qed.
#[export] Instance bool_flat cell : Flat cell bool bool.
Proof. by intros ????. Qed.

Section correct.
Context {cell : Type} `{!GoData cell A P}.

Lemma mret_copies `{!Flat cell A P} : copies (mret : A → HM cell A).
Proof. intros h m x Hr. apply hwp_ret. split; [done|]. by eapply flat_reads. Qed.

Lemma copy_ptr_copies `{!Storable cell A, !Zero A, !Flat cell A P} : copies (copy_ptr : ptr A → _).
Proof.
  intros h [[l|]] [x|]; cbn; try done; [|intros _; by apply hwp_ret].
  intros (a & Ha & Hr). unfold copy_ptr. cbn. apply hwp_bind, hwp_alloc. intros out Hout.
  apply hwp_bind. eapply hwp_load; [eapply peek_mono; [by apply alloc_subseteq|exact Ha]|].
  apply hwp_bind. eapply hwp_store; [apply peek_insert|]. apply hwp_ret.
  rewrite insert_insert_eq. split; [by apply alloc_subseteq|]. exists a.
  split; [rewrite peek_diff by done; apply peek_insert|by eapply flat_reads].
Qed.

Context `{!Storable cell (list A)}.

Lemma hwp_index a off len arr i x h Q :
  peek h a = Some arr → (i < len)%nat → window arr off len !! i = Some x →
  Q h x → hwp (index (SliceAt a off len) i) h Q.
Proof.
  intros Ha Hi Hx HQ. exists h, x. unfold index. rewrite bool_decide_eq_true_2, Ha by done. cbn.
  unfold window in Hx. rewrite lookup_take_lt, lookup_drop in Hx by done. by rewrite Hx.
Qed.

Lemma hwp_set_index a len arr i (x : A) h Q :
  peek h a = Some arr → (i < len)%nat →
  Q (<[a := inject (<[i := x]> arr)]> h) tt → hwp (set_index (SliceAt a 0 len) i x) h Q.
Proof. intros Ha Hi HQ. eexists _, tt. unfold set_index. by rewrite bool_decide_eq_true_2, Ha. Qed.

(** The loop over the elements: what it wrote so far is new, and apart from the
    array it writes. *)
Lemma copy_elements_hwp f h0 hb src off len arr xs out i n h arr' :
  copies f → peek h0 src = Some arr → list_reads h0 (window arr off len) xs → List.length xs = len →
  dom hb = {[out]} ∪ dom h0 → out ∉ dom h0 → h0 ⊆ h → (i + n = len)%nat →
  peek h out = Some arr' → List.length arr' = len → list_reads (h ∖ hb) (take i arr') (take i xs) →
  hwp (copy_elements f (SliceAt src off len) (SliceAt out 0 len) i n) h (λ h' _,
    h0 ⊆ h' ∧ ∃ arr'', peek h' out = Some arr'' ∧ List.length arr'' = len ∧ list_reads (h' ∖ hb) arr'' xs).
Proof.
  intros Hf Hsrc Hxs Hlen Hdom Hout. revert i h arr'. induction n as [|n IH]; intros i h arr' Hs Hi Ha Hal Hr.
  { apply hwp_ret. split; [done|]. exists arr'. split_and!; [done..|].
    by rewrite !take_ge in Hr by lia. }
  cbn [copy_elements].
  destruct (lookup_lt_is_Some_2 xs i ltac:(lia)) as [x Hx].
  destruct (Forall2_lookup_r _ _ _ _ _ Hxs Hx) as (m & Hm & Hmx).
  apply hwp_bind. eapply hwp_index; [by eapply peek_mono|lia|exact Hm|].
  apply hwp_bind. eapply hwp_mono; [apply Hf; by eapply reads_mono|]. intros h1 y [Hs1 Hy].
  apply hwp_bind. eapply hwp_set_index; [by eapply peek_mono|lia|].
  apply (IH (Datatypes.S i) _ (<[i := y]> arr')); [..|lia| | |].
  - apply insert_new; [by etrans|done].
  - apply peek_insert.
  - by rewrite length_insert.
  - rewrite insert_old by set_solver.
    rewrite (take_S_r _ _ y) by (rewrite list_lookup_insert_eq; [done|lia]).
    rewrite (take_S_r _ _ x), take_insert_ge by done.
    apply Forall2_app; [eapply list_reads_mono; [by apply diff_mono_l|done]|].
    constructor; [|constructor]. eapply reads_mono; [|exact Hy]. apply diff_mono_r.
    rewrite Hdom. intros l [->%elem_of_singleton|Hl]%elem_of_union.
    + unfold peek in Ha. apply bind_Some in Ha as (c & Hc & _). by eapply elem_of_dom_2.
    + by eapply subseteq_dom.
Qed.

Lemma copy_slice_with_copies `{!Zero A} f : copies f → copies (copy_slice_with f : slice A → _).
Proof.
  intros Hf h [|src off len] xs; cbn; [intros ->; by apply hwp_ret|].
  intros (arr & Hsrc & Hlen & Hxs). unfold copy_slice_with, make_slice. cbn [slice_len].
  apply hwp_bind, hwp_bind, hwp_alloc. intros out Hout. apply hwp_ret.
  assert (List.length xs = len) as Hxl.
  { apply Forall2_length in Hxs. rewrite <-Hxs. unfold window. rewrite length_take, length_drop. lia. }
  set (hb := <[out := inject (replicate len (zero : A))]> h).
  apply hwp_bind. eapply hwp_mono.
  { apply (copy_elements_hwp f h hb src off len arr xs out 0 len hb (replicate len zero)); try done.
    - unfold hb. by rewrite dom_insert_L.
    - by apply alloc_subseteq.
    - apply peek_insert.
    - apply length_replicate.
    - constructor. }
  intros h' [] (Hs & arr'' & Ha & Hl & Hr). apply hwp_ret. split; [done|]. exists arr''.
  split_and!; [by rewrite peek_diff|lia|].
  unfold window. rewrite drop_0, take_ge by lia. eapply list_reads_mono; [|exact Hr].
  apply diff_mono_r. unfold hb. rewrite dom_insert_L. set_solver.
Qed.

Lemma copy_slice_copies `{!Zero A, !Flat cell A P} : copies (copy_slice : slice A → _).
Proof. apply copy_slice_with_copies, mret_copies. Qed.

(** The loop over the entries of a map. *)
Lemma copy_entries_hwp `{!Storable cell (gmap string A)} f h0 hb out (xs : gmap string P) l h (m : gmap string A) :
  copies f → dom hb = {[out]} ∪ dom h0 → out ∉ dom h0 →
  (∀ k v, (k, v) ∈ l → ∃ x, xs !! k = Some x ∧ reads h0 v x) → h0 ⊆ h → peek h out = Some m →
  (∀ k v, m !! k = Some v → ∃ x, xs !! k = Some x ∧ reads (h ∖ hb) v x) →
  hwp (copy_entries f out l) h (λ h' _, h0 ⊆ h' ∧ ∃ m', peek h' out = Some m' ∧
    (∀ k v, m' !! k = Some v → ∃ x, xs !! k = Some x ∧ reads (h' ∖ hb) v x) ∧
    ∀ k, is_Some (m' !! k) ↔ is_Some (m !! k) ∨ k ∈ l.*1).
Proof.
  intros Hf Hdom Hout. revert h m. induction l as [|[k v] l IH]; intros h m Hl Hs Hm Hr; cbn [copy_entries].
  { apply hwp_ret. split; [done|]. exists m. split_and!; [done..|]. intros k. cbn. set_solver. }
  destruct (Hl k v ltac:(by left)) as (x & Hx & Hv).
  apply hwp_bind. eapply hwp_mono; [apply Hf; by eapply reads_mono|]. intros h1 y [Hs1 Hy].
  assert (peek h1 out = Some m) as Hm1 by by eapply peek_mono.
  apply hwp_bind. eapply hwp_load; [exact Hm1|]. apply hwp_bind. eapply hwp_store; [exact Hm1|].
  eapply hwp_mono; [apply (IH _ (<[k := y]> m))|].
  - intros k' v' Hin. apply Hl. by right.
  - apply insert_new; [by etrans|done].
  - apply peek_insert.
  - rewrite insert_old by set_solver. intros k' v'. rewrite lookup_insert_Some.
    intros [[<- <-]|[_ Hk]].
    + exists x. split; [done|]. eapply reads_mono; [|exact Hy]. apply diff_mono_r.
      rewrite Hdom. intros l' [->%elem_of_singleton|Hl']%elem_of_union.
      * unfold peek in Hm. apply bind_Some in Hm as (c & Hc & _). by eapply elem_of_dom_2.
      * by eapply subseteq_dom.
    + destruct (Hr k' v' Hk) as (x' & ? & Hx'). exists x'. split; [done|].
      eapply reads_mono; [by apply diff_mono_l|done].
  - intros h2 [] (Hs2 & m' & Hm' & Hr' & Hd). split; [done|]. exists m'. split_and!; [done..|].
    intros k'. rewrite Hd, lookup_insert_is_Some. cbn. rewrite elem_of_cons.
    destruct (decide (k = k')); naive_solver.
Qed.

Lemma copy_map_copies `{!MapRange, !Storable cell (gmap string A)} f : copies f → copies (copy_map f : mapref A → _).
Proof.
  intros Hf h [[l|]] xs; cbn; [|intros ->; by apply hwp_ret].
  intros (src & Hsrc & Hxs). unfold copy_map. cbn. apply hwp_bind, hwp_alloc. intros out Hout.
  set (hb := <[out := inject (∅ : gmap string A)]> h).
  assert (h ⊆ hb) as Hhb by by apply alloc_subseteq.
  apply hwp_bind. eapply hwp_load; [eapply peek_mono; [exact Hhb|exact Hsrc]|].
  apply hwp_bind. eapply hwp_mono.
  { apply (copy_entries_hwp f h hb out xs (map_range src) hb ∅); try done.
    - unfold hb. by rewrite dom_insert_L.
    - intros k v. rewrite (map_range_perm src), elem_of_map_to_list. intros Hk.
      specialize (Hxs k). rewrite Hk in Hxs. inversion Hxs as [? x ? Hx Heq|]; subst. by exists x.
    - apply peek_insert. }
  intros h' [] (Hs & m' & Hm' & Hr & Hd). apply hwp_ret. split; [done|]. exists m'.
  split; [by rewrite peek_diff|]. intros k. destruct (m' !! k) as [v|] eqn:Hk.
  - destruct (Hr k v Hk) as (x & -> & Hx). constructor. eapply reads_mono; [|exact Hx].
    apply diff_mono_r. unfold hb. rewrite dom_insert_L. set_solver.
  - destruct (xs !! k) as [x|] eqn:Hx; [exfalso|constructor]. specialize (Hxs k). rewrite Hx in Hxs.
    inversion Hxs as [v ? ? Heq|]; subst. assert (is_Some (m' !! k)) as [v' Hv'].
    { apply Hd. right. apply list_elem_of_fmap. exists (k, v). split; [done|].
      by rewrite (map_range_perm src), elem_of_map_to_list. }
    congruence.
Qed.

(** [DeepCopy] makes a deep copy if [DeepCopyInto] does. *)
Lemma DeepCopy_copies `{!Storable cell A, !Zero A} f : copies f → copies (DeepCopy f : ptr A → _).
Proof.
  intros Hf h [[l|]] [x|]; cbn; try done; [|intros _; by apply hwp_ret].
  intros (a & Ha & Hr). unfold DeepCopy. cbn. apply hwp_bind, hwp_alloc. intros out Hout.
  set (hb := <[out := inject (zero : A)]> h).
  assert (h ⊆ hb) as Hhb by by apply alloc_subseteq.
  apply hwp_bind. eapply hwp_load; [by eapply peek_mono|].
  apply hwp_bind. eapply hwp_mono; [apply Hf; by eapply reads_mono|]. intros h1 y [Hs1 Hy].
  apply hwp_bind. eapply hwp_store; [eapply peek_mono; [exact Hs1|apply peek_insert]|]. apply hwp_ret.
  split; [apply insert_new; [by etrans|done]|]. exists y. split; [rewrite peek_diff by done; apply peek_insert|].
  eapply reads_mono; [|exact Hy]. etrans; [|apply diff_mono_r; by apply subseteq_dom].
  rewrite <-(insert_old hb h1 out (inject y)); [done|]. unfold hb. rewrite dom_insert_L. set_solver.
Qed.
End correct.

(** ** Structs

    The fields are copied one after the other; each step keeps what the steps
    before it made. *)
Lemma hwp_field {cell Mem Pure B} `{!GoData cell Mem Pure} (f : Mem → HM cell Mem) (k : Mem → HM cell B)
    h0 h m x (Q : heap cell → B → Prop) :
  copies f → reads h0 m x → h0 ⊆ h →
  (∀ h' m', h ⊆ h' → h0 ⊆ h' → reads (h' ∖ h0) m' x → hwp (k m') h' Q) → hwp (f m ≫= k) h Q.
Proof.
  intros Hf Hr Hs Hk. apply hwp_bind. eapply hwp_mono; [apply Hf; by eapply reads_mono|].
  intros h' m' [Hs' Hr']. apply Hk; [done|by etrans|]. eapply reads_mono; [|exact Hr'].
  apply diff_mono_r. by apply subseteq_dom.
Qed.

Lemma reads_later {cell Mem Pure} `{!GoData cell Mem Pure} h0 h h' m x :
  h ⊆ h' → reads (h ∖ h0) m x → reads (h' ∖ h0) m x.
Proof. intros Hs. apply reads_mono. by apply diff_mono_l. Qed.
