(* ===== verification/SdkClient.v ===== *)
(** * The Verda API client ([internal/cloud/client.go], type [sdkClient])

    The methods of [sdkClient] as programs over [ApiE], the calls of the Verda
    SDK they make.  The SDK and the service behind it are not part of the
    repository: their answers are left open, and the constants of the SDK the
    code refers to are the class [VerdaSDK]. *)

From S2P Require Import Prelude GoStd Effects Cloud.
From stdpp Require Import options.

Class VerdaSDK := {
  VolumeTypeNVMe : string;
  SpotDiscontinueDeletePermanent : string
}.

(** ** Data of the SDK *)

Record Tag := mkTag { Tag_Key : string; Tag_Value : string }.

Record ApiInstance := mkApiInstance {
  ApiInstance_ID : string;
  ApiInstance_Hostname : string;
  ApiInstance_Status : string;
  ApiInstance_Location : string;
  ApiInstance_InstanceType : string;
  ApiInstance_IP : option string;
  ApiInstance_StartupScriptID : option string;
  ApiInstance_OSVolumeID : option string;
  ApiInstance_VolumeIDs : list string;
  ApiInstance_Tags : list Tag
}.

Record ApiVolume := mkApiVolume {
  ApiVolume_ID : string;
  ApiVolume_Name : string;
  ApiVolume_Status : string;
  ApiVolume_Location : string;
  ApiVolume_IsOSVolume : bool;
  ApiVolume_InstanceID : option string;
  ApiVolume_Tags : list Tag
}.

Record ApiInstanceType := mkApiInstanceType {
  ApiInstanceType_InstanceType : string;
  ApiInstanceType_NumberOfCores : Z;
  ApiInstanceType_SizeInGigabytes : Z;
  ApiInstanceType_NumberOfGPUs : Z;
  ApiInstanceType_Model : string
}.

Record ApiScript := mkApiScript { ApiScript_ID : string; ApiScript_Name : string }.

Record OSVolumeCreateRequest := mkOSVolumeCreateRequest {
  OSVolumeReq_Name : string;
  OSVolumeReq_Size : Z;
  OSVolumeReq_OnSpotDiscontinue : string
}.

Record VolumeCreateRequest := mkVolumeCreateRequest {
  VolumeReq_Name : string;
  VolumeReq_Size : Z;
  VolumeReq_Type : string;
  VolumeReq_OnSpotDiscontinue : string
}.

Record CreateInstanceRequest := mkCreateInstanceRequest {
  Req_InstanceType : string;
  Req_Image : string;
  Req_Hostname : string;
  Req_Description : string;
  Req_SSHKeyIDs : list string;
  Req_LocationCode : string;
  Req_Contract : string;
  Req_IsSpot : bool;
  Req_OSVolume : option OSVolumeCreateRequest;
  Req_Volumes : list VolumeCreateRequest;
  Req_Tags : list Tag;
  Req_StartupScriptID : option string
}.

(** ** The calls *)

Inductive ApiE : Type → Type :=
| InstanceTypes_Get : ApiE (result (list ApiInstanceType))
| Instances_Get : ApiE (result (list ApiInstance))
| Instances_GetByID (id : string) : ApiE (result ApiInstance)
| Instances_Create (req : CreateInstanceRequest) : ApiE (result ApiInstance)
| Instances_Shutdown (id : string) : ApiE (result unit)
| Instances_Delete (ids volumeIDs : list string) (permanently : bool) : ApiE (result unit)
| StartupScripts_GetAll : ApiE (result (list ApiScript))
| StartupScripts_Add (name script : string) : ApiE (result ApiScript)
| StartupScripts_Delete (id : string) : ApiE (result unit)
| Volumes_Get (id : string) : ApiE (result ApiVolume)
| Volumes_List : ApiE (result (list ApiVolume))
| Volumes_GetInTrash : ApiE (result (list ApiVolume))
| Volumes_Clone (sourceID name location : string) : ApiE (result string)
| Volumes_AddTag (id : string) (tag : Tag) : ApiE (result unit)
| Volumes_Delete (id : string) (permanently : bool) : ApiE (result unit).

Definition StatusNotFoundHTTP : Z := 404.
Definition StatusConflictHTTP : Z := 409.

Definition isNotFound (err : error) : bool :=
  match errors_As_APIError err with
  | Some code => (code =? StatusNotFoundHTTP)%Z
  | None => false
  end.

(** ** Conversions *)

Definition hasTag (tags : list Tag) (key value : string) : bool :=
  existsb (λ t, bool_decide (Tag_Key t = key) && bool_decide (Tag_Value t = value)) tags.

Definition tags_map (tags : list Tag) : gmap string string :=
  foldl (λ m t, <[Tag_Key t := Tag_Value t]> m) ∅ tags.

Definition toInstance (i : ApiInstance) : Instance :=
  mkInstance (ApiInstance_ID i) (ApiInstance_Hostname i) (ApiInstance_Status i)
    (default "" (ApiInstance_IP i)) (ApiInstance_Location i) (ApiInstance_InstanceType i)
    (default "" (ApiInstance_StartupScriptID i)) (default "" (ApiInstance_OSVolumeID i))
    (tags_map (ApiInstance_Tags i)).

Definition toVolume (v : ApiVolume) : Volume :=
  mkVolume (ApiVolume_ID v) (ApiVolume_Name v) (ApiVolume_Status v) (ApiVolume_Location v)
    (ApiVolume_IsOSVolume v) (default "" (ApiVolume_InstanceID v))
    (hasTag (ApiVolume_Tags v) TagManagedBy ManagedByValue).

(** The identifiers of the OS and data volumes of an instance, in order and
    without empty or repeated ones. *)
Definition add_volume_id (ids : list string) (id : string) : list string :=
  if bool_decide (id ≠ "") && negb (bool_decide (id ∈ ids)) then ids ++ [id] else ids.

Definition instanceVolumeIDs (inst : ApiInstance) : list string :=
  let ids := match ApiInstance_OSVolumeID inst with
             | Some id => add_volume_id [] id
             | None => []
             end in
  foldl add_volume_id ids (ApiInstance_VolumeIDs inst).

(** ** The methods *)

Section sdkClient.
Context `{VerdaSDK, MapRange}.
Local Open Scope go_scope.

Definition sdk (A : Type) : Type := M unit ApiE A.

Definition errorf (pre : string) (e : error) : error := wrapError pre e "".

(** [if err != nil { if isNotFound(err) { return notfound }; return wrapped }] *)
Definition orNotFound {A} (r : result A) (pre : string) (nf : error) : sdk A :=
  match r with
  | Ok a => retM a
  | Err e => if isNotFound e then throw nf else throw (errorf pre e)
  end.

Fixpoint find_type (types : list ApiInstanceType) (instanceType : string) : option InstanceTypeInfo :=
  match types with
  | [] => None
  | t :: types =>
      if bool_decide (ApiInstanceType_InstanceType t ≠ instanceType)
      then find_type types instanceType
      else Some (mkInstanceTypeInfo (ApiInstanceType_InstanceType t)
             (ApiInstanceType_NumberOfCores t) (ApiInstanceType_SizeInGigabytes t)
             (ApiInstanceType_NumberOfGPUs t) (ApiInstanceType_Model t))
  end.

Definition sdk_GetInstanceType (instanceType : string) : sdk InstanceTypeInfo :=
  let? r := call InstanceTypes_Get in
  match r with
  | Err e => throw (errorf "listing instance types: " e)
  | Ok types => match find_type types instanceType with
                | Some info => retM info
                | None => throw ErrNotFound
                end
  end.

Definition sdk_GetInstance (id : string) : sdk Instance :=
  let? r := call (Instances_GetByID id) in
  let! inst := orNotFound r ("getting instance " +:+ id +:+ ": ") ErrNotFound in
  retM (toInstance inst).

Definition sdk_find (matches : Instance → bool) : sdk Instance :=
  let? r := call Instances_Get in
  match r with
  | Err e => throw (errorf "listing instances: " e)
  | Ok instances => match find_live matches (map toInstance instances) None with
                    | Some inst => retM inst
                    | None => throw ErrNotFound
                    end
  end.

Definition sdk_FindInstanceByHostname (hostname : string) : sdk Instance :=
  sdk_find (λ inst, bool_decide (Instance_Hostname inst = hostname)).

Definition sdk_FindInstanceByTag (key value : string) : sdk Instance :=
  sdk_find (λ inst, bool_decide (map_get (Instance_Tags inst) key = value)).

Definition sdk_DeleteStartupScript (id : string) : sdk unit :=
  let? r := call (StartupScripts_Delete id) in
  match r with
  | Ok _ => retM tt
  | Err e => if isNotFound e then retM tt
             else throw (errorf ("deleting startup script " +:+ id +:+ ": ") e)
  end.

Fixpoint delete_scripts (scripts : list ApiScript) (name : string) : sdk unit :=
  match scripts with
  | [] => retM tt
  | s :: scripts =>
      if bool_decide (ApiScript_Name s ≠ name) then delete_scripts scripts name
      else do! sdk_DeleteStartupScript (ApiScript_ID s) in
           delete_scripts scripts name
  end.

Definition sdk_DeleteStartupScriptByName (name : string) : sdk unit :=
  let? r := call StartupScripts_GetAll in
  match r with
  | Err e => throw (errorf "listing startup scripts: " e)
  | Ok scripts => delete_scripts scripts name
  end.

Definition spotPolicy (spec : InstanceSpec) : string :=
  if negb (InstanceSpec_Spot spec) then ""
  else if bool_decide (InstanceSpec_SpotDiscontinuePolicy spec = "")
       then SpotDiscontinueDeletePermanent
       else InstanceSpec_SpotDiscontinuePolicy spec.

(** An instance that holds the hostname and is not the provider's. *)
Definition hostname_conflict (hostname : string) (existing : Instance) : bool :=
  bool_decide (Instance_Hostname existing = hostname) &&
  bool_decide (Instance_Status existing ≠ StatusDiscontinued) &&
  negb (managed (Instance_Tags existing)).

Definition create_request (spec : InstanceSpec) : CreateInstanceRequest :=
  let osVolume :=
    if (0 <? InstanceSpec_OSVolumeSizeGB spec)%Z
    then Some (mkOSVolumeCreateRequest (InstanceSpec_Hostname spec +:+ "-os")
                 (InstanceSpec_OSVolumeSizeGB spec) (spotPolicy spec))
    else None in
  let volumes :=
    map (λ dv, mkVolumeCreateRequest
           (InstanceSpec_Hostname spec +:+ "-" +:+ DataVolumeSpec_Name dv)
           (DataVolumeSpec_SizeGB dv)
           (if bool_decide (DataVolumeSpec_Type dv = "") then VolumeTypeNVMe
            else DataVolumeSpec_Type dv)
           (spotPolicy spec))
      (InstanceSpec_DataVolumes spec) in
  let tags := map (λ '(k, v), mkTag k v) (map_range (InstanceSpec_Tags spec)) in
  mkCreateInstanceRequest (InstanceSpec_InstanceType spec) (InstanceSpec_Image spec)
    (InstanceSpec_Hostname spec) (InstanceSpec_Description spec) (InstanceSpec_SSHKeyIDs spec)
    (InstanceSpec_Location spec) (InstanceSpec_Contract spec) (InstanceSpec_Spot spec)
    osVolume volumes tags None.

Definition with_script (id : string) (r : CreateInstanceRequest) : CreateInstanceRequest :=
  mkCreateInstanceRequest (Req_InstanceType r) (Req_Image r) (Req_Hostname r)
    (Req_Description r) (Req_SSHKeyIDs r) (Req_LocationCode r) (Req_Contract r)
    (Req_IsSpot r) (Req_OSVolume r) (Req_Volumes r) (Req_Tags r) (Some id).

Definition set_script_id (id : string) (i : Instance) : Instance :=
  mkInstance (Instance_ID i) (Instance_Hostname i) (Instance_Status i) (Instance_IP i)
    (Instance_Location i) (Instance_InstanceType i) id (Instance_OSVolumeID i)
    (Instance_Tags i).

Definition sdk_CreateInstance (spec : InstanceSpec) : sdk Instance :=
  let hostname := InstanceSpec_Hostname spec in
  let? r := call Instances_Get in
  match r with
  | Err e => throw (errorf "listing instances: " e)
  | Ok instances =>
      match List.find (hostname_conflict hostname) (map toInstance instances) with
      | Some existing =>
          throw (errorf ("instance " +:+ Instance_ID existing +:+ ": ") ErrHostnameInUse)
      | None =>
          do! sdk_DeleteStartupScriptByName hostname in
          let req := create_request spec in
          let! req :=
            (if bool_decide (InstanceSpec_StartupScript spec ≠ "") then
               let? s := call (StartupScripts_Add hostname (InstanceSpec_StartupScript spec)) in
               match s with
               | Err e => throw (errorf ("creating startup script for " +:+ hostname +:+ ": ") e)
               | Ok script => retM (with_script (ApiScript_ID script) req)
               end
             else retM req) in
          let? created := call (Instances_Create req) in
          match created with
          | Err e =>
              let failed := errorf ("creating instance " +:+ hostname +:+ ": ") e in
              match Req_StartupScriptID req with
              | Some id => let? _ := call (StartupScripts_Delete id) in throw failed
              | None => throw failed
              end
          | Ok inst =>
              let out := toInstance inst in
              match Req_StartupScriptID req with
              | Some id => if bool_decide (Instance_StartupScriptID out = "")
                           then retM (set_script_id id out) else retM out
              | None => retM out
              end
          end
      end
  end.

Definition not_managed (id : string) (inst : ApiInstance) : error :=
  errorf ("instance " +:+ id +:+ " (" +:+ ApiInstance_Hostname inst +:+ "): ") ErrNotManaged.

Fixpoint purge_loop (ids : list string) (inTrash : list string) (pending : Z) : sdk Z :=
  match ids with
  | [] => retM pending
  | volID :: ids =>
      if bool_decide (volID ∈ inTrash) then
        let? r := call (Volumes_Delete volID true) in
        match r with
        | Err e => if isNotFound e then purge_loop ids inTrash pending
                   else throw (errorf ("purging volume " +:+ volID +:+ ": ") e)
        | Ok _ => purge_loop ids inTrash pending
        end
      else
        let? r := call (Volumes_Get volID) in
        match r with
        | Ok vol => if bool_decide (ApiVolume_Status vol ≠ VolumeStatusDeleted)
                    then purge_loop ids inTrash (pending + 1)
                    else purge_loop ids inTrash pending
        | Err e => if isNotFound e then purge_loop ids inTrash pending
                   else throw (errorf ("getting volume " +:+ volID +:+ ": ") e)
        end
  end.

Definition sdk_PurgeInstanceVolumes (id : string) : sdk Z :=
  let? r := call (Instances_GetByID id) in
  match r with
  | Err e => if isNotFound e then retM 0%Z
             else throw (errorf ("getting instance " +:+ id +:+ ": ") e)
  | Ok inst =>
      if negb (managed (Instance_Tags (toInstance inst))) then throw (not_managed id inst)
      else
        let ids := instanceVolumeIDs inst in
        let? t := call Volumes_GetInTrash in
        match t with
        | Err e => throw (errorf "listing trashed volumes: " e)
        | Ok trash => purge_loop ids (map ApiVolume_ID trash) 0
        end
  end.

Definition sdk_DeleteInstance (id : string) : sdk unit :=
  let? r := call (Instances_GetByID id) in
  match r with
  | Err e => if isNotFound e then retM tt
             else throw (errorf ("getting instance " +:+ id +:+ " before delete: ") e)
  | Ok inst =>
      if negb (managed (Instance_Tags (toInstance inst))) then throw (not_managed id inst)
      else
        let status := ApiInstance_Status inst in
        if bool_decide (status = StatusDiscontinued ∨ status = StatusDeleted) then
          do! sdk_PurgeInstanceVolumes id in retM tt
        else if bool_decide (status = StatusDeleting) then retM tt
        else if bool_decide (status = StatusOffline) then
          let? d := call (Instances_Delete [id] (instanceVolumeIDs inst) false) in
          match d with
          | Ok _ => retM tt
          | Err e => if isNotFound e then retM tt
                     else throw (errorf ("deleting instance " +:+ id +:+ ": ") e)
          end
        else
          let? d := call (Instances_Shutdown id) in
          match d with
          | Ok _ => retM tt
          | Err e => if isNotFound e then retM tt
                     else throw (errorf ("shutting down instance " +:+ id +:+ ": ") e)
          end
  end.

Definition sdk_GetVolume (id : string) : sdk Volume :=
  let? r := call (Volumes_Get id) in
  let! vol := orNotFound r ("getting volume " +:+ id +:+ ": ") ErrNotFound in
  retM (toVolume vol).

Definition sdk_FindVolumeByName (name : string) : sdk Volume :=
  let? r := call Volumes_List in
  match r with
  | Err e => throw (errorf "listing volumes: " e)
  | Ok volumes =>
      match List.find (λ v, bool_decide (ApiVolume_Name v = name)) volumes with
      | Some v => retM (toVolume v)
      | None => throw ErrNotFound
      end
  end.

Definition tagVolume (id : string) : sdk unit :=
  let? r := call (Volumes_AddTag id (mkTag TagManagedBy ManagedByValue)) in
  match r with
  | Ok _ => retM tt
  | Err e => if bool_decide (errors_As_APIError e = Some StatusConflictHTTP)
             then retM tt else throw e
  end.

Definition sdk_EnsureVolumeTag (id : string) : sdk unit := tagVolume id.

Definition sdk_CloneVolume (sourceID name location : string) : sdk string :=
  let? r := call (Volumes_Clone sourceID name location) in
  match r with
  | Err e => throw (errorf ("cloning volume " +:+ sourceID +:+ " as " +:+ name +:+ ": ") e)
  | Ok id => let? _ := tagVolume id in retM id
  end.

Definition sdk_DeleteVolume (id : string) : sdk unit :=
  let? r := call (Volumes_Get id) in
  match r with
  | Err e => if isNotFound e then retM tt
             else throw (errorf ("getting volume " +:+ id +:+ " before delete: ") e)
  | Ok vol =>
      if negb (hasTag (ApiVolume_Tags vol) TagManagedBy ManagedByValue) then
        throw (errorf ("volume " +:+ id +:+ " (" +:+ ApiVolume_Name vol +:+ "): ") ErrNotManaged)
      else
        let? d := call (Volumes_Delete id true) in
        match d with
        | Ok _ => retM tt
        | Err e => if isNotFound e then retM tt
                   else throw (errorf ("deleting volume " +:+ id +:+ ": ") e)
        end
  end.

(** [sdkClient] implements [Client]. *)
Definition run_sdk {A} (m : sdk A) : prog ApiE (result A) :=
  bind (m tt) (λ '(_, r), Ret r).

Definition sdkClient (X : Type) (e : ClientE X) : prog ApiE X :=
  match e with
  | GetInstanceType t => run_sdk (sdk_GetInstanceType t)
  | GetInstance id => run_sdk (sdk_GetInstance id)
  | FindInstanceByHostname h => run_sdk (sdk_FindInstanceByHostname h)
  | FindInstanceByTag k v => run_sdk (sdk_FindInstanceByTag k v)
  | CreateInstance spec => run_sdk (sdk_CreateInstance spec)
  | DeleteStartupScriptByName n => run_sdk (sdk_DeleteStartupScriptByName n)
  | DeleteInstance id => run_sdk (sdk_DeleteInstance id)
  | PurgeInstanceVolumes id => run_sdk (sdk_PurgeInstanceVolumes id)
  | DeleteStartupScript id => run_sdk (sdk_DeleteStartupScript id)
  | GetVolume id => run_sdk (sdk_GetVolume id)
  | FindVolumeByName n => run_sdk (sdk_FindVolumeByName n)
  | CloneVolume s n l => run_sdk (sdk_CloneVolume s n l)
  | DeleteVolume id => run_sdk (sdk_DeleteVolume id)
  | EnsureVolumeTag id => run_sdk (sdk_EnsureVolumeTag id)
  end.
End sdkClient.

(** ** Only managed resources are touched

    The README promises that the client refuses to delete anything that does
    not carry [capi-managed-by].  [destructive_ok] is that promise for each
    call that destroys something: the answers received so far must show that
    its target is the provider's. *)

Definition seen_instance (h : hist ApiE) (id : string) (inst : ApiInstance) : Prop :=
  Obs (Instances_GetByID id) (Ok inst) ∈ h ∧ managed (Instance_Tags (toInstance inst)) = true.

Definition destructive_ok (h : hist ApiE) (X : Type) (e : ApiE X) : Prop :=
  match e with
  | Instances_Shutdown id => ∃ inst, seen_instance h id inst
  | Instances_Delete ids vols permanently =>
      ∃ id inst, ids = [id] ∧ seen_instance h id inst ∧
        ApiInstance_Status inst = StatusOffline ∧ vols = instanceVolumeIDs inst ∧
        permanently = false
  | Volumes_Delete v _ =>
      (∃ id inst trash, seen_instance h id inst ∧ v ∈ instanceVolumeIDs inst ∧
         Obs Volumes_GetInTrash (Ok trash) ∈ h ∧ v ∈ map ApiVolume_ID trash) ∨
      (∃ vol, Obs (Volumes_Get v) (Ok vol) ∈ h ∧
         hasTag (ApiVolume_Tags vol) TagManagedBy ManagedByValue = true)
  | _ => True
  end.

Definition managed_only : protocol ApiE := any_answer destructive_ok.

(** What the answers say about a volume that needs no more work. *)
Definition volume_done (h : hist ApiE) (v : string) : Prop :=
  Obs (Volumes_Delete v true) (Ok tt) ∈ h ∨
  (∃ e, Obs (Volumes_Delete v true) (Err e) ∈ h ∧ isNotFound e = true) ∨
  (∃ e, Obs (Volumes_Get v) (Err e) ∈ h ∧ isNotFound e = true) ∨
  (∃ vol, Obs (Volumes_Get v) (Ok vol) ∈ h ∧ ApiVolume_Status vol = VolumeStatusDeleted).

Lemma volume_done_mono h h' v : h ⊆ h' → volume_done h v → volume_done h' v.
Proof.
  intros Hs [Hd|[(e & Hd & ?)|[(e & Hd & ?)|(vol & Hd & ?)]]]; unfold volume_done.
  - left. by apply Hs.
  - right; left. exists e. split; [by apply Hs|done].
  - do 2 right; left. exists e. split; [by apply Hs|done].
  - do 3 right. exists vol. split; [by apply Hs|done].
Qed.

Lemma seen_instance_mono h h' id inst : h ⊆ h' → seen_instance h id inst → seen_instance h' id inst.
Proof. intros Hs [Hi Hm]. split; [by apply Hs|done]. Qed.

Section sdk_proofs.
Context `{VerdaSDK, MapRange}.

Lemma delete_scripts_wp scripts name h :
  wpM managed_only (delete_scripts scripts name) tt h (λ _ _ _, True).
Proof.
  revert h. induction scripts as [|s scripts IH]; intros h; cbn [delete_scripts]; [done|].
  unfold sdk_DeleteStartupScript. wp_steps; auto.
Qed.

Lemma purge_loop_wp id inst trash ids pending h :
  seen_instance h id inst →
  Obs Volumes_GetInTrash (Ok trash) ∈ h →
  (∀ v, v ∈ ids → v ∈ instanceVolumeIDs inst) →
  wpM managed_only (purge_loop ids (map ApiVolume_ID trash) pending) tt h
    (λ h' _ r, ∀ n, r = Ok n →
       (pending ≤ n)%Z ∧ (n = pending → ∀ v, v ∈ ids → volume_done h' v)).
Proof.
  revert pending h. induction ids as [|v ids IH]; intros pending h Hseen Htrash Hids.
  { cbn. intros n [= <-]. split; [lia|]. intros _ v Hv. inv Hv. }
  cbn [purge_loop].
  assert (∀ p h', h ⊆ h' →
    (p = (pending + 1)%Z ∨ p = pending ∧ volume_done h' v) →
    wpM managed_only (purge_loop ids (map ApiVolume_ID trash) p) tt h'
      (λ h'' _ r, ∀ n, r = Ok n → (pending ≤ n)%Z ∧
         (n = pending → ∀ w, w ∈ v :: ids → volume_done h'' w))) as Hrest.
  { intros p h' Hsub Hp. eapply wpM_mono.
    - apply wpM_grow, (IH p h'); [by eapply seen_instance_mono|hist|].
      intros w Hw. apply Hids. by right.
    - intros h'' _ r [Hsub' HQ] n Hn. destruct (HQ n Hn) as [Hle Hdone].
      destruct Hp as [->|[-> Hv]]; [split; [lia|lia]|].
      split; [done|]. intros -> w Hw. apply elem_of_cons in Hw as [->|Hw]; [|auto].
      by eapply volume_done_mono. }
  case_bool_decide as Hin; wp_steps; try (by intros).
  - left. exists id, inst, trash. repeat split; [apply Hseen..|apply Hids; by left|done|done].
  - apply Hrest; [hist|]. right. split; [done|]. left. destruct a. hist.
  - apply Hrest; [hist|]. right. split; [done|]. right; left. eexists; split; [hist|done].
  - apply Hrest; [hist|]. by left.
  - bool_to_prop. apply Hrest; [hist|]. right. split; [done|].
    right; right; right. eexists. split; [hist|done].
  - apply Hrest; [hist|]. right. split; [done|]. right; right; left.
    eexists; split; [hist|done].
Qed.

(** A completed purge: no instance any more, or every volume of it done. *)
Definition purge_post (id : string) (h : hist ApiE) (r : result Z) : Prop :=
  ∀ n, r = Ok n → (0 ≤ n)%Z ∧
    (n = 0%Z →
     (∃ e, Obs (Instances_GetByID id) (Err e) ∈ h ∧ isNotFound e = true) ∨
     (∃ inst, seen_instance h id inst ∧ ∀ v, v ∈ instanceVolumeIDs inst → volume_done h v)).

Lemma sdk_PurgeInstanceVolumes_wp id h :
  wpM managed_only (sdk_PurgeInstanceVolumes id) tt h (λ h' _ r, purge_post id h' r).
Proof.
  unfold sdk_PurgeInstanceVolumes. wp_steps; unfold purge_post; try done.
  - bool_to_prop. rename a into inst, a0 into trash.
    set (h1 := Obs Volumes_GetInTrash (Ok trash) :: _).
    assert (seen_instance h1 id inst) as Hseen by (unfold h1; split; [hist|done]).
    eapply wpM_mono; [apply wpM_grow, (purge_loop_wp id inst trash); [done|by left|done]|].
    intros h' _ r1 [Hsub HQ] n Hn. destruct (HQ n Hn) as [Hle Hdone]. split; [done|].
    intros ->. right. exists inst. split; [by eapply seen_instance_mono|auto].
  - intros n [= <-]. split; [done|]. intros _. left. eexists. split; [hist|done].
Qed.

Lemma sdk_DeleteInstance_wp id h :
  wpM managed_only (sdk_DeleteInstance id) tt h (λ _ _ _, True).
Proof.
  unfold sdk_DeleteInstance. wp_steps; bool_to_prop.
  - eapply wpM_mono; [apply sdk_PurgeInstanceVolumes_wp|]. intros h' [] [n|e'] _; done.
  - exists id, a. repeat split; [hist|done|done].
  - exists a. split; [hist|done].
Qed.

Lemma sdk_DeleteVolume_wp id h :
  wpM managed_only (sdk_DeleteVolume id) tt h (λ _ _ _, True).
Proof.
  unfold sdk_DeleteVolume. wp_steps. bool_to_prop. right. eexists. split; [hist|done].
Qed.

Lemma sdk_CreateInstance_managed spec h :
  wpM managed_only (sdk_CreateInstance spec) tt h (λ _ _ _, True).
Proof.
  unfold sdk_CreateInstance, sdk_DeleteStartupScriptByName. wp_steps.
  eapply wpM_mono; [apply delete_scripts_wp|]. intros h' [] [[]|e] _; [|done].
  wp_steps.
Qed.

Lemma run_sdk_wp {A} (P : protocol ApiE) (m : sdk A) h Q :
  wpM P m tt h (λ h' _ r, Q h' r) → wp P (run_sdk m) h Q.
Proof. intros Hm. apply wp_bind. eapply wp_mono; [|exact Hm]. by intros h' [[] r]. Qed.

Lemma exec_run_sdk {A} (P : protocol ApiE) (m : sdk A) h h' r :
  exec P (run_sdk m) h h' r ↔ exec P (m tt) h h' (tt, r).
Proof.
  unfold run_sdk. rewrite exec_bind. split; [|intros He; by exists h', (tt, r)].
  by intros (h1 & [[] r1] & H1 & [-> ->]).
Qed.

Lemma sdkClient_managed_wp X (e : ClientE X) h : wp managed_only (sdkClient X e) h (λ _ _, True).
Proof.
  destruct e; apply run_sdk_wp;
    unfold sdk_GetInstanceType, sdk_GetInstance, sdk_FindInstanceByHostname,
      sdk_FindInstanceByTag, sdk_find, sdk_GetVolume, sdk_FindVolumeByName,
      sdk_DeleteStartupScriptByName, sdk_DeleteStartupScript, sdk_CloneVolume,
      sdk_EnsureVolumeTag, tagVolume, orNotFound;
    try solve [wp_steps].
  - apply sdk_CreateInstance_managed.
  - wp_steps. apply delete_scripts_wp.
  - apply sdk_DeleteInstance_wp.
  - eapply wpM_mono; [apply sdk_PurgeInstanceVolumes_wp|done].
  - apply sdk_DeleteVolume_wp.
Qed.

(** (C1) Whatever the Verda API answers, no method of the client shuts down or
    deletes an instance, or deletes a volume, unless an answer received in the
    same call shows that the target carries the tag [capi-managed-by] (an
    instance or volume so tagged, or a trashed volume of such an instance);
    an instance is only ever deleted when offline and with exactly its own
    volumes. *)
Theorem sdk_touches_only_managed X (e : ClientE X) h r :
  exec managed_only (sdkClient X e) [] h r → respects managed_only h.
Proof.
  intros Hex. refine (proj2 (wp_exec managed_only _ [] h r (λ _ _, True) _ I Hex)).
  apply sdkClient_managed_wp.
Qed.

(** Two-phase deletion.  One [DeleteInstance] looks at the instance once and
    then makes at most one of the two state-changing calls: a missing instance
    counts as deleted, an unmanaged one is refused with [ErrNotManaged], a
    deleting one is left alone, an offline one is deleted with its volumes,
    and a live one is only shut down. *)
Theorem sdk_DeleteInstance_phases id h r :
  exec managed_only (sdkClient _ (DeleteInstance id)) [] h r →
  (∃ e, h = [Obs (Instances_GetByID id) (Err e)] ∧ (r = Ok tt ↔ isNotFound e = true)) ∨
  (∃ inst, let get := Obs (Instances_GetByID id) (Ok inst) in
     let status := ApiInstance_Status inst in
     if managed (Instance_Tags (toInstance inst)) then
       if bool_decide (status = StatusDiscontinued ∨ status = StatusDeleted) then
         ∃ r', exec managed_only (sdkClient _ (PurgeInstanceVolumes id)) [get] h r' ∧
           r = match r' with Ok _ => Ok tt | Err e => Err e end
       else if bool_decide (status = StatusDeleting) then h = [get] ∧ r = Ok tt
       else if bool_decide (status = StatusOffline) then
         ∃ d, h = [Obs (Instances_Delete [id] (instanceVolumeIDs inst) false) d; get]
       else ∃ d, h = [Obs (Instances_Shutdown id) d; get]
     else h = [get] ∧ ∃ e, r = Err e ∧ errors_Is e ErrNotManaged = true).
Proof.
  cbn [sdkClient]. rewrite exec_run_sdk. unfold sdk_DeleteInstance.
  intros Hex. exec_step Hex.
  match goal with H : exec _ (call _ _) _ _ _ |- _ => exec_step H end.
  destruct x1 as [inst|e]; [right; exists inst|left; exists e];
    cbn beta iota in Hex.
  - destruct (managed _) eqn:Hm; cbn beta iota delta [negb] in Hex.
    2: { exec_step Hex. split; [done|]. eexists. split; [done|].
         unfold not_managed, errorf. by rewrite errors_Is_wrap. }
    case_bool_decide.
    { exec_step Hex. destruct x0. exists x1. rewrite exec_run_sdk.
      destruct x1; [exec_step Hex|destruct Hex as (-> & _ & ->)]; done. }
    case_bool_decide; [by exec_step Hex|].
    case_bool_decide; exec_step Hex;
      match goal with H : exec _ (call _ _) _ _ _ |- _ => exec_step H end;
      exists x1; destruct x1 as [|e]; try destruct (isNotFound e); by exec_step Hex.
  - destruct (isNotFound e); exec_step Hex; done.
Qed.

(** A purge that reports nothing pending is complete: the instance no longer
    exists, or every volume of it was deleted permanently from the trash, no
    longer exists, or is reported deleted. *)
Theorem sdk_purge_complete id h :
  exec managed_only (sdkClient _ (PurgeInstanceVolumes id)) [] h (Ok 0%Z) →
  (∃ e, Obs (Instances_GetByID id) (Err e) ∈ h ∧ isNotFound e = true) ∨
  (∃ inst, seen_instance h id inst ∧ ∀ v, v ∈ instanceVolumeIDs inst → volume_done h v).
Proof.
  cbn [sdkClient]. intros Hex.
  assert (wp managed_only (run_sdk (sdk_PurgeInstanceVolumes id)) [] (purge_post id)) as Hwp
    by (apply run_sdk_wp, sdk_PurgeInstanceVolumes_wp).
  destruct (wp_exec _ _ _ _ _ _ Hwp I Hex) as [Hpost _]. by apply (Hpost 0%Z).
Qed.

Lemma add_volume_id_spec ids id v :
  v ∈ add_volume_id ids id ↔ v ∈ ids ∨ (v = id ∧ id ≠ "").
Proof.
  unfold add_volume_id. repeat case_bool_decide; cbn; rewrite ?elem_of_app, ?list_elem_of_singleton;
    naive_solver.
Qed.

Lemma add_volume_id_NoDup ids id : NoDup ids → NoDup (add_volume_id ids id).
Proof.
  intros Hnd. unfold add_volume_id. repeat case_bool_decide; cbn; try done.
  apply NoDup_app. split_and!; [done|set_solver|apply NoDup_singleton].
Qed.

Lemma foldl_add_volume_id ids l :
  NoDup ids →
  NoDup (foldl add_volume_id ids l) ∧
  ∀ v, v ∈ foldl add_volume_id ids l ↔ v ∈ ids ∨ (v ∈ l ∧ v ≠ "").
Proof.
  revert ids. induction l as [|x l IH]; intros ids Hnd; cbn.
  - split; [done|]. set_solver.
  - destruct (IH (add_volume_id ids x)) as [H1 H2]; [by apply add_volume_id_NoDup|].
    split; [done|]. intros v. rewrite H2, add_volume_id_spec, elem_of_cons. naive_solver.
Qed.

(** The volumes sent with a delete are exactly the OS volume and the attached
    volumes of the instance: none is missing, empty or repeated. *)
Theorem instanceVolumeIDs_spec inst :
  NoDup (instanceVolumeIDs inst) ∧
  ∀ v, v ∈ instanceVolumeIDs inst ↔
       v ≠ "" ∧ (ApiInstance_OSVolumeID inst = Some v ∨ v ∈ ApiInstance_VolumeIDs inst).
Proof.
  unfold instanceVolumeIDs.
  set (ids := match ApiInstance_OSVolumeID inst with Some id => _ | None => _ end).
  assert (NoDup ids) as Hnd.
  { subst ids. case_match; [apply add_volume_id_NoDup|]; constructor. }
  destruct (foldl_add_volume_id ids (ApiInstance_VolumeIDs inst) Hnd) as [H1 H2].
  split; [done|]. intros v. rewrite H2.
  assert (v ∈ ids ↔ v ≠ "" ∧ ApiInstance_OSVolumeID inst = Some v) as ->; [|naive_solver].
  subst ids. destruct (ApiInstance_OSVolumeID inst); [rewrite add_volume_id_spec|];
    rewrite ?elem_of_nil; naive_solver.
Qed.

(** What a history says about startup scripts and created instances. *)
Definition created_request (o : obs ApiE) : option CreateInstanceRequest :=
  match o with Obs e _ => match e with Instances_Create req => Some req | _ => None end end.

Definition added_script (o : obs ApiE) : option string :=
  match o with Obs e r =>
    match e in ApiE X return X → option string with
    | StartupScripts_Add _ _ => λ r, match r with Ok s => Some (ApiScript_ID s) | Err _ => None end
    | _ => λ _, None
    end r
  end.

Definition deleted_script (o : obs ApiE) : option string :=
  match o with Obs e _ => match e with StartupScripts_Delete id => Some id | _ => None end end.

(** When an instance may be created for [spec]. *)
Definition create_ok (spec : InstanceSpec) (h : hist ApiE) (X : Type) (e : ApiE X) : Prop :=
  match e with
  | Instances_Create req =>
      omap created_request h = [] ∧
      (∃ instances, Obs Instances_Get (Ok instances) ∈ h ∧
         Forall (λ i, hostname_conflict (InstanceSpec_Hostname spec) i = false)
           (map toInstance instances)) ∧
      Req_Hostname req = InstanceSpec_Hostname spec ∧
      Req_Tags req ≡ₚ map (λ '(k, v), mkTag k v) (map_to_list (InstanceSpec_Tags spec)) ∧
      (InstanceSpec_StartupScript spec ≠ "" →
         ∃ s, Req_StartupScriptID req = Some s ∧ s ∈ omap added_script h)
  | _ => True
  end.

Definition create_protocol (spec : InstanceSpec) : protocol ApiE := any_answer (create_ok spec).

Lemma delete_scripts_create spec scripts name h :
  wpM (create_protocol spec) (delete_scripts scripts name) tt h
    (λ h' _ _, h ⊆ h' ∧ omap created_request h' = omap created_request h ∧
               omap added_script h' = omap added_script h).
Proof.
  revert h. induction scripts as [|s scripts IH]; intros h; cbn [delete_scripts]; [done|].
  unfold sdk_DeleteStartupScript. case_bool_decide; [apply IH|].
  wp_steps; try (split_and!; [hist|done|done]);
    (eapply wpM_mono; [apply IH|]; intros h' [] r (Hs & Hc & Ha);
     split_and!; [by eapply hist_sub_trans; [apply hist_sub_cons|]|done|done]).
Qed.

Lemma find_none_Forall {A} (f : A → bool) l : List.find f l = None → Forall (λ x, f x = false) l.
Proof. intros Hf. apply Forall_forall. intros x Hx. by apply (find_none f l Hf), list_elem_of_In. Qed.

Lemma create_request_tags spec :
  Req_Tags (create_request spec) ≡ₚ map (λ '(k, v), mkTag k v) (map_to_list (InstanceSpec_Tags spec)).
Proof. cbn. apply Permutation_map, map_range_perm. Qed.

Lemma sdk_CreateInstance_wp spec :
  wp (create_protocol spec) (run_sdk (sdk_CreateInstance spec)) []
    (λ h r, ∀ e, r = Err e → omap added_script h ⊆ omap deleted_script h).
Proof.
  apply run_sdk_wp. unfold sdk_CreateInstance, sdk_DeleteStartupScriptByName.
  wp_steps; try (intros; by apply list_subseteq_nil).
  rename a into instances, a0 into scripts.
  match goal with H : List.find _ _ = None |- _ => apply find_none_Forall in H end.
  eapply wpM_mono; [apply delete_scripts_create|].
  intros h' [] [[]|e] (Hsub & Hc & Ha); [|intros; by rewrite Ha; apply list_subseteq_nil].
  assert (Obs Instances_Get (Ok instances) ∈ h') by hist.
  wp_steps; cbn [create_protocol any_answer guar create_ok]; bool_to_prop;
    rewrite ?Hc, ?Ha; try (split_and!; [done|eauto with verda|done|apply create_request_tags|]);
    try done.
  all: try (intros; eexists; split; [done|]; cbn; left).
  all: cbn; rewrite ?Ha; set_solver.
Qed.

(** Creating an instance: whatever the API answers, at most one instance is
    requested, under the hostname and with the tags of the specification (the
    managed-by tag among them when the specification has it), with the startup
    script just stored for it, and only after a listing without a foreign live
    instance of that hostname; and a call that fails leaves no script behind that
    it stored and did not try to delete. *)
Theorem sdk_CreateInstance_safe spec h r :
  exec (create_protocol spec) (sdkClient _ (CreateInstance spec)) [] h r →
  respects (create_protocol spec) h ∧
  (∀ e, r = Err e → omap added_script h ⊆ omap deleted_script h).
Proof.
  cbn [sdkClient]. intros Hex. destruct (wp_exec _ _ _ _ _ _ (sdk_CreateInstance_wp spec) I Hex) as [HQ HR].
  by split.
Qed.

(** ** The interface *)

Lemma find_type_sound types t info :
  find_type types t = Some info → InstanceTypeInfo_InstanceType info = t.
Proof.
  induction types as [|x types IH]; cbn; [done|]. case_bool_decide as Hx; [done|].
  by intros [= <-].
Qed.

Lemma purge_loop_nonneg (P : protocol ApiE) ids inTrash pending h :
  (∀ h X e, guar P h X e) → (0 ≤ pending)%Z →
  wpM P (purge_loop ids inTrash pending) tt h (λ _ _ r, ∀ n, r = Ok n → (0 ≤ n)%Z).
Proof.
  intros HP. revert pending h. induction ids as [|v ids IH]; intros pending h Hp; cbn [purge_loop].
  { cbn. by intros n [= <-]. }
  wp_steps; try apply HP; try (apply IH; lia); by intros.
Qed.

Lemma sdkClient_wp_ok X (e : ClientE X) h :
  wp (any_answer (λ _ _ _, True)) (sdkClient X e) h (λ _ r, client_ok X e r).
Proof.
  destruct e; cbn [client_ok]; try (apply wp_any; done); apply run_sdk_wp.
  - unfold sdk_GetInstanceType. wp_steps; try done.
    intros info [= <-]. by eapply find_type_sound.
  - unfold sdk_FindInstanceByHostname, sdk_find. wp_steps; try done.
    intros inst [= <-].
    match goal with H : find_live _ _ _ = _ |- _ => apply find_live_sound in H as [?|[_ ?]] end;
      by bool_to_prop.
  - unfold sdk_FindInstanceByTag, sdk_find. wp_steps; try done.
    intros inst [= <-].
    match goal with H : find_live _ _ _ = _ |- _ => apply find_live_sound in H as [?|[_ ?]] end;
      by bool_to_prop.
  - unfold sdk_PurgeInstanceVolumes. wp_steps; try done; [|by intros n [= <-]].
    by apply purge_loop_nonneg.
  - unfold sdk_FindVolumeByName. wp_steps; try done.
    match goal with H : List.find _ _ = _ |- _ => apply find_some in H as [_ Hn] end.
    intros v [= <-]. cbn. by bool_to_prop.
Qed.

Lemma sdkClient_run_ok {S} (api : ∀ X, ApiE X → S → S * X) X (e : ClientE X) s :
  client_ok X e (run api (sdkClient X e) s).2.
Proof.
  destruct (run_wp api (λ _, True) (any_answer (λ _ _ _, True)) (sdkClient X e) []
    (λ _ r, client_ok X e r) s) as [_ (h' & Hok & _)]; [done|apply sdkClient_wp_ok|done|done].
Qed.

(** [sdkClient] keeps the promises of [Client] over any Verda API: every
    lookup by tag, hostname or name returns a resource with that tag,
    hostname or name, and the number of pending volumes is not negative. *)
Theorem sdkClient_sound {S} (api : ∀ X, ApiE X → S → S * X) :
  CloudClient (λ _, True) (λ X e, run api (sdkClient X e)).
Proof. split; [done|]. intros X e s _. apply sdkClient_run_ok. Qed.

End sdk_proofs.

(** ** Concrete instances *)

Module SdkExamples.

Definition sdk_constants : VerdaSDK := {|
  VolumeTypeNVMe := "NVMe"; SpotDiscontinueDeletePermanent := "delete_permanently" |}.

Definition range_in_key_order : MapRange := {|
  map_range := λ A m, map_to_list m; map_range_perm := λ A m, reflexivity _ |}.

#[local] Existing Instance sdk_constants.
#[local] Existing Instance range_in_key_order.

Definition offline_instance : ApiInstance :=
  mkApiInstance "i-1" "node-0" StatusOffline "FIN-01" "CPU.4V.16G" None None (Some "v-os")
    ["v-os"; "v-data"] [mkTag TagManagedBy ManagedByValue].

Definition offline_history : hist ApiE :=
  [Obs (Instances_Delete ["i-1"] ["v-os"; "v-data"] false) (Ok tt);
   Obs (Instances_GetByID "i-1") (Ok offline_instance)].

Lemma offline_exec : exec managed_only (sdkClient _ (DeleteInstance "i-1")) [] offline_history (Ok tt).
Proof. exists (Ok offline_instance). split; [done|]. exists (Ok tt). by split; [|vm_compute]. Defined.

Lemma sdk_touches_only_managed_witness :
  respects managed_only offline_history.
Proof. exact (sdk_touches_only_managed _ (DeleteInstance "i-1") _ (Ok tt) offline_exec). Defined.

Lemma sdk_DeleteInstance_phases_witness :
  exec managed_only (sdkClient _ (DeleteInstance "i-1")) [] offline_history (Ok tt) ∧
  (∃ d, offline_history =
     [Obs (Instances_Delete ["i-1"] (instanceVolumeIDs offline_instance) false) d;
      Obs (Instances_GetByID "i-1") (Ok offline_instance)]).
Proof.
  split; [exact offline_exec|].
  destruct (sdk_DeleteInstance_phases "i-1" offline_history (Ok tt) offline_exec) as [Hm|Hm].
  - exists (Ok tt). reflexivity.
  - exists (Ok tt). reflexivity.
Defined.

Definition gone_instance : ApiInstance :=
  mkApiInstance "i-1" "node-0" StatusDiscontinued "FIN-01" "CPU.4V.16G" None None (Some "v-os")
    ["v-data"] [mkTag TagManagedBy ManagedByValue].

Definition trashed : ApiVolume := mkApiVolume "v-os" "node-0-os" VolumeStatusDeleted "FIN-01" true None [].

Definition purge_history : hist ApiE :=
  [Obs (Volumes_Get "v-data") (Err (APIError 404 "no such volume"));
   Obs (Volumes_Delete "v-os" true) (Ok tt);
   Obs Volumes_GetInTrash (Ok [trashed]);
   Obs (Instances_GetByID "i-1") (Ok gone_instance)].

Lemma sdk_purge_complete_witness :
  (∃ e, Obs (Instances_GetByID "i-1") (Err e) ∈ purge_history ∧ isNotFound e = true) ∨
  (∃ inst, seen_instance purge_history "i-1" inst ∧
     ∀ v, v ∈ instanceVolumeIDs inst → volume_done purge_history v).
Proof.
  apply sdk_purge_complete. exists (Ok gone_instance). split; [done|].
  exists (Ok [trashed]). split; [done|]. exists (Ok tt). split; [done|].
  exists (Err (APIError 404 "no such volume")). by split; [|vm_compute].
Defined.

Definition worker_spec : InstanceSpec :=
  mkInstanceSpec "node-0" "worker" "CPU.4V.16G" "24.04.base" "FIN-01" [] 0 "" false "" []
    "#!/bin/bash" {[TagManagedBy := ManagedByValue]}.

Definition worker_request : CreateInstanceRequest :=
  with_script "s-1" (create_request worker_spec).

Definition failed_history : hist ApiE :=
  [Obs (StartupScripts_Delete "s-1") (Ok tt);
   Obs (Instances_Create worker_request) (Err (APIError 500 "internal error"));
   Obs (StartupScripts_Add "node-0" "#!/bin/bash") (Ok (mkApiScript "s-1" "node-0"));
   Obs StartupScripts_GetAll (Ok []);
   Obs Instances_Get (Ok [])].

Lemma sdk_CreateInstance_safe_witness :
  respects (create_protocol worker_spec) failed_history ∧
  (∀ e, Err (A:=Instance) (errorf "creating instance node-0: " (APIError 500 "internal error")) = Err e →
     omap added_script failed_history ⊆ omap deleted_script failed_history).
Proof.
  apply sdk_CreateInstance_safe. exists (Ok []). split; [done|]. exists (Ok []). split; [done|].
  exists (Ok (mkApiScript "s-1" "node-0")). split; [done|].
  exists (Err (APIError 500 "internal error")). split; [done|].
  exists (Ok tt). by split; [|vm_compute].
Defined.

End SdkExamples.
