(* ===== verification/Fake.v ===== *)
(** * The in-memory cloud ([internal/cloud/fake.go])

    The tests run the controllers against [Fake].  Its methods take the mutex
    for their whole body, so a method is a function on the state; the pointers
    in its maps never leave it (every result is a copy), so an assignment
    through one is a map update.  Loops over maps use [map_range], whose order
    is left open. *)

From S2P Require Import Prelude GoStd Effects Cloud.
From stdpp Require Import options.

Record Fake := mkFake {
  Fake_nextID : Z;
  Fake_Instances : gmap string Instance;
  Fake_Scripts : gmap string string;
  Fake_ScriptNames : gmap string string;
  Fake_Volumes : gmap string Volume;
  Fake_InstanceTypes : gmap string InstanceTypeInfo;
  Fake_Created : list InstanceSpec
}.

Definition NewFake : Fake :=
  mkFake 0 ∅ ∅ ∅ ∅
    (<["CPU.4V.16G" := mkInstanceTypeInfo "CPU.4V.16G" 4 16 0 ""]>
     (<["1H100.80S.30V" := mkInstanceTypeInfo "1H100.80S.30V" 30 120 1 "H100"]> ∅)) [].

Definition with_Instances (v : gmap string Instance) (f : Fake) : Fake :=
  mkFake (Fake_nextID f) v (Fake_Scripts f) (Fake_ScriptNames f) (Fake_Volumes f)
    (Fake_InstanceTypes f) (Fake_Created f).
Definition with_Volumes (v : gmap string Volume) (f : Fake) : Fake :=
  mkFake (Fake_nextID f) (Fake_Instances f) (Fake_Scripts f) (Fake_ScriptNames f) v
    (Fake_InstanceTypes f) (Fake_Created f).
Definition with_Scripts (s n : gmap string string) (f : Fake) : Fake :=
  mkFake (Fake_nextID f) (Fake_Instances f) s n (Fake_Volumes f)
    (Fake_InstanceTypes f) (Fake_Created f).
Definition with_nextID (v : Z) (f : Fake) : Fake :=
  mkFake v (Fake_Instances f) (Fake_Scripts f) (Fake_ScriptNames f) (Fake_Volumes f)
    (Fake_InstanceTypes f) (Fake_Created f).
Definition with_Created (v : list InstanceSpec) (f : Fake) : Fake :=
  mkFake (Fake_nextID f) (Fake_Instances f) (Fake_Scripts f) (Fake_ScriptNames f)
    (Fake_Volumes f) (Fake_InstanceTypes f) v.

Definition inst_with_status (status : string) (i : Instance) : Instance :=
  mkInstance (Instance_ID i) (Instance_Hostname i) status (Instance_IP i) (Instance_Location i)
    (Instance_InstanceType i) (Instance_StartupScriptID i) (Instance_OSVolumeID i) (Instance_Tags i).
Definition inst_with_IP (ip : string) (i : Instance) : Instance :=
  mkInstance (Instance_ID i) (Instance_Hostname i) (Instance_Status i) ip (Instance_Location i)
    (Instance_InstanceType i) (Instance_StartupScriptID i) (Instance_OSVolumeID i) (Instance_Tags i).
Definition vol_with_status (status : string) (v : Volume) : Volume :=
  mkVolume (Volume_ID v) (Volume_Name v) status (Volume_Location v) (Volume_IsOSVolume v)
    (Volume_InstanceID v) (Volume_Managed v).
Definition vol_attach (id : string) (v : Volume) : Volume :=
  mkVolume (Volume_ID v) (Volume_Name v) "attached" (Volume_Location v) (Volume_IsOSVolume v)
    id (Volume_Managed v).
Definition vol_tag (v : Volume) : Volume :=
  mkVolume (Volume_ID v) (Volume_Name v) (Volume_Status v) (Volume_Location v)
    (Volume_IsOSVolume v) (Volume_InstanceID v) true.

Section Fake.
Context `{MapRange}.

Definition of_option {A} (o : option A) : result A :=
  match o with Some a => Ok a | None => Err ErrNotFound end.

Definition fake_GetInstanceType (t : string) (f : Fake) : Fake * result InstanceTypeInfo :=
  (f, of_option (Fake_InstanceTypes f !! t)).

Definition fake_GetInstance (id : string) (f : Fake) : Fake * result Instance :=
  (f, of_option (Fake_Instances f !! id)).

Definition fake_find (matches : Instance → bool) (f : Fake) : Fake * result Instance :=
  (f, of_option (find_live matches (map_range (Fake_Instances f)).*2 None)).

Definition fake_FindInstanceByHostname (hostname : string) : Fake → Fake * result Instance :=
  fake_find (λ inst, bool_decide (Instance_Hostname inst = hostname)).

Definition fake_FindInstanceByTag (key value : string) : Fake → Fake * result Instance :=
  fake_find (λ inst, bool_decide (map_get (Instance_Tags inst) key = value)).

(** The scripts stored under a name. *)
Definition script_ids (name : string) (f : Fake) : list string :=
  (List.filter (λ '(_, n), bool_decide (n = name)) (map_range (Fake_ScriptNames f))).*1.

Definition drop_scripts (ids : list string) (f : Fake) : Fake :=
  with_Scripts (foldr delete (Fake_Scripts f) ids) (foldr delete (Fake_ScriptNames f) ids) f.

(** The foreign live instance that holds the hostname, if any. *)
Definition fake_conflict (hostname : string) (f : Fake) : option Instance :=
  List.find (λ existing, bool_decide (Instance_Hostname existing = hostname) &&
    bool_decide (Instance_Status existing ≠ StatusDiscontinued) &&
    negb (managed (Instance_Tags existing))) (map_range (Fake_Instances f)).*2.

Definition fake_CreateInstance (spec : InstanceSpec) (f : Fake) : Fake * result Instance :=
  match fake_conflict (InstanceSpec_Hostname spec) f with
  | Some existing =>
      (f, Err (wrapError ("instance " +:+ Instance_ID existing +:+ ": ") ErrHostnameInUse ""))
  | None =>
      let f := drop_scripts (script_ids (InstanceSpec_Hostname spec) f) f in
      let f := with_Created (Fake_Created f ++ [spec]) f in
      let f := with_nextID (Fake_nextID f + 1) f in
      let id := "inst-" +:+ fmt_d (Fake_nextID f) in
      let scriptID := if bool_decide (InstanceSpec_StartupScript spec ≠ "")
                      then "script-" +:+ fmt_d (Fake_nextID f) else "" in
      let f := if bool_decide (InstanceSpec_StartupScript spec ≠ "")
               then with_Scripts (<[scriptID := InstanceSpec_StartupScript spec]> (Fake_Scripts f))
                      (<[scriptID := InstanceSpec_Hostname spec]> (Fake_ScriptNames f)) f
               else f in
      let image := InstanceSpec_Image spec in
      let osVolumeID := match Fake_Volumes f !! image with Some _ => image | None => "" end in
      let f := with_Volumes (alter (vol_attach id) image (Fake_Volumes f)) f in
      let inst := mkInstance id (InstanceSpec_Hostname spec) "provisioning" ""
                    (InstanceSpec_Location spec) (InstanceSpec_InstanceType spec) scriptID
                    osVolumeID (InstanceSpec_Tags spec) in
      (with_Instances (<[id := inst]> (Fake_Instances f)) f, Ok inst)
  end.

Definition fake_DeleteInstance (id : string) (f : Fake) : Fake * result unit :=
  match Fake_Instances f !! id with
  | None => (f, Ok tt)
  | Some inst =>
      if negb (managed (Instance_Tags inst)) then (f, Err ErrNotManaged)
      else
        let f := with_Volumes (delete (Instance_OSVolumeID inst) (Fake_Volumes f)) f in
        (with_Instances (alter (inst_with_status StatusDiscontinued) id (Fake_Instances f)) f, Ok tt)
  end.

Definition fake_PurgeInstanceVolumes (id : string) (f : Fake) : Fake * result Z :=
  match Fake_Instances f !! id with
  | Some inst => (with_Volumes (delete (Instance_OSVolumeID inst) (Fake_Volumes f)) f, Ok 0%Z)
  | None => (f, Ok 0%Z)
  end.

Definition fake_DeleteStartupScript (id : string) (f : Fake) : Fake * result unit :=
  (drop_scripts [id] f, Ok tt).

Definition fake_DeleteStartupScriptByName (name : string) (f : Fake) : Fake * result unit :=
  (drop_scripts (script_ids name f) f, Ok tt).

Definition fake_GetVolume (id : string) (f : Fake) : Fake * result Volume :=
  (f, of_option (Fake_Volumes f !! id)).

Definition fake_FindVolumeByName (name : string) (f : Fake) : Fake * result Volume :=
  (f, of_option (List.find (λ v, bool_decide (Volume_Name v = name)) (map_range (Fake_Volumes f)).*2)).

Definition fake_CloneVolume (sourceID name location : string) (f : Fake) : Fake * result string :=
  match Fake_Volumes f !! sourceID with
  | None => (f, Err ErrNotFound)
  | Some src =>
      let f := with_nextID (Fake_nextID f + 1) f in
      let id := "vol-" +:+ fmt_d (Fake_nextID f) in
      let vol := mkVolume id name "cloning" location (Volume_IsOSVolume src) "" true in
      (with_Volumes (<[id := vol]> (Fake_Volumes f)) f, Ok id)
  end.

Definition fake_EnsureVolumeTag (id : string) (f : Fake) : Fake * result unit :=
  (with_Volumes (alter vol_tag id (Fake_Volumes f)) f, Ok tt).

Definition fake_DeleteVolume (id : string) (f : Fake) : Fake * result unit :=
  match Fake_Volumes f !! id with
  | Some vol => if negb (Volume_Managed vol) then (f, Err ErrNotManaged)
                else (with_Volumes (delete id (Fake_Volumes f)) f, Ok tt)
  | None => (with_Volumes (delete id (Fake_Volumes f)) f, Ok tt)
  end.

(** [Fake] implements [Client]. *)
Definition fake (X : Type) (e : ClientE X) : Fake → Fake * X :=
  match e with
  | GetInstanceType t => fake_GetInstanceType t
  | GetInstance id => fake_GetInstance id
  | FindInstanceByHostname h => fake_FindInstanceByHostname h
  | FindInstanceByTag k v => fake_FindInstanceByTag k v
  | CreateInstance spec => fake_CreateInstance spec
  | DeleteStartupScriptByName n => fake_DeleteStartupScriptByName n
  | DeleteInstance id => fake_DeleteInstance id
  | PurgeInstanceVolumes id => fake_PurgeInstanceVolumes id
  | DeleteStartupScript id => fake_DeleteStartupScript id
  | GetVolume id => fake_GetVolume id
  | FindVolumeByName n => fake_FindVolumeByName n
  | CloneVolume s n l => fake_CloneVolume s n l
  | DeleteVolume id => fake_DeleteVolume id
  | EnsureVolumeTag id => fake_EnsureVolumeTag id
  end.

(** The test hooks. *)
Definition fake_Reset (f : Fake) : Fake := with_Created [] f.
Definition fake_SetVolumeStatus (id status : string) (f : Fake) : Fake :=
  with_Volumes (alter (vol_with_status status) id (Fake_Volumes f)) f.
Definition fake_SetStatus (id status ip : string) (f : Fake) : Fake :=
  with_Instances (alter (λ i, inst_with_IP ip (inst_with_status status i)) id (Fake_Instances f)) f.

(** ** Well-formed states

    Keys agree with the identifiers they lead to, both script maps have the
    same keys, and the identifiers still to be handed out are unused. *)
Record fake_wf (f : Fake) : Prop := {
  wf_instance_id id i : Fake_Instances f !! id = Some i → Instance_ID i = id;
  wf_fresh k : (Fake_nextID f < k)%Z → Fake_Instances f !! ("inst-" +:+ fmt_d k) = None;
  wf_types t i : Fake_InstanceTypes f !! t = Some i → InstanceTypeInfo_InstanceType i = t;
  wf_scripts : dom (Fake_Scripts f) = dom (Fake_ScriptNames f);
  wf_volume_id id v : Fake_Volumes f !! id = Some v → Volume_ID v = id
}.

Lemma inst_id_inj a b : "inst-" +:+ fmt_d a = "inst-" +:+ fmt_d b → a = b.
Proof. intros Heq%(inj (String.append "inst-")). by apply fmt_d_inj. Qed.

Lemma elem_of_range_snd {A} (m : gmap string A) x :
  x ∈ (map_range m).*2 → ∃ k, m !! k = Some x.
Proof.
  intros ([k y] & -> & Hin)%list_elem_of_fmap. exists k.
  by rewrite map_range_perm, elem_of_map_to_list in Hin.
Qed.

Lemma range_snd_elem_of {A} (m : gmap string A) k x : m !! k = Some x → x ∈ (map_range m).*2.
Proof.
  intros Hk. apply list_elem_of_fmap. exists (k, x). split; [done|].
  by rewrite map_range_perm, elem_of_map_to_list.
Qed.

Lemma NewFake_wf : fake_wf NewFake.
Proof.
  split; cbn; intros; simplify_map_eq; try done.
  repeat match goal with H : context [<[_:=_]> _ !! _] |- _ =>
    rewrite lookup_insert in H; case_decide; simplify_map_eq; try done end.
Qed.

Lemma drop_scripts_wf ids f : fake_wf f → fake_wf (drop_scripts ids f).
Proof.
  intros [H1 H2 H3 H4 H5]. split; cbn; auto.
  induction ids as [|id ids IH]; cbn; [done|]. by rewrite !dom_delete_L, IH.
Qed.

Lemma with_Volumes_wf f vols :
  fake_wf f → (∀ id v, vols !! id = Some v → Volume_ID v = id) → fake_wf (with_Volumes vols f).
Proof. intros [H1 H2 H3 H4 H5] Hv. split; cbn; auto. Qed.

Lemma alter_Volume_ID (g : Volume → Volume) i (m : gmap string Volume) :
  (∀ v, Volume_ID (g v) = Volume_ID v) → (∀ id v, m !! id = Some v → Volume_ID v = id) →
  ∀ id v, alter g i m !! id = Some v → Volume_ID v = id.
Proof.
  intros Hg Hm id v Hl. rewrite lookup_alter in Hl. case_decide; subst; [|by apply Hm].
  apply fmap_Some in Hl as (w & Hw & ->). rewrite Hg. by apply Hm.
Qed.

Lemma delete_Volume_ID i (m : gmap string Volume) :
  (∀ id v, m !! id = Some v → Volume_ID v = id) →
  ∀ id v, delete i m !! id = Some v → Volume_ID v = id.
Proof. intros Hm id v [_ Hl]%lookup_delete_Some. by apply Hm. Qed.

Lemma alter_Instances_wf f g i :
  (∀ x, Instance_ID (g x) = Instance_ID x) → fake_wf f →
  fake_wf (with_Instances (alter g i (Fake_Instances f)) f).
Proof.
  intros Hg [H1 H2 H3 H4 H5]. split; cbn; auto.
  - intros id x Hl. rewrite lookup_alter in Hl. case_decide; subst; [|by apply H1].
    apply fmap_Some in Hl as (y & Hy & ->). rewrite Hg. by apply H1.
  - intros k Hk. rewrite lookup_alter. case_decide; [|by apply H2]. subst. by rewrite H2.
Qed.

#[local] Hint Resolve drop_scripts_wf with_Volumes_wf alter_Volume_ID delete_Volume_ID
  alter_Instances_wf wf_volume_id : verda.

Lemma fake_CreateInstance_wf spec f : fake_wf f → fake_wf (fake_CreateInstance spec f).1.
Proof.
  intros Hf. unfold fake_CreateInstance. case_match; [done|]. cbn zeta.
  apply (drop_scripts_wf (script_ids (InstanceSpec_Hostname spec) f)) in Hf.
  set (f0 := drop_scripts _ f) in *. clearbody f0. destruct Hf as [H1 H2 H3 H4 H5]. split; cbn.
  - intros id i. rewrite lookup_insert. case_decide; [by intros [= <-]|].
    case_bool_decide; apply H1.
  - intros k Hk.
    assert (k ≠ Fake_nextID f0 + 1 ∧ Fake_nextID f0 < k)%Z as [Hne Hlt]
      by (case_bool_decide; cbn in Hk; lia).
    rewrite lookup_insert_ne.
    + case_bool_decide; by apply H2.
    + case_bool_decide; cbn; by intros Heq%inst_id_inj.
  - by case_bool_decide.
  - case_bool_decide; cbn; [by rewrite !dom_insert_L, H4|done].
  - case_bool_decide; cbn; by apply alter_Volume_ID.
Qed.

Lemma fake_CloneVolume_wf s n l f : fake_wf f → fake_wf (fake_CloneVolume s n l f).1.
Proof.
  intros [H1 H2 H3 H4 H5]. unfold fake_CloneVolume. case_match; cbn; [|by split].
  split; cbn; auto.
  - intros k Hk. apply H2. lia.
  - intros id v0. rewrite lookup_insert. case_decide; [by intros [= <-]|]. apply H5.
Qed.

Lemma fake_wf_step X (e : ClientE X) f : fake_wf f → fake_wf (fake X e f).1.
Proof.
  intros Hf. destruct e; try exact Hf; cbn; eauto using drop_scripts_wf, fake_CreateInstance_wf,
    fake_CloneVolume_wf.
  - unfold fake_DeleteInstance. repeat case_match; try done. cbn [fst].
    apply (alter_Instances_wf (with_Volumes _ f)); [done|].
    apply with_Volumes_wf; [done|]. apply delete_Volume_ID, Hf.
  - unfold fake_PurgeInstanceVolumes. case_match; [|done].
    apply with_Volumes_wf; [done|]. apply delete_Volume_ID, Hf.
  - unfold fake_DeleteVolume. repeat case_match; try done;
      (apply with_Volumes_wf; [done|]; apply delete_Volume_ID, Hf).
  - apply with_Volumes_wf; [done|]. apply alter_Volume_ID; [done|]. apply Hf.
Qed.

Lemma fake_find_sound matches f i :
  (fake_find matches f).2 = Ok i → matches i = true ∧ ∃ id, Fake_Instances f !! id = Some i.
Proof.
  cbn. destruct (find_live _ _ _) as [j|] eqn:Hl; cbn; [|done]. intros [= <-].
  apply find_live_sound in Hl as [?|[Hin Hm]]; [done|]. split; [done|].
  by apply elem_of_range_snd.
Qed.

(** The fake keeps the promises of [Client] in every state reachable from a
    well-formed one: each method preserves well-formedness, and each lookup
    returns what was asked for. *)
Theorem fake_sound : CloudClient fake_wf fake.
Proof.
  split; [apply fake_wf_step|]. intros X e f Hf. destruct e; cbn [client_ok fake]; try done.
  - cbn. intros i. destruct (_ !! _) eqn:Hl; cbn; [|done]. intros [= <-]. by apply Hf.
  - by intros i [?%bool_decide_eq_true _]%fake_find_sound.
  - by intros i [?%bool_decide_eq_true _]%fake_find_sound.
  - unfold fake_PurgeInstanceVolumes. case_match; by intros n [= <-].
  - cbn. intros v. destruct (List.find _ _) eqn:Hl; cbn; [|done]. intros [= <-].
    by apply find_some in Hl as [_ ?%bool_decide_eq_true].
Qed.

Lemma fake_CreateInstance_ok spec f f' inst :
  fake_CreateInstance spec f = (f', Ok inst) →
  Instance_ID inst = "inst-" +:+ fmt_d (Fake_nextID f + 1) ∧
  Instance_Tags inst = InstanceSpec_Tags spec ∧ Instance_Status inst = "provisioning" ∧
  Fake_Instances f' = <[Instance_ID inst := inst]> (Fake_Instances f) ∧
  Fake_Created f' = Fake_Created f ++ [spec].
Proof.
  unfold fake_CreateInstance. case_match; [done|]. cbn zeta. intros [= <- <-].
  cbn. by case_bool_decide.
Qed.

(** A create whose result was lost is recovered: after a successful
    [CreateInstance], looking up any tag of the specification that no other
    live instance carries returns the created instance, so a controller that
    looks before it creates does not create a second one. *)
Theorem fake_create_recoverable spec f f' inst key :
  fake_wf f →
  fake_CreateInstance spec f = (f', Ok inst) →
  (∀ id j, Fake_Instances f !! id = Some j →
     map_get (Instance_Tags j) key = map_get (InstanceSpec_Tags spec) key →
     Instance_Status j = StatusDiscontinued) →
  fake_FindInstanceByTag key (map_get (InstanceSpec_Tags spec) key) f' = (f', Ok inst).
Proof.
  intros Hf (Hid & Htags & Hst & Hinsts & _)%fake_CreateInstance_ok Hother.
  unfold fake_FindInstanceByTag, fake_find. do 2 f_equal. rewrite Hinsts.
  rewrite (find_live_unique _ _ inst); [done|..].
  - apply (range_snd_elem_of _ (Instance_ID inst)). by simplify_map_eq.
  - unfold live_match. by rewrite Htags, Hst, bool_decide_eq_true_2.
  - intros x [k Hk]%elem_of_range_snd [Hm Hl]%andb_true_iff. bool_to_prop.
    rewrite lookup_insert in Hk. case_decide; [by simplify_eq|].
    by rewrite (Hother _ _ Hk Hm) in Hl.
Qed.

Lemma alter_lookup_unmanaged g i (m : gmap string Instance) id j x :
  m !! i = Some x → managed (Instance_Tags x) = true →
  m !! id = Some j → managed (Instance_Tags j) = false →
  alter g i m !! id = Some j.
Proof. intros Hx Hmx Hj Hmj. rewrite lookup_alter_ne; [done|]. intros ->. congruence. Qed.

(** The fake never touches what is not the provider's: whatever method is
    called, an instance without the managed-by tag stays exactly as it was. *)
Theorem fake_keeps_unmanaged X (e : ClientE X) f id j :
  fake_wf f → Fake_Instances f !! id = Some j → managed (Instance_Tags j) = false →
  Fake_Instances (fake X e f).1 !! id = Some j.
Proof.
  intros Hf Hj Hm. destruct e; try exact Hj; cbn.
  - unfold fake_CreateInstance. case_match; [done|]. cbn.
    rewrite lookup_insert_ne; [by case_bool_decide|].
    intros <-. rewrite (wf_fresh f Hf) in Hj by lia. done.
  - unfold fake_DeleteInstance. destruct (_ !! id0) as [x|] eqn:Hx; [|done].
    destruct (managed (Instance_Tags x)) eqn:Hmx; [|done]. by eapply alter_lookup_unmanaged.
  - unfold fake_PurgeInstanceVolumes. by case_match.
  - unfold fake_CloneVolume. by case_match.
  - unfold fake_DeleteVolume. by repeat case_match.
Qed.
End Fake.

(** ** Concrete instances *)

Module FakeExamples.

Definition range_in_key_order : MapRange := {|
  map_range := λ A m, map_to_list m; map_range_perm := λ A m, reflexivity _ |}.
#[local] Existing Instance range_in_key_order.

Definition foreign : Instance :=
  mkInstance "i-foreign" "db" StatusRunning "203.0.113.9" "FIN-01" "CPU.4V.16G" "" "" ∅.

Definition cloud0 : Fake := with_Instances {["i-foreign" := foreign]} NewFake.

Lemma cloud0_wf : fake_wf cloud0.
Proof.
  destruct NewFake_wf as [H1 H2 H3 H4 H5]. split; cbn; auto.
  by intros id i [<- <-]%lookup_singleton_Some.
Defined.

Definition spec0 : InstanceSpec :=
  mkInstanceSpec "node-0" "worker" "CPU.4V.16G" "24.04.base" "FIN-01" [] 0 "" false "" []
    "#!/bin/bash" {[TagManagedBy := ManagedByValue; TagMachine := "default/node-0"]}.

Definition cloud1 : Fake := (fake_CreateInstance spec0 cloud0).1.
Definition inst1 : Instance :=
  mkInstance "inst-1" "node-0" "provisioning" "" "FIN-01" "CPU.4V.16G" "script-1" ""
    {[TagManagedBy := ManagedByValue; TagMachine := "default/node-0"]}.

Lemma fake_create_recoverable_witness :
  fake_FindInstanceByTag TagMachine "default/node-0" cloud1 = (cloud1, Ok inst1).
Proof.
  apply (fake_create_recoverable spec0 cloud0 cloud1 inst1 TagMachine cloud0_wf).
  - vm_compute. reflexivity.
  - cbn. intros id j [<- <-]%lookup_singleton_Some. vm_compute. discriminate.
Defined.

Lemma fake_keeps_unmanaged_witness :
  Fake_Instances (fake _ (DeleteInstance "i-foreign") cloud0).1 !! "i-foreign" = Some foreign.
Proof.
  apply (fake_keeps_unmanaged _ (DeleteInstance "i-foreign") cloud0 "i-foreign" foreign cloud0_wf);
    reflexivity.
Defined.

End FakeExamples.
