(* ===== verification/DeepCopy.v ===== *)
(** * Deep copies of the API objects ([api/v1beta1/zz_generated.deepcopy.go])

    The rest of the development treats API objects as values.  In Go they are
    structs with pointers, slices and maps, shared with the caches of
    controller-runtime, and what makes them values are the generated deep
    copies.  Here the structs are as they are in memory ([GoMem.v]): a struct
    [T_t] represents ([reads]) a record [T] of [Api.v], and the theorem is that
    a copy represents the same record and shares nothing with the original.

    [T_DeepCopyInto] gives the value the method writes to [*out], which the
    caller made before and nothing else refers to.  The types of Kubernetes and
    Cluster API and their [DeepCopyInto] are library code: the classes
    [MetaTypes] and [MetaOps], with their contract [MetaLaws]. *)

From S2P Require Import Prelude GoStd Api Cloud GoMem.
From stdpp Require Import options.

(** ** The types of the libraries *)

Record TypeMeta := mkTypeMeta { TypeMeta_Kind : string; TypeMeta_APIVersion : string }.

(** In memory: [metav1.ObjectMeta], [metav1.ListMeta], [clusterv1.ObjectMeta],
    [metav1.Condition], [clusterv1.FailureDomain], [resource.Quantity], and the
    cells they refer to.  [ListMeta] and [TemplateMeta] are what the types that
    [Api.v] has no record for represent. *)
Class MetaTypes := {
  LibCell : Type;
  ObjectMeta_t : Type;
  ListMeta_t : Type;
  TemplateMeta_t : Type;
  Condition_t : Type;
  FailureDomain_t : Type;
  Quantity_t : Type;
  ListMeta : Type;
  TemplateMeta : Type
}.

#[export] Instance TypeMeta_zero : Zero TypeMeta := mkTypeMeta "" "".
#[export] Instance AdditionalVolume_zero : Zero AdditionalVolume := mkAdditionalVolume "" 0 "".
#[export] Instance NodeInfo_zero : Zero NodeInfo := mkNodeInfo "" "".
#[export] Instance APIEndpoint_zero : Zero APIEndpoint := mkAPIEndpoint "" 0.
#[export] Instance MachineAddress_zero : Zero MachineAddress := mkMachineAddress MachineOtherAddress "".

(** ** Structs without library types *)

Record IdentityReference := mkIdentityReference { IdentityReference_Name : string }.
#[export] Instance IdentityReference_zero : Zero IdentityReference := mkIdentityReference "".

Record ControlPlaneLoadBalancer_t := mkControlPlaneLoadBalancer_t {
  lb_Enabled : ptr bool;
  lb_InstanceType : string;
  lb_Image : string;
  lb_SSHKeyIDs : slice string
}.
#[export] Instance ControlPlaneLoadBalancer_zero : Zero ControlPlaneLoadBalancer_t :=
  mkControlPlaneLoadBalancer_t zero zero zero zero.

Record LoadBalancerStatus_t := mkLoadBalancerStatus_t {
  lbs_InstanceID : string;
  lbs_StartupScriptID : string;
  lbs_Address : string;
  lbs_Backends : slice string;
  lbs_SecretPublished : ptr bool
}.
#[export] Instance LoadBalancerStatus_zero : Zero LoadBalancerStatus_t :=
  mkLoadBalancerStatus_t zero zero zero zero zero.

Record VerdaClusterInitializationStatus := mkVerdaClusterInitializationStatus { ci_Provisioned : ptr bool }.
#[export] Instance VerdaClusterInitializationStatus_zero : Zero VerdaClusterInitializationStatus :=
  mkVerdaClusterInitializationStatus zero.

Record VerdaMachineInitializationStatus := mkVerdaMachineInitializationStatus { mi_Provisioned : ptr bool }.
#[export] Instance VerdaMachineInitializationStatus_zero : Zero VerdaMachineInitializationStatus :=
  mkVerdaMachineInitializationStatus zero.

Record VerdaClusterSpec_t := mkVerdaClusterSpec_t {
  cs_Location : string;
  cs_ControlPlaneEndpoint : APIEndpoint;
  cs_IdentityRef : ptr IdentityReference;
  cs_ControlPlaneLoadBalancer : ControlPlaneLoadBalancer_t;
  cs_ServiceLoadBalancer : ControlPlaneLoadBalancer_t
}.
#[export] Instance VerdaClusterSpec_zero : Zero VerdaClusterSpec_t :=
  mkVerdaClusterSpec_t zero zero zero zero zero.

Record VerdaMachineSpec_t := mkVerdaMachineSpec_t {
  ms_ProviderID : string;
  ms_InstanceType : string;
  ms_Image : string;
  ms_OSVolumeID : string;
  ms_SSHKeyIDs : slice string;
  ms_OSVolumeSizeGB : Z;
  ms_Contract : string;
  ms_Spot : ptr bool;
  ms_SpotDiscontinuePolicy : string;
  ms_AdditionalVolumes : slice AdditionalVolume
}.
#[export] Instance VerdaMachineSpec_zero : Zero VerdaMachineSpec_t :=
  mkVerdaMachineSpec_t zero zero zero zero zero zero zero zero zero zero.

(** ** Structs with library types *)

Section types.
Context {MT : MetaTypes}.

Record VerdaClusterStatus_t := mkVerdaClusterStatus_t {
  ct_Initialization : VerdaClusterInitializationStatus;
  ct_Conditions : slice Condition_t;
  ct_LoadBalancer : LoadBalancerStatus_t;
  ct_ServiceLoadBalancer : LoadBalancerStatus_t;
  ct_FailureDomains : slice FailureDomain_t
}.
Record VerdaCluster_t := mkVerdaCluster_t {
  c_TypeMeta : TypeMeta;
  c_ObjectMeta : ObjectMeta_t;
  c_Spec : VerdaClusterSpec_t;
  c_Status : VerdaClusterStatus_t
}.
Record VerdaClusterList_t := mkVerdaClusterList_t {
  cl_TypeMeta : TypeMeta;
  cl_ListMeta : ListMeta_t;
  cl_Items : slice VerdaCluster_t
}.
Record VerdaClusterTemplateResource_t := mkVerdaClusterTemplateResource_t {
  ctr_ObjectMeta : TemplateMeta_t;
  ctr_Spec : VerdaClusterSpec_t
}.
Record VerdaClusterTemplateSpec_t := mkVerdaClusterTemplateSpec_t { cts_Template : VerdaClusterTemplateResource_t }.
Record VerdaClusterTemplate_t := mkVerdaClusterTemplate_t {
  ctt_TypeMeta : TypeMeta;
  ctt_ObjectMeta : ObjectMeta_t;
  ctt_Spec : VerdaClusterTemplateSpec_t
}.
Record VerdaClusterTemplateList_t := mkVerdaClusterTemplateList_t {
  ctl_TypeMeta : TypeMeta;
  ctl_ListMeta : ListMeta_t;
  ctl_Items : slice VerdaClusterTemplate_t
}.
Record VerdaMachineStatus_t := mkVerdaMachineStatus_t {
  mt_Initialization : VerdaMachineInitializationStatus;
  mt_Conditions : slice Condition_t;
  mt_Addresses : slice MachineAddress;
  mt_FailureDomain : string;
  mt_InstanceID : string;
  mt_InstanceState : string;
  mt_OSVolumeID : string;
  mt_StartupScriptID : string
}.
Record VerdaMachine_t := mkVerdaMachine_t {
  m_TypeMeta : TypeMeta;
  m_ObjectMeta : ObjectMeta_t;
  m_Spec : VerdaMachineSpec_t;
  m_Status : VerdaMachineStatus_t
}.
Record VerdaMachineList_t := mkVerdaMachineList_t {
  ml_TypeMeta : TypeMeta;
  ml_ListMeta : ListMeta_t;
  ml_Items : slice VerdaMachine_t
}.
Record VerdaMachineTemplateResource_t := mkVerdaMachineTemplateResource_t {
  mtr_ObjectMeta : TemplateMeta_t;
  mtr_Spec : VerdaMachineSpec_t
}.
Record VerdaMachineTemplateSpec_t := mkVerdaMachineTemplateSpec_t { mts_Template : VerdaMachineTemplateResource_t }.
Record VerdaMachineTemplateStatus_t := mkVerdaMachineTemplateStatus_t {
  mtt_Capacity : mapref Quantity_t;
  mtt_NodeInfo : NodeInfo;
  mtt_Conditions : slice Condition_t
}.
Record VerdaMachineTemplate_t := mkVerdaMachineTemplate_t {
  t_TypeMeta : TypeMeta;
  t_ObjectMeta : ObjectMeta_t;
  t_Spec : VerdaMachineTemplateSpec_t;
  t_Status : VerdaMachineTemplateStatus_t
}.
Record VerdaMachineTemplateList_t := mkVerdaMachineTemplateList_t {
  tl_TypeMeta : TypeMeta;
  tl_ListMeta : ListMeta_t;
  tl_Items : slice VerdaMachineTemplate_t
}.

(** *** Cells *)

(** The types of which there are cells. *)
Inductive ty :=
| TLib | TBool | TString | TAdditionalVolume | TControlPlaneLoadBalancer | TIdentityReference | TLoadBalancerStatus
| TNodeInfo | TMachineAddress | TCondition | TFailureDomain | TQuantity
| TVerdaCluster | TVerdaClusterInitializationStatus | TVerdaClusterList | TVerdaClusterSpec | TVerdaClusterStatus
| TVerdaClusterTemplate | TVerdaClusterTemplateList | TVerdaClusterTemplateResource | TVerdaClusterTemplateSpec
| TVerdaMachine | TVerdaMachineInitializationStatus | TVerdaMachineList | TVerdaMachineSpec | TVerdaMachineStatus
| TVerdaMachineTemplate | TVerdaMachineTemplateList | TVerdaMachineTemplateResource | TVerdaMachineTemplateSpec
| TVerdaMachineTemplateStatus
| TArray (t : ty) | TMap (t : ty).

#[export] Instance ty_eq_dec : EqDecision ty.
Proof. solve_decision. Defined.

Fixpoint denote (t : ty) : Type :=
  match t with
  | TLib => LibCell
  | TBool => bool
  | TString => string
  | TAdditionalVolume => AdditionalVolume
  | TControlPlaneLoadBalancer => ControlPlaneLoadBalancer_t
  | TIdentityReference => IdentityReference
  | TLoadBalancerStatus => LoadBalancerStatus_t
  | TNodeInfo => NodeInfo
  | TMachineAddress => MachineAddress
  | TCondition => Condition_t
  | TFailureDomain => FailureDomain_t
  | TQuantity => Quantity_t
  | TVerdaCluster => VerdaCluster_t
  | TVerdaClusterInitializationStatus => VerdaClusterInitializationStatus
  | TVerdaClusterList => VerdaClusterList_t
  | TVerdaClusterSpec => VerdaClusterSpec_t
  | TVerdaClusterStatus => VerdaClusterStatus_t
  | TVerdaClusterTemplate => VerdaClusterTemplate_t
  | TVerdaClusterTemplateList => VerdaClusterTemplateList_t
  | TVerdaClusterTemplateResource => VerdaClusterTemplateResource_t
  | TVerdaClusterTemplateSpec => VerdaClusterTemplateSpec_t
  | TVerdaMachine => VerdaMachine_t
  | TVerdaMachineInitializationStatus => VerdaMachineInitializationStatus
  | TVerdaMachineList => VerdaMachineList_t
  | TVerdaMachineSpec => VerdaMachineSpec_t
  | TVerdaMachineStatus => VerdaMachineStatus_t
  | TVerdaMachineTemplate => VerdaMachineTemplate_t
  | TVerdaMachineTemplateList => VerdaMachineTemplateList_t
  | TVerdaMachineTemplateResource => VerdaMachineTemplateResource_t
  | TVerdaMachineTemplateSpec => VerdaMachineTemplateSpec_t
  | TVerdaMachineTemplateStatus => VerdaMachineTemplateStatus_t
  | TArray t => list (denote t)
  | TMap t => gmap string (denote t)
  end.

Definition cell : Type := { t : ty & denote t }.

Definition cast {t t' : ty} (e : t = t') (a : denote t) : denote t' := eq_rect t denote a t' e.

(** A cell is read at the type it was written at. *)
Program Definition stored (t : ty) : Storable cell (denote t) := {|
  inject a := existT t a;
  project c := match decide (projT1 c = t) with left e => Some (cast e (projT2 c)) | right _ => None end
|}.
Next Obligation.
  intros t a. cbn. destruct (decide (t = t)) as [e|]; [|done]. by rewrite (proof_irrel e eq_refl).
Qed.
End types.

(** What the libraries promise of their types. *)
Class MetaOps {MT : MetaTypes} := {
  ObjectMeta_zero :: Zero ObjectMeta_t;
  ListMeta_zero :: Zero ListMeta_t;
  TemplateMeta_zero :: Zero TemplateMeta_t;
  Condition_zero :: Zero Condition_t;
  FailureDomain_zero :: Zero FailureDomain_t;
  ObjectMeta_data :: GoData cell ObjectMeta_t ObjectMeta;
  ListMeta_data :: GoData cell ListMeta_t ListMeta;
  TemplateMeta_data :: GoData cell TemplateMeta_t TemplateMeta;
  Condition_data :: GoData cell Condition_t Condition;
  FailureDomain_data :: GoData cell FailureDomain_t FailureDomain;
  Quantity_data :: GoData cell Quantity_t Z;
  ObjectMeta_DeepCopyInto : ObjectMeta_t → HM cell ObjectMeta_t;
  ListMeta_DeepCopyInto : ListMeta_t → HM cell ListMeta_t;
  TemplateMeta_DeepCopyInto : TemplateMeta_t → HM cell TemplateMeta_t;
  Condition_DeepCopyInto : Condition_t → HM cell Condition_t;
  FailureDomain_DeepCopyInto : FailureDomain_t → HM cell FailureDomain_t;
  Quantity_DeepCopy : Quantity_t → HM cell Quantity_t
}.

(** Their copies are deep. *)
Class MetaLaws {MT : MetaTypes} `{!MetaOps} : Prop := {
  ObjectMeta_copies : copies ObjectMeta_DeepCopyInto;
  ListMeta_copies : copies ListMeta_DeepCopyInto;
  TemplateMeta_copies : copies TemplateMeta_DeepCopyInto;
  Condition_copies : copies Condition_DeepCopyInto;
  FailureDomain_copies : copies FailureDomain_DeepCopyInto;
  Quantity_copies : copies Quantity_DeepCopy
}.

Section storable.
Context {MT : MetaTypes}.

#[export] Instance bool_stored : Storable cell bool := stored TBool.
#[export] Instance IdentityReference_stored : Storable cell IdentityReference := stored TIdentityReference.
#[export] Instance AdditionalVolume_stored : Storable cell AdditionalVolume := stored TAdditionalVolume.
#[export] Instance NodeInfo_stored : Storable cell NodeInfo := stored TNodeInfo.
#[export] Instance ControlPlaneLoadBalancer_stored : Storable cell ControlPlaneLoadBalancer_t := stored TControlPlaneLoadBalancer.
#[export] Instance LoadBalancerStatus_stored : Storable cell LoadBalancerStatus_t := stored TLoadBalancerStatus.
#[export] Instance VerdaCluster_stored : Storable cell VerdaCluster_t := stored TVerdaCluster.
#[export] Instance VerdaClusterList_stored : Storable cell VerdaClusterList_t := stored TVerdaClusterList.
#[export] Instance VerdaClusterSpec_stored : Storable cell VerdaClusterSpec_t := stored TVerdaClusterSpec.
#[export] Instance VerdaClusterStatus_stored : Storable cell VerdaClusterStatus_t := stored TVerdaClusterStatus.
#[export] Instance VerdaClusterTemplate_stored : Storable cell VerdaClusterTemplate_t := stored TVerdaClusterTemplate.
#[export] Instance VerdaClusterTemplateList_stored : Storable cell VerdaClusterTemplateList_t := stored TVerdaClusterTemplateList.
#[export] Instance VerdaClusterTemplateResource_stored : Storable cell VerdaClusterTemplateResource_t := stored TVerdaClusterTemplateResource.
#[export] Instance VerdaClusterTemplateSpec_stored : Storable cell VerdaClusterTemplateSpec_t := stored TVerdaClusterTemplateSpec.
#[export] Instance VerdaMachine_stored : Storable cell VerdaMachine_t := stored TVerdaMachine.
#[export] Instance VerdaMachineList_stored : Storable cell VerdaMachineList_t := stored TVerdaMachineList.
#[export] Instance VerdaMachineSpec_stored : Storable cell VerdaMachineSpec_t := stored TVerdaMachineSpec.
#[export] Instance VerdaMachineStatus_stored : Storable cell VerdaMachineStatus_t := stored TVerdaMachineStatus.
#[export] Instance VerdaMachineTemplate_stored : Storable cell VerdaMachineTemplate_t := stored TVerdaMachineTemplate.
#[export] Instance VerdaMachineTemplateList_stored : Storable cell VerdaMachineTemplateList_t := stored TVerdaMachineTemplateList.
#[export] Instance VerdaMachineTemplateResource_stored : Storable cell VerdaMachineTemplateResource_t := stored TVerdaMachineTemplateResource.
#[export] Instance VerdaMachineTemplateSpec_stored : Storable cell VerdaMachineTemplateSpec_t := stored TVerdaMachineTemplateSpec.
#[export] Instance VerdaMachineTemplateStatus_stored : Storable cell VerdaMachineTemplateStatus_t := stored TVerdaMachineTemplateStatus.
#[export] Instance VerdaClusterInitializationStatus_stored : Storable cell VerdaClusterInitializationStatus := stored TVerdaClusterInitializationStatus.
#[export] Instance VerdaMachineInitializationStatus_stored : Storable cell VerdaMachineInitializationStatus := stored TVerdaMachineInitializationStatus.
#[export] Instance string_array_stored : Storable cell (list string) := stored (TArray TString).
#[export] Instance AdditionalVolume_array_stored : Storable cell (list AdditionalVolume) := stored (TArray TAdditionalVolume).
#[export] Instance Condition_array_stored : Storable cell (list Condition_t) := stored (TArray TCondition).
#[export] Instance MachineAddress_array_stored : Storable cell (list MachineAddress) := stored (TArray TMachineAddress).
#[export] Instance FailureDomain_array_stored : Storable cell (list FailureDomain_t) := stored (TArray TFailureDomain).
#[export] Instance VerdaCluster_array_stored : Storable cell (list VerdaCluster_t) := stored (TArray TVerdaCluster).
#[export] Instance VerdaClusterTemplate_array_stored : Storable cell (list VerdaClusterTemplate_t) := stored (TArray TVerdaClusterTemplate).
#[export] Instance VerdaMachine_array_stored : Storable cell (list VerdaMachine_t) := stored (TArray TVerdaMachine).
#[export] Instance VerdaMachineTemplate_array_stored : Storable cell (list VerdaMachineTemplate_t) := stored (TArray TVerdaMachineTemplate).
#[export] Instance Quantity_map_stored : Storable cell (gmap string Quantity_t) := stored (TMap TQuantity).
End storable.

(** ** What the structs represent *)

(** A conjunction over the fields holds in a larger heap too. *)
Ltac fields_mono :=
  intros; cbv beta in *; repeat match goal with Hf : _ ∧ _ |- _ => destruct Hf end;
  split_and?; first [assumption|eapply reads_mono; eassumption].

Section data.
Context {MT : MetaTypes} `{!MetaOps}.

#[export] Instance TypeMeta_data : GoData cell TypeMeta TypeMeta := flat id.
#[export] Instance AdditionalVolume_data : GoData cell AdditionalVolume AdditionalVolume := flat id.
#[export] Instance MachineAddress_data : GoData cell MachineAddress MachineAddress := flat id.
#[export] Instance NodeInfo_data : GoData cell NodeInfo NodeInfo := flat id.
#[export] Instance APIEndpoint_data : GoData cell APIEndpoint APIEndpoint := flat id.
#[export] Instance IdentityReference_data : GoData cell IdentityReference string := flat IdentityReference_Name.

#[export] Program Instance ControlPlaneLoadBalancer_data : GoData cell ControlPlaneLoadBalancer_t ControlPlaneLoadBalancer := {|
  reads h m p :=
    reads h (lb_Enabled m) (LB_Enabled p) ∧ reads h (lb_InstanceType m) (LB_InstanceType p) ∧
    reads h (lb_Image m) (LB_Image p) ∧ reads h (lb_SSHKeyIDs m) (LB_SSHKeyIDs p)
|}.
Next Obligation. fields_mono. Qed.
#[export] Program Instance LoadBalancerStatus_data : GoData cell LoadBalancerStatus_t LoadBalancerStatus := {|
  reads h m p :=
    reads h (lbs_InstanceID m) (LBStatus_InstanceID p) ∧
    reads h (lbs_StartupScriptID m) (LBStatus_StartupScriptID p) ∧
    reads h (lbs_Address m) (LBStatus_Address p) ∧ reads h (lbs_Backends m) (LBStatus_Backends p) ∧
    reads h (lbs_SecretPublished m) (LBStatus_SecretPublished p)
|}.
Next Obligation. fields_mono. Qed.
#[export] Program Instance VerdaClusterInitializationStatus_data : GoData cell VerdaClusterInitializationStatus (option bool) := {|
  reads h m p :=
    reads h (ci_Provisioned m) p
|}.
Next Obligation. fields_mono. Qed.
#[export] Program Instance VerdaMachineInitializationStatus_data : GoData cell VerdaMachineInitializationStatus (option bool) := {|
  reads h m p :=
    reads h (mi_Provisioned m) p
|}.
Next Obligation. fields_mono. Qed.
#[export] Program Instance VerdaClusterSpec_data : GoData cell VerdaClusterSpec_t VerdaClusterSpec := {|
  reads h m p :=
    reads h (cs_Location m) (CSpec_Location p) ∧
    reads h (cs_ControlPlaneEndpoint m) (CSpec_ControlPlaneEndpoint p) ∧
    reads h (cs_IdentityRef m) (CSpec_IdentityRef p) ∧
    reads h (cs_ControlPlaneLoadBalancer m) (CSpec_ControlPlaneLoadBalancer p) ∧
    reads h (cs_ServiceLoadBalancer m) (CSpec_ServiceLoadBalancer p)
|}.
Next Obligation. fields_mono. Qed.
#[export] Program Instance VerdaClusterStatus_data : GoData cell VerdaClusterStatus_t VerdaClusterStatus := {|
  reads h m p :=
    reads h (ct_Initialization m) (CStatus_Provisioned p) ∧ reads h (ct_Conditions m) (CStatus_Conditions p) ∧
    reads h (ct_LoadBalancer m) (CStatus_LoadBalancer p) ∧
    reads h (ct_ServiceLoadBalancer m) (CStatus_ServiceLoadBalancer p) ∧
    reads h (ct_FailureDomains m) (CStatus_FailureDomains p)
|}.
Next Obligation. fields_mono. Qed.
#[export] Program Instance VerdaCluster_data : GoData cell VerdaCluster_t (TypeMeta * VerdaCluster) := {|
  reads h m p :=
    reads h (c_TypeMeta m) p.1 ∧ reads h (c_ObjectMeta m) (VC_Meta p.2) ∧ reads h (c_Spec m) (VC_Spec p.2) ∧
    reads h (c_Status m) (VC_Status p.2)
|}.
Next Obligation. fields_mono. Qed.
#[export] Program Instance VerdaClusterList_data : GoData cell VerdaClusterList_t (TypeMeta * ListMeta * list (TypeMeta * VerdaCluster)) := {|
  reads h m p :=
    reads h (cl_TypeMeta m) p.1.1 ∧ reads h (cl_ListMeta m) p.1.2 ∧ reads h (cl_Items m) p.2
|}.
Next Obligation. fields_mono. Qed.
#[export] Program Instance VerdaClusterTemplateResource_data : GoData cell VerdaClusterTemplateResource_t (TemplateMeta * VerdaClusterSpec) := {|
  reads h m p :=
    reads h (ctr_ObjectMeta m) p.1 ∧ reads h (ctr_Spec m) p.2
|}.
Next Obligation. fields_mono. Qed.
#[export] Program Instance VerdaClusterTemplateSpec_data : GoData cell VerdaClusterTemplateSpec_t (TemplateMeta * VerdaClusterSpec) := {|
  reads h m p :=
    reads h (cts_Template m) p
|}.
Next Obligation. fields_mono. Qed.
#[export] Program Instance VerdaClusterTemplate_data : GoData cell VerdaClusterTemplate_t (TypeMeta * ObjectMeta * (TemplateMeta * VerdaClusterSpec)) := {|
  reads h m p :=
    reads h (ctt_TypeMeta m) p.1.1 ∧ reads h (ctt_ObjectMeta m) p.1.2 ∧ reads h (ctt_Spec m) p.2
|}.
Next Obligation. fields_mono. Qed.
#[export] Program Instance VerdaClusterTemplateList_data : GoData cell VerdaClusterTemplateList_t (TypeMeta * ListMeta * list (TypeMeta * ObjectMeta * (TemplateMeta * VerdaClusterSpec))) := {|
  reads h m p :=
    reads h (ctl_TypeMeta m) p.1.1 ∧ reads h (ctl_ListMeta m) p.1.2 ∧ reads h (ctl_Items m) p.2
|}.
Next Obligation. fields_mono. Qed.
#[export] Program Instance VerdaMachineSpec_data : GoData cell VerdaMachineSpec_t VerdaMachineSpec := {|
  reads h m p :=
    reads h (ms_ProviderID m) (MSpec_ProviderID p) ∧ reads h (ms_InstanceType m) (MSpec_InstanceType p) ∧
    reads h (ms_Image m) (MSpec_Image p) ∧ reads h (ms_OSVolumeID m) (MSpec_OSVolumeID p) ∧
    reads h (ms_SSHKeyIDs m) (MSpec_SSHKeyIDs p) ∧ reads h (ms_OSVolumeSizeGB m) (MSpec_OSVolumeSizeGB p) ∧
    reads h (ms_Contract m) (MSpec_Contract p) ∧ reads h (ms_Spot m) (MSpec_Spot p) ∧
    reads h (ms_SpotDiscontinuePolicy m) (MSpec_SpotDiscontinuePolicy p) ∧
    reads h (ms_AdditionalVolumes m) (MSpec_AdditionalVolumes p)
|}.
Next Obligation. fields_mono. Qed.
#[export] Program Instance VerdaMachineStatus_data : GoData cell VerdaMachineStatus_t VerdaMachineStatus := {|
  reads h m p :=
    reads h (mt_Initialization m) (MStatus_Provisioned p) ∧ reads h (mt_Conditions m) (MStatus_Conditions p) ∧
    reads h (mt_Addresses m) (MStatus_Addresses p) ∧ reads h (mt_FailureDomain m) (MStatus_FailureDomain p) ∧
    reads h (mt_InstanceID m) (MStatus_InstanceID p) ∧ reads h (mt_InstanceState m) (MStatus_InstanceState p) ∧
    reads h (mt_OSVolumeID m) (MStatus_OSVolumeID p) ∧
    reads h (mt_StartupScriptID m) (MStatus_StartupScriptID p)
|}.
Next Obligation. fields_mono. Qed.
#[export] Program Instance VerdaMachine_data : GoData cell VerdaMachine_t (TypeMeta * VerdaMachine) := {|
  reads h m p :=
    reads h (m_TypeMeta m) p.1 ∧ reads h (m_ObjectMeta m) (VM_Meta p.2) ∧ reads h (m_Spec m) (VM_Spec p.2) ∧
    reads h (m_Status m) (VM_Status p.2)
|}.
Next Obligation. fields_mono. Qed.
#[export] Program Instance VerdaMachineList_data : GoData cell VerdaMachineList_t (TypeMeta * ListMeta * list (TypeMeta * VerdaMachine)) := {|
  reads h m p :=
    reads h (ml_TypeMeta m) p.1.1 ∧ reads h (ml_ListMeta m) p.1.2 ∧ reads h (ml_Items m) p.2
|}.
Next Obligation. fields_mono. Qed.
#[export] Program Instance VerdaMachineTemplateResource_data : GoData cell VerdaMachineTemplateResource_t (TemplateMeta * VerdaMachineSpec) := {|
  reads h m p :=
    reads h (mtr_ObjectMeta m) p.1 ∧ reads h (mtr_Spec m) p.2
|}.
Next Obligation. fields_mono. Qed.
#[export] Program Instance VerdaMachineTemplateSpec_data : GoData cell VerdaMachineTemplateSpec_t (TemplateMeta * VerdaMachineSpec) := {|
  reads h m p :=
    reads h (mts_Template m) p
|}.
Next Obligation. fields_mono. Qed.
#[export] Program Instance VerdaMachineTemplateStatus_data : GoData cell VerdaMachineTemplateStatus_t VerdaMachineTemplateStatus := {|
  reads h m p :=
    reads h (mtt_Capacity m) (TStatus_Capacity p) ∧ reads h (mtt_NodeInfo m) (TStatus_NodeInfo p) ∧
    reads h (mtt_Conditions m) (TStatus_Conditions p)
|}.
Next Obligation. fields_mono. Qed.
#[export] Program Instance VerdaMachineTemplate_data : GoData cell VerdaMachineTemplate_t (TypeMeta * ObjectMeta * (TemplateMeta * VerdaMachineSpec) * VerdaMachineTemplateStatus) := {|
  reads h m p :=
    reads h (t_TypeMeta m) p.1.1.1 ∧ reads h (t_ObjectMeta m) p.1.1.2 ∧ reads h (t_Spec m) p.1.2 ∧
    reads h (t_Status m) p.2
|}.
Next Obligation. fields_mono. Qed.
#[export] Program Instance VerdaMachineTemplateList_data : GoData cell VerdaMachineTemplateList_t (TypeMeta * ListMeta * list (TypeMeta * ObjectMeta * (TemplateMeta * VerdaMachineSpec) * VerdaMachineTemplateStatus)) := {|
  reads h m p :=
    reads h (tl_TypeMeta m) p.1.1 ∧ reads h (tl_ListMeta m) p.1.2 ∧ reads h (tl_Items m) p.2
|}.
Next Obligation. fields_mono. Qed.
End data.

(** ** The generated methods *)

Section methods.
Context `{!MapRange} {MT : MetaTypes} `{!MetaOps}.

#[export] Instance VerdaClusterStatus_zero : Zero VerdaClusterStatus_t := mkVerdaClusterStatus_t zero zero zero zero zero.
#[export] Instance VerdaCluster_zero : Zero VerdaCluster_t := mkVerdaCluster_t zero zero zero zero.
#[export] Instance VerdaClusterList_zero : Zero VerdaClusterList_t := mkVerdaClusterList_t zero zero zero.
#[export] Instance VerdaClusterTemplateResource_zero : Zero VerdaClusterTemplateResource_t :=
  mkVerdaClusterTemplateResource_t zero zero.
#[export] Instance VerdaClusterTemplateSpec_zero : Zero VerdaClusterTemplateSpec_t := mkVerdaClusterTemplateSpec_t zero.
#[export] Instance VerdaClusterTemplate_zero : Zero VerdaClusterTemplate_t := mkVerdaClusterTemplate_t zero zero zero.
#[export] Instance VerdaClusterTemplateList_zero : Zero VerdaClusterTemplateList_t :=
  mkVerdaClusterTemplateList_t zero zero zero.
#[export] Instance VerdaMachineStatus_zero : Zero VerdaMachineStatus_t :=
  mkVerdaMachineStatus_t zero zero zero zero zero zero zero zero.
#[export] Instance VerdaMachine_zero : Zero VerdaMachine_t := mkVerdaMachine_t zero zero zero zero.
#[export] Instance VerdaMachineList_zero : Zero VerdaMachineList_t := mkVerdaMachineList_t zero zero zero.
#[export] Instance VerdaMachineTemplateResource_zero : Zero VerdaMachineTemplateResource_t :=
  mkVerdaMachineTemplateResource_t zero zero.
#[export] Instance VerdaMachineTemplateSpec_zero : Zero VerdaMachineTemplateSpec_t := mkVerdaMachineTemplateSpec_t zero.
#[export] Instance VerdaMachineTemplateStatus_zero : Zero VerdaMachineTemplateStatus_t :=
  mkVerdaMachineTemplateStatus_t zero zero zero.
#[export] Instance VerdaMachineTemplate_zero : Zero VerdaMachineTemplate_t := mkVerdaMachineTemplate_t zero zero zero zero.
#[export] Instance VerdaMachineTemplateList_zero : Zero VerdaMachineTemplateList_t :=
  mkVerdaMachineTemplateList_t zero zero zero.

Definition AdditionalVolume_DeepCopyInto (inn : AdditionalVolume) : HM cell AdditionalVolume :=
  mret inn.

Definition AdditionalVolume_DeepCopy : ptr AdditionalVolume → HM cell (ptr AdditionalVolume) := DeepCopy AdditionalVolume_DeepCopyInto.

Definition ControlPlaneLoadBalancer_DeepCopyInto (inn : ControlPlaneLoadBalancer_t) : HM cell ControlPlaneLoadBalancer_t :=
  Enabled ← copy_ptr (lb_Enabled inn);
  SSHKeyIDs ← copy_slice (lb_SSHKeyIDs inn);
  mret (mkControlPlaneLoadBalancer_t Enabled (lb_InstanceType inn) (lb_Image inn) SSHKeyIDs).

Definition ControlPlaneLoadBalancer_DeepCopy : ptr ControlPlaneLoadBalancer_t → HM cell (ptr ControlPlaneLoadBalancer_t) := DeepCopy ControlPlaneLoadBalancer_DeepCopyInto.

Definition IdentityReference_DeepCopyInto (inn : IdentityReference) : HM cell IdentityReference :=
  mret inn.

Definition IdentityReference_DeepCopy : ptr IdentityReference → HM cell (ptr IdentityReference) := DeepCopy IdentityReference_DeepCopyInto.

Definition LoadBalancerStatus_DeepCopyInto (inn : LoadBalancerStatus_t) : HM cell LoadBalancerStatus_t :=
  Backends ← copy_slice (lbs_Backends inn);
  SecretPublished ← copy_ptr (lbs_SecretPublished inn);
  mret (mkLoadBalancerStatus_t (lbs_InstanceID inn) (lbs_StartupScriptID inn) (lbs_Address inn) Backends
    SecretPublished).

Definition LoadBalancerStatus_DeepCopy : ptr LoadBalancerStatus_t → HM cell (ptr LoadBalancerStatus_t) := DeepCopy LoadBalancerStatus_DeepCopyInto.

Definition NodeInfo_DeepCopyInto (inn : NodeInfo) : HM cell NodeInfo :=
  mret inn.

Definition NodeInfo_DeepCopy : ptr NodeInfo → HM cell (ptr NodeInfo) := DeepCopy NodeInfo_DeepCopyInto.

Definition VerdaClusterInitializationStatus_DeepCopyInto (inn : VerdaClusterInitializationStatus) : HM cell VerdaClusterInitializationStatus :=
  Provisioned ← copy_ptr (ci_Provisioned inn);
  mret (mkVerdaClusterInitializationStatus Provisioned).

Definition VerdaClusterInitializationStatus_DeepCopy : ptr VerdaClusterInitializationStatus → HM cell (ptr VerdaClusterInitializationStatus) := DeepCopy VerdaClusterInitializationStatus_DeepCopyInto.

Definition VerdaClusterSpec_DeepCopyInto (inn : VerdaClusterSpec_t) : HM cell VerdaClusterSpec_t :=
  IdentityRef ← copy_ptr (cs_IdentityRef inn);
  ControlPlaneLoadBalancer ← ControlPlaneLoadBalancer_DeepCopyInto (cs_ControlPlaneLoadBalancer inn);
  ServiceLoadBalancer ← ControlPlaneLoadBalancer_DeepCopyInto (cs_ServiceLoadBalancer inn);
  mret (mkVerdaClusterSpec_t (cs_Location inn) (cs_ControlPlaneEndpoint inn) IdentityRef
    ControlPlaneLoadBalancer ServiceLoadBalancer).

Definition VerdaClusterSpec_DeepCopy : ptr VerdaClusterSpec_t → HM cell (ptr VerdaClusterSpec_t) := DeepCopy VerdaClusterSpec_DeepCopyInto.

Definition VerdaClusterStatus_DeepCopyInto (inn : VerdaClusterStatus_t) : HM cell VerdaClusterStatus_t :=
  Initialization ← VerdaClusterInitializationStatus_DeepCopyInto (ct_Initialization inn);
  Conditions ← copy_slice_with Condition_DeepCopyInto (ct_Conditions inn);
  LoadBalancer ← LoadBalancerStatus_DeepCopyInto (ct_LoadBalancer inn);
  ServiceLoadBalancer ← LoadBalancerStatus_DeepCopyInto (ct_ServiceLoadBalancer inn);
  FailureDomains ← copy_slice_with FailureDomain_DeepCopyInto (ct_FailureDomains inn);
  mret (mkVerdaClusterStatus_t Initialization Conditions LoadBalancer ServiceLoadBalancer FailureDomains).

Definition VerdaClusterStatus_DeepCopy : ptr VerdaClusterStatus_t → HM cell (ptr VerdaClusterStatus_t) := DeepCopy VerdaClusterStatus_DeepCopyInto.

Definition VerdaCluster_DeepCopyInto (inn : VerdaCluster_t) : HM cell VerdaCluster_t :=
  ObjectMeta ← ObjectMeta_DeepCopyInto (c_ObjectMeta inn);
  Spec ← VerdaClusterSpec_DeepCopyInto (c_Spec inn);
  Status ← VerdaClusterStatus_DeepCopyInto (c_Status inn);
  mret (mkVerdaCluster_t (c_TypeMeta inn) ObjectMeta Spec Status).

Definition VerdaCluster_DeepCopy : ptr VerdaCluster_t → HM cell (ptr VerdaCluster_t) := DeepCopy VerdaCluster_DeepCopyInto.

Definition VerdaClusterList_DeepCopyInto (inn : VerdaClusterList_t) : HM cell VerdaClusterList_t :=
  ListMeta ← ListMeta_DeepCopyInto (cl_ListMeta inn);
  Items ← copy_slice_with VerdaCluster_DeepCopyInto (cl_Items inn);
  mret (mkVerdaClusterList_t (cl_TypeMeta inn) ListMeta Items).

Definition VerdaClusterList_DeepCopy : ptr VerdaClusterList_t → HM cell (ptr VerdaClusterList_t) := DeepCopy VerdaClusterList_DeepCopyInto.

Definition VerdaClusterTemplateResource_DeepCopyInto (inn : VerdaClusterTemplateResource_t) : HM cell VerdaClusterTemplateResource_t :=
  ObjectMeta ← TemplateMeta_DeepCopyInto (ctr_ObjectMeta inn);
  Spec ← VerdaClusterSpec_DeepCopyInto (ctr_Spec inn);
  mret (mkVerdaClusterTemplateResource_t ObjectMeta Spec).

Definition VerdaClusterTemplateResource_DeepCopy : ptr VerdaClusterTemplateResource_t → HM cell (ptr VerdaClusterTemplateResource_t) := DeepCopy VerdaClusterTemplateResource_DeepCopyInto.

Definition VerdaClusterTemplateSpec_DeepCopyInto (inn : VerdaClusterTemplateSpec_t) : HM cell VerdaClusterTemplateSpec_t :=
  Template ← VerdaClusterTemplateResource_DeepCopyInto (cts_Template inn);
  mret (mkVerdaClusterTemplateSpec_t Template).

Definition VerdaClusterTemplateSpec_DeepCopy : ptr VerdaClusterTemplateSpec_t → HM cell (ptr VerdaClusterTemplateSpec_t) := DeepCopy VerdaClusterTemplateSpec_DeepCopyInto.

Definition VerdaClusterTemplate_DeepCopyInto (inn : VerdaClusterTemplate_t) : HM cell VerdaClusterTemplate_t :=
  ObjectMeta ← ObjectMeta_DeepCopyInto (ctt_ObjectMeta inn);
  Spec ← VerdaClusterTemplateSpec_DeepCopyInto (ctt_Spec inn);
  mret (mkVerdaClusterTemplate_t (ctt_TypeMeta inn) ObjectMeta Spec).

Definition VerdaClusterTemplate_DeepCopy : ptr VerdaClusterTemplate_t → HM cell (ptr VerdaClusterTemplate_t) := DeepCopy VerdaClusterTemplate_DeepCopyInto.

Definition VerdaClusterTemplateList_DeepCopyInto (inn : VerdaClusterTemplateList_t) : HM cell VerdaClusterTemplateList_t :=
  ListMeta ← ListMeta_DeepCopyInto (ctl_ListMeta inn);
  Items ← copy_slice_with VerdaClusterTemplate_DeepCopyInto (ctl_Items inn);
  mret (mkVerdaClusterTemplateList_t (ctl_TypeMeta inn) ListMeta Items).

Definition VerdaClusterTemplateList_DeepCopy : ptr VerdaClusterTemplateList_t → HM cell (ptr VerdaClusterTemplateList_t) := DeepCopy VerdaClusterTemplateList_DeepCopyInto.

Definition VerdaMachineInitializationStatus_DeepCopyInto (inn : VerdaMachineInitializationStatus) : HM cell VerdaMachineInitializationStatus :=
  Provisioned ← copy_ptr (mi_Provisioned inn);
  mret (mkVerdaMachineInitializationStatus Provisioned).

Definition VerdaMachineInitializationStatus_DeepCopy : ptr VerdaMachineInitializationStatus → HM cell (ptr VerdaMachineInitializationStatus) := DeepCopy VerdaMachineInitializationStatus_DeepCopyInto.

Definition VerdaMachineSpec_DeepCopyInto (inn : VerdaMachineSpec_t) : HM cell VerdaMachineSpec_t :=
  SSHKeyIDs ← copy_slice (ms_SSHKeyIDs inn);
  Spot ← copy_ptr (ms_Spot inn);
  AdditionalVolumes ← copy_slice (ms_AdditionalVolumes inn);
  mret (mkVerdaMachineSpec_t (ms_ProviderID inn) (ms_InstanceType inn) (ms_Image inn) (ms_OSVolumeID inn)
    SSHKeyIDs (ms_OSVolumeSizeGB inn) (ms_Contract inn) Spot (ms_SpotDiscontinuePolicy inn) AdditionalVolumes).

Definition VerdaMachineSpec_DeepCopy : ptr VerdaMachineSpec_t → HM cell (ptr VerdaMachineSpec_t) := DeepCopy VerdaMachineSpec_DeepCopyInto.

Definition VerdaMachineStatus_DeepCopyInto (inn : VerdaMachineStatus_t) : HM cell VerdaMachineStatus_t :=
  Initialization ← VerdaMachineInitializationStatus_DeepCopyInto (mt_Initialization inn);
  Conditions ← copy_slice_with Condition_DeepCopyInto (mt_Conditions inn);
  Addresses ← copy_slice (mt_Addresses inn);
  mret (mkVerdaMachineStatus_t Initialization Conditions Addresses (mt_FailureDomain inn) (mt_InstanceID inn)
    (mt_InstanceState inn) (mt_OSVolumeID inn) (mt_StartupScriptID inn)).

Definition VerdaMachineStatus_DeepCopy : ptr VerdaMachineStatus_t → HM cell (ptr VerdaMachineStatus_t) := DeepCopy VerdaMachineStatus_DeepCopyInto.

Definition VerdaMachine_DeepCopyInto (inn : VerdaMachine_t) : HM cell VerdaMachine_t :=
  ObjectMeta ← ObjectMeta_DeepCopyInto (m_ObjectMeta inn);
  Spec ← VerdaMachineSpec_DeepCopyInto (m_Spec inn);
  Status ← VerdaMachineStatus_DeepCopyInto (m_Status inn);
  mret (mkVerdaMachine_t (m_TypeMeta inn) ObjectMeta Spec Status).

Definition VerdaMachine_DeepCopy : ptr VerdaMachine_t → HM cell (ptr VerdaMachine_t) := DeepCopy VerdaMachine_DeepCopyInto.

Definition VerdaMachineList_DeepCopyInto (inn : VerdaMachineList_t) : HM cell VerdaMachineList_t :=
  ListMeta ← ListMeta_DeepCopyInto (ml_ListMeta inn);
  Items ← copy_slice_with VerdaMachine_DeepCopyInto (ml_Items inn);
  mret (mkVerdaMachineList_t (ml_TypeMeta inn) ListMeta Items).

Definition VerdaMachineList_DeepCopy : ptr VerdaMachineList_t → HM cell (ptr VerdaMachineList_t) := DeepCopy VerdaMachineList_DeepCopyInto.

Definition VerdaMachineTemplateResource_DeepCopyInto (inn : VerdaMachineTemplateResource_t) : HM cell VerdaMachineTemplateResource_t :=
  ObjectMeta ← TemplateMeta_DeepCopyInto (mtr_ObjectMeta inn);
  Spec ← VerdaMachineSpec_DeepCopyInto (mtr_Spec inn);
  mret (mkVerdaMachineTemplateResource_t ObjectMeta Spec).

Definition VerdaMachineTemplateResource_DeepCopy : ptr VerdaMachineTemplateResource_t → HM cell (ptr VerdaMachineTemplateResource_t) := DeepCopy VerdaMachineTemplateResource_DeepCopyInto.

Definition VerdaMachineTemplateSpec_DeepCopyInto (inn : VerdaMachineTemplateSpec_t) : HM cell VerdaMachineTemplateSpec_t :=
  Template ← VerdaMachineTemplateResource_DeepCopyInto (mts_Template inn);
  mret (mkVerdaMachineTemplateSpec_t Template).

Definition VerdaMachineTemplateSpec_DeepCopy : ptr VerdaMachineTemplateSpec_t → HM cell (ptr VerdaMachineTemplateSpec_t) := DeepCopy VerdaMachineTemplateSpec_DeepCopyInto.

Definition VerdaMachineTemplateStatus_DeepCopyInto (inn : VerdaMachineTemplateStatus_t) : HM cell VerdaMachineTemplateStatus_t :=
  Capacity ← copy_map Quantity_DeepCopy (mtt_Capacity inn);
  Conditions ← copy_slice_with Condition_DeepCopyInto (mtt_Conditions inn);
  mret (mkVerdaMachineTemplateStatus_t Capacity (mtt_NodeInfo inn) Conditions).

Definition VerdaMachineTemplateStatus_DeepCopy : ptr VerdaMachineTemplateStatus_t → HM cell (ptr VerdaMachineTemplateStatus_t) := DeepCopy VerdaMachineTemplateStatus_DeepCopyInto.

Definition VerdaMachineTemplate_DeepCopyInto (inn : VerdaMachineTemplate_t) : HM cell VerdaMachineTemplate_t :=
  ObjectMeta ← ObjectMeta_DeepCopyInto (t_ObjectMeta inn);
  Spec ← VerdaMachineTemplateSpec_DeepCopyInto (t_Spec inn);
  Status ← VerdaMachineTemplateStatus_DeepCopyInto (t_Status inn);
  mret (mkVerdaMachineTemplate_t (t_TypeMeta inn) ObjectMeta Spec Status).

Definition VerdaMachineTemplate_DeepCopy : ptr VerdaMachineTemplate_t → HM cell (ptr VerdaMachineTemplate_t) := DeepCopy VerdaMachineTemplate_DeepCopyInto.

Definition VerdaMachineTemplateList_DeepCopyInto (inn : VerdaMachineTemplateList_t) : HM cell VerdaMachineTemplateList_t :=
  ListMeta ← ListMeta_DeepCopyInto (tl_ListMeta inn);
  Items ← copy_slice_with VerdaMachineTemplate_DeepCopyInto (tl_Items inn);
  mret (mkVerdaMachineTemplateList_t (tl_TypeMeta inn) ListMeta Items).

Definition VerdaMachineTemplateList_DeepCopy : ptr VerdaMachineTemplateList_t → HM cell (ptr VerdaMachineTemplateList_t) := DeepCopy VerdaMachineTemplateList_DeepCopyInto.

(** [runtime.Object]: nil, or a pointer with its type. *)
Inductive runtime_Object :=
| nilObject
| ObjVerdaCluster (p : ptr VerdaCluster_t)
| ObjVerdaClusterList (p : ptr VerdaClusterList_t)
| ObjVerdaClusterTemplate (p : ptr VerdaClusterTemplate_t)
| ObjVerdaClusterTemplateList (p : ptr VerdaClusterTemplateList_t)
| ObjVerdaMachine (p : ptr VerdaMachine_t)
| ObjVerdaMachineList (p : ptr VerdaMachineList_t)
| ObjVerdaMachineTemplate (p : ptr VerdaMachineTemplate_t)
| ObjVerdaMachineTemplateList (p : ptr VerdaMachineTemplateList_t).

(** [if c := in.DeepCopy(); c != nil { return c }; return nil] *)
Definition asObject {A} (mk : ptr A → runtime_Object) (c : ptr A) : runtime_Object :=
  match addr c with Some _ => mk c | None => nilObject end.

Definition VerdaCluster_DeepCopyObject (p : ptr VerdaCluster_t) : HM cell runtime_Object :=
  c ← VerdaCluster_DeepCopy p; mret (asObject ObjVerdaCluster c).
Definition VerdaClusterList_DeepCopyObject (p : ptr VerdaClusterList_t) : HM cell runtime_Object :=
  c ← VerdaClusterList_DeepCopy p; mret (asObject ObjVerdaClusterList c).
Definition VerdaClusterTemplate_DeepCopyObject (p : ptr VerdaClusterTemplate_t) : HM cell runtime_Object :=
  c ← VerdaClusterTemplate_DeepCopy p; mret (asObject ObjVerdaClusterTemplate c).
Definition VerdaClusterTemplateList_DeepCopyObject (p : ptr VerdaClusterTemplateList_t) : HM cell runtime_Object :=
  c ← VerdaClusterTemplateList_DeepCopy p; mret (asObject ObjVerdaClusterTemplateList c).
Definition VerdaMachine_DeepCopyObject (p : ptr VerdaMachine_t) : HM cell runtime_Object :=
  c ← VerdaMachine_DeepCopy p; mret (asObject ObjVerdaMachine c).
Definition VerdaMachineList_DeepCopyObject (p : ptr VerdaMachineList_t) : HM cell runtime_Object :=
  c ← VerdaMachineList_DeepCopy p; mret (asObject ObjVerdaMachineList c).
Definition VerdaMachineTemplate_DeepCopyObject (p : ptr VerdaMachineTemplate_t) : HM cell runtime_Object :=
  c ← VerdaMachineTemplate_DeepCopy p; mret (asObject ObjVerdaMachineTemplate c).
Definition VerdaMachineTemplateList_DeepCopyObject (p : ptr VerdaMachineTemplateList_t) : HM cell runtime_Object :=
  c ← VerdaMachineTemplateList_DeepCopy p; mret (asObject ObjVerdaMachineTemplateList c).
End methods.

(** ** They copy deeply *)

Create HintDb copies.

Section deep.
Context `{!MapRange} {MT : MetaTypes} {MO : MetaOps} {ML : MetaLaws}.

#[export] Instance AdditionalVolume_flat : Flat cell AdditionalVolume AdditionalVolume.
Proof. by intros ????. Qed.
#[export] Instance MachineAddress_flat : Flat cell MachineAddress MachineAddress.
Proof. by intros ????. Qed.
#[export] Instance NodeInfo_flat : Flat cell NodeInfo NodeInfo.
Proof. by intros ????. Qed.
#[export] Instance IdentityReference_flat : Flat cell IdentityReference string.
Proof. by intros ????. Qed.

#[local] Hint Resolve ObjectMeta_copies ListMeta_copies TemplateMeta_copies Condition_copies FailureDomain_copies
  Quantity_copies mret_copies copy_ptr_copies copy_slice_copies copy_slice_with_copies copy_map_copies
  DeepCopy_copies : copies.

(** The fields of a struct, one after the other. *)
Ltac copy_fields inst :=
  intros h m x Hr; unfold inst in Hr; cbn [reads] in Hr;
  repeat match goal with Hf : _ ∧ _ |- _ => destruct Hf end;
  repeat (eapply (hwp_field _ _ h); [|eassumption|done|]; [typeclasses eauto with copies typeclass_instances|intros]);
  apply hwp_ret; (split; [done|]); unfold inst; cbn [reads];
  split_and?; first [assumption|eapply reads_later; [|eassumption]; solve [repeat (etrans; [eassumption|]); done]].

Lemma AdditionalVolume_DeepCopyInto_copies : copies AdditionalVolume_DeepCopyInto.
Proof. apply mret_copies. Qed.
#[local] Hint Resolve AdditionalVolume_DeepCopyInto_copies : copies.
Lemma ControlPlaneLoadBalancer_DeepCopyInto_copies : copies ControlPlaneLoadBalancer_DeepCopyInto.
Proof. unfold ControlPlaneLoadBalancer_DeepCopyInto. copy_fields @ControlPlaneLoadBalancer_data. Qed.
#[local] Hint Resolve ControlPlaneLoadBalancer_DeepCopyInto_copies : copies.
Lemma IdentityReference_DeepCopyInto_copies : copies IdentityReference_DeepCopyInto.
Proof. apply mret_copies. Qed.
#[local] Hint Resolve IdentityReference_DeepCopyInto_copies : copies.
Lemma LoadBalancerStatus_DeepCopyInto_copies : copies LoadBalancerStatus_DeepCopyInto.
Proof. unfold LoadBalancerStatus_DeepCopyInto. copy_fields @LoadBalancerStatus_data. Qed.
#[local] Hint Resolve LoadBalancerStatus_DeepCopyInto_copies : copies.
Lemma NodeInfo_DeepCopyInto_copies : copies NodeInfo_DeepCopyInto.
Proof. apply mret_copies. Qed.
#[local] Hint Resolve NodeInfo_DeepCopyInto_copies : copies.
Lemma VerdaClusterInitializationStatus_DeepCopyInto_copies : copies VerdaClusterInitializationStatus_DeepCopyInto.
Proof. unfold VerdaClusterInitializationStatus_DeepCopyInto. copy_fields @VerdaClusterInitializationStatus_data. Qed.
#[local] Hint Resolve VerdaClusterInitializationStatus_DeepCopyInto_copies : copies.
Lemma VerdaClusterSpec_DeepCopyInto_copies : copies VerdaClusterSpec_DeepCopyInto.
Proof. unfold VerdaClusterSpec_DeepCopyInto. copy_fields @VerdaClusterSpec_data. Qed.
#[local] Hint Resolve VerdaClusterSpec_DeepCopyInto_copies : copies.
Lemma VerdaClusterStatus_DeepCopyInto_copies : copies VerdaClusterStatus_DeepCopyInto.
Proof using ML. unfold VerdaClusterStatus_DeepCopyInto. copy_fields @VerdaClusterStatus_data. Qed.
#[local] Hint Resolve VerdaClusterStatus_DeepCopyInto_copies : copies.
Lemma VerdaCluster_DeepCopyInto_copies : copies VerdaCluster_DeepCopyInto.
Proof using ML. unfold VerdaCluster_DeepCopyInto. copy_fields @VerdaCluster_data. Qed.
#[local] Hint Resolve VerdaCluster_DeepCopyInto_copies : copies.
Lemma VerdaClusterList_DeepCopyInto_copies : copies VerdaClusterList_DeepCopyInto.
Proof using ML. unfold VerdaClusterList_DeepCopyInto. copy_fields @VerdaClusterList_data. Qed.
#[local] Hint Resolve VerdaClusterList_DeepCopyInto_copies : copies.
Lemma VerdaClusterTemplateResource_DeepCopyInto_copies : copies VerdaClusterTemplateResource_DeepCopyInto.
Proof using ML. unfold VerdaClusterTemplateResource_DeepCopyInto. copy_fields @VerdaClusterTemplateResource_data. Qed.
#[local] Hint Resolve VerdaClusterTemplateResource_DeepCopyInto_copies : copies.
Lemma VerdaClusterTemplateSpec_DeepCopyInto_copies : copies VerdaClusterTemplateSpec_DeepCopyInto.
Proof using ML. unfold VerdaClusterTemplateSpec_DeepCopyInto. copy_fields @VerdaClusterTemplateSpec_data. Qed.
#[local] Hint Resolve VerdaClusterTemplateSpec_DeepCopyInto_copies : copies.
Lemma VerdaClusterTemplate_DeepCopyInto_copies : copies VerdaClusterTemplate_DeepCopyInto.
Proof using ML. unfold VerdaClusterTemplate_DeepCopyInto. copy_fields @VerdaClusterTemplate_data. Qed.
#[local] Hint Resolve VerdaClusterTemplate_DeepCopyInto_copies : copies.
Lemma VerdaClusterTemplateList_DeepCopyInto_copies : copies VerdaClusterTemplateList_DeepCopyInto.
Proof using ML. unfold VerdaClusterTemplateList_DeepCopyInto. copy_fields @VerdaClusterTemplateList_data. Qed.
#[local] Hint Resolve VerdaClusterTemplateList_DeepCopyInto_copies : copies.
Lemma VerdaMachineInitializationStatus_DeepCopyInto_copies : copies VerdaMachineInitializationStatus_DeepCopyInto.
Proof. unfold VerdaMachineInitializationStatus_DeepCopyInto. copy_fields @VerdaMachineInitializationStatus_data. Qed.
#[local] Hint Resolve VerdaMachineInitializationStatus_DeepCopyInto_copies : copies.
Lemma VerdaMachineSpec_DeepCopyInto_copies : copies VerdaMachineSpec_DeepCopyInto.
Proof. unfold VerdaMachineSpec_DeepCopyInto. copy_fields @VerdaMachineSpec_data. Qed.
#[local] Hint Resolve VerdaMachineSpec_DeepCopyInto_copies : copies.
Lemma VerdaMachineStatus_DeepCopyInto_copies : copies VerdaMachineStatus_DeepCopyInto.
Proof using ML. unfold VerdaMachineStatus_DeepCopyInto. copy_fields @VerdaMachineStatus_data. Qed.
#[local] Hint Resolve VerdaMachineStatus_DeepCopyInto_copies : copies.
Lemma VerdaMachine_DeepCopyInto_copies : copies VerdaMachine_DeepCopyInto.
Proof using ML. unfold VerdaMachine_DeepCopyInto. copy_fields @VerdaMachine_data. Qed.
#[local] Hint Resolve VerdaMachine_DeepCopyInto_copies : copies.
Lemma VerdaMachineList_DeepCopyInto_copies : copies VerdaMachineList_DeepCopyInto.
Proof using ML. unfold VerdaMachineList_DeepCopyInto. copy_fields @VerdaMachineList_data. Qed.
#[local] Hint Resolve VerdaMachineList_DeepCopyInto_copies : copies.
Lemma VerdaMachineTemplateResource_DeepCopyInto_copies : copies VerdaMachineTemplateResource_DeepCopyInto.
Proof using ML. unfold VerdaMachineTemplateResource_DeepCopyInto. copy_fields @VerdaMachineTemplateResource_data. Qed.
#[local] Hint Resolve VerdaMachineTemplateResource_DeepCopyInto_copies : copies.
Lemma VerdaMachineTemplateSpec_DeepCopyInto_copies : copies VerdaMachineTemplateSpec_DeepCopyInto.
Proof using ML. unfold VerdaMachineTemplateSpec_DeepCopyInto. copy_fields @VerdaMachineTemplateSpec_data. Qed.
#[local] Hint Resolve VerdaMachineTemplateSpec_DeepCopyInto_copies : copies.
Lemma VerdaMachineTemplateStatus_DeepCopyInto_copies : copies VerdaMachineTemplateStatus_DeepCopyInto.
Proof using ML. unfold VerdaMachineTemplateStatus_DeepCopyInto. copy_fields @VerdaMachineTemplateStatus_data. Qed.
#[local] Hint Resolve VerdaMachineTemplateStatus_DeepCopyInto_copies : copies.
Lemma VerdaMachineTemplate_DeepCopyInto_copies : copies VerdaMachineTemplate_DeepCopyInto.
Proof using ML. unfold VerdaMachineTemplate_DeepCopyInto. copy_fields @VerdaMachineTemplate_data. Qed.
#[local] Hint Resolve VerdaMachineTemplate_DeepCopyInto_copies : copies.
Lemma VerdaMachineTemplateList_DeepCopyInto_copies : copies VerdaMachineTemplateList_DeepCopyInto.
Proof using ML. unfold VerdaMachineTemplateList_DeepCopyInto. copy_fields @VerdaMachineTemplateList_data. Qed.
#[local] Hint Resolve VerdaMachineTemplateList_DeepCopyInto_copies : copies.

(** ** Independence *)

(** [q] represents [x], and still does after any change of the memory that was
    there before the copy; [p] still represents [x] after any change of the
    memory the copy brought. *)
Definition independent {Mem Pure} `{!GoData cell Mem Pure} (h h' : heap cell) (p q : Mem) (x : Pure) : Prop :=
  reads h' q x ∧
  (∀ h2, (∀ l, l ∉ dom h → h2 !! l = h' !! l) → reads h2 q x) ∧
  (∀ h2, (∀ l, l ∈ dom h → h2 !! l = h' !! l) → reads h2 p x).

Lemma copies_independent {Mem Pure} `{!GoData cell Mem Pure} (f : Mem → HM cell Mem) h p x :
  copies f → reads h p x → hwp (f p) h (λ h' q, reads (h' ∖ h) q x ∧ h ⊆ h' ∧ independent h h' p q x).
Proof.
  intros Hf Hr. eapply hwp_mono; [by apply Hf|]. intros h' q [Hs Hq]. split_and!; [done..|]. split_and!.
  - eapply reads_mono; [|exact Hq]. apply map_subseteq_difference_l. done.
  - intros h2 Hout. eapply reads_mono; [|exact Hq]. apply map_subseteq_spec. intros l c.
    rewrite lookup_difference_Some, <-not_elem_of_dom. intros [Hc Hl]. by rewrite Hout.
  - intros h2 Hin. eapply reads_mono; [|exact Hr]. apply map_subseteq_spec. intros l c Hl.
    rewrite Hin by by eapply elem_of_dom_2. by eapply lookup_weaken.
Qed.

(** [DeepCopyObject] of a pointer to what represents [x]: nil is copied to nil, a
    struct to a new one, independent of it. *)
Definition copies_object {T P} `{!GoData cell (ptr T) (option P)} (f : ptr T → HM cell runtime_Object)
    (mk : ptr T → runtime_Object) : Prop :=
  ∀ h p (x : option P), reads h p x →
    hwp (f p) h (λ h' o,
      match x with
      | None => o = nilObject
      | Some _ => ∃ q, o = mk q ∧ addr q ≠ None ∧ addr q ≠ addr p ∧ independent h h' p q x
      end).

Lemma DeepCopy_object `{!GoData cell T P, !Storable cell T, !Zero T} (f : T → HM cell T) mk :
  copies f → copies_object (λ p, c ← DeepCopy f p; mret (asObject mk c)) mk.
Proof.
  intros Hf h p x Hr. apply hwp_bind. eapply hwp_mono; [by apply copies_independent; [apply DeepCopy_copies|]|].
  intros h' q (Hq & Hs & Hind). apply hwp_ret. unfold asObject.
  destruct p as [[l|]], q as [[k|]], x as [x|]; try done. exists (Ptr (Some k)).
  split_and!; [done..| |done]. cbn. intros [= ->]. destruct Hr as (a & Ha & _), Hq as (b & Hb & _).
  unfold peek in Ha, Hb. apply bind_Some in Ha as (c & Hc & _). apply bind_Some in Hb as (d & Hd & _).
  apply lookup_difference_Some in Hd as [_ Hd]. congruence.
Qed.

(** (C21) A deep copy of an API object is the object: for each of the eight kinds,
    [DeepCopyObject] returns (it never panics) an object of the same kind that
    represents the same value and shares no memory with the original: whatever
    is written to one afterwards, through any pointer, slice or map it holds,
    the other still represents the value; nil is copied to the nil object. *)
Theorem deep_copies_independent :
  copies_object VerdaCluster_DeepCopyObject ObjVerdaCluster ∧
  copies_object VerdaClusterList_DeepCopyObject ObjVerdaClusterList ∧
  copies_object VerdaClusterTemplate_DeepCopyObject ObjVerdaClusterTemplate ∧
  copies_object VerdaClusterTemplateList_DeepCopyObject ObjVerdaClusterTemplateList ∧
  copies_object VerdaMachine_DeepCopyObject ObjVerdaMachine ∧
  copies_object VerdaMachineList_DeepCopyObject ObjVerdaMachineList ∧
  copies_object VerdaMachineTemplate_DeepCopyObject ObjVerdaMachineTemplate ∧
  copies_object VerdaMachineTemplateList_DeepCopyObject ObjVerdaMachineTemplateList.
Proof using ML. split_and!; apply DeepCopy_object; typeclasses eauto with copies typeclass_instances. Qed.
End deep.

(** ** Example *)

Module DeepCopyExamples.

(** A model of the libraries in which only failure domains have a reference. *)
Record domain := mkDomain { domain_Name : string; domain_ControlPlane : ptr bool }.

#[local] Instance types : MetaTypes := {|
  LibCell := unit; ObjectMeta_t := ObjectMeta; ListMeta_t := string; TemplateMeta_t := gmap string string;
  Condition_t := Condition; FailureDomain_t := domain; Quantity_t := Z;
  ListMeta := string; TemplateMeta := gmap string string
|}.

#[local] Instance domain_data : GoData cell domain FailureDomain.
Proof.
  refine {| reads h m p := domain_Name m = FailureDomain_Name p ∧ reads h (domain_ControlPlane m) (FailureDomain_ControlPlane p) |}.
  intros h h' m p Hs [? Hr]. split; [done|]. by eapply reads_mono.
Defined.

Definition domain_DeepCopyInto (d : domain) : HM cell domain :=
  c ← copy_ptr (domain_ControlPlane d); mret (mkDomain (domain_Name d) c).

Definition no_meta : ObjectMeta := mkObjectMeta "" "" ∅ ∅ [] 0 None.

#[local] Instance ops : MetaOps := {|
  ObjectMeta_zero := no_meta;
  ListMeta_zero := zero : string;
  TemplateMeta_zero := (∅ : gmap string string);
  Condition_zero := mkCondition "" ConditionUnknown "" "";
  FailureDomain_zero := mkDomain "" zero;
  ObjectMeta_data := flat id; ListMeta_data := flat id; TemplateMeta_data := flat id; Condition_data := flat id;
  FailureDomain_data := domain_data; Quantity_data := flat id;
  ObjectMeta_DeepCopyInto := mret; ListMeta_DeepCopyInto := mret; TemplateMeta_DeepCopyInto := mret;
  Condition_DeepCopyInto := mret; FailureDomain_DeepCopyInto := domain_DeepCopyInto; Quantity_DeepCopy := mret
|}.

Lemma flat_copies {A B} (f : A → B) : @copies cell A B (flat f) mret.
Proof. intros h m x Hr. apply hwp_ret. by split. Qed.

#[local] Instance laws : MetaLaws.
Proof.
  split; try apply flat_copies.
  intros h m x [Hn Hr]. eapply (hwp_field _ _ h); [apply copy_ptr_copies|exact Hr|done|].
  intros h' c Hs _ Hc. apply hwp_ret. by split.
Qed.

#[local] Instance range_as_stored : MapRange := {| map_range A m := map_to_list m; map_range_perm A m := reflexivity _ |}.

(** A machine with two keys on record, the second and third of an array. *)
Definition spec_t : VerdaMachineSpec_t :=
  mkVerdaMachineSpec_t "" "CPU.4V.16G" "24.04.base" "" (SliceAt 2 1 2) 50 "" (Ptr (Some 3%positive)) "" SliceNil.
Definition machine_t : VerdaMachine_t :=
  mkVerdaMachine_t (mkTypeMeta "VerdaMachine" "v1beta1") (no_meta : ObjectMeta_t) spec_t
    (mkVerdaMachineStatus_t (mkVerdaMachineInitializationStatus (Ptr (Some 3%positive))) SliceNil SliceNil
       "" "i-1" "running" "" "").
Definition memory : heap cell :=
  {[ 1%positive := inject machine_t; 2%positive := inject ["k0"; "k1"; "k2"]; 3%positive := inject true ]}.

Definition machine : VerdaMachine :=
  mkVerdaMachine no_meta
    (mkVerdaMachineSpec "" "CPU.4V.16G" "24.04.base" "" ["k1"; "k2"] 50 "" (Some true) "" [])
    (mkVerdaMachineStatus (Some true) [] [] "" "i-1" "running" "" "").

Lemma memory_machine :
  reads memory (Ptr (Some 1%positive) : ptr VerdaMachine_t) (Some (mkTypeMeta "VerdaMachine" "v1beta1", machine)).
Proof.
  exists machine_t. split; [vm_compute; reflexivity|].
  assert (reads memory (Ptr (Some 3%positive) : ptr bool) (Some true)) as Hb by by exists true.
  repeat split; try exact Hb. exists ["k0"; "k1"; "k2"]. split_and!; [vm_compute; reflexivity|cbn; lia|].
  repeat constructor.
Qed.

(** The copy is another machine; both pointers to the shared bool became new ones. *)
Lemma deep_copies_independent_witness :
  hwp (VerdaMachine_DeepCopyObject (Ptr (Some 1%positive))) memory (λ h' o,
    ∃ q, o = ObjVerdaMachine q ∧ addr q ≠ None ∧ addr q ≠ Some 1%positive ∧
      independent memory h' (Ptr (Some 1%positive)) q (Some (mkTypeMeta "VerdaMachine" "v1beta1", machine))).
Proof.
  destruct deep_copies_independent as (_ & _ & _ & _ & Hm & _).
  exact (Hm memory (Ptr (Some 1%positive)) (Some (mkTypeMeta "VerdaMachine" "v1beta1", machine)) memory_machine).
Defined.
End DeepCopyExamples.

