(* ===== verification/Ctrl.v ===== *)
(** * What the controllers have in common

    The calls a reconciler makes ([CtrlE]): the Kubernetes API through the
    controller-runtime client and the Cluster API helpers, the credential
    factory, the Verda client, the SSH updater of the load balancers, the client
    of the workload cluster, and the clock.  The helpers shared by
    [verdamachine_controller.go], [verdacluster_controller.go] and
    [verdacluster_servicelb.go] are modelled here. *)

From S2P Require Import Prelude GoStd GoTime Effects Api Cloud.
From stdpp Require Import options.

Local Open Scope go_scope.

(** ** Values the calls exchange *)

(** A value of the interface type [cloud.Client], resp. of the interface type
    [client.Client] for a workload cluster: which object it is. *)
Definition ClientRef := nat.
Definition WorkloadRef := nat.

(** [cloud.Identity] *)
Record Identity := mkIdentity { Identity_Namespace : string; Identity_SecretName : string }.

(** [loadbalancer.Keys] *)
Record Keys := mkKeys {
  ClientPrivateKey : string;
  ClientPublicKey : string;
  HostPrivateKey : string;
  HostPublicKey : string
}.
#[export] Instance Keys_eq_dec : EqDecision Keys.
Proof. solve_decision. Defined.

(** [corev1.Secret] *)
Record Secret := mkSecret {
  Secret_Namespace : string;
  Secret_Name : string;
  Secret_ResourceVersion : string;
  Secret_Labels : gmap string string;
  Secret_Owner : option string;
  Secret_Data : gmap string string
}.

(** [ctrl.Result], [RequeueAfter] in nanoseconds, 0 for none.  A result that
    accompanies an error is ignored by controller-runtime and not kept. *)
Record Result := mkResult { RequeueAfter : Z }.
Definition emptyResult : Result := mkResult 0.

Inductive CtrlE : Type → Type :=
(* the Verda API through the client of the object's identity *)
| Verda {X} (c : ClientRef) (e : ClientE X) : CtrlE X
| ClientFor (identity : Identity) : CtrlE (result ClientRef)
(* the clock *)
| Now : CtrlE Z
(* the management cluster *)
| GetVerdaMachine (ns name : string) : CtrlE (result VerdaMachine)
| GetVerdaCluster (ns name : string) : CtrlE (result VerdaCluster)
| GetVerdaMachineTemplate (ns name : string) : CtrlE (result VerdaMachineTemplate)
| GetCluster (ns name : string) : CtrlE (result Cluster)
| GetSecret (ns name : string) : CtrlE (result Secret)
| CreateSecret (s : Secret) : CtrlE (result unit)
| ListVerdaMachines (ns clusterName : string) : CtrlE (result (list VerdaMachine))
| EnsureFinalizer (m : ObjectMeta) (finalizer : string) : CtrlE (result bool)
| GetOwnerMachine (m : ObjectMeta) : CtrlE (result (option Machine))
| GetOwnerCluster (m : ObjectMeta) : CtrlE (result (option Cluster))
| GetClusterFromMetadata (m : ObjectMeta) : CtrlE (result Cluster)
| EnsurePausedCondition (c : Cluster) (m : ObjectMeta) (conds : list Condition) :
    CtrlE (result (bool * bool * list Condition))
| NewPatchHelper (m : ObjectMeta) : CtrlE (result unit)
| PatchVerdaMachine (vm : VerdaMachine) : CtrlE (result unit)
| PatchVerdaCluster (c : VerdaCluster) : CtrlE (result unit)
| PatchVerdaMachineTemplate (t : VerdaMachineTemplate) : CtrlE (result unit)
(* the load balancer instances *)
| GenerateKeys : CtrlE (result Keys)
| UpdateBackends (address : string) (keys : Keys) (backends : list string) : CtrlE (result unit)
(* the workload cluster *)
| KubeconfigFromSecret (ns name : string) : CtrlE (result string)
| WorkloadClient (kubeconfig : string) : CtrlE (result WorkloadRef)
| WorkloadGetSecret (w : WorkloadRef) (ns name : string) : CtrlE (result Secret)
| WorkloadCreateSecret (w : WorkloadRef) (s : Secret) : CtrlE (result unit)
| WorkloadUpdateSecret (w : WorkloadRef) (s : Secret) : CtrlE (result unit)
| WorkloadDeleteSecret (w : WorkloadRef) (ns name : string) : CtrlE (result unit).

(** [bootstrap.Script], the result of [bootstrap.ToStartupScript]. *)
Record Script := mkScript { Script_Script : string; Script_Unsupported : list string }.

(** What the machine controller needs of package bootstrap. *)
Class Bootstrapper := { ToStartupScript : string → string → result Script }.

(** ** Intervals *)

Definition instancePollInterval : Z := 15 * Second.
Definition deletePollInterval : Z := 10 * Second.
Definition instanceResyncInterval : Z := 5 * Minute.
Definition noCapacityRetryInterval : Z := 2 * Minute.
Definition deleteRetryInterval : Z := 20 * Second.

Definition InstanceProvisioningReason := "InstanceProvisioning".
Definition InstanceTerminatedReason := "InstanceTerminated".
Definition InstanceFailedReason := "InstanceFailed".
Definition NoCapacityReason := "NoCapacity".
Definition InstanceDeleteRequestedReason := "InstanceDeleteRequested".

(** ** Throttling of delete requests *)

Definition deleteRequestedAnnotation := "verda.cluster.x-k8s.io/delete-requested-at".

Definition delete_key (suffix : string) : string :=
  if bool_decide (suffix = "") then deleteRequestedAnnotation
  else deleteRequestedAnnotation +:+ "-" +:+ suffix.

Section helpers.
Context {O : Type} `{!Object O}.

Definition Annotations (o : O) : gmap string string := Meta_Annotations (obj_meta o).
Definition SetAnnotation (key value : string) (o : O) : O :=
  obj_set_meta (set_Annotations (<[key := value]> (Annotations o)) (obj_meta o)) o.

Definition deleteRequestDue (suffix state : string) : M O CtrlE bool :=
  let key := delete_key suffix in
  let mark : M O CtrlE bool :=
    let! now := ask Now in
    do! modify (SetAnnotation key (state +:+ "@" +:+ FormatRFC3339 now)) in
    retM true in
  let! o := getM in
  match Cut (map_get (Annotations o) key) "@" with
  | Some (lastState, lastAt) =>
      if bool_decide (lastState = state) then
        match ParseRFC3339 lastAt with
        | Some last =>
            let! now := ask Now in
            if (now - last <? deleteRetryInterval)%Z then retM false else mark
        | None => mark
        end
      else mark
  | None => mark
  end.

(** [conditions.Set(obj, c)] *)
Definition setCondition `{!CapiUtil} (c : Condition) : M O CtrlE unit :=
  modify (λ o, SetConditions (conditions_Set c (GetConditions o)) o).
End helpers.

(** ** Small helpers *)

Definition instanceGone (instance : Instance) : bool :=
  bool_decide (Instance_Status instance = StatusNotFound) ||
  bool_decide (Instance_Status instance = StatusDiscontinued) ||
  bool_decide (Instance_Status instance = StatusDeleted).

(** [&cloud.Instance{ID: id, Status: cloud.StatusNotFound}] *)
Definition missingInstance (id : string) : Instance :=
  mkInstance id "" StatusNotFound "" "" "" "" "" ∅.

Definition truncateTag (v : string) : string :=
  let v := if (127 <? String.length v)%nat then str_take 127 v else v in
  ToLower v.

Definition orDefault (v def : string) : string := if bool_decide (v = "") then def else v.

Definition kerrorsJoin (a b : option error) : option error :=
  match a, b with
  | None, _ => b
  | _, None => a
  | Some a, Some b => Some (joinError a b)
  end.

Definition err_of {A} (r : result A) : option error :=
  match r with Ok _ => None | Err e => Some e end.

(** [defer func() { if err := after; err != nil { reterr = kerrorsJoin(reterr, err) } }()]
    around [body]. *)
Definition deferred {O A} (body : M O CtrlE A) (after : M O CtrlE unit) : M O CtrlE A :=
  let? r := body in
  let? p := after in
  match kerrorsJoin (err_of r) (err_of p), r with
  | Some e, _ => throw e
  | None, Ok a => retM a
  | None, Err e => throw e
  end.

(** ** Lemmas *)

(** Calls that create no instance. *)
Definition calm (o : obs CtrlE) : Prop :=
  match o with
  | Obs (Verda _ (CreateInstance _)) _ => False
  | _ => True
  end.

Lemma wpM_deferred {O A} P (body : M O CtrlE A) after o h (Q : hist CtrlE → O → result A → Prop) :
  wpM P body o h (λ h' o' r, wpM P after o' h' (λ h'' o'' p,
    Q h'' o'' match kerrorsJoin (err_of r) (err_of p), r with
              | Some e, _ => Err e
              | None, r => r
              end)) →
  wpM P (deferred body after) o h Q.
Proof.
  intros Hb. unfold deferred. wp_step. eapply wpM_mono; [exact Hb|].
  intros h' o' r Ha. wp_step. eapply wpM_mono; [exact Ha|].
  intros h'' o'' [[]|e2] HQ; destruct r as [a|e1]; exact HQ.
Qed.

(** The object after a delete request made at [t]. *)
Definition delete_marked {O : Type} `{!Object O} (suffix state : string) (t : Z) (o : O) : O :=
  SetAnnotation (delete_key suffix) (state +:+ "@" +:+ FormatRFC3339 t) o.

(** The requests of [deleteRequestDue]: the object changes only when the
    answer is yes, and then by the mark of the instant it was given. *)
Lemma deleteRequestDue_wp {O : Type} `{!Object O} P suffix state (o : O) h
    (Q : hist CtrlE → O → result bool → Prop) :
  (∀ h, guar P h _ Now) →
  (∀ h' t, grows calm h h' → Q h' (delete_marked suffix state t o) (Ok true)) →
  (∀ h', grows calm h h' → Q h' o (Ok false)) →
  wpM P (deleteRequestDue suffix state) o h Q.
Proof.
  intros HG Ht Hf. unfold deleteRequestDue, delete_marked in *.
  wp_steps; try apply HG; first [apply Ht; grow|apply Hf; grow].
Qed.

(** Delete requests are throttled: after a request made at [t] while the
    instance was in [state], the next one for the same state is refused, and
    leaves the object alone, while less than [deleteRetryInterval] has passed
    since the second of [t]; it is granted, and marks the object anew, once that
    time is over.  A request for any other state is granted at once. *)
Theorem deleteRequestDue_throttle {O : Type} `{!Object O, !ObjectLaws O} (o o' : O) suffix state state' t h' r :
  time_in_range t → ("@"%char) ∉ chars state →
  exec (any_answer (λ _ _ _, True))
    (deleteRequestDue suffix state' (delete_marked suffix state t o)) [] h' (o', r) →
  if decide (state' = state) then
    ∃ now, Obs Now now ∈ h' ∧
      if decide (now - t / Second * Second < deleteRetryInterval)%Z
      then r = Ok false ∧ o' = delete_marked suffix state t o
      else r = Ok true ∧
        ∃ t', Obs Now t' ∈ h' ∧ o' = delete_marked suffix state t' (delete_marked suffix state t o)
  else r = Ok true ∧
    ∃ t', Obs Now t' ∈ h' ∧ o' = delete_marked suffix state' t' (delete_marked suffix state t o).
Proof.
  intros Ht Hat.
  set (o1 := delete_marked suffix state t o).
  assert (Cut (map_get (Annotations o1) (delete_key suffix)) "@" =
    Some (state, FormatRFC3339 t)) as Hcut.
  { unfold o1, delete_marked, SetAnnotation, Annotations at 1, map_get.
    rewrite obj_meta_set. cbn. rewrite lookup_insert_eq. by apply (Cut_char "@"). }
  clearbody o1. intros Hex.
  destruct (decide (state' = state)) as [->|Hne]; exec_to_wp Hex;
    unfold deleteRequestDue, delete_marked; cbn zeta; do 2 wp_step; rewrite Hcut.
  - rewrite bool_decide_eq_true_2, Parse_Format by done.
    generalize (t / Second * Second)%Z. intros last.
    wp_step. apply wpM_ask; [done|]. intros x _. wp_steps; try done; exists x; (split; [hist|]);
      bool_to_prop; [rewrite decide_True by lia|rewrite decide_False by lia]; eauto with verda.
    split; [done|]. eexists. split; [hist|done].
  - rewrite bool_decide_eq_false_2 by done. wp_steps; try done.
    split; [done|]. eexists. split; [hist|done].
Qed.
