(* ===== verification/Machine.v ===== *)
(** * The VerdaMachine controller ([internal/controller/verdamachine_controller.go])

    Every handler is a program that updates the VerdaMachine it holds a pointer
    to and performs the calls of [CtrlE]; logging is left out.  A nil pointer
    that the code dereferences is the error [nilDereference]
    (controller-runtime turns the panic into an error of the reconciler). *)

From S2P Require Import Prelude GoStd GoTime Effects Api Cloud Ctrl.
From stdpp Require Import options.

Local Open Scope go_scope.

(** ** Names derived from the object *)

Definition machineTagValue (vm : VerdaMachine) : string :=
  truncateTag (vm_namespace vm +:+ "/" +:+ vm_name vm).

Definition osVolumeName (vm : VerdaMachine) : string :=
  vm_namespace vm +:+ "-" +:+ vm_name vm +:+ "-os".

Definition osVolumeSize (vm : VerdaMachine) : Z :=
  if bool_decide (MSpec_OSVolumeID (VM_Spec vm) ≠ "") then 0
  else MSpec_OSVolumeSizeGB (VM_Spec vm).

Definition dataVolumes (vm : VerdaMachine) : list DataVolumeSpec :=
  (λ v, mkDataVolumeSpec (AdditionalVolume_Name v) (AdditionalVolume_SizeGB v)
          (AdditionalVolume_Type v)) <$> MSpec_AdditionalVolumes (VM_Spec vm).

Definition instanceAddresses (instance : Instance) : list MachineAddress :=
  mkMachineAddress MachineHostName (Instance_Hostname instance) ::
  if bool_decide (Instance_IP instance ≠ "") then
    [mkMachineAddress MachineExternalIP (Instance_IP instance);
     mkMachineAddress MachineInternalIP (Instance_IP instance)]
  else [].

(** [uuidRe]: groups of 8, 4, 4, 4 and 12 lower-case hexadecimal digits
    separated by hyphens, and nothing else. *)
Definition is_hex (c : ascii) : bool :=
  let n := nat_of_ascii c in
  ((48 <=? n) && (n <=? 57) || (97 <=? n) && (n <=? 102))%nat.

Fixpoint hex_run (n : nat) (s : string) : option string :=
  match n, s with
  | O, _ => Some s
  | S n, String c s => if is_hex c then hex_run n s else None
  | S _, "" => None
  end.

Fixpoint uuid_groups (groups : list nat) (s : string) : bool :=
  match groups with
  | [] => bool_decide (s = "")
  | [n] => bool_decide (hex_run n s = Some "")
  | n :: groups => match hex_run n s with
                   | Some (String "-" s') => uuid_groups groups s'
                   | _ => false
                   end
  end.

Definition uuidRe_MatchString (s : string) : bool := uuid_groups [8; 4; 4; 4; 12] s.

Definition nilDereference : error :=
  errorString "invalid memory address or nil pointer dereference".

Definition set_volume_Managed (v : Volume) : Volume :=
  mkVolume (Volume_ID v) (Volume_Name v) (Volume_Status v) (Volume_Location v)
    (Volume_IsOSVolume v) (Volume_InstanceID v) true.

Section machine.
Context `{!CapiUtil, !Bootstrapper}.

Abbreviation MM := (M VerdaMachine CtrlE).

Definition setInstanceReadyFalse (reason message : string) : MM unit :=
  setCondition (mkCondition InstanceReadyCondition ConditionFalse reason message).

Definition setInstanceReadyTrue : MM unit :=
  setCondition (mkCondition InstanceReadyCondition ConditionTrue ReadyReason "").

(** [fmt.Sprintf("Verda instance %s is in state %q", ...)] *)
Definition instanceStateMessage (i : Instance) : string :=
  "Verda instance " +:+ Instance_ID i +:+ " is in state " +:+ fmt_q (Instance_Status i).

Section scope.
(** [machineScope.cloud] *)
Variable cloud : ClientRef.

Abbreviation verda e := (call (Verda cloud e)).

Definition findInstance : MM (option Instance) :=
  let! vm := getM in
  let id := MStatus_InstanceID (VM_Status vm) in
  if bool_decide (id ≠ "") then
    let? r := verda (GetInstance id) in
    match r with
    | Ok instance => retM (Some instance)
    | Err err => if negb (errors_Is err ErrNotFound) then throw err
                 else retM (Some (missingInstance id))
    end
  else
    let? r := verda (FindInstanceByTag TagMachine (machineTagValue vm)) in
    match r with
    | Err err => if errors_Is err ErrNotFound then retM None else throw err
    | Ok instance => if instanceGone instance then retM None else retM (Some instance)
    end.

Definition resyncInstance : MM Result :=
  let! found := findInstance in
  let! vm := getM in
  let instance := match found with
                  | None => missingInstance (MStatus_InstanceID (VM_Status vm))
                  | Some i => i
                  end in
  do! modify (vm_set_InstanceState (Instance_Status instance)) in
  do! (if bool_decide (Instance_IP instance ≠ "")
       then modify (vm_set_Addresses (instanceAddresses instance)) else retM tt) in
  do! (if bool_decide (Instance_Status instance = StatusRunning) then setInstanceReadyTrue
       else if instanceGone instance then
         setInstanceReadyFalse InstanceTerminatedReason
           (instanceStateMessage instance +:+ "; delete the Machine to replace it")
       else if bool_decide (Instance_Status instance = StatusError) then
         setInstanceReadyFalse InstanceFailedReason (instanceStateMessage instance)
       else setInstanceReadyFalse "InstanceNotRunning" (instanceStateMessage instance)) in
  retM (mkResult instanceResyncInterval).

Definition getBootstrapData (machine : Machine) : MM string :=
  match Machine_DataSecretName machine with
  | None => throw nilDereference
  | Some name =>
      let ns := Meta_Namespace (Machine_Meta machine) in
      let key := ns +:+ "/" +:+ name in
      let? r := call (GetSecret ns name) in
      match r with
      | Err err => throw (wrapError ("getting bootstrap data secret " +:+ key +:+ ": ") err "")
      | Ok secret =>
          match Secret_Data secret !! "value" with
          | None => throw (errorString ("bootstrap data secret " +:+ key +:+ " has no " +:+
                             fmt_q "value" +:+ " key"))
          | Some value => retM value
          end
      end
  end.

Definition instanceSpec (cluster : Cluster) (verdaCluster : VerdaCluster) (machine : Machine)
    (vm : VerdaMachine) (script bootFrom : string) : InstanceSpec :=
  let role := if IsControlPlaneMachine machine then "control-plane" else "worker" in
  let clusterName := Meta_Namespace (Cluster_Meta cluster) +:+ "/" +:+ Meta_Name (Cluster_Meta cluster) in
  {| InstanceSpec_Hostname := vm_name vm;
     InstanceSpec_Description := "Cluster API " +:+ role +:+ " node for cluster " +:+ clusterName;
     InstanceSpec_InstanceType := MSpec_InstanceType (VM_Spec vm);
     InstanceSpec_Image := bootFrom;
     InstanceSpec_Location := CSpec_Location (VC_Spec verdaCluster);
     InstanceSpec_SSHKeyIDs := MSpec_SSHKeyIDs (VM_Spec vm);
     InstanceSpec_OSVolumeSizeGB := osVolumeSize vm;
     InstanceSpec_Contract := MSpec_Contract (VM_Spec vm);
     InstanceSpec_Spot := deref_bool (MSpec_Spot (VM_Spec vm));
     InstanceSpec_SpotDiscontinuePolicy := MSpec_SpotDiscontinuePolicy (VM_Spec vm);
     InstanceSpec_DataVolumes := dataVolumes vm;
     InstanceSpec_StartupScript := script;
     InstanceSpec_Tags :=
       {[ TagManagedBy := ManagedByValue; TagCluster := clusterName;
          TagMachine := machineTagValue vm; TagRole := role ]} |}.

Definition createInstance (cluster : Cluster) (verdaCluster : VerdaCluster) (machine : Machine)
    (bootFrom : string) : MM Instance :=
  let! bootstrapData := getBootstrapData machine in
  let! vm := getM in
  match ToStartupScript bootstrapData (vm_name vm) with
  | Err err => throw (wrapError "converting bootstrap data to startup script: " err "")
  | Ok script =>
      verda (CreateInstance
        (instanceSpec cluster verdaCluster machine vm (Script_Script script) bootFrom))
  end.

Definition resolveOSVolume (idOrName : string) : MM string :=
  let byName :=
    let? r := verda (FindVolumeByName idOrName) in
    match r with
    | Err err =>
        if errors_Is err ErrNotFound
        then throw (errorString ("OS volume " +:+ fmt_q idOrName +:+ " not found by ID or name"))
        else throw err
    | Ok volume =>
        if negb (Volume_IsOSVolume volume)
        then throw (errorString ("volume " +:+ fmt_q idOrName +:+ " (" +:+ Volume_ID volume +:+
                      ") is not an OS volume"))
        else retM (Volume_ID volume)
    end in
  if uuidRe_MatchString (ToLower idOrName) then
    let? r := verda (GetVolume idOrName) in
    match r with
    | Ok _ => retM idOrName
    | Err err => if negb (errors_Is err ErrNotFound) then throw err else byName
    end
  else byName.

Definition setOSVolumeReady (status : ConditionStatus) (reason message : string) : MM unit :=
  setCondition (mkCondition OSVolumeReadyCondition status reason message).

(** The part of [ensureOSVolume] that creates the clone. *)
Definition cloneOSVolume (verdaCluster : VerdaCluster) : MM Volume :=
  let! vm := getM in
  let name := osVolumeName vm in
  let? source := resolveOSVolume (MSpec_OSVolumeID (VM_Spec vm)) in
  match source with
  | Err err => do! setOSVolumeReady ConditionFalse "SourceVolumeNotFound" (Error err) in throw err
  | Ok sourceID =>
      let? r := verda (CloneVolume sourceID name (CSpec_Location (VC_Spec verdaCluster))) in
      match r with
      | Err err => do! setOSVolumeReady ConditionFalse "CloneFailed" (Error err) in throw err
      | Ok id =>
          do! modify (vm_set_OSVolumeID id) in
          retM (mkVolume id name "cloning" "" false "" false)
      end
  end.

(** [ensureOSVolume] from the point where the volume is known. *)
Definition ensureOSVolumeRest (volume : Volume) : MM Volume :=
  do! modify (vm_set_OSVolumeID (Volume_ID volume)) in
  let! volume := (if negb (Volume_Managed volume) then
                    let? t := verda (EnsureVolumeTag (Volume_ID volume)) in
                    match t with
                    | Err _ => retM volume
                    | Ok _ => retM (set_volume_Managed volume)
                    end
                  else retM volume) in
  do! (if bool_decide (Volume_Status volume = VolumeStatusDetached) ||
          bool_decide (Volume_Status volume = VolumeStatusAttached) then
         if negb (Volume_Managed volume)
         then setOSVolumeReady ConditionFalse "Tagging"
                ("OS volume " +:+ Volume_ID volume +:+ " is available but not yet tagged")
         else setOSVolumeReady ConditionTrue ReadyReason ""
       else setOSVolumeReady ConditionFalse "Cloning"
              ("OS volume " +:+ Volume_ID volume +:+ " is in state " +:+
               fmt_q (Volume_Status volume))) in
  retM volume.

Definition ensureOSVolume (verdaCluster : VerdaCluster) : MM Volume :=
  let! vm := getM in
  let id := MStatus_OSVolumeID (VM_Status vm) in
  let? r := (if bool_decide (id ≠ "") then verda (GetVolume id)
             else verda (FindVolumeByName (osVolumeName vm))) in
  let! volume := (match r with
                  | Ok volume => retM volume
                  | Err err => if negb (errors_Is err ErrNotFound) then throw err
                               else cloneOSVolume verdaCluster
                  end) in
  ensureOSVolumeRest volume.

Definition ensureOSVolumeTag : MM unit :=
  let! vm := getM in
  let id := MStatus_OSVolumeID (VM_Status vm) in
  if bool_decide (id = "") || conditions_IsTrue (GetConditions vm) OSVolumeReadyCondition
  then retM tt
  else
    let? r := verda (GetVolume id) in
    match r with
    | Err _ => retM tt
    | Ok volume =>
        if negb (Volume_Managed volume) then
          let? t := verda (EnsureVolumeTag (Volume_ID volume)) in
          match t with
          | Err _ => retM tt
          | Ok _ => setOSVolumeReady ConditionTrue ReadyReason ""
          end
        else setOSVolumeReady ConditionTrue ReadyReason ""
    end.

Definition deleteOSVolume : MM unit :=
  let! vm := getM in
  let id := MStatus_OSVolumeID (VM_Status vm) in
  if bool_decide (id = "") then retM tt
  else
    let? r := verda (GetVolume id) in
    match r with
    | Err err => if errors_Is err ErrNotFound then modify (vm_set_OSVolumeID "") else throw err
    | Ok volume =>
        if bool_decide (Volume_Name volume ≠ osVolumeName vm) then modify (vm_set_OSVolumeID "")
        else
          do! (if bool_decide (Volume_Status volume ≠ VolumeStatusDeleting) &&
                  bool_decide (Volume_Status volume ≠ VolumeStatusDeleted)
               then verda (DeleteVolume id) else retM tt) in
          modify (vm_set_OSVolumeID "")
    end.

(** The body of [if instance == nil] in [reconcileNormal]: an early return of
    the handler, or the instance to go on with. *)
Definition launchInstance (cluster : Cluster) (verdaCluster : VerdaCluster) (machine : Machine) :
    MM (Result + Instance) :=
  let create (bootFrom : string) : MM (Result + Instance) :=
    let? r := createInstance cluster verdaCluster machine bootFrom in
    match r with
    | Err err =>
        if errors_Is err ErrHostnameInUse then
          do! setInstanceReadyFalse "HostnameInUse" (Error err) in
          retM (inl (mkResult instanceResyncInterval))
        else
          do! setInstanceReadyFalse "InstanceCreateFailed" (Error err) in
          throw err
    | Ok instance => retM (inr instance)
    end in
  let! vm := getM in
  if bool_decide (MSpec_OSVolumeID (VM_Spec vm) ≠ "") then
    let! volume := ensureOSVolume verdaCluster in
    if bool_decide (Volume_Status volume ≠ VolumeStatusDetached) then
      do! setInstanceReadyFalse "WaitingForOSVolume"
            ("OS volume clone " +:+ Volume_ID volume +:+ " is in state " +:+
             fmt_q (Volume_Status volume)) in
      retM (inl (mkResult instancePollInterval))
    else create (Volume_ID volume)
  else create (MSpec_Image (VM_Spec vm)).

(** The rest of [reconcileNormal]: record the instance in the object and act
    on its status. *)
Definition trackInstance (verdaCluster : VerdaCluster) (instance : Instance) : MM Result :=
  do! modify (vm_set_InstanceID (Instance_ID instance)) in
  do! modify (vm_set_InstanceState (Instance_Status instance)) in
  do! ensureOSVolumeTag in
  do! (if bool_decide (Instance_StartupScriptID instance ≠ "")
       then modify (vm_set_StartupScriptID (Instance_StartupScriptID instance)) else retM tt) in
  do! modify (vm_set_ProviderID (ProviderID (Instance_Hostname instance))) in
  do! modify (vm_set_FailureDomain (Instance_Location instance)) in
  do! modify (vm_set_Addresses (instanceAddresses instance)) in
  let status := Instance_Status instance in
  if bool_decide (status = StatusRunning) then
    do! setInstanceReadyTrue in
    do! modify (vm_set_Provisioned (Some true)) in
    retM emptyResult
  else if bool_decide (status = StatusNoCapacity) then
    do! verda (DeleteInstance (Instance_ID instance)) in
    do! modify (vm_set_InstanceID "") in
    do! modify (vm_set_ProviderID "") in
    do! modify (vm_set_Addresses []) in
    let! vm := getM in
    do! setInstanceReadyFalse NoCapacityReason
          ("Verda has no capacity for instance type " +:+ MSpec_InstanceType (VM_Spec vm) +:+
           " in " +:+ CSpec_Location (VC_Spec verdaCluster) +:+ "; retrying") in
    retM (mkResult noCapacityRetryInterval)
  else if bool_decide (status = StatusError) || bool_decide (status = StatusDiscontinued) ||
          bool_decide (status = StatusNotFound) then
    let reason := if instanceGone instance then InstanceTerminatedReason else InstanceFailedReason in
    do! setInstanceReadyFalse reason (instanceStateMessage instance) in
    retM emptyResult
  else
    do! setInstanceReadyFalse InstanceProvisioningReason (instanceStateMessage instance) in
    retM (mkResult instancePollInterval).

Definition reconcileNormal (cluster : Cluster) (verdaCluster : VerdaCluster) (machine : Machine) :
    MM Result :=
  let! vm := getM in
  if deref_bool (MStatus_Provisioned (VM_Status vm)) then resyncInstance
  else if negb (deref_bool (Cluster_InfrastructureProvisioned cluster)) then
    do! setInstanceReadyFalse "WaitingForClusterInfrastructure"
          "Cluster infrastructure is not provisioned yet" in
    retM emptyResult
  else if bool_decide (Machine_DataSecretName machine = None) then
    do! setInstanceReadyFalse "WaitingForBootstrapData"
          "Machine bootstrap data secret is not available yet" in
    retM emptyResult
  else
    let! found := findInstance in
    match found with
    | Some instance => trackInstance verdaCluster instance
    | None =>
        let! launched := launchInstance cluster verdaCluster machine in
        match launched with
        | inl result => retM result
        | inr instance => trackInstance verdaCluster instance
        end
    end.

(** The clean-up of [reconcileDelete] once the instance is gone. *)
Definition finishDelete : MM Result :=
  let! vm := getM in
  let scriptID := MStatus_StartupScriptID (VM_Status vm) in
  do! (if bool_decide (scriptID ≠ "") then
         do! verda (DeleteStartupScript scriptID) in
         modify (vm_set_StartupScriptID "")
       else verda (DeleteStartupScriptByName (vm_name vm))) in
  do! deleteOSVolume in
  do! modify (λ vm, vm_set_meta
                (set_Finalizers (RemoveFinalizer MachineFinalizer (Meta_Finalizers (VM_Meta vm)))
                   (VM_Meta vm)) vm) in
  retM emptyResult.

(** The branch of [reconcileDelete] for an instance that still exists. *)
Definition requestDelete (instance : Instance) : MM Result :=
  let! due := (if bool_decide (Instance_Status instance ≠ StatusDeleting)
               then deleteRequestDue "" (Instance_Status instance) else retM false) in
  do! (if (due : bool) then
         do! verda (DeleteInstance (Instance_ID instance)) in
         setInstanceReadyFalse InstanceDeleteRequestedReason
           ("Delete requested for Verda instance " +:+ Instance_ID instance +:+ " (was " +:+
            Instance_Status instance +:+ ")")
       else retM tt) in
  do! modify (vm_set_InstanceState (Instance_Status instance)) in
  retM (mkResult deletePollInterval).

Definition reconcileDelete : MM Result :=
  do! setInstanceReadyFalse DeletingReason "Deleting Verda instance" in
  let! found := findInstance in
  match found with
  | None => finishDelete
  | Some instance =>
      if negb (instanceGone instance) then
        requestDelete instance
      else if bool_decide (Instance_Status instance ≠ StatusNotFound) then
        let! pending := verda (PurgeInstanceVolumes (Instance_ID instance)) in
        if (0 <? pending)%Z then retM (mkResult deletePollInterval) else finishDelete
      else finishDelete
  end.
End scope.

Definition readyCondition (vm : VerdaMachine) : Condition :=
  if deleting (VM_Meta vm) then mkCondition ReadyCondition ConditionFalse DeletingReason ""
  else if negb (conditions_IsTrue (GetConditions vm) InstanceReadyCondition) then
    mkCondition ReadyCondition ConditionFalse NotReadyReason
      (conditions_GetMessage (GetConditions vm) InstanceReadyCondition)
  else mkCondition ReadyCondition ConditionTrue ReadyReason "".

Definition patchVerdaMachine : MM unit :=
  let! vm := getM in
  do! setCondition (readyCondition vm) in
  let! vm := getM in
  call (PatchVerdaMachine vm).

Definition reconcileOrphanDelete : MM Result :=
  let! vm := getM in
  do! call (NewPatchHelper (VM_Meta vm)) in
  deferred
    (let! verdaClient := call (ClientFor (mkIdentity (vm_namespace vm) "")) in
     reconcileDelete verdaClient)
    patchVerdaMachine.

(** [Reconcile] from the point where the patch helper is created. *)
Definition reconcilePatched (cluster : Cluster) (verdaCluster : option VerdaCluster)
    (machine : Machine) : MM Result :=
  let! vm := getM in
  do! call (NewPatchHelper (VM_Meta vm)) in
  deferred
    (let secretName := match verdaCluster with Some vc => IdentitySecretName vc | None => "" end in
     let? c := call (ClientFor (mkIdentity (vm_namespace vm) secretName)) in
     match c with
     | Err err => do! setInstanceReadyFalse "CredentialsUnavailable" (Error err) in throw err
     | Ok verdaClient =>
         if deleting (VM_Meta vm) then reconcileDelete verdaClient
         else match verdaCluster with
              | Some vc => reconcileNormal verdaClient cluster vc machine
              | None => throw nilDereference
              end
     end)
    patchVerdaMachine.

(** [Reconcile] once the object has been read. *)
Definition reconcileObject : MM Result :=
  let! vm := getM in
  let! finalizerAdded := call (EnsureFinalizer (VM_Meta vm) MachineFinalizer) in
  if (finalizerAdded : bool) then retM emptyResult
  else
    let! owner := call (GetOwnerMachine (VM_Meta vm)) in
    match owner with
    | None => if deleting (VM_Meta vm) then reconcileOrphanDelete else retM emptyResult
    | Some machine =>
        let! cluster := call (GetClusterFromMetadata (Machine_Meta machine)) in
        let! paused := call (EnsurePausedCondition cluster (VM_Meta vm) (GetConditions vm)) in
        let '(isPaused, requeue, conds) := paused in
        do! modify (SetConditions conds) in
        if isPaused || requeue then retM emptyResult
        else
          let? vc := call (GetVerdaCluster (vm_namespace vm) (Cluster_InfrastructureRef_Name cluster)) in
          match vc with
          | Err err =>
              if negb (IsNotFound err) then throw err
              else if negb (deleting (VM_Meta vm)) then retM emptyResult
              else reconcilePatched cluster None machine
          | Ok verdaCluster => reconcilePatched cluster (Some verdaCluster) machine
          end
    end.

Definition Reconcile (ns name : string) : prog CtrlE (result Result) :=
  get_then (GetVerdaMachine ns name) (λ err, if IsNotFound err then Ok emptyResult else Err err)
    reconcileObject.
End machine.

(** ** What a pass over a VerdaMachine knows

    The statements below read the history of calls of one pass. *)

Section facts.
Variable c : ClientRef.

(** [findInstance] returned [Some i]. *)
Definition found_instance (vm : VerdaMachine) (h : hist CtrlE) (i : Instance) : Prop :=
  let id := MStatus_InstanceID (VM_Status vm) in
  if decide (id = "") then
    Obs (Verda c (FindInstanceByTag TagMachine (machineTagValue vm))) (Ok i) ∈ h ∧
    instanceGone i = false
  else
    Obs (Verda c (GetInstance id)) (Ok i) ∈ h ∨
    (i = missingInstance id ∧
     ∃ err, errors_Is err ErrNotFound = true ∧ Obs (Verda c (GetInstance id)) (Err err) ∈ h).

(** [findInstance] returned [None]: nothing is recorded, and the lookup by tag
    found nothing that still exists. *)
Definition found_none (vm : VerdaMachine) (h : hist CtrlE) : Prop :=
  MStatus_InstanceID (VM_Status vm) = "" ∧
  ∃ r, Obs (Verda c (FindInstanceByTag TagMachine (machineTagValue vm))) r ∈ h ∧
    match r with
    | Ok i => instanceGone i = true
    | Err err => errors_Is err ErrNotFound = true
    end.

(** The recorded clone of the OS volume is no longer this machine's. *)
Definition os_volume_released (vm : VerdaMachine) (h : hist CtrlE) : Prop :=
  let id := MStatus_OSVolumeID (VM_Status vm) in
  id = "" ∨
  (∃ err, errors_Is err ErrNotFound = true ∧ Obs (Verda c (GetVolume id)) (Err err) ∈ h) ∨
  ∃ v, Obs (Verda c (GetVolume id)) (Ok v) ∈ h ∧
    (Volume_Name v ≠ osVolumeName vm ∨ Volume_Status v = VolumeStatusDeleting ∨
     Volume_Status v = VolumeStatusDeleted ∨ Obs (Verda c (DeleteVolume id)) (Ok tt) ∈ h).

Definition script_deleted (vm : VerdaMachine) (h : hist CtrlE) : Prop :=
  let id := MStatus_StartupScriptID (VM_Status vm) in
  if decide (id = "") then Obs (Verda c (DeleteStartupScriptByName (vm_name vm))) (Ok tt) ∈ h
  else Obs (Verda c (DeleteStartupScript id)) (Ok tt) ∈ h.

(** No instance is left, and Verda has released the volumes of one that was found
    under the recorded ID.  One that is found by tag and gone already counts as
    none: its volumes are not looked at. *)
Definition instance_released (vm : VerdaMachine) (h : hist CtrlE) : Prop :=
  found_none vm h ∨
  ∃ i, found_instance vm h i ∧ instanceGone i = true ∧
    (Instance_Status i = StatusNotFound ∨
     ∃ n, (n ≤ 0)%Z ∧ Obs (Verda c (PurgeInstanceVolumes (Instance_ID i))) (Ok n) ∈ h).

Definition machine_cleaned (vm : VerdaMachine) (h : hist CtrlE) : Prop :=
  instance_released vm h ∧ script_deleted vm h ∧ os_volume_released vm h.

(** The image an instance of [vm] may boot from. *)
Definition boot_source (vm : VerdaMachine) (h : hist CtrlE) (image : string) : Prop :=
  if decide (MSpec_OSVolumeID (VM_Spec vm) = "") then image = MSpec_Image (VM_Spec vm)
  else ∃ v, image = Volume_ID v ∧ Volume_Status v = VolumeStatusDetached ∧
    (Obs (Verda c (GetVolume (MStatus_OSVolumeID (VM_Status vm)))) (Ok v) ∈ h ∨
     Obs (Verda c (FindVolumeByName (osVolumeName vm))) (Ok v) ∈ h).

(** What holds when each call of the pass is made. *)
Definition create_allowed (vm : VerdaMachine) (h : hist CtrlE) (spec : InstanceSpec) : Prop :=
  deleting (VM_Meta vm) = false ∧
  deref_bool (MStatus_Provisioned (VM_Status vm)) = false ∧
  found_none vm h ∧
  (∀ c' spec' r, Obs (Verda c' (CreateInstance spec')) r ∉ h) ∧
  InstanceSpec_Hostname spec = vm_name vm ∧
  managed (InstanceSpec_Tags spec) = true ∧
  tagged_only (InstanceSpec_Tags spec) TagMachine (machineTagValue vm) ∧
  boot_source vm h (InstanceSpec_Image spec).

Definition delete_allowed (vm : VerdaMachine) (h : hist CtrlE) (id : string) : Prop :=
  ∃ i, id = Instance_ID i ∧
    if deleting (VM_Meta vm) then
      found_instance vm h i ∧ instanceGone i = false ∧ Instance_Status i ≠ StatusDeleting
    else
      Instance_Status i = StatusNoCapacity ∧
      (found_instance vm h i ∨ ∃ spec, Obs (Verda c (CreateInstance spec)) (Ok i) ∈ h).

Definition volume_delete_allowed (vm : VerdaMachine) (h : hist CtrlE) (id : string) : Prop :=
  deleting (VM_Meta vm) = true ∧ instance_released vm h ∧
  ∃ v, Obs (Verda c (GetVolume id)) (Ok v) ∈ h ∧ Volume_Name v = osVolumeName vm.

Definition clone_allowed (vm : VerdaMachine) (h : hist CtrlE) (name : string) : Prop :=
  deleting (VM_Meta vm) = false ∧ name = osVolumeName vm ∧ found_none vm h ∧
  ∃ err, errors_Is err ErrNotFound = true ∧
    (Obs (Verda c (GetVolume (MStatus_OSVolumeID (VM_Status vm)))) (Err err) ∈ h ∨
     Obs (Verda c (FindVolumeByName name)) (Err err) ∈ h).

Definition verda_guard (vm : VerdaMachine) (h : hist CtrlE) {X} (e : ClientE X) : Prop :=
  match e with
  | CreateInstance spec => create_allowed vm h spec
  | DeleteInstance id => delete_allowed vm h id
  | DeleteVolume id => volume_delete_allowed vm h id
  | CloneVolume _ name _ => clone_allowed vm h name
  | PurgeInstanceVolumes id =>
      deleting (VM_Meta vm) = true ∧ ∃ i, id = Instance_ID i ∧ found_instance vm h i ∧ instanceGone i = true
  | DeleteStartupScript _ | DeleteStartupScriptByName _ =>
      deleting (VM_Meta vm) = true ∧ instance_released vm h
  | _ => True
  end.
End facts.

(** The finalizer goes only with everything the machine owned. *)
Definition finalizer_ok (vm : VerdaMachine) (h : hist CtrlE) (vm' : VerdaMachine) : Prop :=
  MachineFinalizer ∈ Meta_Finalizers (VM_Meta vm) →
  MachineFinalizer ∈ Meta_Finalizers (VM_Meta vm') ∨
  deleting (VM_Meta vm) = true ∧ ∃ c, machine_cleaned c vm h.

(** The spec but for the provider ID. *)
Definition desired (vm : VerdaMachine) : VerdaMachineSpec := VM_Spec (vm_set_ProviderID "" vm).

Definition provisioned (vm : VerdaMachine) : bool := deref_bool (MStatus_Provisioned (VM_Status vm)).

(** [vm'] records the running instance [i]. *)
Definition records (vm' : VerdaMachine) (i : Instance) : Prop :=
  Instance_Status i = StatusRunning ∧
  MStatus_InstanceID (VM_Status vm') = Instance_ID i ∧
  MSpec_ProviderID (VM_Spec vm') = ProviderID (Instance_Hostname i) ∧
  MStatus_Addresses (VM_Status vm') = instanceAddresses i ∧
  MStatus_FailureDomain (VM_Status vm') = Instance_Location i.

(** The desired state is left alone; a provisioned machine stays so, and a
    machine becomes provisioned with a running instance of its own. *)
Definition provision_ok (vm : VerdaMachine) (h : hist CtrlE) (vm' : VerdaMachine) : Prop :=
  desired vm' = desired vm ∧
  (provisioned vm = true → provisioned vm' = true) ∧
  (provisioned vm = false → provisioned vm' = true →
   ∃ c i, records vm' i ∧
     (found_instance c vm h i ∨ ∃ spec, Obs (Verda c (CreateInstance spec)) (Ok i) ∈ h)).

Definition patch_allowed (vm : VerdaMachine) (h : hist CtrlE) (vm' : VerdaMachine) : Prop :=
  finalizer_ok vm h vm' ∧ provision_ok vm h vm'.

Definition machine_guard (vm : VerdaMachine) (h : hist CtrlE) (X : Type) (e : CtrlE X) : Prop :=
  match e with
  | Verda c e => verda_guard c vm h e
  | PatchVerdaMachine vm' => patch_allowed vm h vm'
  | _ => True
  end.

Definition machine_protocol (vm : VerdaMachine) : protocol CtrlE := any_answer (machine_guard vm).

(** ** Proof of the guard *)

(** The fields of the object the facts above depend on. *)
Definition core (vm : VerdaMachine) :=
  (vm_namespace vm, vm_name vm, Meta_DeletionTimestamp (VM_Meta vm),
   Meta_Finalizers (VM_Meta vm), VM_Spec vm,
   (MStatus_InstanceID (VM_Status vm), MStatus_OSVolumeID (VM_Status vm),
    MStatus_StartupScriptID (VM_Status vm), MStatus_Provisioned (VM_Status vm))).

Definition same (vm0 vm : VerdaMachine) : Prop := core vm = core vm0.

Ltac same_fields H :=
  unfold same, core in H; injection H as HsNs HsName HsDel HsFin HsSpec HsId HsVol HsScr HsProv.

(** What the handlers do not touch when they fail or wait. *)
Definition kept (vm vm' : VerdaMachine) : Prop :=
  Meta_Finalizers (VM_Meta vm') = Meta_Finalizers (VM_Meta vm) ∧
  VM_Spec vm' = VM_Spec vm ∧
  MStatus_Provisioned (VM_Status vm') = MStatus_Provisioned (VM_Status vm).

Lemma provision_ok_keep vm h vm' :
  VM_Spec vm' = VM_Spec vm →
  MStatus_Provisioned (VM_Status vm') = MStatus_Provisioned (VM_Status vm) → provision_ok vm h vm'.
Proof.
  intros Hs Hp. unfold provision_ok, desired, provisioned. cbn. rewrite Hs, Hp.
  split_and!; [done|done|]. intros Hf Ht. by rewrite Hf in Ht.
Qed.

Lemma patch_allowed_keep vm h vm' : kept vm vm' → patch_allowed vm h vm'.
Proof.
  intros (Hf & Hs & Hp). split; [|by apply provision_ok_keep]. intros ?. left. by rewrite Hf.
Qed.

Section fact_lemmas.
Context (c : ClientRef) (vm : VerdaMachine).

Lemma found_none_mono h h' : h ⊆ h' → found_none c vm h → found_none c vm h'.
Proof. intros Hs (? & r & Hr & ?). split; [done|]. exists r. auto. Qed.

Lemma found_instance_mono h h' i : h ⊆ h' → found_instance c vm h i → found_instance c vm h' i.
Proof. intros Hs. unfold found_instance. case_decide; naive_solver. Qed.

Lemma instance_released_mono h h' : h ⊆ h' → instance_released c vm h → instance_released c vm h'.
Proof.
  intros Hs [Hn|(i & Hi & Hg & Hp)]; [left; by eapply found_none_mono|right].
  exists i. split; [by eapply found_instance_mono|]. split; [done|].
  destruct Hp as [?|(n & ? & ?)]; [by left|right; eauto].
Qed.

Lemma script_deleted_mono h h' : h ⊆ h' → script_deleted c vm h → script_deleted c vm h'.
Proof. intros Hs. unfold script_deleted. case_decide; auto. Qed.

Lemma boot_source_mono h h' b : h ⊆ h' → boot_source c vm h b → boot_source c vm h' b.
Proof. intros Hs. unfold boot_source. case_decide; naive_solver. Qed.

Lemma no_create_grows h h' :
  grows calm h h' → (∀ c' spec r, Obs (Verda c' (CreateInstance spec)) r ∉ h) →
  ∀ c' spec r, Obs (Verda c' (CreateInstance spec)) r ∉ h'.
Proof. intros Hg Hn c' spec r Hin. eapply Hn, (grows_old _ _ _ _ Hg Hin). intros []. Qed.
End fact_lemmas.

#[export] Hint Resolve found_none_mono found_instance_mono instance_released_mono
  script_deleted_mono grows_sub : verda.

Lemma machineTagValue_core vm vm0 : same vm0 vm → machineTagValue vm = machineTagValue vm0.
Proof. intros H. same_fields H. unfold machineTagValue. congruence. Qed.

Lemma osVolumeName_core vm vm0 : same vm0 vm → osVolumeName vm = osVolumeName vm0.
Proof. intros H. same_fields H. unfold osVolumeName. congruence. Qed.

(** Metadata, spec and the provisioned mark are untouched. *)
Definition same_desc (vm vm' : VerdaMachine) : Prop :=
  VM_Meta vm' = VM_Meta vm ∧ VM_Spec vm' = VM_Spec vm ∧
  MStatus_Provisioned (VM_Status vm') = MStatus_Provisioned (VM_Status vm).

Lemma kept_same vm0 vm vm' : same vm0 vm → kept vm vm' → kept vm0 vm'.
Proof. intros Hs (? & ? & ?). same_fields Hs. unfold kept. split_and!; congruence. Qed.

Lemma kept_desc vm vm' : same_desc vm vm' → kept vm vm'.
Proof. intros (Hm & ? & ?). unfold kept. by rewrite Hm. Qed.

#[export] Hint Resolve kept_desc : verda.

Section machine_wp.
Context `{!CapiUtil, !Bootstrapper}.
Context (c : ClientRef) (vm0 : VerdaMachine).
Abbreviation P := (machine_protocol vm0).

Lemma findInstance_wp vm h (Q : hist CtrlE → VerdaMachine → result (option Instance) → Prop) :
  same vm0 vm →
  (∀ h' e, grows calm h h' → Q h' vm (Err e)) →
  (∀ h', grows calm h h' → found_none c vm0 h' → Q h' vm (Ok None)) →
  (∀ h' i, grows calm h h' → found_instance c vm0 h' i → Q h' vm (Ok (Some i))) →
  wpM P (findInstance c) vm h Q.
Proof.
  intros Hs He Hn Hf. pose proof (machineTagValue_core _ _ Hs) as Ht. same_fields Hs.
  unfold findInstance. wp_steps; bool_to_prop; rewrite ?Ht.
  all: try (apply He; grow).
  all: first [apply Hf|apply Hn]; [grow|].
  all: unfold found_instance, found_none;
    rewrite <-HsId, ?decide_False, ?decide_True by done.
  - left. hist.
  - right. split; [done|]. eexists. split; [done|]. hist.
  - split; [done|]. eexists. split; [hist|]. done.
  - split; [hist|done].
  - split; [done|]. eexists. split; [hist|]. done.
Qed.

Lemma deleteOSVolume_wp vm h (Q : hist CtrlE → VerdaMachine → result unit → Prop) :
  osVolumeName vm = osVolumeName vm0 →
  MStatus_OSVolumeID (VM_Status vm) = MStatus_OSVolumeID (VM_Status vm0) →
  deleting (VM_Meta vm0) = true → instance_released c vm0 h →
  (∀ h' vm' r, grows calm h h' → same_desc vm vm' →
     (r = Ok tt → os_volume_released c vm0 h') → Q h' vm' r) →
  wpM P (deleteOSVolume c) vm h Q.
Proof.
  intros Hname Hid Hdel Hrel HQ. unfold deleteOSVolume.
  wp_steps; bool_to_prop; rewrite ?Hid, ?Hname in *; try exact I.
  3: { split; [done|]. split; [eapply instance_released_mono; [|done]; hist|].
       eexists. split; [hist|done]. }
  all: apply HQ; [grow|done|]; intros Hok; simplify_eq; unfold os_volume_released.
  all: try (by left).
  all: right; first [left; eexists; split; [done|hist] | right; eexists; (split; [hist|])].
  - by left.
  - right; right; right. destruct a0. hist.
  - right. match goal with H : _ && _ = false |- _ => apply andb_false_iff in H as [?|?] end;
      bool_to_prop; auto.
Qed.

Lemma finishDelete_wp vm h (Q : hist CtrlE → VerdaMachine → result Result → Prop) :
  same vm0 vm → deleting (VM_Meta vm0) = true → instance_released c vm0 h →
  (∀ h' vm' r, grows calm h h' → patch_allowed vm0 h' vm' → Q h' vm' r) →
  wpM P (finishDelete c) vm h Q.
Proof.
  intros Hs Hdel Hrel HQ. pose proof Hs as Hs0. pose proof (osVolumeName_core _ _ Hs).
  assert (∀ h' vm', same_desc vm vm' → patch_allowed vm0 h' vm') as Hkeep
    by (intros; by eapply patch_allowed_keep, kept_same, kept_desc).
  same_fields Hs.
  unfold finishDelete. wp_steps; bool_to_prop;
    try (split; [done|exact Hrel]); try (by apply HQ; [grow|apply Hkeep]).
  all: match goal with |- wpM _ _ _ ?h1 _ => assert (script_deleted c vm0 h1) as Hsc end;
    [destruct a; unfold script_deleted;
     rewrite <-HsScr, <-?HsName;
     first [rewrite decide_False by done|rewrite decide_True by done]; hist|].
  all: apply deleteOSVolume_wp; try done; [eapply instance_released_mono; [|done]; hist|].
  all: intros h2 vm2 r Hg2 Hm2 Hvol; wp_steps; (apply HQ; [grow|]).
  all: try (by apply Hkeep).
  all: split; [|destruct Hm2 as (? & ? & ?); cbn in *; apply provision_ok_keep; cbn; congruence].
  all: intros _; right; split; [done|]; exists c; match goal with u : unit |- _ => destruct u end.
  all: split_and!; [|by eauto with verda|by apply Hvol].
  all: eapply instance_released_mono; [|exact Hrel]; hist.
Qed.

Lemma requestDelete_wp i vm h (Q : hist CtrlE → VerdaMachine → result Result → Prop) :
  deleting (VM_Meta vm0) = true → found_instance c vm0 h i → instanceGone i = false →
  (∀ h' vm' r, grows calm h h' → kept vm vm' → Q h' vm' r) →
  wpM P (requestDelete c i) vm h Q.
Proof.
  intros Hdel Hi Hgone HQ. unfold requestDelete, setInstanceReadyFalse, setCondition.
  wp_step. case_bool_decide as Hd; [apply deleteRequestDue_wp; [done|..]|wp_step].
  - intros h1 t Hg. wp_steps; try (by apply HQ; [grow|]).
    exists i. split; [done|]. rewrite Hdel. split_and!; eauto with verda.
  - intros h1 Hg. wp_steps. by apply HQ; [grow|].
  - wp_steps. by apply HQ; [grow|].
Qed.

(** Deletion: nothing is created or cloned, only the machine's own resources
    are deleted, and the finalizer is kept until they are gone. *)
Lemma reconcileDelete_wp vm h (Q : hist CtrlE → VerdaMachine → result Result → Prop) :
  same vm0 vm → deleting (VM_Meta vm0) = true →
  (∀ h' vm' r, grows calm h h' → patch_allowed vm0 h' vm' → Q h' vm' r) →
  wpM P (reconcileDelete c) vm h Q.
Proof.
  intros Hs Hdel HQ. assert (∀ h' vm', kept vm vm' → patch_allowed vm0 h' vm') as Hkeep
    by (intros; by eapply patch_allowed_keep, kept_same).
  unfold reconcileDelete, setInstanceReadyFalse, setCondition.
  do 3 wp_step. apply findInstance_wp; [done|..].
  - intros h' e Hg. apply HQ; [done|by apply Hkeep].
  - intros h' Hg Hn. apply finishDelete_wp; try done; [by left|].
    intros. apply HQ; [grow|done].
  - intros h' i Hg Hi. cbn beta iota. destruct (negb (instanceGone i)) eqn:Hgone; bool_to_prop.
    { apply requestDelete_wp; try done. intros h1 vm1 r Hg1 Hf1.
      apply HQ; [grow|by apply Hkeep]. }
    destruct (bool_decide _) eqn:Hnf; bool_to_prop.
    + wp_step. wp_step; [by split; eauto|]. cbn beta. wp_step; [|apply HQ; [grow|by apply Hkeep]].
      wp_step; bool_to_prop; [wp_step; apply HQ; [grow|by apply Hkeep]|].
      apply finishDelete_wp; try done.
      * right. exists i. split_and!; [eapply found_instance_mono; [|done]; hist|done|].
        right. eexists. split; [done|hist].
      * intros. apply HQ; [grow|done].
    + apply finishDelete_wp; try done; [right; exists i; by split_and!; try left|].
      intros. apply HQ; [grow|done].
Qed.

Lemma resolveOSVolume_wp idOrName vm h (Q : hist CtrlE → VerdaMachine → result string → Prop) :
  (∀ h' r, grows calm h h' → Q h' vm r) → wpM P (resolveOSVolume c idOrName) vm h Q.
Proof. intros HQ. unfold resolveOSVolume. wp_steps; apply HQ; grow. Qed.

Lemma cloneOSVolume_wp vc vm h (Q : hist CtrlE → VerdaMachine → result Volume → Prop) :
  clone_allowed c vm0 h (osVolumeName vm) →
  (∀ h' vm' r, grows calm h h' → same_desc vm vm' →
     (∀ v, r = Ok v → Volume_Status v ≠ VolumeStatusDetached) → Q h' vm' r) →
  wpM P (cloneOSVolume c vc) vm h Q.
Proof.
  intros Hc HQ. unfold cloneOSVolume, setOSVolumeReady, setCondition. wp_step. wp_step. wp_step.
  apply resolveOSVolume_wp. intros h1 [src|e] Hg.
  - wp_steps; try (apply HQ; [grow|done|]; intros v Hv; by simplify_eq).
    destruct Hc as (Hd & Hn & Hf & err & He & Hseen).
    split_and!; [done|done|by eauto with verda|]. exists err. split; [done|].
    destruct Hseen; [left|right]; hist.
  - wp_steps. apply HQ; [grow|done|]. intros v Hv. by simplify_eq.
Qed.

Lemma ensureOSVolume_wp vc vm h (Q : hist CtrlE → VerdaMachine → result Volume → Prop) :
  same vm0 vm → deleting (VM_Meta vm0) = false → found_none c vm0 h →
  MSpec_OSVolumeID (VM_Spec vm0) ≠ "" →
  (∀ h' vm' r, grows calm h h' → same_desc vm vm' →
     (∀ v, r = Ok v → Volume_Status v = VolumeStatusDetached → boot_source c vm0 h' (Volume_ID v)) →
     Q h' vm' r) →
  wpM P (ensureOSVolume c vc) vm h Q.
Proof.
  intros Hs Hdel Hnone Hspec HQ. pose proof (osVolumeName_core _ _ Hs) as Hname. same_fields Hs.
  (* the lookup, then the lookup or the clone *)
  assert (∀ h1 vm1 v, grows calm h h1 → same_desc vm vm1 →
    (Volume_Status v = VolumeStatusDetached →
     Obs (Verda c (GetVolume (MStatus_OSVolumeID (VM_Status vm0)))) (Ok v) ∈ h1 ∨
     Obs (Verda c (FindVolumeByName (osVolumeName vm0))) (Ok v) ∈ h1) →
    wpM P (ensureOSVolumeRest c v) vm1 h1 Q) as Hrest.
  { intros h1 vm1 v Hg Hsame Hv.
    assert (∀ h2 v2, grows calm h1 h2 → v2 = v ∨ v2 = set_volume_Managed v →
      Volume_Status v2 = VolumeStatusDetached → boot_source c vm0 h2 (Volume_ID v2)) as Hboot.
    { intros h2 v2 Hg2 Hv2 Hst. unfold boot_source. rewrite decide_False by done.
      exists v. split; [by destruct Hv2; subst|].
      assert (Volume_Status v = VolumeStatusDetached) as Hst' by by destruct Hv2; subst.
      split; [done|]. destruct (Hv Hst'); [left|right]; hist. }
    unfold ensureOSVolumeRest, setOSVolumeReady, setCondition.
    wp_steps; (apply HQ; [grow|done|]); intros ? [= <-] ?; apply Hboot; auto; grow. }
  assert (∀ h1 r, grows calm h h1 →
    (∀ v, r = Ok v →
       Obs (Verda c (GetVolume (MStatus_OSVolumeID (VM_Status vm0)))) (Ok v) ∈ h1 ∨
       Obs (Verda c (FindVolumeByName (osVolumeName vm0))) (Ok v) ∈ h1) →
    (∀ e, r = Err e → errors_Is e ErrNotFound = true → clone_allowed c vm0 h1 (osVolumeName vm)) →
    wpM P (let! volume := (match r with
                           | Ok volume => retM volume
                           | Err err => if negb (errors_Is err ErrNotFound) then throw err
                                        else cloneOSVolume c vc
                           end) in ensureOSVolumeRest c volume) vm h1 Q) as Hlook.
  { intros h1 r Hg Hok Herr. wp_step. destruct r as [v|e].
    - wp_step. apply Hrest; [done|done|]. intros _. by apply Hok.
    - destruct (negb _) eqn:Hnf; bool_to_prop; [wp_step; by apply HQ|].
      apply cloneOSVolume_wp; [by eapply Herr|]. intros h2 vm2 [v|e2] Hg2 Hd Hv.
      + apply Hrest; [grow|done|]. intros Hst. by destruct (Hv v).
      + apply HQ; [grow|done|]. intros ? [=]. }
  assert (∀ h1, grows calm h h1 → found_none c vm0 h1) as Hnone' by eauto with verda.
  unfold ensureOSVolume. wp_step. wp_step. cbn beta iota zeta. rewrite HsVol. wp_step.
  case_bool_decide; apply wpM_call; try exact I; intros r _; (apply Hlook; [grow|..]).
  all: intros ? -> **; unfold clone_allowed; rewrite ?Hname; try (by left; hist); try (by right; hist).
  all: split_and!; [done|done|apply Hnone'; grow|]; eexists; (split; [done|]); eauto using list_elem_of_here.
Qed.

Lemma createInstance_wp cluster vc machine bootFrom vm h
    (Q : hist CtrlE → VerdaMachine → result Instance → Prop) :
  (∀ h' spec, grows calm h h' →
     InstanceSpec_Hostname spec = vm_name vm → managed (InstanceSpec_Tags spec) = true →
     tagged_only (InstanceSpec_Tags spec) TagMachine (machineTagValue vm) →
     InstanceSpec_Image spec = bootFrom → create_allowed c vm0 h' spec) →
  (∀ h' e, grows calm h h' → Q h' vm (Err e)) →
  (∀ h' spec r, Obs (Verda c (CreateInstance spec)) r ∈ h' → h ⊆ h' → Q h' vm r) →
  wpM P (createInstance c cluster vc machine bootFrom) vm h Q.
Proof.
  intros Hc He HQ. unfold createInstance, getBootstrapData.
  wp_steps; try (apply He; grow).
  - apply Hc; [grow|done|..|done].
    + apply bool_decide_eq_true. by vm_compute.
    + tagged_only.
  - eapply HQ; hist.
Qed.

Lemma launchInstance_wp cluster vc machine vm h
    (Q : hist CtrlE → VerdaMachine → result (Result + Instance) → Prop) :
  same vm0 vm → deleting (VM_Meta vm0) = false →
  deref_bool (MStatus_Provisioned (VM_Status vm0)) = false → found_none c vm0 h →
  (∀ c' spec r, Obs (Verda c' (CreateInstance spec)) r ∉ h) →
  (∀ h' vm' r, h ⊆ h' → same_desc vm vm' →
     (∀ i, r = Ok (inr i) → ∃ spec, Obs (Verda c (CreateInstance spec)) (Ok i) ∈ h') →
     Q h' vm' r) →
  wpM P (launchInstance c cluster vc machine) vm h Q.
Proof.
  intros Hs Hdel Hprov Hnone Hno HQ. pose proof Hs as Hs'. same_fields Hs'.
  assert (∀ h1 vm1 bootFrom, grows calm h h1 → same_desc vm vm1 → boot_source c vm0 h1 bootFrom →
    wpM P (let? r := createInstance c cluster vc machine bootFrom in
    match r with
    | Err err =>
        if errors_Is err ErrHostnameInUse then
          do! setInstanceReadyFalse "HostnameInUse" (Error err) in
          retM (inl (mkResult instanceResyncInterval))
        else
          do! setInstanceReadyFalse "InstanceCreateFailed" (Error err) in
          throw err
    | Ok instance => retM (inr instance)
    end) vm1 h1 Q) as Hcreate.
  { intros h1 vm1 b Hg Hd Hb. pose proof Hd as (Hm & Hsp & _). wp_step.
    assert (vm_name vm1 = vm_name vm0 ∧ machineTagValue vm1 = machineTagValue vm0) as [Hn1 Ht1].
    { rewrite <-(machineTagValue_core _ _ Hs), <-HsName.
      unfold machineTagValue, vm_name, vm_namespace. by rewrite Hm. }
    apply createInstance_wp.
    - intros h2 spec Hg2 Hh Hma Ht Hi. rewrite Hn1 in Hh. rewrite Ht1 in Ht.
      split_and!; try done; [by eauto with verda|eapply no_create_grows; [|done]; grow|].
      rewrite Hi. eapply boot_source_mono; [|exact Hb]. hist.
    - intros h2 e Hg2. unfold setInstanceReadyFalse, setCondition.
      wp_steps; (apply HQ; [hist|done|]); intros i [=].
    - intros h2 spec r Hin Hsub. unfold setInstanceReadyFalse, setCondition.
      wp_steps; (apply HQ; [eapply hist_sub_trans; [|done]; hist|done|]); intros i [=]; subst; eauto. }
  unfold launchInstance. do 2 wp_step. cbn beta iota zeta. rewrite HsSpec.
  case_bool_decide as Hos; cycle 1.
  { apply Hcreate; [grow|done|]. unfold boot_source.
    by rewrite decide_True by done. }
  wp_step. apply ensureOSVolume_wp; try done. intros h1 vm1 [v|e] Hg Hd Hb.
  - cbn beta iota. case_bool_decide as Hst.
    + unfold setInstanceReadyFalse, setCondition. wp_steps. apply HQ; [hist|done|]. intros i [=].
    + apply Hcreate; [grow|done|]. by apply Hb.
  - apply HQ; [hist|done|]. intros i [=].
Qed.

Lemma ensureOSVolumeTag_wp vm h (Q : hist CtrlE → VerdaMachine → result unit → Prop) :
  (∀ h' vm', grows calm h h' → same_desc vm vm' →
     MStatus_InstanceID (VM_Status vm') = MStatus_InstanceID (VM_Status vm) → Q h' vm' (Ok tt)) →
  wpM P (ensureOSVolumeTag c) vm h Q.
Proof.
  intros HQ. unfold ensureOSVolumeTag, setOSVolumeReady, setCondition.
  wp_steps; by apply HQ; first [grow|done].
Qed.

Lemma trackInstance_wp vc i vm h (Q : hist CtrlE → VerdaMachine → result Result → Prop) :
  deleting (VM_Meta vm0) = false →
  (found_instance c vm0 h i ∨ ∃ spec, Obs (Verda c (CreateInstance spec)) (Ok i) ∈ h) →
  (∀ h' vm' r, h ⊆ h' → VM_Meta vm' = VM_Meta vm → desired vm' = desired vm →
     (provisioned vm' = provisioned vm ∨ provisioned vm' = true ∧ records vm' i) → Q h' vm' r) →
  wpM P (trackInstance c vc i) vm h Q.
Proof.
  intros Hdel Hi HQ. unfold trackInstance, setInstanceReadyFalse, setInstanceReadyTrue, setCondition.
  do 5 wp_step. apply ensureOSVolumeTag_wp. intros h1 vm1 Hg (Hm & Hsp & Hpr) Hid.
  cbn in Hm, Hsp, Hpr, Hid.
  assert (provisioned vm1 = provisioned vm) as Hprov by (unfold provisioned; by rewrite Hpr).
  wp_steps; bool_to_prop; try (apply HQ; [hist|exact Hm|unfold desired; cbn; by rewrite Hsp|first [left; exact Hprov|right; by repeat split]]).
  all: exists i; split; [done|]; rewrite Hdel; split; [done|].
  all: destruct Hi as [Hi|[spec Hi]]; [left; by eauto with verda|right; exists spec; hist].
Qed.

Lemma resyncInstance_wp vm h (Q : hist CtrlE → VerdaMachine → result Result → Prop) :
  same vm0 vm → (∀ h' vm' r, same_desc vm vm' → Q h' vm' r) →
  wpM P (resyncInstance c) vm h Q.
Proof.
  intros Hs HQ. unfold resyncInstance, setInstanceReadyFalse, setInstanceReadyTrue, setCondition.
  wp_step. apply findInstance_wp; [done|..]; intros; wp_steps; by apply HQ.
Qed.

Lemma tracked_allowed vm vm' h h' i :
  same vm0 vm → provisioned vm0 = false → h ⊆ h' →
  (found_instance c vm0 h i ∨ ∃ spec, Obs (Verda c (CreateInstance spec)) (Ok i) ∈ h) →
  VM_Meta vm' = VM_Meta vm → desired vm' = desired vm →
  (provisioned vm' = provisioned vm ∨ provisioned vm' = true ∧ records vm' i) →
  patch_allowed vm0 h' vm'.
Proof.
  intros Hs Hp Hsub Hi Hm Hd Hrec. same_fields Hs.
  split; [intros Hf; left; by rewrite Hm, HsFin|]. split_and!.
  - rewrite Hd. unfold desired. cbn. by rewrite HsSpec.
  - congruence.
  - intros _ Ht. destruct Hrec as [He|[_ Hrec]].
    + unfold provisioned in *. rewrite HsProv in He. congruence.
    + exists c, i. split; [done|]. destruct Hi as [Hi|[spec Hi]]; [left; by eauto with verda|right].
      exists spec. auto.
Qed.

(** A pass that is not a deletion: an instance is created only for a machine
    that has none, only an instance without capacity is deleted, and the object
    is written back as [patch_allowed] says. *)
Lemma reconcileNormal_wp cluster vc machine vm h
    (Q : hist CtrlE → VerdaMachine → result Result → Prop) :
  same vm0 vm → deleting (VM_Meta vm0) = false →
  (∀ c' spec r, Obs (Verda c' (CreateInstance spec)) r ∉ h) →
  (∀ h' vm' r, patch_allowed vm0 h' vm' → Q h' vm' r) →
  wpM P (reconcileNormal c cluster vc machine) vm h Q.
Proof.
  intros Hs Hdel Hno HQ. pose proof Hs as Hs'. same_fields Hs'.
  assert (∀ h' vm', same_desc vm vm' → patch_allowed vm0 h' vm') as Hkeep
    by (intros; by eapply patch_allowed_keep, kept_same, kept_desc).
  unfold reconcileNormal. do 2 wp_step. cbn beta iota. rewrite HsProv.
  destruct (deref_bool _) eqn:Hprov; [apply resyncInstance_wp; by auto|].
  unfold setInstanceReadyFalse, setCondition. wp_step; [wp_steps; by apply HQ, Hkeep|].
  wp_step; [wp_steps; by apply HQ, Hkeep|]. wp_step.
  apply findInstance_wp; [done|..].
  - intros h' e Hg. by apply HQ, Hkeep.
  - intros h' Hg Hn. cbn beta iota. wp_step.
    apply launchInstance_wp; try done; [eapply no_create_grows; eauto with verda|].
    intros h1 vm1 [[res|i]|e] Hsub Hd Hi.
    + wp_steps. by apply HQ, Hkeep.
    + apply trackInstance_wp; [done|right; by apply Hi|]. intros h2 vm2 r Hs2 Hm2 Hd2 Hr2.
      destruct Hd as (Hm1 & Hsp1 & Hp1).
      apply HQ, (tracked_allowed vm _ h1 _ i); try done; [right; by apply Hi|congruence|..].
      * rewrite Hd2. unfold desired. cbn. by rewrite Hsp1.
      * unfold provisioned in Hr2 at 2. by rewrite Hp1 in Hr2.
    + by apply HQ, Hkeep.
  - intros h' i Hg Hi. apply trackInstance_wp; [done|by left|]. intros h2 vm2 r Hs2 Hm2 Hd2 Hr2.
    apply HQ, (tracked_allowed vm _ h' _ i); auto.
Qed.
End machine_wp.

Section machine_reconcile.
Context `{!CapiUtil, !Bootstrapper}.

Lemma patchVerdaMachine_wp vm0 vm h (Q : hist CtrlE → VerdaMachine → result unit → Prop) :
  patch_allowed vm0 h vm → (∀ h' vm' r, Q h' vm' r) →
  wpM (machine_protocol vm0) patchVerdaMachine vm h Q.
Proof.
  intros Hp HQ. unfold patchVerdaMachine, setCondition. wp_steps; [|apply HQ]. apply Hp.
Qed.

Lemma reconcilePatched_wp vm0 vm cluster vc machine h :
  same vm0 vm →
  (∀ c' spec r, Obs (Verda c' (CreateInstance spec)) r ∉ h) →
  (vc = None → deleting (VM_Meta vm0) = true) →
  wpM (machine_protocol vm0) (reconcilePatched cluster vc machine) vm h (λ _ _ _, True).
Proof.
  intros Hs Hno Hvc. pose proof Hs as Hs'. same_fields Hs'.
  assert (deleting (VM_Meta vm) = deleting (VM_Meta vm0)) as Hdel
    by (unfold deleting; by rewrite HsDel).
  assert (∀ h', patch_allowed vm0 h' vm) as Hkeep by (intros; by apply patch_allowed_keep).
  unfold reconcilePatched. do 4 wp_step; [exact I|]. cbn beta. wp_step; [|done].
  apply wpM_deferred. cbn zeta. wp_step. wp_step; [exact I|]. cbn beta.
  match goal with |- wpM _ _ _ ?h1 _ =>
    assert (∀ c' spec r, Obs (Verda c' (CreateInstance spec)) r ∉ h1) as Hno1
      by (eapply no_create_grows; [|exact Hno]; grow) end.
  wp_step; cbn beta iota.
  - rewrite Hdel. destruct (deleting (VM_Meta vm0)) eqn:Hd.
    + apply reconcileDelete_wp; try done; intros h' vm' r _ Hp; by apply patchVerdaMachine_wp.
    + destruct vc as [vc|]; [|by specialize (Hvc eq_refl)].
      apply reconcileNormal_wp; try done; intros h' vm' r Hp; by apply patchVerdaMachine_wp.
  - unfold setInstanceReadyFalse, setCondition. wp_steps.
    apply patchVerdaMachine_wp; [|done]. by apply patch_allowed_keep.
Qed.

Lemma reconcileOrphanDelete_wp vm0 vm h :
  same vm0 vm → deleting (VM_Meta vm0) = true →
  wpM (machine_protocol vm0) reconcileOrphanDelete vm h (λ _ _ _, True).
Proof.
  intros Hs Hd. pose proof Hs as Hs'. same_fields Hs'.
  unfold reconcileOrphanDelete. do 4 wp_step; [exact I|]. cbn beta. wp_step; [|done].
  apply wpM_deferred. wp_step. wp_step; [exact I|]. cbn beta. wp_step.
  - apply reconcileDelete_wp; try done; intros h' vm' r _ Hp; by apply patchVerdaMachine_wp.
  - apply patchVerdaMachine_wp; [|done]. by apply patch_allowed_keep.
Qed.

Lemma reconcileObject_wp vm h :
  (∀ c' spec r, Obs (Verda c' (CreateInstance spec)) r ∉ h) →
  wpM (machine_protocol vm) reconcileObject vm h (λ _ _ _, True).
Proof.
  intros Hno0. unfold reconcileObject.
  wp_step. wp_step. wp_step. wp_step; [exact I|]. cbn beta.
  wp_step; [|done]. wp_step; [by wp_steps|]. wp_step. wp_step; [exact I|]. cbn beta.
  wp_step; [|done]. wp_step; cycle 1.
  { wp_step; [by apply reconcileOrphanDelete_wp|by wp_steps]. }
  do 2 wp_step; [exact I|]. cbn beta. wp_step; [|done].
  do 2 wp_step; [exact I|]. cbn beta. wp_step; [|done].
  match goal with p : bool * bool * list Condition |- _ => destruct p as [[isPaused requeue] conds] end.
  cbn beta iota. do 2 wp_step. cbn beta iota. wp_step; [by wp_steps|].
  do 2 wp_step; [exact I|]. cbn beta.
  match goal with |- wpM _ _ _ ?h1 _ =>
    assert (∀ c' spec r, Obs (Verda c' (CreateInstance spec)) r ∉ h1) as Hno
      by (eapply (no_create_grows h); [grow|done]) end.
  wp_step; [by apply reconcilePatched_wp|]. wp_step; [by wp_steps|].
  wp_step; bool_to_prop; [by wp_steps|]. by apply reconcilePatched_wp.
Qed.

Definition is_get_machine (o : obs CtrlE) : bool :=
  match o with Obs (GetVerdaMachine _ _) _ => true | _ => false end.

(** A pass reads the object first; every later call satisfies [machine_guard]
    for the object read. *)
Lemma Reconcile_call ns name h r X (e : CtrlE X) a after before :
  runs (Reconcile ns name) h r → h = after ++ Obs e a :: before →
  is_get_machine (Obs e a) = false →
  ∃ vm, Obs (GetVerdaMachine ns name) (Ok vm) ∈ before ∧ machine_guard vm before X e.
Proof.
  apply (get_then_call _ _ _ machine_guard); [done|done|].
  intros vm. apply reconcileObject_wp. intros. set_solver.
Qed.

(** (C4) No duplicate instances.  When a pass over a VerdaMachine asks Verda to
    create an instance, then: the machine is not being deleted and was never
    provisioned; no instance is recorded for it, and the lookup by its tag,
    made before in the same pass, found none that still exists; it is the first
    create of the pass; the instance carries the machine's name as hostname, the
    tag by which a later pass finds it again, and the tag of managed resources;
    and it boots from the image of the spec, or from a clone of the OS volume
    Verda reported as detached. *)
Theorem machine_create_safe ns name h r c spec a after before :
  runs (Reconcile ns name) h r →
  h = after ++ Obs (Verda c (CreateInstance spec)) a :: before →
  ∃ vm, Obs (GetVerdaMachine ns name) (Ok vm) ∈ before ∧ create_allowed c vm before spec.
Proof. intros Hex Hh. by apply (Reconcile_call _ _ _ _ _ _ _ _ _ Hex Hh). Qed.

(** A pass deletes no other machine's instance: a delete request names an
    instance found in the same pass under the recorded ID or under the machine's
    own tag (or created in it).  For a machine being deleted the instance still
    exists and is not yet deleting; otherwise it is one Verda reported to have no
    capacity for. *)
Theorem machine_delete_safe ns name h r c id a after before :
  runs (Reconcile ns name) h r →
  h = after ++ Obs (Verda c (DeleteInstance id)) a :: before →
  ∃ vm, Obs (GetVerdaMachine ns name) (Ok vm) ∈ before ∧ delete_allowed c vm before id.
Proof. intros Hex Hh. by apply (Reconcile_call _ _ _ _ _ _ _ _ _ Hex Hh). Qed.

(** (C11) A volume is deleted only while the machine is being deleted, after its
    instance is gone and its volumes are released, and only if Verda reports
    under that ID a volume with the name of the machine's clone: the volume an
    OS image is cloned from is never deleted. *)
Theorem machine_volume_safe ns name h r c id a after before :
  runs (Reconcile ns name) h r →
  h = after ++ Obs (Verda c (DeleteVolume id)) a :: before →
  ∃ vm, Obs (GetVerdaMachine ns name) (Ok vm) ∈ before ∧ volume_delete_allowed c vm before id.
Proof. intros Hex Hh. by apply (Reconcile_call _ _ _ _ _ _ _ _ _ Hex Hh). Qed.

(** (C5) Nothing on record is leaked: a pass writes the object back without the
    provider's finalizer only if it is being deleted and, in the same pass: the
    instance on record was looked up and is not found, or is gone and a purge of
    its volumes left none pending (with none on record, the lookup by tag found
    none, or one that is gone, whose volumes are then not purged); the startup
    script was deleted, by the recorded ID or else by name; and the recorded clone
    of the OS volume was deleted, or seen not to exist, to be deleted already or
    to have another name. *)
Theorem machine_finalizer_safe ns name h r vm' a after before :
  runs (Reconcile ns name) h r →
  h = after ++ Obs (PatchVerdaMachine vm') a :: before →
  ∃ vm, Obs (GetVerdaMachine ns name) (Ok vm) ∈ before ∧
    (MachineFinalizer ∈ Meta_Finalizers (VM_Meta vm) →
     MachineFinalizer ∉ Meta_Finalizers (VM_Meta vm') →
     deleting (VM_Meta vm) = true ∧ ∃ c, machine_cleaned c vm before).
Proof.
  intros Hex Hh. apply (Reconcile_call _ _ _ _ _ _ _ _ _ Hex) in Hh as (vm & Hin & Hg); [|done].
  exists vm. split; [done|]. intros Hf Hf'. destruct Hg as [Hg _]. by destruct (Hg Hf).
Qed.

(** (C12) A pass writes back a truthful object: the spec is changed in nothing but
    the provider ID; a machine marked provisioned stays so; and it is marked so
    first with a running instance found or created in the same pass, whose ID,
    provider ID, addresses and location the object then records. *)
Theorem machine_provisioned_truthful ns name h r vm' a after before :
  runs (Reconcile ns name) h r →
  h = after ++ Obs (PatchVerdaMachine vm') a :: before →
  ∃ vm, Obs (GetVerdaMachine ns name) (Ok vm) ∈ before ∧ provision_ok vm before vm'.
Proof.
  intros Hex Hh. apply (Reconcile_call _ _ _ _ _ _ _ _ _ Hex) in Hh as (vm & Hin & Hg); [|done].
  exists vm. split; [done|]. by destruct Hg.
Qed.

(** At most one clone of the OS volume: it is made only when the lookup of
    the recorded clone, or the lookup by the clone's name if none is recorded,
    found none, and it is made under that name. *)
Theorem machine_clone_safe ns name h r c src n loc a after before :
  runs (Reconcile ns name) h r →
  h = after ++ Obs (Verda c (CloneVolume src n loc)) a :: before →
  ∃ vm, Obs (GetVerdaMachine ns name) (Ok vm) ∈ before ∧ clone_allowed c vm before n.
Proof. intros Hex Hh. by apply (Reconcile_call _ _ _ _ _ _ _ _ _ Hex Hh). Qed.

(** The Ready condition written at the end of every pass sums up the
    others: it is true exactly if the machine is not being deleted and
    InstanceReady is true, a false one carries InstanceReady's message, no other
    condition is touched, and the object written is the one in memory. *)
Theorem machine_ready_summary `{!CapiUtilLaws} vm h vm' r :
  runs (patchVerdaMachine vm) h (vm', r) →
  conditions_IsTrue (GetConditions vm') ReadyCondition =
    negb (deleting (VM_Meta vm)) && conditions_IsTrue (GetConditions vm) InstanceReadyCondition ∧
  (deleting (VM_Meta vm) = false →
   conditions_IsTrue (GetConditions vm') ReadyCondition = false →
   conditions_GetMessage (GetConditions vm') ReadyCondition =
     conditions_GetMessage (GetConditions vm) InstanceReadyCondition) ∧
  (∀ t, t ≠ ReadyCondition →
     conditions_IsTrue (GetConditions vm') t = conditions_IsTrue (GetConditions vm) t) ∧
  h = [Obs (PatchVerdaMachine vm') r].
Proof.
  intros Hex. unfold runs in Hex. exec_to_wp Hex.
  unfold patchVerdaMachine, setCondition. do 2 wp_step. cbn beta iota. do 2 wp_step.
  cbn beta iota. do 2 wp_step. cbn beta iota. wp_step; [done|]. rewrite GetConditions_set, IsTrue_Set, GetMessage_Set.
  unfold readyCondition. destruct (deleting (VM_Meta vm)); cbn.
  { split_and!; try done. intros t Ht. by rewrite IsTrue_Set, decide_False. }
  destruct (conditions_IsTrue _ InstanceReadyCondition); cbn; split_and!; try done;
    intros t Ht; by rewrite IsTrue_Set, decide_False.
Qed.
End machine_reconcile.
