(* ===== verification/Pass.v ===== *)
(** * A machine controller, a cloud and a management cluster

    What a pass of the machine controller does against a management cluster that
    answers, whatever carries out the calls to Verda: the parts of [Reconcile]
    around its handlers. *)

From S2P Require Import Prelude GoStd GoTime Effects Api Cloud Ctrl Machine.
From stdpp Require Import options.

(** The Verda calls of every client go to one cloud; the other calls go to the
    management cluster. *)
Definition with_client {S K : Type} (cloud : ∀ X, ClientE X → S → S * X) (kube : ∀ X, CtrlE X → K → K * X)
    (X : Type) (e : CtrlE X) : S * K → (S * K) * X :=
  match e in CtrlE X return S * K → (S * K) * X with
  | Verda _ e' => λ '(f, k), let '(f', x) := cloud _ e' f in ((f', k), x)
  | e' => λ '(f, k), let '(k', x) := kube _ e' k in ((f, k'), x)
  end.

Section pass.
Context `{!CapiUtil, !Bootstrapper}.
Context {S K : Type} (cloud : ∀ X, ClientE X → S → S * X).
Context (kube : ∀ X, CtrlE X → K → K * X) (c : ClientRef).

Abbreviation world := (with_client cloud kube).

(** A management cluster that answers: the machine with its finalizer, its
    owner and its cluster are there, nothing is paused, credentials are
    available, and a patch is stored. *)
Record obliging (ns name : string) (stored : K → VerdaMachine) (machine : Machine) (cluster : Cluster)
    (vc : VerdaCluster) : Prop := {
  ob_get k : kube _ (GetVerdaMachine ns name) k = (k, Ok (stored k));
  ob_finalizer m k : kube _ (EnsureFinalizer m MachineFinalizer) k = (k, Ok false);
  ob_owner m k : kube _ (GetOwnerMachine m) k = (k, Ok (Some machine));
  ob_cluster m k : kube _ (GetClusterFromMetadata m) k = (k, Ok cluster);
  ob_paused cl m conds k : kube _ (EnsurePausedCondition cl m conds) k = (k, Ok (false, false, conds));
  ob_vc ns' name' k : kube _ (GetVerdaCluster ns' name') k = (k, Ok vc);
  ob_helper m k : kube _ (NewPatchHelper m) k = (k, Ok tt);
  ob_client i k : kube _ (ClientFor i) k = (k, Ok c);
  ob_now k : stored (kube _ Now k).1 = stored k;
  ob_patch vm k : (kube _ (PatchVerdaMachine vm) k).2 = Ok tt ∧ stored (kube _ (PatchVerdaMachine vm) k).1 = vm
}.

Lemma wr_deferred {O A} (body : M O CtrlE A) after o s (Q : S * K → O → result A → Prop) :
  wr world body o s (λ s' o' r, wr world after o' s' (λ s'' o'' p,
    Q s'' o'' match kerrorsJoin (err_of r) (err_of p), r with Some e, _ => Err e | None, r => r end)) →
  wr world (deferred body after) o s Q.
Proof.
  intros Hb. unfold deferred. wr_step. eapply wr_mono; [exact Hb|]. intros s' o' r Ha. wr_step.
  eapply wr_mono; [exact Ha|]. intros s'' o'' [[]|e2] HQ; destruct r as [a|e1]; exact HQ.
Qed.

Lemma vm_set_Conditions_id vm : vm_set_Conditions (MStatus_Conditions (VM_Status vm)) vm = vm.
Proof. by destruct vm as [? ? []]. Qed.

Lemma patchVerdaMachine_wr ns name stored machine cluster vc vm f k :
  obliging ns name stored machine cluster vc →
  wr world patchVerdaMachine vm (f, k) (λ s' _ r,
    r = Ok tt ∧ s'.1 = f ∧
    stored s'.2 = vm_set_Conditions (conditions_Set (readyCondition vm) (GetConditions vm)) vm).
Proof.
  intros Hob. unfold patchVerdaMachine, setCondition. wr_steps. cbn.
  match goal with |- context [PatchVerdaMachine ?v] =>
    destruct (ob_patch _ _ _ _ _ _ Hob v k) as [Hr Hs]; destruct (kube _ (PatchVerdaMachine v) k) as [k' x] end.
  cbn in *. subst x. by split_and!.
Qed.

(** [Reconcile] of the machine. *)
Definition reconcile (ns name : string) (s : S * K) : (S * K) * result Result :=
  run world (Reconcile ns name) s.

(** A whole pass is its handler, followed by the patch. *)
Lemma reconcile_wr ns name stored machine cluster vc f k (Q : S * K → result Result → Prop) :
  obliging ns name stored machine cluster vc →
  wr world (if deleting (VM_Meta (stored k)) then reconcileDelete c else reconcileNormal c cluster vc machine)
    (stored k) (f, k) (λ s' vm' r, ∀ k',
      stored k' = vm_set_Conditions (conditions_Set (readyCondition vm') (GetConditions vm')) vm' →
      Q (s'.1, k') r) →
  Q (reconcile ns name (f, k)).1 (reconcile ns name (f, k)).2.
Proof.
  intros Hob Hbody.
  assert (wr world reconcileObject (stored k) (f, k) (λ s' _ r, Q s' r)) as Hr.
  { unfold reconcileObject. wr_steps. cbn. rewrite (ob_finalizer _ _ _ _ _ _ Hob). cbn.
    wr_steps. cbn. rewrite (ob_owner _ _ _ _ _ _ Hob). cbn.
    wr_steps. cbn. rewrite (ob_cluster _ _ _ _ _ _ Hob). cbn.
    wr_steps. cbn. rewrite (ob_paused _ _ _ _ _ _ Hob). cbn.
    wr_steps. cbn. rewrite (ob_vc _ _ _ _ _ _ Hob). cbn.
    unfold reconcilePatched. wr_steps. cbn. rewrite (ob_helper _ _ _ _ _ _ Hob). cbn.
    apply wr_deferred. wr_steps. cbn. rewrite (ob_client _ _ _ _ _ _ Hob). cbn.
    rewrite vm_set_Conditions_id. eapply wr_mono; [exact Hbody|].
    intros [f1 k1] vm1 r Hpost. eapply wr_mono; [by eapply patchVerdaMachine_wr|].
    intros [f2 k2] _ p (-> & Hf2 & Hs). cbn in *. subst f2. specialize (Hpost k2 Hs). by destruct r. }
  unfold reconcile, Reconcile, get_then. rewrite run_bind. cbn [run trigger with_client].
  rewrite (ob_get _ _ _ _ _ _ Hob). cbn beta iota. rewrite run_bind. unfold wr in Hr.
  by destruct (run world (reconcileObject (stored k)) (f, k)) as [s' [o' r]].
Qed.
End pass.
