(* ===== verification/World.v ===== *)
(** * The machine controller running against a cloud

    [Fake] as the Verda account of all machines and an arbitrary management
    cluster: nothing is assumed of the Kubernetes API.  Status updates may be
    lost, reads may be stale, any call may fail. *)

From S2P Require Import Prelude GoStd GoTime Effects Api Cloud Fake Ctrl Machine Pass.
From stdpp Require Import options.

(** The Verda calls of every client go to the one account; the other calls go
    to the management cluster. *)
Abbreviation with_fake := (with_client fake).

(** The instances that exist under an owner's tag, and under a machine's. *)
Definition live_tagged (key value : string) (i : Instance) : Prop :=
  map_get (Instance_Tags i) key = value ∧ instanceGone i = false.
Definition live_owned : string → Instance → Prop := live_tagged TagMachine.

Definition unique_live (f : Fake) : Prop :=
  ∀ tag id1 id2 i1 i2,
    Fake_Instances f !! id1 = Some i1 → live_owned tag i1 →
    Fake_Instances f !! id2 = Some i2 → live_owned tag i2 → id1 = id2.

(** Verda marks an instance that is gone as discontinued. *)
Definition gone_discontinued (f : Fake) : Prop :=
  ∀ id i, Fake_Instances f !! id = Some i → instanceGone i = true →
    Instance_Status i = StatusDiscontinued.

Definition none_tagged (key value : string) (f : Fake) : Prop :=
  ∀ id i, Fake_Instances f !! id = Some i → ¬ live_tagged key value i.
Definition none_live : string → Fake → Prop := none_tagged TagMachine.

Section unique.
Context `{!MapRange}.

Lemma fake_FindInstanceByTag_none key tag f :
  gone_discontinued f →
  match (fake_FindInstanceByTag key tag f).2 with
  | Ok i => instanceGone i = true
  | Err err => errors_Is err ErrNotFound = true
  end → none_tagged key tag f.
Proof.
  intros Hg. unfold fake_FindInstanceByTag, fake_find. cbn. rewrite find_live_spec.
  intros Hr id i Hi [Ht Hl].
  assert (live_match (λ inst, bool_decide (map_get (Instance_Tags inst) key = tag)) i = true)
    as Hm.
  { unfold live_match. rewrite bool_decide_eq_true_2 by done. cbn. apply bool_decide_eq_true.
    intros Hd. unfold instanceGone in Hl. rewrite Hd in Hl. by vm_compute in Hl. }
  apply range_snd_elem_of, list_elem_of_In in Hi.
  destruct (List.find _ _) as [x|] eqn:Hf; cycle 1.
  { by rewrite (find_none _ _ Hf _ Hi) in Hm. }
  cbn in Hr. apply find_some in Hf as [Hx%list_elem_of_In Hmx].
  apply elem_of_range_snd in Hx as [idx Hx]. apply (Hg _ _ Hx) in Hr.
  unfold live_match in Hmx. apply andb_true_iff in Hmx as [_ Hmx]. by bool_to_prop.
Qed.

(** What the calls of a pass do to the instances. *)
Lemma fake_instances_frame X (e : ClientE X) f :
  match e with
  | CreateInstance _ | DeleteInstance _ => True
  | _ => Fake_Instances (fake X e f).1 = Fake_Instances f
  end.
Proof.
  destruct e; cbn; try done; unfold fake_PurgeInstanceVolumes, fake_CloneVolume, fake_DeleteVolume;
    repeat case_match; done.
Qed.

(** The instances that live after a call lived before it, unless they were
    just created. *)
Lemma fake_live_back X (e : ClientE X) f id i :
  fake_wf f → Fake_Instances (fake X e f).1 !! id = Some i → instanceGone i = false →
  (∃ i0, Fake_Instances f !! id = Some i0 ∧ Instance_Tags i0 = Instance_Tags i ∧ instanceGone i0 = false) ∨
  ∃ spec, match e with
          | CreateInstance spec' => spec = spec'
          | _ => False
          end ∧ Instance_Tags i = InstanceSpec_Tags spec ∧
          id = "inst-" +:+ fmt_d (Fake_nextID f + 1).
Proof.
  intros Hwf. pose proof (fake_instances_frame X e f) as Hfr.
  destruct e; try (intros Hi ?; left; rewrite Hfr in Hi; by eauto); clear Hfr; cbn [fake].
  - destruct (fake_CreateInstance spec f) as [f' [inst|err]] eqn:Hc.
    + apply fake_CreateInstance_ok in Hc as (Hid & Ht & _ & Hins & _). cbn.
      rewrite Hins, lookup_insert_Some. intros [[<- <-]|[_ Hi]] Hl; [right|left; by exists i].
      exists spec. split_and!; [done|by rewrite <-Ht|done].
    + unfold fake_CreateInstance in Hc. case_match; [|by repeat case_match; simplify_eq].
      simplify_eq. cbn. eauto.
  - unfold fake_DeleteInstance. destruct (Fake_Instances f !! id0) as [j|] eqn:Hj; cbn; [|by eauto].
    destruct (managed _); cbn; [|by eauto]. rewrite lookup_alter. case_decide as Heq; [|by eauto].
    subst. rewrite Hj. cbn. intros [= <-] Hl. by vm_compute in Hl.
Qed.

(** The same for the instances under a tag. *)
Lemma fake_tagged_back X (e : ClientE X) f id i key value :
  fake_wf f → Fake_Instances (fake X e f).1 !! id = Some i → live_tagged key value i →
  (∃ i0, Fake_Instances f !! id = Some i0 ∧ live_tagged key value i0) ∨
  ∃ spec, match e with
          | CreateInstance spec' => spec = spec'
          | _ => False
          end ∧ value = map_get (InstanceSpec_Tags spec) key ∧
          id = "inst-" +:+ fmt_d (Fake_nextID f + 1).
Proof.
  intros Hwf Hi [Ht Hl]. destruct (fake_live_back X e f id i Hwf Hi Hl) as [(i0 & Hi0 & Ht0 & Hl0)|(spec & He & Hs & Hid)].
  - left. exists i0. split; [done|]. split; [by rewrite Ht0|done].
  - right. exists spec. by rewrite <-Hs, Ht.
Qed.

Lemma fake_gone_discontinued X (e : ClientE X) f :
  fake_wf f → gone_discontinued f → gone_discontinued (fake X e f).1.
Proof.
  intros Hwf Hg id i Hi Hgone. pose proof (fake_instances_frame X e f) as Hfr.
  destruct e; try (rewrite Hfr in Hi; by eapply Hg); clear Hfr; cbn [fake] in Hi.
  - destruct (fake_CreateInstance spec f) as [f' [inst|err]] eqn:Hc.
    + apply fake_CreateInstance_ok in Hc as (_ & _ & Hst & Hins & _). cbn in Hi. rewrite Hins in Hi.
      apply lookup_insert_Some in Hi as [[_ <-]|[_ Hi]]; [|by eapply Hg].
      unfold instanceGone in Hgone. rewrite Hst in Hgone. by vm_compute in Hgone.
    + unfold fake_CreateInstance in Hc. case_match; [|by repeat case_match; simplify_eq].
      simplify_eq. by eapply Hg.
  - unfold fake_DeleteInstance in Hi.
    destruct (Fake_Instances f !! id0) as [j|] eqn:Hj; cbn in Hi; [|by eapply Hg].
    destruct (managed _); cbn in Hi; [|by eapply Hg]. rewrite lookup_alter in Hi.
    case_decide; [|by eapply Hg]. subst. rewrite Hj in Hi. cbn in Hi. by simplify_eq.
Qed.

(** The account as a pass over [vm] finds and leaves it. *)
Record pass_inv (vm : VerdaMachine) (h : hist CtrlE) (f : Fake) : Prop := {
  pi_wf : fake_wf f;
  pi_gone : gone_discontinued f;
  pi_unique : unique_live f;
  pi_none c : found_none c vm h → (∀ c' spec r, Obs (Verda c' (CreateInstance spec)) r ∉ h) →
    none_live (machineTagValue vm) f
}.

Definition is_verda (o : obs CtrlE) : bool :=
  match o with Obs (Verda _ _) _ => true | _ => false end.

Lemma pass_inv_kube vm h f X (e : CtrlE X) r :
  match e with Verda _ _ => False | _ => True end → pass_inv vm h f → pass_inv vm (Obs e r :: h) f.
Proof.
  intros He [H1 H2 H3 H4]. split; try done. intros c (Hid & r0 & Hin & Hr) Hno.
  apply (H4 c); [|intros c' spec r' ?; by eapply Hno, list_elem_of_further]. split; [done|]. exists r0. split; [|done].
  apply elem_of_cons in Hin as [Heq|Hin]; [|done].
  apply (f_equal is_verda) in Heq. by destruct e.
Qed.

(** The lookup by tag a call was, with its answer. *)
Definition tag_answer (o : obs CtrlE) : option (string * string * result Instance) :=
  match o with
  | @Obs _ X e r =>
      match e in CtrlE X return X → option (string * string * result Instance) with
      | Verda _ e' =>
          match e' in ClientE X return X → option (string * string * result Instance) with
          | FindInstanceByTag k v => λ r, Some (k, v, r)
          | _ => λ _, None
          end
      | _ => λ _, None
      end r
  end.

Lemma pass_inv_verda vm h f c X (e : ClientE X) :
  verda_guard c vm h e → pass_inv vm h f →
  pass_inv vm (Obs (Verda c e) (fake X e f).2 :: h) (fake X e f).1.
Proof.
  intros Hg [H1 H2 H3 H4].
  assert (∀ tag, none_live tag f → ∀ id i, Fake_Instances (fake X e f).1 !! id = Some i →
    live_owned tag i → ∃ spec, match e with CreateInstance spec' => spec = spec' | _ => False end)
    as Hback.
  { intros tag Hn id i Hi Hl. destruct (fake_tagged_back X e f id i TagMachine tag H1 Hi Hl)
      as [(i0 & Hi0 & Hl0)|(spec & He & _)]; [by destruct (Hn id i0)|by exists spec]. }
  split; [by apply fake_wf_step|by apply fake_gone_discontinued|..].
  - intros tag id1 id2 i1 i2 Hi1 Hl1 Hi2 Hl2.
    destruct (fake_tagged_back X e f id1 i1 TagMachine tag H1 Hi1 Hl1) as [(j1 & Hj1 & Hm1)|(s1 & He1 & Ht1 & ->)],
      (fake_tagged_back X e f id2 i2 TagMachine tag H1 Hi2 Hl2) as [(j2 & Hj2 & Hm2)|(s2 & He2 & Ht2 & ->)];
      [by eapply H3|..|done].
    + destruct e; try done. subst s2. destruct Hg as (_ & _ & Hn & Hno & _ & _ & [Htag _] & _).
      destruct (H4 c Hn Hno _ _ Hj1). by rewrite <-Htag, <-Ht2.
    + destruct e; try done. subst s1. destruct Hg as (_ & _ & Hn & Hno & _ & _ & [Htag _] & _).
      destruct (H4 c Hn Hno _ _ Hj2). by rewrite <-Htag, <-Ht1.
  - intros c' (Hid & r0 & Hin & Hr) Hno.
    assert (∀ c' spec r, Obs (Verda c' (CreateInstance spec)) r ∉ h) as Hno'.
    { intros c1 spec r1 ?. by eapply Hno, list_elem_of_further. }
    assert (none_live (machineTagValue vm) f) as Hnone.
    { apply elem_of_cons in Hin as [Heq|Hin]; [|apply (H4 c' ltac:(by split; eauto) Hno')].
      apply (f_equal tag_answer) in Heq. destruct e; cbn in Heq; try done.
      injection Heq as <- <- ->. by apply fake_FindInstanceByTag_none. }
    intros id i Hi Hl. destruct (Hback _ Hnone _ _ Hi Hl) as [spec He].
    destruct e; try done. subst. eapply Hno, list_elem_of_here.
Qed.

(** A pass over any machine, with any management cluster. *)
Lemma pass_unique `{!CapiUtil, !Bootstrapper} {K} (kube : ∀ X, CtrlE X → K → K * X) ns name f k :
  fake_wf f → gone_discontinued f → unique_live f →
  let f' := (run (with_fake kube) (Reconcile ns name) (f, k)).1.1 in
  fake_wf f' ∧ gone_discontinued f' ∧ unique_live f'.
Proof.
  intros Hwf Hg Hu. cbn zeta. unfold Reconcile, get_then. rewrite run_bind.
  cbn [run with_client trigger].
  destruct (kube _ (GetVerdaMachine ns name) k) as [k1 [vm|e]]; [|done].
  rewrite run_bind.
  destruct (run_inv (with_fake kube) (λ h '(f, _), pass_inv vm h f) (machine_protocol vm)
    (reconcileObject vm) [] (λ _ _, True) (f, k1)) as (h' & HI & _).
  - intros h X e [f1 k2] HI Hguar. split; [done|]. destruct e; cbn;
      try (destruct (kube _ _ k2) as [k3 x]; by apply pass_inv_kube).
    pose proof (pass_inv_verda _ _ _ _ _ _ Hguar HI) as HI'.
    by destruct (fake X e f1) as [f2 x].
  - eapply wp_mono; [|apply reconcileObject_wp]; [done|]. intros. by apply not_elem_of_nil.
  - split; try done. intros c (_ & r & Hin & _). by apply not_elem_of_nil in Hin.
  - destruct (run _ (reconcileObject vm) (f, k1)) as [[f2 k2] [vm' r']]. cbn in *. by destruct HI.
Qed.
End unique.

(** ** Histories of an account

    Passes over machines, in any order and with any management cluster, and the
    changes Verda makes by itself: the status and address of an instance that
    is not gone, or the status of a volume. *)
Inductive account_step `{MapRange, CapiUtil, Bootstrapper} (f : Fake) : Fake → Prop :=
| step_pass K (kube : ∀ X, CtrlE X → K → K * X) k ns name :
    account_step f (run (with_fake kube) (Reconcile ns name) (f, k)).1.1
| step_instance id status ip i :
    Fake_Instances f !! id = Some i → instanceGone i = false →
    status ≠ StatusDeleted → status ≠ StatusNotFound →
    account_step f (fake_SetStatus id status ip f)
| step_volume id status :
    account_step f (fake_SetVolumeStatus id status f).

Section history.
Context `{!MapRange, !CapiUtil, !Bootstrapper}.

Definition account_inv (f : Fake) : Prop := fake_wf f ∧ gone_discontinued f ∧ unique_live f.

(** What a change of status leaves of the instances. *)
Lemma fake_SetStatus_back id status ip f i id' i' :
  Fake_Instances f !! id = Some i → instanceGone i = false →
  Fake_Instances (fake_SetStatus id status ip f) !! id' = Some i' →
  ∃ i0, Fake_Instances f !! id' = Some i0 ∧ Instance_Tags i' = Instance_Tags i0 ∧
    (i' = i0 ∨ instanceGone i0 = false ∧ Instance_Status i' = status).
Proof.
  intros Hi Hl. cbn. rewrite lookup_alter. case_decide as Heq; [|by eauto 10].
  subst. rewrite Hi. cbn. intros [= <-]. exists i. eauto.
Qed.

Lemma gone_discontinued_SetStatus id status ip f i :
  Fake_Instances f !! id = Some i → instanceGone i = false →
  status ≠ StatusDeleted → status ≠ StatusNotFound →
  gone_discontinued f → gone_discontinued (fake_SetStatus id status ip f).
Proof.
  intros Hi Hl Hs1 Hs2 Hg id' i' Hi' Hgone.
  destruct (fake_SetStatus_back _ _ _ _ _ _ _ Hi Hl Hi') as (i0 & Hi0 & _ & [->|[_ Hst]]); [by eapply Hg|].
  unfold instanceGone in Hgone. rewrite Hst in Hgone |- *.
  rewrite !bool_decide_eq_false_2 in Hgone by done. by repeat case_bool_decide.
Qed.

(** An instance that exists under a tag after the change did so before. *)
Lemma fake_SetStatus_tagged id status ip f i id' i' key value :
  Fake_Instances f !! id = Some i → instanceGone i = false →
  Fake_Instances (fake_SetStatus id status ip f) !! id' = Some i' → live_tagged key value i' →
  ∃ i0, Fake_Instances f !! id' = Some i0 ∧ live_tagged key value i0.
Proof.
  intros Hi Hl Hi' [Ht Hg].
  destruct (fake_SetStatus_back _ _ _ _ _ _ _ Hi Hl Hi') as (i0 & Hi0 & Ht0 & Hc).
  exists i0. split; [done|]. split; [congruence|]. destruct Hc as [->|[? _]]; done.
Qed.

Lemma account_inv_step f f' : account_step f f' → account_inv f → account_inv f'.
Proof.
  intros Hstep (Hwf & Hg & Hu). destruct Hstep as [K kube k ns name|id status ip i Hi Hl Hs1 Hs2|id status].
  - by apply pass_unique.
  - split_and!; [by apply alter_Instances_wf|by eapply gone_discontinued_SetStatus|].
    intros tag id1 id2 i1 i2 Hi1 Hl1 Hi2 Hl2.
    destruct (fake_SetStatus_tagged _ _ _ _ _ _ _ _ _ Hi Hl Hi1 Hl1) as (j1 & Hj1 & Hm1).
    destruct (fake_SetStatus_tagged _ _ _ _ _ _ _ _ _ Hi Hl Hi2 Hl2) as (j2 & Hj2 & Hm2).
    by eapply (Hu tag).
  - split_and!; try done. apply with_Volumes_wf; [done|]. by apply alter_Volume_ID; [|apply Hwf].
Qed.

Lemma account_inv_reachable f : rtc account_step NewFake f → account_inv f.
Proof.
  apply (rtc_ind_r account_inv).
  - split_and!; [apply NewFake_wf|..].
    + intros id i Hi. cbn in Hi. by rewrite lookup_empty in Hi.
    + intros tag id1 id2 i1 i2 Hi. cbn in Hi. by rewrite lookup_empty in Hi.
  - intros y z _ Hstep. by apply account_inv_step.
Qed.

(** One machine, one instance.  Whatever the management cluster does (lost
    status updates, stale reads, repeated or interleaved passes over any number
    of machines) and whatever Verda does to the instances short of reviving
    one that is gone, no two existing instances of an account ever carry
    the same machine tag. *)
Theorem machine_instance_unique f : rtc account_step NewFake f → unique_live f.
Proof. by intros (_ & _ & ?)%account_inv_reachable. Qed.
End history.

(** ** A management cluster with one machine *)

Module WorldExamples.
#[local] Existing Instance CapiExamples.capi.
#[local] Existing Instance CapiExamples.capi_laws.
#[local] Existing Instance FakeExamples.range_in_key_order.

(** Package bootstrap, for data that is already a script. *)
#[local] Instance script_as_is : Bootstrapper := {| ToStartupScript data _ := Ok (mkScript data []) |}.

Record Kube := mkKube { Kube_vm : option VerdaMachine; Kube_now : Z }.

Definition notfound {A} : result A := Err (KubeError ReasonNotFound "not found").

Definition meta (name : string) (del : option Z) : ObjectMeta :=
  mkObjectMeta name "default" ∅ ∅ [MachineFinalizer] 0 del.

Definition cluster0 : Cluster :=
  mkCluster (meta "prod" None) (mkAPIEndpoint "" 0) "prod" "VerdaCluster" true (Some true).
Definition vcluster0 : VerdaCluster :=
  mkVerdaCluster (meta "prod" None)
    (mkVerdaClusterSpec "FIN-01" (mkAPIEndpoint "203.0.113.1" 6443) None
       (mkControlPlaneLoadBalancer None "" "" []) (mkControlPlaneLoadBalancer None "" "" []))
    (mkVerdaClusterStatus None [] empty_LoadBalancerStatus empty_LoadBalancerStatus []).
Definition machine0 : Machine := mkMachine (meta "node-0" None) (Some "node-0-bootstrap").
Definition secret0 : Secret :=
  mkSecret "default" "node-0-bootstrap" "1" ∅ None {["value" := "#!/bin/bash"]}.

Definition spec_of (osVolume : string) : VerdaMachineSpec :=
  mkVerdaMachineSpec "" "CPU.4V.16G" "ubuntu-24.04" osVolume [] 50 "PAY_AS_YOU_GO" None "" [].

Definition vm_of (osVolume instanceID volumeID : string) (del : option Z) : VerdaMachine :=
  mkVerdaMachine (meta "node-0" del) (spec_of osVolume)
    (mkVerdaMachineStatus None [] [] "" instanceID "" volumeID "").

Definition kube (X : Type) (e : CtrlE X) : Kube → Kube * X :=
  match e in CtrlE X return Kube → Kube * X with
  | GetVerdaMachine _ _ => λ k, (k, match Kube_vm k with Some vm => Ok vm | None => notfound end)
  | GetVerdaCluster _ _ => λ k, (k, Ok vcluster0)
  | GetVerdaMachineTemplate _ _ => λ k, (k, notfound)
  | GetCluster _ _ => λ k, (k, Ok cluster0)
  | GetSecret _ _ => λ k, (k, Ok secret0)
  | CreateSecret _ => λ k, (k, Ok tt)
  | ListVerdaMachines _ _ => λ k, (k, Ok (option_list (Kube_vm k)))
  | EnsureFinalizer m f => λ k, (k, Ok false)
  | GetOwnerMachine _ => λ k, (k, Ok (Some machine0))
  | GetOwnerCluster _ => λ k, (k, Ok (Some cluster0))
  | GetClusterFromMetadata _ => λ k, (k, Ok cluster0)
  | EnsurePausedCondition _ _ conds => λ k, (k, Ok (false, false, conds))
  | NewPatchHelper _ => λ k, (k, Ok tt)
  | PatchVerdaMachine vm => λ k, (mkKube (Some vm) (Kube_now k), Ok tt)
  | PatchVerdaCluster _ => λ k, (k, Ok tt)
  | PatchVerdaMachineTemplate _ => λ k, (k, Ok tt)
  | ClientFor _ => λ k, (k, Ok 0%nat)
  | Now => λ k, (mkKube (Kube_vm k) (Kube_now k + 30 * Second)%Z, Kube_now k)
  | GenerateKeys => λ k, (k, Ok (mkKeys "a" "b" "c" "d"))
  | UpdateBackends _ _ _ => λ k, (k, Ok tt)
  | KubeconfigFromSecret _ _ => λ k, (k, Ok "kubeconfig")
  | WorkloadClient _ => λ k, (k, Ok 0%nat)
  | WorkloadGetSecret _ _ _ => λ k, (k, notfound)
  | WorkloadCreateSecret _ _ | WorkloadUpdateSecret _ _ | WorkloadDeleteSecret _ _ _ => λ k, (k, Ok tt)
  | Verda _ e' => λ k, (k, (fake _ e' NewFake).2)
  end.

(** A pass with the account in state [f] and the machine in state [vm]. *)
Definition pass (f : Fake) (vm : VerdaMachine) :=
  trace (with_fake kube) (Reconcile "default" "node-0") (f, mkKube (Some vm) 1000000000) [].

Definition calls (f : Fake) (vm : VerdaMachine) : hist CtrlE := (pass f vm).1.2.

Lemma pass_runs f vm : runs (Reconcile "default" "node-0") (calls f vm) (pass f vm).2.
Proof. apply trace_exec. Defined.

(** What the pass left: the account and the stored object. *)
Definition account (f : Fake) (vm : VerdaMachine) : Fake := (pass f vm).1.1.1.
Definition stored (f : Fake) (vm : VerdaMachine) : VerdaMachine :=
  default vm (Kube_vm (pass f vm).1.1.2).

Definition vm_new := vm_of "" "" "" None.
Definition created_spec : InstanceSpec :=
  instanceSpec cluster0 vcluster0 machine0 vm_new "#!/bin/bash" "ubuntu-24.04".
Definition created : result Instance := (fake_CreateInstance created_spec NewFake).2.

Lemma machine_create_safe_witness :
  ∃ vm, Obs (GetVerdaMachine "default" "node-0") (Ok vm) ∈ drop 2 (calls NewFake vm_new) ∧
    create_allowed 0 vm (drop 2 (calls NewFake vm_new)) created_spec.
Proof.
  apply (machine_create_safe "default" "node-0" (calls NewFake vm_new) _ 0 created_spec created
    (take 1 (calls NewFake vm_new)) _ (pass_runs NewFake vm_new)).
  vm_compute. reflexivity.
Defined.

(** The machine again after its creation, now being deleted. *)
Definition account1 : Fake := account NewFake vm_new.
Definition vm_deleting : VerdaMachine := vm_set_meta (meta "node-0" (Some 1%Z)) (stored NewFake vm_new).

Lemma machine_delete_safe_witness :
  ∃ vm, Obs (GetVerdaMachine "default" "node-0") (Ok vm) ∈ drop 2 (calls account1 vm_deleting) ∧
    delete_allowed 0 vm (drop 2 (calls account1 vm_deleting)) "inst-1".
Proof.
  apply (machine_delete_safe "default" "node-0" (calls account1 vm_deleting) _ 0 "inst-1" (Ok tt)
    (take 1 (calls account1 vm_deleting)) _ (pass_runs account1 vm_deleting)).
  vm_compute. reflexivity.
Defined.

(** The next pass finds the instance gone and gives up the finalizer. *)
Definition account2 : Fake := account account1 vm_deleting.
Definition vm_gone : VerdaMachine := stored account1 vm_deleting.
Definition vm_final : VerdaMachine := stored account2 vm_gone.

Lemma machine_finalizer_safe_witness :
  (MachineFinalizer ∉ Meta_Finalizers (VM_Meta vm_final)) ∧
  (∃ vm, Obs (GetVerdaMachine "default" "node-0") (Ok vm) ∈ drop 1 (calls account2 vm_gone) ∧
    (MachineFinalizer ∈ Meta_Finalizers (VM_Meta vm) →
     MachineFinalizer ∉ Meta_Finalizers (VM_Meta vm_final) →
     deleting (VM_Meta vm) = true ∧ ∃ c, machine_cleaned c vm (drop 1 (calls account2 vm_gone)))).
Proof.
  split; [vm_compute; by inversion 1|].
  apply (machine_finalizer_safe "default" "node-0" (calls account2 vm_gone) _ vm_final (Ok tt)
    [] _ (pass_runs account2 vm_gone)).
  vm_compute. reflexivity.
Defined.

(** A machine that boots from a clone of the volume [base]. *)
Definition account_base : Fake :=
  with_Volumes {["v-base" := mkVolume "v-base" "base" VolumeStatusDetached "FIN-01" true "" false]} NewFake.
Definition vm_clone : VerdaMachine := vm_of "base" "" "" None.

Lemma machine_clone_safe_witness :
  ∃ vm, Obs (GetVerdaMachine "default" "node-0") (Ok vm) ∈ drop 3 (calls account_base vm_clone) ∧
    clone_allowed 0 vm (drop 3 (calls account_base vm_clone)) "default-node-0-os".
Proof.
  apply (machine_clone_safe "default" "node-0" (calls account_base vm_clone) _ 0 "v-base"
    "default-node-0-os" "FIN-01" (Ok "vol-1")
    (take 2 (calls account_base vm_clone)) _ (pass_runs account_base vm_clone)).
  vm_compute. reflexivity.
Defined.

(** The same machine being deleted before its instance was created. *)
Definition account_cloned : Fake := account account_base vm_clone.
Definition vm_clone_deleting : VerdaMachine :=
  vm_set_meta (meta "node-0" (Some 1%Z)) (stored account_base vm_clone).

Lemma machine_volume_safe_witness :
  ∃ vm, Obs (GetVerdaMachine "default" "node-0") (Ok vm) ∈ drop 2 (calls account_cloned vm_clone_deleting) ∧
    volume_delete_allowed 0 vm (drop 2 (calls account_cloned vm_clone_deleting)) "vol-1".
Proof.
  apply (machine_volume_safe "default" "node-0" (calls account_cloned vm_clone_deleting) _ 0 "vol-1"
    (Ok tt) (take 1 (calls account_cloned vm_clone_deleting)) _
    (pass_runs account_cloned vm_clone_deleting)).
  vm_compute. reflexivity.
Defined.

(** Two passes whose status updates are both lost: one instance. *)
Definition lossy (X : Type) (e : CtrlE X) : Kube → Kube * X :=
  match e in CtrlE X return Kube → Kube * X with
  | PatchVerdaMachine vm => λ k, (k, Err (KubeError ReasonOther "conflict"))
  | e' => kube _ e'
  end.
Definition lossy_pass (f : Fake) : Fake :=
  (run (with_fake lossy) (Reconcile "default" "node-0") (f, mkKube (Some vm_new) 0)).1.1.

Lemma machine_instance_unique_witness :
  size (Fake_Instances (lossy_pass (lossy_pass NewFake))) = 1 ∧
  unique_live (lossy_pass (lossy_pass NewFake)).
Proof.
  split; [vm_compute; reflexivity|]. apply machine_instance_unique.
  eapply rtc_r; [apply rtc_once|]; apply step_pass.
Defined.

(** The machine again after Verda started its instance. *)
Definition account_running : Fake := fake_SetStatus "inst-1" StatusRunning "203.0.113.7" account1.
Definition vm_created : VerdaMachine := stored NewFake vm_new.
Definition vm_running : VerdaMachine := stored account_running vm_created.

Lemma machine_provisioned_truthful_witness :
  provisioned vm_running = true ∧
  (∃ vm, Obs (GetVerdaMachine "default" "node-0") (Ok vm) ∈ drop 1 (calls account_running vm_created) ∧
    provision_ok vm (drop 1 (calls account_running vm_created)) vm_running).
Proof.
  split; [vm_compute; reflexivity|].
  apply (machine_provisioned_truthful "default" "node-0" (calls account_running vm_created) _ vm_running
    (Ok tt) [] _ (pass_runs account_running vm_created)).
  vm_compute. reflexivity.
Defined.

Lemma machine_ready_summary_witness :
  conditions_IsTrue (GetConditions
    (trace (with_fake kube) (patchVerdaMachine vm_created) (account1, mkKube None 0) []).2.1)
    ReadyCondition = false.
Proof.
  destruct (machine_ready_summary vm_created _ _ _
    (trace_exec (with_fake kube) (patchVerdaMachine vm_created) (account1, mkKube None 0) []))
    as (-> & _).
  vm_compute. reflexivity.
Defined.

(** A second delete request five seconds after the first one. *)
Definition clock (t : Z) (X : Type) (e : CtrlE X) (s : Kube) : Kube * X :=
  match e in CtrlE X return Kube * X with
  | Now => (s, t)
  | e' => kube _ e' s
  end.
Definition second_request :=
  trace (clock (1005 * Second)) (deleteRequestDue "" StatusRunning
    (delete_marked "" StatusRunning (1000 * Second) vm_new)) (mkKube None 0) [].

Lemma deleteRequestDue_throttle_witness :
  second_request.2.2 = Ok false ∧
  (∃ now, Obs Now now ∈ second_request.1.2 ∧
    if decide (now - 1000 * Second / Second * Second < deleteRetryInterval)%Z
    then second_request.2.2 = Ok false ∧
      second_request.2.1 = delete_marked "" StatusRunning (1000 * Second) vm_new
    else second_request.2.2 = Ok true ∧
      ∃ t', Obs Now t' ∈ second_request.1.2 ∧
        second_request.2.1 = delete_marked "" StatusRunning t'
          (delete_marked "" StatusRunning (1000 * Second) vm_new)).
Proof.
  split; [vm_compute; reflexivity|].
  apply (deleteRequestDue_throttle vm_new second_request.2.1 "" StatusRunning StatusRunning
    (1000 * Second) second_request.1.2 second_request.2.2).
  - unfold time_in_range, Second. lia.
  - vm_compute. set_solver.
  - apply (trace_exec (clock (1005 * Second))).
Defined.
End WorldExamples.
