(* ===== verification/Deletion.v ===== *)
(** * Deletion of a machine comes to an end

    The safety theorems of the machine controller say what a pass must not do.
    Here the controller runs against [Fake] and a management cluster that
    answers ([obliging]): the deletion of a machine is complete after at most
    two passes. *)

From S2P Require Import Prelude GoStd GoTime Effects Api Cloud Fake Ctrl Machine Pass World.
From stdpp Require Import options.

Section deletion.
Context {range : MapRange} `{!CapiUtil, !Bootstrapper}.
Context {K : Type} (kube : ∀ X, CtrlE X → K → K * X) (c : ClientRef).

Abbreviation world := (with_fake kube).

(** Instance [i], stored under [id], is the machine's: it is the recorded one, or
    has the machine's tag. *)
Definition belongs (vm : VerdaMachine) (id : string) (i : Instance) : Prop :=
  (id = MStatus_InstanceID (VM_Status vm) ∧ id ≠ "") ∨
  map_get (Instance_Tags i) TagMachine = machineTagValue vm.

(** No instance of the machine is left. *)
Definition nothing_left (vm : VerdaMachine) (f : Fake) : Prop :=
  ∀ id i, Fake_Instances f !! id = Some i → belongs vm id i → instanceGone i = true.

(** The volume with the clone's name carries the tag of the provider. *)
Definition volume_deletable (vm : VerdaMachine) (f : Fake) : Prop :=
  ∀ v, Fake_Volumes f !! MStatus_OSVolumeID (VM_Status vm) = Some v → Volume_Name v = osVolumeName vm →
    Volume_Managed v = true.

(** The account as the passes keep it (first three), and what the deletion needs:
    the instances and the volume of the machine carry the tag of the provider,
    none is in the transient state that [Fake] never leaves, and an instance
    under the tag is the recorded one, if one is. *)
Record account_ok (vm : VerdaMachine) (f : Fake) : Prop := {
  acc_wf : fake_wf f;
  acc_gone : gone_discontinued f;
  acc_unique : unique_live f;
  acc_managed id i : Fake_Instances f !! id = Some i → belongs vm id i → instanceGone i = false →
    managed (Instance_Tags i) = true ∧ Instance_Status i ≠ StatusDeleting;
  acc_recorded id i : Fake_Instances f !! id = Some i → MStatus_InstanceID (VM_Status vm) ≠ "" →
    live_owned (machineTagValue vm) i → id = MStatus_InstanceID (VM_Status vm);
  acc_volume : volume_deletable vm f
}.

Lemma deleteOSVolume_wr vm f k :
  volume_deletable vm f →
  wr world (deleteOSVolume c) vm (f, k) (λ s' vm' r,
    r = Ok tt ∧ s'.2 = k ∧ Fake_Instances s'.1 = Fake_Instances f ∧ VM_Meta vm' = VM_Meta vm).
Proof.
  intros Hvol. unfold deleteOSVolume. do 2 wr_step. case_bool_decide; [by wr_step|].
  do 2 wr_step. cbn. destruct (Fake_Volumes f !! _) as [v|] eqn:Hv; cbn;
    [|rewrite bool_decide_eq_true_2 by done; cbn; by wr_step].
  case_bool_decide as Hn; [by wr_step|].
  wr_step. case_match; [|by do 2 wr_step]. wr_step. cbn. unfold fake_DeleteVolume.
  rewrite Hv, (Hvol v Hv Hn). cbn. by wr_step.
Qed.

Lemma finishDelete_wr `{!CapiUtilLaws} vm f k :
  volume_deletable vm f →
  wr world (finishDelete c) vm (f, k) (λ s' vm' r,
    r = Ok emptyResult ∧ s'.2 = k ∧ Fake_Instances s'.1 = Fake_Instances f ∧
    MachineFinalizer ∉ Meta_Finalizers (VM_Meta vm')).
Proof.
  intros Hvol. unfold finishDelete. do 3 wr_step.
  assert (∀ vm1 f1, volume_deletable vm1 f1 → Fake_Instances f1 = Fake_Instances f →
    wr world (bindM (deleteOSVolume c) (λ _, bindM (modify (λ vm, vm_set_meta
        (set_Finalizers (RemoveFinalizer MachineFinalizer (Meta_Finalizers (VM_Meta vm))) (VM_Meta vm)) vm))
        (λ _, retM emptyResult))) vm1 (f1, k)
      (λ s' vm' r, r = Ok emptyResult ∧ s'.2 = k ∧ Fake_Instances s'.1 = Fake_Instances f ∧
         MachineFinalizer ∉ Meta_Finalizers (VM_Meta vm'))) as Hend.
  { intros vm1 f1 Hv1 Hf1. wr_step. eapply wr_mono; [by apply deleteOSVolume_wr|].
    intros [f2 k2] vm2 r (-> & Hk & Hi & _). cbn in Hk, Hi. subst k2. wr_steps. split_and!; try done.
    - cbn. congruence.
    - cbn. rewrite elem_of_RemoveFinalizer. naive_solver. }
  case_bool_decide; wr_steps; cbn; apply Hend; done.
Qed.

(** No delete request was made yet. *)
Definition not_requested (vm : VerdaMachine) : Prop :=
  Meta_Annotations (VM_Meta vm) !! delete_key "" = None.

(** The fields the next pass looks at. *)
Definition same_identity (vm vm' : VerdaMachine) : Prop :=
  machineTagValue vm' = machineTagValue vm ∧ osVolumeName vm' = osVolumeName vm ∧
  MStatus_InstanceID (VM_Status vm') = MStatus_InstanceID (VM_Status vm) ∧
  MStatus_OSVolumeID (VM_Status vm') = MStatus_OSVolumeID (VM_Status vm) ∧
  Meta_DeletionTimestamp (VM_Meta vm') = Meta_DeletionTimestamp (VM_Meta vm).

Lemma requestDelete_wr vm f k inst :
  fake_wf f → not_requested vm → Fake_Instances f !! Instance_ID inst = Some inst →
  managed (Instance_Tags inst) = true → Instance_Status inst ≠ StatusDeleting →
  wr world (requestDelete c inst) vm (f, k) (λ s' vm' r,
    r = Ok (mkResult deletePollInterval) ∧ s' = ((fake_DeleteInstance (Instance_ID inst) f).1, s'.2) ∧
    (kube _ Now k).1 = s'.2 ∧ same_identity vm vm').
Proof.
  intros Hwf Hreq Hi Hm Hd. unfold requestDelete, deleteRequestDue. wr_step.
  rewrite bool_decide_eq_true_2 by done. do 2 wr_step.
  unfold Annotations at 1, map_get at 1. cbn [obj_meta VerdaMachine_Object].
  unfold not_requested in Hreq. rewrite Hreq. cbn [default Cut String.prefix].
  do 2 wr_step. cbn. destruct (kube Z Now k) as [k' now]. cbn. wr_steps. cbn.
  unfold fake_DeleteInstance. rewrite Hi, Hm. cbn. unfold setInstanceReadyFalse, setCondition.
  wr_steps. by split_and!.
Qed.

(** What [findInstance] finds in the account. *)
Definition found (vm : VerdaMachine) (f : Fake) : option Instance :=
  let id := MStatus_InstanceID (VM_Status vm) in
  if bool_decide (id ≠ "") then Some (default (missingInstance id) (Fake_Instances f !! id))
  else match (fake_FindInstanceByTag TagMachine (machineTagValue vm) f).2 with
       | Ok i => if instanceGone i then None else Some i
       | Err _ => None
       end.

Lemma findInstance_wr vm f k Q :
  Q (f, k) vm (Ok (found vm f)) → wr world (findInstance c) vm (f, k) Q.
Proof.
  unfold findInstance, found. intros HQ. do 2 wr_step. case_bool_decide; do 2 wr_step; cbn.
  - destruct (Fake_Instances f !! _); cbn in *; [by wr_step|].
    rewrite bool_decide_eq_true_2 by done. cbn. by wr_step.
  - unfold fake_FindInstanceByTag, fake_find, of_option in *. cbn in *.
    destruct (find_live _ _ _) as [i|]; cbn in *.
    + destruct (instanceGone i); by wr_step.
    + rewrite bool_decide_eq_true_2 by done. cbn. by wr_step.
Qed.

(** An instance that was found and exists is the machine's and in the account. *)
Lemma found_live vm f i :
  fake_wf f → found vm f = Some i → instanceGone i = false →
  Fake_Instances f !! Instance_ID i = Some i ∧ belongs vm (Instance_ID i) i.
Proof.
  intros Hwf. unfold found, belongs. case_bool_decide as Hid.
  - destruct (Fake_Instances f !! _) as [j|] eqn:Hj; cbn; intros [= <-] Hg; [|by vm_compute in Hg].
    rewrite (wf_instance_id _ Hwf _ _ Hj). eauto.
  - destruct (fake_FindInstanceByTag _ _ f).2 as [j|] eqn:Hj; [|done].
    case_match; [done|]. intros [= <-] _. unfold fake_FindInstanceByTag in Hj.
    destruct (fake_find_sound _ _ _ Hj) as (Ht & id & Hi).
    rewrite (wf_instance_id _ Hwf _ _ Hi). split; [done|]. right. by bool_to_prop.
Qed.

(** With nothing left, the machine's instance is not found or gone. *)
Lemma found_gone vm f :
  fake_wf f → nothing_left vm f → ∀ i, found vm f = Some i → instanceGone i = true.
Proof.
  intros Hwf Hno i Hi. destruct (instanceGone i) eqn:Hg; [done|].
  destruct (found_live vm f i Hwf Hi Hg) as [Hin Hb]. by rewrite (Hno _ _ Hin Hb) in Hg.
Qed.

(** When nothing or a gone instance is found, nothing is left. *)
Lemma found_nothing vm f :
  account_ok vm f → (∀ i, found vm f = Some i → instanceGone i = true) → nothing_left vm f.
Proof.
  intros Hok Hf id i Hi Hb. destruct (instanceGone i) eqn:Hg; [done|exfalso]. unfold found in Hf.
  case_bool_decide as Hid.
  - assert (id = MStatus_InstanceID (VM_Status vm)) as ->.
    { destruct Hb as [[-> _]|Ht]; [done|]. by apply (acc_recorded _ _ Hok _ i). }
    rewrite Hi in Hf. cbn in Hf. by rewrite (Hf i eq_refl) in Hg.
  - destruct Hb as [[-> ?]|Ht]; [done|].
    refine (fake_FindInstanceByTag_none TagMachine (machineTagValue vm) f (acc_gone _ _ Hok) _ id i Hi (conj Ht Hg)).
    unfold fake_FindInstanceByTag, fake_find in *. cbn in *. destruct (find_live _ _ _) as [j|]; cbn in *.
    + destruct (instanceGone j) eqn:Hj; [done|]. by rewrite (Hf j eq_refl) in Hj.
    + by rewrite bool_decide_eq_true_2.
Qed.

(** Deleting the machine's instance leaves nothing, and the account in order. *)
Lemma delete_instance_ok vm f i :
  account_ok vm f → Fake_Instances f !! Instance_ID i = Some i → belongs vm (Instance_ID i) i →
  instanceGone i = false →
  let f' := (fake_DeleteInstance (Instance_ID i) f).1 in account_ok vm f' ∧ nothing_left vm f'.
Proof using range.
  intros Hok Hi Hb Hg f'. destruct (acc_managed _ _ Hok _ _ Hi Hb Hg) as [Hm _].
  assert (∀ id j, Fake_Instances f' !! id = Some j →
    (id = Instance_ID i ∧ instanceGone j = true) ∨ (id ≠ Instance_ID i ∧ Fake_Instances f !! id = Some j)) as Hback.
  { intros id j. unfold f', fake_DeleteInstance. rewrite Hi, Hm. cbn. rewrite lookup_alter.
    case_decide as Heq; subst; [|by right]. rewrite Hi. cbn. intros [= <-]. by left. }
  assert (∀ v w, Fake_Volumes f' !! v = Some w → Fake_Volumes f !! v = Some w) as Hvol.
  { intros v w. unfold f', fake_DeleteInstance. rewrite Hi, Hm. cbn. by intros [_ ?]%lookup_delete_Some. }
  split; [split|].
  - apply (fake_wf_step _ (DeleteInstance (Instance_ID i))), Hok.
  - apply (fake_gone_discontinued _ (DeleteInstance (Instance_ID i))); apply Hok.
  - intros tag id1 id2 i1 i2 [[_ ?]|[_ Hi1]]%Hback [Ht1 Hg1] [[_ ?]|[_ Hi2]]%Hback [Ht2 Hg2]; try congruence.
    by eapply (acc_unique _ _ Hok tag).
  - intros id j [[_ ?]|[_ Hj]]%Hback Hbj Hgj; [congruence|]. by eapply (acc_managed _ _ Hok).
  - intros id j [[_ ?]|[_ Hj]]%Hback Hn [Ht Hgj]; [congruence|]. by eapply (acc_recorded _ _ Hok).
  - intros v Hv. by apply (acc_volume _ _ Hok), Hvol.
  - intros id j [[_ ?]|[Hne Hj]]%Hback Hbj; [done|]. destruct (instanceGone j) eqn:Hgj; [done|exfalso]. apply Hne.
    destruct (decide (MStatus_InstanceID (VM_Status vm) = "")) as [He|He].
    + assert (∀ k l, belongs vm k l → map_get (Instance_Tags l) TagMachine = machineTagValue vm) as Ht
        by (intros k l [[-> ?]|?]; done).
      eapply (acc_unique _ _ Hok (machineTagValue vm)); [exact Hj|split; [by eapply Ht|done]|exact Hi|
        split; [by eapply Ht|done]].
    + assert (∀ k l, Fake_Instances f !! k = Some l → belongs vm k l → instanceGone l = false →
        k = MStatus_InstanceID (VM_Status vm)) as Hrec
        by (intros k l Hk [[-> ?]|?] Hl; [done|by eapply (acc_recorded _ _ Hok)]).
      by rewrite (Hrec _ _ Hj Hbj Hgj), (Hrec _ _ Hi Hb Hg).
Qed.

(** One pass: it completes the deletion, or requests it and leaves nothing. *)
Lemma reconcileDelete_wr `{!CapiUtilLaws} vm f k :
  account_ok vm f → not_requested vm ∨ nothing_left vm f →
  wr world (reconcileDelete c) vm (f, k) (λ s' vm' r,
    nothing_left vm s'.1 ∧
    (r = Ok emptyResult ∧ s'.2 = k ∧ MachineFinalizer ∉ Meta_Finalizers (VM_Meta vm') ∨
     ¬ nothing_left vm f ∧ r = Ok (mkResult deletePollInterval) ∧ s'.2 = (kube _ Now k).1 ∧
     same_identity vm vm' ∧ account_ok vm s'.1)).
Proof.
  intros Hok Hdue. unfold reconcileDelete, setInstanceReadyFalse, setCondition. do 3 wr_step. apply findInstance_wr.
  cbn beta iota. set (vm1 := SetConditions _ vm).
  change (found vm1 f) with (found vm f).
  assert ((∀ i, found vm f = Some i → instanceGone i = true) → ∀ f1, Fake_Instances f1 = Fake_Instances f →
    (∀ v w, Fake_Volumes f1 !! v = Some w → Fake_Volumes f !! v = Some w) →
    wr world (finishDelete c) vm1 (f1, k) (λ s' vm' r, nothing_left vm s'.1 ∧
      (r = Ok emptyResult ∧ s'.2 = k ∧ MachineFinalizer ∉ Meta_Finalizers (VM_Meta vm') ∨
       ¬ nothing_left vm f ∧ r = Ok (mkResult deletePollInterval) ∧ s'.2 = (kube _ Now k).1 ∧
       same_identity vm vm' ∧ account_ok vm s'.1))) as Hfin.
  { intros Hg f1 Hins Hvol. eapply wr_mono; [apply finishDelete_wr|].
    - intros v Hv. by apply (acc_volume _ _ Hok), Hvol.
    - intros [f2 k2] vm2 r (-> & Hk & Hi & Hn). cbn in *. split; [|by left].
      intros id i. rewrite Hi, Hins. by apply found_nothing. }
  destruct (found vm f) as [i|] eqn:Hf; [|by apply Hfin].
  destruct (instanceGone i) eqn:Hg; cbn [negb].
  - assert (∀ i0, Some i = Some i0 → instanceGone i0 = true) as Hg' by (by intros ? [= <-]).
    case_bool_decide; [|by apply Hfin]. do 2 wr_step. cbn. unfold fake_PurgeInstanceVolumes.
    destruct (Fake_Instances f !! Instance_ID i) eqn:Hi; cbn; apply Hfin; try done.
    intros v w. cbn. by intros [_ ?]%lookup_delete_Some.
  - destruct (found_live vm f i (acc_wf _ _ Hok) Hf Hg) as [Hi Hb].
    destruct (acc_managed _ _ Hok _ _ Hi Hb Hg) as [Hm Hd].
    assert (¬ nothing_left vm f) as Hnl by (intros Hn; rewrite (Hn _ _ Hi Hb) in Hg; done).
    destruct Hdue as [Hreq|?]; [|done].
    eapply wr_mono; [apply requestDelete_wr; [apply Hok|exact Hreq|done..]|].
    intros [f2 k2] vm2 r (-> & [= ->] & Hk & Hsame). cbn in *.
    destruct (delete_instance_ok vm f i Hok Hi Hb Hg) as [Hok' Hno]. split; [done|]. right. by split_and!.
Qed.

(** ** Whole passes *)

(** What a pass over a deleted machine leaves. *)
Definition pass_done (stored : K → VerdaMachine) (f : Fake) (vm : VerdaMachine) (s' : Fake * K) : Prop :=
  nothing_left vm s'.1 ∧
  (MachineFinalizer ∉ Meta_Finalizers (VM_Meta (stored s'.2)) ∨
   ¬ nothing_left vm f ∧ same_identity vm (stored s'.2) ∧ account_ok vm s'.1).

Lemma delete_pass_wr `{!CapiUtilLaws} ns name stored machine cluster vc f k :
  obliging kube c ns name stored machine cluster vc →
  deleting (VM_Meta (stored k)) = true → account_ok (stored k) f →
  not_requested (stored k) ∨ nothing_left (stored k) f →
  pass_done stored f (stored k) (reconcile fake kube ns name (f, k)).1.
Proof.
  intros Hob Hdel Hok Hdue.
  apply (reconcile_wr fake kube c ns name stored machine cluster vc f k (λ s _, pass_done stored f (stored k) s) Hob).
  rewrite Hdel. eapply wr_mono; [by apply reconcileDelete_wr|].
  intros [f1 k1] vm1 r [Hno Hr] k' Hs. split; [done|]. cbn [fst snd] in *. rewrite Hs.
  destruct Hr as [(_ & _ & Hfin)|(Hnl & _ & _ & Hsame & Hok')]; [left; done|right; by split_and!].
Qed.

Lemma belongs_same vm vm' id i : same_identity vm vm' → belongs vm' id i ↔ belongs vm id i.
Proof. intros (Ht & _ & Hid & _). unfold belongs. by rewrite Ht, Hid. Qed.

Lemma nothing_left_same vm vm' f : same_identity vm vm' → nothing_left vm' f ↔ nothing_left vm f.
Proof.
  intros Hs. unfold nothing_left.
  split; intros Hn id i Hi Hb; apply (Hn id i Hi); by apply (belongs_same vm vm' id i Hs).
Qed.

Lemma account_ok_same vm vm' f : same_identity vm vm' → account_ok vm f → account_ok vm' f.
Proof.
  intros Hs [H1 H2 H3 H4 H5 H6]. pose proof Hs as (Ht & Hv & Hid & Ho & _). split; try done.
  - intros id i Hi Hb%(belongs_same vm vm' id i Hs). by apply (H4 id i).
  - intros id i. rewrite Hid, Ht. apply H5.
  - unfold volume_deletable. rewrite Hv, Ho. exact H6.
Qed.

(** The deletion of a machine comes to an end: from the first pass after the
    deletion was requested, in any state of the account in which what belongs to
    the machine carries the tag of the provider, at most two passes of
    [Reconcile] (against a management cluster that answers) remove the
    finalizer, and then no instance of the machine, recorded or tagged, exists. *)
Theorem machine_deletion_terminates `{!CapiUtilLaws} ns name stored machine cluster vc f k :
  obliging kube c ns name stored machine cluster vc →
  deleting (VM_Meta (stored k)) = true → not_requested (stored k) → account_ok (stored k) f →
  ∃ n, (n ≤ 2)%nat ∧
    (let s' := Nat.iter n (λ s, (reconcile fake kube ns name s).1) (f, k) in
     (MachineFinalizer ∉ Meta_Finalizers (VM_Meta (stored s'.2))) ∧ nothing_left (stored k) s'.1).
Proof.
  intros Hob Hdel Hreq Hok.
  destruct (delete_pass_wr ns name stored machine cluster vc f k Hob Hdel Hok (or_introl Hreq)) as [Hno Hr].
  destruct Hr as [Hfin|(_ & Hsame & Hok1)]; [exists 1; split; [lia|done]|]. exists 2. split; [lia|].
  cbn [Nat.iter nat_rect]. destruct (reconcile fake kube ns name (f, k)).1 as [f1 k1]. cbn [fst snd] in *.
  destruct (delete_pass_wr ns name stored machine cluster vc f1 k1) as [Hno2 Hr2]; [done|..].
  - pose proof Hsame as (_ & _ & _ & _ & Hd). unfold deleting in *. by rewrite Hd.
  - by eapply account_ok_same.
  - right. by apply (nothing_left_same _ _ _ Hsame).
  - apply (nothing_left_same _ _ _ Hsame) in Hno2.
    destruct Hr2 as [Hfin|(Hnl & _)]; [done|]. destruct Hnl. by apply (nothing_left_same _ _ _ Hsame).
Qed.
End deletion.

(** ** Example *)

Module DeletionExamples.
Import World.WorldExamples.

#[local] Existing Instance CapiExamples.capi.
#[local] Existing Instance CapiExamples.capi_laws.
#[local] Existing Instance FakeExamples.range_in_key_order.
#[local] Existing Instance script_as_is.

(** The instance of [node-0] runs and its deletion begins. *)
Definition vm_marked : VerdaMachine := vm_set_meta (meta "node-0" (Some 1%Z)) vm_running.
Definition kube1 : Kube := mkKube (Some vm_marked) 1000000000.
Definition stored_vm (k : Kube) : VerdaMachine := default vm_new (Kube_vm k).

Definition steady (X : Type) (e : CtrlE X) : Kube → Kube * X :=
  match e in CtrlE X return Kube → Kube * X with
  | GetVerdaMachine _ _ => λ k, (k, Ok (stored_vm k))
  | e' => kube _ e'
  end.

Lemma steady_obliging : obliging steady 0 "default" "node-0" stored_vm machine0 cluster0 vcluster0.
Proof. by split. Qed.

Lemma account_running_inv : account_inv account_running.
Proof.
  apply account_inv_reachable. eapply rtc_r; [eapply rtc_once, (step_pass _ _ kube (mkKube (Some vm_new) 1000000000) "default" "node-0")|].
  refine (step_instance _ "inst-1" StatusRunning "203.0.113.7" (default (missingInstance "") (Fake_Instances account1 !! "inst-1")) _ _ _ _);
    try done; vm_compute; reflexivity.
Qed.

Lemma account_running_ok : account_ok vm_marked account_running.
Proof.
  destruct account_running_inv as (Hwf & Hg & Hu).
  assert (∀ id i, Fake_Instances account_running !! id = Some i →
    id = "inst-1" ∧ managed (Instance_Tags i) = true ∧ Instance_Status i = StatusRunning) as Hone.
  { apply map_Forall_lookup. apply (bool_decide_unpack _). vm_compute. exact I. }
  split; try done.
  - intros id i (-> & Hm & Hs)%Hone _ _. rewrite Hs. done.
  - intros id i (-> & _)%Hone _ _. vm_compute. reflexivity.
Qed.

Lemma machine_deletion_terminates_witness :
  ∃ n, (n ≤ 2)%nat ∧
    (let s' := Nat.iter n (λ s, (reconcile fake steady "default" "node-0" s).1) (account_running, kube1) in
     (MachineFinalizer ∉ Meta_Finalizers (VM_Meta (stored_vm s'.2))) ∧ nothing_left vm_marked s'.1).
Proof.
  apply (machine_deletion_terminates steady 0 "default" "node-0" stored_vm machine0 cluster0 vcluster0
    account_running kube1 steady_obliging).
  - reflexivity.
  - reflexivity.
  - exact account_running_ok.
Defined.

End DeletionExamples.
