(* ===== verification/TwoPhase.v ===== *)
(** * Deletion over the real client comes to an end

    Verda deletes in two phases: [DeleteInstance] shuts a running instance down
    and deletes it only once it is offline, and its volumes go to a trash that
    is emptied at the end.  [Deletion.v] runs the machine controller against
    [Fake], which deletes at once; here it runs against [sdkClient] over a Verda
    API that does what its documentation says ([platform]), so the phases, the
    throttling of repeated requests and the purge of the volumes all take part. *)

From S2P Require Import Prelude GoStd GoTime Effects Api Cloud SdkClient Fake Ctrl Machine Pass World Deletion.
From stdpp Require Import options.

Local Open Scope go_scope.

(** ** The phases of an instance *)

Inductive phase := Up | Off | BeingDeleted | Gone.

#[global] Instance phase_eq_dec : EqDecision phase.
Proof. solve_decision. Defined.

Definition phase_of (status : string) : phase :=
  if bool_decide (status = StatusDiscontinued) || bool_decide (status = StatusDeleted) then Gone
  else if bool_decide (status = StatusDeleting) then BeingDeleted
  else if bool_decide (status = StatusOffline) then Off
  else Up.

Lemma phase_of_spec status :
  match phase_of status with
  | Up => status ≠ StatusDiscontinued ∧ status ≠ StatusDeleted ∧ status ≠ StatusDeleting ∧ status ≠ StatusOffline
  | Off => status = StatusOffline
  | BeingDeleted => status = StatusDeleting
  | Gone => status = StatusDiscontinued ∨ status = StatusDeleted
  end.
Proof.
  unfold phase_of. repeat (case_bool_decide as H; [subst; cbn; tauto|revert H]). cbn. intros. tauto.
Qed.

Section two_phase.
Context `{!VerdaSDK, !MapRange, !CapiUtil, !Bootstrapper}.
Context {S K : Type} (api : ∀ X, ApiE X → S → S * X) (settle : S → S).
Context (kube : ∀ X, CtrlE X → K → K * X) (c : ClientRef).
Context (id os osname script vmname : string).

Definition cloud (X : Type) (e : ClientE X) : S → S * X := run api (sdkClient X e).

(** What the API says of the instance. *)
Definition told (s : S) : result ApiInstance := (api _ (Instances_GetByID id) s).2.

(** The instance is the provider's and in the phase [ph]; one that is gone may
    be unknown. *)
Definition shows (ph : phase) (s : S) : Prop :=
  match told s with
  | Ok inst =>
      ApiInstance_ID inst = id ∧ managed (Instance_Tags (toInstance inst)) = true ∧
      ApiInstance_Status inst ≠ StatusNotFound ∧ ("@"%char ∉ chars (ApiInstance_Status inst)) ∧
      phase_of (ApiInstance_Status inst) = ph
  | Err err => isNotFound err = true ∧ ph = Gone
  end.

(** Nothing of the volume is left to purge. *)
Definition absent (v : string) (s : S) : Prop :=
  match (api _ (Volumes_Get v) s).2 with
  | Ok vol => ApiVolume_Status vol = VolumeStatusDeleted
  | Err err => isNotFound err = true
  end.

Definition is_query {X} (a : ApiE X) : bool :=
  match a with
  | InstanceTypes_Get | Instances_Get | Instances_GetByID _ | StartupScripts_GetAll | Volumes_Get _ |
    Volumes_List | Volumes_GetInTrash => true
  | _ => false
  end.

(** A volume [v] of the given name is tagged as the provider's. *)
Definition tagged (name v : string) (s : S) : Prop :=
  match (api _ (Volumes_Get v) s).2 with
  | Ok vol => ApiVolume_Name vol = name → hasTag (ApiVolume_Tags vol) TagManagedBy ManagedByValue = true
  | Err err => isNotFound err = true
  end.

(** A volume [v] of the given name is deleted or being deleted. *)
Definition going (name v : string) (s : S) : Prop :=
  match (api _ (Volumes_Get v) s).2 with
  | Ok vol => ApiVolume_Name vol = name →
      ApiVolume_Status vol = VolumeStatusDeleting ∨ ApiVolume_Status vol = VolumeStatusDeleted
  | Err err => isNotFound err = true
  end.

(** From [s] to [s'] volumes lost no tag of the provider, and the deletion of
    none was undone. *)
Definition volumes_kept (s s' : S) : Prop :=
  ∀ name v, (tagged name v s → tagged name v s') ∧ (going name v s → going name v s').

(** The API lists the startup script. *)
Definition listed (sc : ApiScript) (s : S) : Prop :=
  ∃ l, (api _ StartupScripts_GetAll s).2 = Ok l ∧ sc ∈ l.

(** From [s] to [s'] nothing that was deleted came back. *)
Definition keeps (s s' : S) : Prop :=
  told s' = told s ∧ (∀ w, absent w s → absent w s') ∧ volumes_kept s s' ∧ ∀ sc, listed sc s' → listed sc s.

(** No volume of the instance is left. *)
Definition purged (s : S) : Prop :=
  ∀ inst, told s = Ok inst → ∀ v, v ∈ instanceVolumeIDs inst → absent v s.

(** The documented behaviour: queries change nothing; an accepted shutdown takes
    the instance offline and an accepted delete of an offline instance makes it
    go, by the time of the next pass ([settle]); the volumes of an instance that
    is gone are in the trash or no more, and can be deleted from there; scripts
    can be listed and deleted, and are not listed after that; volumes lose
    neither tags nor the state of being deleted. *)
Record platform : Prop := {
  pl_query X (a : ApiE X) s : is_query a = true → (api X a s).1 = s;
  pl_shutdown s : shows Up s →
    (api _ (Instances_Shutdown id) s).2 = Ok tt ∧ shows Off (settle (api _ (Instances_Shutdown id) s).1);
  pl_delete s vols : shows Off s →
    (api _ (Instances_Delete [id] vols false) s).2 = Ok tt ∧
    (shows BeingDeleted (settle (api _ (Instances_Delete [id] vols false) s).1) ∨
     shows Gone (settle (api _ (Instances_Delete [id] vols false) s).1));
  pl_settle s : shows BeingDeleted s → shows Gone (settle s);
  pl_settled s : shows Gone s → shows Gone (settle s) ∧ (purged s → purged (settle s)) ∧
    ∀ sc, listed sc (settle s) → listed sc s;
  pl_trash s inst : told s = Ok inst → phase_of (ApiInstance_Status inst) = Gone →
    ∃ trash, (api _ Volumes_GetInTrash s).2 = Ok trash ∧
      ∀ v, v ∈ instanceVolumeIDs inst → v ∈ map ApiVolume_ID trash ∨ absent v s;
  pl_purge s v : (api _ (Volumes_Delete v true) s).2 = Ok tt ∧
    keeps s (api _ (Volumes_Delete v true) s).1 ∧ absent v (api _ (Volumes_Delete v true) s).1;
  pl_scripts s : ∃ l, (api _ StartupScripts_GetAll s).2 = Ok l;
  pl_script s sid : (api _ (StartupScripts_Delete sid) s).2 = Ok tt ∧
    keeps s (api _ (StartupScripts_Delete sid) s).1 ∧
    ∀ sc, listed sc (api _ (StartupScripts_Delete sid) s).1 → ApiScript_ID sc ≠ sid;
  pl_volumes s vols : volumes_kept s (api _ (Instances_Shutdown id) s).1 ∧
    volumes_kept s (api _ (Instances_Delete [id] vols false) s).1 ∧ volumes_kept s (settle s)
}.

#[local] Instance volumes_kept_preorder : PreOrder volumes_kept.
Proof. split; [by split|]. intros s1 s2 s3 H12 H23 name v. split; intros ?; by apply H23, H12. Qed.

Lemma absent_going name v s : absent v s → going name v s.
Proof. unfold absent, going. destruct (api _ (Volumes_Get v) s).2; auto. Qed.


#[local] Instance keeps_preorder : PreOrder keeps.
Proof.
  split; [by split|]. intros s1 s2 s3 (Ht1 & Ha1 & Hv1 & Hl1) (Ht2 & Ha2 & Hv2 & Hl2).
  split_and!; [congruence|by auto|by etrans|by auto].
Qed.

Lemma keeps_shows ph s s' : keeps s s' → shows ph s → shows ph s'.
Proof. intros [Ht _]. unfold shows. by rewrite Ht. Qed.

Lemma keeps_purged s s' : keeps s s' → purged s → purged s'.
Proof. intros (Ht & Ha & _) Hp inst. rewrite Ht. intros Hi v Hv. by eapply Ha, Hp. Qed.

(** ** The client on such an API *)

Section client.
Context (Hpl : platform).

(** A call of the client runs its implementation. *)
Lemma cloud_wr {A} (m : sdk A) s (Q : S → result A → Prop) :
  wr api m tt s (λ s' _ r, Q s' r) → Q (run api (run_sdk m) s).1 (run api (run_sdk m) s).2.
Proof. unfold wr, run_sdk. rewrite run_bind. by destruct (run api (m tt) s) as [s' [u r]]. Qed.

Lemma wr_query {A} (a : ApiE (result A)) (u : unit) s (Q : S → unit → result A → Prop) :
  is_query a = true → Q s u (api _ a s).2 → wr api (call a) u s Q.
Proof using Hpl. intros Hq HQ. apply wr_call. by rewrite (pl_query Hpl _ a s Hq). Qed.

Lemma cloud_GetInstance s :
  (cloud _ (GetInstance id) s).1 = s ∧
  (cloud _ (GetInstance id) s).2 =
    match told s with
    | Ok inst => Ok (toInstance inst)
    | Err err => if isNotFound err then Err ErrNotFound
                 else Err (errorf ("getting instance " +:+ id +:+ ": ") err)
    end.
Proof using Hpl.
  refine (cloud_wr (sdk_GetInstance id) s (λ s' r, s' = s ∧ r = _) _).
  unfold sdk_GetInstance, orNotFound. wr_step. apply wr_query; [done|]. fold (told s).
  destruct (told s) as [inst|err]; cbn; [done|by destruct (isNotFound err)].
Qed.

(** A delete request starts the next phase. *)
Lemma cloud_DeleteInstance_up s :
  shows Up s →
  (cloud _ (DeleteInstance id) s).2 = Ok tt ∧ shows Off (settle (cloud _ (DeleteInstance id) s).1) ∧
  volumes_kept s (cloud _ (DeleteInstance id) s).1.
Proof using Hpl.
  intros Hs. destruct (pl_volumes Hpl s []) as [Hvk _]. pose proof (pl_shutdown Hpl s Hs) as [Hok Hoff]. unfold shows in Hs.
  refine (cloud_wr (sdk_DeleteInstance id) s (λ s' r, r = Ok tt ∧ shows Off (settle s') ∧ volumes_kept s s') _).
  unfold sdk_DeleteInstance. wr_step. apply wr_query; [done|]. fold (told s).
  destruct (told s) as [inst|err]; [|by destruct Hs]. destruct Hs as (_ & Hm & _ & _ & Hp). rewrite Hm. cbn [negb].
  pose proof (phase_of_spec (ApiInstance_Status inst)) as Hst. rewrite Hp in Hst.
  rewrite !bool_decide_eq_false_2 by tauto. do 2 wr_step. rewrite Hok. by wr_step.
Qed.

Lemma cloud_DeleteInstance_off s :
  shows Off s →
  (cloud _ (DeleteInstance id) s).2 = Ok tt ∧
  (shows BeingDeleted (settle (cloud _ (DeleteInstance id) s).1) ∨
   shows Gone (settle (cloud _ (DeleteInstance id) s).1)) ∧
  volumes_kept s (cloud _ (DeleteInstance id) s).1.
Proof using Hpl.
  intros Hs. pose proof (λ vols, pl_delete Hpl s vols Hs) as Hdel. unfold shows in Hs.
  refine (cloud_wr (sdk_DeleteInstance id) s
    (λ s' r, r = Ok tt ∧ (shows BeingDeleted (settle s') ∨ shows Gone (settle s')) ∧ volumes_kept s s') _).
  unfold sdk_DeleteInstance. wr_step. apply wr_query; [done|]. fold (told s).
  destruct (told s) as [inst|err]; [|by destruct Hs]. destruct Hs as (_ & Hm & _ & _ & Hp). rewrite Hm. cbn [negb].
  pose proof (phase_of_spec (ApiInstance_Status inst)) as Hst. rewrite Hp in Hst. rewrite Hst.
  destruct (Hdel (instanceVolumeIDs inst)) as [Hok Hnext].
  destruct (pl_volumes Hpl s (instanceVolumeIDs inst)) as (_ & Hvk & _).
  rewrite (bool_decide_eq_false_2 (_ ∨ _)), (bool_decide_eq_false_2 (_ = StatusDeleting)),
    bool_decide_eq_true_2 by (by intuition discriminate).
  do 2 wr_step. rewrite Hok. by wr_step.
Qed.

(** The purge of the volumes of a gone instance leaves none. *)
Lemma purge_loop_wr inTrash ids s :
  (∀ v, v ∈ ids → v ∈ inTrash ∨ absent v s) →
  wr api (purge_loop ids inTrash 0) tt s (λ s' _ r,
    r = Ok 0%Z ∧ keeps s s' ∧ ∀ v, v ∈ ids → absent v s').
Proof using Hpl.
  revert s. induction ids as [|v ids IH]; intros s Hv; cbn [purge_loop].
  { wr_step. split_and!; [done..|]. by intros v ?%not_elem_of_nil. }
  assert (∀ s1, keeps s s1 → absent v s1 →
    wr api (purge_loop ids inTrash 0) tt s1 (λ s' _ r,
      r = Ok 0%Z ∧ keeps s s' ∧ ∀ w, w ∈ v :: ids → absent w s')) as Hrest.
  { intros s1 Hk Ha. eapply wr_mono; [apply IH|].
    - intros w Hw. destruct (Hv w) as [?|?]; [by right|by left|]. right. by apply Hk.
    - intros s2 [] r (-> & Hk2 & Hall). split_and!; [done|by etrans|].
      intros w [->|?]%elem_of_cons; [by apply Hk2|by apply Hall]. }
  case_bool_decide as Hin.
  - destruct (pl_purge Hpl s v) as (Hok & Hk & Ha). do 2 wr_step. rewrite Hok. by apply Hrest.
  - destruct (Hv v) as [?|Ha]; [by left|done|]. wr_step. apply wr_query; [done|].
    pose proof Ha as Ha'. unfold absent in Ha'.
    destruct (api _ (Volumes_Get v) s).2 as [vol|err]; rewrite Ha'.
    + rewrite bool_decide_eq_false_2 by auto. by apply Hrest.
    + by apply Hrest.
Qed.

Lemma cloud_PurgeInstanceVolumes s :
  shows Gone s →
  (cloud _ (PurgeInstanceVolumes id) s).2 = Ok 0%Z ∧ keeps s (cloud _ (PurgeInstanceVolumes id) s).1 ∧
  purged (cloud _ (PurgeInstanceVolumes id) s).1.
Proof using Hpl.
  intros Hs. refine (cloud_wr (sdk_PurgeInstanceVolumes id) s (λ s' r, r = Ok 0%Z ∧ keeps s s' ∧ purged s') _).
  unfold sdk_PurgeInstanceVolumes. wr_step. apply wr_query; [done|]. fold (told s). unfold shows in Hs.
  destruct (told s) as [inst|err] eqn:Ht.
  - destruct Hs as (_ & Hm & _ & _ & Hp). rewrite Hm. cbn [negb]. destruct (pl_trash Hpl s inst Ht Hp) as (trash & Htr & Hv).
    wr_step. apply wr_query; [done|]. rewrite Htr. eapply wr_mono; [by apply purge_loop_wr|].
    intros s' [] r (-> & Hk & Hall). split_and!; [done..|]. intros inst'. rewrite (proj1 Hk), Ht. by intros [= <-].
  - destruct Hs as [Hnf _]. rewrite Hnf. wr_step. split_and!; [done..|]. intros inst. by rewrite Ht.
Qed.

(** Scripts. *)
Lemma sdk_DeleteStartupScript_wr sid s :
  wr api (sdk_DeleteStartupScript sid) tt s (λ s' _ r,
    r = Ok tt ∧ keeps s s' ∧ ∀ sc, listed sc s' → ApiScript_ID sc ≠ sid).
Proof using Hpl.
  destruct (pl_script Hpl s sid) as (Hok & Hk & Hl). unfold sdk_DeleteStartupScript. do 2 wr_step. rewrite Hok. by wr_step.
Qed.

Lemma delete_scripts_wr name scripts s :
  wr api (delete_scripts scripts name) tt s (λ s' _ r,
    r = Ok tt ∧ keeps s s' ∧ ∀ sc, listed sc s' → sc ∈ scripts → ApiScript_Name sc ≠ name).
Proof using Hpl.
  revert s. induction scripts as [|x scripts IH]; intros s; cbn [delete_scripts].
  { wr_step. split_and!; [done..|]. by intros sc _ ?%not_elem_of_nil. }
  case_bool_decide as Hx.
  - eapply wr_mono; [apply IH|]. intros s1 [] r (-> & Hk & Hl). split_and!; [done..|].
    intros sc Hsc [->|Hin]%elem_of_cons; [done|by apply Hl].
  - wr_step. eapply wr_mono; [apply sdk_DeleteStartupScript_wr|].
    intros s1 [] r (-> & Hk & Hd). eapply wr_mono; [apply IH|]. intros s2 [] r2 (-> & Hk2 & Hl).
    split_and!; [done|by etrans|]. intros sc Hsc [->|Hin]%elem_of_cons; [|by apply Hl].
    assert (listed x s1) as Hx1 by by apply Hk2. by apply Hd in Hx1.
Qed.

Lemma cloud_DeleteStartupScript sid s :
  (cloud _ (DeleteStartupScript sid) s).2 = Ok tt ∧ keeps s (cloud _ (DeleteStartupScript sid) s).1 ∧
  ∀ sc, listed sc (cloud _ (DeleteStartupScript sid) s).1 → ApiScript_ID sc ≠ sid.
Proof using Hpl.
  apply (cloud_wr (sdk_DeleteStartupScript sid) s (λ s' r, r = Ok tt ∧ keeps s s' ∧
    ∀ sc, listed sc s' → ApiScript_ID sc ≠ sid)), sdk_DeleteStartupScript_wr.
Qed.

Lemma cloud_DeleteStartupScriptByName name s :
  (cloud _ (DeleteStartupScriptByName name) s).2 = Ok tt ∧ keeps s (cloud _ (DeleteStartupScriptByName name) s).1 ∧
  ∀ sc, listed sc (cloud _ (DeleteStartupScriptByName name) s).1 → ApiScript_Name sc ≠ name.
Proof using Hpl.
  apply (cloud_wr (sdk_DeleteStartupScriptByName name) s (λ s' r, r = Ok tt ∧ keeps s s' ∧
    ∀ sc, listed sc s' → ApiScript_Name sc ≠ name)).
  unfold sdk_DeleteStartupScriptByName. wr_step. apply wr_query; [done|].
  destruct (pl_scripts Hpl s) as [l Hl]. rewrite Hl. eapply wr_mono; [apply delete_scripts_wr|].
  intros s' [] r (-> & Hk & Hn). split_and!; [done..|]. intros sc Hsc. apply Hn; [done|].
  apply Hk in Hsc as (l' & Hl' & Hin). congruence.
Qed.

(** Volumes. *)
Lemma cloud_GetVolume v s :
  (cloud _ (GetVolume v) s).1 = s ∧
  (cloud _ (GetVolume v) s).2 =
    match (api _ (Volumes_Get v) s).2 with
    | Ok vol => Ok (toVolume vol)
    | Err err => if isNotFound err then Err ErrNotFound else Err (errorf ("getting volume " +:+ v +:+ ": ") err)
    end.
Proof using Hpl.
  refine (cloud_wr (sdk_GetVolume v) s (λ s' r, s' = s ∧ r = _) _).
  unfold sdk_GetVolume, orNotFound. wr_step. apply wr_query; [done|].
  destruct (api _ (Volumes_Get v) s).2 as [vol|err]; cbn; [done|by destruct (isNotFound err)].
Qed.

Lemma cloud_DeleteVolume v s vol :
  (api _ (Volumes_Get v) s).2 = Ok vol → tagged (ApiVolume_Name vol) v s →
  (cloud _ (DeleteVolume v) s).2 = Ok tt ∧ keeps s (cloud _ (DeleteVolume v) s).1 ∧
  absent v (cloud _ (DeleteVolume v) s).1.
Proof using Hpl.
  intros Hg Ht. refine (cloud_wr (sdk_DeleteVolume v) s (λ s' r, r = Ok tt ∧ keeps s s' ∧ absent v s') _).
  unfold sdk_DeleteVolume. wr_step. apply wr_query; [done|]. unfold tagged in Ht. rewrite Hg in Ht |- *.
  rewrite Ht by done. cbn [negb]. destruct (pl_purge Hpl s v) as (Hok & Hk & Ha). do 2 wr_step. rewrite Hok. by wr_step.
Qed.

(** ** The machine controller on such a client *)

Abbreviation world := (with_client cloud kube).

(** The state of the instance at the last delete request. *)
Definition asked (vm : VerdaMachine) : option string :=
  fst <$> Cut (map_get (Annotations vm) (delete_key "")) "@".

Definition rank (ph : phase) : nat :=
  match ph with Up => 0 | Off => 1 | BeingDeleted => 2 | Gone => 3 end.

(** The machine is being deleted, the instance [id] is its instance and in the
    phase [ph], in which no delete was requested yet; [os] is the clone it boots
    from, and [script] its startup script, as far as it has them on record. *)
Record stage (ph : phase) (vm : VerdaMachine) (s : S) : Prop := {
  st_deleting : deleting (VM_Meta vm) = true;
  st_id : MStatus_InstanceID (VM_Status vm) = id;
  st_volume : MStatus_OSVolumeID (VM_Status vm) = os;
  st_name : osVolumeName vm = osname;
  st_tagged : os ≠ "" → tagged osname os s;
  st_script : MStatus_StartupScriptID (VM_Status vm) = script;
  st_vmname : vm_name vm = vmname;
  st_shows : shows ph s;
  st_asked state : asked vm = Some state → (rank (phase_of state) < rank ph)%nat
}.

(** The fields a stage looks at. *)
Definition same_deletion (vm vm' : VerdaMachine) : Prop :=
  deleting (VM_Meta vm') = deleting (VM_Meta vm) ∧
  MStatus_InstanceID (VM_Status vm') = MStatus_InstanceID (VM_Status vm) ∧
  MStatus_OSVolumeID (VM_Status vm') = MStatus_OSVolumeID (VM_Status vm) ∧
  osVolumeName vm' = osVolumeName vm ∧
  MStatus_StartupScriptID (VM_Status vm') = MStatus_StartupScriptID (VM_Status vm) ∧ vm_name vm' = vm_name vm.

(** The clone is left to go on its way. *)
Definition clone_going (s : S) : Prop := os ≠ "" → going osname os s.

(** No startup script of the machine is listed: none with the recorded ID, or
    without one none with the name of the machine. *)
Definition script_gone (s : S) : Prop :=
  ∀ sc, listed sc s → if decide (script = "") then ApiScript_Name sc ≠ vmname else ApiScript_ID sc ≠ script.

Lemma script_gone_keeps s s' : keeps s s' → script_gone s → script_gone s'.
Proof. intros (_ & _ & _ & Hl) Hg sc Hsc. by apply Hg, Hl. Qed.

Lemma tp_deleteRequestDue_wr vm s k state :
  "@"%char ∉ chars state → asked vm ≠ Some state →
  wr world (deleteRequestDue "" state) vm (s, k) (λ s' vm' r,
    r = Ok true ∧ s'.1 = s ∧ same_deletion vm vm' ∧ asked vm' = Some state).
Proof.
  intros Hat Hne. unfold deleteRequestDue. do 2 wr_step.
  assert (wr world (let! now := ask Now in
      do! modify (SetAnnotation (delete_key "") (state +:+ "@" +:+ FormatRFC3339 now)) in retM true) vm (s, k)
    (λ s' vm' r, r = Ok true ∧ s'.1 = s ∧ same_deletion vm vm' ∧ asked vm' = Some state)) as Hmark.
  { wr_steps. cbn [with_client]. destruct (kube _ Now k) as [k' now]. cbn [fst snd]. split_and!; [done..|].
    unfold asked, SetAnnotation, Annotations at 1, map_get. rewrite obj_meta_set. cbn [Meta_Annotations set_Annotations].
    rewrite lookup_insert_eq. change ((fst <$> Cut (state +:+ String "@" (FormatRFC3339 now)) "@") = Some state).
    by rewrite Cut_char. }
  unfold asked in Hne. destruct (Cut _ _) as [[l t]|]; [|exact Hmark].
  rewrite bool_decide_eq_false_2; [exact Hmark|]. cbn in Hne. congruence.
Qed.

(** What [findInstance] finds: the recorded instance, or that it is gone. *)
Lemma tp_findInstance_wr vm s k (Q : S * K → VerdaMachine → result (option Instance) → Prop) ph :
  stage ph vm s → id ≠ "" →
  (∀ inst, told s = Ok inst → Q (s, k) vm (Ok (Some (toInstance inst)))) →
  (∀ err, told s = Err err → shows Gone s → Q (s, k) vm (Ok (Some (missingInstance id)))) →
  wr world (findInstance c) vm (s, k) Q.
Proof using Hpl.
  intros [_ Hid _ _ _ _ _ Hs _] Hne Hok Herr. unfold findInstance. do 2 wr_step. rewrite Hid.
  rewrite bool_decide_eq_true_2 by done. do 2 wr_step. cbn [with_client].
  destruct (cloud_GetInstance s) as [H1' H2']. destruct (cloud _ (GetInstance id) s) as [s1 r]. cbn [fst snd] in *.
  subst s1 r. unfold shows in Hs, Herr. destruct (told s) as [inst|err]; [by wr_step; apply Hok|].
  destruct Hs as [Hnf ->]. rewrite Hnf. cbn. rewrite bool_decide_eq_true_2 by done. cbn. wr_step. by eapply Herr.
Qed.

(** A request in the phases [Up] and [Off], none in [BeingDeleted]. *)
Lemma tp_requestDelete_wr vm s k ph inst :
  stage ph vm s → told s = Ok inst → ph ≠ Gone →
  wr world (requestDelete c (toInstance inst)) vm (s, k) (λ s' vm' r,
    r = Ok (mkResult deletePollInterval) ∧
    ∃ ph', (rank ph < rank ph')%nat ∧ stage ph' vm' (settle s'.1)).
Proof using Hpl.
  intros [Hd Hid Hv Hn Htg Hscr Hvn Hs Ha] Ht Hg. pose proof Hs as Hs'. unfold shows in Hs'. rewrite Ht in Hs'.
  destruct Hs' as (Hii & _ & _ & Hat & Hp). pose proof (phase_of_spec (ApiInstance_Status inst)) as Hst. rewrite Hp in Hst.
  unfold requestDelete. cbn [Instance_Status Instance_ID toInstance]. rewrite Hii. wr_step.
  assert (ph = BeingDeleted ∨ ph = Up ∨ ph = Off) as [->|Hearly] by (destruct ph; tauto).
  { rewrite Hst, bool_decide_eq_false_2 by (intros []; done). wr_steps. split; [done|]. exists Gone. split; [cbn; lia|].
    destruct (pl_volumes Hpl s []) as (_ & _ & Hvk).
    split; try done; [by intros ?; apply Hvk, Htg|by apply (pl_settle Hpl)|]. intros state Hq. specialize (Ha state Hq). cbn in *. lia. }
  assert (ApiInstance_Status inst ≠ StatusDeleting) as Hnd
    by (destruct Hearly as [-> | ->]; [tauto|by rewrite Hst]).
  rewrite bool_decide_eq_true_2 by done.
  eapply wr_mono; [apply tp_deleteRequestDue_wr; [done|]|].
  { intros Hq%Ha. rewrite Hp in Hq. lia. }
  intros [s1 k1] vm1 r (-> & Hs1 & (Hd1 & Hi1 & Hv1 & Hn1 & Hscr1 & Hvn1) & Ha1). cbn [fst] in Hs1. subst s1. 
  assert (∃ ph', (rank ph < rank ph')%nat ∧ (cloud _ (DeleteInstance id) s).2 = Ok tt ∧
    shows ph' (settle (cloud _ (DeleteInstance id) s).1) ∧ volumes_kept s (cloud _ (DeleteInstance id) s).1)
    as (ph' & Hr & Hok & Hnext & Hvk).
  { destruct Hearly as [->| ->].
    - destruct (cloud_DeleteInstance_up s Hs) as (? & ? & ?). exists Off. split_and!; try done. cbn; lia.
    - destruct (cloud_DeleteInstance_off s Hs) as (? & [?|?] & ?); [exists BeingDeleted|exists Gone]; split_and!; try done; cbn; lia. }
  unfold setInstanceReadyFalse, setCondition. wr_steps. cbn [with_client].
  destruct (cloud _ (DeleteInstance id) s) as [s2 r]. cbn [fst snd] in *. subst r. wr_steps.
  split; [done|]. exists ph'. split; [done|]. destruct (pl_volumes Hpl s2 []) as (_ & _ & Hvk2).
  split; [cbn; congruence..| |by intros ?; apply Hvk2, Hvk, Htg|cbn; congruence| |done|].
  { change (osVolumeName vm1 = osname). congruence. }
  { change (vm_name vm1 = vmname). congruence. }
  intros state. change (asked _) with (asked vm1). rewrite Ha1. intros [= <-]. by rewrite Hp.
Qed.

(** The clone is deleted, unless that was done or it is not the machine's. *)
Lemma tp_deleteOSVolume_wr vm s k :
  MStatus_OSVolumeID (VM_Status vm) = os → osVolumeName vm = osname → (os ≠ "" → tagged osname os s) →
  wr world (deleteOSVolume c) vm (s, k) (λ s' vm' r, r = Ok tt ∧ keeps s s'.1 ∧ clone_going s'.1).
Proof using Hpl.
  intros Hv Hn Ht. unfold deleteOSVolume, clone_going. wr_steps. rewrite Hv, Hn. case_bool_decide as Hos; [by wr_step|].
  specialize (Ht Hos). do 2 wr_step. cbn [with_client]. destruct (cloud_GetVolume os s) as [H1' H2'].
  destruct (cloud _ (GetVolume os) s) as [s1 r]. cbn [fst snd] in *. subst s1 r.
  assert (∀ vol, (api _ (Volumes_Get os) s).2 = Ok vol →
    (ApiVolume_Name vol = osname → ApiVolume_Status vol = VolumeStatusDeleting ∨ ApiVolume_Status vol = VolumeStatusDeleted) →
    going osname os s) as Hgoing by (intros vol Hg ?; unfold going; by rewrite Hg).
  destruct (api _ (Volumes_Get os) s).2 as [vol|err] eqn:Hg.
  - cbn [toVolume Volume_Name Volume_Status]. case_bool_decide as Hname.
    { wr_steps. split_and!; [done..|]. intros _. by apply (Hgoing vol). }
    wr_step. destruct (_ && _) eqn:Hst; wr_steps.
    + cbn [with_client]. destruct (cloud_DeleteVolume os s vol Hg) as (Hok & Hk & Ha); [by rewrite Hname|].
      destruct (cloud _ (DeleteVolume os) s) as [s1 r]. cbn [fst snd] in *. subst r. wr_steps.
      split_and!; [done..|]. intros _. by apply absent_going.
    + split_and!; [done..|]. intros _. apply (Hgoing vol); [done|]. intros _.
      apply andb_false_iff in Hst as [Hst|Hst]; bool_to_prop; auto.
  - pose proof Ht as Ht'. unfold tagged in Ht'. rewrite Hg in Ht'. rewrite Ht'. cbn. wr_steps.
    split_and!; [done..|]. intros _. unfold going. cbn [fst]. by rewrite Hg.
Qed.

Lemma tp_finishDelete_wr `{!CapiUtilLaws} ph vm s s0 k :
  stage ph vm s0 → keeps s0 s →
  wr world (finishDelete c) vm (s, k) (λ s' vm' r,
    r = Ok emptyResult ∧ keeps s s'.1 ∧ (MachineFinalizer ∉ Meta_Finalizers (VM_Meta vm')) ∧ clone_going s'.1 ∧
    script_gone s'.1).
Proof using Hpl.
  intros [_ _ Hv Hn Ht Hsc Hvn _ _] Hk0. unfold finishDelete. do 3 wr_step.
  assert (∀ vm1 s1, MStatus_OSVolumeID (VM_Status vm1) = os → osVolumeName vm1 = osname → keeps s s1 → script_gone s1 →
    wr world (bindM (deleteOSVolume c) (λ _, bindM (modify (λ vm, vm_set_meta
        (set_Finalizers (RemoveFinalizer MachineFinalizer (Meta_Finalizers (VM_Meta vm))) (VM_Meta vm)) vm))
        (λ _, retM emptyResult))) vm1 (s1, k)
      (λ s' vm' r, r = Ok emptyResult ∧ keeps s s'.1 ∧ (MachineFinalizer ∉ Meta_Finalizers (VM_Meta vm')) ∧
         clone_going s'.1 ∧ script_gone s'.1)) as Hend.
  { intros vm1 s1 Hv1 Hn1 Hk Hg. wr_step. eapply wr_mono; [apply tp_deleteOSVolume_wr; [done..|]|].
    { intros Hos. by apply Hk, Hk0, Ht. }
    intros [s2 k2] vm2 r (-> & Hk2 & Hc). wr_steps. split_and!; [done|by etrans| |done|by eapply script_gone_keeps].
    cbn. rewrite elem_of_RemoveFinalizer. naive_solver. }
  unfold script_gone in Hend. rewrite Hsc, Hvn in *. case_bool_decide as Hid; wr_steps; cbn [with_client].
  - destruct (cloud_DeleteStartupScript script s) as (Hok & Hk & Hl).
    destruct (cloud _ (DeleteStartupScript _) s) as [s1 r]. cbn [fst snd] in *. subst r. wr_step. apply Hend; [done..|].
    intros sc Hs1. rewrite decide_False by done. by apply Hl.
  - destruct (cloud_DeleteStartupScriptByName vmname s) as (Hok & Hk & Hl).
    destruct (cloud _ (DeleteStartupScriptByName _) s) as [s1 r]. cbn [fst snd] in *. subst r. apply Hend; [done..|].
    intros sc Hs1. rewrite decide_True by done. by apply Hl.
Qed.

(** One pass: a further phase, or the end. *)
Lemma tp_reconcileDelete_wr `{!CapiUtilLaws} vm s k ph :
  stage ph vm s → id ≠ "" →
  wr world (reconcileDelete c) vm (s, k) (λ s' vm' r,
    (∃ ph', (rank ph < rank ph')%nat ∧ stage ph' vm' (settle s'.1)) ∨
    (MachineFinalizer ∉ Meta_Finalizers (VM_Meta vm')) ∧ shows Gone s'.1 ∧ purged s'.1 ∧ clone_going s'.1 ∧ script_gone s'.1).
Proof using Hpl.
  intros Hst Hne. unfold reconcileDelete, setInstanceReadyFalse, setCondition. do 3 wr_step.
  set (vm1 := SetConditions _ vm).
  assert (stage ph vm1 s) as Hst1 by (destruct Hst; by split). clearbody vm1. clear Hst vm.
  assert (∀ s1, keeps s s1 → shows Gone s1 → purged s1 → wr world (finishDelete c) vm1 (s1, k) (λ s' vm' r,
    (∃ ph', (rank ph < rank ph')%nat ∧ stage ph' vm' (settle s'.1)) ∨
    (MachineFinalizer ∉ Meta_Finalizers (VM_Meta vm')) ∧ shows Gone s'.1 ∧ purged s'.1 ∧ clone_going s'.1 ∧ script_gone s'.1)) as Hfin.
  { intros s1 Hks Hg Hp. eapply wr_mono; [by eapply tp_finishDelete_wr|].
    intros [s2 k2] vm2 r (_ & Hk & Hf & Hc & Hsc). right. cbn [fst] in *.
    split_and!; [done|by eapply keeps_shows|by eapply keeps_purged|done|done]. }
  eapply (tp_findInstance_wr vm1 s k _ ph Hst1 Hne).
  - intros inst Ht. cbn beta iota. pose proof (st_shows _ _ _ Hst1) as Hs. pose proof Hs as Hg.
    unfold shows in Hs. rewrite Ht in Hs. destruct Hs as (Hii & _ & Hnf & _ & Hp).
    pose proof (phase_of_spec (ApiInstance_Status inst)) as Hsp. rewrite Hp in Hsp.
    destruct (decide (ph = Gone)) as [->|Hng].
    + assert (instanceGone (toInstance inst) = true) as ->
        by (unfold instanceGone; cbn; destruct Hsp as [-> | ->]; done).
      cbn [negb Instance_Status Instance_ID toInstance]. rewrite Hii, bool_decide_eq_true_2 by done.
      do 2 wr_step. cbn [with_client]. destruct (cloud_PurgeInstanceVolumes s Hg) as (Hok & Hk & Hpu).
      destruct (cloud _ (PurgeInstanceVolumes id) s) as [s1 r]. cbn [fst snd] in *. subst r.
      apply Hfin; [done|by eapply keeps_shows|done].
    + assert (instanceGone (toInstance inst) = false) as ->
        by (unfold instanceGone; cbn; destruct ph; [rewrite !bool_decide_eq_false_2 by tauto; done|by rewrite Hsp..|done]).
      cbn [negb]. eapply wr_mono; [by apply tp_requestDelete_wr|]. intros s' vm' r [_ Hn]. by left.
  - intros err Ht Hg. cbn beta iota. apply Hfin; [done..|]. intros inst. by rewrite Ht.
Qed.

(** ** Whole rounds: a pass, and what the platform does until the next *)

Definition round (ns name : string) (s : S * K) : S * K :=
  let s' := (reconcile cloud kube ns name s).1 in (settle s'.1, s'.2).

(** Nothing of the machine is left, and the object can go. *)
Definition deleted (stored : K → VerdaMachine) (s : S * K) : Prop :=
  (MachineFinalizer ∉ Meta_Finalizers (VM_Meta (stored s.2))) ∧ shows Gone s.1 ∧ purged s.1 ∧ clone_going s.1 ∧ script_gone s.1.

Lemma stage_same ph vm vm' s :
  same_deletion vm vm' → asked vm' = asked vm → stage ph vm s → stage ph vm' s.
Proof.
  intros (Hd & Hi & Hv & Hn & Hsc & Hvn) Ha []. split; [congruence..|done|congruence|congruence|done|]. by rewrite Ha.
Qed.

Lemma round_wr `{!CapiUtilLaws} ns name stored machine cluster vc ph s k :
  obliging kube c ns name stored machine cluster vc → id ≠ "" → stage ph (stored k) s →
  let s' := round ns name (s, k) in
  (∃ ph', (rank ph < rank ph')%nat ∧ stage ph' (stored s'.2) s'.1) ∨ deleted stored s'.
Proof using Hpl.
  intros Hob Hne Hst.
  apply (reconcile_wr cloud kube c ns name stored machine cluster vc s k
    (λ s' _, (∃ ph', (rank ph < rank ph')%nat ∧ stage ph' (stored s'.2) (settle s'.1)) ∨
             deleted stored (settle s'.1, s'.2)) Hob).
  rewrite (st_deleting _ _ _ Hst). eapply wr_mono; [by apply tp_reconcileDelete_wr|].
  intros [s1 k1] vm1 r Hr k' Hs. cbn [fst snd] in *. unfold deleted. cbn [fst snd]. rewrite Hs.
  destruct Hr as [(ph' & Hlt & Hst')|(Hf & Hg & Hp & Hc & Hsc)]; [left|right].
  - exists ph'. split; [done|]. by apply (stage_same ph' vm1).
  - destruct (pl_settled Hpl s1 Hg) as (? & Hpu & Hl). destruct (pl_volumes Hpl s1 []) as (_ & _ & Hvk).
    split_and!; [done..|by apply Hpu| |].
    + intros Hos. by apply Hvk, Hc.
    + intros sc Hs1. by apply Hsc, Hl.
Qed.

End client.
End two_phase.

(** ** Example *)

Module TwoPhaseExamples.
Import DeletionExamples.

#[local] Existing Instance CapiExamples.capi.
#[local] Existing Instance CapiExamples.capi_laws.
#[local] Existing Instance SdkExamples.sdk_constants.
#[local] Existing Instance SdkExamples.range_in_key_order.
#[local] Existing Instance WorldExamples.script_as_is.

(** An account with one instance and its OS volume. *)
Inductive state := Running | Stopping | Stopped | Doomed | Deleting | Discontinued.

Record Account := mkAccount { Account_state : state; Account_volume : bool; Account_script : bool }.

Definition status (st : state) : string :=
  match st with
  | Running | Stopping => StatusRunning
  | Stopped | Doomed => StatusOffline
  | Deleting => StatusDeleting
  | Discontinued => StatusDiscontinued
  end.

Definition passes_time (a : Account) : Account :=
  mkAccount match Account_state a with
            | Stopping => Stopped
            | Doomed => Deleting
            | Deleting => Discontinued
            | st => st
            end (Account_volume a) (Account_script a).

Definition instance_of (a : Account) : ApiInstance :=
  mkApiInstance "inst-1" "node-0" (status (Account_state a)) "FIN-01" "CPU.4V.16G" None None (Some "v-os") []
    [mkTag TagManagedBy ManagedByValue].

Definition volume : ApiVolume :=
  mkApiVolume "v-os" "default-node-0-os" "attached" "FIN-01" true None [mkTag TagManagedBy ManagedByValue].
Definition no_such : error := APIError 404 "not found".

Definition verda (X : Type) (a : ApiE X) : Account → Account * X :=
  match a in ApiE X return Account → Account * X with
  | InstanceTypes_Get => λ s, (s, Ok [])
  | Instances_Get => λ s, (s, Ok [instance_of s])
  | Instances_GetByID id => λ s, (s, if bool_decide (id = "inst-1") then Ok (instance_of s) else Err no_such)
  | Instances_Create _ => λ s, (s, Err (APIError 503 "no capacity"))
  | Instances_Shutdown _ => λ s, (mkAccount Stopping (Account_volume s) (Account_script s), Ok tt)
  | Instances_Delete _ _ _ => λ s, (mkAccount Doomed (Account_volume s) (Account_script s), Ok tt)
  | StartupScripts_GetAll => λ s, (s, Ok (if Account_script s then [mkApiScript "script-1" "node-0"] else []))
  | StartupScripts_Add _ _ => λ s, (s, Err (APIError 503 "no capacity"))
  | StartupScripts_Delete sid => λ s,
      (if bool_decide (sid = "script-1") then mkAccount (Account_state s) (Account_volume s) false else s, Ok tt)
  | Volumes_Get id => λ s, (s, if bool_decide (id = "v-os") && Account_volume s then Ok volume else Err no_such)
  | Volumes_List => λ s, (s, Ok (if Account_volume s then [volume] else []))
  | Volumes_GetInTrash => λ s,
      (s, Ok match Account_state s, Account_volume s with Discontinued, true => [volume] | _, _ => [] end)
  | Volumes_Clone _ _ _ => λ s, (s, Err (APIError 503 "no capacity"))
  | Volumes_AddTag _ _ => λ s, (s, Ok tt)
  | Volumes_Delete id _ => λ s,
      (if bool_decide (id = "v-os") then mkAccount (Account_state s) false (Account_script s) else s, Ok tt)
  end.

Lemma verda_shows ph a : shows verda "inst-1" ph a ↔ phase_of (status (Account_state a)) = ph.
Proof.
  unfold shows, told. cbn. split; [by intros (_ & _ & _ & _ & ?)|]. intros Hph.
  split_and!; try done; destruct a as [[] v sc]; cbn; try done; vm_compute; set_solver.
Qed.

Lemma verda_absent w a : absent verda w a ↔ bool_decide (w = "v-os") && Account_volume a = false.
Proof. unfold absent. cbn. destruct (bool_decide _ && _); cbn; [|done]. split; [|done]. by vm_compute. Qed.

Lemma verda_volumes_kept a a' : (Account_volume a' = true → Account_volume a = true) → volumes_kept verda a a'.
Proof.
  intros Ha name v. unfold tagged, going. cbn. destruct (bool_decide _); [|done].
  destruct (Account_volume a), (Account_volume a'); cbn in *; naive_solver.
Qed.

Lemma verda_listed sc a : listed verda sc a ↔ Account_script a = true ∧ sc = mkApiScript "script-1" "node-0".
Proof.
  unfold listed. cbn. destruct (Account_script a); split.
  - intros (l & [= <-] & Hin%list_elem_of_singleton). done.
  - intros [_ ->]. eexists. split; [done|]. by left.
  - by intros (l & [= <-] & ?%not_elem_of_nil).
  - by intros [? _].
Qed.

Lemma verda_keeps a a' :
  Account_state a' = Account_state a → (Account_volume a' = true → Account_volume a = true) →
  (Account_script a' = true → Account_script a = true) → keeps verda "inst-1" a a'.
Proof.
  intros Hst Hv Hs. unfold keeps. split_and!.
  - unfold told. cbn. unfold instance_of. by rewrite Hst.
  - intros w. rewrite !verda_absent. destruct (bool_decide _); [|done]. cbn.
    destruct (Account_volume a), (Account_volume a'); naive_solver.
  - by apply verda_volumes_kept.
  - intros sc. rewrite !verda_listed. naive_solver.
Qed.

Lemma verda_platform : platform verda passes_time "inst-1".
Proof.
  split.
  - by intros X [] s.
  - intros [[] v sc]; rewrite !verda_shows; by vm_compute.
  - intros [[] v sc] vols; rewrite !verda_shows; vm_compute; auto; discriminate.
  - intros [[] v sc]; rewrite !verda_shows; by vm_compute.
  - intros [[] v sc]; rewrite !verda_shows; by vm_compute.
  - intros [[] [] sc] inst; unfold told; cbn; intros [= <-]; try discriminate; intros _; eexists; (split; [done|]);
      intros w Hw; rewrite verda_absent; cbn in *; assert (w = "v-os") as -> by (vm_compute in Hw; set_solver);
      [left; set_solver|by right].
  - intros s v. split_and!; [done| |].
    + apply verda_keeps; cbn; by destruct (bool_decide _).
    + rewrite verda_absent. cbn. destruct (bool_decide (v = "v-os")); cbn; done.
  - by intros s; eexists.
  - intros s sid. split_and!; [done| |].
    + apply verda_keeps; cbn; by destruct (bool_decide _).
    + intros sc. rewrite verda_listed. cbn. case_bool_decide; [by intros [? _]|]. intros [_ ->]. cbn. congruence.
  - intros s vols. split_and!; apply verda_volumes_kept; cbn; tauto.
Qed.

(** The deletion of a machine that boots from a clone begins. *)
Definition vm_cloned : VerdaMachine := vm_set_OSVolumeID "v-os" vm_marked.
Definition kube_cloned := WorldExamples.mkKube (Some vm_cloned) 1000000000.

End TwoPhaseExamples.
