(* ===== verification/Provisioning.v ===== *)
(** * A machine is provisioned

    The counterpart of [Deletion.v] for a machine that boots from an image: with
    its prerequisites there, one pass of the controller creates its instance and
    records it, and the first pass after Verda has started the instance reports
    the machine provisioned. *)

From S2P Require Import Prelude GoStd GoTime Effects Api Cloud Fake Ctrl Machine Pass World Deletion.
From stdpp Require Import options.

Section provisioning.
Context {range : MapRange} `{!CapiUtil, !Bootstrapper}.
Context {K : Type} (kube : ∀ X, CtrlE X → K → K * X) (c : ClientRef).

Abbreviation world := (with_fake kube).

(** The prerequisites: the cluster's infrastructure and the bootstrap data. *)
Record prerequisites (machine : Machine) (cluster : Cluster) (vm : VerdaMachine) (script : string) : Prop := {
  pre_infrastructure : Cluster_InfrastructureProvisioned cluster = Some true;
  pre_secret : ∃ secretName secret data,
    Machine_DataSecretName machine = Some secretName ∧
    (∀ k, kube _ (GetSecret (Meta_Namespace (Machine_Meta machine)) secretName) k = (k, Ok secret)) ∧
    Secret_Data secret !! "value" = Some data ∧
    ∃ unsupported, ToStartupScript data (vm_name vm) = Ok (mkScript script unsupported)
}.

(** A new machine that boots from an image, and an account without an instance
    of it and with its hostname free. *)
Record launchable (vm : VerdaMachine) (f : Fake) : Prop := {
  la_deleting : deleting (VM_Meta vm) = false;
  la_provisioned : MStatus_Provisioned (VM_Status vm) = None;
  la_instance : MStatus_InstanceID (VM_Status vm) = "";
  la_image : MSpec_OSVolumeID (VM_Spec vm) = "";
  la_volume : MStatus_OSVolumeID (VM_Status vm) = "";
  la_wf : fake_wf f;
  la_none : nothing_left vm f;
  la_hostname : fake_conflict (vm_name vm) f = None
}.

(** The instance is recorded in the object, and nothing else of what the next
    pass looks at is different. *)
Definition tracked (vm : VerdaMachine) (id : string) (vm' : VerdaMachine) : Prop :=
  VM_Meta vm' = VM_Meta vm ∧ MStatus_InstanceID (VM_Status vm') = id ∧
  MStatus_Provisioned (VM_Status vm') = MStatus_Provisioned (VM_Status vm) ∧
  MStatus_OSVolumeID (VM_Status vm') = MStatus_OSVolumeID (VM_Status vm).

Lemma found_none vm f : launchable vm f → found vm f = None.
Proof.
  intros Hla. destruct (found vm f) as [i|] eqn:Hf; [exfalso|done].
  pose proof (found_gone vm f (la_wf _ _ Hla) (la_none _ _ Hla) i Hf) as Hg.
  unfold found in Hf. rewrite (la_instance _ _ Hla), bool_decide_eq_false_2 in Hf by naive_solver.
  destruct (fake_FindInstanceByTag _ _ f).2 as [j|]; [|done].
  destruct (instanceGone j) eqn:Hj; [done|]. simplify_eq. congruence.
Qed.

Lemma create_succeeds spec f :
  fake_conflict (InstanceSpec_Hostname spec) f = None →
  ∃ f' inst, fake_CreateInstance spec f = (f', Ok inst) ∧ Instance_Hostname inst = InstanceSpec_Hostname spec.
Proof. intros Hc. unfold fake_CreateInstance. rewrite Hc. cbn zeta. by eexists _, _. Qed.

(** The clone of the OS volume, if there is one, carries the tag. *)
Definition tag_done (vm : VerdaMachine) : Prop :=
  MStatus_OSVolumeID (VM_Status vm) = "" ∨ conditions_IsTrue (GetConditions vm) OSVolumeReadyCondition = true.

Lemma ensureOSVolumeTag_wr vm s Q :
  tag_done vm → Q s vm (Ok tt) → wr world (ensureOSVolumeTag c) vm s Q.
Proof.
  intros Hv HQ. unfold ensureOSVolumeTag. do 2 wr_step.
  assert (bool_decide (MStatus_OSVolumeID (VM_Status vm) = "") ||
    conditions_IsTrue (GetConditions vm) OSVolumeReadyCondition = true) as ->.
  { destruct Hv as [->| ->]; [done|apply orb_true_r]. }
  by wr_step.
Qed.

(** The steps of [trackInstance] up to the status. *)
Definition recorded (inst : Instance) (vm vm' : VerdaMachine) : Prop :=
  tracked vm (Instance_ID inst) vm' ∧ GetConditions vm' = GetConditions vm ∧
  MSpec_ProviderID (VM_Spec vm') = ProviderID (Instance_Hostname inst) ∧
  MStatus_Addresses (VM_Status vm') = instanceAddresses inst.

Lemma trackInstance_wr vc vm s inst Q :
  tag_done vm →
  (∀ vm', recorded inst vm vm' →
     if bool_decide (Instance_Status inst = StatusRunning)
     then Q s (vm_set_Provisioned (Some true)
                 (vm_set_Conditions (conditions_Set
                    (mkCondition InstanceReadyCondition ConditionTrue ReadyReason "") (GetConditions vm')) vm'))
            (Ok emptyResult)
     else Instance_Status inst = "provisioning" ∧
       ∀ reason message, Q s (vm_set_Conditions (conditions_Set
           (mkCondition InstanceReadyCondition ConditionFalse reason message) (GetConditions vm')) vm')
         (Ok (mkResult instancePollInterval))) →
  wr world (trackInstance c vc inst) vm s Q.
Proof.
  intros Hvol HQ. unfold trackInstance. wr_steps. apply ensureOSVolumeTag_wr; [done|]. cbn beta iota. wr_step.
  destruct (bool_decide (Instance_StartupScriptID inst ≠ "")); wr_steps;
    match goal with |- wr _ _ ?vm' _ _ =>
      assert (recorded inst vm vm') as Hr by (by repeat split); specialize (HQ vm' Hr) end;
    (case_bool_decide; [unfold setInstanceReadyTrue, setCondition; by wr_steps|]);
    destruct HQ as [-> HQ]; cbn; unfold setInstanceReadyFalse, setCondition; wr_steps; apply HQ.
Qed.

(** The pass that creates the instance. *)
Lemma launch_wr machine cluster vc vm f k script :
  prerequisites machine cluster vm script → launchable vm f →
  wr world (reconcileNormal c cluster vc machine) vm (f, k) (λ s' vm' r,
    r = Ok (mkResult instancePollInterval) ∧ s'.2 = k ∧
    ∃ inst, Fake_Instances s'.1 !! Instance_ID inst = Some inst ∧ Instance_ID inst ≠ "" ∧
      Instance_Hostname inst = vm_name vm ∧ instanceGone inst = false ∧ tracked vm (Instance_ID inst) vm').
Proof.
  intros [Hinf (name & secret & data & Hname & Hget & Hval & unsup & Hscript)] Hla. unfold reconcileNormal.
  do 2 wr_step. rewrite (la_provisioned _ _ Hla), Hinf, bool_decide_eq_false_2 by congruence. cbn.
  wr_step. apply findInstance_wr. rewrite found_none by done. unfold launchInstance. wr_steps. cbn.
  rewrite bool_decide_eq_false_2 by (intros Hn; apply Hn, (la_image _ _ Hla)). wr_steps.
  unfold createInstance, getBootstrapData. rewrite Hname. wr_steps. cbn. rewrite Hget. cbn. rewrite Hval. wr_steps.
  rewrite Hscript. wr_steps. cbn.
  match goal with |- context [fake_CreateInstance ?sp f] =>
    destruct (create_succeeds sp f (la_hostname _ _ Hla)) as (f' & inst & Hc & Hhn) end.
  rewrite Hc. cbn. wr_steps. apply trackInstance_wr; [left; apply (la_volume _ _ Hla)|].
  destruct (fake_CreateInstance_ok _ _ _ _ Hc) as (Hid & _ & Hst & Hins & _).
  intros vm' (Htr & _). rewrite bool_decide_eq_false_2 by (by rewrite Hst). split; [done|]. intros reason message.
  split_and!; [done..|]. exists inst. cbn [fst]. rewrite Hins, lookup_insert_eq. split_and!; try done.
  - by rewrite Hid.
  - unfold instanceGone. by rewrite Hst.
Qed.

(** What a provisioned machine says. *)
Record provisioned_as (inst : Instance) (vm' : VerdaMachine) : Prop := {
  prov_provisioned : MStatus_Provisioned (VM_Status vm') = Some true;
  prov_id : MStatus_InstanceID (VM_Status vm') = Instance_ID inst;
  prov_provider : MSpec_ProviderID (VM_Spec vm') = ProviderID (Instance_Hostname inst);
  prov_addresses : MStatus_Addresses (VM_Status vm') = instanceAddresses inst;
  prov_deleting : deleting (VM_Meta vm') = false;
  prov_instance_ready : conditions_IsTrue (GetConditions vm') InstanceReadyCondition = true
}.

(** The pass that finds the instance running. *)
Lemma running_wr `{!CapiUtilLaws} machine cluster vc vm f k script inst :
  prerequisites machine cluster vm script → deleting (VM_Meta vm) = false →
  MStatus_Provisioned (VM_Status vm) = None → tag_done vm →
  MStatus_InstanceID (VM_Status vm) ≠ "" →
  Fake_Instances f !! MStatus_InstanceID (VM_Status vm) = Some inst → Instance_Status inst = StatusRunning →
  wr world (reconcileNormal c cluster vc machine) vm (f, k) (λ s' vm' r,
    r = Ok emptyResult ∧ s' = (f, k) ∧ provisioned_as inst vm').
Proof.
  intros [Hinf (name & _ & _ & Hname & _)] Hdel Hprov Hvol Hid Hi Hrun. unfold reconcileNormal.
  do 2 wr_step. rewrite Hprov, Hinf, bool_decide_eq_false_2 by congruence. cbn.
  wr_step. apply findInstance_wr. unfold found. rewrite bool_decide_eq_true_2, Hi by done. cbn beta iota.
  apply trackInstance_wr; [done|]. intros vm' ((Hm & Hvid & _) & _ & Hp & Ha).
  rewrite bool_decide_eq_true_2 by done. split_and!; [done..|]. split; try done.
  - cbn. by rewrite Hm.
  - cbn. by rewrite IsTrue_Set.
Qed.

(** After the first pass: the instance is in the account and in the object. *)
Definition launched (vm : VerdaMachine) (f' : Fake) (vm' : VerdaMachine) (inst : Instance) : Prop :=
  Fake_Instances f' !! Instance_ID inst = Some inst ∧ Instance_ID inst ≠ "" ∧
  Instance_Hostname inst = vm_name vm ∧ tracked vm (Instance_ID inst) vm'.

Lemma prerequisites_same machine cluster vm vm' script :
  VM_Meta vm' = VM_Meta vm → prerequisites machine cluster vm script → prerequisites machine cluster vm' script.
Proof. intros Hm [Hi Hs]. split; [done|]. unfold vm_name in *. by rewrite Hm. Qed.

Lemma launch_pass ns name stored machine cluster vc script f k :
  obliging kube c ns name stored machine cluster vc →
  prerequisites machine cluster (stored k) script → launchable (stored k) f →
  ∃ inst, launched (stored k) (reconcile fake kube ns name (f, k)).1.1 (stored (reconcile fake kube ns name (f, k)).1.2) inst.
Proof.
  intros Hob Hpre Hla. apply (reconcile_wr fake kube c ns name stored machine cluster vc f k
    (λ s _, ∃ inst, launched (stored k) s.1 (stored s.2) inst) Hob).
  rewrite (la_deleting _ _ Hla). eapply wr_mono; [by eapply launch_wr|].
  intros s' vm' r (_ & _ & inst & Hi & Hne & Hhn & _ & Htr) k' Hk'. exists inst. cbn. rewrite Hk'. by split_and!.
Qed.

(** The condition that summarizes a provisioned machine. *)
Lemma provisioned_ready `{!CapiUtilLaws} inst vm :
  provisioned_as inst vm →
  let vm' := vm_set_Conditions (conditions_Set (readyCondition vm) (GetConditions vm)) vm in
  provisioned_as inst vm' ∧ conditions_IsTrue (GetConditions vm') ReadyCondition = true.
Proof.
  intros [Hp Hid Hpr Had Hdel Hready] vm'.
  assert (readyCondition vm = mkCondition ReadyCondition ConditionTrue ReadyReason "") as Hr
    by (unfold readyCondition; by rewrite Hdel, Hready).
  subst vm'. rewrite Hr. split; [split; try done|]; cbn; by rewrite IsTrue_Set.
Qed.

(** (C7) A machine is provisioned: with the cluster's infrastructure and the
    bootstrap data there, one pass over a new machine that boots from an image
    creates an instance for it and records it; and once Verda has started
    that instance, the next pass reports the machine provisioned, with the
    provider ID and the addresses of the instance, and ready. *)
Theorem machine_provisioning_completes `{!CapiUtilLaws} ns name stored machine cluster vc script f k :
  obliging kube c ns name stored machine cluster vc →
  prerequisites machine cluster (stored k) script → launchable (stored k) f →
  ∃ inst, let s1 := (reconcile fake kube ns name (f, k)).1 in
    Fake_Instances s1.1 !! Instance_ID inst = Some inst ∧ Instance_Hostname inst = vm_name (stored k) ∧
    MStatus_InstanceID (VM_Status (stored s1.2)) = Instance_ID inst ∧
    ∀ ip, let s2 := (reconcile fake kube ns name (fake_SetStatus (Instance_ID inst) StatusRunning ip s1.1, s1.2)).1 in
      provisioned_as (inst_with_IP ip (inst_with_status StatusRunning inst)) (stored s2.2) ∧
      conditions_IsTrue (GetConditions (stored s2.2)) ReadyCondition = true.
Proof.
  intros Hob Hpre Hla.
  destruct (launch_pass ns name stored machine cluster vc script f k Hob Hpre Hla) as (inst & Hi & Hne & Hhn & Htr).
  exists inst. destruct (reconcile fake kube ns name (f, k)).1 as [f1 k1]. cbn [fst snd] in *.
  destruct Htr as (Hm & Hid & Hprov & Hvol). split_and!; [done..|]. intros ip.
  apply (reconcile_wr fake kube c ns name stored machine cluster vc _ k1 (λ s _,
    provisioned_as (inst_with_IP ip (inst_with_status StatusRunning inst)) (stored s.2) ∧
    conditions_IsTrue (GetConditions (stored s.2)) ReadyCondition = true) Hob).
  assert (deleting (VM_Meta (stored k1)) = false) as Hdel by (rewrite Hm; apply Hla). rewrite Hdel.
  eapply wr_mono; [eapply (running_wr machine cluster vc (stored k1) _ k1 script)|].
  - by eapply prerequisites_same.
  - done.
  - rewrite Hprov. apply Hla.
  - left. rewrite Hvol. apply Hla.
  - by rewrite Hid.
  - rewrite Hid. cbn. by rewrite lookup_alter_eq, Hi.
  - done.
  - intros s' vm' r (_ & _ & Hp) k' Hk'. cbn [snd]. rewrite Hk'. by apply provisioned_ready.
Qed.
End provisioning.

(** ** Example *)

Module ProvisioningExamples.
Import World.WorldExamples Deletion.DeletionExamples.
#[local] Existing Instance CapiExamples.capi.
#[local] Existing Instance CapiExamples.capi_laws.
#[local] Existing Instance FakeExamples.range_in_key_order.
#[local] Existing Instance script_as_is.

Definition kube0 : Kube := mkKube (Some vm_new) 1000000000.

Lemma new_prerequisites : prerequisites steady machine0 cluster0 vm_new "#!/bin/bash".
Proof. split; [done|]. by eexists _, secret0, _; split_and!; [..|eexists]. Qed.

Lemma new_launchable : launchable vm_new NewFake.
Proof. split; try done. apply NewFake_wf. Qed.

Lemma machine_provisioning_completes_witness :
  ∃ inst, let s1 := (reconcile fake steady "default" "node-0" (NewFake, kube0)).1 in
    Fake_Instances s1.1 !! Instance_ID inst = Some inst ∧ Instance_Hostname inst = "node-0" ∧
    MStatus_InstanceID (VM_Status (stored_vm s1.2)) = Instance_ID inst ∧
    ∀ ip, let s2 := (reconcile fake steady "default" "node-0"
                       (fake_SetStatus (Instance_ID inst) StatusRunning ip s1.1, s1.2)).1 in
      provisioned_as (inst_with_IP ip (inst_with_status StatusRunning inst)) (stored_vm s2.2) ∧
      conditions_IsTrue (GetConditions (stored_vm s2.2)) ReadyCondition = true.
Proof.
  exact (machine_provisioning_completes steady 0 "default" "node-0" stored_vm machine0 cluster0 vcluster0
    "#!/bin/bash" NewFake kube0 steady_obliging new_prerequisites new_launchable).
Defined.

End ProvisioningExamples.
