(* ===== verification/Cloning.v ===== *)
(** * A machine that boots from a clone is provisioned

    The companion of [Provisioning.v] for a machine whose spec names an OS
    volume: one pass clones the volume, the first pass after the clone is ready
    creates an instance that boots from it, and the first pass after Verda has
    started the instance reports the machine provisioned. *)

From S2P Require Import Prelude GoStd GoTime Effects Api Cloud Fake Ctrl Machine Pass World Deletion Provisioning.
From stdpp Require Import options.

Section cloning.
Context {range : MapRange} `{!CapiUtil, !Bootstrapper}.
Context {K : Type} (kube : ∀ X, CtrlE X → K → K * X) (c : ClientRef).

Abbreviation world := (with_fake kube).

(** The OS volume the spec names, by ID or by name. *)
Definition source_volume (idOrName : string) (f : Fake) (sid : string) : Prop :=
  if uuidRe_MatchString (ToLower idOrName) then sid = idOrName ∧ is_Some (Fake_Volumes f !! idOrName)
  else ∃ v, (fake_FindVolumeByName idOrName f).2 = Ok v ∧ Volume_IsOSVolume v = true ∧ sid = Volume_ID v ∧
       is_Some (Fake_Volumes f !! sid).

(** A new machine that boots from a clone, and an account without an instance or
    a clone of it and with its hostname free. *)
Record clonable (vm : VerdaMachine) (f : Fake) : Prop := {
  cb_deleting : deleting (VM_Meta vm) = false;
  cb_provisioned : MStatus_Provisioned (VM_Status vm) = None;
  cb_instance : MStatus_InstanceID (VM_Status vm) = "";
  cb_volume : MStatus_OSVolumeID (VM_Status vm) = "";
  cb_spec : MSpec_OSVolumeID (VM_Spec vm) ≠ "";
  cb_source : ∃ sid, source_volume (MSpec_OSVolumeID (VM_Spec vm)) f sid;
  cb_fresh id v : Fake_Volumes f !! id = Some v → Volume_Name v ≠ osVolumeName vm;
  cb_wf : fake_wf f;
  cb_none : nothing_left vm f;
  cb_hostname : fake_conflict (vm_name vm) f = None
}.

(** Without an instance, none is found. *)
Lemma found_none_left vm f :
  MStatus_InstanceID (VM_Status vm) = "" → fake_wf f → nothing_left vm f → found vm f = None.
Proof.
  intros Hid Hwf Hno. destruct (found vm f) as [i|] eqn:Hf; [exfalso|done].
  pose proof (found_gone vm f Hwf Hno i Hf) as Hg.
  unfold found in Hf. rewrite Hid, bool_decide_eq_false_2 in Hf by naive_solver.
  destruct (fake_FindInstanceByTag _ _ f).2 as [j|]; [|done].
  destruct (instanceGone j) eqn:Hj; [done|]. simplify_eq. congruence.
Qed.

Lemma resolveOSVolume_wr idOrName sid vm f k Q :
  source_volume idOrName f sid → Q (f, k) vm (Ok sid) → wr world (resolveOSVolume c idOrName) vm (f, k) Q.
Proof.
  intros Hs HQ. unfold resolveOSVolume, source_volume in *. destruct (uuidRe_MatchString _).
  - destruct Hs as [-> [v Hv]]. do 2 wr_step. cbn [with_client fake]. unfold fake_GetVolume. rewrite Hv.
    cbn [of_option fst snd]. by wr_step.
  - destruct Hs as (v & Hv & Hos & -> & _). do 2 wr_step. cbn [with_client fake].
    unfold fake_FindVolumeByName in *. cbn [fst snd] in *. rewrite Hv, Hos. cbn [negb]. by wr_step.
Qed.

(** The volume the account does not have is not found. *)
Lemma find_volume_none name f :
  (∀ id v, Fake_Volumes f !! id = Some v → Volume_Name v ≠ name) →
  fake_FindVolumeByName name f = (f, Err ErrNotFound).
Proof.
  intros Hn. unfold fake_FindVolumeByName. destruct (List.find _ _) as [v|] eqn:Hf; [exfalso|done].
  apply find_some in Hf as [Hin Hb]. apply bool_decide_eq_true in Hb.
  apply list_elem_of_In, elem_of_range_snd in Hin as [id Hi]. by eapply Hn.
Qed.

(** ** The pass that clones *)

(** The clone is recorded and on its way; nothing else of what the next pass
    looks at is different. *)
Definition cloning (vm : VerdaMachine) (f : Fake) (vid : string) (f' : Fake) (vm' : VerdaMachine) : Prop :=
  (∃ v, Fake_Volumes f' !! vid = Some v ∧ Volume_ID v = vid ∧ Volume_Name v = osVolumeName vm ∧ Volume_Managed v = true) ∧
  vid ≠ "" ∧ Fake_Instances f' = Fake_Instances f ∧ fake_wf f' ∧
  VM_Meta vm' = VM_Meta vm ∧ MSpec_OSVolumeID (VM_Spec vm') = MSpec_OSVolumeID (VM_Spec vm) ∧
  MStatus_InstanceID (VM_Status vm') = "" ∧ MStatus_Provisioned (VM_Status vm') = None ∧
  MStatus_OSVolumeID (VM_Status vm') = vid.

Lemma clone_wr machine cluster vc vm f k script :
  prerequisites kube machine cluster vm script → clonable vm f →
  wr world (reconcileNormal c cluster vc machine) vm (f, k) (λ s' vm' r,
    r = Ok (mkResult instancePollInterval) ∧ s'.2 = k ∧ ∃ vid, cloning vm f vid s'.1 vm').
Proof.
  intros [Hinf (name & secret & data & Hname & _)] Hcb. unfold reconcileNormal.
  do 2 wr_step. rewrite (cb_provisioned _ _ Hcb), Hinf, bool_decide_eq_false_2 by congruence. cbn.
  wr_step. apply findInstance_wr. rewrite found_none_left by apply Hcb. unfold launchInstance. wr_steps.
  rewrite bool_decide_eq_true_2 by apply Hcb. wr_step. unfold ensureOSVolume. do 3 wr_step.
  rewrite (cb_volume _ _ Hcb), bool_decide_eq_false_2 by naive_solver. wr_step. cbn [with_client fake].
  rewrite find_volume_none by apply Hcb. cbn [fst snd]. wr_step.
  change (errors_Is ErrNotFound ErrNotFound) with true. cbn [negb].
  unfold cloneOSVolume. do 3 wr_step. destruct (cb_source _ _ Hcb) as [sid Hsrc].
  eapply resolveOSVolume_wr; [exact Hsrc|]. cbn beta iota.
  assert (is_Some (Fake_Volumes f !! sid)) as [src Hs].
  { unfold source_volume in Hsrc. destruct (uuidRe_MatchString _); [by destruct Hsrc as [-> ?]|naive_solver]. }
  do 2 wr_step. cbn [with_client fake]. unfold fake_CloneVolume. rewrite Hs. cbn zeta.
  set (vid := "vol-" +:+ fmt_d _). cbn [fst snd]. wr_steps.
  unfold ensureOSVolumeRest, setOSVolumeReady, setInstanceReadyFalse, setCondition. wr_steps. cbn [negb Volume_Managed].
  wr_steps. cbn [with_client fake]. unfold fake_EnsureVolumeTag. cbn [fst snd]. wr_steps.
  change (bool_decide (_ = VolumeStatusDetached) || _) with false. cbn iota. wr_steps.
  rewrite bool_decide_eq_true_2 by done. wr_steps. split_and!; [done..|]. exists vid. cbn [fst].
  assert (fake_wf (fake_CloneVolume sid (osVolumeName vm) (CSpec_Location (VC_Spec vc)) f).1) as Hwf1
    by apply (fake_wf_step _ (CloneVolume sid (osVolumeName vm) (CSpec_Location (VC_Spec vc)))), Hcb.
  unfold fake_CloneVolume in Hwf1. rewrite Hs in Hwf1. cbn zeta in Hwf1. fold vid in Hwf1.
  split_and!; try done; [..|by apply Hcb|by apply Hcb].
  - cbn. rewrite lookup_alter_eq, lookup_insert_eq. by eexists.
  - by apply (fake_wf_step _ (EnsureVolumeTag vid)) in Hwf1.
Qed.

(** ** The pass that creates the instance *)

Lemma create_boots spec f v :
  fake_conflict (InstanceSpec_Hostname spec) f = None → Fake_Volumes f !! InstanceSpec_Image spec = Some v →
  ∃ f' inst, fake_CreateInstance spec f = (f', Ok inst) ∧ Instance_Hostname inst = InstanceSpec_Hostname spec ∧
    Instance_OSVolumeID inst = InstanceSpec_Image spec.
Proof.
  intros Hc Hv. unfold fake_CreateInstance. rewrite Hc. cbn zeta. eexists _, _. split; [done|]. split; [done|].
  cbn. case_bool_decide; cbn; by rewrite Hv.
Qed.

(** The instance boots from the clone and is recorded. *)
Definition booting (vm : VerdaMachine) (vid : string) (f' : Fake) (vm' : VerdaMachine) (inst : Instance) : Prop :=
  Fake_Instances f' !! Instance_ID inst = Some inst ∧ Instance_ID inst ≠ "" ∧
  Instance_Hostname inst = vm_name vm ∧ Instance_OSVolumeID inst = vid ∧
  tracked vm (Instance_ID inst) vm' ∧ tag_done vm'.

Lemma boot_wr `{!CapiUtilLaws} machine cluster vc vm f k script v :
  prerequisites kube machine cluster vm script →
  MStatus_Provisioned (VM_Status vm) = None → MStatus_InstanceID (VM_Status vm) = "" →
  MSpec_OSVolumeID (VM_Spec vm) ≠ "" → MStatus_OSVolumeID (VM_Status vm) = Volume_ID v → Volume_ID v ≠ "" →
  fake_wf f → nothing_left vm f → fake_conflict (vm_name vm) f = None →
  Fake_Volumes f !! Volume_ID v = Some v → Volume_Managed v = true → Volume_Status v = VolumeStatusDetached →
  wr world (reconcileNormal c cluster vc machine) vm (f, k) (λ s' vm' r,
    r = Ok (mkResult instancePollInterval) ∧ s'.2 = k ∧ ∃ inst, booting vm (Volume_ID v) s'.1 vm' inst).
Proof.
  intros [Hinf (name & secret & data & Hname & Hget & Hval & unsup & Hscript)] Hprov Hid Hspec Hov Hne Hwf Hno Hhn Hv Hman Hst.
  unfold reconcileNormal.
  do 2 wr_step. rewrite Hprov, Hinf, bool_decide_eq_false_2 by congruence. cbn.
  wr_step. apply findInstance_wr. rewrite found_none_left by done. unfold launchInstance. wr_steps.
  rewrite bool_decide_eq_true_2 by done. wr_step. unfold ensureOSVolume. do 3 wr_step.
  rewrite Hov, bool_decide_eq_true_2 by done. wr_step. cbn [with_client fake]. unfold fake_GetVolume. rewrite Hv.
  cbn [of_option fst snd]. do 2 wr_step. unfold ensureOSVolumeRest, setOSVolumeReady, setCondition. wr_steps.
  rewrite Hman. cbn [negb]. wr_steps. rewrite Hst, Hman. change (bool_decide (_ = VolumeStatusDetached) || _) with true.
  cbn [negb]. wr_steps. rewrite Hst, bool_decide_eq_false_2 by (intros Hx; by apply Hx). wr_steps.
  unfold createInstance, getBootstrapData. rewrite Hname. wr_steps. cbn [with_client]. rewrite Hget. cbn [fst snd].
  rewrite Hval. wr_steps. change (vm_name _) with (vm_name vm). rewrite Hscript. wr_steps. cbn [with_client fake].
  match goal with |- context [fake_CreateInstance ?sp f] =>
    destruct (create_boots sp f v Hhn Hv) as (f' & inst & Hc & Hh & Ho) end.
  rewrite Hc. cbn [fst snd]. wr_steps. destruct (fake_CreateInstance_ok _ _ _ _ Hc) as (Hiid & _ & Hist & Hins & _).
  apply trackInstance_wr.
  { right. cbn. by rewrite IsTrue_Set. }
  intros vm' ((Hm & Hvid & Hpr & Hos) & Hcond & _). rewrite bool_decide_eq_false_2 by (by rewrite Hist).
  split; [done|]. intros reason message. split_and!; [done..|]. exists inst. cbn [fst].
  split_and!; try done.
  - by rewrite Hins, lookup_insert_eq.
  - by rewrite Hiid.
  - split_and!; try done. cbn in Hos |- *. by rewrite Hos.
  - right. cbn -[GetConditions]. cbn in Hcond. cbn. rewrite IsTrue_Set, Hcond. cbn. by rewrite IsTrue_Set.
Qed.

(** ** Three passes *)

Lemma SetVolumeStatus_wf id status f : fake_wf f → fake_wf (fake_SetVolumeStatus id status f).
Proof.
  intros [H1 H2 H3 H4 H5]. split; try done. cbn. intros k v. rewrite lookup_alter_Some. intros [(<- & w & Hw & ->)|[_ Hv]]; [exact (H5 _ _ Hw)|by apply H5].
Qed.

Lemma nothing_left_like vm vm' f f' :
  VM_Meta vm' = VM_Meta vm → MStatus_InstanceID (VM_Status vm') = MStatus_InstanceID (VM_Status vm) →
  Fake_Instances f' = Fake_Instances f → nothing_left vm f → nothing_left vm' f'.
Proof.
  intros Hm Hi Hf Hn id i. rewrite Hf. intros Hl Hb. apply (Hn id i Hl). unfold belongs, machineTagValue in *.
  unfold vm_namespace, vm_name in *. by rewrite Hm, Hi in Hb.
Qed.

Section passes.
Context (ns name : string) (stored : K → VerdaMachine) (machine : Machine) (cluster : Cluster) (vc : VerdaCluster).
Context (script : string) (Hob : obliging kube c ns name stored machine cluster vc).

Lemma clone_pass f k :
  prerequisites kube machine cluster (stored k) script → clonable (stored k) f →
  let s' := (reconcile fake kube ns name (f, k)).1 in ∃ vid, cloning (stored k) f vid s'.1 (stored s'.2).
Proof using Hob.
  intros Hpre Hcb. apply (reconcile_wr fake kube c ns name stored machine cluster vc f k
    (λ s' _, ∃ vid, cloning (stored k) f vid s'.1 (stored s'.2)) Hob).
  rewrite (cb_deleting _ _ Hcb). eapply wr_mono; [by eapply clone_wr|].
  intros s' vm' r (_ & _ & vid & Hc) k' Hk'. exists vid. cbn [fst snd]. by rewrite Hk'.
Qed.

Lemma boot_pass `{!CapiUtilLaws} f vid f1 k k1 :
  prerequisites kube machine cluster (stored k) script → clonable (stored k) f →
  cloning (stored k) f vid f1 (stored k1) →
  let s' := (reconcile fake kube ns name (fake_SetVolumeStatus vid VolumeStatusDetached f1, k1)).1 in
  ∃ inst, booting (stored k1) vid s'.1 (stored s'.2) inst.
Proof using Hob.
  intros Hpre Hcb ((v & Hv & Hvid & _ & Hman) & Hne & Hins & Hwf & Hm & Hsp & Hid & Hprov & Hov).
  apply (reconcile_wr fake kube c ns name stored machine cluster vc _ k1
    (λ s' _, ∃ inst, booting (stored k1) vid s'.1 (stored s'.2) inst) Hob).
  rewrite Hm, (cb_deleting _ _ Hcb). eapply wr_mono.
  { apply (boot_wr machine cluster vc (stored k1) _ k1 script (vol_with_status VolumeStatusDetached v)); try done.
    - by eapply prerequisites_same.
    - rewrite Hsp. apply Hcb.
    - cbn. by rewrite Hvid.
    - cbn. by rewrite Hvid.
    - by apply SetVolumeStatus_wf.
    - eapply (nothing_left_like (stored k)); [done|rewrite (cb_instance _ _ Hcb); done|done|apply Hcb].
    - unfold vm_name. rewrite Hm. unfold fake_conflict. cbn [Fake_Instances fake_SetVolumeStatus with_Volumes]. rewrite Hins. apply Hcb.
    - cbn. by rewrite Hvid, lookup_alter_eq, Hv. }
  intros s' vm' r (_ & _ & inst & Hb) k' Hk'. exists inst. cbn [fst snd]. rewrite Hk'. cbn in Hb. rewrite Hvid in Hb.
  destruct Hb as (B1 & B2 & B3 & B4 & B5 & [B6|B6]); split_and!; try done; [by left|right].
  cbn. unfold readyCondition. rewrite IsTrue_Set. cbn. by repeat case_match.
Qed.

(** (C8) A machine that boots from a clone is provisioned: with its prerequisites
    and the OS volume its spec names (by ID or by name) there, one pass clones
    the volume and records the clone; once the clone is ready, the next pass
    creates one instance that boots from it and records it; and once Verda has
    started the instance, the next pass reports the machine provisioned, with
    the provider ID and addresses of the instance, and ready. *)
Theorem clone_provisioning_completes `{!CapiUtilLaws} f k :
  prerequisites kube machine cluster (stored k) script → clonable (stored k) f →
  let s1 := (reconcile fake kube ns name (f, k)).1 in
  ∃ vid, cloning (stored k) f vid s1.1 (stored s1.2) ∧
    let s2 := (reconcile fake kube ns name (fake_SetVolumeStatus vid VolumeStatusDetached s1.1, s1.2)).1 in
    ∃ inst, booting (stored s1.2) vid s2.1 (stored s2.2) inst ∧
      ∀ ip, let s3 := (reconcile fake kube ns name (fake_SetStatus (Instance_ID inst) StatusRunning ip s2.1, s2.2)).1 in
        provisioned_as (inst_with_IP ip (inst_with_status StatusRunning inst)) (stored s3.2) ∧
        conditions_IsTrue (GetConditions (stored s3.2)) ReadyCondition = true.
Proof using Hob.
  intros Hpre Hcb s1. destruct (clone_pass f k Hpre Hcb) as [vid Hc]. exists vid. split; [done|]. fold s1 in Hc.
  destruct s1 as [f1 k1]. cbn [fst snd] in *.
  destruct (boot_pass f vid f1 k k1 Hpre Hcb Hc) as [inst Hb]. exists inst.
  destruct (reconcile fake kube ns name (fake_SetVolumeStatus vid VolumeStatusDetached f1, k1)).1 as [f2 k2].
  cbn [fst snd] in *.
  split; [done|]. intros ip.
  destruct Hc as (_ & _ & _ & _ & Hm & _ & _ & Hprov & _).
  destruct Hb as (Hi & Hiid & _ & _ & (Tm & Tid & Tp & _) & Htag).
  assert (deleting (VM_Meta (stored k2)) = false) as Hdel by (rewrite Tm, Hm; apply Hcb).
  apply (reconcile_wr fake kube c ns name stored machine cluster vc _ k2 (λ s _,
    provisioned_as (inst_with_IP ip (inst_with_status StatusRunning inst)) (stored s.2) ∧
    conditions_IsTrue (GetConditions (stored s.2)) ReadyCondition = true) Hob).
  rewrite Hdel. eapply wr_mono; [eapply (running_wr kube c machine cluster vc (stored k2) _ k2 script)|].
  - eapply (prerequisites_same kube machine cluster (stored k)); [by rewrite Tm|done].
  - done.
  - by rewrite Tp.
  - done.
  - by rewrite Tid.
  - rewrite Tid. cbn. by rewrite lookup_alter_eq, Hi.
  - done.
  - intros s' vm' r (_ & _ & Hp) k' Hk'. cbn [snd]. rewrite Hk'. by apply provisioned_ready.
Qed.
End passes.
End cloning.

(** ** Example *)

Module CloningExamples.
Import World.WorldExamples Deletion.DeletionExamples ProvisioningExamples.
#[local] Existing Instance CapiExamples.capi.
#[local] Existing Instance CapiExamples.capi_laws.
#[local] Existing Instance FakeExamples.range_in_key_order.
#[local] Existing Instance script_as_is.

(** A golden image, referred to by its name. *)
Definition golden : Volume := mkVolume "vol-golden" "golden" VolumeStatusDetached "FIN-01" true "" false.
Definition account : Fake := with_Volumes {["vol-golden" := golden]} NewFake.
Definition vm_clone : VerdaMachine := vm_of "golden" "" "" None.
Definition kube_clone : Kube := mkKube (Some vm_clone) 1000000000.

Lemma clone_prerequisites : prerequisites steady machine0 cluster0 vm_clone "#!/bin/bash".
Proof. split; [done|]. by eexists _, secret0, _; split_and!; [..|eexists]. Qed.

Lemma account_volume id v : Fake_Volumes account !! id = Some v → id = "vol-golden" ∧ v = golden.
Proof. change (Fake_Volumes account) with ({["vol-golden" := golden]} : gmap string Volume). by intros [<- <-]%lookup_singleton_Some. Qed.

Lemma vm_clonable : clonable vm_clone account.
Proof.
  split; try done.
  - exists "vol-golden". by exists golden.
  - by intros id v [-> ->]%account_volume.
  - destruct NewFake_wf as [H1 H2 H3 H4 H5]. split; try done. by intros id v [-> ->]%account_volume.
Qed.

Lemma clone_provisioning_completes_witness :
  let s1 := (reconcile fake steady "default" "node-0" (account, kube_clone)).1 in
  ∃ vid, cloning vm_clone account vid s1.1 (stored_vm s1.2) ∧
    let s2 := (reconcile fake steady "default" "node-0"
                 (fake_SetVolumeStatus vid VolumeStatusDetached s1.1, s1.2)).1 in
    ∃ inst, booting (stored_vm s1.2) vid s2.1 (stored_vm s2.2) inst ∧
      ∀ ip, let s3 := (reconcile fake steady "default" "node-0"
                         (fake_SetStatus (Instance_ID inst) StatusRunning ip s2.1, s2.2)).1 in
        provisioned_as (inst_with_IP ip (inst_with_status StatusRunning inst)) (stored_vm s3.2) ∧
        conditions_IsTrue (GetConditions (stored_vm s3.2)) ReadyCondition = true.
Proof.
  exact (clone_provisioning_completes steady 0 "default" "node-0" stored_vm machine0 cluster0 vcluster0
    "#!/bin/bash" steady_obliging account kube_clone clone_prerequisites vm_clonable).
Defined.
End CloningExamples.
