(* ===== verification/Webhook.v ===== *)
(** * The admission webhooks ([internal/webhook/v1beta1])

    Defaulting and validation of the four kinds.  A [field.ErrorList] is a
    list of [FieldError]; a path is its printed form.  The lists of a spec have
    no nil form here: objects reach the webhook as JSON, where an empty list of
    these [omitempty] fields is an absent one. *)

From S2P Require Import Prelude GoStd Effects Api Cloud Fake Ctrl Machine Pass World.
From stdpp Require Import options.

(** ** Field errors *)

Inductive ErrorType := ErrorTypeRequired | ErrorTypeForbidden | ErrorTypeInvalid.

Record FieldError := mkFieldError {
  FieldError_Type : ErrorType;
  FieldError_Field : string;
  FieldError_Detail : string
}.

Definition Required := mkFieldError ErrorTypeRequired.
Definition Forbidden := mkFieldError ErrorTypeForbidden.
Definition Invalid := mkFieldError ErrorTypeInvalid.

Definition child (path name : string) : string := path +:+ "." +:+ name.

(** [if cond { errs = append(errs, e) }] *)
Definition check (cond : bool) (e : FieldError) : list FieldError := if cond then [e] else [].

(** ** validation.go *)

Definition in_range (lo hi : nat) (c : ascii) : bool :=
  let n := nat_of_ascii c in (lo <=? n)%nat && (n <=? hi)%nat.

(** [locationCodeRe]: three capitals, a hyphen, two digits. *)
Definition locationCodeRe_MatchString (s : string) : bool :=
  match s with
  | String a (String b (String c (String "-" (String d (String e ""))))) =>
      in_range 65 90 a && in_range 65 90 b && in_range 65 90 c &&
      in_range 48 57 d && in_range 48 57 e
  | _ => false
  end.

Definition boolValue (b : option bool) : bool := match b with Some b => b | None => false end.

Definition validateMachineSpec (spec : VerdaMachineSpec) (path : string) : list FieldError :=
  check (bool_decide (MSpec_InstanceType spec = ""))
    (Required (child path "instanceType") "instanceType is required") ++
  (if bool_decide (MSpec_Image spec = "") && bool_decide (MSpec_OSVolumeID spec = "") then
     [Required (child path "image") "one of image or osVolumeID is required"]
   else if bool_decide (MSpec_Image spec ≠ "") && bool_decide (MSpec_OSVolumeID spec ≠ "") then
     [Forbidden (child path "osVolumeID") "osVolumeID cannot be set together with image"]
   else []) ++
  check (bool_decide (MSpec_OSVolumeID spec ≠ "") && negb (MSpec_OSVolumeSizeGB spec =? 0)%Z)
    (Forbidden (child path "osVolumeSizeGB")
       "osVolumeSizeGB cannot be set with osVolumeID; a clone keeps the size of its source") ++
  check (bool_decide (MSpec_SpotDiscontinuePolicy spec ≠ "") && negb (boolValue (MSpec_Spot spec)))
    (Forbidden (child path "spotDiscontinuePolicy") "spotDiscontinuePolicy requires spot to be true") ++
  check (boolValue (MSpec_Spot spec) && bool_decide (MSpec_Contract spec ≠ "") &&
         bool_decide (MSpec_Contract spec ≠ "SPOT"))
    (Invalid (child path "contract") "contract must be SPOT or empty when spot is true").

Definition validateMachineSpecUpdate (oldSpec newSpec : VerdaMachineSpec) (path : string) :
    list FieldError :=
  check (bool_decide (MSpec_InstanceType oldSpec ≠ MSpec_InstanceType newSpec))
    (Forbidden (child path "instanceType") "instanceType is immutable") ++
  check (bool_decide (MSpec_Image oldSpec ≠ MSpec_Image newSpec))
    (Forbidden (child path "image") "image is immutable") ++
  check (bool_decide (MSpec_OSVolumeID oldSpec ≠ MSpec_OSVolumeID newSpec))
    (Forbidden (child path "osVolumeID") "osVolumeID is immutable") ++
  check (bool_decide (MSpec_OSVolumeSizeGB oldSpec ≠ MSpec_OSVolumeSizeGB newSpec))
    (Forbidden (child path "osVolumeSizeGB") "osVolumeSizeGB is immutable") ++
  check (bool_decide (MSpec_Contract oldSpec ≠ MSpec_Contract newSpec))
    (Forbidden (child path "contract") "contract is immutable") ++
  check (bool_decide (boolValue (MSpec_Spot oldSpec) ≠ boolValue (MSpec_Spot newSpec)))
    (Forbidden (child path "spot") "spot is immutable") ++
  check (bool_decide (MSpec_AdditionalVolumes oldSpec ≠ MSpec_AdditionalVolumes newSpec))
    (Forbidden (child path "additionalVolumes") "additionalVolumes is immutable") ++
  check (bool_decide (MSpec_SpotDiscontinuePolicy oldSpec ≠ MSpec_SpotDiscontinuePolicy newSpec))
    (Forbidden (child path "spotDiscontinuePolicy") "spotDiscontinuePolicy is immutable") ++
  check (bool_decide (MSpec_ProviderID oldSpec ≠ "") &&
         bool_decide (MSpec_ProviderID oldSpec ≠ MSpec_ProviderID newSpec))
    (Forbidden (child path "providerID") "providerID cannot be changed once set").

Definition lb_settings_unused (lb : ControlPlaneLoadBalancer) : bool :=
  bool_decide (LB_Enabled lb = Some false) &&
  (bool_decide (LB_InstanceType lb ≠ "") || bool_decide (LB_Image lb ≠ "") ||
   bool_decide (LB_SSHKeyIDs lb ≠ [])).

Section cluster.
Context `{!MapRange}.

Definition validateClusterSpec (spec : VerdaClusterSpec) (path : string) : list FieldError :=
  (if bool_decide (CSpec_Location spec = "") then
     [Required (child path "location") "location is required"]
   else check (negb (locationCodeRe_MatchString (CSpec_Location spec)))
     (Invalid (child path "location") "must be a Verda location code such as FIN-01")) ++
  check (bool_decide (APIEndpoint_Host (CSpec_ControlPlaneEndpoint spec) ≠ "") &&
         (APIEndpoint_Port (CSpec_ControlPlaneEndpoint spec) =? 0)%Z)
    (Required (child (child path "controlPlaneEndpoint") "port") "port is required when host is set") ++
  flat_map (λ '(name, lb), check (lb_settings_unused lb)
      (Invalid (child (child path name) "enabled")
         "load balancer settings are set but enabled is false"))
    (map_range ({[ "controlPlaneLoadBalancer" := CSpec_ControlPlaneLoadBalancer spec;
                   "serviceLoadBalancer" := CSpec_ServiceLoadBalancer spec ]} : gmap string _)).

Definition validateClusterSpecUpdate (oldSpec newSpec : VerdaClusterSpec) (path : string) :
    list FieldError :=
  check (bool_decide (CSpec_Location oldSpec ≠ CSpec_Location newSpec))
    (Forbidden (child path "location") "location is immutable") ++
  check (bool_decide (boolValue (LB_Enabled (CSpec_ControlPlaneLoadBalancer oldSpec)) ≠
                      boolValue (LB_Enabled (CSpec_ControlPlaneLoadBalancer newSpec))))
    (Forbidden (child (child path "controlPlaneLoadBalancer") "enabled")
       "the load balancer cannot be enabled or disabled after creation; the control plane endpoint is baked into the cluster's certificates") ++
  check (bool_decide (APIEndpoint_Host (CSpec_ControlPlaneEndpoint oldSpec) ≠ "") &&
         bool_decide (CSpec_ControlPlaneEndpoint oldSpec ≠ CSpec_ControlPlaneEndpoint newSpec))
    (Forbidden (child path "controlPlaneEndpoint") "controlPlaneEndpoint is immutable once set").

(** ** Defaulting *)

Definition set_Contract (v : string) (s : VerdaMachineSpec) : VerdaMachineSpec :=
  mkVerdaMachineSpec (MSpec_ProviderID s) (MSpec_InstanceType s) (MSpec_Image s)
    (MSpec_OSVolumeID s) (MSpec_SSHKeyIDs s) (MSpec_OSVolumeSizeGB s) v (MSpec_Spot s)
    (MSpec_SpotDiscontinuePolicy s) (MSpec_AdditionalVolumes s).

Definition defaultMachineSpec (spec : VerdaMachineSpec) : VerdaMachineSpec :=
  if boolValue (MSpec_Spot spec) && bool_decide (MSpec_Contract spec = "")
  then set_Contract "SPOT" spec else spec.

Definition defaultLoadBalancer (lb : ControlPlaneLoadBalancer) : ControlPlaneLoadBalancer :=
  if negb (boolValue (LB_Enabled lb)) then lb
  else mkControlPlaneLoadBalancer (LB_Enabled lb)
         (if bool_decide (LB_InstanceType lb = "") then DefaultLoadBalancerInstanceType
          else LB_InstanceType lb)
         (if bool_decide (LB_Image lb = "") then DefaultLoadBalancerImage else LB_Image lb)
         (LB_SSHKeyIDs lb).

Definition defaultClusterSpec (spec : VerdaClusterSpec) : VerdaClusterSpec :=
  let e := CSpec_ControlPlaneEndpoint spec in
  mkVerdaClusterSpec (CSpec_Location spec)
    (if bool_decide (APIEndpoint_Host e ≠ "") && (APIEndpoint_Port e =? 0)%Z
     then mkAPIEndpoint (APIEndpoint_Host e) 6443 else e)
    (CSpec_IdentityRef spec)
    (defaultLoadBalancer (CSpec_ControlPlaneLoadBalancer spec))
    (defaultLoadBalancer (CSpec_ServiceLoadBalancer spec)).

(** ** The webhooks *)

(** [None]: admitted. *)
Definition aggregate (name : string) (errs : list FieldError) : option error :=
  match errs with
  | [] => None
  | _ => Some (KubeError ReasonInvalid (name +:+ " is invalid: " +:+
                 Join ((λ e, FieldError_Field e +:+ ": " +:+ FieldError_Detail e) <$> errs) ", "))
  end.

Definition Machine_Default (vm : VerdaMachine) : VerdaMachine :=
  mkVerdaMachine (VM_Meta vm) (defaultMachineSpec (VM_Spec vm)) (VM_Status vm).
Definition Machine_ValidateCreate (vm : VerdaMachine) : option error :=
  aggregate (vm_name vm) (validateMachineSpec (VM_Spec vm) "spec").
Definition Machine_ValidateUpdate (oldObj newObj : VerdaMachine) : option error :=
  aggregate (vm_name newObj)
    (validateMachineSpec (VM_Spec newObj) "spec" ++
     validateMachineSpecUpdate (VM_Spec oldObj) (VM_Spec newObj) "spec").

(** Deletion is never refused. *)
Definition Machine_ValidateDelete (vm : VerdaMachine) : option error := None.

Definition Cluster_Default (c : VerdaCluster) : VerdaCluster :=
  mkVerdaCluster (VC_Meta c) (defaultClusterSpec (VC_Spec c)) (VC_Status c).
Definition Cluster_ValidateCreate (c : VerdaCluster) : option error :=
  aggregate (vc_name c) (validateClusterSpec (VC_Spec c) "spec").
Definition Cluster_ValidateUpdate (oldObj newObj : VerdaCluster) : option error :=
  aggregate (vc_name newObj)
    (validateClusterSpec (VC_Spec newObj) "spec" ++
     validateClusterSpecUpdate (VC_Spec oldObj) (VC_Spec newObj) "spec").

Definition Cluster_ValidateDelete (c : VerdaCluster) : option error := None.

(** Templates: [dryRun] is [topology.IsDryRunRequest(req, newObj)]. *)
Definition MachineTemplate_Default (t : VerdaMachineTemplate) : VerdaMachineTemplate :=
  mkVerdaMachineTemplate (VMT_Meta t) (defaultMachineSpec (VMT_Spec t)) (VMT_Status t).
Definition MachineTemplate_ValidateCreate (t : VerdaMachineTemplate) : option error :=
  aggregate (Meta_Name (VMT_Meta t)) (validateMachineSpec (VMT_Spec t) "spec.template.spec").
Definition MachineTemplate_ValidateUpdate (dryRun : bool) (oldObj newObj : VerdaMachineTemplate) :
    option error :=
  aggregate (Meta_Name (VMT_Meta newObj))
    (validateMachineSpec (VMT_Spec newObj) "spec.template.spec" ++
     check (negb dryRun && bool_decide (VMT_Spec oldObj ≠ VMT_Spec newObj))
       (Forbidden "spec.template.spec"
          "VerdaMachineTemplate spec is immutable; create a new template to change machines")).

Definition MachineTemplate_ValidateDelete (t : VerdaMachineTemplate) : option error := None.

(** [VerdaClusterTemplate]: its name and the spec of its template. *)
Record VerdaClusterTemplate := mkVerdaClusterTemplate {
  VCT_Meta : ObjectMeta;
  VCT_Spec : VerdaClusterSpec
}.
Definition ClusterTemplate_Default (t : VerdaClusterTemplate) : VerdaClusterTemplate :=
  mkVerdaClusterTemplate (VCT_Meta t) (defaultClusterSpec (VCT_Spec t)).
Definition ClusterTemplate_ValidateCreate (t : VerdaClusterTemplate) : option error :=
  aggregate (Meta_Name (VCT_Meta t)) (validateClusterSpec (VCT_Spec t) "spec.template.spec").
Definition ClusterTemplate_ValidateUpdate (dryRun : bool) (oldObj newObj : VerdaClusterTemplate) :
    option error :=
  aggregate (Meta_Name (VCT_Meta newObj))
    (validateClusterSpec (VCT_Spec newObj) "spec.template.spec" ++
     check (negb dryRun && bool_decide (VCT_Spec oldObj ≠ VCT_Spec newObj))
       (Forbidden "spec.template.spec"
          "VerdaClusterTemplate spec is immutable; create a new template to change clusters")).
Definition ClusterTemplate_ValidateDelete (t : VerdaClusterTemplate) : option error := None.
End cluster.

(** ** What the machine webhooks admit *)

Lemma check_nil b e : check b e = [] ↔ b = false.
Proof. by destruct b. Qed.

Lemma aggregate_None name errs : aggregate name errs = None ↔ errs = [].
Proof. by destruct errs. Qed.

Lemma app_nil_iff {A} (l k : list A) : l ++ k = [] ↔ l = [] ∧ k = [].
Proof. split; [apply app_eq_nil|by intros [-> ->]]. Qed.

(** The contract of a VerdaMachineSpec. *)
Record valid_machine (spec : VerdaMachineSpec) : Prop := {
  vms_type : MSpec_InstanceType spec ≠ "";
  vms_boot : MSpec_Image spec = "" ↔ MSpec_OSVolumeID spec ≠ "";
  vms_size : MSpec_OSVolumeID spec ≠ "" → MSpec_OSVolumeSizeGB spec = 0%Z;
  vms_policy : MSpec_SpotDiscontinuePolicy spec ≠ "" → MSpec_Spot spec = Some true;
  vms_contract : MSpec_Spot spec = Some true → MSpec_Contract spec = "" ∨ MSpec_Contract spec = "SPOT"
}.

(** The fields that never change, and the provider ID that is set once.  The SSH
    keys are not among them. *)
Record frozen (s s' : VerdaMachineSpec) : Prop := {
  fr_type : MSpec_InstanceType s' = MSpec_InstanceType s;
  fr_image : MSpec_Image s' = MSpec_Image s;
  fr_osvolume : MSpec_OSVolumeID s' = MSpec_OSVolumeID s;
  fr_size : MSpec_OSVolumeSizeGB s' = MSpec_OSVolumeSizeGB s;
  fr_contract : MSpec_Contract s' = MSpec_Contract s;
  fr_spot : boolValue (MSpec_Spot s') = boolValue (MSpec_Spot s);
  fr_volumes : MSpec_AdditionalVolumes s' = MSpec_AdditionalVolumes s;
  fr_policy : MSpec_SpotDiscontinuePolicy s' = MSpec_SpotDiscontinuePolicy s;
  fr_provider : MSpec_ProviderID s ≠ "" → MSpec_ProviderID s' = MSpec_ProviderID s
}.

#[export] Instance frozen_preorder : PreOrder frozen.
Proof.
  split; [by split|]. intros a b c [] []. split; try congruence.
  intros Ha. transitivity (MSpec_ProviderID b); [|by auto].
  match goal with H : _ → MSpec_ProviderID c = _ |- _ => apply H end. rewrite fr_provider0; done.
Qed.

Lemma boolValue_true b : boolValue b = true ↔ b = Some true.
Proof. destruct b as [[]|]; by split. Qed.

Lemma validateMachineSpec_nil spec path : validateMachineSpec spec path = [] ↔ valid_machine spec.
Proof.
  unfold validateMachineSpec. rewrite !app_nil_iff, !check_nil. split.
  - intros (H1 & H2 & H3 & H4 & H5). bool_to_prop. split.
    + done.
    + repeat case_bool_decide; naive_solver.
    + intros Hos. rewrite bool_decide_eq_true_2 in H3 by done. cbn in H3. by bool_to_prop.
    + intros Hp. rewrite bool_decide_eq_true_2 in H4 by done. cbn in H4. bool_to_prop.
      by apply boolValue_true.
    + intros Hs%boolValue_true. rewrite Hs in H5. cbn in H5.
      destruct (decide (MSpec_Contract spec = "")); [by left|right].
      rewrite bool_decide_eq_true_2 in H5 by done. cbn in H5. by bool_to_prop.
  - intros [Ht Hb Hs Hp Hc]. split_and!.
    + by apply bool_decide_eq_false.
    + repeat case_bool_decide; naive_solver.
    + case_bool_decide; [|done]. cbn. by rewrite Hs.
    + case_bool_decide; [|done]. cbn. by rewrite (proj2 (boolValue_true _) (Hp ltac:(done))).
    + destruct (boolValue _) eqn:Hspot; [|done]. apply boolValue_true in Hspot. cbn.
      destruct (Hc Hspot) as [-> | ->]; done.
Qed.

Lemma validateMachineSpecUpdate_nil s s' path : validateMachineSpecUpdate s s' path = [] ↔ frozen s s'.
Proof.
  unfold validateMachineSpecUpdate. rewrite !app_nil_iff, !check_nil, andb_false_iff.
  rewrite !bool_decide_eq_false. split.
  - intros (? & ? & ? & ? & ? & ? & ? & ? & Hp). split; try (symmetry; by apply dec_stable).
    intros Hne. destruct Hp as [Hp|Hp]; [by destruct Hp|symmetry; by apply dec_stable].
  - intros []. split_and!; try (by intros []). destruct (decide (MSpec_ProviderID s = "")).
    + left. by intros [].
    + right. rewrite fr_provider0 by done. by intros [].
Qed.

Lemma Machine_ValidateUpdate_None vm vm' :
  Machine_ValidateUpdate vm vm' = None ↔ valid_machine (VM_Spec vm') ∧ frozen (VM_Spec vm) (VM_Spec vm').
Proof.
  unfold Machine_ValidateUpdate.
  by rewrite aggregate_None, app_nil_iff, validateMachineSpec_nil, validateMachineSpecUpdate_nil.
Qed.

(** ** The life of a VerdaMachine's spec

    A write is defaulted, then validated, on creation and on every update. *)
Definition machine_created (vm : VerdaMachine) : Prop :=
  ∃ vm0, vm = Machine_Default vm0 ∧ Machine_ValidateCreate vm = None.

Inductive machine_written (vm : VerdaMachine) : VerdaMachine → Prop :=
| machine_update vm1 :
    Machine_ValidateUpdate vm (Machine_Default vm1) = None →
    machine_written vm (Machine_Default vm1).

Definition vm_set_SSHKeyIDs (keys : list string) (vm : VerdaMachine) : VerdaMachine :=
  let s := VM_Spec vm in
  mkVerdaMachine (VM_Meta vm)
    (mkVerdaMachineSpec (MSpec_ProviderID s) (MSpec_InstanceType s) (MSpec_Image s) (MSpec_OSVolumeID s)
       keys (MSpec_OSVolumeSizeGB s) (MSpec_Contract s) (MSpec_Spot s)
       (MSpec_SpotDiscontinuePolicy s) (MSpec_AdditionalVolumes s)) (VM_Status vm).

(** (C19) However often a VerdaMachine is written, its spec stays valid (an
    instance type; exactly one of image and OS volume; no size with an OS volume;
    a discontinue policy only for spot; a spot machine under the SPOT contract);
    instance type, image, OS volume and its size, contract, spot, discontinue
    policy and additional volumes stay what they were at creation, and a provider
    ID once set never changes.  The one field left is free: the SSH keys can be
    changed to any others. *)
Theorem machine_spec_life vm vm' :
  machine_created vm → rtc machine_written vm vm' →
  valid_machine (VM_Spec vm') ∧ frozen (VM_Spec vm) (VM_Spec vm') ∧
  (MSpec_Spot (VM_Spec vm') = Some true → MSpec_Contract (VM_Spec vm') = "SPOT") ∧
  ∀ keys, Machine_ValidateUpdate vm' (vm_set_SSHKeyIDs keys vm') = None.
Proof.
  cut (machine_created vm → rtc machine_written vm vm' →
    valid_machine (VM_Spec vm') ∧ frozen (VM_Spec vm) (VM_Spec vm') ∧
    (MSpec_Spot (VM_Spec vm') = Some true → MSpec_Contract (VM_Spec vm') = "SPOT")).
  { intros Hcut Hc Hr. destruct (Hcut Hc Hr) as (Hv & Hf & Hs). split_and!; [done..|].
    intros keys. apply Machine_ValidateUpdate_None. split; [|by split]. by destruct Hv; split. }
  intros (vm0 & Heq & Hc) Hr.
  assert (∀ x, valid_machine (VM_Spec (Machine_Default x)) →
    MSpec_Spot (VM_Spec (Machine_Default x)) = Some true →
    MSpec_Contract (VM_Spec (Machine_Default x)) = "SPOT") as Hspot.
  { intros x Hv Hs. destruct (vms_contract _ Hv Hs) as [He|]; [|done]. revert Hs He. cbn.
    unfold defaultMachineSpec. destruct (boolValue _) eqn:Hb; cbn.
    - case_bool_decide; cbn; naive_solver.
    - intros Hs%boolValue_true. congruence. }
  revert vm' Hr. apply (rtc_ind_r (λ vm', valid_machine (VM_Spec vm') ∧
    frozen (VM_Spec vm) (VM_Spec vm') ∧
    (MSpec_Spot (VM_Spec vm') = Some true → MSpec_Contract (VM_Spec vm') = "SPOT"))).
  - apply aggregate_None, validateMachineSpec_nil in Hc. subst. split_and!; [done|done|by apply Hspot].
  - intros y z _ Hw (Hv & Hf & _). destruct Hw as [z Hu].
    apply Machine_ValidateUpdate_None in Hu as [Hv' Hf'].
    split_and!; [done|by etransitivity|by apply Hspot].
Qed.

Lemma defaultMachineSpec_idem spec :
  defaultMachineSpec (defaultMachineSpec spec) = defaultMachineSpec spec.
Proof.
  unfold defaultMachineSpec.
  destruct (boolValue (MSpec_Spot spec) && bool_decide (MSpec_Contract spec = "")) eqn:Hb.
  - cbn. by rewrite andb_false_r.
  - by rewrite Hb.
Qed.

(** An admitted VerdaMachine can be written back unchanged: defaulting
    does not change it again, and the update is admitted. *)
Theorem machine_rewrite_admitted vm :
  Machine_ValidateCreate (Machine_Default vm) = None →
  Machine_Default (Machine_Default vm) = Machine_Default vm ∧
  Machine_ValidateUpdate (Machine_Default vm) (Machine_Default (Machine_Default vm)) = None.
Proof.
  intros Hc. assert (Machine_Default (Machine_Default vm) = Machine_Default vm) as Hid.
  { unfold Machine_Default. cbn. by rewrite defaultMachineSpec_idem. }
  split; [done|]. rewrite Hid. apply Machine_ValidateUpdate_None.
  by apply aggregate_None, validateMachineSpec_nil in Hc.
Qed.

(** ** The machine controller's writes *)

Lemma desired_fields vm vm' :
  desired vm' = desired vm → valid_machine (VM_Spec vm) →
  valid_machine (VM_Spec vm') ∧
  (frozen (VM_Spec vm) (VM_Spec vm') ↔
   MSpec_ProviderID (VM_Spec vm) = "" ∨ MSpec_ProviderID (VM_Spec vm') = MSpec_ProviderID (VM_Spec vm)).
Proof.
  intros Hd Hv. unfold desired in Hd. cbn in Hd. injection Hd as H1 H2 H3 H4 H5 H6 H7 H8 H9. split.
  - destruct Hv. split; by rewrite ?H1, ?H2, ?H3, ?H4, ?H5, ?H6, ?H7, ?H8, ?H9.
  - split.
    + intros []. destruct (decide (MSpec_ProviderID (VM_Spec vm) = "")); auto.
    + intros Hp. split; try congruence. by destruct Hp.
Qed.

(** The webhook admits what the machine controller writes back, as long as
    the provider ID was empty or is left as it was; and it refuses everything
    else the controller writes. *)
Theorem machine_pass_admitted `{!CapiUtil, !Bootstrapper} ns name h r vm' a after before :
  runs (Reconcile ns name) h r →
  h = after ++ Obs (PatchVerdaMachine vm') a :: before →
  ∃ vm, Obs (GetVerdaMachine ns name) (Ok vm) ∈ before ∧
    (valid_machine (VM_Spec vm) →
     Machine_ValidateUpdate vm vm' = None ↔
     MSpec_ProviderID (VM_Spec vm) = "" ∨ MSpec_ProviderID (VM_Spec vm') = MSpec_ProviderID (VM_Spec vm)).
Proof.
  intros Hex Hh. apply (Reconcile_call _ _ _ _ _ _ _ _ _ Hex) in Hh as (vm & Hin & _ & Hd & _); [|done].
  exists vm. split; [done|]. intros Hv. rewrite Machine_ValidateUpdate_None.
  destruct (desired_fields vm vm' Hd Hv). naive_solver.
Qed.

(** (C37) The no-capacity branch against the webhook: after a pass that gave up an
    instance for lack of capacity, the object to write has an empty provider
    ID; if an earlier pass had stored one, the webhook refuses the write. *)
Theorem nocapacity_write_refused `{!CapiUtil} c vc i vm h vm' res :
  valid_machine (VM_Spec vm) → Instance_Status i = StatusNoCapacity →
  runs (trackInstance c vc i vm) h (vm', Ok res) →
  MSpec_ProviderID (VM_Spec vm') = "" ∧
  (MSpec_ProviderID (VM_Spec vm) ≠ "" → Machine_ValidateUpdate vm vm' ≠ None).
Proof.
  intros Hv Hst Hex.
  assert (MSpec_ProviderID (VM_Spec vm') = "") as Hp.
  { unfold runs in Hex.
    cut (Ok res = Ok res → MSpec_ProviderID (VM_Spec vm') = ""); [auto|].
    revert Hex. generalize (Ok res) at 1 3. intros r Hex. exec_to_wp Hex.
    unfold trackInstance, ensureOSVolumeTag, setOSVolumeReady, setInstanceReadyTrue,
      setInstanceReadyFalse, setCondition.
    rewrite Hst. wp_steps; try done. all: exact (λ _, eq_refl). }
  split; [done|]. intros Hne [_ Hf]%Machine_ValidateUpdate_None.
  pose proof (fr_provider _ _ Hf Hne). congruence.
Qed.

(** ** What the cluster webhooks admit *)

Record valid_cluster (spec : VerdaClusterSpec) : Prop := {
  vcs_location : locationCodeRe_MatchString (CSpec_Location spec) = true;
  vcs_port : APIEndpoint_Host (CSpec_ControlPlaneEndpoint spec) ≠ "" →
    APIEndpoint_Port (CSpec_ControlPlaneEndpoint spec) ≠ 0%Z;
  vcs_lb : lb_settings_unused (CSpec_ControlPlaneLoadBalancer spec) = false;
  vcs_service_lb : lb_settings_unused (CSpec_ServiceLoadBalancer spec) = false
}.

Record cluster_frozen (s s' : VerdaClusterSpec) : Prop := {
  cf_location : CSpec_Location s' = CSpec_Location s;
  cf_lb : boolValue (LB_Enabled (CSpec_ControlPlaneLoadBalancer s')) =
    boolValue (LB_Enabled (CSpec_ControlPlaneLoadBalancer s));
  cf_endpoint : APIEndpoint_Host (CSpec_ControlPlaneEndpoint s) ≠ "" →
    CSpec_ControlPlaneEndpoint s' = CSpec_ControlPlaneEndpoint s
}.

#[export] Instance cluster_frozen_preorder : PreOrder cluster_frozen.
Proof.
  split; [by split|]. intros a b c [] [].
  split; [congruence..|]. intros Ha.
  match goal with H : _ → CSpec_ControlPlaneEndpoint c = _ |- _ => rewrite H by (by rewrite cf_endpoint0) end.
  auto.
Qed.

Section cluster_theorems.
Context `{!MapRange}.

Lemma flat_map_nil {A B} (f : A → list B) l : flat_map f l = [] ↔ ∀ x, x ∈ l → f x = [].
Proof.
  induction l as [|a l IH]; cbn; [set_solver|]. rewrite app_nil_iff, IH.
  setoid_rewrite elem_of_cons. naive_solver.
Qed.

Lemma validateClusterSpec_nil spec path : validateClusterSpec spec path = [] ↔ valid_cluster spec.
Proof.
  unfold validateClusterSpec. rewrite !app_nil_iff, check_nil, flat_map_nil.
  assert (∀ P : string * ControlPlaneLoadBalancer → Prop,
    (∀ x, x ∈ map_range ({[ "controlPlaneLoadBalancer" := CSpec_ControlPlaneLoadBalancer spec;
             "serviceLoadBalancer" := CSpec_ServiceLoadBalancer spec ]} : gmap string _) → P x) ↔
    P ("controlPlaneLoadBalancer", CSpec_ControlPlaneLoadBalancer spec) ∧
    P ("serviceLoadBalancer", CSpec_ServiceLoadBalancer spec)) as Hrange.
  { intros P. setoid_rewrite map_range_perm. split.
    - intros HP. split; apply HP; rewrite elem_of_map_to_list; reflexivity.
    - intros [H1 H2] [k lb]. rewrite elem_of_map_to_list. intros Hl.
      apply lookup_insert_Some in Hl as [[<- <-]|[_ Hl]]; [done|].
      by apply lookup_singleton_Some in Hl as [<- <-]. }
  rewrite Hrange, !check_nil. split.
  - intros (Hl & Hp & H1 & H2). split; [| |done|done].
    + destruct (bool_decide (CSpec_Location spec = "")); [done|]. apply check_nil in Hl. by bool_to_prop.
    + intros Hh Hz. rewrite bool_decide_eq_true_2 in Hp by done. cbn in Hp. by bool_to_prop.
  - intros [Hl Hp H1 H2]. split_and!; [| |done|done].
    + rewrite Hl. case_bool_decide as He; [|done]. by rewrite He in Hl.
    + case_bool_decide; [|done]. cbn. apply Z.eqb_neq. auto.
Qed.

Lemma validateClusterSpecUpdate_nil s s' path :
  validateClusterSpecUpdate s s' path = [] ↔ cluster_frozen s s'.
Proof.
  unfold validateClusterSpecUpdate. rewrite !app_nil_iff, !check_nil, andb_false_iff.
  rewrite !bool_decide_eq_false. split.
  - intros (? & ? & Hp). split; try (symmetry; by apply dec_stable).
    intros Hne. destruct Hp as [Hp|Hp]; [by destruct Hp|symmetry; by apply dec_stable].
  - intros []. split_and!; try (by intros []).
    destruct (decide (APIEndpoint_Host (CSpec_ControlPlaneEndpoint s) = "")).
    + left. by intros [].
    + right. rewrite cf_endpoint0 by done. by intros [].
Qed.

Lemma Cluster_ValidateUpdate_None c c' :
  Cluster_ValidateUpdate c c' = None ↔ valid_cluster (VC_Spec c') ∧ cluster_frozen (VC_Spec c) (VC_Spec c').
Proof.
  unfold Cluster_ValidateUpdate.
  by rewrite aggregate_None, app_nil_iff, validateClusterSpec_nil, validateClusterSpecUpdate_nil.
Qed.

Lemma defaultLoadBalancer_idem lb : defaultLoadBalancer (defaultLoadBalancer lb) = defaultLoadBalancer lb.
Proof.
  unfold defaultLoadBalancer. destruct (negb (boolValue (LB_Enabled lb))) eqn:He; [by rewrite He|].
  cbn. rewrite He. f_equal; repeat case_bool_decide; done.
Qed.

Lemma defaultClusterSpec_idem spec :
  defaultClusterSpec (defaultClusterSpec spec) = defaultClusterSpec spec.
Proof.
  unfold defaultClusterSpec. cbn. f_equal; [|by apply defaultLoadBalancer_idem..].
  set (e := CSpec_ControlPlaneEndpoint spec).
  destruct (bool_decide (APIEndpoint_Host e ≠ "") && (APIEndpoint_Port e =? 0)%Z) eqn:Hb;
    [cbn; by rewrite andb_false_r|by rewrite Hb].
Qed.

Inductive cluster_written (c : VerdaCluster) : VerdaCluster → Prop :=
| cluster_update c1 :
    Cluster_ValidateUpdate c (Cluster_Default c1) = None → cluster_written c (Cluster_Default c1).

(** (C20) However often a VerdaCluster is written after its creation: its
    location is a location code and never changes, the control plane load
    balancer is never switched on or off, a control plane endpoint once set
    never changes and always has a port, and load balancer settings never
    accompany an explicit [enabled: false].  An admitted cluster can always be
    written back unchanged. *)
Theorem cluster_spec_life c0 c' :
  Cluster_ValidateCreate (Cluster_Default c0) = None →
  rtc cluster_written (Cluster_Default c0) c' →
  valid_cluster (VC_Spec c') ∧ cluster_frozen (VC_Spec (Cluster_Default c0)) (VC_Spec c') ∧
  Cluster_Default c' = c' ∧ Cluster_ValidateUpdate c' (Cluster_Default c') = None.
Proof.
  intros Hc Hr.
  assert (∀ x, Cluster_Default (Cluster_Default x) = Cluster_Default x) as Hid.
  { intros x. unfold Cluster_Default. cbn. by rewrite defaultClusterSpec_idem. }
  cut (valid_cluster (VC_Spec c') ∧ cluster_frozen (VC_Spec (Cluster_Default c0)) (VC_Spec c') ∧
    Cluster_Default c' = c').
  { intros (Hv & Hf & He). split_and!; try done. rewrite He.
    by apply Cluster_ValidateUpdate_None. }
  revert c' Hr. apply rtc_ind_r.
  - apply aggregate_None, validateClusterSpec_nil in Hc. by split_and!.
  - intros y z _ [z' Hu] (Hv & Hf & _). apply Cluster_ValidateUpdate_None in Hu as [Hv' Hf'].
    split_and!; [done|by etransitivity|done].
Qed.
End cluster_theorems.

(** Templates are immutable: outside a topology dry run an update is
    admitted exactly if it leaves the spec of the template as it is and that spec
    is valid; in a dry run exactly if the new spec is valid. *)
Theorem template_immutable `{!MapRange} dryRun (t t' : VerdaMachineTemplate) (ct ct' : VerdaClusterTemplate) :
  (MachineTemplate_ValidateUpdate dryRun t t' = None ↔
   valid_machine (VMT_Spec t') ∧ (dryRun = false → VMT_Spec t' = VMT_Spec t)) ∧
  (ClusterTemplate_ValidateUpdate dryRun ct ct' = None ↔
   valid_cluster (VCT_Spec ct') ∧ (dryRun = false → VCT_Spec ct' = VCT_Spec ct)).
Proof.
  unfold MachineTemplate_ValidateUpdate, ClusterTemplate_ValidateUpdate.
  rewrite !aggregate_None, !app_nil_iff, validateMachineSpec_nil, validateClusterSpec_nil, !check_nil.
  destruct dryRun; cbn; [naive_solver|]. rewrite !bool_decide_eq_false.
  split; (split; intros [? Hs]; (split; [done|])).
  1,3: intros _; symmetry; by apply dec_stable.
  all: rewrite Hs by done; by intros [].
Qed.

(** ** Concrete objects *)

Module WebhookExamples.
#[local] Existing Instance CapiExamples.capi.
#[local] Existing Instance FakeExamples.range_in_key_order.
#[local] Existing Instance WorldExamples.script_as_is.

Definition meta (name : string) : ObjectMeta := mkObjectMeta name "default" ∅ ∅ [] 0 None.
Definition status0 : VerdaMachineStatus := mkVerdaMachineStatus None [] [] "" "" "" "" "".

Definition spot_spec (providerID : string) (keys : list string) : VerdaMachineSpec :=
  mkVerdaMachineSpec providerID "1H100.80S.30V" "ubuntu-24.04" "" keys 100 "" (Some true) "keep" [].
Definition spot (providerID : string) (keys : list string) : VerdaMachine :=
  mkVerdaMachine (meta "node-0") (spot_spec providerID keys) status0.

Lemma machine_spec_life_witness :
  MSpec_Contract (VM_Spec (Machine_Default (spot "verda://node-0" ["k"]))) = "SPOT".
Proof.
  apply (machine_spec_life (Machine_Default (spot "" [])) (Machine_Default (spot "verda://node-0" ["k"]))).
  - exists (spot "" []). split; [done|]. vm_compute. reflexivity.
  - apply rtc_once, machine_update. vm_compute. reflexivity.
  - reflexivity.
Defined.

Lemma machine_rewrite_admitted_witness :
  Machine_ValidateUpdate (Machine_Default (spot "" []))
    (Machine_Default (Machine_Default (spot "" []))) = None.
Proof. apply (machine_rewrite_admitted (spot "" [])). vm_compute. reflexivity. Defined.

(** An instance the controller gave up for lack of capacity. *)
Definition nocap : Instance :=
  mkInstance "i-1" "node-0" StatusNoCapacity "" "FIN-01" "1H100.80S.30V" "" "" ∅.
Definition nocap_pass :=
  trace (with_fake WorldExamples.kube)
    (trackInstance 0 WorldExamples.vcluster0 nocap (Machine_Default (spot "verda://node-0" [])))
    (NewFake, WorldExamples.mkKube None 0) [].

Lemma nocapacity_write_refused_witness :
  Machine_ValidateUpdate (Machine_Default (spot "verda://node-0" [])) nocap_pass.2.1 ≠ None.
Proof.
  apply (nocapacity_write_refused 0 WorldExamples.vcluster0 nocap
    (Machine_Default (spot "verda://node-0" [])) nocap_pass.1.2 nocap_pass.2.1
    (mkResult noCapacityRetryInterval)).
  - apply (validateMachineSpec_nil _ "spec"). vm_compute. reflexivity.
  - reflexivity.
  - exact (trace_exec (with_fake WorldExamples.kube)
      (trackInstance 0 WorldExamples.vcluster0 nocap (Machine_Default (spot "verda://node-0" [])))
      (NewFake, WorldExamples.mkKube None 0) []).
  - vm_compute. discriminate.
Defined.

Lemma machine_pass_admitted_witness :
  ∃ vm, Obs (GetVerdaMachine "default" "node-0") (Ok vm) ∈
      drop 1 (WorldExamples.calls NewFake WorldExamples.vm_new) ∧
    (valid_machine (VM_Spec vm) →
     Machine_ValidateUpdate vm WorldExamples.vm_created = None ↔
     MSpec_ProviderID (VM_Spec vm) = "" ∨
     MSpec_ProviderID (VM_Spec WorldExamples.vm_created) = MSpec_ProviderID (VM_Spec vm)).
Proof.
  apply (machine_pass_admitted "default" "node-0" (WorldExamples.calls NewFake WorldExamples.vm_new) _
    WorldExamples.vm_created (Ok tt) [] _ (WorldExamples.pass_runs NewFake WorldExamples.vm_new)).
  vm_compute. reflexivity.
Defined.

(** A cluster with a managed load balancer, and one that got its endpoint. *)
Definition lb (enabled : option bool) : ControlPlaneLoadBalancer :=
  mkControlPlaneLoadBalancer enabled "" "" [].
Definition cluster (host : string) : VerdaCluster :=
  mkVerdaCluster (meta "prod")
    (mkVerdaClusterSpec "FIN-01" (mkAPIEndpoint host 0) None (lb (Some true)) (lb None))
    (mkVerdaClusterStatus None [] empty_LoadBalancerStatus empty_LoadBalancerStatus []).

Lemma cluster_spec_life_witness :
  valid_cluster (VC_Spec (Cluster_Default (cluster "203.0.113.1"))).
Proof.
  apply (cluster_spec_life (cluster "")
    (Cluster_Default (cluster "203.0.113.1"))).
  - vm_compute. reflexivity.
  - apply rtc_once, cluster_update. vm_compute. reflexivity.
Defined.
End WebhookExamples.
