(* ===== verification/Bootstrap.v ===== *)
(** * Bootstrap data to startup script ([internal/bootstrap/cloudconfig.go])

    The YAML decoder ([sigs.k8s.io/yaml]) and the gzip compressor are
    parameters: [CloudConfigCodec] gives the top-level keys and the decoded
    document, [Gzip] the compressor with the decompressor of the machine that
    runs the script.  What the scripts do is said by a small model of the POSIX
    shell: quoting, pipelines, redirections and here-documents, and the few
    commands used, on the files of a machine. *)

From S2P Require Import Prelude GoStd GoTime Base64 Api Ctrl.
From stdpp Require Import options.

(** ** package bytes *)

(** [bytes.SplitN(data, "\n", n)] *)
Fixpoint SplitN (n : nat) (s : string) : list string :=
  match n with
  | O => []
  | S O => [s]
  | S n' => match Cut s nl with
            | Some (line, rest) => line :: SplitN n' rest
            | None => [s]
            end
  end.

(** ** The cloud-config document *)

Definition command := list string.

(** A JSON value, as [json.Unmarshal] sees it. *)
#[warnings="-register-all"]
Inductive json :=
| JNull
| JBool (b : bool)
| JNumber (text : string)
| JString (s : string)
| JArray (l : list json)
| JObject (fields : list (string * json)).

(** [json.Unmarshal] into a [string] that is empty: null leaves it alone. *)
Definition unmarshal_string (v : json) : result string :=
  match v with
  | JString s => Ok s
  | JNull => Ok ""
  | _ => Err (errorString "json: cannot unmarshal value into Go value of type string")
  end.

(** Into a [[]string] that is nil. *)
Fixpoint unmarshal_items (l : list json) : result (list string) :=
  match l with
  | [] => Ok []
  | v :: l => match unmarshal_string v, unmarshal_items l with
              | Ok s, Ok ss => Ok (s :: ss)
              | Err err, _ => Err err
              | _, Err err => Err err
              end
  end.
Definition unmarshal_strings (v : json) : result (list string) :=
  match v with
  | JArray l => unmarshal_items l
  | JNull => Ok []
  | _ => Err (errorString "json: cannot unmarshal value into Go value of type []string")
  end.

Definition command_UnmarshalJSON (data : json) : result command :=
  match unmarshal_string data with
  | Ok s => Ok [s]
  | Err _ =>
      match unmarshal_strings data with
      | Err err => Err (wrapError "command must be a string or a list of strings: " err "")
      | Ok l => Ok l
      end
  end.

Record user := mkUser {
  user_Name : string;
  user_Gecos : string;
  user_Groups : string;
  user_HomeDir : string;
  user_Inactive : bool;
  user_Shell : string;
  user_Passwd : string;
  user_PrimaryGroup : string;
  user_LockPassword : option bool;
  user_Sudo : string;
  user_SSHAuthorizedKeys : list string
}.

Record ntp := mkNtp { ntp_Enabled : option bool; ntp_Servers : list string }.

Record writeFile := mkWriteFile {
  wf_Path : string;
  wf_Content : string;
  wf_Encoding : string;
  wf_Owner : string;
  wf_Permissions : string;
  wf_Append : bool
}.

Record cloudConfig := mkCloudConfig {
  cc_BootCmd : list command;
  cc_WriteFiles : list writeFile;
  cc_RunCmd : list command;
  cc_Users : list user;
  cc_NTP : option ntp
}.

Definition knownKeys : list string := ["bootcmd"; "write_files"; "runcmd"; "users"; "ntp"].

(** [yaml.Unmarshal] of the document, once as a map of raw values (its keys,
    in the order the map is ranged over) and once as a [cloudConfig]. *)
Class CloudConfigCodec := {
  Unmarshal_keys : string → result (list string);
  Unmarshal_config : string → result cloudConfig
}.

(** The compressor at its highest level, and what [gunzip] makes of a file. *)
Class Gzip := {
  gzip : string → string;
  gunzip : string → option string
}.
Class GzipLaws `{Gzip} : Prop := { gunzip_gzip s : gunzip (gzip s) = Some s }.

(** ** Quoting *)

Definition shellQuote (s : string) : string :=
  if bool_decide (s = "") then sq +:+ sq
  else sq +:+ ReplaceAll s sq (sq +:+ String (ascii_of_nat 92) sq +:+ sq) +:+ sq.

Definition shell (c : command) : string :=
  match c with
  | [x] => x
  | _ => Join (shellQuote <$> c) " "
  end.

(** [for len(s) > width]; one pass per unit of fuel, [String.length s] are
    enough (each drops 76 bytes). *)
Fixpoint wrap_loop (fuel : nat) (s : string) : string :=
  match fuel with
  | O => s +:+ nl
  | S fuel => if (76 <? String.length s)%nat
              then str_take 76 s +:+ nl +:+ wrap_loop fuel (str_drop 76 s)
              else s +:+ nl
  end.
Definition wrapBase64 (s : string) : string := wrap_loop (String.length s) s.

(** ** write_files *)

Definition decodeContent (content encoding : string) : result string :=
  let enc := ToLower (TrimSpace encoding) in
  if bool_decide (enc ∈ [""; "text/plain"]) then Ok content
  else if bool_decide (enc ∈ ["b64"; "base64"; "gz+b64"; "gzip+base64"; "gz+base64"; "gzip+b64"]) then
    match DecodeString (TrimSpace content) with
    | Err err => Err (wrapError "decoding base64 content: " err "")
    | Ok decoded => Ok decoded
    end
  else if bool_decide (enc ∈ ["gz"; "gzip"]) then Ok content
  else Err (errorString ("unsupported content encoding " +:+ fmt_q encoding)).

Definition isGzip (encoding : string) : bool := HasPrefix (ToLower (TrimSpace encoding)) "gz".

Definition delim (idx : nat) : string := "__CAPI_FILE_" +:+ fmt_d (Z.of_nat idx) +:+ "__".

(** The line that opens the here-document of a file. *)
Definition writeFileRedirect (idx : nat) (f : writeFile) : string :=
  (if isGzip (wf_Encoding f) then "base64 -d | gunzip" else "base64 -d") +:+ " " +:+
  (if wf_Append f then ">>" else ">") +:+ " " +:+ shellQuote (wf_Path f) +:+
  " <<" +:+ sq +:+ delim idx +:+ sq +:+ nl.

(** The commands after it. *)
Definition writeFileModes (f : writeFile) : string :=
  (if bool_decide (wf_Permissions f ≠ "") then
     "chmod " +:+ shellQuote (wf_Permissions f) +:+ " " +:+ shellQuote (wf_Path f) +:+ nl
   else "") +:+
  (if bool_decide (wf_Owner f ≠ "") then
     "chown " +:+ shellQuote (wf_Owner f) +:+ " " +:+ shellQuote (wf_Path f) +:+ nl
   else "").

Definition writeFileScript (idx : nat) (f : writeFile) : result string :=
  if bool_decide (wf_Path f = "") then
    Err (errorString ("write_files[" +:+ fmt_d (Z.of_nat idx) +:+ "]: path is required"))
  else
    match decodeContent (wf_Content f) (wf_Encoding f) with
    | Err err => Err (wrapError ("write_files[" +:+ fmt_d (Z.of_nat idx) +:+ "] (" +:+ wf_Path f +:+ "): ") err "")
    | Ok content =>
        Ok ("mkdir -p " +:+ shellQuote (path_Dir (wf_Path f)) +:+ nl +:+
            writeFileRedirect idx f +:+
            wrapBase64 (EncodeToString content) +:+
            delim idx +:+ nl +:+
            writeFileModes f)
    end.

Fixpoint writeFilesScript (idx : nat) (fs : list writeFile) : result string :=
  match fs with
  | [] => Ok ""
  | f :: fs =>
      match writeFileScript idx f with
      | Err err => Err err
      | Ok s => match writeFilesScript (S idx) fs with
                | Err err => Err err
                | Ok t => Ok (s +:+ t)
                end
      end
  end.

(** ** users and ntp *)

Definition opt_args (v flag : string) : list string :=
  if bool_decide (v ≠ "") then [flag; shellQuote v] else [].

Definition userScript (u : user) : string :=
  if bool_decide (user_Name u = "") then ""
  else
    let name := shellQuote (user_Name u) in
    let group := shellQuote (user_PrimaryGroup u) in
    let args :=
      ["--create-home"] ++ opt_args (user_Gecos u) "--comment" ++
      opt_args (user_HomeDir u) "--home-dir" ++ opt_args (user_Shell u) "--shell" ++
      opt_args (user_PrimaryGroup u) "--gid" ++
      (if bool_decide (user_Groups u ≠ "")
       then ["--groups"; shellQuote (ReplaceAll (user_Groups u) " " "")] else []) ++
      (if user_Inactive u then ["--expiredate"; "1"] else []) in
    let home := dq +:+ "$(getent passwd " +:+ name +:+ " | cut -d: -f6)" +:+ dq in
    (if bool_decide (user_PrimaryGroup u ≠ "")
     then "getent group " +:+ group +:+ " >/dev/null || groupadd " +:+ group +:+ nl else "") +:+
    "id -u " +:+ name +:+ " >/dev/null 2>&1 || useradd " +:+ Join args " " +:+ " " +:+ name +:+ nl +:+
    (if bool_decide (user_Passwd u ≠ "")
     then "usermod --password " +:+ shellQuote (user_Passwd u) +:+ " " +:+ name +:+ nl else "") +:+
    (if deref_bool (user_LockPassword u) then "passwd -l " +:+ name +:+ " >/dev/null" +:+ nl else "") +:+
    (if bool_decide (user_Sudo u ≠ "") then
       "install -d -m 0750 /etc/sudoers.d && echo " +:+
       shellQuote (user_Name u +:+ " " +:+ user_Sudo u) +:+ " > /etc/sudoers.d/90-capi-" +:+
       user_Name u +:+ " && chmod 0440 /etc/sudoers.d/90-capi-" +:+ user_Name u +:+ nl
     else "") +:+
    (if bool_decide (user_SSHAuthorizedKeys u ≠ []) then
       "install -d -m 0700 -o " +:+ name +:+ " -g " +:+ name +:+ " " +:+ home +:+ "/.ssh" +:+ nl +:+
       Join ((λ key, "echo " +:+ shellQuote key +:+ " >> " +:+ home +:+ "/.ssh/authorized_keys" +:+ nl)
               <$> user_SSHAuthorizedKeys u) "" +:+
       "chown " +:+ name +:+ ":" +:+ name +:+ " " +:+ home +:+ "/.ssh/authorized_keys && chmod 0600 " +:+
       home +:+ "/.ssh/authorized_keys" +:+ nl
     else "").

Definition ntpScript (n : ntp) : string :=
  if bool_decide (ntp_Servers n = []) then ""
  else
    "if command -v chronyd >/dev/null 2>&1; then" +:+ nl +:+
    "  install -d /etc/chrony/sources.d" +:+ nl +:+
    "  : > /etc/chrony/sources.d/capi.sources" +:+ nl +:+
    Join ((λ srv, "  echo " +:+ shellQuote ("server " +:+ srv +:+ " iburst") +:+
                  " >> /etc/chrony/sources.d/capi.sources" +:+ nl) <$> ntp_Servers n) "" +:+
    "  systemctl restart chrony 2>/dev/null || systemctl restart chronyd 2>/dev/null || true" +:+ nl +:+
    "fi" +:+ nl.

(** ** The script *)

Definition MaxScriptSize : nat := Z.to_nat (48 * 1024).
Definition compressThreshold : nat := Z.to_nat (24 * 1024).
Definition cloudConfigHeader := "#cloud-config".
Definition LogPath := "/var/log/capi-bootstrap.log".

Definition hostnamePlaceholders : list string :=
  ["{{ ds.meta_data.hostname }}"; "{{ ds.meta_data.local_hostname }}";
   "{{ds.meta_data.hostname}}"; "{{ds.meta_data.local_hostname}}"].

Definition isCloudConfig (data : string) : bool :=
  existsb (λ line, bool_decide (TrimSpace line = cloudConfigHeader)) (SplitN 4 data).

Section script.
Context `{!CloudConfigCodec, !Gzip}.

Definition gzipPrologue : string :=
  "#!/bin/bash" +:+ nl +:+
  "# Generated by cluster-api-provider-verda. The bootstrap script is gzip-compressed below" +:+ nl +:+
  "# and unpacked to /run/capi-bootstrap.sh before running." +:+ nl +:+
  "set -euo pipefail" +:+ nl +:+
  "base64 -d <<" +:+ sq +:+ "__CAPI_GZ__" +:+ sq +:+ " | gunzip > /run/capi-bootstrap.sh" +:+ nl.

Definition gzipEpilogue : string :=
  "chmod 0700 /run/capi-bootstrap.sh" +:+ nl +:+ "exec /run/capi-bootstrap.sh" +:+ nl.

Definition fit (script : string) : result string :=
  if (String.length script <=? compressThreshold)%nat then Ok script
  else
    let out := gzipPrologue +:+ wrapBase64 (EncodeToString (gzip script)) +:+
               "__CAPI_GZ__" +:+ nl +:+ gzipEpilogue in
    if (MaxScriptSize <? String.length out)%nat
    then Err (wrapError "" ErrScriptTooLarge (": " +:+ fmt_d (Z.of_nat (String.length out)) +:+
                " bytes after compression; reduce KubeadmConfig files"))
    else Ok out.

(** A section of commands, with its comment. *)
Definition commandSection (title : string) (cs : list command) : string :=
  if bool_decide (cs = []) then ""
  else nl +:+ "# " +:+ title +:+ nl +:+ Join ((λ c, shell c +:+ nl) <$> cs) "".

Definition unsupportedKeys (keys : list string) : list string :=
  Sort_strings (filter (λ k, k ∉ knownKeys) keys).

Definition scriptHead (unsupported : list string) : string :=
  "#!/bin/bash" +:+ nl +:+
  "# Generated by cluster-api-provider-verda from Cluster API bootstrap data. Do not edit." +:+ nl +:+
  "set -euo pipefail" +:+ nl +:+
  "exec > >(tee -a " +:+ LogPath +:+ ") 2>&1" +:+ nl +:+
  "echo " +:+ dq +:+ "[capi-bootstrap] starting $(date -Is)" +:+ dq +:+ nl +:+
  Join ((λ key, "echo " +:+ dq +:+ "[capi-bootstrap] warning: cloud-config key " +:+ fmt_q key +:+
                " is not supported on Verda and was ignored" +:+ dq +:+ nl) <$> unsupported) "".

(** The body of [ToStartupScript] from the decoded document on. *)
Definition buildScript (unsupported : list string) (cfg : cloudConfig) : result string :=
  match (if bool_decide (cc_WriteFiles cfg ≠ []) then writeFilesScript 0 (cc_WriteFiles cfg) else Ok "") with
  | Err err => Err err
  | Ok files =>
      Ok (scriptHead unsupported +:+
          commandSection "bootcmd" (cc_BootCmd cfg) +:+
          (if bool_decide (cc_WriteFiles cfg ≠ []) then nl +:+ "# write_files" +:+ nl +:+ files else "") +:+
          (if bool_decide (cc_Users cfg ≠ []) then
             nl +:+ "# users" +:+ nl +:+ Join (userScript <$> cc_Users cfg) "" else "") +:+
          match cc_NTP cfg with
          | Some n => if default true (ntp_Enabled n) then nl +:+ "# ntp" +:+ nl +:+ ntpScript n else ""
          | None => ""
          end +:+
          commandSection "runcmd" (cc_RunCmd cfg) +:+
          nl +:+ "echo " +:+ dq +:+ "[capi-bootstrap] finished $(date -Is)" +:+ dq +:+ nl)
  end.

Definition substituteHostname (data hostname : string) : string :=
  fold_left (λ d placeholder, ReplaceAll d placeholder hostname) hostnamePlaceholders data.

Definition bootstrap_ToStartupScript (data hostname : string) : result Script :=
  let data := substituteHostname data hostname in
  let trimmed := TrimSpace data in
  if HasPrefix trimmed "#!" then Ok (mkScript data [])
  else if negb (isCloudConfig trimmed) then
    Err (errorString ("bootstrap data is neither a shell script nor " +:+ cloudConfigHeader +:+
                      "; ignition and other formats are not supported"))
  else
    match Unmarshal_keys trimmed with
    | Err err => Err (wrapError "parsing cloud-config: " err "")
    | Ok keys =>
        match Unmarshal_config trimmed with
        | Err err => Err (wrapError "parsing cloud-config: " err "")
        | Ok cfg =>
            let unsupported := unsupportedKeys keys in
            match buildScript unsupported cfg with
            | Err err => Err err
            | Ok text => match fit text with
                         | Err err => Err err
                         | Ok script => Ok (mkScript script unsupported)
                         end
            end
        end
    end.

#[export] Instance cloudconfig_bootstrapper : Bootstrapper :=
  {| ToStartupScript := bootstrap_ToStartupScript |}.
End script.

(** ** How the shell reads the script

    Words of a POSIX shell made of plain characters, single quotes and
    backslashes; double quotes, expansions and comments are not read ([None]).
    A word ends before a blank, a newline or an operator character. *)

Definition char_in (c : ascii) (codes : list nat) : bool := bool_decide (nat_of_ascii c ∈ codes).

(** space, tab, newline, ; & | < > ( ) *)
Definition ends_word (c : ascii) : bool := char_in c [32; 9; 10; 59; 38; 124; 60; 62; 40; 41].
(** double quote, dollar, backquote, hash *)
Definition sh_special (c : ascii) : bool := char_in c [34; 36; 96; 35].
Definition is_sq (c : ascii) : bool := char_in c [39].
Definition is_backslash (c : ascii) : bool := char_in c [92].
Definition is_nl (c : ascii) : bool := char_in c [10].

Definition cons_word (c : ascii) (r : option (string * string)) : option (string * string) :=
  match r with Some (w, rest) => Some (String c w, rest) | None => None end.

Fixpoint sh_word (quoted : bool) (s : string) : option (string * string) :=
  match s with
  | "" => if quoted then None else Some ("", "")
  | String c s' =>
      if quoted then
        if is_sq c then sh_word false s' else cons_word c (sh_word true s')
      else if is_sq c then sh_word true s'
      else if is_backslash c then
        match s' with
        | String d s'' => if is_nl d then sh_word false s'' else cons_word d (sh_word false s'')
        | "" => None
        end
      else if ends_word c then Some ("", s)
      else if sh_special c then None
      else cons_word c (sh_word false s')
  end.

Fixpoint skip_blanks (s : string) : string :=
  match s with
  | String c s' => if char_in c [32; 9] then skip_blanks s' else s
  | "" => ""
  end.

(** The words of a simple command that fills the line. *)
Fixpoint sh_words (fuel : nat) (line : string) : option (list string) :=
  match fuel with
  | O => None
  | S fuel =>
      match skip_blanks line with
      | "" => Some []
      | String c s =>
          if ends_word c then None
          else match sh_word false (String c s) with
               | Some (w, rest) => match sh_words fuel rest with
                                   | Some ws => Some (w :: ws)
                                   | None => None
                                   end
               | None => None
               end
      end
  end.
Definition sh_argv (line : string) : option (list string) := sh_words (S (String.length line)) line.

(** A here-document with a quoted delimiter: the lines before the first one
    that is the delimiter, and what follows it. *)
Fixpoint heredoc_from (delim cur s : string) : option (string * string) :=
  match s with
  | "" => None
  | String c s' =>
      if is_nl c then
        if bool_decide (cur = delim) then Some ("", s')
        else match heredoc_from delim "" s' with
             | Some (body, rest) => Some (cur +:+ nl +:+ body, rest)
             | None => None
             end
      else heredoc_from delim (cur +:+ String c "") s'
  end.
Definition heredoc (delim s : string) : option (string * string) := heredoc_from delim "" s.

(** The command that reads a here-document: redirections belong to the command
    of the pipeline they are written in, here the one in which the first
    unquoted [<<] of the line occurs. *)
Fixpoint heredoc_segment (quoted : bool) (seg s : string) : option string :=
  match s with
  | "" => None
  | String c s' =>
      if quoted then heredoc_segment (negb (is_sq c)) seg s'
      else if is_sq c then heredoc_segment true seg s'
      else if is_backslash c then
        match s' with String _ s'' => heredoc_segment false seg s'' | "" => None end
      else if char_in c [124] then heredoc_segment false s' s'
      else if char_in c [60] then
        match s' with
        | String d _ => if char_in d [60] then Some seg else heredoc_segment false seg s'
        | "" => None
        end
      else heredoc_segment false seg s'
  end.
Definition heredoc_reader (line : string) : option string :=
  match heredoc_segment false line line with
  | Some seg => fst <$> sh_word false (skip_blanks seg)
  | None => None
  end.

(** ** What running the script does

    The lines the converter writes for files, and those of its loader, are
    pipelines of simple commands with output redirections and here-documents
    with a quoted delimiter.  A line is cut into tokens; whatever is not such a
    line, or not one of the commands below, is not read ([None]), and neither
    is anything after a command that fails ([set -e], [pipefail]). *)

Inductive sh_token := TWord (w : string) | TPipe | TOut (append : bool) | THere.

(** A word written against a redirection (a file descriptor number, say). *)
Definition glued (rest : string) : bool :=
  match rest with String c _ => char_in c [60; 62] | "" => false end.

(** The tokens up to the newline that ends the line, and what follows it. *)
Fixpoint sh_tokens (fuel : nat) (s : string) : option (list sh_token * string) :=
  match fuel with
  | O => None
  | S fuel =>
      let emit t s := '(ts, rest) ← sh_tokens fuel s; Some (t :: ts, rest) in
      match skip_blanks s with
      | "" => Some ([], "")
      | String c s' =>
          if is_nl c then Some ([], s')
          else if char_in c [124] then emit TPipe s'
          else if char_in c [62] then
            match s' with
            | String d s'' => if char_in d [62] then emit (TOut true) s'' else emit (TOut false) s'
            | "" => None
            end
          else if char_in c [60] then
            match s' with
            | String d (String e s'') =>
                if char_in d [60] && is_sq e then emit THere (String e s'') else None
            | _ => None
            end
          else if ends_word c then None
          else '(w, rest) ← sh_word false (String c s');
               if glued rest then None else emit (TWord w) rest
      end
  end.

(** A command of a pipeline: its words, the delimiter of its here-document (then
    the document), its output file and whether that is appended to. *)
Record stage := mkStage {
  st_argv : list string;
  st_here : option string;
  st_out : option (bool * string)
}.

Fixpoint sh_stages (argv : list string) (here : option string) (out : option (bool * string))
    (ts : list sh_token) : option (list stage) :=
  match ts with
  | [] => Some [mkStage argv here out]
  | TWord w :: ts => sh_stages (argv ++ [w]) here out ts
  | TPipe :: ts => stages ← sh_stages [] None None ts; Some (mkStage argv here out :: stages)
  | TOut append :: TWord w :: ts =>
      match out with None => sh_stages argv here (Some (append, w)) ts | Some _ => None end
  | THere :: TWord w :: ts =>
      match here with None => sh_stages argv (Some w) out ts | Some _ => None end
  | _ => None
  end.

(** The here-documents of the line follow it in the order of the commands. *)
Fixpoint sh_docs (stages : list stage) (s : string) : option (list stage * string) :=
  match stages with
  | [] => Some ([], s)
  | st :: stages =>
      '(here, s) ← match st_here st with
                   | None => Some (None, s)
                   | Some d => '(body, s) ← heredoc d s; Some (Some body, s)
                   end;
      '(stages, s) ← sh_docs stages s;
      Some (mkStage (st_argv st) here (st_out st) :: stages, s)
  end.

(** The files of the machine, by the name the script uses for them, their
    modes and owners, the directories made, and the program the shell has
    replaced itself with. *)
Record host := mkHost {
  h_dirs : list string;
  h_files : gmap string string;
  h_modes : gmap string string;
  h_owners : gmap string string;
  h_exec : option string
}.

Definition host_write (append : bool) (file text : string) (h : host) : host :=
  mkHost (h_dirs h)
    (<[file := (if append then default "" (h_files h !! file) else "") +:+ text]> (h_files h))
    (h_modes h) (h_owners h) (h_exec h).

(** An operand that is not taken for an option. *)
Definition operand (w : string) : bool := negb (HasPrefix w "-").

Section run.
Context `{!Gzip}.

(** A command on its standard input: its standard output and its effect. *)
Definition sh_command (argv : list string) (stdin : string) (h : host) : option (string * host) :=
  match argv with
  | [c] => if bool_decide (c = "gunzip") then out ← gunzip stdin; Some (out, h) else None
  | [c; a] =>
      if bool_decide (c = "base64" ∧ a = "-d") then
        match DecodeString stdin with Ok out => Some (out, h) | Err _ => None end
      else if bool_decide (c = "exec") && operand a && bool_decide (is_Some (h_files h !! a)) then
        Some ("", mkHost (h_dirs h) (h_files h) (h_modes h) (h_owners h) (Some a))
      else None
  | [c; a; b] =>
      if bool_decide (c = "set" ∧ a = "-euo" ∧ b = "pipefail") then Some ("", h)
      else if bool_decide (c = "mkdir" ∧ a = "-p") && operand b then
        Some ("", mkHost (h_dirs h ++ [b]) (h_files h) (h_modes h) (h_owners h) (h_exec h))
      else if operand a && operand b && bool_decide (is_Some (h_files h !! b)) then
        if bool_decide (c = "chmod") then
          Some ("", mkHost (h_dirs h) (h_files h) (<[b := a]> (h_modes h)) (h_owners h) (h_exec h))
        else if bool_decide (c = "chown") then
          Some ("", mkHost (h_dirs h) (h_files h) (h_modes h) (<[b := a]> (h_owners h)) (h_exec h))
        else None
      else None
  | _ => None
  end.

(** Each command reads its here-document, or else what the one before it wrote. *)
Fixpoint sh_pipeline (stdin : string) (stages : list stage) (h : host) : option host :=
  match stages with
  | [] => Some h
  | st :: stages =>
      '(out, h) ← sh_command (st_argv st) (default stdin (st_here st)) h;
      match st_out st with
      | None => sh_pipeline out stages h
      | Some (append, file) => sh_pipeline "" stages (host_write append file out h)
      end
  end.

Fixpoint skip_line (s : string) : string :=
  match s with
  | "" => ""
  | String c s => if is_nl c then s else skip_line s
  end.

Definition is_comment (s : string) : bool :=
  match s with String c _ => char_in c [35] | "" => false end.

(** One line, with its here-documents: what is left of the script after it. *)
Definition sh_step (s : string) (h : host) : option (string * host) :=
  if is_comment s then Some (skip_line s, h)
  else
    '(ts, s) ← sh_tokens (String.length s) s;
    match ts with
    | [] => Some (s, h)
    | _ =>
        stages ← sh_stages [] None None ts;
        '(stages, s) ← sh_docs stages s;
        h ← sh_pipeline "" stages h;
        Some (if bool_decide (is_Some (h_exec h)) then "" else s, h)
    end.

Fixpoint sh_steps (n : nat) (s : string) (h : host) : option (string * host) :=
  match n with
  | O => Some (s, h)
  | S n => '(s, h) ← sh_step s h; sh_steps n s h
  end.
End run.

(** *** Quoted words *)

Definition app_word (w : string) (r : option (string * string)) : option (string * string) :=
  match r with Some (v, rest) => Some (w +:+ v, rest) | None => None end.

Lemma app_word_nil r : app_word "" r = r.
Proof. by destruct r as [[]|]. Qed.
Lemma app_word_cons c w r : app_word (String c w) r = cons_word c (app_word w r).
Proof. by destruct r as [[]|]. Qed.

Lemma replace_sq_cons new c s :
  ReplaceAll (String c s) sq new =
  (if is_sq c then new else String c "") +:+ ReplaceAll s sq new.
Proof.
  unfold ReplaceAll, sq, is_sq, char_in. cbn -[ascii_dec nat_of_ascii ascii_of_nat].
  destruct (ascii_dec (ascii_of_nat 39) c) as [<-|Hne].
  - rewrite bool_decide_eq_true_2 by set_solver. by destruct s.
  - rewrite bool_decide_eq_false_2; [done|].
    intros Hin%list_elem_of_singleton. destruct Hne. by rewrite <-Hin, ascii_nat_embedding.
Qed.

(** Inside the quotes. *)
Lemma sh_word_quoted s rest :
  sh_word true (ReplaceAll s sq (sq +:+ String (ascii_of_nat 92) sq +:+ sq) +:+ sq +:+ rest) =
  app_word s (sh_word false rest).
Proof.
  induction s as [|c s IH].
  - by rewrite app_word_nil.
  - rewrite replace_sq_cons, app_word_cons, <-IH. destruct (is_sq c) eqn:Hc.
    + assert (c = ascii_of_nat 39) as ->.
      { unfold is_sq, char_in in Hc. apply bool_decide_eq_true, list_elem_of_singleton in Hc.
        by rewrite <-Hc, ascii_nat_embedding. }
      done.
    + rewrite !string_app_cons, !string_app_nil_l. cbn [sh_word]. by rewrite Hc.
Qed.

(** A quoted word is read back as the original, whatever bytes it has. *)
Lemma sh_word_shellQuote s rest :
  sh_word false (shellQuote s +:+ rest) = app_word s (sh_word false rest).
Proof.
  unfold shellQuote. case_bool_decide as Hs; [subst; by rewrite app_word_nil|].
  rewrite !string_app_assoc. change (sq +:+ ?x) with (String (ascii_of_nat 39) x).
  rewrite <-sh_word_quoted. done.
Qed.

Lemma sh_word_quote_end s c t :
  ends_word c = true → is_sq c = false → is_backslash c = false →
  sh_word false (shellQuote s +:+ String c t) = Some (s, String c t).
Proof.
  intros He Hs Hb. rewrite sh_word_shellQuote. cbn [sh_word]. rewrite Hs, Hb, He. cbn.
  by rewrite string_app_nil_r.
Qed.

(** *** Command lines *)

Lemma shellQuote_head s : ∃ t, shellQuote s = String (ascii_of_nat 39) t.
Proof. unfold shellQuote. case_bool_decide; by eexists. Qed.

Lemma sh_words_quoted fuel w rest ws :
  (rest = "" ∨ ∃ t, rest = " " +:+ t) → sh_words fuel rest = Some ws →
  sh_words (S fuel) (shellQuote w +:+ rest) = Some (w :: ws).
Proof.
  intros Hrest Hws. cbn [sh_words]. destruct (shellQuote_head w) as [t Ht].
  assert (skip_blanks (shellQuote w +:+ rest) = shellQuote w +:+ rest) as ->
    by (by rewrite Ht, string_app_cons).
  rewrite Ht, string_app_cons at 1. cbn iota.
  assert (ends_word (ascii_of_nat 39) = false) as -> by done.
  replace (String (ascii_of_nat 39) (t +:+ rest)) with (shellQuote w +:+ rest)
    by (by rewrite Ht, string_app_cons).
  rewrite sh_word_shellQuote.
  assert (sh_word false rest = Some ("", rest)) as -> by (by destruct Hrest as [->|[u ->]]).
  cbn. by rewrite string_app_nil_r, Hws.
Qed.

Lemma sh_words_blank fuel s ws :
  sh_words fuel s = Some ws → sh_words fuel (" " +:+ s) = Some ws.
Proof. destruct fuel; [done|]. cbn [sh_words]. by change (skip_blanks (" " +:+ s)) with (skip_blanks s). Qed.

Lemma Join_cons x y (l : list string) sep : Join (x :: y :: l) sep = x +:+ sep +:+ Join (y :: l) sep.
Proof. done. Qed.

Lemma sh_words_join c : ∀ fuel, (List.length c < fuel)%nat →
  sh_words fuel (Join (shellQuote <$> c) " ") = Some c.
Proof.
  induction c as [|w c IH]; intros [|fuel] Hf; cbn in Hf; [lia|done|lia|].
  destruct c as [|v c].
  - cbn [fmap list_fmap Join]. rewrite <-(string_app_nil_r (shellQuote w)).
    apply sh_words_quoted; [by left|]. by destruct fuel; [lia|].
  - rewrite !fmap_cons, Join_cons, <-fmap_cons. apply sh_words_quoted; [right; by eexists|].
    apply sh_words_blank, IH. cbn in *. lia.
Qed.

Lemma Join_length_le c : (List.length c <= String.length (Join (shellQuote <$> c) " "))%nat.
Proof.
  induction c as [|w c IH]; [done|]. destruct (shellQuote_head w) as [t Ht].
  destruct c as [|v c]; cbn [fmap list_fmap Join].
  - rewrite Ht. cbn. lia.
  - rewrite Ht. cbn [fmap list_fmap Join] in IH. rewrite !string_length_app. cbn in *. lia.
Qed.

Lemma command_argv (c : command) :
  (List.length c ≠ 1)%nat → sh_argv (shell c) = Some c.
Proof.
  intros Hl. assert (shell c = Join (shellQuote <$> c) " ") as ->.
  { destruct c as [|x [|y c]]; done. }
  apply sh_words_join. pose proof (Join_length_le c). lia.
Qed.

(** The text a JSON value stands for: null is the empty string. *)
Definition text_value (v : json) : option string :=
  match v with JString s => Some s | JNull => Some "" | _ => None end.

Lemma unmarshal_items_ok l ss : unmarshal_items l = Ok ss ↔ mapM text_value l = Some ss.
Proof.
  revert ss. induction l as [|v l IH]; intros ss; cbn; [split; by intros [= <-]|].
  destruct (unmarshal_items l) as [us|e]; [pose proof (proj1 (IH us) eq_refl) as Hu|].
  - rewrite Hu. destruct v; cbn; split; intros [=]; by subst.
  - assert (mapM text_value l = None) as -> by
      (destruct (mapM text_value l) as [ws|]; [|done]; discriminate (proj2 (IH ws) eq_refl)).
    destruct v; cbn; split; by intros [=].
Qed.

(** (C31) What becomes of a command of the document.  A string is run as
    written, null as an empty command.  A list of strings (null items being
    empty ones) other than of a single one is split back by the shell into
    exactly those arguments, whatever characters they contain.  A list of a
    single string is not quoted but run as written, as if it were that string: it
    arrives as one argument only if the shell reads it as one word.  Any other
    value is refused. *)
Theorem command_delivered v :
  match v with
  | JString s => ∃ c, command_UnmarshalJSON v = Ok c ∧ shell c = s
  | JNull => ∃ c, command_UnmarshalJSON v = Ok c ∧ shell c = ""
  | JArray l =>
      match mapM text_value l with
      | Some [s] => ∃ c, command_UnmarshalJSON v = Ok c ∧ shell c = s
      | Some args => ∃ c, command_UnmarshalJSON v = Ok c ∧ sh_argv (shell c) = Some args
      | None => ∃ e, command_UnmarshalJSON v = Err e
      end
  | _ => ∃ e, command_UnmarshalJSON v = Err e
  end.
Proof.
  unfold command_UnmarshalJSON. destruct v as [|b|n|s|l|o]; cbn; try by eexists.
  destruct (unmarshal_items l) as [ss|e] eqn:Hl.
  - apply unmarshal_items_ok in Hl as Hm. rewrite Hm.
    destruct ss as [|s [|s' ss]]; eexists; (split; [done|]); [|done|]; by apply command_argv.
  - destruct (mapM text_value l) as [ss|] eqn:Hm; [|by eexists].
    apply unmarshal_items_ok in Hm. congruence.
Qed.

(** *** Wrapped base64 in here-documents *)

(** The loop of [wrapBase64], without the fuel. *)
Lemma wrap_loop_enough fuel s :
  (String.length s <= fuel)%nat → wrap_loop fuel s = wrapBase64 s.
Proof.
  unfold wrapBase64. intros Hf. remember (String.length s) as n eqn:Hn.
  revert fuel s Hf Hn. induction n as [n IH] using lt_wf_ind. intros fuel s Hf Hn.
  destruct fuel as [|fuel], n as [|n]; try lia; cbn [wrap_loop].
  - done.
  - by rewrite (proj2 (Nat.ltb_ge 76 (String.length s))) by lia.
  - destruct (76 <? String.length s)%nat eqn:Hlt; [|done]. apply Nat.ltb_lt in Hlt.
    rewrite (IH (String.length (str_drop 76 s))) with (fuel := fuel); [|rewrite str_drop_length; lia..|done].
    rewrite (IH (String.length (str_drop 76 s))) with (fuel := n); [|rewrite str_drop_length; lia..|done].
    done.
Qed.

Lemma wrapBase64_eq s :
  wrapBase64 s = if (76 <? String.length s)%nat
                 then str_take 76 s +:+ nl +:+ wrapBase64 (str_drop 76 s) else s +:+ nl.
Proof.
  rewrite <-(wrap_loop_enough (S (String.length s))) by lia. cbn [wrap_loop].
  case_match; [|done]. rewrite wrap_loop_enough; [done|]. rewrite str_drop_length. lia.
Qed.

Lemma wrapBase64_ind (P : string → Prop) :
  (∀ s, (String.length s <= 76)%nat → P s) →
  (∀ s, (76 < String.length s)%nat → P (str_drop 76 s) → P s) → ∀ s, P s.
Proof.
  intros H0 H1 s. remember (String.length s) as n eqn:Hn. revert s Hn.
  induction n as [n IH] using lt_wf_ind. intros s Hn.
  destruct (decide (76 < String.length s)%nat) as [Hlt|Hge]; [|apply H0; lia].
  apply H1; [done|]. eapply IH; [|done]. rewrite str_drop_length. lia.
Qed.

Definition all_b64 (s : string) : Prop := Forall (λ c, is_b64 c = true) (chars s).

Lemma all_b64_split s n : all_b64 s → all_b64 (str_take n s) ∧ all_b64 (str_drop n s).
Proof. unfold all_b64. rewrite <-(str_take_drop n s) at 1. rewrite chars_app. apply Forall_app. Qed.

Lemma strip_wrapBase64 s : all_b64 s → strip_newlines (wrapBase64 s) = s.
Proof.
  induction s as [s Hs|s Hs IH] using wrapBase64_ind; intros Hb; rewrite wrapBase64_eq.
  - rewrite (proj2 (Nat.ltb_ge _ _) Hs), strip_newlines_app, strip_newlines_b64 by done.
    by rewrite string_app_nil_r.
  - rewrite (proj2 (Nat.ltb_lt _ _) Hs), !strip_newlines_app.
    destruct (all_b64_split s 76 Hb) as [Ht Hd]. rewrite strip_newlines_b64, IH by done.
    change (strip_newlines nl) with "". by rewrite string_app_nil_l, str_take_drop.
Qed.

(** A line without newlines, other than the delimiter, belongs to the body. *)
Lemma heredoc_from_line delim cur line s :
  all_b64 line →
  heredoc_from delim cur (line +:+ nl +:+ s) =
  if bool_decide (cur +:+ line = delim) then Some ("", s)
  else match heredoc_from delim "" s with
       | Some (body, rest) => Some ((cur +:+ line) +:+ nl +:+ body, rest)
       | None => None
       end.
Proof.
  revert cur. induction line as [|c line IH]; intros cur Hb.
  - by rewrite !string_app_nil_r.
  - apply Forall_cons in Hb as [Hc Hl]. rewrite string_app_cons. cbn [heredoc_from].
    assert (is_nl c = false) as ->.
    { apply b64_not_newline in Hc. unfold is_nl, char_in. apply bool_decide_eq_false.
      intros Hin%list_elem_of_singleton. unfold is_newline, byte in Hc. by rewrite Hin in Hc. }
    rewrite IH by done. by rewrite string_app_assoc, string_app_cons, string_app_nil_l.
Qed.

(** A delimiter no encoded line can be mistaken for, and that fits a line. *)
Definition good_delim (d : string) : Prop := ¬ all_b64 d ∧ Forall (λ c, is_nl c = false) (chars d).

Lemma heredoc_delim delim cur d s :
  Forall (λ c, is_nl c = false) (chars d) → cur +:+ d = delim →
  heredoc_from delim cur (d +:+ nl +:+ s) = Some ("", s).
Proof.
  revert cur. induction d as [|c d IH]; intros cur Hd Heq.
  - rewrite string_app_nil_r in Heq. rewrite string_app_nil_l. unfold nl.
    rewrite string_app_cons. cbn [heredoc_from]. by rewrite bool_decide_eq_true_2.
  - apply Forall_cons in Hd as [Hc Hd]. rewrite string_app_cons. cbn [heredoc_from]. rewrite Hc.
    apply IH; [done|]. by rewrite string_app_assoc, string_app_cons, string_app_nil_l.
Qed.

Lemma heredoc_wrapBase64 d s rest :
  good_delim d → all_b64 s →
  heredoc d (wrapBase64 s +:+ d +:+ nl +:+ rest) = Some (wrapBase64 s, rest).
Proof.
  intros [Hd Hn] Hb. unfold heredoc.
  induction s as [s Hs|s Hs IH] using wrapBase64_ind; rewrite wrapBase64_eq.
  - rewrite (proj2 (Nat.ltb_ge _ _) Hs), !string_app_assoc, heredoc_from_line by done.
    rewrite string_app_nil_l, bool_decide_eq_false_2 by (by intros <-).
    rewrite heredoc_delim by done. by rewrite string_app_nil_r.
  - rewrite (proj2 (Nat.ltb_lt _ _) Hs), !string_app_assoc.
    destruct (all_b64_split s 76 Hb) as [Ht Hdr].
    rewrite heredoc_from_line, string_app_nil_l, bool_decide_eq_false_2 by (done || by intros <-).
    by rewrite IH.
Qed.

(** *** Decimal numbers have only digits *)

Definition is_digit_char (c : ascii) : bool := char_in c [48; 49; 50; 51; 52; 53; 54; 55; 56; 57].

Lemma pretty_N_digits n : Forall (λ c, is_digit_char c = true) (chars (pretty (n : N))).
Proof.
  cut (∀ s, Forall (λ c, is_digit_char c = true) (chars s) →
    Forall (λ c, is_digit_char c = true) (chars (pretty_N_go n s))).
  { intros Hgo. unfold pretty, pretty_N. case_decide; [repeat constructor|by apply Hgo]. }
  induction (N.lt_wf_0 n) as [n _ IH]. intros s Hs.
  destruct (decide (n = 0)%N) as [->|Hn]; [by rewrite pretty_N_go_0|].
  rewrite pretty_N_go_step by lia. apply IH; [apply N.div_lt; lia|].
  constructor; [|done]. unfold pretty_N_char. by repeat case_match.
Qed.

Lemma fmt_d_digits n : Forall (λ c, is_digit_char c = true) (chars (fmt_d (Z.of_nat n))).
Proof.
  unfold fmt_d, pretty, pretty_Z. destruct n as [|n]; [repeat constructor|].
  apply (pretty_N_digits (Npos (Pos.of_succ_nat n))).
Qed.

Lemma digit_not_nl c : is_digit_char c = true → is_nl c = false.
Proof.
  unfold is_digit_char, is_nl, char_in. rewrite bool_decide_eq_true, bool_decide_eq_false.
  intros Hd Hin%list_elem_of_singleton. rewrite Hin in Hd. set_solver.
Qed.

Lemma good_delim_intro d :
  Forall (λ c, is_nl c = false) (chars d) → (∃ t, d = String "_" t) → good_delim d.
Proof. intros Hn [t ->]. split; [|done]. intros [Hc _]%Forall_cons. done. Qed.

Lemma good_delim_file idx : good_delim (delim idx).
Proof.
  apply good_delim_intro; [|by eexists]. unfold delim. rewrite !chars_app, !Forall_app.
  split_and!; [by repeat constructor| |by repeat constructor].
  eapply Forall_impl; [apply fmt_d_digits|]. intros c. apply digit_not_nl.
Qed.

Lemma good_delim_gz : good_delim "__CAPI_GZ__".
Proof. apply good_delim_intro; [by repeat constructor|by eexists]. Qed.

Lemma base64_wrapped s : DecodeString (wrapBase64 (EncodeToString s)) = Ok s.
Proof.
  unfold DecodeString. rewrite strip_wrapBase64 by apply EncodeToString_b64.
  apply decode_quanta_encode.
Qed.

Lemma all_b64_no_nl s : all_b64 s → Forall (λ c, c ≠ ascii_of_nat 10) (chars s).
Proof.
  intros Hb. eapply Forall_impl; [exact Hb|]. intros c Hc ->. by vm_compute in Hc.
Qed.

(** What is encoded into a script comes out again: the lines written are
    at most 76 bytes long, and base64 decoding, which skips the line breaks,
    gives back the bytes that were encoded, whatever they are. *)
Theorem base64_wrapped_round_trip s :
  DecodeString (wrapBase64 (EncodeToString s)) = Ok s ∧
  Forall (λ line, String.length line <= 76)%nat
    (split_char (ascii_of_nat 10) (wrapBase64 (EncodeToString s))).
Proof.
  split; [apply base64_wrapped|].
  pose proof (EncodeToString_b64 s) as Hb. fold (all_b64 (EncodeToString s)) in Hb.
  generalize dependent (EncodeToString s). clear s. intros s.
  induction s as [s Hs|s Hs IH] using wrapBase64_ind; intros Hb; rewrite wrapBase64_eq.
  - rewrite (proj2 (Nat.ltb_ge _ _) Hs). unfold nl. rewrite split_char_app by by apply all_b64_no_nl.
    constructor; [done|]. constructor; [cbn; lia|constructor].
  - rewrite (proj2 (Nat.ltb_lt _ _) Hs). destruct (all_b64_split s 76 Hb) as [Ht Hd].
    unfold nl. rewrite string_app_cons, string_app_nil_l, split_char_app by by apply all_b64_no_nl.
    constructor; [rewrite str_take_length; lia|by apply IH].
Qed.

(** *** Which command reads the here-document *)

Lemma heredoc_segment_quoted seg s rest :
  heredoc_segment true seg (ReplaceAll s sq (sq +:+ String (ascii_of_nat 92) sq +:+ sq) +:+ sq +:+ rest) =
  heredoc_segment false seg rest.
Proof.
  induction s as [|c s IH]; [done|]. rewrite replace_sq_cons. destruct (is_sq c) eqn:Hc; [exact IH|].
  rewrite !string_app_cons, !string_app_nil_l. cbn [heredoc_segment]. by rewrite Hc.
Qed.

Lemma heredoc_segment_shellQuote seg s rest :
  heredoc_segment false seg (shellQuote s +:+ rest) = heredoc_segment false seg rest.
Proof.
  unfold shellQuote. case_bool_decide as Hs; [done|].
  rewrite !string_app_assoc. change (sq +:+ ?x) with (String (ascii_of_nat 39) x).
  rewrite <-(heredoc_segment_quoted seg s rest). done.
Qed.

Lemma writeFileRedirect_reader idx f :
  heredoc_reader (writeFileRedirect idx f) = Some (if isGzip (wf_Encoding f) then "gunzip" else "base64").
Proof.
  unfold heredoc_reader, writeFileRedirect.
  set (t := shellQuote (wf_Path f) +:+ " <<" +:+ sq +:+ delim idx +:+ sq +:+ nl).
  assert (∀ seg, heredoc_segment false seg t = Some seg) as Ht
    by (intros seg; unfold t; by rewrite heredoc_segment_shellQuote).
  clearbody t. set (arrow := if wf_Append f then ">>" else ">").
  assert (∀ seg, heredoc_segment false seg (" " +:+ arrow +:+ " " +:+ t) = Some seg) as Ha
    by (intros seg; unfold arrow; rewrite <-(Ht seg); by destruct (wf_Append f)).
  generalize dependent (arrow +:+ " " +:+ t). clear arrow t Ht. intros t Ht.
  destruct (isGzip _).
  - change (heredoc_segment false ("base64 -d | gunzip" +:+ " " +:+ t) ("base64 -d | gunzip" +:+ " " +:+ t))
      with (heredoc_segment false (" gunzip" +:+ " " +:+ t) (" " +:+ t)). by rewrite Ht.
  - change (heredoc_segment false ("base64 -d" +:+ " " +:+ t) ("base64 -d" +:+ " " +:+ t))
      with (heredoc_segment false ("base64 -d" +:+ " " +:+ t) (" " +:+ t)). by rewrite Ht.
Qed.

(** *** Running the lines of a file *)

Lemma sh_tokens_mono n m s r : (n <= m)%nat → sh_tokens n s = Some r → sh_tokens m s = Some r.
Proof.
  revert m s r. induction n as [|n IH]; intros [|m] s r Hle; [done|done|lia|]. cbn [sh_tokens]. cbn zeta.
  assert (∀ t u v, ('(ts, rest) ← sh_tokens n u; Some (t :: ts, rest)) = Some v →
    ('(ts, rest) ← sh_tokens m u; Some (t :: ts, rest)) = Some v) as Hemit.
  { intros t u v. destruct (sh_tokens n u) as [q|] eqn:Hq; [|done]. by rewrite (IH m u q) by (done || lia). }
  repeat case_match; try done; try apply Hemit.
  destruct (sh_word _ _) as [[w rest]|]; [|done]. cbn. destruct (glued rest); [done|apply Hemit].
Qed.

Lemma sh_tokens_blank n s : sh_tokens n (" " +:+ s) = sh_tokens n s.
Proof. destruct n; [done|]. cbn [sh_tokens]. by change (skip_blanks (" " +:+ s)) with (skip_blanks s). Qed.

Lemma sh_tokens_quote n w c rest ts r :
  char_in c [32; 10] = true → sh_tokens n (String c rest) = Some (ts, r) →
  sh_tokens (S n) (shellQuote w +:+ String c rest) = Some (TWord w :: ts, r).
Proof.
  intros Hc Hts. cbn [sh_tokens]. cbn zeta. destruct (shellQuote_head w) as [t Ht].
  assert (skip_blanks (shellQuote w +:+ String c rest) = shellQuote w +:+ String c rest) as ->
    by (by rewrite Ht, string_app_cons).
  rewrite Ht, string_app_cons at 1. cbn iota.
  change (is_nl (ascii_of_nat 39)) with false. change (char_in (ascii_of_nat 39) ?l) with false.
  change (ends_word (ascii_of_nat 39)) with false. cbn iota.
  replace (String (ascii_of_nat 39) (t +:+ String c rest)) with (shellQuote w +:+ String c rest)
    by (by rewrite Ht, string_app_cons).
  assert (c = " "%char ∨ c = ascii_of_nat 10) as [-> | ->].
  { unfold char_in in Hc. apply bool_decide_eq_true in Hc.
    rewrite <-(ascii_nat_embedding c). set_unfold in Hc. destruct Hc as [->|[->|[]]]; [by left|by right]. }
  all: rewrite sh_word_quote_end by done; cbn; by rewrite Hts.
Qed.

Lemma sh_tokens_last n w rest :
  sh_tokens (S (S n)) (shellQuote w +:+ nl +:+ rest) = Some ([TWord w], rest).
Proof. exact (sh_tokens_quote (S n) w (ascii_of_nat 10) rest [] rest eq_refl eq_refl). Qed.

Lemma sh_word_plain d t :
  Forall (λ c, is_sq c = false) (chars d) →
  sh_word true (d +:+ sq +:+ t) = app_word d (sh_word false t).
Proof.
  induction d as [|c d IH]; [by rewrite app_word_nil|]. intros [Hc Hd]%Forall_cons.
  rewrite app_word_cons, <-IH, string_app_cons by done. cbn [sh_word]. by rewrite Hc.
Qed.

Lemma digit_not_sq c : is_digit_char c = true → is_sq c = false.
Proof.
  unfold is_digit_char, is_sq, char_in. rewrite bool_decide_eq_true, bool_decide_eq_false.
  intros Hd Hin%list_elem_of_singleton. rewrite Hin in Hd. set_solver.
Qed.

Lemma delim_no_quote idx : Forall (λ c, is_sq c = false) (chars (delim idx)).
Proof.
  unfold delim. rewrite !chars_app, !Forall_app.
  split_and!; [by repeat constructor| |by repeat constructor].
  eapply Forall_impl; [apply fmt_d_digits|]. intros c. apply digit_not_sq.
Qed.

Lemma sh_tokens_here n d rest :
  Forall (λ c, is_sq c = false) (chars d) →
  sh_tokens (S (S (S n))) (" <<" +:+ sq +:+ d +:+ sq +:+ nl +:+ rest) = Some ([THere; TWord d], rest).
Proof.
  intros Hd. rewrite (sh_tokens_blank _ ("<<" +:+ sq +:+ d +:+ sq +:+ nl +:+ rest)).
  change (sh_tokens (S (S (S n))) ("<<" +:+ sq +:+ d +:+ sq +:+ nl +:+ rest)) with
    ('(ts, r) ← ('(w, s) ← sh_word true (d +:+ sq +:+ nl +:+ rest);
       if glued s then None
       else '(ts, r) ← sh_tokens (S n) s; Some (TWord w :: ts, r)); Some (THere :: ts, r)).
  rewrite sh_word_plain by done.
  change (sh_word false (nl +:+ rest)) with (Some ("", nl +:+ rest)). cbn [app_word].
  by rewrite string_app_nil_r.
Qed.

(** *** The lines *)
Section lines.
Context `{!Gzip}.
Implicit Types (h : host) (f : writeFile).

Lemma sh_steps_app n m s t u h h' h'' :
  sh_steps n s h = Some (t, h') → sh_steps m t h' = Some (u, h'') →
  sh_steps (n + m) s h = Some (u, h'').
Proof.
  revert s h. induction n as [|n IH]; cbn; intros s h; [by intros [= -> ->]|].
  destruct (sh_step s h) as [[s' h1]|]; [|done]. cbn. apply IH.
Qed.

(** A line whose tokens are known. *)
Lemma sh_step_line n s ts rest stages stages' rest' h h' :
  is_comment s = false → (n <= String.length s)%nat → sh_tokens n s = Some (ts, rest) →
  ts ≠ [] → sh_stages [] None None ts = Some stages → sh_docs stages rest = Some (stages', rest') →
  sh_pipeline "" stages' h = Some h' → h_exec h' = None →
  sh_step s h = Some (rest', h').
Proof.
  intros Hc Hn Hts Hne Hst Hd Hp He. unfold sh_step. rewrite Hc, (sh_tokens_mono _ _ _ _ Hn Hts). cbn.
  destruct ts; [done|]. rewrite Hst. cbn. rewrite Hd. cbn. rewrite Hp. cbn.
  rewrite He. done.
Qed.

Lemma step_mkdir d rest h :
  operand d = true → h_exec h = None →
  sh_step ("mkdir -p " +:+ shellQuote d +:+ nl +:+ rest) h =
  Some (rest, mkHost (h_dirs h ++ [d]) (h_files h) (h_modes h) (h_owners h) (h_exec h)).
Proof.
  intros Hd He.
  apply (sh_step_line 5 _ [TWord "mkdir"; TWord "-p"; TWord d] rest
    [mkStage ["mkdir"; "-p"; d] None None] [mkStage ["mkdir"; "-p"; d] None None]); try done.
  - rewrite string_length_app. cbn. lia.
  - change (sh_tokens 5 ("mkdir -p " +:+ shellQuote d +:+ nl +:+ rest)) with
      ('(ts, r) ← ('(ts, r) ← sh_tokens 3 (" " +:+ shellQuote d +:+ nl +:+ rest); Some (TWord "-p" :: ts, r));
       Some (TWord "mkdir" :: ts, r)).
    by rewrite sh_tokens_blank, sh_tokens_last.
  - cbn. by rewrite Hd.
Qed.

Lemma step_mode (c : string) a b rest h h' :
  c ∈ ["chmod"; "chown"] →
  operand a = true → operand b = true → is_Some (h_files h !! b) → h_exec h = None →
  h' = (if bool_decide (c = "chmod")
        then mkHost (h_dirs h) (h_files h) (<[b := a]> (h_modes h)) (h_owners h) (h_exec h)
        else mkHost (h_dirs h) (h_files h) (h_modes h) (<[b := a]> (h_owners h)) (h_exec h)) →
  sh_step (c +:+ " " +:+ shellQuote a +:+ " " +:+ shellQuote b +:+ nl +:+ rest) h = Some (rest, h').
Proof.
  intros Hc Ha Hb Hf He Hh'.
  apply (sh_step_line 5 _ [TWord c; TWord a; TWord b] rest
    [mkStage [c; a; b] None None] [mkStage [c; a; b] None None]); try done.
  - set_unfold in Hc. by destruct Hc as [->|[->|[]]].
  - set_unfold in Hc. destruct Hc as [->|[->|[]]]; rewrite string_length_app; cbn; lia.
  - pose proof (sh_tokens_last 1 b rest) as Hq. rewrite <-sh_tokens_blank in Hq.
    pose proof (sh_tokens_quote 3 a " "%char _ _ rest eq_refl Hq) as Hq'.
    change (sh_tokens 4 (shellQuote a +:+ " " +:+ shellQuote b +:+ nl +:+ rest) =
      Some ([TWord a; TWord b], rest)) in Hq'.
    set_unfold in Hc. destruct Hc as [->|[->|[]]].
    + change (sh_tokens 5 ("chmod" +:+ " " +:+ ?x)) with
        ('(ts, r) ← sh_tokens 4 (" " +:+ x); Some (TWord "chmod" :: ts, r)).
      by rewrite sh_tokens_blank, Hq'.
    + change (sh_tokens 5 ("chown" +:+ " " +:+ ?x)) with
        ('(ts, r) ← sh_tokens 4 (" " +:+ x); Some (TWord "chown" :: ts, r)).
      by rewrite sh_tokens_blank, Hq'.
  - set_unfold in Hc. destruct Hc as [->|[->|[]]]; cbn;
      rewrite Ha, Hb, (bool_decide_eq_true_2 (is_Some _) Hf); cbn; by rewrite Hh'.
  - rewrite Hh'. by case_bool_decide.
Qed.

Lemma step_decode idx f content rest h :
  isGzip (wf_Encoding f) = false → h_exec h = None →
  sh_step (writeFileRedirect idx f +:+ wrapBase64 (EncodeToString content) +:+ delim idx +:+ nl +:+ rest) h =
  Some (rest, host_write (wf_Append f) (wf_Path f) content h).
Proof.
  intros Hgz He. unfold writeFileRedirect. rewrite Hgz, !string_app_assoc.
  set (text := wrapBase64 _ +:+ delim idx +:+ nl +:+ rest).
  apply (sh_step_line 8 _ [TWord "base64"; TWord "-d"; TOut (wf_Append f); TWord (wf_Path f); THere; TWord (delim idx)]
    text [mkStage ["base64"; "-d"] (Some (delim idx)) (Some (wf_Append f, wf_Path f))]
    [mkStage ["base64"; "-d"] (Some (wrapBase64 (EncodeToString content))) (Some (wf_Append f, wf_Path f))]);
    try done.
  - rewrite string_length_app. cbn. lia.
  - pose proof (sh_tokens_here 0 (delim idx) text (delim_no_quote idx)) as Hh.
    pose proof (sh_tokens_quote 3 (wf_Path f) " "%char _ _ text eq_refl Hh) as Hq.
    change (sh_tokens 4 (shellQuote (wf_Path f) +:+ " <<" +:+ sq +:+ delim idx +:+ sq +:+ nl +:+ text) =
      Some ([TWord (wf_Path f); THere; TWord (delim idx)], text)) in Hq.
    generalize dependent (shellQuote (wf_Path f) +:+ " <<" +:+ sq +:+ delim idx +:+ sq +:+ nl +:+ text).
    intros u Hu. rewrite <-(sh_tokens_blank 4 u) in Hu.
    apply (sh_tokens_mono 7); [lia|]. destruct (wf_Append f).
    + change (sh_tokens 7 ("base64 -d" +:+ " " +:+ ">>" +:+ " " +:+ u)) with
        ('(ts, r) ← ('(ts, r) ← ('(ts, r) ← sh_tokens 4 (" " +:+ u); Some (TOut true :: ts, r));
           Some (TWord "-d" :: ts, r)); Some (TWord "base64" :: ts, r)).
      by rewrite Hu.
    + change (sh_tokens 7 ("base64 -d" +:+ " " +:+ ">" +:+ " " +:+ u)) with
        ('(ts, r) ← ('(ts, r) ← ('(ts, r) ← sh_tokens 4 (" " +:+ u); Some (TOut false :: ts, r));
           Some (TWord "-d" :: ts, r)); Some (TWord "base64" :: ts, r)).
      by rewrite Hu.
  - cbn. unfold text. rewrite heredoc_wrapBase64; [done|apply good_delim_file|apply EncodeToString_b64].
  - cbn [sh_pipeline st_argv st_here st_out default].
    change (sh_command ["base64"; "-d"] ?s h) with
      (match DecodeString s with Ok out => Some (out, h) | Err _ => None end).
    unfold id. by rewrite base64_wrapped.
Qed.

(** *** Files *)

(** The file the document describes: a path, and a content given as it is or
    in base64.  None of the words the script passes to a command looks like an
    option. *)
Definition file_given f (content : string) : Prop :=
  wf_Path f ≠ "" ∧ Forall (λ w, operand w = true) [path_Dir (wf_Path f); wf_Path f; wf_Permissions f; wf_Owner f] ∧
  ((ToLower (TrimSpace (wf_Encoding f)) ∈ [""; "text/plain"] ∧ content = wf_Content f) ∨
   (ToLower (TrimSpace (wf_Encoding f)) ∈ ["b64"; "base64"] ∧
    DecodeString (TrimSpace (wf_Content f)) = Ok content)).

(** What the machine is to look like with it: its directory made, the content
    in the file (after what the file had, if it is to be appended to), and the
    permissions and the owner set if they are given. *)
Definition with_file f (content : string) h : host :=
  mkHost (h_dirs h ++ [path_Dir (wf_Path f)])
    (<[wf_Path f := if wf_Append f then default "" (h_files h !! wf_Path f) +:+ content else content]> (h_files h))
    (if decide (wf_Permissions f = "") then h_modes h else <[wf_Path f := wf_Permissions f]> (h_modes h))
    (if decide (wf_Owner f = "") then h_owners h else <[wf_Path f := wf_Owner f]> (h_owners h))
    (h_exec h).

Fixpoint with_files (fs : list writeFile) (contents : list string) h : host :=
  match fs, contents with
  | f :: fs, content :: contents => with_files fs contents (with_file f content h)
  | _, _ => h
  end.

Lemma file_given_decoded f content :
  file_given f content →
  decodeContent (wf_Content f) (wf_Encoding f) = Ok content ∧ isGzip (wf_Encoding f) = false.
Proof.
  intros (_ & _ & He). unfold decodeContent, isGzip. generalize dependent (ToLower (TrimSpace (wf_Encoding f))).
  intros enc [[Hin ->]|[Hin Hd]]; set_unfold in Hin; destruct Hin as [->|[->|[]]]; try done; cbn; by rewrite Hd.
Qed.

Lemma run_modes f rest h :
  operand (wf_Path f) = true → operand (wf_Permissions f) = true → operand (wf_Owner f) = true →
  is_Some (h_files h !! wf_Path f) → h_exec h = None →
  ∃ n, sh_steps n (writeFileModes f +:+ rest) h = Some (rest,
    mkHost (h_dirs h) (h_files h)
      (if decide (wf_Permissions f = "") then h_modes h else <[wf_Path f := wf_Permissions f]> (h_modes h))
      (if decide (wf_Owner f = "") then h_owners h else <[wf_Path f := wf_Owner f]> (h_owners h)) (h_exec h)).
Proof.
  intros Hp Hm Ho Hf He. unfold writeFileModes. rewrite string_app_assoc.
  set (owner := if bool_decide (wf_Owner f ≠ "") then _ else _).
  assert (∀ h', is_Some (h_files h' !! wf_Path f) → h_exec h' = None →
    ∃ n, sh_steps n (owner +:+ rest) h' = Some (rest, mkHost (h_dirs h') (h_files h') (h_modes h')
      (if decide (wf_Owner f = "") then h_owners h' else <[wf_Path f := wf_Owner f]> (h_owners h')) (h_exec h')))
    as Howner.
  { intros h' Hf' He'. unfold owner. case_bool_decide as Hno; case_decide; try done.
    - exists 1%nat. cbn [sh_steps]. rewrite !string_app_assoc.
      change ("chown " +:+ ?x) with ("chown" +:+ " " +:+ x).
      by erewrite (step_mode "chown") by (done || set_solver).
    - exists 0%nat. by destruct h'. }
  clearbody owner. destruct (decide (wf_Permissions f = "")) as [Hm0|Hm0];
    [rewrite bool_decide_eq_false_2 by naive_solver|rewrite bool_decide_eq_true_2 by done].
  { by apply Howner. }
  destruct (Howner (mkHost (h_dirs h) (h_files h) (<[wf_Path f := wf_Permissions f]> (h_modes h))
    (h_owners h) (h_exec h))) as [n Hn]; [done|done|].
  exists (1 + n)%nat. eapply sh_steps_app; [|exact Hn]. cbn [sh_steps]. rewrite !string_app_assoc.
  change ("chmod " +:+ ?x) with ("chmod" +:+ " " +:+ x).
  by erewrite (step_mode "chmod") by (done || set_solver).
Qed.

Lemma writeFile_runs idx f content rest h :
  file_given f content → h_exec h = None →
  ∃ script n, writeFileScript idx f = Ok script ∧
    sh_steps n (script +:+ rest) h = Some (rest, with_file f content h).
Proof.
  intros Hg He. pose proof Hg as (Hp & Hops & _).
  rewrite !Forall_cons in Hops. destruct Hops as (Hd & Hpo & Hm & Ho & _).
  destruct (file_given_decoded _ _ Hg) as [Hdec Hgz].
  unfold writeFileScript. rewrite bool_decide_eq_false_2 by done. rewrite Hdec.
  set (h1 := mkHost (h_dirs h ++ [path_Dir (wf_Path f)]) (h_files h) (h_modes h) (h_owners h) (h_exec h)).
  destruct (run_modes f rest (host_write (wf_Append f) (wf_Path f) content h1)) as [n Hn]; try done.
  { cbn. by rewrite lookup_insert_eq. }
  eexists _, (2 + n)%nat. split; [done|]. eapply sh_steps_app; [|etrans; [exact Hn|]].
  - cbn [sh_steps]. rewrite !string_app_assoc, step_mkdir by done. cbn. by rewrite step_decode.
  - unfold with_file, host_write, h1. cbn. by destruct (wf_Append f).
Qed.

(** (C29) The files of [write_files] arrive.  Files with a path and a content
    given plainly or in base64 (whatever its bytes), none of whose names, modes
    and owners looks like an option, are accepted, and a shell that runs the
    lines written for them (whatever follows in the script) makes each file's
    directory, leaves the decoded content at the file's path, after what was
    there if the file is to be appended to and instead of it otherwise, sets the
    permissions and the owner that are given, and then goes on with the rest of
    the script. *)
Theorem writeFiles_delivered fs contents rest h :
  Forall2 file_given fs contents → h_exec h = None →
  ∃ script n, writeFilesScript 0 fs = Ok script ∧
    sh_steps n (script +:+ rest) h = Some (rest, with_files fs contents h).
Proof.
  generalize 0%nat as idx. intros idx Hg. revert idx h.
  induction Hg as [|f content fs contents Hf Hg IH]; intros idx h He.
  { by exists "", 0%nat. }
  destruct (IH (S idx) (with_file f content h)) as (t & m & Ht & Hm); [done|].
  destruct (writeFile_runs idx f content (t +:+ rest) h Hf He) as (s & n & Hs & Hn).
  exists (s +:+ t), (n + m)%nat. cbn [writeFilesScript]. rewrite Hs, Ht. split; [done|].
  rewrite string_app_assoc. by eapply sh_steps_app.
Qed.
End lines.

(** (C39) A file whose encoding is a gzip one cannot arrive: the here-document
    with its base64 text is the input of [gunzip], the last command of the
    pipeline, not of the [base64 -d] before it. *)
Theorem gzip_file_misread idx f script :
  writeFileScript idx f = Ok script → isGzip (wf_Encoding f) = true →
  ∃ text, script = "mkdir -p " +:+ shellQuote (path_Dir (wf_Path f)) +:+ nl +:+
      writeFileRedirect idx f +:+ text ∧
    heredoc_reader (writeFileRedirect idx f) = Some "gunzip" ∧
    ∃ body rest, heredoc (delim idx) text = Some (body, rest) ∧
      ∃ content, decodeContent (wf_Content f) (wf_Encoding f) = Ok content ∧
        body = wrapBase64 (EncodeToString content).
Proof.
  unfold writeFileScript. case_bool_decide; [done|].
  destruct (decodeContent _ _) as [content|] eqn:Hdec; [|done]. intros [= <-] Hgz.
  eexists. split; [done|]. split; [by rewrite writeFileRedirect_reader, Hgz|].
  exists (wrapBase64 (EncodeToString content)), (writeFileModes f). split.
  - apply heredoc_wrapBase64; [apply good_delim_file|apply EncodeToString_b64].
  - by exists content.
Qed.

Section fit.
Context `{!CloudConfigCodec, !Gzip}.

Lemma fit_bound script out : fit script = Ok out → (String.length out <= MaxScriptSize)%nat.
Proof.
  unfold fit. destruct (_ <=? _)%nat eqn:Hle.
  { intros [= <-]. apply Nat.leb_le in Hle. unfold MaxScriptSize, compressThreshold in *. lia. }
  cbn zeta. destruct (_ <? _)%nat eqn:Hlt; [done|]. intros [= <-]. by apply Nat.ltb_ge in Hlt.
Qed.

(** *** The loader *)

Lemma wrapBase64_length s :
  (Z.of_nat (String.length (wrapBase64 s)) =
   Z.of_nat (String.length s) + Z.max 1 ((Z.of_nat (String.length s) + 75) / 76))%Z.
Proof.
  induction s as [s Hs|s Hs IH] using wrapBase64_ind; rewrite wrapBase64_eq.
  - rewrite (proj2 (Nat.ltb_ge _ _) Hs), string_length_app. cbn. Z.div_mod_to_equations. lia.
  - rewrite (proj2 (Nat.ltb_lt _ _) Hs), !string_length_app, !Nat2Z.inj_add, IH.
    rewrite str_take_length, str_drop_length. change (String.length nl) with 1%nat.
    Z.div_mod_to_equations. lia.
Qed.

Lemma EncodeToString_length s :
  (Z.of_nat (String.length (EncodeToString s)) = 4 * ((Z.of_nat (String.length s) + 2) / 3))%Z.
Proof.
  induction s as [|a|a b|a b c s IH] using string_ind3; [done|done|done|].
  cbn [EncodeToString String.length]. cbn zeta. cbn [String.length].
  rewrite !Nat2Z.inj_succ, IH. Z.div_mod_to_equations. lia.
Qed.

(** The file the loader unpacks the script to. *)
Definition loaded : string := "/run/capi-bootstrap.sh".

(** The size of a loader for [n] compressed bytes: its lines of shell, the
    base64 digits, and a newline for every 76 of them. *)
Definition loader_size (n : Z) : Z :=
  let digits := (4 * ((n + 2) / 3))%Z in
  (310 + digits + Z.max 1 ((digits + 75) / 76))%Z.

(** The machine when the loader is done: the script in its file, for its owner
    only, and running in place of the loader. *)
Definition with_loaded (script : string) (h : host) : host :=
  mkHost (h_dirs h) (<[loaded := script]> (h_files h)) (<[loaded := "0700"]> (h_modes h))
    (h_owners h) (Some loaded).

Lemma loader_length z :
  Z.of_nat (String.length (gzipPrologue +:+ wrapBase64 (EncodeToString z) +:+
    "__CAPI_GZ__" +:+ nl +:+ gzipEpilogue)) = loader_size (Z.of_nat (String.length z)).
Proof.
  rewrite !string_length_app, !Nat2Z.inj_add, wrapBase64_length, EncodeToString_length.
  unfold loader_size. cbn zeta.
  change (Z.of_nat (String.length gzipPrologue)) with 236%Z.
  change (Z.of_nat (String.length gzipEpilogue)) with 62%Z.
  change (Z.of_nat (String.length "__CAPI_GZ__")) with 11%Z. change (Z.of_nat (String.length nl)) with 1%Z.
  lia.
Qed.

Lemma step_unpack `{!GzipLaws} script rest h :
  h_exec h = None →
  sh_step ("base64 -d <<" +:+ sq +:+ "__CAPI_GZ__" +:+ sq +:+ " | gunzip > /run/capi-bootstrap.sh" +:+ nl +:+
    wrapBase64 (EncodeToString (gzip script)) +:+ "__CAPI_GZ__" +:+ nl +:+ rest) h =
  Some (rest, host_write false loaded script h).
Proof.
  intros He. set (text := wrapBase64 _ +:+ "__CAPI_GZ__" +:+ nl +:+ rest).
  apply (sh_step_line 9 _ [TWord "base64"; TWord "-d"; THere; TWord "__CAPI_GZ__"; TPipe; TWord "gunzip"; TOut false; TWord loaded]
    text [mkStage ["base64"; "-d"] (Some "__CAPI_GZ__") None; mkStage ["gunzip"] None (Some (false, loaded))]
    [mkStage ["base64"; "-d"] (Some (wrapBase64 (EncodeToString (gzip script)))) None;
     mkStage ["gunzip"] None (Some (false, loaded))]); try done.
  - rewrite string_length_app. cbn. lia.
  - cbn. unfold text. rewrite heredoc_wrapBase64; [done|apply good_delim_gz|apply EncodeToString_b64].
  - cbn [sh_pipeline st_argv st_here st_out default].
    change (sh_command ["base64"; "-d"] ?s h) with
      (match DecodeString s with Ok out => Some (out, h) | Err _ => None end).
    unfold id. rewrite base64_wrapped. cbn. by rewrite gunzip_gzip.
Qed.

Lemma step_exec h :
  is_Some (h_files h !! loaded) →
  ('(s, h) ← sh_step ("exec /run/capi-bootstrap.sh" +:+ nl) h; Some (s, h)) =
  Some ("", mkHost (h_dirs h) (h_files h) (h_modes h) (h_owners h) (Some loaded)).
Proof.
  intros Hf. change (sh_step ("exec /run/capi-bootstrap.sh" +:+ nl) h) with
    (h' ← ('(out, h) ← sh_command ["exec"; loaded] "" h; sh_pipeline out [] h);
     Some (if bool_decide (is_Some (h_exec h')) then "" else "", h')).
  unfold sh_command. rewrite (bool_decide_eq_true_2 (is_Some _)) by done. done.
Qed.

Lemma loader_runs `{!GzipLaws} script h :
  h_exec h = None →
  sh_steps 7 (gzipPrologue +:+ wrapBase64 (EncodeToString (gzip script)) +:+
    "__CAPI_GZ__" +:+ nl +:+ gzipEpilogue) h = Some ("", with_loaded script h).
Proof.
  intros He. set (doc := wrapBase64 (EncodeToString (gzip script)) +:+ "__CAPI_GZ__" +:+ nl +:+ gzipEpilogue).
  apply (sh_steps_app 4 3 _ ("base64 -d <<" +:+ sq +:+ "__CAPI_GZ__" +:+ sq +:+
    " | gunzip > /run/capi-bootstrap.sh" +:+ nl +:+ doc) _ _ h).
  - unfold gzipPrologue. rewrite !string_app_assoc.
    set (line := "base64 -d <<" +:+ _).
    apply (sh_steps_app 3 1 _ ("set -euo pipefail" +:+ nl +:+ line) _ _ h); [reflexivity|].
    cbn [sh_steps].
    rewrite (sh_step_line 4 _ [TWord "set"; TWord "-euo"; TWord "pipefail"] line
      [mkStage ["set"; "-euo"; "pipefail"] None None] [mkStage ["set"; "-euo"; "pipefail"] None None] line h h);
      try done. rewrite string_length_app. cbn. lia.
  - cbn [sh_steps]. unfold doc. rewrite step_unpack by done. cbn [mbind option_bind].
    rewrite (sh_step_line 4 gzipEpilogue [TWord "chmod"; TWord "0700"; TWord loaded]
      ("exec /run/capi-bootstrap.sh" +:+ nl) [mkStage ["chmod"; "0700"; loaded] None None]
      [mkStage ["chmod"; "0700"; loaded] None None]
      ("exec /run/capi-bootstrap.sh" +:+ nl) _
      (mkHost (h_dirs h) (<[loaded := script]> (h_files h)) (<[loaded := "0700"]> (h_modes h))
        (h_owners h) None)); try done.
    + cbn [mbind option_bind]. apply step_exec. cbn. by rewrite lookup_insert_eq.
    + apply Nat.leb_le. reflexivity.
    + unfold host_write. rewrite He. cbn [h_files h_dirs h_modes h_owners].
      cbn [sh_pipeline st_argv st_here st_out]. unfold sh_command. cbn [h_files h_dirs h_modes h_owners h_exec].
      rewrite (bool_decide_eq_true_2 (is_Some _)) by (by rewrite lookup_insert_eq). done.
Qed.

(** (C30) [fit] keeps scripts within Verda's limit without changing what they
    do.  A script of at most 24576 bytes is returned as it is.  For a longer one
    the size of the loader decides: up to 49152 bytes the result is a loader
    of that size, and a shell that runs it unpacks exactly the script to
    /run/capi-bootstrap.sh, makes it executable for its owner alone and replaces
    itself with it; beyond, the error is [ErrScriptTooLarge]. *)
Theorem fit_faithful `{!GzipLaws} script :
  let size := loader_size (Z.of_nat (String.length (gzip script))) in
  ((Z.of_nat (String.length script) ≤ 24576)%Z → fit script = Ok script) ∧
  ((24576 < Z.of_nat (String.length script))%Z → (size ≤ 49152)%Z →
   ∃ out, fit script = Ok out ∧ Z.of_nat (String.length out) = size ∧
     ∀ h, h_exec h = None → ∃ n, sh_steps n out h = Some ("", with_loaded script h)) ∧
  ((24576 < Z.of_nat (String.length script))%Z → (49152 < size)%Z →
   ∃ e, fit script = Err e ∧ errors_Is e ErrScriptTooLarge = true).
Proof.
  cbn zeta. unfold fit. cbn zeta. rewrite <-loader_length.
  set (out := gzipPrologue +:+ _).
  assert (Z.of_nat compressThreshold = 24576%Z ∧ Z.of_nat MaxScriptSize = 49152%Z) as [Ht Hm] by done.
  split_and!; intros Hs; [by rewrite (proj2 (Nat.leb_le _ _)) by lia|..]; intros Hl;
    rewrite (proj2 (Nat.leb_gt _ _)) by lia.
  - rewrite (proj2 (Nat.ltb_ge _ _)) by lia. exists out. split_and!; [done..|].
    intros h He. exists 7%nat. by apply loader_runs.
  - rewrite (proj2 (Nat.ltb_lt _ _)) by lia. eexists. split; [done|].
    rewrite errors_Is_wrap by done. apply errors_Is_refl.
Qed.

(** Cloud-config data: a script that is returned fits Verda's limit and
    lists exactly the top-level keys the converter does not know, sorted; the
    script is the same however the decoder orders the keys. *)
Theorem startup_script_cloudconfig data hostname s :
  HasPrefix (TrimSpace (substituteHostname data hostname)) "#!" = false →
  bootstrap_ToStartupScript data hostname = Ok s →
  (String.length (Script_Script s) <= MaxScriptSize)%nat ∧
  ∃ keys, Unmarshal_keys (TrimSpace (substituteHostname data hostname)) = Ok keys ∧
    Sorted String.le (Script_Unsupported s) ∧
    (∀ k, k ∈ Script_Unsupported s ↔ k ∈ keys ∧ k ∉ knownKeys) ∧
    ∀ keys', keys' ≡ₚ keys → unsupportedKeys keys' = Script_Unsupported s.
Proof.
  intros Hsh. unfold bootstrap_ToStartupScript. rewrite Hsh. cbn zeta.
  destruct (negb _); [done|]. destruct (Unmarshal_keys _) as [keys|]; [|done].
  destruct (Unmarshal_config _) as [cfg|]; [|done].
  destruct (buildScript _ _) as [text|]; [|done].
  destruct (fit text) as [out|] eqn:Hfit; [|done].
  intros [= <-]. cbn. split; [by apply (fit_bound text)|]. exists keys. unfold unsupportedKeys.
  split_and!; [done|apply Sort_strings_sorted|..].
  - intros k. rewrite Sort_strings_perm, list_elem_of_filter. naive_solver.
  - intros keys' Hp. apply Sort_strings_unique. by rewrite Hp.
Qed.
End fit.

(** Data that already is a shell script is passed on as it is, with the
    hostname filled in, whatever its size. *)
Theorem startup_script_passthrough `{!CloudConfigCodec, !Gzip} data hostname :
  HasPrefix (TrimSpace (substituteHostname data hostname)) "#!" = true →
  bootstrap_ToStartupScript data hostname = Ok (mkScript (substituteHostname data hostname) []).
Proof. intros Hsh. unfold bootstrap_ToStartupScript. by rewrite Hsh. Qed.

(** ** Concrete documents *)

Module BootstrapExamples.

(** A codec for one document, and the compressor that stores. *)
Definition config0 : cloudConfig :=
  mkCloudConfig [] [mkWriteFile "/etc/my dir/a.conf" "hello" "" "root:root" "0640" false]
    [["echo"; "it's ready"]] [] None.
#[local] Instance codec : CloudConfigCodec :=
  {| Unmarshal_keys _ := Ok ["runcmd"; "mounts"; "write_files"; "disk_setup"];
     Unmarshal_config _ := Ok config0 |}.
#[local] Instance store : Gzip := {| gzip s := s; gunzip s := Some s |}.
#[local] Instance store_laws : GzipLaws.
Proof. by split. Qed.


(** A new file, then a line appended to it. *)
Definition files0 : list writeFile :=
  [mkWriteFile "/etc/my dir/a.conf" "aGVsbG8=" "base64" "" "0640" false;
   mkWriteFile "/etc/my dir/a.conf" ", it's me" "" "root:root" "" true].
Definition blank_host : host := mkHost [] ∅ ∅ ∅ None.

Lemma writeFiles_delivered_witness :
  ∃ script n h, writeFilesScript 0 files0 = Ok script ∧
    sh_steps n (script +:+ "echo next") blank_host = Some ("echo next", h) ∧
    h_files h !! "/etc/my dir/a.conf" = Some "hello, it's me" ∧
    h_modes h !! "/etc/my dir/a.conf" = Some "0640" ∧
    h_owners h !! "/etc/my dir/a.conf" = Some "root:root".
Proof.
  destruct (writeFiles_delivered files0 ["hello"; ", it's me"] "echo next" blank_host) as (script & n & Hs & Hn).
  - constructor; [|constructor; [|constructor]].
    + split_and!; [done|by repeat constructor|]. right. split; [apply (bool_decide_eq_true_1 _)|]; vm_compute; reflexivity.
    + split_and!; [done|by repeat constructor|]. left. split; [apply (bool_decide_eq_true_1 _)|]; vm_compute; reflexivity.
  - reflexivity.
  - eexists script, n, _. split; [exact Hs|]. split; [exact Hn|]. split_and!; vm_compute; reflexivity.
Defined.

(** Three arguments with quotes and blanks in them; a single one, which the
    shell splits; and a number. *)
Lemma command_delivered_witness :
  (∃ c, command_UnmarshalJSON (JArray [JString "echo"; JString "it's ready"; JNull]) = Ok c ∧
     sh_argv (shell c) = Some ["echo"; "it's ready"; ""]) ∧
  (∃ c, command_UnmarshalJSON (JArray [JString "echo ready"]) = Ok c ∧
     shell c = "echo ready" ∧ sh_argv (shell c) = Some ["echo"; "ready"]) ∧
  ∃ e, command_UnmarshalJSON (JNumber "7") = Err e.
Proof.
  split; [exact (command_delivered (JArray [JString "echo"; JString "it's ready"; JNull]))|].
  split; [|exact (command_delivered (JNumber "7"))].
  destruct (command_delivered (JArray [JString "echo ready"])) as (c & Hc & Hs).
  exists c. rewrite Hs. split; [exact Hc|]. split; [reflexivity|vm_compute; reflexivity].
Defined.

Definition file_gz : writeFile := mkWriteFile "/etc/a.conf" "aGVsbG8=" "gz+b64" "" "" false.

Lemma gzip_file_misread_witness :
  ∃ text body rest, heredoc_reader (writeFileRedirect 0 file_gz) = Some "gunzip" ∧
    heredoc (delim 0) text = Some (body, rest) ∧ body = "aGVsbG8=" +:+ nl.
Proof.
  destruct (gzip_file_misread 0 file_gz
    (match writeFileScript 0 file_gz with Ok s => s | Err _ => "" end))
    as (text & _ & Hr & body & rest & Hh & content & Hd & Hb).
  - vm_compute. reflexivity.
  - vm_compute. reflexivity.
  - exists text, body, rest. split; [exact Hr|]. split; [exact Hh|].
    vm_compute in Hd. injection Hd as <-. exact Hb.
Defined.

(** A script of 24577 bytes, one more than is passed on as it is. *)
Definition long_script : string := fold_right (λ _ s, String "#" s) "" (seq 0 (Z.to_nat 24577)).

Lemma fit_faithful_witness :
  ∃ out n, fit long_script = Ok out ∧ Z.of_nat (String.length out) = 33514%Z ∧
    sh_steps n out blank_host = Some ("", with_loaded long_script blank_host).
Proof.
  destruct (proj1 (proj2 (fit_faithful long_script))) as (out & Hf & Hl & Hrun).
  - vm_compute. reflexivity.
  - vm_compute. discriminate.
  - destruct (Hrun blank_host eq_refl) as [n Hn]. exists out, n.
    split; [exact Hf|]. split; [|exact Hn]. rewrite Hl. vm_compute. reflexivity.
Defined.

Definition document : string := "#cloud-config" +:+ nl +:+ "runcmd: []" +:+ nl.
Definition converted : Script :=
  match bootstrap_ToStartupScript document "node-0" with Ok s => s | Err _ => mkScript "" [] end.

Lemma startup_script_cloudconfig_witness :
  Script_Unsupported converted = ["disk_setup"; "mounts"] ∧
  (String.length (Script_Script converted) <= MaxScriptSize)%nat.
Proof.
  split; [vm_compute; reflexivity|].
  apply (startup_script_cloudconfig document "node-0"); vm_compute; reflexivity.
Defined.

Lemma startup_script_passthrough_witness :
  bootstrap_ToStartupScript "#!/bin/sh {{ ds.meta_data.hostname }}" "node-0" =
  Ok (mkScript "#!/bin/sh node-0" []).
Proof.
  apply (startup_script_passthrough "#!/bin/sh {{ ds.meta_data.hostname }}" "node-0").
  vm_compute. reflexivity.
Defined.

End BootstrapExamples.
