(* ===== verification/LoadBalancer.v ===== *)
(** * Load balancer configuration ([internal/loadbalancer])

    The haproxy and envoy files and the scripts that install them.  The
    templates under [templates/] are written out as the functions that
    [text/template] computes from them; a [-] in an action trims the white
    space next to it.  The generation of keys and the transport are in [Ssh.v]. *)

From S2P Require Import Prelude GoStd Base64 Api Ctrl Bootstrap.
From stdpp Require Import options.

Definition b64 (b : string) : string := EncodeToString b.

(** The lines of a file, each ended by a newline. *)
Definition lines (l : list string) : string := Join ((λ x, x +:+ nl) <$> l) "".

(** ** haproxy.go *)

Definition Port : Z := 6443.
Definition ConfigPath := "/etc/haproxy/haproxy.cfg".

Definition UpdateCommand : string :=
  "set -e; cat > " +:+ ConfigPath +:+ ".new && haproxy -c -f " +:+ ConfigPath +:+
  ".new >/dev/null && mv " +:+ ConfigPath +:+ ".new " +:+ ConfigPath +:+ " && systemctl reload haproxy".

(** haproxy.cfg.tmpl up to the range over the backends. *)
Definition haproxyHead : list string :=
  ["# Managed by cluster-api-provider-verda. Do not edit.";
   "global";
   "    log /dev/log local0";
   "    maxconn 4096";
   "";
   "defaults";
   "    mode tcp";
   "    log global";
   "    option tcplog";
   "    option dontlognull";
   "    timeout connect 10s";
   "    timeout client 1h";
   "    timeout server 1h";
   "";
   "frontend kube-apiserver";
   "    bind *:6443";
   "    default_backend kube-apiserver";
   "";
   "backend kube-apiserver";
   "    balance roundrobin";
   "    option tcp-check";
   "    default-server inter 5s fall 3 rise 2"].

Definition serverLine (i : nat) (ip : string) : string :=
  "    server cp-" +:+ fmt_d (Z.of_nat i) +:+ " " +:+ ip +:+ ":" +:+ fmt_d Port +:+ " check".

Definition Config (backends : list string) : string :=
  lines (haproxyHead ++ imap serverLine (Sort_strings backends)).

(** The part of both startup scripts that sets up SSH. *)
Definition eof := "__CAPI_EOF__".

Definition decodeTo (redirect : string) (encoded : string) : list string :=
  ["base64 -d " +:+ redirect +:+ " <<" +:+ sq +:+ eof +:+ sq; encoded; eof].

Definition sshSetup (keys : Keys) : list string :=
  ["# SSH: provider client key and pre-generated host key.";
   "mkdir -p /root/.ssh && chmod 700 /root/.ssh"] ++
  decodeTo ">> /root/.ssh/authorized_keys" (b64 (ClientPublicKey keys)) ++
  ["chmod 600 /root/.ssh/authorized_keys"] ++
  decodeTo "> /etc/ssh/ssh_host_ed25519_key" (b64 (HostPrivateKey keys)) ++
  decodeTo "> /etc/ssh/ssh_host_ed25519_key.pub" (b64 (HostPublicKey keys)) ++
  ["chmod 600 /etc/ssh/ssh_host_ed25519_key";
   "chmod 644 /etc/ssh/ssh_host_ed25519_key.pub";
   "systemctl restart ssh || systemctl restart sshd"].

Definition startupHead (what : string) : list string :=
  ["#!/bin/bash";
   "# Generated by cluster-api-provider-verda for the " +:+ what +:+ " load balancer. Do not edit.";
   "set -euo pipefail";
   "exec > >(tee -a /var/log/capi-loadbalancer.log) 2>&1";
   "echo " +:+ dq +:+ "[capi-lb] starting $(date -Is)" +:+ dq;
   ""].

Definition startupFoot : list string :=
  ["echo " +:+ dq +:+ "[capi-lb] finished $(date -Is)" +:+ dq].

Definition StartupScript (keys : Keys) (backends : list string) : string :=
  lines (startupHead "control plane" ++
    ["export DEBIAN_FRONTEND=noninteractive";
     "for i in 1 2 3 4 5; do apt-get update && apt-get install -y haproxy && break || sleep 10; done";
     ""] ++
    sshSetup keys ++
    ["";
     "# haproxy"] ++
    decodeTo ("> " +:+ ConfigPath) (b64 (Config backends)) ++
    ["haproxy -c -f " +:+ ConfigPath;
     "systemctl enable haproxy";
     "systemctl restart haproxy"] ++
    startupFoot).

(** ** envoy.go *)

Definition EnvoyVersion := "1.34.1".
Definition EnvoyDir := "/etc/envoy".
Definition EnvoyLDSPath : string := EnvoyDir +:+ "/lds.yaml".
Definition EnvoyCDSPath : string := EnvoyDir +:+ "/cds.yaml".

Record Backend := mkBackend { Backend_Address : string; Backend_Port : Z }.
#[export] Instance Backend_eq_dec : EqDecision Backend.
Proof. solve_decision. Defined.

Record Frontend := mkFrontend {
  Frontend_Name : string;
  Frontend_Protocol : string;
  Frontend_Port : Z;
  Frontend_Backends : list Backend;
  Frontend_HealthCheckPort : Z;
  Frontend_ProxyProtocol : bool
}.
#[export] Instance Frontend_eq_dec : EqDecision Frontend.
Proof. solve_decision. Defined.

Record File := mkFile { File_Path : string; File_Content : string }.

Definition managedLine := "# Managed by cluster-api-provider-verda. Do not edit.".

Definition EnvoyBootstrap : string :=
  lines
    [managedLine;
     "node:";
     "  id: service-lb";
     "  cluster: service-lb";
     "admin:";
     "  address:";
     "    socket_address: {address: 127.0.0.1, port_value: 9901}";
     "dynamic_resources:";
     "  lds_config:";
     "    path_config_source:";
     "      path: " +:+ EnvoyLDSPath;
     "      watched_directory: {path: " +:+ EnvoyDir +:+ "}";
     "  cds_config:";
     "    path_config_source:";
     "      path: " +:+ EnvoyCDSPath;
     "      watched_directory: {path: " +:+ EnvoyDir +:+ "}"].

Definition atType (indent : string) (name : string) : string :=
  indent +:+ dq +:+ "@type" +:+ dq +:+ ": type.googleapis.com/" +:+ name.

(** [frontendView.UDP] *)
Definition UDP (f : Frontend) : bool := EqualFold (Frontend_Protocol f) "UDP".

(** envoy-lds.yaml.tmpl, one frontend. *)
Definition ldsLines (f : Frontend) : list string :=
  [atType "- " "envoy.config.listener.v3.Listener";
   "  name: " +:+ Frontend_Name f] ++
  (if UDP f then
     ["  address:";
      "    socket_address: {protocol: UDP, address: 0.0.0.0, port_value: " +:+ fmt_d (Frontend_Port f) +:+ "}";
      "  listener_filters:";
      "  - name: envoy.filters.udp_listener.udp_proxy";
      "    typed_config:";
      atType "      " "envoy.extensions.filters.udp.udp_proxy.v3.UdpProxyConfig";
      "      stat_prefix: " +:+ Frontend_Name f;
      "      matcher:";
      "        on_no_match:";
      "          action:";
      "            name: route";
      "            typed_config:";
      atType "              " "envoy.extensions.filters.udp.udp_proxy.v3.Route";
      "              cluster: " +:+ Frontend_Name f]
   else
     ["  address:";
      "    socket_address: {address: 0.0.0.0, port_value: " +:+ fmt_d (Frontend_Port f) +:+ "}";
      "  filter_chains:";
      "  - filters:";
      "    - name: envoy.filters.network.tcp_proxy";
      "      typed_config:";
      atType "        " "envoy.extensions.filters.network.tcp_proxy.v3.TcpProxy";
      "        stat_prefix: " +:+ Frontend_Name f;
      "        cluster: " +:+ Frontend_Name f]).

(** envoy-cds.yaml.tmpl, one frontend. *)
Definition cdsLines (f : Frontend) : list string :=
  [atType "- " "envoy.config.cluster.v3.Cluster";
   "  name: " +:+ Frontend_Name f;
   "  type: STATIC";
   "  connect_timeout: 5s";
   "  lb_policy: ROUND_ROBIN";
   "  load_assignment:";
   "    cluster_name: " +:+ Frontend_Name f;
   "    endpoints:";
   "    - lb_endpoints:"] ++
  (match Frontend_Backends f with
   | [] => ["      []"]
   | bs => bs ≫= λ b,
       ["      - endpoint:";
        "          address:";
        "            socket_address: {address: " +:+ Backend_Address b +:+ ", port_value: " +:+
          fmt_d (Backend_Port b) +:+ "}"]
   end) ++
  (if (0 <? Frontend_HealthCheckPort f)%Z || negb (UDP f) then
     ["  health_checks:";
      "  - timeout: 2s";
      "    interval: 5s";
      "    no_traffic_interval: 5s";
      "    unhealthy_threshold: 3";
      "    healthy_threshold: 2"] ++
     (if (0 <? Frontend_HealthCheckPort f)%Z then
        ["    alt_port: " +:+ fmt_d (Frontend_HealthCheckPort f);
         "    http_health_check: {path: /healthz}"]
      else ["    tcp_health_check: {}"])
   else []) ++
  (if Frontend_ProxyProtocol f && negb (UDP f) then
     ["  transport_socket:";
      "    name: envoy.transport_sockets.upstream_proxy_protocol";
      "    typed_config:";
      atType "      " "envoy.extensions.transport_sockets.proxy_protocol.v3.ProxyProtocolUpstreamTransport";
      "      config: {version: V2}";
      "      transport_socket:";
      "        name: envoy.transport_sockets.raw_buffer";
      "        typed_config:";
      atType "          " "envoy.extensions.transport_sockets.raw_buffer.v3.RawBuffer"]
   else []).

(** The comparison functions of the two sorts; ties keep the order (the
    inputs of the program have none, see [EnvoyResources_perm]). *)
Definition name_le (a b : Frontend) : Prop := String.le (Frontend_Name a) (Frontend_Name b).
Definition addr_le (a b : Backend) : Prop := String.le (Backend_Address a) (Backend_Address b).
#[export] Instance name_le_dec : RelDecision name_le.
Proof. intros a b. unfold name_le. apply _. Defined.
#[export] Instance addr_le_dec : RelDecision addr_le.
Proof. intros a b. unfold addr_le. apply _. Defined.

Definition sortBackends (f : Frontend) : Frontend :=
  mkFrontend (Frontend_Name f) (Frontend_Protocol f) (Frontend_Port f)
    (merge_sort addr_le (Frontend_Backends f)) (Frontend_HealthCheckPort f) (Frontend_ProxyProtocol f).

Definition EnvoyResources (frontends : list Frontend) : string * string :=
  let views := sortBackends <$> merge_sort name_le frontends in
  (lines ([managedLine; "resources:"] ++ (views ≫= ldsLines)),
   lines ([managedLine; "resources:"] ++ (views ≫= cdsLines))).

Definition EnvoyStartupScript (keys : Keys) : string :=
  let '(lds, cds) := EnvoyResources [] in
  lines (startupHead "service" ++ sshSetup keys ++
    ["";
     "# envoy";
     "for i in 1 2 3 4 5; do curl -fsSL -o /usr/local/bin/envoy https://github.com/envoyproxy/envoy/releases/download/v" +:+
       EnvoyVersion +:+ "/envoy-" +:+ EnvoyVersion +:+ "-linux-x86_64 && break || sleep 10; done";
     "chmod 0755 /usr/local/bin/envoy";
     "mkdir -p " +:+ EnvoyDir] ++
    decodeTo ("> " +:+ EnvoyDir +:+ "/envoy.yaml") (b64 EnvoyBootstrap) ++
    decodeTo ("> " +:+ EnvoyLDSPath) (b64 lds) ++
    decodeTo ("> " +:+ EnvoyCDSPath) (b64 cds) ++
    ["cat > /etc/systemd/system/envoy.service <<" +:+ sq +:+ eof +:+ sq;
     "[Unit]";
     "Description=Envoy service load balancer (cluster-api-provider-verda)";
     "After=network-online.target";
     "Wants=network-online.target";
     "";
     "[Service]";
     "ExecStart=/usr/local/bin/envoy -c /etc/envoy/envoy.yaml --log-path /var/log/envoy.log";
     "Restart=always";
     "RestartSec=2";
     "LimitNOFILE=65536";
     "";
     "[Install]";
     "WantedBy=multi-user.target";
     eof;
     "/usr/local/bin/envoy --mode validate -c /etc/envoy/envoy.yaml";
     "systemctl daemon-reload";
     "systemctl enable envoy";
     "systemctl restart envoy"] ++
    startupFoot).

Definition EnvoyFiles (frontends : list Frontend) : list File :=
  let '(lds, cds) := EnvoyResources frontends in
  [mkFile EnvoyCDSPath cds; mkFile EnvoyLDSPath lds].

(** ** ssh.go *)

(** The package has its own copy of [wrapBase64]. *)
Definition lb_wrapBase64 (s : string) : string := wrapBase64 s.

Definition installFile (i : nat) (f : File) : string :=
  let tmp := File_Path f +:+ ".new." +:+ fmt_d (Z.of_nat i) in
  "base64 -d > " +:+ tmp +:+ " <<" +:+ sq +:+ "__CAPI_FILE__" +:+ sq +:+ nl +:+
  lb_wrapBase64 (EncodeToString (File_Content f)) +:+ "__CAPI_FILE__" +:+ nl +:+
  "mv -f " +:+ tmp +:+ " " +:+ File_Path f +:+ nl.

Definition InstallScript (files : list File) (reload : string) : string :=
  "set -euo pipefail" +:+ nl +:+
  Join (imap installFile files) "" +:+
  (if bool_decide (reload ≠ "") then reload +:+ nl else "").

(** ** Theorems *)

#[export] Instance name_le_preorder : PreOrder name_le.
Proof.
  split; [intros a; apply (reflexivity (R := String.le))|].
  intros a b c. apply (transitivity (R := String.le)).
Qed.
#[export] Instance name_le_total : Total name_le.
Proof. intros a b. apply (total String.le). Qed.
#[export] Instance addr_le_preorder : PreOrder addr_le.
Proof.
  split; [intros a; apply (reflexivity (R := String.le))|].
  intros a b c. apply (transitivity (R := String.le)).
Qed.
#[export] Instance addr_le_total : Total addr_le.
Proof. intros a b. apply (total String.le). Qed.

(** The same frontends, up to the order of their backends. *)
Definition same_frontend (f g : Frontend) : Prop :=
  Frontend_Name f = Frontend_Name g ∧ Frontend_Protocol f = Frontend_Protocol g ∧
  Frontend_Port f = Frontend_Port g ∧ Frontend_Backends f ≡ₚ Frontend_Backends g ∧
  Frontend_HealthCheckPort f = Frontend_HealthCheckPort g ∧
  Frontend_ProxyProtocol f = Frontend_ProxyProtocol g.

Lemma sortBackends_same f g :
  NoDup (Backend_Address <$> Frontend_Backends f) → same_frontend f g → sortBackends f = sortBackends g.
Proof.
  intros Hnd (Hn & Hp & Hpo & Hb & Hh & Hpr). unfold sortBackends. rewrite Hn, Hp, Hpo, Hh, Hpr. f_equal.
  apply (merge_sort_unique_key addr_le Backend_Address); [|done|done].
  intros x y. apply (anti_symm String.le).
Qed.

(** The files pushed to a load balancer depend on what is balanced, not on
    the order in which the API lists it: haproxy's configuration is the same for
    every order of the backends; envoy's files are the same for every order of
    the frontends and of each one's backends, if frontend names and the
    addresses of a frontend are distinct. *)
Theorem lb_files_order_independent backends backends' frontends frontends' reordered :
  backends ≡ₚ backends' →
  frontends ≡ₚ reordered → Forall2 same_frontend reordered frontends' →
  NoDup (Frontend_Name <$> frontends) →
  Forall (λ f, NoDup (Backend_Address <$> Frontend_Backends f)) frontends →
  Config backends = Config backends' ∧ EnvoyFiles frontends = EnvoyFiles frontends'.
Proof.
  intros Hb Hp Hsame Hnd Hbs. split.
  { unfold Config. by rewrite (Sort_strings_unique _ _ Hb). }
  assert (sortBackends <$> merge_sort name_le frontends =
          sortBackends <$> merge_sort name_le frontends') as Heq; [|unfold EnvoyFiles, EnvoyResources; by rewrite Heq].
  assert (NoDup (Frontend_Name <$> reordered)) as Hnd' by (by rewrite <-Hp).
  assert (Forall (λ f, NoDup (Backend_Address <$> Frontend_Backends f)) reordered) as Hbs'
    by (by rewrite <-Hp).
  assert (sortBackends <$> reordered = sortBackends <$> frontends') as Hsorted.
  { clear -Hsame Hbs'. induction Hsame as [|f g l k Hfg _ IH]; [done|].
    apply Forall_cons in Hbs' as [Hf Hl]. cbn. f_equal; [by apply sortBackends_same|by apply IH]. }
  assert (∀ l, sortBackends <$> merge_sort name_le l ≡ₚ sortBackends <$> l) as Hperm
    by (intros l; by rewrite merge_sort_Permutation).
  assert (∀ l, Sorted name_le (sortBackends <$> merge_sort name_le l)) as Hsrt.
  { intros l. pose proof (Sorted_merge_sort name_le l) as Hs.
    induction Hs as [|x l' Hs IH Hhd]; cbn; constructor; [done|]. destruct Hhd; by constructor. }
  apply (Sorted_unique_strong name_le); [|done|done|].
  - intros x y Hx Hy Hxy Hyx. rewrite Hperm in Hx, Hy. rewrite <-Hsorted in Hy. rewrite Hp in Hx.
    apply list_elem_of_fmap in Hx as (f & -> & Hf). apply list_elem_of_fmap in Hy as (g & -> & Hg).
    f_equal. apply list_elem_of_lookup in Hf as [i Hi]. apply list_elem_of_lookup in Hg as [j Hj].
    assert (i = j) as ->; [|congruence].
    eapply (NoDup_lookup (Frontend_Name <$> reordered)); [done|by rewrite list_lookup_fmap, Hi|].
    rewrite list_lookup_fmap, Hj. cbn. f_equal.
    apply (anti_symm String.le); [exact Hyx|exact Hxy].
  - by rewrite !Hperm, <-Hsorted, Hp.
Qed.

Lemma Join_app (a b : list string) : Join (a ++ b) "" = Join a "" +:+ Join b "".
Proof.
  assert (∀ x l, Join (x :: l) "" = x +:+ Join l "") as Hcons.
  { intros x [|y l]; cbn; by rewrite ?string_app_nil_r. }
  induction a as [|x a IH]; [done|]. cbn [app]. by rewrite !Hcons, IH, string_app_assoc.
Qed.

Lemma Join_cons_nil x (l : list string) : Join (x :: l) "" = x +:+ Join l "".
Proof. destruct l; cbn; by rewrite ?string_app_nil_r. Qed.

Lemma good_delim_install : good_delim "__CAPI_FILE__".
Proof. apply good_delim_intro; [by repeat constructor|by eexists]. Qed.

(** (C32) The install script delivers every file: for the file at position [i]
    the script contains a here-document that ends exactly at its delimiter and
    decodes to the file's content, written under a name of its own and moved
    over the target in the next command; the rest of the script follows. *)
Theorem install_script_delivers files1 f files2 reload :
  let i := List.length files1 in
  let tmp := File_Path f +:+ ".new." +:+ fmt_d (Z.of_nat i) in
  ∃ before text body rest,
    InstallScript (files1 ++ f :: files2) reload =
      before +:+ "base64 -d > " +:+ tmp +:+ " <<" +:+ sq +:+ "__CAPI_FILE__" +:+ sq +:+ nl +:+ text ∧
    heredoc "__CAPI_FILE__" text = Some (body, "mv -f " +:+ tmp +:+ " " +:+ File_Path f +:+ nl +:+ rest) ∧
    DecodeString body = Ok (File_Content f).
Proof.
  cbn zeta. set (tmp := File_Path f +:+ ".new." +:+ fmt_d (Z.of_nat (List.length files1))).
  set (tail := Join (imap (installFile ∘ (λ n, List.length files1 + S n)%nat) files2) "" +:+
    (if bool_decide (reload ≠ "") then reload +:+ nl else "")).
  exists ("set -euo pipefail" +:+ nl +:+ Join (imap installFile files1) "").
  exists (wrapBase64 (EncodeToString (File_Content f)) +:+ "__CAPI_FILE__" +:+ nl +:+
          "mv -f " +:+ tmp +:+ " " +:+ File_Path f +:+ nl +:+ tail).
  exists (wrapBase64 (EncodeToString (File_Content f))), tail. split_and!.
  - unfold InstallScript. rewrite imap_app, Join_app. cbn [imap].
    rewrite Join_cons_nil. unfold installFile at 2. rewrite Nat.add_0_r. fold tmp.
    unfold lb_wrapBase64, tail. by rewrite !string_app_assoc.
  - apply heredoc_wrapBase64; [apply good_delim_install|apply EncodeToString_b64].
  - apply base64_wrapped.
Qed.

Module LoadBalancerExamples.

Definition web (bs : list Backend) : Frontend := mkFrontend "default_web_80_tcp" "TCP" 80 bs 0 false.
Definition dns (bs : list Backend) : Frontend := mkFrontend "default_dns_53_udp" "UDP" 53 bs 0 false.
Definition b1 : Backend := mkBackend "10.0.0.1" 30080.
Definition b2 : Backend := mkBackend "10.0.0.2" 30080.

Lemma lb_files_order_independent_witness :
  Config ["10.0.0.2"; "10.0.0.1"] = Config ["10.0.0.1"; "10.0.0.2"] ∧
  EnvoyFiles [web [b1; b2]; dns [b1]] = EnvoyFiles [dns [b1]; web [b2; b1]].
Proof.
  apply (lb_files_order_independent ["10.0.0.2"; "10.0.0.1"] ["10.0.0.1"; "10.0.0.2"]
    [web [b1; b2]; dns [b1]] [dns [b1]; web [b2; b1]] [dns [b1]; web [b1; b2]]).
  - apply perm_swap.
  - apply perm_swap.
  - repeat constructor.
  - apply (bool_decide_unpack _). vm_compute. exact I.
  - repeat constructor; apply (bool_decide_unpack _); vm_compute; exact I.
Defined.

End LoadBalancerExamples.
