(* ===== verification/Ccm.v ===== *)
(** * The cloud controller manager ([internal/ccm])

    [Provider] (the node part, [InstancesV2]) and [serviceLB] (Services of type
    LoadBalancer on the shared envoy instance).  The mutex of [serviceLB] makes
    a [sync] one step for the other calls; the Kubernetes API, the Verda client
    and the SSH updater are calls.  Logging, and the registration of the
    provider, are left out. *)

From S2P Require Import Prelude GoStd Effects Api Cloud Fake Ctrl Bootstrap LoadBalancer.
From stdpp Require Import options.

Local Open Scope go_scope.

(** ** corev1 data the package reads *)

Inductive NodeAddressType := NodeHostName | NodeExternalIP | NodeInternalIP | NodeOtherAddress.
#[export] Instance NodeAddressType_eq_dec : EqDecision NodeAddressType.
Proof. solve_decision. Defined.

Record NodeAddress := mkNodeAddress { NodeAddress_Type : NodeAddressType; NodeAddress_Address : string }.

Record Node := mkNode {
  Node_Meta : ObjectMeta;
  Node_ProviderID : string;
  Node_Addresses : list NodeAddress
}.

Record ServicePort := mkServicePort {
  ServicePort_Protocol : string;
  ServicePort_Port : Z;
  ServicePort_NodePort : Z
}.

Record Service := mkService {
  Service_Meta : ObjectMeta;
  Service_Type : string;
  Service_Ports : list ServicePort;
  Service_ExternalTrafficPolicy : string;
  Service_HealthCheckNodePort : Z;
  Service_Ingress : list string
}.

Definition svc_key (s : Service) : string :=
  Meta_Namespace (Service_Meta s) +:+ "/" +:+ Meta_Name (Service_Meta s).

(** ** provider.go *)

Definition ProviderName := "verda".
Definition providerIDPrefix : string := ProviderName +:+ "://".

Record InstanceMetadata := mkInstanceMetadata {
  IM_ProviderID : string;
  IM_InstanceType : string;
  IM_NodeAddresses : list NodeAddress;
  IM_Zone : string;
  IM_Region : string
}.

Inductive CcmE : Type → Type :=
| CcmVerda {X} (e : ClientE X) : CcmE X
| GetLBSecret : CcmE (result Secret)
| ListServices : CcmE (result (list Service))
| ListNodes : CcmE (result (list Node))
| UpdateFiles (address : string) (keys : Keys) (files : list File) (reload : string) : CcmE (result unit).

Abbreviation MP := (M unit CcmE).

Definition lookup (node : Node) : MP Instance :=
  let id := Node_ProviderID node in
  if bool_decide (id ≠ "") && negb (HasPrefix id providerIDPrefix) then
    throw (errorString ("node " +:+ Meta_Name (Node_Meta node) +:+ " has foreign provider ID " +:+ fmt_q id))
  else
    let hostname := if bool_decide (id ≠ "") then TrimPrefix id providerIDPrefix
                    else Meta_Name (Node_Meta node) in
    call (CcmVerda (FindInstanceByHostname hostname)).

Definition InstanceExists (node : Node) : MP bool :=
  let? r := lookup node in
  match r with
  | Err err => if errors_Is err ErrNotFound then retM false else throw err
  | Ok instance =>
      if bool_decide (Instance_Status instance = StatusDiscontinued) ||
         bool_decide (Instance_Status instance = StatusDeleted) ||
         bool_decide (Instance_Status instance = StatusNotFound)
      then retM false else retM true
  end.

Definition InstanceShutdown (node : Node) : MP bool :=
  let! instance := lookup node in
  retM (bool_decide (Instance_Status instance = StatusOffline)).

Definition metadata (instance : Instance) : InstanceMetadata :=
  mkInstanceMetadata (providerIDPrefix +:+ Instance_Hostname instance) (Instance_InstanceType instance)
    (mkNodeAddress NodeHostName (Instance_Hostname instance) ::
     if bool_decide (Instance_IP instance ≠ "") then
       [mkNodeAddress NodeExternalIP (Instance_IP instance);
        mkNodeAddress NodeInternalIP (Instance_IP instance)]
     else [])
    (Instance_Location instance) (Instance_Location instance).

Definition InstanceMetadata_ (node : Node) : MP InstanceMetadata :=
  let! instance := lookup node in
  retM (metadata instance).

(** ** loadbalancer.go: the frontends *)

Definition AnnotationProxyProtocol := "verda.cluster.x-k8s.io/proxy-protocol".
Definition serviceLBSecretName := "verda-service-lb".
Definition excludeFromLBLabel := "node.kubernetes.io/exclude-from-external-load-balancers".

(** [strings.NewReplacer("-", "_", ".", "_")] *)
Fixpoint sanitize (s : string) : string :=
  match s with
  | "" => ""
  | String c s =>
      String (if bool_decide (c = "-"%char) || bool_decide (c = "."%char) then "_"%char else c) (sanitize s)
  end.

Definition frontendName (svc : Service) (port : ServicePort) : string :=
  let proto := ToLower (ServicePort_Protocol port) in
  let proto := if bool_decide (proto = "") then "tcp" else proto in
  sanitize (Meta_Namespace (Service_Meta svc)) +:+ "_" +:+ sanitize (Meta_Name (Service_Meta svc)) +:+
  "_" +:+ fmt_d (ServicePort_Port port) +:+ "_" +:+ proto.

Definition port_proto (port : ServicePort) : string :=
  if bool_decide (ServicePort_Protocol port = "") then "TCP" else ServicePort_Protocol port.

Definition slot (port : Z) (proto : string) : string := fmt_d port +:+ "/" +:+ proto.
Definition port_slot (port : ServicePort) : string := slot (ServicePort_Port port) (port_proto port).
Definition frontend_slot (f : Frontend) : string := slot (Frontend_Port f) (Frontend_Protocol f).

Definition portFrontend (svc : Service) (nodes : list string) (port : ServicePort) : Frontend :=
  mkFrontend (frontendName svc port) (port_proto port) (ServicePort_Port port)
    ((λ n, mkBackend n (ServicePort_NodePort port)) <$> nodes)
    (if bool_decide (Service_ExternalTrafficPolicy svc = "Local") &&
        negb (Service_HealthCheckNodePort svc =? 0)%Z
     then Service_HealthCheckNodePort svc else 0)
    (EqualFold (map_get (Meta_Annotations (Service_Meta svc)) AnnotationProxyProtocol) "true").

(** The loop over the ports of one service: its frontends, or the conflict
    that breaks it. *)
Fixpoint portFrontends (svc : Service) (nodes : list string) (taken : gmap string string)
    (ports : list ServicePort) : list Frontend + string :=
  match ports with
  | [] => inl []
  | port :: ports =>
      let proto := port_proto port in
      if bool_decide (proto ≠ "TCP") && bool_decide (proto ≠ "UDP") then
        inr ("protocol " +:+ proto +:+ " is not supported")
      else if (ServicePort_NodePort port =? 0)%Z then
        inr ("port " +:+ fmt_d (ServicePort_Port port) +:+ " has no nodePort yet")
      else match taken !! port_slot port with
           | Some owner =>
               inr ("port " +:+ port_slot port +:+ " is already used by " +:+ owner +:+
                    " on the shared load balancer")
           | None =>
               match portFrontends svc nodes taken ports with
               | inl mine => inl (portFrontend svc nodes port :: mine)
               | inr reason => inr reason
               end
           end
  end.

(** The loop over the services. *)
Fixpoint serviceFrontends (nodes : list string) (services : list Service)
    (taken conflicts : gmap string string) : list Frontend * gmap string string :=
  match services with
  | [] => ([], conflicts)
  | svc :: services =>
      let key := svc_key svc in
      let r := portFrontends svc nodes taken (Service_Ports svc) in
      let conflicts := match r with inr reason => <[key := reason]> conflicts | inl _ => conflicts end in
      match conflicts !! key, r with
      | None, inl mine =>
          let taken := fold_left (λ t f, <[frontend_slot f := key]> t) mine taken in
          let '(rest, conflicts) := serviceFrontends nodes services taken conflicts in
          (mine ++ rest, conflicts)
      | _, _ => serviceFrontends nodes services taken conflicts
      end
  end.

Definition svc_le (a b : Service) : Prop :=
  let ta := Meta_CreationTimestamp (Service_Meta a) in
  let tb := Meta_CreationTimestamp (Service_Meta b) in
  (ta < tb)%Z ∨ ta = tb ∧ String.le (svc_key a) (svc_key b).
#[export] Instance svc_le_dec : RelDecision svc_le.
Proof. intros a b. unfold svc_le. cbn. apply _. Defined.

Definition Frontends (services : list Service) (nodes : list string) :
    list Frontend * gmap string string :=
  serviceFrontends nodes (merge_sort svc_le services) ∅ ∅.

(** ** loadbalancer.go: the service *)

Fixpoint first_address (t : NodeAddressType) (l : list NodeAddress) : string :=
  match l with
  | [] => ""
  | a :: l => if bool_decide (NodeAddress_Type a = t) && bool_decide (NodeAddress_Address a ≠ "")
              then NodeAddress_Address a else first_address t l
  end.

Definition nodeAddress (node : Node) : string :=
  let internal := first_address NodeInternalIP (Node_Addresses node) in
  if bool_decide (internal ≠ "") then internal else first_address NodeExternalIP (Node_Addresses node).

Definition usable_node (node : Node) : bool :=
  negb (bool_decide (is_Some (Meta_Labels (Node_Meta node) !! excludeFromLBLabel))) &&
  negb (deleting (Node_Meta node)) && bool_decide (nodeAddress node ≠ "").

Definition backendNodes : MP (list string) :=
  let? r := call ListNodes in
  match r with
  | Err err => throw (wrapError "listing nodes: " err "")
  | Ok nodes => retM (Sort_strings (nodeAddress <$> List.filter usable_node nodes))
  end.

Record lbConfig := mkLbConfig { lb_address : string; lb_keys : Keys }.

Definition config : MP lbConfig :=
  let? r := call GetLBSecret in
  match r with
  | Err err =>
      if IsNotFound err then
        throw (KubeError ReasonNotFound ("secrets " +:+ serviceLBSecretName +:+
          " (enable spec.serviceLoadBalancer on the VerdaCluster to get a load balancer) not found"))
      else throw (wrapError ("reading kube-system/" +:+ serviceLBSecretName +:+ ": ") err "")
  | Ok secret =>
      let data k := map_get (Secret_Data secret) k in
      if bool_decide (data "address" = "") || bool_decide (data "ssh-privatekey" = "") ||
         bool_decide (data "host-publickey" = "")
      then throw (errorString ("secret kube-system/" +:+ serviceLBSecretName +:+ " is incomplete"))
      else retM (mkLbConfig (data "address")
                   (mkKeys (data "ssh-privatekey") "" "" (data "host-publickey")))
  end.

(** The services of the listing that keep their listeners. *)
Definition kept_service (skip : list string) (current : option Service) (svc : Service) : bool :=
  bool_decide (Service_Type svc = "LoadBalancer") && negb (bool_decide (svc_key svc ∈ skip)) &&
  negb (deleting (Service_Meta svc)) &&
  match current with
  | Some cur => negb (bool_decide (Meta_Namespace (Service_Meta svc) = Meta_Namespace (Service_Meta cur)) &&
                      bool_decide (Meta_Name (Service_Meta svc) = Meta_Name (Service_Meta cur)))
  | None => true
  end.

Definition sync_services (services : list Service) (current : option Service) (deleting : list Service) :
    list Service :=
  List.filter (kept_service (svc_key <$> deleting) current) services ++ option_list current.

Definition sync (lb : lbConfig) (current : option Service) (deleting : list Service) : MP unit :=
  let? r := call ListServices in
  match r with
  | Err err => throw (wrapError "listing services: " err "")
  | Ok services =>
      let! nodes := backendNodes in
      let '(frontends, conflicts) := Frontends (sync_services services current deleting) nodes in
      match current ≫= (λ cur, (λ reason, (svc_key cur, reason)) <$> conflicts !! svc_key cur) with
      | Some (key, reason) => throw (errorString ("service " +:+ key +:+ ": " +:+ reason))
      | None => call (UpdateFiles (lb_address lb) (lb_keys lb) (EnvoyFiles frontends) "")
      end
  end.

Definition GetLoadBalancerName (service : Service) : string :=
  Meta_Namespace (Service_Meta service) +:+ "_" +:+ Meta_Name (Service_Meta service).

(** [status(address)]: the one ingress address. *)
Definition GetLoadBalancer (service : Service) : MP (option string) :=
  let? r := config in
  match r with
  | Err err => if IsNotFound err then retM None else throw err
  | Ok lb => if bool_decide (Service_Ingress service = []) then retM None
             else retM (Some (lb_address lb))
  end.

Definition EnsureLoadBalancer (service : Service) : MP string :=
  let! lb := config in
  do! sync lb (Some service) [] in
  retM (lb_address lb).

Definition UpdateLoadBalancer (service : Service) : MP unit :=
  let! lb := config in
  sync lb (Some service) [].

Definition EnsureLoadBalancerDeleted (service : Service) : MP unit :=
  let? r := config in
  match r with
  | Err err => if IsNotFound err then retM tt else throw err
  | Ok lb => sync lb None [service]
  end.

(** ** The frontends of a set of services *)

(** A port envoy can listen on and forward. *)
Definition port_ok (port : ServicePort) : Prop :=
  (port_proto port = "TCP" ∨ port_proto port = "UDP") ∧ ServicePort_NodePort port ≠ 0%Z.

Definition svc_slots (svc : Service) : list string := port_slot <$> Service_Ports svc.
Definition svc_frontends (nodes : list string) (svc : Service) : list Frontend :=
  portFrontend svc nodes <$> Service_Ports svc.

Lemma portFrontends_spec svc nodes taken ports :
  match portFrontends svc nodes taken ports with
  | inl mine => mine = portFrontend svc nodes <$> ports ∧
      ∀ port, port ∈ ports → port_ok port ∧ taken !! port_slot port = None
  | inr _ => ∃ port, port ∈ ports ∧ (¬ port_ok port ∨ is_Some (taken !! port_slot port))
  end.
Proof.
  induction ports as [|port ports IH]; cbn.
  { split; [done|]. intros port Hin. by apply not_elem_of_nil in Hin. }
  destruct (bool_decide _ && _) eqn:Hproto.
  { exists port. split; [by left|]. left. intros [[He|He] _]; rewrite He in Hproto; done. }
  destruct (_ =? 0)%Z eqn:Hnp; bool_to_prop.
  { exists port. split; [by left|]. left. by intros [_ ?]. }
  destruct (taken !! port_slot port) as [owner|] eqn:Ht.
  { exists port. split; [by left|]. right. by eexists. }
  assert (port_ok port) as Hok.
  { split; [|done]. apply andb_false_iff in Hproto as [Hp|Hp]; bool_to_prop; auto. }
  destruct (portFrontends svc nodes taken ports) as [mine|reason].
  - destruct IH as [-> IH]. split; [done|]. intros p [->|Hin]%elem_of_cons; auto.
  - destruct IH as (p & Hin & Hp). exists p. split; [by right|done].
Qed.

Lemma frontend_slot_port svc nodes port : frontend_slot (portFrontend svc nodes port) = port_slot port.
Proof. done. Qed.

Lemma taken_after key fs (taken : gmap string string) s :
  is_Some (fold_left (λ t f, <[frontend_slot f := key]> t) fs taken !! s) ↔
  is_Some (taken !! s) ∨ s ∈ frontend_slot <$> fs.
Proof.
  revert taken. induction fs as [|f fs IH]; intros taken; cbn.
  - split; [by left|]. intros [?|Hin]; [done|]. by apply not_elem_of_nil in Hin.
  - rewrite IH, elem_of_cons, lookup_insert. case_decide as He.
    + split; [intros _; right; by left|]. left. by eexists.
    + naive_solver.
Qed.

(** What the loop over the services computes: a sublist of the services is
    exposed, each with all its ports, on slots that were free; every other
    service is reported, and has a port that cannot be exposed or whose slot an
    earlier service has. *)
Record exposure (nodes : list string) (services : list Service) (taken conflicts : gmap string string)
    (fs : list Frontend) (cs : gmap string string) (exposed : list Service) : Prop := {
  ex_sub : exposed `sublist_of` services;
  ex_fs : fs = exposed ≫= svc_frontends nodes;
  ex_iff s : s ∈ services → s ∈ exposed ↔ cs !! svc_key s = None;
  ex_frame k : k ∉ svc_key <$> services → cs !! k = conflicts !! k;
  ex_ok s port : s ∈ exposed → port ∈ Service_Ports s → port_ok port ∧ taken !! port_slot port = None;
  ex_disj before s after t : exposed = before ++ s :: after → t ∈ before → svc_slots s ## svc_slots t;
  ex_why s : s ∈ services → s ∉ exposed →
    ∃ port, port ∈ Service_Ports s ∧
      (¬ port_ok port ∨ is_Some (taken !! port_slot port) ∨
       ∃ before after t, services = before ++ s :: after ∧ t ∈ before ∧ t ∈ exposed ∧
         port_slot port ∈ svc_slots t)
}.

Lemma exposure_nil nodes taken conflicts : exposure nodes [] taken conflicts [] conflicts [].
Proof. split; try done; try (intros ? H; by apply not_elem_of_nil in H).
  - intros ? ? H. by apply not_elem_of_nil in H.
  - intros [|] ? ? ?; done.
Qed.

(** A service that conflicts is skipped. *)
Lemma exposure_skip nodes svc services taken conflicts reason fs cs exposed :
  svc_key svc ∉ svc_key <$> services →
  (∃ port, port ∈ Service_Ports svc ∧ (¬ port_ok port ∨ is_Some (taken !! port_slot port))) →
  exposure nodes services taken (<[svc_key svc := reason]> conflicts) fs cs exposed →
  exposure nodes (svc :: services) taken conflicts fs cs exposed.
Proof.
  intros Hnew Hbad [Hsub Hfs Hiff Hframe Hok Hdisj Hwhy].
  assert (svc ∉ exposed) as Hout.
  { intros Hin. apply Hnew, list_elem_of_fmap. exists svc. split; [done|].
    by eapply elem_of_sublist. }
  assert (cs !! svc_key svc = Some reason) as Hcs by (by rewrite Hframe, lookup_insert_eq).
  split; try done.
  - by apply sublist_cons.
  - intros s [->|Hin]%elem_of_cons; [|auto]. rewrite Hcs. by split.
  - intros k [Hk Hks]%not_elem_of_cons. by rewrite Hframe, lookup_insert_ne.
  - intros s [->|Hin]%elem_of_cons Hs.
    + destruct Hbad as (port & Hport & Hwhy'). exists port. naive_solver.
    + destruct (Hwhy s Hin Hs) as (port & Hport & [?|[?|(b & a & t & -> & Ht)]]); exists port; split; auto.
      right; right. exists (svc :: b), a, t. destruct Ht as (? & ? & ?).
      split_and!; [done|by right|done|done].
Qed.

(** A service without a conflict is exposed and takes its slots. *)
Lemma exposure_take nodes svc services taken conflicts fs cs exposed :
  svc_key svc ∉ svc_key <$> services → conflicts !! svc_key svc = None →
  (∀ port, port ∈ Service_Ports svc → port_ok port ∧ taken !! port_slot port = None) →
  exposure nodes services (fold_left (λ t f, <[frontend_slot f := svc_key svc]> t) (svc_frontends nodes svc) taken)
    conflicts fs cs exposed →
  exposure nodes (svc :: services) taken conflicts (svc_frontends nodes svc ++ fs) cs (svc :: exposed).
Proof.
  intros Hnew Hnone Hgood [Hsub Hfs Hiff Hframe Hok Hdisj Hwhy].
  set (taken' := fold_left _ _ taken) in *.
  assert (∀ x, is_Some (taken' !! x) ↔ is_Some (taken !! x) ∨ x ∈ svc_slots svc) as Htaken.
  { intros x. unfold taken'. rewrite taken_after. unfold svc_frontends, svc_slots.
    by rewrite <-list_fmap_compose. }
  assert (∀ s port, s ∈ exposed → port ∈ Service_Ports s → port_slot port ∉ svc_slots svc) as Hfree.
  { intros s port Hs Hport Hin. destruct (Hok s port Hs Hport) as [_ Hn].
    destruct (Htaken (port_slot port)) as [_ Hx]. rewrite Hn in Hx. by destruct Hx as [? ?]; [right|]. }
  split.
  - by apply sublist_skip.
  - cbn. by rewrite Hfs.
  - intros s Hin. rewrite elem_of_cons in Hin. destruct Hin as [->|Hin].
    + rewrite Hframe by done. split; [done|]. intros _. by left.
    + rewrite elem_of_cons, <-Hiff by done. split; [|by right]. intros [->|?]; [|done].
      destruct Hnew. apply list_elem_of_fmap. by exists svc.
  - intros k [Hk Hks]%not_elem_of_cons. auto.
  - intros s port [->|Hs]%elem_of_cons Hport; [by apply Hgood|].
    destruct (Hok s port Hs Hport) as [Hp Hn]. split; [done|]. apply eq_None_not_Some. intros Hx.
    apply eq_None_not_Some in Hn. apply Hn, Htaken. by left.
  - intros [|x before] s after t Heq Ht; simplify_eq/=; [by apply not_elem_of_nil in Ht|].
    rewrite elem_of_cons in Ht. destruct Ht as [->|Ht]; [|by eapply Hdisj].
    intros y Hy Hy'. apply list_elem_of_fmap in Hy as (port & -> & Hport).
    eapply Hfree; [|done|done]. apply elem_of_app. right. by left.
  - intros s Hin Hs. apply not_elem_of_cons in Hs as [Hne Hs].
    rewrite elem_of_cons in Hin. destruct Hin as [->|Hin]; [done|].
    destruct (Hwhy s Hin Hs) as (port & Hport & [?|[Hx|(b & a & t & -> & Ht)]]); exists port; split; auto.
    + apply Htaken in Hx as [?|Hx]; [by auto|]. right; right.
      apply list_elem_of_split in Hin as (b & a & ->). exists (svc :: b), a, svc.
      split_and!; [done|by left|by left|done].
    + right; right. exists (svc :: b), a, t. destruct Ht as (? & ? & ?).
      split_and!; [done|by right|by right|done].
Qed.

Lemma serviceFrontends_exposure nodes services taken conflicts :
  NoDup (svc_key <$> services) → (∀ s, s ∈ services → conflicts !! svc_key s = None) →
  ∃ exposed, exposure nodes services taken conflicts
    (serviceFrontends nodes services taken conflicts).1 (serviceFrontends nodes services taken conflicts).2 exposed.
Proof.
  revert taken conflicts. induction services as [|svc services IH]; intros taken conflicts Hnd Hc.
  { exists []. apply exposure_nil. }
  rewrite fmap_cons in Hnd. apply NoDup_cons in Hnd as [Hnew Hnd].
  cbn [serviceFrontends]. pose proof (portFrontends_spec svc nodes taken (Service_Ports svc)) as Hp.
  destruct (portFrontends svc nodes taken (Service_Ports svc)) as [mine|reason]; cbn zeta iota beta.
  - destruct Hp as [-> Hgood]. rewrite (Hc svc) by left. fold (svc_frontends nodes svc).
    set (taken' := fold_left _ _ taken).
    destruct (IH taken' conflicts) as [exposed Hex]; [done|intros; apply Hc; by right|].
    destruct (serviceFrontends nodes services taken' conflicts) as [rest cs].
    exists (svc :: exposed). apply exposure_take; auto. apply Hc. by left.
  - rewrite lookup_insert_eq.
    destruct (IH taken (<[svc_key svc := reason]> conflicts)) as [exposed Hex]; [done| |].
    { intros s Hs. rewrite lookup_insert_ne; [apply Hc; by right|]. intros He.
      apply Hnew, list_elem_of_fmap. by exists s. }
    exists exposed. by eapply exposure_skip.
Qed.

(** *** The names of the frontends *)

Lemma last_sep_inj (c : ascii) a b x y :
  c ∉ chars x → c ∉ chars y → a +:+ String c x = b +:+ String c y → a = b ∧ x = y.
Proof.
  revert b. induction a as [|d a IH]; intros [|e b] Hx Hy Heq;
    rewrite ?string_app_cons, ?string_app_nil_l in Heq; simplify_eq; [done|..].
  - destruct Hx. rewrite chars_app. apply elem_of_app. right. by left.
  - destruct Hy. rewrite chars_app. apply elem_of_app. right. by left.
  - destruct (IH b) as [-> ->]; auto.
Qed.

Lemma fmt_d_no_underscore z : "_"%char ∉ chars (fmt_d z).
Proof.
  assert (∀ n : N, "_"%char ∉ chars (pretty n)) as Hn.
  { intros n Hin. pose proof (pretty_N_digits n) as Hd. rewrite Forall_forall in Hd.
    by apply Hd in Hin. }
  unfold fmt_d, pretty, pretty_Z. destruct z as [|p|p]; [set_solver|apply Hn|].
  rewrite chars_app. intros [H|H]%elem_of_app; [set_solver|by apply Hn in H].
Qed.

(** The name of a frontend determines its slot. *)
Lemma frontendName_slot s t p q :
  port_ok p → port_ok q → frontendName s p = frontendName t q → port_slot p = port_slot q.
Proof.
  intros [Hp _] [Hq _] Heq. unfold frontendName in Heq.
  assert (∀ r, port_proto r = "TCP" ∨ port_proto r = "UDP" →
    ∃ proto, (if bool_decide (ToLower (ServicePort_Protocol r) = "") then "tcp"
              else ToLower (ServicePort_Protocol r)) = proto ∧
      (proto = "tcp" ∧ port_proto r = "TCP" ∨ proto = "udp" ∧ port_proto r = "UDP")) as Hproto.
  { intros r Hr. eexists. split; [done|]. unfold port_proto in *.
    destruct (bool_decide (ServicePort_Protocol r = "")) eqn:He; bool_to_prop.
    - left. split; [by rewrite He|done].
    - destruct Hr as [->| ->]; [by left|by right]. }
  destruct (Hproto p Hp) as (a & Ha & Ha'), (Hproto q Hq) as (b & Hb & Hb').
  cbn zeta in Heq. rewrite Ha, Hb in Heq.
  assert (a = b ∧ fmt_d (ServicePort_Port p) = fmt_d (ServicePort_Port q)) as [-> Hport].
  { assert (∀ A B d proto : string,
      A +:+ "_" +:+ B +:+ "_" +:+ d +:+ "_" +:+ proto =
      ((A +:+ "_" +:+ B) +:+ String "_" d) +:+ String "_" proto) as Hre.
    { intros. by rewrite <-(string_app_nil_l d) at 1; rewrite ?string_app_assoc. }
    rewrite !Hre in Heq. apply string_app_eq_len_r in Heq as [Heq Hab].
    2:{ by destruct Ha' as [[-> _]|[-> _]], Hb' as [[-> _]|[-> _]]. }
    apply (last_sep_inj "_") in Heq as [_ ->]; [by simplify_eq|apply fmt_d_no_underscore..]. }
  unfold port_slot, slot. rewrite Hport. f_equal. f_equal.
  destruct Ha' as [[-> ->]|[-> ->]], Hb' as [[? ->]|[? ->]]; done.
Qed.

(** *** The order of the services *)

#[export] Instance svc_le_preorder : PreOrder svc_le.
Proof.
  split.
  - intros a. right. by split.
  - intros a b c. unfold svc_le. cbn zeta. intros [?|[H ?]] [?|[H' ?]].
    + left; lia.
    + left; by rewrite <-H'.
    + left; by rewrite H.
    + right. split; [congruence|by etrans].
Qed.
#[export] Instance svc_le_total : Total svc_le.
Proof.
  intros a b. unfold svc_le.
  set (ta := Meta_CreationTimestamp (Service_Meta a)). set (tb := Meta_CreationTimestamp (Service_Meta b)).
  destruct (Z.lt_trichotomy ta tb) as [?|[?|?]]; [by auto| |by auto].
  destruct (total String.le (svc_key a) (svc_key b)); auto.
Qed.

Lemma svc_le_key a b : svc_le a b → svc_le b a → svc_key a = svc_key b.
Proof.
  unfold svc_le. cbn zeta. intros [?|[H Hab]] [?|[H' Hba]].
  - lia.
  - rewrite H' in *. lia.
  - rewrite H in *. lia.
  - by apply (anti_symm String.le).
Qed.

Lemma merge_sort_before (services : list Service) before s after t :
  merge_sort svc_le services = before ++ s :: after → t ∈ before → svc_le t s.
Proof.
  intros Heq Ht. pose proof (StronglySorted_merge_sort svc_le services) as Hs. rewrite Heq in Hs.
  clear Heq. induction before as [|x before IH]; [by apply not_elem_of_nil in Ht|].
  cbn in Hs. apply StronglySorted_cons in Hs as [Hx Hs]. rewrite Forall_forall in Hx.
  rewrite elem_of_cons in Ht. destruct Ht as [->|Ht]; [|by apply IH].
  apply Hx, elem_of_app. right. by left.
Qed.

Lemma Frontends_exposure services nodes :
  NoDup (svc_key <$> services) →
  ∃ exposed, exposure nodes (merge_sort svc_le services) ∅ ∅
    (Frontends services nodes).1 (Frontends services nodes).2 exposed.
Proof.
  intros Hnd. apply serviceFrontends_exposure.
  - by rewrite merge_sort_Permutation.
  - intros. apply lookup_empty.
Qed.

(** (C22) The shared load balancer is divided fairly: a service is exposed with
    all its ports or reported with a reason and not exposed at all; exposed
    services use no port twice between them; and a service is refused only for
    a port envoy cannot serve or one that an exposed service that is older (or
    as old, with a smaller name) already has.  Every exposed port forwards to
    the service's node port on each of the nodes. *)
Theorem frontends_fair services nodes :
  NoDup (svc_key <$> services) →
  let '(fs, cs) := Frontends services nodes in
  ∃ exposed,
    (∀ s, s ∈ services → s ∈ exposed ↔ cs !! svc_key s = None) ∧
    exposed `sublist_of` merge_sort svc_le services ∧
    fs = exposed ≫= svc_frontends nodes ∧
    (∀ s t, s ∈ exposed → t ∈ exposed → s ≠ t → svc_slots s ## svc_slots t) ∧
    (∀ s port, s ∈ exposed → port ∈ Service_Ports s →
      port_ok port ∧ Frontend_Backends (portFrontend s nodes port) =
        (λ n, mkBackend n (ServicePort_NodePort port)) <$> nodes) ∧
    (∀ s, s ∈ services → s ∉ exposed → ∃ port, port ∈ Service_Ports s ∧
      (¬ port_ok port ∨
       ∃ t, t ∈ exposed ∧ t ≠ s ∧ svc_le t s ∧ port_slot port ∈ svc_slots t)).
Proof.
  intros Hnd. destruct (Frontends_exposure services nodes Hnd) as [exposed [Hsub Hfs Hiff _ Hok Hdisj Hwhy]].
  destruct (Frontends services nodes) as [fs cs]. cbn [fst snd] in *. exists exposed. split_and!; try done.
  - intros s Hs. apply Hiff. by rewrite merge_sort_Permutation.
  - intros s t Hs Ht Hne. apply list_elem_of_split in Hs as (before & after & ->).
    apply elem_of_app in Ht as [Ht|[->|Ht]%elem_of_cons]; [by eapply Hdisj|done|].
    apply list_elem_of_split in Ht as (mid & after' & ->).
    intros y Hy Hy'. apply (Hdisj (before ++ s :: mid) t after' s) with y; [by rewrite <-app_assoc| |done..].
    apply elem_of_app. right. by left.
  - intros s port Hs Hp. split; [by destruct (Hok s port Hs Hp)|done].
  - intros s Hs Hout. destruct (Hwhy s) as (port & Hport & Hp); [by rewrite merge_sort_Permutation|done|].
    exists port. split; [done|]. destruct Hp as [Hp|[[? Hp]|(b & a & t & Heq & Ht & Hte & Hslot)]].
    + by left.
    + by rewrite lookup_empty in Hp.
    + right. exists t. split_and!; [done|congruence|by eapply merge_sort_before|done].
Qed.

(** The listeners envoy is given never collide: if no service lists a port
    twice, no two frontends have the same port and protocol, and no two have
    the same name. *)
Theorem frontends_distinct services nodes :
  NoDup (svc_key <$> services) → Forall (λ s, NoDup (svc_slots s)) services →
  NoDup (frontend_slot <$> (Frontends services nodes).1) ∧
  NoDup (Frontend_Name <$> (Frontends services nodes).1).
Proof.
  intros Hnd Hslots. destruct (Frontends_exposure services nodes Hnd) as [exposed [Hsub -> _ _ Hok Hdisj _]].
  assert (Forall (λ s, NoDup (svc_slots s)) exposed) as Hex.
  { apply Forall_forall. intros s Hs. rewrite Forall_forall in Hslots. apply Hslots.
    rewrite <-(merge_sort_Permutation svc_le). by eapply elem_of_sublist. }
  assert (NoDup (frontend_slot <$> (exposed ≫= svc_frontends nodes))) as Hfs.
  { clear Hsub Hok Hnd Hslots. induction exposed as [|s exposed IH] using rev_ind; [constructor|].
    apply Forall_app in Hex as [Hex Hs]. rewrite Forall_singleton in Hs.
    rewrite bind_app, fmap_app. cbn. rewrite app_nil_r. unfold svc_frontends at 2.
    rewrite <-list_fmap_compose. apply NoDup_app. split_and!.
    - apply IH; [|done]. intros before x after t -> Ht.
      apply (Hdisj before x (after ++ [s])); [by rewrite <-app_assoc|done].
    - intros y Hy Hy'. apply list_elem_of_fmap in Hy as (f & -> & Hf).
      apply list_elem_of_bind in Hf as (t & Hf & Ht). apply list_elem_of_fmap in Hf as (p & -> & Hp).
      eapply (Hdisj exposed s [] t); [done|done|exact Hy'|].
      apply list_elem_of_fmap. by exists p.
    - exact Hs. }
  split; [done|]. eapply NoDup_fmap_finer; [|exact Hfs].
  intros f g Hf Hg Heq. apply list_elem_of_bind in Hf as (s & Hf & Hs), Hg as (t & Hg & Ht).
  apply list_elem_of_fmap in Hf as (p & -> & Hp), Hg as (q & -> & Hq). rewrite !frontend_slot_port.
  apply (frontendName_slot s t); [by apply (Hok s p)|by apply (Hok t q)|done].
Qed.

(** The load balancer's configuration is a function of the set of
    services: the order in which the API lists services and nodes changes
    neither the listeners, nor the reported conflicts, nor the files. *)
Theorem frontends_order_independent services services' nodes nodes' :
  NoDup (svc_key <$> services) → services ≡ₚ services' → nodes ≡ₚ nodes' →
  Frontends services (Sort_strings nodes) = Frontends services' (Sort_strings nodes').
Proof.
  intros Hnd Hs Hn. unfold Frontends. rewrite (Sort_strings_unique nodes nodes' Hn).
  by rewrite (merge_sort_unique_key svc_le svc_key services services' svc_le_key Hnd Hs).
Qed.

(** *** One synchronisation *)

(** The listing of services, as the API server keeps it: no two services have
    the same namespace and name, and a namespace has no slash. *)
Definition listing_ok (services : list Service) : Prop :=
  NoDup (svc_key <$> services) ∧ Forall (λ s, "/"%char ∉ chars (Meta_Namespace (Service_Meta s))) services.

Lemma first_sep_inj (c : ascii) a b x y :
  c ∉ chars a → c ∉ chars b → a +:+ String c x = b +:+ String c y → a = b ∧ x = y.
Proof.
  revert b. induction a as [|d a IH]; intros [|e b] Ha Hb Heq;
    rewrite ?string_app_cons, ?string_app_nil_l in Heq; simplify_eq; [done|..].
  - destruct Hb. by left.
  - destruct Ha. by left.
  - destruct (IH b) as [-> ->]; [..|done|done]; intros Hin; [apply Ha|apply Hb]; by right.
Qed.

Lemma sync_services_nodup services current deleting :
  listing_ok services →
  (∀ cur, current = Some cur → "/"%char ∉ chars (Meta_Namespace (Service_Meta cur))) →
  NoDup (svc_key <$> sync_services services current deleting).
Proof.
  intros [Hnd Hns] Hcur.
  unfold sync_services. rewrite fmap_app. apply NoDup_app. split_and!.
  - clear Hns Hcur. induction services as [|s services IH]; [constructor|]. cbn in Hnd |- *.
    apply NoDup_cons in Hnd as [Hs Hnd]. destruct (kept_service _ _ s); [|by apply IH].
    cbn. apply NoDup_cons. split; [|by apply IH]. intros (t & Ht & Hin)%list_elem_of_fmap.
    apply elem_of_List_filter in Hin as [Hin _].
    apply Hs, list_elem_of_fmap. by exists t.
  - intros k (s & -> & Hin)%list_elem_of_fmap Hk. destruct current as [cur|]; [|by apply not_elem_of_nil in Hk].
    apply list_elem_of_singleton in Hk. apply elem_of_List_filter in Hin as [Hin Hkept].
    rewrite Forall_forall in Hns.
    apply (first_sep_inj "/") in Hk as [Hk1 Hk2]; [|by apply Hns|by apply Hcur].
    unfold kept_service in Hkept. bool_to_prop. rewrite Hk1, Hk2 in *.
    rewrite !bool_decide_eq_true_2 in * by done. done.
  - destruct current; cbn; [apply NoDup_singleton|constructor].
Qed.

(** The backends of one synchronisation. *)
Definition backends_of (nodes : list Node) : list string :=
  Sort_strings (nodeAddress <$> List.filter usable_node nodes).

(** The history of a synchronisation that pushed [fs] after the calls [h0], with
    the answer [a]. *)
Definition pushed (lb : lbConfig) (services : list Service) (nodes : list Node) (fs : list Frontend)
    (a : result unit) (h0 : hist CcmE) : hist CcmE :=
  Obs (UpdateFiles (lb_address lb) (lb_keys lb) (EnvoyFiles fs) "") a ::
  Obs ListNodes (Ok nodes) :: Obs ListServices (Ok services) :: h0.

(** The load balancer was not contacted: no update was attempted. *)
Definition untouched : hist CcmE → Prop :=
  Forall (λ o, match o with Obs (UpdateFiles _ _ _ _) _ => False | _ => True end).

Ltac quiet := repeat (apply Forall_cons; split; [exact I|]); first [assumption|apply Forall_nil_2].

(** What a synchronisation did: it fails without contacting the load balancer, or
    pushes the frontends of the services that keep their listeners and ends as
    the push does; and it does not push over a conflict of the service it is
    about. *)
Lemma sync_wp lb current del h :
  untouched h →
  wpM (any_answer (λ _ _ _, True)) (sync lb current del) tt h (λ h' _ r,
    (∃ e, r = Err e ∧ untouched h') ∨
    ∃ services nodes,
      let '(fs, cs) := Frontends (sync_services services current del) (backends_of nodes) in
      h' = pushed lb services nodes fs r h ∧ ∀ cur, current = Some cur → cs !! svc_key cur = None).
Proof.
  intros Hh.
  unfold sync. wp_step. wp_step; [done|]. destruct r as [services|err]; [|wp_step; left; eexists; split; [done|quiet]].
  wp_step. unfold backendNodes. wp_step. wp_step; [done|].
  destruct r as [nodes|err]; [|wp_step; left; eexists; split; [done|quiet]].
  wp_step. fold (backends_of nodes).
  destruct (Frontends (sync_services services current del) (backends_of nodes)) as [fs cs] eqn:Hfs.
  destruct (current ≫= _) as [[key reason]|] eqn:Hconf; [wp_step; left; eexists; split; [done|quiet]|].
  wp_step; [done|]. right.
  exists services, nodes. rewrite Hfs. split; [done|]. intros cur ->. cbn in Hconf.
  by destruct (cs !! svc_key cur).
Qed.

Lemma config_wp h :
  untouched h →
  wpM (any_answer (λ _ _ _, True)) config tt h (λ h' _ r,
    untouched h' ∧
    match r with
    | Ok lb => ∃ secret, h' = Obs GetLBSecret (Ok secret) :: h ∧ lb_address lb = map_get (Secret_Data secret) "address" ∧
        lb_address lb ≠ ""
    | Err e => IsNotFound e = true → ∃ e', IsNotFound e' = true ∧ h' = Obs GetLBSecret (Err e') :: h
    end).
Proof.
  intros Hh. unfold config. wp_step. wp_step; [done|]. destruct r as [secret|err].
  - wp_steps; (split; [quiet|]); [done|]. bool_to_prop.
    repeat match goal with H : _ || _ = false |- _ => apply orb_false_iff in H as [? ?] end.
    bool_to_prop. by exists secret.
  - destruct (IsNotFound err) eqn:He; wp_step; (split; [quiet|]).
    + intros _. by exists err.
    + intros Hn. change (IsNotFound err = true) in Hn. congruence.
Qed.

Lemma Frontends_elem services nodes f :
  NoDup (svc_key <$> services) →
  f ∈ (Frontends services nodes).1 ↔
  ∃ s, s ∈ services ∧ (Frontends services nodes).2 !! svc_key s = None ∧ f ∈ svc_frontends nodes s.
Proof.
  intros Hnd. destruct (Frontends_exposure services nodes Hnd) as [exposed [Hsub -> Hiff _ _ _ _]].
  rewrite list_elem_of_bind. split.
  - intros (s & Hf & Hs). assert (s ∈ merge_sort svc_le services) as Hin by (by eapply elem_of_sublist).
    exists s. split_and!; [by rewrite merge_sort_Permutation in Hin|by apply Hiff|done].
  - intros (s & Hs & Hc & Hf). exists s. split; [done|]. apply Hiff; [by rewrite merge_sort_Permutation|done].
Qed.

(** The configuration has every listener of the service, and only listeners of
    services that still want them. *)
Definition serves (svc : Service) (services : list Service) (nodes : list Node) (fs : list Frontend) : Prop :=
  (∀ f, f ∈ svc_frontends (backends_of nodes) svc → f ∈ fs) ∧
  (∀ f, f ∈ fs → ∃ s, f ∈ svc_frontends (backends_of nodes) s ∧
    (s = svc ∨ s ∈ services ∧ Service_Type s = "LoadBalancer" ∧ deleting (Service_Meta s) = false)).

Lemma sync_serves svc services nodes fs cs :
  listing_ok services → "/"%char ∉ chars (Meta_Namespace (Service_Meta svc)) →
  Frontends (sync_services services (Some svc) []) (backends_of nodes) = (fs, cs) →
  (∀ cur, Some svc = Some cur → cs !! svc_key cur = None) → serves svc services nodes fs.
Proof.
  intros Hlist Hns Hfs Hcur.
  assert (NoDup (svc_key <$> sync_services services (Some svc) [])) as Hnd
    by (apply sync_services_nodup; [done|by intros ? [= <-]]).
  split; intros f Hf; pose proof (Frontends_elem _ (backends_of nodes) f Hnd) as He; rewrite Hfs in He.
  - apply He. exists svc. split_and!; [|by apply Hcur|done].
    unfold sync_services. apply elem_of_app. right. by left.
  - apply He in Hf as (s & Hs & _ & Hfs'). exists s. split; [done|].
    unfold sync_services in Hs. apply elem_of_app in Hs as [Hs|Hs%list_elem_of_singleton]; [|by left].
    right. apply elem_of_List_filter in Hs as [Hs Hk]. unfold kept_service in Hk. bool_to_prop. done.
Qed.

(** (C23) [EnsureLoadBalancer] tells the truth: it returns an address only after
    the update of the load balancer at that address succeeded, with a
    configuration that has a listener for every port of the service and nothing
    but listeners of services that still want them; on an error the load
    balancer was not contacted, or the one update it was sent, with such a
    configuration, failed.  So never is one sent that drops the service or
    another one because of a conflict of this service. *)
Theorem ensure_load_balancer_truthful svc h u r :
  runs (EnsureLoadBalancer svc tt) h (u, r) →
  "/"%char ∉ chars (Meta_Namespace (Service_Meta svc)) →
  (∀ services, Obs ListServices (Ok services) ∈ h → listing_ok services) →
  (∃ e, r = Err e ∧ untouched h) ∨
  ∃ lb secret services nodes fs a,
    h = pushed lb services nodes fs a [Obs GetLBSecret (Ok secret)] ∧ serves svc services nodes fs ∧
    match r with
    | Ok address => a = Ok tt ∧ address = lb_address lb ∧ address = map_get (Secret_Data secret) "address"
    | Err e => a = Err e
    end.
Proof.
  intros Hex Hns. unfold runs in Hex. exec_to_wp Hex. unfold EnsureLoadBalancer. wp_step.
  eapply wpM_mono; [apply config_wp; constructor|]. intros h1 [] [lb|e] [Hq Hlb]; [|intros _; left; by exists e].
  destruct Hlb as (secret & -> & Haddr & _).
  wp_step. eapply wpM_mono; [by apply sync_wp|]. intros h2 [] a [(e & -> & Hu)|(services & nodes & Hs)].
  { intros _. left. by exists e. }
  destruct (Frontends _ _) as [fs cs] eqn:Hfs. destruct Hs as [-> Hcur].
  assert ((∀ services', Obs ListServices (Ok services') ∈ pushed lb services nodes fs a [Obs GetLBSecret (Ok secret)] →
    listing_ok services') → serves svc services nodes fs) as Hserves.
  { intros Hlist. eapply sync_serves; [|done..]. apply Hlist. unfold pushed. hist. }
  destruct a as [[]|e]; [wp_step|]; intros Hlist; right; exists lb, secret, services, nodes, fs; eexists;
    (split; [done|]); (split; [by apply Hserves|done]).
Qed.

(** [EnsureLoadBalancerDeleted] releases the service's ports: when it
    succeeds there is no load balancer (its secret does not exist), or the
    configuration just installed has no listener of the service, whatever the
    listing still says of it, and has those of exactly the other services that
    want listeners and have no conflict with an older one; when it fails, the
    load balancer was not contacted or its update failed. *)
Theorem ensure_load_balancer_deleted svc h u r :
  runs (EnsureLoadBalancerDeleted svc tt) h (u, r) →
  (∀ services, Obs ListServices (Ok services) ∈ h → listing_ok services) →
  (∃ e, r = Err e ∧ untouched h) ∨
  r = Ok tt ∧ (∃ e, IsNotFound e = true ∧ h = [Obs GetLBSecret (Err e)]) ∨
  ∃ lb secret services nodes fs cs,
    h = pushed lb services nodes fs r [Obs GetLBSecret (Ok secret)] ∧
    Frontends (sync_services services None [svc]) (backends_of nodes) = (fs, cs) ∧
    ∀ f, f ∈ fs ↔ ∃ s, s ∈ services ∧ svc_key s ≠ svc_key svc ∧ Service_Type s = "LoadBalancer" ∧
      deleting (Service_Meta s) = false ∧ cs !! svc_key s = None ∧ f ∈ svc_frontends (backends_of nodes) s.
Proof.
  intros Hex. unfold runs in Hex. exec_to_wp Hex. unfold EnsureLoadBalancerDeleted. wp_step.
  eapply wpM_mono; [apply config_wp; constructor|]. intros h1 [] [lb|e] [Hq Hlb].
  2:{ destruct (IsNotFound e) eqn:He; wp_step; intros _; [|left; by exists e]. right. left. split; [done|].
      destruct (Hlb eq_refl) as (e' & He' & ->). by exists e'. }
  destruct Hlb as (secret & -> & _ & _).
  eapply wpM_mono; [by apply sync_wp|]. intros h2 [] a [(e & -> & Hu)|(services & nodes & Hs)] Hlist.
  { left. by exists e. }
  right. right.
  destruct (Frontends _ _) as [fs cs] eqn:Hfs. destruct Hs as [-> _].
  assert (NoDup (svc_key <$> sync_services services None [svc])) as Hnd
    by (apply sync_services_nodup; [apply Hlist; unfold pushed; hist|done]).
  exists lb, secret, services, nodes, fs, cs. split_and!; [done..|]. intros f.
  pose proof (Frontends_elem _ (backends_of nodes) f Hnd) as He. rewrite Hfs in He. rewrite He.
  f_equiv. intros s. unfold sync_services. cbn [option_list]. rewrite app_nil_r, elem_of_List_filter.
  unfold kept_service. cbn [fmap list_fmap]. rewrite !andb_true_iff, !negb_true_iff, bool_decide_eq_true,
    bool_decide_eq_false, list_elem_of_singleton. naive_solver.
Qed.

(** *** Nodes and their instances *)

(** The hostname a node stands for; [None] for a node of another provider. *)
Definition node_hostname (node : Node) : option string :=
  if decide (Node_ProviderID node = "") then Some (Meta_Name (Node_Meta node))
  else if HasPrefix (Node_ProviderID node) ProviderIDPrefix
  then Some (str_drop (String.length ProviderIDPrefix) (Node_ProviderID node)) else None.

Lemma lookup_spec node :
  match node_hostname node with
  | Some hostname => lookup node = call (CcmVerda (FindInstanceByHostname hostname))
  | None => ∃ msg, lookup node = throw (errorString msg)
  end.
Proof.
  unfold node_hostname, lookup. cbn zeta. unfold TrimPrefix.
  case_decide as He.
  - rewrite bool_decide_eq_false_2 by (by intros ?). done.
  - rewrite bool_decide_eq_true_2 by done. cbn [andb].
    change providerIDPrefix with ProviderIDPrefix.
    destruct (HasPrefix _ _); cbn [negb]; [done|by eexists].
Qed.

(** (C24) A node is declared gone only on evidence: [InstanceExists] answers
    false (upon which the node is deleted) only after the one lookup of the
    node's own hostname said that no such instance is known, or returned it
    discontinued, deleted or not found; it answers true only for an instance
    in another status; a failed lookup is an error, and a node of another
    provider is never looked up. *)
Theorem instance_exists_truthful node h u r :
  runs (InstanceExists node tt) h (u, r) →
  match node_hostname node with
  | None => h = [] ∧ ∃ e, r = Err e
  | Some hostname => ∃ found,
      h = [Obs (CcmVerda (FindInstanceByHostname hostname)) found] ∧
      match r with
      | Ok false => (∃ e, found = Err e ∧ errors_Is e ErrNotFound = true) ∨
          ∃ i, found = Ok i ∧ Instance_Status i ∈ [StatusDiscontinued; StatusDeleted; StatusNotFound]
      | Ok true => ∃ i, found = Ok i ∧ Instance_Status i ∉ [StatusDiscontinued; StatusDeleted; StatusNotFound]
      | Err e => found = Err e ∧ errors_Is e ErrNotFound = false
      end
  end.
Proof.
  intros Hex. unfold runs in Hex. exec_to_wp Hex. clear h u r. unfold InstanceExists. wp_step.
  pose proof (lookup_spec node) as Hl. destruct (node_hostname node) as [hostname|].
  - rewrite Hl. wp_step; [done|]. destruct r as [i|e].
    + destruct (_ || _) eqn:Hg; wp_step; eexists; (split; [done|]).
      * right. exists i. split; [done|]. rewrite !orb_true_iff, !bool_decide_eq_true in Hg. set_solver.
      * exists i. split; [done|]. rewrite !orb_false_iff, !bool_decide_eq_false in Hg. set_solver.
    + destruct (errors_Is e ErrNotFound) eqn:He; wp_step; eexists; (split; [done|]); [|done].
      left. by exists e.
  - destruct Hl as [msg ->]. wp_steps. by split; [|eexists].
Qed.

(** Provider IDs agree: the provider ID that the cloud controller manager
    gives a node is the one the machine controller records for the instance
    with that hostname, and a node that carries it is looked up under exactly
    that hostname from then on, whatever the node is called. *)
Theorem provider_id_round_trip node h u md :
  runs (InstanceMetadata_ node tt) h (u, Ok md) →
  ∃ asked i, h = [Obs (CcmVerda (FindInstanceByHostname asked)) (Ok i)] ∧
    IM_ProviderID md = ProviderID (Instance_Hostname i) ∧
    ∀ node', Node_ProviderID node' = IM_ProviderID md →
      lookup node' = call (CcmVerda (FindInstanceByHostname (Instance_Hostname i))).
Proof.
  intros Hex. unfold runs, InstanceMetadata_ in Hex.
  apply exec_bindM in Hex as (h1 & o1 & r1 & Hlk & Hex).
  pose proof (lookup_spec node) as Hl. destruct (node_hostname node) as [asked|].
  - rewrite Hl in Hlk. exec_step Hlk. destruct r1 as [i|e]; [|by destruct Hex as (_ & _ & ?)].
    exec_step Hex. exists asked, i. split_and!; [done|done|].
    intros node' Hid. pose proof (lookup_spec node') as Hl'. unfold node_hostname in Hl'.
    rewrite Hid in Hl'. cbn [IM_ProviderID metadata] in Hl'.
    rewrite decide_False in Hl' by done. change providerIDPrefix with ProviderIDPrefix in Hl'.
    unfold HasPrefix in Hl'. by rewrite prefix_app, str_drop_app in Hl'.
  - destruct Hl as [msg Hl]. rewrite Hl in Hlk. exec_step Hlk. by destruct Hex as (_ & _ & ?).
Qed.

(** ** A workload cluster with three services *)

Module CcmExamples.
#[local] Existing Instance FakeExamples.range_in_key_order.

Definition meta (name : string) (created : Z) : ObjectMeta :=
  mkObjectMeta name "default" ∅ ∅ [] created None.
Definition service (name : string) (created port nodePort : Z) (proto : string) : Service :=
  mkService (meta name created) "LoadBalancer" [mkServicePort proto port nodePort] "Cluster" 0 [].

Definition web : Service := service "web" 100 80 30080 "".
Definition dns : Service := service "dns" 200 53 30053 "UDP".
(** A younger service on the port of [web]. *)
Definition late : Service := service "late" 300 80 30081 "TCP".

Definition node (name : string) : Node :=
  mkNode (meta name 0) "verda://db" [mkNodeAddress NodeInternalIP "10.0.0.1"].

Definition lb_secret : Secret :=
  mkSecret "kube-system" serviceLBSecretName "1" ∅ None
    {["address" := "203.0.113.7"; "ssh-privatekey" := "key"; "host-publickey" := "host"]}.

Definition workload (X : Type) (e : CcmE X) : unit → unit * X :=
  match e in CcmE X return unit → unit * X with
  | CcmVerda e => λ u, (u, (fake _ e FakeExamples.cloud0).2)
  | GetLBSecret => λ u, (u, Ok lb_secret)
  | ListServices => λ u, (u, Ok [late; web; dns])
  | ListNodes => λ u, (u, Ok [node "a"])
  | UpdateFiles _ _ _ _ => λ u, (u, Ok tt)
  end.

Definition traced {A} (m : MP A) := trace workload (m tt) tt [].
Definition calls {A} (m : MP A) : hist CcmE := (traced m).1.2.

Lemma three_nodup : NoDup (svc_key <$> [late; web; dns]).
Proof. apply (bool_decide_unpack _). vm_compute. exact I. Defined.

Lemma three_listing_ok : listing_ok [late; web; dns].
Proof.
  split; [exact three_nodup|]. apply (bool_decide_unpack _). vm_compute. exact I.
Defined.

Lemma frontends_fair_witness :
  ∃ exposed, web ∈ exposed ∧ dns ∈ exposed ∧ (late ∉ exposed) ∧
    (Frontends [late; web; dns] ["10.0.0.1"]).1 = (exposed ≫= svc_frontends ["10.0.0.1"]).
Proof.
  pose proof (frontends_fair [late; web; dns] ["10.0.0.1"] three_nodup) as H.
  destruct (Frontends [late; web; dns] ["10.0.0.1"]) as [fs cs] eqn:Hf.
  destruct H as (exposed & Hiff & _ & Hfs & _). exists exposed.
  assert (cs = (Frontends [late; web; dns] ["10.0.0.1"]).2) as -> by (by rewrite Hf).
  rewrite !Hiff by (rewrite !elem_of_cons; auto).
  split_and!; [by vm_compute|by vm_compute| |done]. intros Hl. by vm_compute in Hl.
Defined.

Lemma frontends_distinct_witness :
  NoDup (frontend_slot <$> (Frontends [late; web; dns] ["10.0.0.1"]).1) ∧
  NoDup (Frontend_Name <$> (Frontends [late; web; dns] ["10.0.0.1"]).1).
Proof.
  apply (frontends_distinct [late; web; dns] ["10.0.0.1"] three_nodup).
  apply (bool_decide_unpack _). vm_compute. exact I.
Defined.

Lemma frontends_order_independent_witness :
  Frontends [late; web] (Sort_strings ["10.0.0.2"; "10.0.0.1"]) =
  Frontends [web; late] (Sort_strings ["10.0.0.1"; "10.0.0.2"]).
Proof.
  apply (frontends_order_independent [late; web] [web; late] ["10.0.0.2"; "10.0.0.1"] ["10.0.0.1"; "10.0.0.2"]).
  - apply (bool_decide_unpack _). vm_compute. exact I.
  - apply perm_swap.
  - apply perm_swap.
Defined.

Definition listing_of (o : obs CcmE) : option (result (list Service)) :=
  match o with
  | Obs e r => match e in CcmE X return X → option (result (list Service)) with
               | ListServices => Some
               | _ => λ _, None
               end r
  end.

Lemma listed (h : hist CcmE) services :
  listing_of <$> h = [None; None; Some (Ok [late; web; dns]); None] →
  Obs ListServices (Ok services) ∈ h → listing_ok services.
Proof.
  intros Hh Hin%(list_elem_of_fmap_2 listing_of). rewrite Hh, !elem_of_cons in Hin. cbn in Hin.
  assert (services = [late; web; dns]) as ->; [|exact three_listing_ok].
  destruct Hin as [?|[?|[?|[?|Hin]]]]; [congruence..|by apply not_elem_of_nil in Hin].
Defined.

Lemma ensure_load_balancer_truthful_witness :
  (traced (EnsureLoadBalancer web)).2.2 = Ok "203.0.113.7" ∧
  ∃ lb secret services nodes fs,
    calls (EnsureLoadBalancer web) = pushed lb services nodes fs (Ok tt) [Obs GetLBSecret (Ok secret)] ∧
    serves web services nodes fs.
Proof.
  assert ((traced (EnsureLoadBalancer web)).2 = (tt, Ok "203.0.113.7")) as Hr by (vm_compute; reflexivity).
  split; [by rewrite Hr|].
  destruct (ensure_load_balancer_truthful web (calls (EnsureLoadBalancer web)) tt (Ok "203.0.113.7"))
    as [(e & He & _)|(lb & secret & services & nodes & fs & a & Hh & Hs & -> & _)].
  - rewrite <-Hr. apply trace_exec.
  - apply (bool_decide_unpack _). vm_compute. exact I.
  - intros services. apply listed. vm_compute. reflexivity.
  - discriminate He.
  - by exists lb, secret, services, nodes, fs.
Defined.

(** The younger service on the same port is refused, and the load balancer is not contacted. *)
Example late_refused : untouched (calls (EnsureLoadBalancer late)).
Proof. vm_compute. repeat (apply Forall_cons; split; [exact I|]). apply Forall_nil_2. Qed.

Lemma ensure_load_balancer_deleted_witness :
  ∃ lb secret services nodes fs cs,
    calls (EnsureLoadBalancerDeleted web) = pushed lb services nodes fs (Ok tt) [Obs GetLBSecret (Ok secret)] ∧
    Frontends (sync_services services None [web]) (backends_of nodes) = (fs, cs).
Proof.
  assert ((traced (EnsureLoadBalancerDeleted web)).2 = (tt, Ok tt)) as Hr by (vm_compute; reflexivity).
  destruct (ensure_load_balancer_deleted web (calls (EnsureLoadBalancerDeleted web)) tt (Ok tt))
    as [(e & He & _)|[(_ & e & _ & He)|(lb & secret & services & nodes & fs & cs & Hh & Hf & _)]].
  - rewrite <-Hr. apply trace_exec.
  - intros services. apply listed. vm_compute. reflexivity.
  - discriminate He.
  - apply (f_equal List.length) in He. vm_compute in He. discriminate.
  - by exists lb, secret, services, nodes, fs, cs.
Defined.

Lemma instance_exists_truthful_witness :
  ∃ found, calls (InstanceExists (node "a")) = [Obs (CcmVerda (FindInstanceByHostname "db")) found] ∧
    ∃ i, found = Ok i ∧ Instance_Status i ∉ [StatusDiscontinued; StatusDeleted; StatusNotFound].
Proof.
  apply (instance_exists_truthful (node "a") (calls (InstanceExists (node "a"))) tt (Ok true)).
  apply (trace_exec workload (InstanceExists (node "a") tt) tt []).
Defined.

Lemma provider_id_round_trip_witness :
  ∃ i, Instance_Hostname i = "db" ∧
    ∀ node', Node_ProviderID node' = "verda://db" →
      lookup node' = call (CcmVerda (FindInstanceByHostname "db")).
Proof.
  destruct (provider_id_round_trip (node "a") (calls (InstanceMetadata_ (node "a"))) tt
    (metadata FakeExamples.foreign)) as (asked & i & _ & Hid & Hl).
  - apply (trace_exec workload (InstanceMetadata_ (node "a") tt) tt []).
  - apply (inj (String.append "verda://") "db") in Hid. rewrite <-Hid in Hl. exists i. split; [done|exact Hl].
Defined.

End CcmExamples.
