(* ===== verification/ClusterCtl.v ===== *)
(** * The VerdaCluster controller

    [internal/controller/verdacluster_controller.go] and
    [verdacluster_servicelb.go]: the control plane endpoint, the control plane
    load balancer (haproxy) with its backends, the service load balancer
    (envoy) with the secret published to the workload cluster, and the deletion
    of both.  A handler is a program over [CtrlE] that mutates the VerdaCluster;
    logging is left out. *)

From S2P Require Import Ccm Prelude GoStd GoTime Effects Api Cloud Fake Ctrl LoadBalancer Pass World.
From stdpp Require Import options.

Local Open Scope go_scope.

(** ** Names *)

Definition verdaClusterKind := "VerdaCluster".
Definition lbPollInterval : Z := 15 * Second.
Definition lbResyncInterval : Z := 5 * Minute.
Definition secretKeyClientPrivate := "ssh-privatekey".
Definition secretKeyClientPublic := "ssh-publickey".
Definition secretKeyHostPrivate := "host-privatekey".
Definition secretKeyHostPublic := "host-publickey".

Definition clusterTagValue (vc : VerdaCluster) : string :=
  truncateTag (vc_namespace vc +:+ "/" +:+ vc_name vc).
Definition loadBalancerHostname (vc : VerdaCluster) : string := vc_name vc +:+ "-lb".
Definition loadBalancerSecretName (vc : VerdaCluster) : string := vc_name vc +:+ "-lb-ssh".
Definition serviceLoadBalancerHostname (vc : VerdaCluster) : string := vc_name vc +:+ "-service-lb".
Definition serviceLoadBalancerSecretName (vc : VerdaCluster) : string := vc_name vc +:+ "-service-lb-ssh".

Definition cluster_name (cluster : Cluster) : string := Meta_Name (Cluster_Meta cluster).
Definition cluster_namespace (cluster : Cluster) : string := Meta_Namespace (Cluster_Meta cluster).

Abbreviation MC := (M VerdaCluster CtrlE).

Section cluster.
Context `{!CapiUtil}.

(** ** Conditions *)

Definition setEndpointReady : MC unit :=
  setCondition (mkCondition ControlPlaneEndpointReadyCondition ConditionTrue ReadyReason "").

Definition setLBNotReady (reason message : string) : MC unit :=
  do! setCondition (mkCondition LoadBalancerReadyCondition ConditionFalse reason message) in
  if bool_decide (reason = "InstanceProvisioning") || bool_decide (reason = "InstanceCreateFailed") ||
     bool_decide (reason = "InstanceFailed")
  then setCondition (mkCondition ControlPlaneEndpointReadyCondition ConditionFalse
                       "WaitingForLoadBalancer" message)
  else retM tt.

Definition setServiceLBNotReady (reason message : string) : MC unit :=
  setCondition (mkCondition ServiceLoadBalancerReadyCondition ConditionFalse reason message).

Definition deleteCondition (t : string) : MC unit :=
  modify (λ vc, SetConditions (conditions_Delete t (GetConditions vc)) vc).

Definition setFailureDomains : MC unit :=
  modify (λ vc, vc_set_FailureDomains [mkFailureDomain (CSpec_Location (VC_Spec vc)) (Some true)] vc).

Definition clusterReadyCondition (vc : VerdaCluster) : Condition :=
  if deleting (VC_Meta vc) then mkCondition ReadyCondition ConditionFalse DeletingReason ""
  else if negb (conditions_IsTrue (GetConditions vc) ControlPlaneEndpointReadyCondition) then
    mkCondition ReadyCondition ConditionFalse NotReadyReason
      (conditions_GetMessage (GetConditions vc) ControlPlaneEndpointReadyCondition)
  else if LoadBalancerEnabled vc && negb (conditions_IsTrue (GetConditions vc) LoadBalancerReadyCondition) then
    mkCondition ReadyCondition ConditionFalse NotReadyReason
      (conditions_GetMessage (GetConditions vc) LoadBalancerReadyCondition)
  else mkCondition ReadyCondition ConditionTrue ReadyReason "".

Definition patchVerdaCluster : MC unit :=
  let! vc := getM in
  do! setCondition (clusterReadyCondition vc) in
  let! vc := getM in
  call (PatchVerdaCluster vc).

(** ** SSH keys *)

Definition keysFromSecret (secret : Secret) : result Keys :=
  let get k := map_get (Secret_Data secret) k in
  let keys := mkKeys (get secretKeyClientPrivate) (get secretKeyClientPublic)
                     (get secretKeyHostPrivate) (get secretKeyHostPublic) in
  if bool_decide (ClientPrivateKey keys = "") || bool_decide (ClientPublicKey keys = "") ||
     bool_decide (HostPrivateKey keys = "") || bool_decide (HostPublicKey keys = "")
  then Err (errorString ("load balancer secret " +:+ Secret_Namespace secret +:+ "/" +:+
                         Secret_Name secret +:+ " is missing keys"))
  else Ok keys.

Definition lift {A} (r : result A) : MC A := match r with Ok a => retM a | Err e => throw e end.

Definition keysSecret (cluster : Cluster) (vc : VerdaCluster) (name : string) (keys : Keys) : Secret :=
  mkSecret (vc_namespace vc) name "" {[ClusterNameLabel := cluster_name cluster]} (Some (vc_name vc))
    (<[secretKeyClientPrivate := ClientPrivateKey keys]>
     (<[secretKeyClientPublic := ClientPublicKey keys]>
      (<[secretKeyHostPrivate := HostPrivateKey keys]>
       {[secretKeyHostPublic := HostPublicKey keys]}))).

Definition ensureKeys (cluster : Cluster) (name : string) : MC Keys :=
  let! vc := getM in
  let key := vc_namespace vc +:+ "/" +:+ name in
  let? r := call (GetSecret (vc_namespace vc) name) in
  match r with
  | Ok secret => lift (keysFromSecret secret)
  | Err err =>
      if negb (IsNotFound err) then
        throw (wrapError ("getting load balancer secret " +:+ key +:+ ": ") err "")
      else
        let! keys := call GenerateKeys in
        let? created := call (CreateSecret (keysSecret cluster vc name keys)) in
        match created with
        | Ok _ => retM keys
        | Err err =>
            if IsAlreadyExists err then
              let! secret := call (GetSecret (vc_namespace vc) name) in
              lift (keysFromSecret secret)
            else throw (wrapError ("creating load balancer secret " +:+ key +:+ ": ") err "")
        end
  end.

(** ** The backends *)

Definition isControlPlane (vm : VerdaMachine) : MC bool :=
  if bool_decide (is_Some (Meta_Labels (VM_Meta vm) !! MachineControlPlaneLabel)) then retM true
  else
    let! machine := call (GetOwnerMachine (VM_Meta vm)) in
    retM match machine with Some m => IsControlPlaneMachine m | None => false end.

(** The first external address, if any. *)
Fixpoint externalAddress (addrs : list MachineAddress) : option string :=
  match addrs with
  | [] => None
  | a :: addrs =>
      if bool_decide (MachineAddress_Type a = MachineExternalIP) && bool_decide (MachineAddress_Address a ≠ "")
      then Some (MachineAddress_Address a) else externalAddress addrs
  end.

Fixpoint collectAddresses (vms : list VerdaMachine) : MC (list string) :=
  match vms with
  | [] => retM []
  | vm :: vms =>
      if deleting (VM_Meta vm) then collectAddresses vms
      else
        let! isCP := isControlPlane vm in
        if negb isCP then collectAddresses vms
        else
          let! rest := collectAddresses vms in
          retM (option_list (externalAddress (MStatus_Addresses (VM_Status vm))) ++ rest)
  end.

Definition controlPlaneAddresses (cluster : Cluster) : MC (list string) :=
  let? r := call (ListVerdaMachines (cluster_namespace cluster) (cluster_name cluster)) in
  match r with
  | Err err => throw (wrapError "listing VerdaMachines: " err "")
  | Ok vms =>
      let! addresses := collectAddresses vms in
      retM (Sort_strings addresses)
  end.

(** ** clusterScope *)

Section scope.
Context (cl : ClientRef).

Definition verda {X} (e : ClientE (result X)) : MC X := call (Verda cl e).

Definition findLoadBalancer : MC (option Instance) :=
  let! vc := getM in
  let id := LBStatus_InstanceID (CStatus_LoadBalancer (VC_Status vc)) in
  if bool_decide (id ≠ "") then
    let? r := verda (GetInstance id) in
    match r with
    | Ok instance => retM (Some instance)
    | Err err => if negb (errors_Is err ErrNotFound) then throw err
                 else retM (Some (missingInstance id))
    end
  else
    let? r := verda (FindInstanceByTag TagLoadBalancer (clusterTagValue vc)) in
    match r with
    | Err err => if errors_Is err ErrNotFound then retM None else throw err
    | Ok instance => retM (Some instance)
    end.

Definition findInstanceByStatusOrTag (id tagKey tagValue : string) : MC (option Instance) :=
  if bool_decide (id ≠ "") then
    let? r := verda (GetInstance id) in
    match r with
    | Ok instance => retM (Some instance)
    | Err err => if negb (errors_Is err ErrNotFound) then throw err
                 else retM (Some (missingInstance id))
    end
  else
    let? r := verda (FindInstanceByTag tagKey tagValue) in
    match r with
    | Err err => if errors_Is err ErrNotFound then retM None else throw err
    | Ok instance => if instanceGone instance then retM None else retM (Some instance)
    end.

Definition lbInstanceSpec (cluster : Cluster) (vc : VerdaCluster) (keys : Keys) : InstanceSpec :=
  let lb := CSpec_ControlPlaneLoadBalancer (VC_Spec vc) in
  let cname := cluster_namespace cluster +:+ "/" +:+ cluster_name cluster in
  mkInstanceSpec (loadBalancerHostname vc)
    ("Cluster API control plane load balancer for cluster " +:+ cname)
    (if bool_decide (LB_InstanceType lb = "") then DefaultLoadBalancerInstanceType else LB_InstanceType lb)
    (if bool_decide (LB_Image lb = "") then DefaultLoadBalancerImage else LB_Image lb)
    (CSpec_Location (VC_Spec vc)) (LB_SSHKeyIDs lb) 0 "" false "" []
    (StartupScript keys [])
    (<[TagManagedBy := ManagedByValue]> (<[TagCluster := cname]>
     (<[TagLoadBalancer := clusterTagValue vc]> {[TagRole := "load-balancer"]}))).

Definition createLoadBalancer (cluster : Cluster) (keys : Keys) : MC Instance :=
  let! vc := getM in
  verda (CreateInstance (lbInstanceSpec cluster vc keys)).

Definition modifyLB (f : LoadBalancerStatus → LoadBalancerStatus) : MC unit :=
  modify (λ vc, vc_set_LoadBalancer (f (CStatus_LoadBalancer (VC_Status vc))) vc).
Definition modifyServiceLB (f : LoadBalancerStatus → LoadBalancerStatus) : MC unit :=
  modify (λ vc, vc_set_ServiceLoadBalancer (f (CStatus_ServiceLoadBalancer (VC_Status vc))) vc).

(** [status.InstanceID = instance.ID; if instance.StartupScriptID != "" { ... }] *)
Definition recordLB (instance : Instance) (s : LoadBalancerStatus) : LoadBalancerStatus :=
  let s := lbs_set_InstanceID (Instance_ID instance) s in
  if bool_decide (Instance_StartupScriptID instance ≠ "")
  then lbs_set_StartupScriptID (Instance_StartupScriptID instance) s else s.

(** The tail of [reconcileLoadBalancer]: the instance is running. *)
Definition updateBackends (cluster : Cluster) (instance : Instance) (keys : Keys) : MC Result :=
  do! modifyLB (lbs_set_Address (Instance_IP instance)) in
  do! modify (vc_set_ControlPlaneEndpoint (mkAPIEndpoint (Instance_IP instance) Port)) in
  do! setEndpointReady in
  do! setFailureDomains in
  let! backends := controlPlaneAddresses cluster in
  let ready : MC Result :=
    do! setCondition (mkCondition LoadBalancerReadyCondition ConditionTrue ReadyReason "") in
    do! modify (vc_set_Provisioned (Some true)) in
    retM (mkResult lbResyncInterval) in
  let! vc := getM in
  if bool_decide (backends ≠ LBStatus_Backends (CStatus_LoadBalancer (VC_Status vc))) then
    let? r := call (UpdateBackends (Instance_IP instance) keys backends) in
    match r with
    | Err err =>
        do! setLBNotReady "BackendUpdateFailed" (Error err) in
        do! modify (vc_set_Provisioned (Some true)) in
        retM (mkResult lbPollInterval)
    | Ok _ =>
        do! modifyLB (lbs_set_Backends backends) in
        ready
    end
  else ready.

(** [reconcileLoadBalancer] from the instance on. *)
Definition trackLoadBalancer (cluster : Cluster) (keys : Keys) (instance : Instance) : MC Result :=
  do! modifyLB (recordLB instance) in
  let message := "load balancer instance " +:+ Instance_ID instance +:+ " is in state " +:+
                 fmt_q (Instance_Status instance) in
  if bool_decide (Instance_Status instance = StatusRunning) && bool_decide (Instance_IP instance ≠ "") then
    updateBackends cluster instance keys
  else if instanceGone instance || bool_decide (Instance_Status instance = StatusError) ||
          bool_decide (Instance_Status instance = StatusNoCapacity) then
    do! setLBNotReady "InstanceFailed" message in
    retM emptyResult
  else
    do! setLBNotReady "InstanceProvisioning" message in
    retM (mkResult lbPollInterval).

Definition reconcileLoadBalancer (cluster : Cluster) : MC Result :=
  let! vc := getM in
  let! keys := ensureKeys cluster (loadBalancerSecretName vc) in
  let! found := findLoadBalancer in
  match found with
  | Some instance => trackLoadBalancer cluster keys instance
  | None =>
      let? r := createLoadBalancer cluster keys in
      match r with
      | Err err => do! setLBNotReady "InstanceCreateFailed" (Error err) in throw err
      | Ok instance => trackLoadBalancer cluster keys instance
      end
  end.

Definition reconcileEndpoint (cluster : Cluster) : MC Result :=
  let! vc := getM in
  if LoadBalancerEnabled vc then reconcileLoadBalancer cluster
  else
    do! deleteCondition LoadBalancerReadyCondition in
    let endpoint := CSpec_ControlPlaneEndpoint (VC_Spec vc) in
    let endpoint := if bool_decide (APIEndpoint_Host endpoint = "")
                    then Cluster_ControlPlaneEndpoint cluster else endpoint in
    if bool_decide (APIEndpoint_Host endpoint = "") then
      do! setCondition (mkCondition ControlPlaneEndpointReadyCondition ConditionFalse "EndpointNotSet"
        "spec.controlPlaneEndpoint must be set or spec.controlPlaneLoadBalancer.enabled must be true") in
      retM emptyResult
    else
      let endpoint := if (APIEndpoint_Port endpoint =? 0)%Z
                      then mkAPIEndpoint (APIEndpoint_Host endpoint) Port else endpoint in
      do! modify (vc_set_ControlPlaneEndpoint endpoint) in
      do! setEndpointReady in
      do! setFailureDomains in
      do! modify (vc_set_Provisioned (Some true)) in
      retM emptyResult.

(** ** verdacluster_servicelb.go *)

Definition serviceSecretData (cluster : Cluster) (address : string) (keys : Keys) : gmap string string :=
  <["address" := address]> (<["ssh-privatekey" := ClientPrivateKey keys]>
  (<["host-publickey" := HostPublicKey keys]>
   {["instance-cluster" := cluster_namespace cluster +:+ "/" +:+ cluster_name cluster]})).

Definition publishServiceLoadBalancerSecret (cluster : Cluster) (address : string) (keys : Keys) : MC unit :=
  let? kc := call (KubeconfigFromSecret (cluster_namespace cluster) (cluster_name cluster)) in
  match kc with
  | Err err => throw (wrapError "workload cluster kubeconfig not available: " err "")
  | Ok kubeconfig =>
      let? w := call (WorkloadClient kubeconfig) in
      match w with
      | Err err => throw (wrapError "building workload cluster client: " err "")
      | Ok workload =>
          let data := serviceSecretData cluster address keys in
          let? r := call (WorkloadGetSecret workload "kube-system" ServiceLoadBalancerSecretName) in
          match r with
          | Err err =>
              if IsNotFound err then
                call (WorkloadCreateSecret workload
                  (mkSecret "kube-system" ServiceLoadBalancerSecretName "" ∅ None data))
              else throw (wrapError ("reading kube-system/" +:+ ServiceLoadBalancerSecretName +:+
                                     " in the workload cluster: ") err "")
          | Ok existing =>
              if bool_decide (map_get (Secret_Data existing) "address" = address) &&
                 bool_decide (map_get (Secret_Data existing) "ssh-privatekey" = ClientPrivateKey keys)
              then retM tt
              else call (WorkloadUpdateSecret workload
                (mkSecret (Secret_Namespace existing) (Secret_Name existing) (Secret_ResourceVersion existing)
                   (Secret_Labels existing) (Secret_Owner existing) data))
          end
      end
  end.

Definition removeServiceLoadBalancerSecret (cluster : Cluster) : MC unit :=
  let? kc := call (KubeconfigFromSecret (cluster_namespace cluster) (cluster_name cluster)) in
  match kc with
  | Err _ => retM tt
  | Ok kubeconfig =>
      let? w := call (WorkloadClient kubeconfig) in
      match w with
      | Err _ => retM tt
      | Ok workload =>
          let? _r := call (WorkloadDeleteSecret workload "kube-system" ServiceLoadBalancerSecretName) in
          retM tt
      end
  end.

Definition serviceLBInstanceSpec (cluster : Cluster) (vc : VerdaCluster) (keys : Keys) : InstanceSpec :=
  let lb := CSpec_ServiceLoadBalancer (VC_Spec vc) in
  let cname := cluster_namespace cluster +:+ "/" +:+ cluster_name cluster in
  mkInstanceSpec (serviceLoadBalancerHostname vc)
    ("Cluster API service load balancer for cluster " +:+ cname)
    (orDefault (LB_InstanceType lb) DefaultLoadBalancerInstanceType)
    (orDefault (LB_Image lb) DefaultLoadBalancerImage)
    (CSpec_Location (VC_Spec vc)) (LB_SSHKeyIDs lb) 0 "" false "" []
    (EnvoyStartupScript keys)
    (<[TagManagedBy := ManagedByValue]> (<[TagCluster := cname]>
     (<[TagServiceLoadBalancer := clusterTagValue vc]> {[TagRole := "service-load-balancer"]}))).

(** [reconcileServiceLoadBalancer] from the instance on. *)
Definition trackServiceLoadBalancer (cluster : Cluster) (keys : Keys) (instance : Instance) : MC bool :=
  do! modifyServiceLB (recordLB instance) in
  let message := "service load balancer instance " +:+ Instance_ID instance +:+ " is in state " +:+
                 fmt_q (Instance_Status instance) in
  if bool_decide (Instance_Status instance = StatusRunning) && bool_decide (Instance_IP instance ≠ "") then
    do! modifyServiceLB (lbs_set_Address (Instance_IP instance)) in
    let? r := publishServiceLoadBalancerSecret cluster (Instance_IP instance) keys in
    match r with
    | Err err => do! setServiceLBNotReady "WaitingForWorkloadCluster" (Error err) in retM true
    | Ok _ =>
        do! modifyServiceLB (lbs_set_SecretPublished (Some true)) in
        do! setCondition (mkCondition ServiceLoadBalancerReadyCondition ConditionTrue ReadyReason "") in
        retM false
    end
  else if instanceGone instance || bool_decide (Instance_Status instance = StatusError) ||
          bool_decide (Instance_Status instance = StatusNoCapacity) then
    do! setServiceLBNotReady "InstanceFailed" message in
    retM false
  else
    do! setServiceLBNotReady "InstanceProvisioning" message in
    retM true.

Definition reconcileServiceLoadBalancer (cluster : Cluster) : MC bool :=
  let! vc := getM in
  let! keys := ensureKeys cluster (serviceLoadBalancerSecretName vc) in
  let! vc := getM in
  let! found := findInstanceByStatusOrTag
    (LBStatus_InstanceID (CStatus_ServiceLoadBalancer (VC_Status vc))) TagServiceLoadBalancer
    (clusterTagValue vc) in
  match found with
  | Some instance => trackServiceLoadBalancer cluster keys instance
  | None =>
      let? r := verda (CreateInstance (serviceLBInstanceSpec cluster vc keys)) in
      match r with
      | Err err => do! setServiceLBNotReady "InstanceCreateFailed" (Error err) in throw err
      | Ok instance => trackServiceLoadBalancer cluster keys instance
      end
  end.

(** The tail of [deleteServiceLoadBalancer]: no instance is left. *)
Definition deleteServiceLBScript : MC bool :=
  let! vc := getM in
  let id := LBStatus_StartupScriptID (CStatus_ServiceLoadBalancer (VC_Status vc)) in
  if bool_decide (id ≠ "") then
    do! verda (DeleteStartupScript id) in
    do! modifyServiceLB (lbs_set_StartupScriptID "") in
    retM false
  else
    do! verda (DeleteStartupScriptByName (serviceLoadBalancerHostname vc)) in
    retM false.

(** [instance.Status != StatusDeleting && deleteRequestDue(...)], then the
    request and [report]. *)
Definition requestLBDelete (suffix : string) (instance : Instance) (report : MC unit) : MC unit :=
  let! due := (if bool_decide (Instance_Status instance ≠ StatusDeleting)
               then deleteRequestDue suffix (Instance_Status instance) else retM false) in
  if (due : bool) then
    do! verda (DeleteInstance (Instance_ID instance)) in
    report
  else retM tt.

Definition deleteServiceLoadBalancer : MC bool :=
  let! vc := getM in
  let! found := findInstanceByStatusOrTag
    (LBStatus_InstanceID (CStatus_ServiceLoadBalancer (VC_Status vc))) TagServiceLoadBalancer
    (clusterTagValue vc) in
  match found with
  | None => deleteServiceLBScript
  | Some instance =>
      if negb (instanceGone instance) then
        do! requestLBDelete "servicelb" instance
          (setServiceLBNotReady InstanceDeleteRequestedReason
             ("Delete requested for service load balancer instance " +:+ Instance_ID instance)) in
        retM true
      else if bool_decide (Instance_Status instance ≠ StatusNotFound) then
        let! pending := verda (PurgeInstanceVolumes (Instance_ID instance)) in
        if (0 <? pending)%Z then retM true else deleteServiceLBScript
      else deleteServiceLBScript
  end.

(** ** The two directions *)

Definition reconcileNormal (cluster : Cluster) : MC Result :=
  let! result := reconcileEndpoint cluster in
  let! vc := getM in
  if negb (ServiceLoadBalancerEnabled vc) then
    let st := CStatus_ServiceLoadBalancer (VC_Status vc) in
    if bool_decide (LBStatus_InstanceID st ≠ "") || bool_decide (LBStatus_Address st ≠ "") then
      let! requeue := deleteServiceLoadBalancer in
      if (requeue : bool) then retM (mkResult deletePollInterval)
      else
        do! removeServiceLoadBalancerSecret cluster in
        do! modify (vc_set_ServiceLoadBalancer empty_LoadBalancerStatus) in
        do! deleteCondition ServiceLoadBalancerReadyCondition in
        retM result
    else
      do! deleteCondition ServiceLoadBalancerReadyCondition in
      retM result
  else
    let! requeue := reconcileServiceLoadBalancer cluster in
    if requeue && ((RequeueAfter result =? 0)%Z || (lbPollInterval <? RequeueAfter result)%Z)
    then retM (mkResult lbPollInterval) else retM result.

(** The tail of [reconcileDelete]: no instance is left. *)
Definition finishDelete : MC Result :=
  let! vc := getM in
  let id := LBStatus_StartupScriptID (CStatus_LoadBalancer (VC_Status vc)) in
  let done : MC Result :=
    do! modify (λ vc, vc_set_meta (set_Finalizers
      (RemoveFinalizer ClusterFinalizer (Meta_Finalizers (VC_Meta vc))) (VC_Meta vc)) vc) in
    retM emptyResult in
  if bool_decide (id ≠ "") then
    do! verda (DeleteStartupScript id) in
    do! modifyLB (lbs_set_StartupScriptID "") in
    done
  else if LoadBalancerEnabled vc then
    do! verda (DeleteStartupScriptByName (loadBalancerHostname vc)) in
    done
  else done.

Definition reconcileDelete : MC Result :=
  let! requeue := deleteServiceLoadBalancer in
  if (requeue : bool) then retM (mkResult deletePollInterval)
  else
    let! found := findLoadBalancer in
    match found with
    | None => finishDelete
    | Some instance =>
        if negb (instanceGone instance) then
          do! requestLBDelete "lb" instance
            (setLBNotReady InstanceDeleteRequestedReason
               ("Delete requested for load balancer instance " +:+ Instance_ID instance)) in
          retM (mkResult deletePollInterval)
        else if bool_decide (Instance_Status instance ≠ StatusNotFound) then
          let! pending := verda (PurgeInstanceVolumes (Instance_ID instance)) in
          if (0 <? pending)%Z then retM (mkResult deletePollInterval) else finishDelete
        else finishDelete
    end.
End scope.

(** ** VerdaClusterReconciler *)

Definition reconcileOrphanDelete : MC Result :=
  let! vc := getM in
  do! call (NewPatchHelper (VC_Meta vc)) in
  deferred
    (let! verdaClient := call (ClientFor (mkIdentity (vc_namespace vc) (IdentitySecretName vc))) in
     reconcileDelete verdaClient)
    patchVerdaCluster.

(** [Reconcile] from the point where the patch helper is created. *)
Definition reconcilePatched (cluster : Cluster) : MC Result :=
  let! vc := getM in
  do! call (NewPatchHelper (VC_Meta vc)) in
  deferred
    (let? c := call (ClientFor (mkIdentity (vc_namespace vc) (IdentitySecretName vc))) in
     match c with
     | Err err =>
         do! setCondition (mkCondition ControlPlaneEndpointReadyCondition ConditionFalse
                             "CredentialsUnavailable" (Error err)) in
         throw err
     | Ok verdaClient =>
         if deleting (VC_Meta vc) then reconcileDelete verdaClient
         else reconcileNormal verdaClient cluster
     end)
    patchVerdaCluster.

(** [Reconcile] once the object has been read. *)
Definition reconcileObject : MC Result :=
  let! vc := getM in
  let! finalizerAdded := call (EnsureFinalizer (VC_Meta vc) ClusterFinalizer) in
  if (finalizerAdded : bool) then retM emptyResult
  else
    let! owner := call (GetOwnerCluster (VC_Meta vc)) in
    match owner with
    | None => if deleting (VC_Meta vc) then reconcileOrphanDelete else retM emptyResult
    | Some cluster =>
        let! paused := call (EnsurePausedCondition cluster (VC_Meta vc) (GetConditions vc)) in
        let '(isPaused, requeue, conds) := paused in
        do! modify (SetConditions conds) in
        if isPaused || requeue then retM emptyResult
        else reconcilePatched cluster
    end.

Definition Reconcile (ns name : string) : prog CtrlE (result Result) :=
  get_then (GetVerdaCluster ns name) (λ err, if IsNotFound err then Ok emptyResult else Err err)
    reconcileObject.

(** The watch on VerdaMachines: the requests one event enqueues. *)
Definition verdaMachineToVerdaCluster (o : ObjectMeta) : prog CtrlE (list (string * string)) :=
  match Meta_Labels o !! ClusterNameLabel with
  | None => Ret []
  | Some clusterName =>
      bind (trigger (GetCluster (Meta_Namespace o) clusterName)) (λ r,
        match r with
        | Err _ => Ret []
        | Ok cluster =>
            if negb (Cluster_InfrastructureRef_IsDefined cluster) ||
               bool_decide (Cluster_InfrastructureRef_Kind cluster ≠ verdaClusterKind)
            then Ret []
            else Ret [(cluster_namespace cluster, Cluster_InfrastructureRef_Name cluster)]
        end)
  end.
End cluster.

(** ** What a pass over a VerdaCluster knows *)

(** The two load balancers of a cluster. *)
Inductive lbKind := ControlPlaneLB | ServiceLB.
#[export] Instance lbKind_eq_dec : EqDecision lbKind.
Proof. solve_decision. Defined.

Definition lb_status (k : lbKind) (vc : VerdaCluster) : LoadBalancerStatus :=
  match k with
  | ControlPlaneLB => CStatus_LoadBalancer (VC_Status vc)
  | ServiceLB => CStatus_ServiceLoadBalancer (VC_Status vc)
  end.
Definition lb_enabled (k : lbKind) (vc : VerdaCluster) : bool :=
  match k with ControlPlaneLB => LoadBalancerEnabled vc | ServiceLB => ServiceLoadBalancerEnabled vc end.
Definition lb_hostname (k : lbKind) (vc : VerdaCluster) : string :=
  match k with
  | ControlPlaneLB => loadBalancerHostname vc
  | ServiceLB => serviceLoadBalancerHostname vc
  end.
Definition lb_tag (k : lbKind) : string :=
  match k with ControlPlaneLB => TagLoadBalancer | ServiceLB => TagServiceLoadBalancer end.

Section facts.
Context (c : ClientRef) (k : lbKind).

(** The lookup by the recorded ID, or by tag when none is recorded, returned
    [i].  The control plane lookup by tag also returns an instance that is gone. *)
Definition lb_found (vc : VerdaCluster) (h : hist CtrlE) (i : Instance) : Prop :=
  let id := LBStatus_InstanceID (lb_status k vc) in
  if decide (id = "") then
    Obs (Verda c (FindInstanceByTag (lb_tag k) (clusterTagValue vc))) (Ok i) ∈ h ∧
    (k = ServiceLB → instanceGone i = false)
  else
    Obs (Verda c (GetInstance id)) (Ok i) ∈ h ∨
    (i = missingInstance id ∧
     ∃ err, errors_Is err ErrNotFound = true ∧ Obs (Verda c (GetInstance id)) (Err err) ∈ h).

(** The lookup found nothing; for the service load balancer, a gone instance under
    the tag counts as nothing. *)
Definition lb_none (vc : VerdaCluster) (h : hist CtrlE) : Prop :=
  LBStatus_InstanceID (lb_status k vc) = "" ∧
  ∃ r, Obs (Verda c (FindInstanceByTag (lb_tag k) (clusterTagValue vc))) r ∈ h ∧
    match r with
    | Ok i => k = ServiceLB ∧ instanceGone i = true
    | Err err => errors_Is err ErrNotFound = true
    end.

(** No instance is left, and Verda has released the volumes of one that was. *)
Definition lb_released (vc : VerdaCluster) (h : hist CtrlE) : Prop :=
  lb_none vc h ∨
  ∃ i, lb_found vc h i ∧ instanceGone i = true ∧
    (Instance_Status i = StatusNotFound ∨
     ∃ n, (n ≤ 0)%Z ∧ Obs (Verda c (PurgeInstanceVolumes (Instance_ID i))) (Ok n) ∈ h).

Definition lb_script_deleted (vc : VerdaCluster) (h : hist CtrlE) : Prop :=
  let id := LBStatus_StartupScriptID (lb_status k vc) in
  if decide (id = "") then
    k = ServiceLB ∨ lb_enabled k vc = true →
    Obs (Verda c (DeleteStartupScriptByName (lb_hostname k vc))) (Ok tt) ∈ h
  else Obs (Verda c (DeleteStartupScript id)) (Ok tt) ∈ h.

Lemma lb_none_mono vc h h' : h ⊆ h' → lb_none vc h → lb_none vc h'.
Proof. intros Hs (? & r & Hr & ?). split; [done|]. exists r. auto. Qed.

Lemma lb_found_mono vc h h' i : h ⊆ h' → lb_found vc h i → lb_found vc h' i.
Proof. intros Hs. unfold lb_found. case_decide; naive_solver. Qed.

Lemma lb_released_mono vc h h' : h ⊆ h' → lb_released vc h → lb_released vc h'.
Proof.
  intros Hs [Hn|(i & Hi & Hg & Hp)]; [left; by eapply lb_none_mono|right].
  exists i. split; [by eapply lb_found_mono|]. split; [done|].
  destruct Hp as [?|(n & ? & ?)]; [by left|right; eauto].
Qed.

Lemma lb_script_deleted_mono vc h h' : h ⊆ h' → lb_script_deleted vc h → lb_script_deleted vc h'.
Proof. intros Hs. unfold lb_script_deleted. case_decide; auto. Qed.
End facts.

#[export] Hint Resolve lb_none_mono lb_found_mono lb_released_mono lb_script_deleted_mono grows_sub : verda.

(** When the load balancer [k] is to go. *)
Definition lb_unwanted (k : lbKind) (vc : VerdaCluster) : Prop :=
  deleting (VC_Meta vc) = true ∨ k = ServiceLB ∧ ServiceLoadBalancerEnabled vc = false.

Definition lb_create_allowed (c : ClientRef) (vc : VerdaCluster) (h : hist CtrlE) (spec : InstanceSpec) : Prop :=
  ∃ k, deleting (VC_Meta vc) = false ∧ lb_enabled k vc = true ∧ lb_none c k vc h ∧
    (∀ c' spec' r, Obs (Verda c' (CreateInstance spec')) r ∈ h →
       InstanceSpec_Hostname spec' ≠ InstanceSpec_Hostname spec) ∧
    InstanceSpec_Hostname spec = lb_hostname k vc ∧
    InstanceSpec_Location spec = CSpec_Location (VC_Spec vc) ∧
    managed (InstanceSpec_Tags spec) = true ∧
    tagged_only (InstanceSpec_Tags spec) (lb_tag k) (clusterTagValue vc).

Definition lb_delete_allowed (c : ClientRef) (vc : VerdaCluster) (h : hist CtrlE) (id : string) : Prop :=
  ∃ k i, id = Instance_ID i ∧ lb_found c k vc h i ∧ instanceGone i = false ∧
    Instance_Status i ≠ StatusDeleting ∧ lb_unwanted k vc.

Definition cluster_verda_guard (c : ClientRef) (vc : VerdaCluster) (h : hist CtrlE) {X} (e : ClientE X) : Prop :=
  match e with
  | CreateInstance spec => lb_create_allowed c vc h spec
  | DeleteInstance id => lb_delete_allowed c vc h id
  | PurgeInstanceVolumes id =>
      ∃ k i, id = Instance_ID i ∧ lb_found c k vc h i ∧ instanceGone i = true ∧ lb_unwanted k vc
  | DeleteStartupScript _ | DeleteStartupScriptByName _ =>
      ∃ k, lb_released c k vc h ∧ lb_unwanted k vc
  | CloneVolume _ _ _ | EnsureVolumeTag _ | DeleteVolume _ => False
  | _ => True
  end.

(** The control plane's machines: not being deleted, and labelled or owned as
    control plane machines by the answers in [h]. *)
Definition cp_known `{!CapiUtil} (h : hist CtrlE) (vm : VerdaMachine) (b : bool) : Prop :=
  if deleting (VM_Meta vm) then b = false
  else if decide (is_Some (Meta_Labels (VM_Meta vm) !! MachineControlPlaneLabel)) then b = true
  else ∃ m, Obs (GetOwnerMachine (VM_Meta vm)) (Ok m) ∈ h ∧
    b = match m with Some m => IsControlPlaneMachine m | None => false end.

(** The external addresses of the machines that are marked. *)
Definition marked_addresses (vms : list (VerdaMachine * bool)) : list string :=
  vms ≫= (λ '(vm, b), if (b : bool) then option_list (externalAddress (MStatus_Addresses (VM_Status vm))) else []).

(** The Cluster that owns the object, as the pass looked it up. *)
Definition owner_of (vc : VerdaCluster) (h : hist CtrlE) (cluster : Cluster) : Prop :=
  Obs (GetOwnerCluster (VC_Meta vc)) (Ok (Some cluster)) ∈ h.

(** [backends] is what the machines of the cluster that owns [vc] say. *)
Definition cp_backends `{!CapiUtil} (vc : VerdaCluster) (h : hist CtrlE) (backends : list string) : Prop :=
  ∃ cluster vms flags, owner_of vc h cluster ∧
    Obs (ListVerdaMachines (cluster_namespace cluster) (cluster_name cluster)) (Ok vms) ∈ h ∧
    Forall2 (cp_known h) vms flags ∧ backends = Sort_strings (marked_addresses (zip vms flags)).

(** An instance found or created as load balancer [k]. *)
Definition lb_known (k : lbKind) (vc : VerdaCluster) (h : hist CtrlE) (i : Instance) : Prop :=
  ∃ c, lb_found c k vc h i ∨
    ∃ spec, InstanceSpec_Hostname spec = lb_hostname k vc ∧ Obs (Verda c (CreateInstance spec)) (Ok i) ∈ h.

(** The address of a running load balancer. *)
Definition lb_address_of (k : lbKind) (vc : VerdaCluster) (h : hist CtrlE) (address : string) : Prop :=
  ∃ i, lb_known k vc h i ∧ Instance_Status i = StatusRunning ∧ Instance_IP i = address ∧ address ≠ "".

Definition cluster_provisioned (vc : VerdaCluster) : bool := deref_bool (CStatus_Provisioned (VC_Status vc)).

(** The spec but for the endpoint. *)
Definition cluster_desired (vc : VerdaCluster) : VerdaClusterSpec :=
  VC_Spec (vc_set_ControlPlaneEndpoint (mkAPIEndpoint "" 0) vc).

(** The finalizer goes only when both load balancers are gone. *)
Definition cluster_finalizer_ok (vc : VerdaCluster) (h : hist CtrlE) (vc' : VerdaCluster) : Prop :=
  ClusterFinalizer ∈ Meta_Finalizers (VC_Meta vc) →
  ClusterFinalizer ∈ Meta_Finalizers (VC_Meta vc') ∨
  deleting (VC_Meta vc) = true ∧ ∃ c, ∀ k, lb_released c k vc h ∧ lb_script_deleted c k vc h.

(** [e'] is [e] with the default port if it has none. *)
Definition completed (e e' : APIEndpoint) : Prop :=
  APIEndpoint_Host e' = APIEndpoint_Host e ∧
  APIEndpoint_Port e' = if decide (APIEndpoint_Port e = 0%Z) then Port else APIEndpoint_Port e.

(** The endpoint without a load balancer: the given one, or the owner's. *)
Definition own_endpoint (vc : VerdaCluster) (h : hist CtrlE) (e' : APIEndpoint) : Prop :=
  let e := CSpec_ControlPlaneEndpoint (VC_Spec vc) in
  if decide (APIEndpoint_Host e = "")
  then ∃ cluster, owner_of vc h cluster ∧ completed (Cluster_ControlPlaneEndpoint cluster) e'
  else completed e e'.

(** The endpoint changes only to one that was determined in this pass: with
    the load balancer enabled the address of the running load balancer, and
    otherwise the given one or that of the owner, with the port filled in. *)
Definition endpoint_ok (vc : VerdaCluster) (h : hist CtrlE) (vc' : VerdaCluster) : Prop :=
  let e := CSpec_ControlPlaneEndpoint (VC_Spec vc) in
  let e' := CSpec_ControlPlaneEndpoint (VC_Spec vc') in
  cluster_desired vc' = cluster_desired vc ∧
  (e' = e ∨ deleting (VC_Meta vc) = false ∧ APIEndpoint_Host e' ≠ "" ∧
    if LoadBalancerEnabled vc
    then APIEndpoint_Port e' = Port ∧ lb_address_of ControlPlaneLB vc h (APIEndpoint_Host e')
    else own_endpoint vc h e') ∧
  (cluster_provisioned vc = true → cluster_provisioned vc' = true) ∧
  (cluster_provisioned vc = false → cluster_provisioned vc' = true →
    APIEndpoint_Host e' ≠ "" ∧ APIEndpoint_Port e' ≠ 0%Z ∧
    CStatus_FailureDomains (VC_Status vc') = [mkFailureDomain (CSpec_Location (VC_Spec vc)) (Some true)] ∧
    if LoadBalancerEnabled vc then lb_address_of ControlPlaneLB vc h (APIEndpoint_Host e')
    else own_endpoint vc h e').

(** The recorded backends are those the load balancer has. *)
Definition backends_ok (vc : VerdaCluster) (h : hist CtrlE) (vc' : VerdaCluster) : Prop :=
  let b := LBStatus_Backends (CStatus_LoadBalancer (VC_Status vc)) in
  let b' := LBStatus_Backends (CStatus_LoadBalancer (VC_Status vc')) in
  b' = b ∨ ∃ address keys, Obs (UpdateBackends address keys b') (Ok tt) ∈ h.

Definition cluster_patch_ok (vc : VerdaCluster) (h : hist CtrlE) (vc' : VerdaCluster) : Prop :=
  cluster_finalizer_ok vc h vc' ∧ endpoint_ok vc h vc' ∧ backends_ok vc h vc'.

Definition cluster_guard `{!CapiUtil} (vc : VerdaCluster) (h : hist CtrlE) (X : Type) (e : CtrlE X) : Prop :=
  match e with
  | Verda c e => cluster_verda_guard c vc h e
  | UpdateBackends address _ backends =>
      deleting (VC_Meta vc) = false ∧ LoadBalancerEnabled vc = true ∧
      lb_address_of ControlPlaneLB vc h address ∧ cp_backends vc h backends ∧
      backends ≠ LBStatus_Backends (CStatus_LoadBalancer (VC_Status vc))
  | PatchVerdaCluster vc' => cluster_patch_ok vc h vc'
  | _ => True
  end.

Definition cluster_protocol `{!CapiUtil} (vc : VerdaCluster) : protocol CtrlE := any_answer (cluster_guard vc).

(** ** Proof of the guard *)

(** What no handler changes but the last step of the deletion. *)
Definition ident (vc : VerdaCluster) :=
  (vc_namespace vc, vc_name vc, Meta_DeletionTimestamp (VC_Meta vc), Meta_Finalizers (VC_Meta vc),
   cluster_desired vc).

(** The rest of what the facts above depend on, but for the load balancers. *)
Definition outcome (vc : VerdaCluster) :=
  (CSpec_ControlPlaneEndpoint (VC_Spec vc), CStatus_Provisioned (VC_Status vc),
   CStatus_FailureDomains (VC_Status vc), LBStatus_Backends (CStatus_LoadBalancer (VC_Status vc))).

Section ident.
Context (vc vc' : VerdaCluster).

Lemma ident_tag :
  ident vc' = ident vc → clusterTagValue vc' = clusterTagValue vc.
Proof. intros Hid; injection Hid as Hns Hn _ _ _. unfold clusterTagValue. congruence. Qed.

Lemma ident_deleting :
  ident vc' = ident vc → deleting (VC_Meta vc') = deleting (VC_Meta vc).
Proof. intros Hid; injection Hid as _ _ Hd _ _. unfold deleting. by rewrite Hd. Qed.

Lemma ident_hostname k :
  ident vc' = ident vc → lb_hostname k vc' = lb_hostname k vc.
Proof.
  intros Hid; injection Hid as _ Hn _ _ _.
  destruct k; cbn; unfold loadBalancerHostname, serviceLoadBalancerHostname; congruence.
Qed.

Lemma ident_desired :
  ident vc' = ident vc → CSpec_ControlPlaneLoadBalancer (VC_Spec vc') = CSpec_ControlPlaneLoadBalancer (VC_Spec vc) ∧
  CSpec_ServiceLoadBalancer (VC_Spec vc') = CSpec_ServiceLoadBalancer (VC_Spec vc) ∧
  CSpec_Location (VC_Spec vc') = CSpec_Location (VC_Spec vc).
Proof. intros Hid; injection Hid as _ _ _ _ Hl _ Hc Hs. done. Qed.

Lemma ident_enabled k :
  ident vc' = ident vc → lb_enabled k vc' = lb_enabled k vc.
Proof.
  intros Hid. destruct (ident_desired Hid) as (H1 & H2 & _).
  destruct k; cbn; unfold LoadBalancerEnabled, ServiceLoadBalancerEnabled; congruence.
Qed.
End ident.

Section cluster_wp.
Context `{!CapiUtil} (c : ClientRef) (vc0 : VerdaCluster).
Abbreviation P := (cluster_protocol vc0).

Lemma lookup_wp k (m : MC (option Instance)) vc h (Q : hist CtrlE → VerdaCluster → result (option Instance) → Prop) :
  (m = findLoadBalancer c ∧ k = ControlPlaneLB ∨
   m = findInstanceByStatusOrTag c (LBStatus_InstanceID (lb_status k vc)) (lb_tag k) (clusterTagValue vc) ∧
   k = ServiceLB) →
  ident vc = ident vc0 → lb_status k vc = lb_status k vc0 →
  (∀ h' e, grows calm h h' → Q h' vc (Err e)) →
  (∀ h', grows calm h h' → lb_none c k vc0 h' → Q h' vc (Ok None)) →
  (∀ h' i, grows calm h h' → lb_found c k vc0 h' i → Q h' vc (Ok (Some i))) →
  wpM P m vc h Q.
Proof.
  intros Hm Hid Hst He Hn Hf. pose proof (ident_tag _ _ Hid) as Ht.
  destruct Hm as [[-> ->]|[-> ->]]; unfold findLoadBalancer, findInstanceByStatusOrTag, verda;
    cbn in Hst; wp_steps; bool_to_prop; rewrite ?Ht.
  all: try (apply He; grow).
  all: first [apply Hf|apply Hn]; [grow|].
  all: unfold lb_found, lb_none; cbn [lb_status]; rewrite ?Hst in *; rewrite ?decide_False, ?decide_True by done.
  all: try (left; hist).
  all: try (right; split; [done|]; eexists; split; [done|hist]).
  all: split; [done||hist|]; try done; try (eexists; split; [hist|done]).
Qed.

Lemma ensureKeys_wp cluster name vc h (Q : hist CtrlE → VerdaCluster → result Keys → Prop) :
  (∀ h' r, grows calm h h' → Q h' vc r) → wpM P (ensureKeys cluster name) vc h Q.
Proof.
  intros HQ. unfold ensureKeys, lift. wp_steps; try (apply HQ; grow).
Qed.

Lemma cp_known_mono h h' vm b : h ⊆ h' → cp_known h vm b → cp_known h' vm b.
Proof. intros Hs. unfold cp_known. repeat case_match; naive_solver. Qed.

Lemma collectAddresses_wp vms vc h (Q : hist CtrlE → VerdaCluster → result (list string) → Prop) :
  (∀ h' r, grows calm h h' →
     (∀ a, r = Ok a → ∃ flags, Forall2 (cp_known h') vms flags ∧ a = marked_addresses (zip vms flags)) →
     Q h' vc r) →
  wpM P (collectAddresses vms) vc h Q.
Proof.
  revert h Q. induction vms as [|vm vms IH]; intros h Q HQ; cbn [collectAddresses].
  { wp_step. apply HQ; [grow|]. intros a [= <-]. by exists []. }
  destruct (deleting (VM_Meta vm)) eqn:Hdel.
  { apply IH. intros h' r Hg Hr. apply HQ; [done|]. intros a Ha. destruct (Hr a Ha) as (flags & Hfl & ->).
    exists (false :: flags). split; [|done]. constructor; [|done]. unfold cp_known. by rewrite Hdel. }
  wp_step. unfold isControlPlane.
  apply wpM_mono with (λ h1 vc1 r, vc1 = vc ∧ grows calm h h1 ∧ ∀ b, r = Ok b → cp_known h1 vm b).
  { unfold cp_known. rewrite Hdel. case_bool_decide as Hl.
    - wp_step. split_and!; [done|grow|]. intros b [= <-]. by rewrite decide_True.
    - wp_steps; (split_and!; [done|grow|]); [|done]. intros b [= <-]. rewrite decide_False by done.
      eexists. split; [hist|done]. }
  intros h1 vc1 r (-> & Hg & Hr). destruct r as [b|e]; [|apply HQ; [done|done]].
  specialize (Hr b eq_refl). destruct b; cbn [negb].
  - wp_step. apply IH. intros h2 r2 Hg2 Hr2. destruct r2 as [a|e]; [|by apply HQ; [grow|]].
    wp_step. apply HQ; [grow|]. intros a' [= <-]. destruct (Hr2 a eq_refl) as (flags & Hfl & ->).
    exists (true :: flags). split; [|done]. constructor; [|done].
    by eapply cp_known_mono; [|exact Hr]; hist.
  - apply IH. intros h2 r2 Hg2 Hr2. apply HQ; [grow|]. intros a Ha. destruct (Hr2 a Ha) as (flags & Hfl & ->).
    exists (false :: flags). split; [|done]. constructor; [|done].
    by eapply cp_known_mono; [|exact Hr]; hist.
Qed.

(** Conditions and annotations only. *)
Definition cosmetic (vc vc' : VerdaCluster) : Prop :=
  ident vc' = ident vc ∧ outcome vc' = outcome vc ∧ ∀ k, lb_status k vc' = lb_status k vc.

(** The service load balancer's handlers leave the rest alone. *)
Definition service_only (vc vc' : VerdaCluster) : Prop :=
  ident vc' = ident vc ∧ outcome vc' = outcome vc ∧ lb_status ControlPlaneLB vc' = lb_status ControlPlaneLB vc.

Lemma cosmetic_service vc vc' : cosmetic vc vc' → service_only vc vc'.
Proof. intros (? & ? & ?). by split_and!. Qed.

Lemma cosmetic_trans vc1 vc2 vc3 : cosmetic vc1 vc2 → cosmetic vc2 vc3 → cosmetic vc1 vc3.
Proof. intros (? & ? & Hk1) (? & ? & Hk2). split_and!; [congruence..|]. intros k. by rewrite Hk2, Hk1. Qed.

Lemma outcome_keep h vc :
  cluster_desired vc = cluster_desired vc0 → outcome vc = outcome vc0 →
  endpoint_ok vc0 h vc ∧ backends_ok vc0 h vc.
Proof.
  intros Hd Ho. injection Ho as He Hp Hfd Hb. split.
  - unfold endpoint_ok, cluster_provisioned. rewrite He, Hp, Hd.
    split_and!; [done|by left|done|]. intros Hf' Ht. by rewrite Hf' in Ht.
  - left. congruence.
Qed.

Lemma patch_keep h vc : ident vc = ident vc0 → outcome vc = outcome vc0 → cluster_patch_ok vc0 h vc.
Proof.
  intros Hid Ho. split; [|apply outcome_keep; [|done]].
  - intros Hin. left. injection Hid as _ _ _ Hf _ _ _ _. congruence.
  - unfold ident in Hid. congruence.
Qed.

Lemma requestLBDelete_wp k suffix i report vc h (Q : hist CtrlE → VerdaCluster → result unit → Prop) :
  lb_found c k vc0 h i → instanceGone i = false → lb_unwanted k vc0 →
  (∀ h' vc' (Q' : hist CtrlE → VerdaCluster → result unit → Prop),
     (∀ vc'' r, cosmetic vc' vc'' → Q' h' vc'' r) → wpM P report vc' h' Q') →
  (∀ h' vc' r, grows calm h h' → cosmetic vc vc' → Q h' vc' r) →
  wpM P (requestLBDelete c suffix i report) vc h Q.
Proof.
  intros Hi Hgone Hu Hrep HQ. unfold requestLBDelete, verda.
  wp_step. case_bool_decide as Hd; [apply deleteRequestDue_wp; [done|..]|wp_step].
  - intros h1 t Hg. wp_step. wp_step.
    + exists k, i. split_and!; eauto with verda.
    + wp_step; [|by apply HQ; [grow|]]. apply Hrep. intros vc2 r' Hc. apply HQ; [grow|].
      by eapply cosmetic_trans; [|exact Hc].
  - intros h1 Hg. wp_step. by apply HQ; [grow|].
  - wp_step. by apply HQ; [grow|].
Qed.

Lemma deleteServiceLBScript_wp vc h (Q : hist CtrlE → VerdaCluster → result bool → Prop) :
  ident vc = ident vc0 → lb_status ServiceLB vc = lb_status ServiceLB vc0 →
  lb_unwanted ServiceLB vc0 → lb_released c ServiceLB vc0 h →
  (∀ h' vc' r, grows calm h h' → service_only vc vc' →
     (r = Ok false → lb_released c ServiceLB vc0 h' ∧ lb_script_deleted c ServiceLB vc0 h') → Q h' vc' r) →
  wpM P (deleteServiceLBScript c) vc h Q.
Proof.
  intros Hid Hst Hu Hrel HQ. pose proof (ident_hostname _ _ ServiceLB Hid) as Hh. cbn in Hh, Hst.
  unfold deleteServiceLBScript, verda, modifyServiceLB. wp_steps; bool_to_prop; try (by exists ServiceLB).
  all: match goal with u : unit |- _ => destruct u | _ => idtac end.
  all: apply HQ; [grow|done|]; intros Hr; simplify_eq; (split; [eapply lb_released_mono; [|exact Hrel]; hist|]).
  all: unfold lb_script_deleted; cbn [lb_status lb_hostname]; rewrite <-?Hst, <-?Hh.
  - rewrite decide_False by done. hist.
  - rewrite decide_True by done. intros _. hist.
Qed.

Lemma deleteServiceLoadBalancer_wp vc h (Q : hist CtrlE → VerdaCluster → result bool → Prop) :
  ident vc = ident vc0 → lb_status ServiceLB vc = lb_status ServiceLB vc0 → lb_unwanted ServiceLB vc0 →
  (∀ h' vc' r, grows calm h h' → service_only vc vc' →
     (r = Ok false → lb_released c ServiceLB vc0 h' ∧ lb_script_deleted c ServiceLB vc0 h') → Q h' vc' r) →
  wpM P (deleteServiceLoadBalancer c) vc h Q.
Proof.
  intros Hid Hst Hu HQ. unfold deleteServiceLoadBalancer. do 2 wp_step. wp_step.
  apply (lookup_wp ServiceLB); [by right|done|done|..].
  - intros h1 e Hg. by apply HQ; [grow| |].
  - intros h1 Hg Hn. apply deleteServiceLBScript_wp; [done|done|done|by left|].
    intros h2 vc2 r Hg2 Hso Hr. by apply HQ; [grow| |].
  - intros h1 i Hg Hi. destruct (negb (instanceGone i)) eqn:Hgone; bool_to_prop.
    { wp_step. apply (requestLBDelete_wp ServiceLB); [done|done|done| |].
      - intros h2 vc2 Q2 HQ2. unfold setServiceLBNotReady, setCondition. wp_step. by apply HQ2.
      - intros h2 vc2 r Hg2 Hc%cosmetic_service. destruct r; [wp_step|]; by apply HQ; [grow| |]. }
    case_bool_decide as Hnf.
    + unfold verda. wp_step. wp_step; [by exists ServiceLB, i|]. destruct r as [n|e]; [|by apply HQ; [grow| |]].
      destruct (0 <? n)%Z eqn:Hn; bool_to_prop; [wp_step; by apply HQ; [grow| |]|].
      apply deleteServiceLBScript_wp; [done..| |].
      * right. exists i. split_and!; [eapply lb_found_mono; [|exact Hi]; hist|done|].
        right. exists n. split; [done|hist].
      * intros h2 vc2 r Hg2 Hso Hr. by apply HQ; [grow| |].
    + apply deleteServiceLBScript_wp; [done..| |].
      * right. exists i. split_and!; [done|done|]. by left.
      * intros h2 vc2 r Hg2 Hso Hr. by apply HQ; [grow| |].
Qed.

Lemma cluster_finishDelete_wp vc h (Q : hist CtrlE → VerdaCluster → result Result → Prop) :
  ident vc = ident vc0 → outcome vc = outcome vc0 → lb_status ControlPlaneLB vc = lb_status ControlPlaneLB vc0 →
  deleting (VC_Meta vc0) = true → (∀ k, lb_released c k vc0 h) → lb_script_deleted c ServiceLB vc0 h →
  (∀ h' vc' r, grows calm h h' → cluster_patch_ok vc0 h' vc' → Q h' vc' r) →
  wpM P (finishDelete c) vc h Q.
Proof.
  intros Hid Ho Hst Hdel Hrel Hscr HQ. pose proof (ident_hostname _ _ ControlPlaneLB Hid) as Hh.
  pose proof (ident_enabled _ _ ControlPlaneLB Hid) as Hen. cbn in Hh, Hen, Hst.
  assert (∀ h' (vc' : VerdaCluster), h ⊆ h' → lb_script_deleted c ControlPlaneLB vc0 h' →
    cluster_desired vc' = cluster_desired vc → outcome vc' = outcome vc → cluster_patch_ok vc0 h' vc') as Hdone.
  { intros h' vc' Hs Hsc Hd Ho'. split; [|apply outcome_keep; unfold ident in Hid; congruence].
    intros _. right. split; [done|]. exists c. intros k. split; [by eauto with verda|].
    destruct k; [done|by eauto with verda]. }
  assert (∀ h', cluster_patch_ok vc0 h' vc) as Hkeep by (intros; by apply patch_keep).
  unfold finishDelete, verda, modifyLB. wp_steps; bool_to_prop;
    try (exists ControlPlaneLB; split; [by eauto|by left]).
  all: try (by apply HQ; [grow|apply Hkeep]).
  all: match goal with u : unit |- _ => destruct u | _ => idtac end.
  all: apply HQ; [grow|]; apply Hdone; [hist| |done|done].
  all: unfold lb_script_deleted; cbn [lb_status lb_hostname lb_enabled]; rewrite <-?Hst, <-?Hh, <-?Hen.
  - rewrite decide_False by done. hist.
  - rewrite decide_True by done. intros _. hist.
  - rewrite decide_True by done. intros [?|?]; [done|congruence].
Qed.

(** Deletion: nothing is created, only the cluster's own load balancers are
    deleted, and the finalizer is kept until they are gone. *)
Lemma cluster_reconcileDelete_wp vc h (Q : hist CtrlE → VerdaCluster → result Result → Prop) :
  cosmetic vc0 vc → deleting (VC_Meta vc0) = true →
  (∀ h' vc' r, grows calm h h' → cluster_patch_ok vc0 h' vc' → Q h' vc' r) →
  wpM P (reconcileDelete c) vc h Q.
Proof.
  intros (Hid & Ho & Hst) Hdel HQ. unfold reconcileDelete. wp_step.
  apply deleteServiceLoadBalancer_wp; [done|done|by left|].
  intros h1 vc1 r Hg1 (Hid1 & Ho1 & Hst1) Hr.
  assert (∀ h' vc', cosmetic vc1 vc' → cluster_patch_ok vc0 h' vc') as Hkeep
    by (intros h' vc' (? & ? & ?); apply patch_keep; congruence).
  destruct r as [[]|e]; [wp_step; by apply HQ; [grow|apply Hkeep]| |by apply HQ; [grow|apply Hkeep]].
  destruct Hr as [Hrel Hscr]; [done|].
  assert (ident vc1 = ident vc0 ∧ outcome vc1 = outcome vc0 ∧
    lb_status ControlPlaneLB vc1 = lb_status ControlPlaneLB vc0) as (Hid' & Ho' & Hst').
  { split_and!; [congruence..|]. by rewrite Hst1. }
  assert (∀ h2 (Q2 : hist CtrlE → VerdaCluster → result Result → Prop), h1 ⊆ h2 → lb_released c ControlPlaneLB vc0 h2 →
    (∀ h' vc' r, grows calm h2 h' → cluster_patch_ok vc0 h' vc' → Q2 h' vc' r) →
    wpM P (finishDelete c) vc1 h2 Q2) as Hfin.
  { intros h2 Q2 Hs Hrel2 HQ2. apply cluster_finishDelete_wp; try done; [|by eauto with verda].
    intros []; by eauto with verda. }
  wp_step. apply (lookup_wp ControlPlaneLB); [by left|done|done|..].
  - intros h2 e Hg. by apply HQ; [grow|apply Hkeep].
  - intros h2 Hg Hn. apply Hfin; [hist|by left|]. intros h3 vc3 r Hg3 Hp. by apply HQ; [grow|].
  - intros h2 i Hg Hi. destruct (negb (instanceGone i)) eqn:Hgone; bool_to_prop.
    { wp_step. apply (requestLBDelete_wp ControlPlaneLB); [done|done|by left| |].
      - intros h3 vc3 Q3 HQ3. unfold setLBNotReady, setCondition. wp_steps; by apply HQ3.
      - intros h3 vc3 r Hg3 Hc. destruct r; [wp_step|]; by apply HQ; [grow|apply Hkeep]. }
    case_bool_decide as Hnf.
    + unfold verda. wp_step. wp_step; [by exists ControlPlaneLB, i; split_and!; [..|left]|].
      destruct r as [n|e]; [|by apply HQ; [grow|apply Hkeep]].
      destruct (0 <? n)%Z eqn:Hn; bool_to_prop; [wp_step; by apply HQ; [grow|apply Hkeep]|].
      apply Hfin; [hist| |intros h3 vc3 r Hg3 Hp; by apply HQ; [grow|]].
      right. exists i. split_and!; [eapply lb_found_mono; [|exact Hi]; hist|done|].
      right. exists n. split; [done|hist].
    + apply Hfin; [hist| |intros h3 vc3 r Hg3 Hp; by apply HQ; [grow|]].
      right. exists i. split_and!; [done|done|by left].
Qed.

(** *** The control plane endpoint *)

Lemma lb_known_mono k h h' i : h ⊆ h' → lb_known k vc0 h i → lb_known k vc0 h' i.
Proof.
  intros Hs (c' & [Hf|(spec & ? & ?)]); exists c'; [left; by eauto with verda|right; exists spec; auto].
Qed.

Lemma lb_address_of_mono k h h' a : h ⊆ h' → lb_address_of k vc0 h a → lb_address_of k vc0 h' a.
Proof. intros Hs (i & Hi & ?). exists i. split; [by eapply lb_known_mono|done]. Qed.

Lemma own_endpoint_mono h h' e : h ⊆ h' → own_endpoint vc0 h e → own_endpoint vc0 h' e.
Proof. intros Hs. unfold own_endpoint, owner_of. case_decide; naive_solver. Qed.

Lemma endpoint_ok_mono h h' vc : h ⊆ h' → endpoint_ok vc0 h vc → endpoint_ok vc0 h' vc.
Proof.
  intros Hs (Hd & He & Hp & Hn). split_and!; [done| |done|].
  - destruct He as [He|(? & ? & He)]; [by left|right]. split_and!; [done..|].
    destruct (LoadBalancerEnabled vc0); [|by eapply own_endpoint_mono]. destruct He as [? ?]. split; [done|].
    by eapply lb_address_of_mono.
  - intros H0 H1. destruct (Hn H0 H1) as (? & ? & ? & Ha). split_and!; [done..|].
    destruct (LoadBalancerEnabled vc0); [by eapply lb_address_of_mono|by eapply own_endpoint_mono].
Qed.

Lemma backends_ok_mono h h' vc : h ⊆ h' → backends_ok vc0 h vc → backends_ok vc0 h' vc.
Proof. intros Hs [?|(a & keys & ?)]; [by left|right]. exists a, keys. auto. Qed.

(** The address of the load balancer becomes the endpoint. *)
Lemma endpoint_ok_lb h vc address :
  LoadBalancerEnabled vc0 = true → deleting (VC_Meta vc0) = false →
  lb_address_of ControlPlaneLB vc0 h address → cluster_desired vc = cluster_desired vc0 →
  CSpec_ControlPlaneEndpoint (VC_Spec vc) = mkAPIEndpoint address Port →
  CStatus_FailureDomains (VC_Status vc) = [mkFailureDomain (CSpec_Location (VC_Spec vc0)) (Some true)] →
  CStatus_Provisioned (VC_Status vc) = CStatus_Provisioned (VC_Status vc0) ∨
  CStatus_Provisioned (VC_Status vc) = Some true →
  endpoint_ok vc0 h vc.
Proof.
  intros Hen Hdel Ha Hd He Hf Hp. unfold endpoint_ok, cluster_provisioned. rewrite He, Hen. cbn.
  assert (address ≠ "") as Hne by (by destruct Ha as (i & _ & _ & _ & ?)).
  split_and!; [done|right; by split_and!| |intros _ _; by split_and!].
  intros Hp0. destruct Hp as [->| ->]; done.
Qed.

(** Without a load balancer the endpoint is the given one, or the owner's. *)
Lemma endpoint_ok_own h vc :
  let e := CSpec_ControlPlaneEndpoint (VC_Spec vc) in
  LoadBalancerEnabled vc0 = false → deleting (VC_Meta vc0) = false →
  cluster_desired vc = cluster_desired vc0 → APIEndpoint_Host e ≠ "" → APIEndpoint_Port e ≠ 0%Z →
  own_endpoint vc0 h e →
  CStatus_FailureDomains (VC_Status vc) = [mkFailureDomain (CSpec_Location (VC_Spec vc0)) (Some true)] →
  CStatus_Provisioned (VC_Status vc) = Some true → endpoint_ok vc0 h vc.
Proof.
  intros e Hen Hdel Hd Hh Hport Hkeep Hf Hp. unfold endpoint_ok, cluster_provisioned. rewrite Hen, Hp. fold e.
  split_and!; [done|by right|done|]. intros _ _. by split_and!.
Qed.

(** The control plane's handlers leave the rest alone. *)
Definition control_plane_only (vc vc' : VerdaCluster) : Prop :=
  ident vc' = ident vc ∧ outcome vc' = outcome vc ∧ lb_status ServiceLB vc' = lb_status ServiceLB vc.

(** What the endpoint's handlers may do to the object. *)
Definition normal_ok (h : hist CtrlE) (vc : VerdaCluster) : Prop :=
  ident vc = ident vc0 ∧ lb_status ServiceLB vc = lb_status ServiceLB vc0 ∧
  endpoint_ok vc0 h vc ∧ backends_ok vc0 h vc.

Lemma normal_ok_keep h vc : control_plane_only vc0 vc → normal_ok h vc.
Proof.
  intros (Hid & Ho & Hst). split_and!; [done|done|..]; apply outcome_keep; unfold ident in Hid; congruence.
Qed.

Definition creates_only (hosts : list string) (h : hist CtrlE) : Prop :=
  ∀ c' spec r, Obs (Verda c' (CreateInstance spec)) r ∈ h → InstanceSpec_Hostname spec ∈ hosts.

Lemma creates_only_grows hosts h h' : grows calm h h' → creates_only hosts h → creates_only hosts h'.
Proof. intros Hg Hn c' spec r Hin. eapply Hn, (grows_old _ _ _ _ Hg Hin). intros []. Qed.

Lemma updateBackends_wp cluster i keys vc h (Q : hist CtrlE → VerdaCluster → result Result → Prop) :
  control_plane_only vc0 vc → LoadBalancerEnabled vc0 = true → deleting (VC_Meta vc0) = false →
  owner_of vc0 h cluster → lb_known ControlPlaneLB vc0 h i → Instance_Status i = StatusRunning → Instance_IP i ≠ "" →
  (∀ h' vc' r, grows calm h h' → normal_ok h' vc' → Q h' vc' r) →
  wpM P (updateBackends cluster i keys) vc h Q.
Proof.
  intros (Hid & Ho & Hst) Hen Hdel Hown Hk Hrun Hip HQ.
  assert (∀ h', h ⊆ h' → lb_address_of ControlPlaneLB vc0 h' (Instance_IP i)) as Haddr.
  { intros h' Hs. exists i. split_and!; [by eapply lb_known_mono|done..]. }
  assert (cluster_desired vc = cluster_desired vc0 ∧ CSpec_Location (VC_Spec vc) = CSpec_Location (VC_Spec vc0))
    as [Hd Hloc] by (split; [unfold ident in Hid; congruence|by apply ident_desired]).
  injection Ho as _ Hp _ Hb.
  assert (∀ h' (vc' : VerdaCluster), h ⊆ h' → ident vc' = ident vc → lb_status ServiceLB vc' = lb_status ServiceLB vc →
    CSpec_ControlPlaneEndpoint (VC_Spec vc') = mkAPIEndpoint (Instance_IP i) Port →
    CStatus_FailureDomains (VC_Status vc') = [mkFailureDomain (CSpec_Location (VC_Spec vc)) (Some true)] →
    CStatus_Provisioned (VC_Status vc') = CStatus_Provisioned (VC_Status vc) ∨
      CStatus_Provisioned (VC_Status vc') = Some true →
    backends_ok vc0 h' vc' → normal_ok h' vc') as Hok.
  { intros h' vc' Hs Hid' Hst' He Hf Hp' Hb'. split_and!; [congruence..| |done].
    apply (endpoint_ok_lb h' vc' (Instance_IP i)); try done; [by apply Haddr|..].
    - unfold ident in Hid'. congruence.
    - by rewrite Hf, Hloc.
    - by rewrite <-Hp. }
  clear Hid Hst Hp.
  unfold updateBackends, modifyLB, setEndpointReady, setFailureDomains, setCondition.
  wp_steps. unfold controlPlaneAddresses. wp_step. wp_step; [done|].
  destruct r as [vms|e].
  2:{ wp_step. apply HQ; [grow|]. apply Hok; [hist|done..|by left|by left]. }
  wp_step. apply collectAddresses_wp. intros h1 r Hg Hr.
  destruct r as [a|e].
  2:{ apply HQ; [grow|]. apply Hok; [hist|done..|by left|by left]. }
  destruct (Hr a eq_refl) as (flags & Hfl & ->). wp_step.
  set (backends := Sort_strings _).
  assert (cp_backends vc0 h1 backends) as Hcp.
  { exists cluster. eexists _, _. split_and!; [|..|exact Hfl|done]; [unfold owner_of|]; hist. }
  clearbody backends. clear Hr.
  do 2 wp_step. case_bool_decide as Hne.
  - change (backends ≠ LBStatus_Backends (CStatus_LoadBalancer (VC_Status vc))) in Hne. rewrite Hb in Hne.
    wp_step. wp_step; [split_and!; [done|done|apply Haddr; hist|done|done]|].
    unfold setLBNotReady, setCondition. destruct r as [[]|e]; wp_steps; (apply HQ; [grow|]).
    + apply Hok; [hist|done..|by right|]. right. eexists _, _. cbn. hist.
    + apply Hok; [hist|done..|by right|]. by left.
  - unfold setCondition. wp_steps. apply HQ; [grow|]. apply Hok; [hist|done..|by right|by left].
Qed.

Lemma trackLoadBalancer_wp cluster keys i vc h (Q : hist CtrlE → VerdaCluster → result Result → Prop) :
  control_plane_only vc0 vc → LoadBalancerEnabled vc0 = true → deleting (VC_Meta vc0) = false →
  owner_of vc0 h cluster → lb_known ControlPlaneLB vc0 h i →
  (∀ h' vc' r, grows calm h h' → normal_ok h' vc' → Q h' vc' r) →
  wpM P (trackLoadBalancer cluster keys i) vc h Q.
Proof.
  intros Hcp Hen Hdel Hown Hk HQ. unfold trackLoadBalancer, modifyLB. do 2 wp_step.
  set (vc1 := vc_set_LoadBalancer (recordLB i (CStatus_LoadBalancer (VC_Status vc))) vc).
  assert (control_plane_only vc0 vc1) as Hcp1.
  { destruct Hcp as (? & Ho & ?). split_and!; [done| |done]. unfold outcome, vc1, recordLB in *. cbn.
    case_bool_decide; done. }
  clearbody vc1. cbn zeta. destruct (_ && _) eqn:Hrun; bool_to_prop.
  { by apply updateBackends_wp. }
  assert (∀ h' reason message, grows calm h h' → wpM P (setLBNotReady reason message) vc1 h'
    (λ h'' vc'' r, r = Ok tt ∧ h'' = h' ∧ control_plane_only vc0 vc'')) as Hset.
  { intros h' reason message _. unfold setLBNotReady, setCondition. wp_steps; by split_and!. }
  destruct (_ || _); wp_step; (eapply wpM_mono; [apply Hset; grow|]);
    intros h2 vc2 r (-> & -> & Hcp2); wp_step; (apply HQ; [grow|by apply normal_ok_keep]).
Qed.

Lemma reconcileLoadBalancer_wp cluster vc h (Q : hist CtrlE → VerdaCluster → result Result → Prop) :
  cosmetic vc0 vc → LoadBalancerEnabled vc0 = true → deleting (VC_Meta vc0) = false → owner_of vc0 h cluster →
  creates_only [] h →
  (∀ h' vc' r, creates_only [loadBalancerHostname vc0] h' → normal_ok h' vc' → Q h' vc' r) →
  wpM P (reconcileLoadBalancer c cluster) vc h Q.
Proof.
  intros Hcos Hen Hdel Hown Hno HQ.
  assert (control_plane_only vc0 vc) as Hcp by (destruct Hcos as (? & ? & ?); by split_and!).
  destruct Hcos as (Hid & Ho & Hst).
  pose proof (ident_hostname _ _ ControlPlaneLB Hid) as Hhost. cbn in Hhost.
  assert (∀ h', grows calm h h' → creates_only [loadBalancerHostname vc0] h') as Hcalm.
  { intros h' Hg c' spec r Hin. by apply (creates_only_grows [] h h' Hg Hno), not_elem_of_nil in Hin. }
  unfold reconcileLoadBalancer. do 3 wp_step. apply ensureKeys_wp. intros h1 r Hg1.
  destruct r as [keys|e]; [|by apply HQ; [apply Hcalm; grow|apply normal_ok_keep]].
  wp_step. apply (lookup_wp ControlPlaneLB); [by left|done|done|..].
  - intros h2 e Hg. by apply HQ; [apply Hcalm; grow|apply normal_ok_keep].
  - intros h2 Hg Hn. unfold createLoadBalancer, verda.
    do 3 wp_step. wp_step.
    + exists ControlPlaneLB. destruct (ident_desired _ _ Hid) as (Hlb & _ & Hloc). split_and!; try done.
      * intros c' spec' r Hin. assert (creates_only [] h2) as Hno2 by (eapply creates_only_grows; [|done]; grow).
        by apply Hno2, not_elem_of_nil in Hin.
      * rewrite <-(ident_tag _ _ Hid). cbn [lb_tag]. tagged_only.
    + assert (creates_only [loadBalancerHostname vc0]
        (Obs (Verda c (CreateInstance (lbInstanceSpec cluster vc keys))) r :: h2)) as Hcr.
      { intros c' spec' r' [Heq|Hin]%elem_of_cons.
        - simplify_eq. by apply list_elem_of_singleton.
        - eapply Hcalm; [|exact Hin]. grow. }
      destruct r as [i|e].
      * apply trackLoadBalancer_wp; try done.
        { unfold owner_of. hist. }
        { exists c. right. exists (lbInstanceSpec cluster vc keys). split; [exact Hhost|hist]. }
        intros h3 vc3 r Hg3 Hok. apply HQ; [by eapply creates_only_grows|done].
      * unfold setLBNotReady, setCondition. wp_steps; (apply HQ; [done|by apply normal_ok_keep]).
  - intros h2 i Hg Hi. apply trackLoadBalancer_wp; try done; [unfold owner_of; hist|by exists c; left|].
    intros h3 vc3 r Hg3 Hok. apply HQ; [apply Hcalm; grow|done].
Qed.

Lemma reconcileEndpoint_wp cluster vc h (Q : hist CtrlE → VerdaCluster → result Result → Prop) :
  cosmetic vc0 vc → deleting (VC_Meta vc0) = false → owner_of vc0 h cluster → creates_only [] h →
  (∀ h' vc' r, creates_only [loadBalancerHostname vc0] h' → normal_ok h' vc' → Q h' vc' r) →
  wpM P (reconcileEndpoint c cluster) vc h Q.
Proof.
  intros Hcos Hdel Hown Hno HQ. pose proof Hcos as (Hid & Ho & Hst).
  assert (LoadBalancerEnabled vc = LoadBalancerEnabled vc0) as Hen by exact (ident_enabled _ _ ControlPlaneLB Hid).
  unfold reconcileEndpoint. do 2 wp_step. rewrite Hen. destruct (LoadBalancerEnabled vc0) eqn:Hen0.
  { by apply reconcileLoadBalancer_wp. }
  assert (creates_only [loadBalancerHostname vc0] h) as Hcr.
  { intros c' spec r Hin. by apply Hno, not_elem_of_nil in Hin. }
  assert (∀ h' vc', cosmetic vc vc' → normal_ok h' vc') as Hkeep.
  { intros h' vc' (? & ? & Hk). apply normal_ok_keep. split_and!; [congruence..|]. by rewrite Hk. }
  assert (CSpec_ControlPlaneEndpoint (VC_Spec vc) = CSpec_ControlPlaneEndpoint (VC_Spec vc0) ∧
    CSpec_Location (VC_Spec vc) = CSpec_Location (VC_Spec vc0) ∧ cluster_desired vc = cluster_desired vc0)
    as (Hep & Hloc & Hd).
  { injection Ho as He _ _ _. split_and!; [done|by apply ident_desired|unfold ident in Hid; congruence]. }
  unfold deleteCondition, setEndpointReady, setFailureDomains, setCondition. do 2 wp_step. cbn zeta.
  set (e1 := if bool_decide _ then Cluster_ControlPlaneEndpoint cluster else _).
  set (e2 := if (APIEndpoint_Port e1 =? 0)%Z then mkAPIEndpoint (APIEndpoint_Host e1) Port else e1).
  assert (completed e1 e2 ∧ APIEndpoint_Port e2 ≠ 0%Z) as [He2 Hp2].
  { unfold completed, e2. case_decide; destruct (_ =? _)%Z eqn:Hz; bool_to_prop; done. }
  assert (own_endpoint vc0 h e2) as Hown2.
  { unfold own_endpoint, e1 in *. rewrite Hep in He2. case_decide as Hh0.
    - exists cluster. split; [done|]. by rewrite bool_decide_eq_true_2 in He2.
    - by rewrite bool_decide_eq_false_2 in He2. }
  destruct He2 as [Hh2 _]. clearbody e1 e2. case_bool_decide as Hempty; [do 3 wp_step; by apply HQ; [|apply Hkeep]|].
  do 9 wp_step. apply HQ; [done|]. split_and!; [exact Hid|exact (Hst ServiceLB)| |].
  - apply endpoint_ok_own; cbn; try done; rewrite ?Hh2; try done. by rewrite Hloc.
  - injection Ho as _ _ _ Hb. by left.
Qed.

(** *** The service load balancer *)

Lemma service_only_trans vc1 vc2 vc3 : service_only vc1 vc2 → service_only vc2 vc3 → service_only vc1 vc3.
Proof. intros (? & ? & ?) (? & ? & ?). split_and!; congruence. Qed.

Lemma normal_patch h h' vc vc' :
  normal_ok h vc → service_only vc vc' → h ⊆ h' → cluster_patch_ok vc0 h' vc'.
Proof.
  intros (Hid & _ & He & Hb) (Hid' & Ho' & _) Hs. split_and!.
  - intros Hin. left. injection Hid as _ _ _ Hf _ _ _ _. injection Hid' as _ _ _ Hf' _ _ _ _. congruence.
  - apply (endpoint_ok_mono h); [done|]. injection Ho' as He' Hp' Hf' _.
    assert (cluster_desired vc' = cluster_desired vc) as Hd by (unfold ident in Hid'; congruence).
    unfold endpoint_ok, cluster_provisioned in *. by rewrite He', Hp', Hf', Hd.
  - apply (backends_ok_mono h); [done|]. injection Ho' as _ _ _ Hb'. unfold backends_ok in *. by rewrite Hb'.
Qed.

Lemma publish_wp cluster address keys vc h (Q : hist CtrlE → VerdaCluster → result unit → Prop) :
  (∀ h' r, grows calm h h' → Q h' vc r) →
  wpM P (publishServiceLoadBalancerSecret cluster address keys) vc h Q.
Proof. intros HQ. unfold publishServiceLoadBalancerSecret. wp_steps; try (apply HQ; grow). Qed.

Lemma trackServiceLoadBalancer_wp cluster keys i vc h (Q : hist CtrlE → VerdaCluster → result bool → Prop) :
  (∀ h' vc' r, grows calm h h' → service_only vc vc' → Q h' vc' r) →
  wpM P (trackServiceLoadBalancer cluster keys i) vc h Q.
Proof.
  intros HQ. unfold trackServiceLoadBalancer, modifyServiceLB, setServiceLBNotReady, setCondition.
  do 2 wp_step. cbn zeta. destruct (_ && _).
  - do 3 wp_step. apply publish_wp. intros h1 r Hg. destruct r; wp_steps; by apply HQ; [grow|].
  - destruct (_ || _); wp_steps; by apply HQ; [grow|].
Qed.

Lemma reconcileServiceLoadBalancer_wp cluster vc h (Q : hist CtrlE → VerdaCluster → result bool → Prop) :
  ident vc = ident vc0 → lb_status ServiceLB vc = lb_status ServiceLB vc0 →
  ServiceLoadBalancerEnabled vc0 = true → deleting (VC_Meta vc0) = false →
  creates_only [loadBalancerHostname vc0] h →
  (∀ h' vc' r, h ⊆ h' → service_only vc vc' → Q h' vc' r) →
  wpM P (reconcileServiceLoadBalancer c cluster) vc h Q.
Proof.
  intros Hid Hst Hen Hdel Hcr HQ. unfold reconcileServiceLoadBalancer. do 3 wp_step.
  apply ensureKeys_wp. intros h1 r Hg1. destruct r as [keys|e]; [|by apply HQ; [hist|]].
  do 3 wp_step. apply (lookup_wp ServiceLB); [by right|done|done|..].
  - intros h2 e Hg. by apply HQ; [hist|].
  - intros h2 Hg Hn. unfold verda. wp_step. wp_step.
    + exists ServiceLB. destruct (ident_desired _ _ Hid) as (_ & Hlb & Hloc). split_and!; try done.
      * intros c' spec' r Hin. assert (creates_only [loadBalancerHostname vc0] h2) as Hcr2
          by (eapply creates_only_grows; [|done]; grow).
        apply Hcr2, list_elem_of_singleton in Hin. rewrite Hin. cbn. intros Heq.
        pose proof (ident_hostname _ _ ServiceLB Hid) as Hh. cbn in Hh. rewrite Hh in Heq.
        apply (f_equal String.length) in Heq.
        unfold loadBalancerHostname, serviceLoadBalancerHostname in Heq.
        rewrite !string_length_app in Heq. cbn in Heq. lia.
      * exact (ident_hostname _ _ ServiceLB Hid).
      * rewrite <-(ident_tag _ _ Hid). cbn [lb_tag]. tagged_only.
    + destruct r as [i|e].
      * apply trackServiceLoadBalancer_wp. intros h3 vc3 r Hg3 Hso. by apply HQ; [hist|].
      * unfold setServiceLBNotReady, setCondition. wp_steps. by apply HQ; [hist|].
  - intros h2 i Hg Hi. apply trackServiceLoadBalancer_wp. intros h3 vc3 r Hg3 Hso. by apply HQ; [hist|].
Qed.

Lemma cluster_reconcileNormal_wp cluster vc h (Q : hist CtrlE → VerdaCluster → result Result → Prop) :
  cosmetic vc0 vc → deleting (VC_Meta vc0) = false → owner_of vc0 h cluster → creates_only [] h →
  (∀ h' vc' r, cluster_patch_ok vc0 h' vc' → Q h' vc' r) →
  wpM P (reconcileNormal c cluster) vc h Q.
Proof.
  intros Hcos Hdel Hown Hno HQ. unfold reconcileNormal. wp_step. apply reconcileEndpoint_wp; [done..|].
  intros h1 vc1 r Hcr Hok.
  assert (∀ h' vc', h1 ⊆ h' → service_only vc1 vc' → cluster_patch_ok vc0 h' vc') as Hpatch
    by (intros; by eapply normal_patch).
  destruct r as [res|e]; [|by apply HQ, Hpatch]. pose proof Hok as (Hid & Hst & _).
  assert (ServiceLoadBalancerEnabled vc1 = ServiceLoadBalancerEnabled vc0) as Hen
    by exact (ident_enabled _ _ ServiceLB Hid).
  do 2 wp_step. rewrite Hen. destruct (ServiceLoadBalancerEnabled vc0) eqn:Hen0; cbn [negb].
  - wp_step. apply reconcileServiceLoadBalancer_wp; [done..|]. intros h2 vc2 r Hs Hso.
    destruct r as [b|e]; [|by apply HQ, Hpatch]. destruct (_ && _); wp_step; by apply HQ, Hpatch.
  - cbn zeta. unfold deleteCondition. destruct (_ || _); [|do 3 wp_step; by apply HQ, Hpatch].
    wp_step. apply deleteServiceLoadBalancer_wp; [done|done|by right|].
    intros h2 vc2 r Hg2 Hso Hr.
    destruct r as [[]|e]; [wp_step; by apply HQ, Hpatch; [hist|]| |by apply HQ, Hpatch; [hist|]].
    wp_step. unfold removeServiceLoadBalancerSecret.
    wp_steps; apply HQ, Hpatch; try hist; by eapply service_only_trans; [exact Hso|].
Qed.
End cluster_wp.

Section cluster_reconcile.
Context `{!CapiUtil}.

Lemma patchVerdaCluster_wp vc0 vc h (Q : hist CtrlE → VerdaCluster → result unit → Prop) :
  cluster_patch_ok vc0 h vc → (∀ h' vc' r, Q h' vc' r) →
  wpM (cluster_protocol vc0) patchVerdaCluster vc h Q.
Proof.
  intros Hp HQ. unfold patchVerdaCluster, setCondition. wp_steps; [|apply HQ]. apply Hp.
Qed.

Lemma cluster_reconcilePatched_wp vc0 vc cluster h :
  cosmetic vc0 vc → owner_of vc0 h cluster → creates_only [] h →
  wpM (cluster_protocol vc0) (reconcilePatched cluster) vc h (λ _ _ _, True).
Proof.
  intros Hcos Hown Hno. pose proof (ident_deleting _ _ (proj1 Hcos)) as Hdel.
  unfold reconcilePatched. do 4 wp_step; [exact I|]. cbn beta. wp_step; [|done].
  apply wpM_deferred. cbn zeta. wp_step. wp_step; [exact I|]. cbn beta.
  match goal with |- wpM _ _ _ ?h1 _ =>
    assert (creates_only [] h1) as Hno1 by (eapply creates_only_grows; [|exact Hno]; grow) end.
  wp_step; cbn beta iota.
  - rewrite Hdel. destruct (deleting (VC_Meta vc0)) eqn:Hd.
    + apply cluster_reconcileDelete_wp; try done; intros h' vc' r _ Hp; by apply patchVerdaCluster_wp.
    + apply cluster_reconcileNormal_wp; [done|done|unfold owner_of; hist|done|].
      intros h' vc' r Hp. by apply patchVerdaCluster_wp.
  - unfold setCondition. wp_steps. apply patchVerdaCluster_wp; [|done].
    destruct Hcos as (? & ? & ?). by apply patch_keep.
Qed.

Lemma cluster_reconcileOrphanDelete_wp vc0 vc h :
  cosmetic vc0 vc → deleting (VC_Meta vc0) = true →
  wpM (cluster_protocol vc0) reconcileOrphanDelete vc h (λ _ _ _, True).
Proof.
  intros Hcos Hd. unfold reconcileOrphanDelete. do 4 wp_step; [exact I|]. cbn beta. wp_step; [|done].
  apply wpM_deferred. wp_step. wp_step; [exact I|]. cbn beta. wp_step.
  - apply cluster_reconcileDelete_wp; try done; intros h' vc' r _ Hp; by apply patchVerdaCluster_wp.
  - apply patchVerdaCluster_wp; [|done]. destruct Hcos as (? & ? & ?). by apply patch_keep.
Qed.

Lemma cluster_reconcileObject_wp vc h :
  creates_only [] h → wpM (cluster_protocol vc) reconcileObject vc h (λ _ _ _, True).
Proof.
  intros Hno. unfold reconcileObject.
  do 3 wp_step. wp_step; [exact I|]. cbn beta. wp_step; [|done]. wp_step; [by wp_steps|].
  wp_step. wp_step; [exact I|]. cbn beta. wp_step; [|done]. wp_step; cycle 1.
  { wp_step; [by apply cluster_reconcileOrphanDelete_wp|by wp_steps]. }
  do 2 wp_step; [exact I|]. cbn beta. wp_step; [|done].
  match goal with p : bool * bool * list Condition |- _ => destruct p as [[isPaused requeue] conds] end.
  cbn beta iota. do 2 wp_step. cbn beta iota. wp_step; [by wp_steps|].
  apply cluster_reconcilePatched_wp; [done|unfold owner_of; hist|]. eapply creates_only_grows; [|exact Hno]. grow.
Qed.

Definition is_get_cluster (o : obs CtrlE) : bool :=
  match o with Obs (GetVerdaCluster _ _) _ => true | _ => false end.

(** A pass reads the object first; every later call satisfies [cluster_guard]
    for the object read. *)
Lemma cluster_Reconcile_call ns name h r X (e : CtrlE X) a after before :
  runs (Reconcile ns name) h r → h = after ++ Obs e a :: before →
  is_get_cluster (Obs e a) = false →
  ∃ vc, Obs (GetVerdaCluster ns name) (Ok vc) ∈ before ∧ cluster_guard vc before X e.
Proof.
  apply (get_then_call _ _ _ cluster_guard); [done|done|].
  intros vc. apply cluster_reconcileObject_wp. intros c spec r' Hin. set_solver.
Qed.

(** (C13) One load balancer of each kind.  When a pass over a VerdaCluster asks
    Verda to create an instance, then the cluster is not being deleted and the
    load balancer of that kind is enabled; none is recorded, and the lookup by
    its tag, made before in the same pass, found none; the pass has created
    none under that hostname before; and the instance carries the hostname,
    location and tags by which later passes find it again. *)
Theorem cluster_create_safe ns name h r c spec a after before :
  runs (Reconcile ns name) h r →
  h = after ++ Obs (Verda c (CreateInstance spec)) a :: before →
  ∃ vc, Obs (GetVerdaCluster ns name) (Ok vc) ∈ before ∧ lb_create_allowed c vc before spec.
Proof. intros Hex Hh. by apply (cluster_Reconcile_call _ _ _ _ _ _ _ _ _ Hex Hh). Qed.

(** (C15) A pass deletes no instance but its own load balancers: a delete request
    names an instance that the same pass found under the recorded ID or the
    cluster's tag, that exists and is not deleting yet, and it is made only if
    the cluster is being deleted, or for a service load balancer that has been
    disabled. *)
Theorem cluster_delete_safe ns name h r c id a after before :
  runs (Reconcile ns name) h r →
  h = after ++ Obs (Verda c (DeleteInstance id)) a :: before →
  ∃ vc, Obs (GetVerdaCluster ns name) (Ok vc) ∈ before ∧ lb_delete_allowed c vc before id.
Proof. intros Hex Hh. by apply (cluster_Reconcile_call _ _ _ _ _ _ _ _ _ Hex Hh). Qed.

(** (C14) Nothing is leaked: a pass writes the VerdaCluster back without the
    provider's finalizer only if it is being deleted and the same pass dealt
    with both load balancers: a recorded one was looked up and is not found, or
    is gone and a purge of its volumes left none pending; where none is recorded
    the lookup by tag found none, or one that is gone (that of the control plane
    is then purged as well, that of the services is not); and the recorded startup
    scripts were deleted, and by name where none is recorded (for the control
    plane only if its load balancer is enabled). *)
Theorem cluster_finalizer_safe ns name h r vc' a after before :
  runs (Reconcile ns name) h r →
  h = after ++ Obs (PatchVerdaCluster vc') a :: before →
  ∃ vc, Obs (GetVerdaCluster ns name) (Ok vc) ∈ before ∧
    (ClusterFinalizer ∈ Meta_Finalizers (VC_Meta vc) →
     ClusterFinalizer ∉ Meta_Finalizers (VC_Meta vc') →
     deleting (VC_Meta vc) = true ∧
     ∃ c, ∀ k, lb_released c k vc before ∧ lb_script_deleted c k vc before).
Proof.
  intros Hex Hh. apply (cluster_Reconcile_call _ _ _ _ _ _ _ _ _ Hex) in Hh as (vc & Hin & Hg); [|done].
  exists vc. split; [done|]. intros Hf Hf'. destruct Hg as [Hg _]. by destruct (Hg Hf).
Qed.

(** (C16) A pass writes back a truthful endpoint: nothing of the spec changes but
    the control plane endpoint; that changes only to the address of the running
    load balancer found or created in the same pass, with the default port (if
    the load balancer is enabled), or (if not) to the given one, or without one
    to that of the Cluster that owns it, with the default port where it has
    none; a provisioned cluster stays so; and a cluster becomes provisioned only
    with such an endpoint, complete, and its location as failure domain. *)
Theorem cluster_endpoint_truthful ns name h r vc' a after before :
  runs (Reconcile ns name) h r →
  h = after ++ Obs (PatchVerdaCluster vc') a :: before →
  ∃ vc, Obs (GetVerdaCluster ns name) (Ok vc) ∈ before ∧ endpoint_ok vc before vc'.
Proof.
  intros Hex Hh. apply (cluster_Reconcile_call _ _ _ _ _ _ _ _ _ Hex) in Hh as (vc & Hin & Hg); [|done].
  exists vc. split; [done|]. by destruct Hg as (_ & Hg & _).
Qed.

(** (C17) The backends pushed to the control plane load balancer are exactly the
    external addresses of the control plane machines that are not being
    deleted, sorted, among the machines listed for the Cluster that owns the
    VerdaCluster; they are pushed only to the address of the running load
    balancer and only when they differ from the recorded ones; and the record
    written back changes only to a list that was pushed successfully. *)
Theorem cluster_backends_truthful ns name h r X (e : CtrlE X) a after before :
  runs (Reconcile ns name) h r → h = after ++ Obs e a :: before →
  match e with
  | UpdateBackends address keys backends =>
      ∃ vc, Obs (GetVerdaCluster ns name) (Ok vc) ∈ before ∧
        lb_address_of ControlPlaneLB vc before address ∧ cp_backends vc before backends ∧
        backends ≠ LBStatus_Backends (CStatus_LoadBalancer (VC_Status vc))
  | PatchVerdaCluster vc' =>
      ∃ vc, Obs (GetVerdaCluster ns name) (Ok vc) ∈ before ∧
        let b' := LBStatus_Backends (CStatus_LoadBalancer (VC_Status vc')) in
        b' = LBStatus_Backends (CStatus_LoadBalancer (VC_Status vc)) ∨
        ∃ address keys, Obs (UpdateBackends address keys b') (Ok tt) ∈ before
  | _ => True
  end.
Proof.
  intros Hex Hh. destruct e; try done.
  all: apply (cluster_Reconcile_call _ _ _ _ _ _ _ _ _ Hex) in Hh as (vc & Hin & Hg); [|done].
  all: exists vc; (split; [done|]).
  - by destruct Hg as (_ & _ & Hg).
  - by destruct Hg as (_ & _ & ? & ? & ?).
Qed.
End cluster_reconcile.

(** ** A load balancer that is gone *)

(** Every lookup by tag is answered with [i], and the secret of the SSH keys is [s]. *)
Definition tag_finds (i : Instance) (s : Secret) : protocol CtrlE :=
  Protocol (λ _ _ _, True) (λ _ X e,
    match e in CtrlE X return X → Prop with
    | Verda _ e' => match e' in ClientE X return X → Prop with
                    | FindInstanceByTag _ _ => λ r, r = Ok i
                    | _ => λ _, True
                    end
    | GetSecret _ _ => λ r, r = Ok s
    | _ => λ _, True
    end).

(** (C38) A VerdaCluster with no load balancer on record whose tag still finds a
    load balancer that is gone (the cluster was deleted and created again
    under the same name) does not get a new one: with its SSH keys there,
    [reconcileLoadBalancer] creates nothing, records the instance that is gone
    as the load balancer, and ends without an error and without a further
    attempt scheduled. *)
Theorem gone_load_balancer_adopted `{!CapiUtil} c cluster vc i s keys h vc' r :
  instanceGone i = true → LBStatus_InstanceID (CStatus_LoadBalancer (VC_Status vc)) = "" →
  keysFromSecret s = Ok keys →
  exec (tag_finds i s) (reconcileLoadBalancer c cluster vc) [] h (vc', r) →
  (∀ c' spec a, Obs (Verda c' (CreateInstance spec)) a ∉ h) ∧ r = Ok emptyResult ∧
  LBStatus_InstanceID (CStatus_LoadBalancer (VC_Status vc')) = Instance_ID i.
Proof.
  intros Hgone Hid Hkeys Hex. exec_to_wp Hex. clear h vc' r.
  apply wpM_mono with (λ h vc' r, grows calm [] h ∧ r = Ok emptyResult ∧
    LBStatus_InstanceID (CStatus_LoadBalancer (VC_Status vc')) = Instance_ID i).
  2:{ intros h' vc' r [Hg Hr]. split; [|done]. intros c' spec a Hin.
      apply (grows_old _ _ _ _ Hg) in Hin; [by apply not_elem_of_nil in Hin|by intros []]. }
  unfold reconcileLoadBalancer. do 3 wp_step.
  apply wpM_mono with (λ h vc' r, grows calm [] h ∧ vc' = vc ∧ r = Ok keys).
  { unfold ensureKeys, lift. do 2 wp_step. wp_step. wp_step; [done|].
    match goal with H : rely _ _ _ _ _ |- _ => cbn in H; subst end. rewrite Hkeys. wp_step. split_and!; [grow|done..]. }
  intros h1 vc1 r (Hg & -> & ->). wp_step.
  unfold findLoadBalancer, verda. do 2 wp_step. rewrite Hid. cbn [bool_decide decide_rel].
  rewrite bool_decide_eq_false_2 by (by intros ?). wp_step. wp_step; [done|].
  match goal with H : rely _ _ _ _ _ |- _ => cbn in H; subst end. wp_step.
  unfold trackLoadBalancer, modifyLB. do 2 wp_step. cbn zeta. rewrite Hgone. cbn [orb].
  rewrite (bool_decide_eq_false_2 (Instance_Status i = StatusRunning)).
  2:{ intros Hrun. unfold instanceGone in Hgone. by rewrite Hrun in Hgone. }
  cbn [andb]. unfold setLBNotReady, setCondition. wp_steps. split; [grow|].
  split; [done|]. cbn. unfold recordLB. by case_bool_decide.
Qed.

(** ** The secret handed to the cloud controller manager *)

(** The secret [s] was written to the workload cluster, or seen in it. *)
Definition secret_written (s : Secret) (h : hist CtrlE) : Prop :=
  ∃ w, Obs (WorkloadCreateSecret w s) (Ok tt) ∈ h ∨ Obs (WorkloadUpdateSecret w s) (Ok tt) ∈ h.
Definition secret_seen (s : Secret) (h : hist CtrlE) : Prop :=
  ∃ w, Obs (WorkloadGetSecret w "kube-system" ServiceLoadBalancerSecretName) (Ok s) ∈ h.

(** The cloud controller manager reads [s]. *)
Definition ccm_reads (s : Secret) : protocol CcmE :=
  Protocol (λ _ _ _, True) (λ _ X e,
    match e in CcmE X return X → Prop with GetLBSecret => λ r, r = Ok s | _ => λ _, True end).

Lemma config_of_secret s h u r :
  let get k := map_get (Secret_Data s) k in
  exec (ccm_reads s) (config tt) [] h (u, r) →
  get "address" ≠ "" → get "ssh-privatekey" ≠ "" → get "host-publickey" ≠ "" →
  r = Ok (mkLbConfig (get "address") (mkKeys (get "ssh-privatekey") "" "" (get "host-publickey"))).
Proof.
  intros get Hex H1 H2 H3. exec_to_wp Hex. clear h u r. unfold config. wp_step. wp_step; [done|].
  match goal with H : rely _ _ _ _ _ |- _ => cbn in H; subst end. cbn zeta. unfold get in *.
  rewrite !bool_decide_eq_false_2 by done. by wp_step.
Qed.

Lemma config_no_host_key s h u r :
  map_get (Secret_Data s) "host-publickey" = "" → exec (ccm_reads s) (config tt) [] h (u, r) → ∃ err, r = Err err.
Proof.
  intros Hk Hex. exec_to_wp Hex. clear h u r. unfold config. wp_step. wp_step; [done|].
  match goal with H : rely _ _ _ _ _ |- _ => cbn in H; subst end. cbn zeta.
  rewrite Hk, orb_true_r. wp_step. by eexists.
Qed.


(** ** A management cluster with one VerdaCluster *)

Module ClusterExamples.
#[local] Existing Instance CapiExamples.capi.
#[local] Existing Instance CapiExamples.capi_laws.
#[local] Existing Instance FakeExamples.range_in_key_order.

Definition meta (del : option Z) : ObjectMeta :=
  mkObjectMeta "prod" "default" ∅ ∅ [ClusterFinalizer] 0 del.
Definition cluster0 : Cluster :=
  mkCluster (meta None) (mkAPIEndpoint "" 0) "prod" "VerdaCluster" true None.
Definition enabled (b : bool) : ControlPlaneLoadBalancer := mkControlPlaneLoadBalancer (Some b) "" "" [].
Definition vc_new : VerdaCluster :=
  mkVerdaCluster (meta None)
    (mkVerdaClusterSpec "FIN-01" (mkAPIEndpoint "" 0) None (enabled true) (enabled false))
    (mkVerdaClusterStatus None [] empty_LoadBalancerStatus empty_LoadBalancerStatus []).

Definition keys0 : Keys := mkKeys "a" "b" "c" "d".
(** A control plane machine with an address. *)
Definition cp0 : VerdaMachine :=
  mkVerdaMachine (mkObjectMeta "cp-0" "default" {[MachineControlPlaneLabel := ""]} ∅ [] 0 None)
    (WorldExamples.spec_of "")
    (mkVerdaMachineStatus (Some true) [] [mkMachineAddress MachineExternalIP "203.0.113.20"] "" "" "" "" "").

Record Mgmt := mkMgmt { Mgmt_vc : VerdaCluster; Mgmt_now : Z }.

Definition mgmt (X : Type) (e : CtrlE X) : Mgmt → Mgmt * X :=
  match e in CtrlE X return Mgmt → Mgmt * X with
  | GetVerdaCluster _ _ => λ k, (k, Ok (Mgmt_vc k))
  | PatchVerdaCluster vc => λ k, (mkMgmt vc (Mgmt_now k), Ok tt)
  | GetOwnerCluster _ => λ k, (k, Ok (Some cluster0))
  | GetSecret _ name => λ k, (k, Ok (keysSecret cluster0 vc_new name keys0))
  | ListVerdaMachines _ _ => λ k, (k, Ok [cp0])
  | Now => λ k, (mkMgmt (Mgmt_vc k) (Mgmt_now k + 30 * Second)%Z, Mgmt_now k)
  | e' => λ k, (k, (WorldExamples.kube _ e' (WorldExamples.mkKube None 0)).2)
  end.

Definition pass (f : Fake) (vc : VerdaCluster) :=
  trace (with_fake mgmt) (Reconcile "default" "prod") (f, mkMgmt vc 1000000000) [].
Definition calls (f : Fake) (vc : VerdaCluster) : hist CtrlE := (pass f vc).1.2.
Definition account (f : Fake) (vc : VerdaCluster) : Fake := (pass f vc).1.1.1.
Definition stored (f : Fake) (vc : VerdaCluster) : VerdaCluster := Mgmt_vc (pass f vc).1.1.2.

Lemma cluster_pass_runs f vc : runs (Reconcile "default" "prod") (calls f vc) (pass f vc).2.
Proof. apply trace_exec. Defined.

Definition spec0 : InstanceSpec := lbInstanceSpec cluster0 vc_new keys0.

Lemma cluster_create_safe_witness :
  ∃ vc, Obs (GetVerdaCluster "default" "prod") (Ok vc) ∈ drop 2 (calls NewFake vc_new) ∧
    lb_create_allowed 0 vc (drop 2 (calls NewFake vc_new)) spec0.
Proof.
  apply (cluster_create_safe "default" "prod" (calls NewFake vc_new) _ 0 spec0
    (fake_CreateInstance spec0 NewFake).2 (take 1 (calls NewFake vc_new)) _ (cluster_pass_runs NewFake vc_new)).
  vm_compute. reflexivity.
Defined.

(** Verda starts the instance: the next pass pushes the backends and provisions
    the cluster. *)
Definition account_up : Fake := fake_SetStatus "inst-1" StatusRunning "203.0.113.7" (account NewFake vc_new).
Definition vc_created : VerdaCluster := stored NewFake vc_new.
Definition vc_up : VerdaCluster := stored account_up vc_created.

Lemma cluster_endpoint_truthful_witness :
  cluster_provisioned vc_up = true ∧
  CSpec_ControlPlaneEndpoint (VC_Spec vc_up) = mkAPIEndpoint "203.0.113.7" 6443 ∧
  (∃ vc, Obs (GetVerdaCluster "default" "prod") (Ok vc) ∈ drop 1 (calls account_up vc_created) ∧
    endpoint_ok vc (drop 1 (calls account_up vc_created)) vc_up).
Proof.
  split; [vm_compute; reflexivity|]. split; [vm_compute; reflexivity|].
  apply (cluster_endpoint_truthful "default" "prod" (calls account_up vc_created) _ vc_up (Ok tt) [] _
    (cluster_pass_runs account_up vc_created)).
  vm_compute. reflexivity.
Defined.

Lemma cluster_backends_truthful_witness :
  ∃ vc, Obs (GetVerdaCluster "default" "prod") (Ok vc) ∈ drop 2 (calls account_up vc_created) ∧
    lb_address_of ControlPlaneLB vc (drop 2 (calls account_up vc_created)) "203.0.113.7" ∧
    cp_backends vc (drop 2 (calls account_up vc_created)) ["203.0.113.20"] ∧
    ["203.0.113.20"] ≠ LBStatus_Backends (CStatus_LoadBalancer (VC_Status vc)).
Proof.
  apply (cluster_backends_truthful "default" "prod" (calls account_up vc_created) _ _
    (UpdateBackends "203.0.113.7" keys0 ["203.0.113.20"]) (Ok tt) (take 1 (calls account_up vc_created)) _
    (cluster_pass_runs account_up vc_created)).
  vm_compute. reflexivity.
Defined.

(** The cluster is deleted: the first pass requests the deletion of the
    instance, the next one gives up the finalizer. *)
Definition vc_deleting : VerdaCluster := vc_set_meta (meta (Some 1%Z)) vc_up.

Lemma cluster_delete_safe_witness :
  ∃ vc, Obs (GetVerdaCluster "default" "prod") (Ok vc) ∈ drop 2 (calls account_up vc_deleting) ∧
    lb_delete_allowed 0 vc (drop 2 (calls account_up vc_deleting)) "inst-1".
Proof.
  apply (cluster_delete_safe "default" "prod" (calls account_up vc_deleting) _ 0 "inst-1" (Ok tt)
    (take 1 (calls account_up vc_deleting)) _ (cluster_pass_runs account_up vc_deleting)).
  vm_compute. reflexivity.
Defined.

Definition account_down : Fake := account account_up vc_deleting.
Definition vc_down : VerdaCluster := stored account_up vc_deleting.
Definition vc_final : VerdaCluster := stored account_down vc_down.

Lemma cluster_finalizer_safe_witness :
  Meta_Finalizers (VC_Meta vc_final) = [] ∧
  (∃ vc, Obs (GetVerdaCluster "default" "prod") (Ok vc) ∈ drop 1 (calls account_down vc_down) ∧
    (ClusterFinalizer ∈ Meta_Finalizers (VC_Meta vc) →
     ClusterFinalizer ∉ Meta_Finalizers (VC_Meta vc_final) →
     deleting (VC_Meta vc) = true ∧
     ∃ c, ∀ k, lb_released c k vc (drop 1 (calls account_down vc_down)) ∧
       lb_script_deleted c k vc (drop 1 (calls account_down vc_down)))).
Proof.
  split; [vm_compute; reflexivity|].
  apply (cluster_finalizer_safe "default" "prod" (calls account_down vc_down) _ vc_final (Ok tt) [] _
    (cluster_pass_runs account_down vc_down)).
  vm_compute. reflexivity.
Defined.

(** The tag finds a load balancer that is gone. *)
Definition gone : Instance :=
  mkInstance "inst-old" "prod-lb" StatusDiscontinued "" "FIN-01" "CPU.4V.16G" "" "" ∅.
Definition stale (X : Type) (e : CtrlE X) (k : Mgmt) : Mgmt * X :=
  match e in CtrlE X return Mgmt * X with
  | Verda _ e' => (k, match e' in ClientE X return X with
                      | FindInstanceByTag _ _ => Ok gone
                      | e'' => (fake _ e'' NewFake).2
                      end)
  | GetSecret _ _ => (k, Ok (keysSecret cluster0 vc_new "prod-lb-ssh" keys0))
  | e' => mgmt _ e' k
  end.

Definition adopted := (run stale (reconcileLoadBalancer 0 cluster0 vc_new) (mkMgmt vc_new 0)).2.

Definition keys_secret : Secret := keysSecret cluster0 vc_new "prod-lb-ssh" keys0.

Lemma gone_load_balancer_adopted_witness :
  ∃ h, exec (tag_finds gone keys_secret) (reconcileLoadBalancer 0 cluster0 vc_new) [] h adopted ∧
    (∀ c' spec a, Obs (Verda c' (CreateInstance spec)) a ∉ h) ∧ adopted.2 = Ok emptyResult ∧
    LBStatus_InstanceID (CStatus_LoadBalancer (VC_Status adopted.1)) = "inst-old".
Proof.
  destruct (run_wp stale (λ _, True) (tag_finds gone keys_secret) (reconcileLoadBalancer 0 cluster0 vc_new) []
    (λ _ _, True) (mkMgmt vc_new 0)) as (_ & h & _ & Hex).
  - intros h X e k _. split; [done|]. destruct e; try done. by destruct e.
  - by apply wp_any.
  - done.
  - exists h. split; [exact Hex|]. fold adopted in Hex. destruct adopted as [vc' r].
    exact (gone_load_balancer_adopted 0 cluster0 vc_new gone keys_secret keys0 h vc' r eq_refl eq_refl eq_refl Hex).
Defined.

Definition published :=
  trace mgmt (publishServiceLoadBalancerSecret cluster0 "203.0.113.8" keys0 vc_new) (mkMgmt vc_new 0) [].

End ClusterExamples.
