(* ===== verification/ClusterUp.v ===== *)
(** * A cluster gets its endpoint

    The counterpart of [Provisioning.v] for the cluster controller: against
    [Fake] and a management cluster that answers, one pass over a cluster that
    asks for a control plane load balancer creates it, and the first pass after
    Verda has started it publishes its address as the endpoint, with the control
    plane machines behind it. *)

From S2P Require Import Prelude GoStd GoTime Effects Api Cloud Fake Ctrl Machine Pass World Provisioning LoadBalancer ClusterCtl.
From stdpp Require Import options.

Section cluster_up.
Context {range : MapRange} `{!CapiUtil}.
Context {K : Type} (kube : ∀ X, CtrlE X → K → K * X) (c : ClientRef).

Abbreviation world := (with_fake kube).

(** A management cluster that answers: the cluster with its finalizer and its
    owner are there, nothing is paused, the credentials the cluster names are
    available, the keys of the load balancer exist or can be made, the machines
    of the owner can be listed, the load balancer at an address takes the updates
    sent there ([pushed]) and a patch is stored. *)
Record cluster_obliging (ns name : string) (stored : K → VerdaCluster) (pushed : K → string → list string)
    (cluster : Cluster) (machines : list VerdaMachine) (owner : ObjectMeta → option Machine) : Prop := {
  co_get k : kube _ (GetVerdaCluster ns name) k = (k, Ok (stored k));
  co_finalizer k : kube _ (EnsureFinalizer (VC_Meta (stored k)) ClusterFinalizer) k = (k, Ok false);
  co_owner k : kube _ (GetOwnerCluster (VC_Meta (stored k))) k = (k, Ok (Some cluster));
  co_paused k : kube _ (EnsurePausedCondition cluster (VC_Meta (stored k)) (GetConditions (stored k))) k =
    (k, Ok (false, false, GetConditions (stored k)));
  co_helper k : kube _ (NewPatchHelper (VC_Meta (stored k))) k = (k, Ok tt);
  co_client k : kube _ (ClientFor (mkIdentity (vc_namespace (stored k)) (IdentitySecretName (stored k)))) k = (k, Ok c);
  co_secret n s k : (kube _ (GetSecret n s) k).1 = k ∧
    match (kube _ (GetSecret n s) k).2 with
    | Ok secret => ∃ keys, keysFromSecret secret = Ok keys
    | Err err => IsNotFound err = true
    end;
  co_generate k : ∃ keys, kube _ GenerateKeys k = (k, Ok keys);
  co_create s k : (kube _ (CreateSecret s) k).2 = Ok tt ∧ stored (kube _ (CreateSecret s) k).1 = stored k;
  co_list k : kube _ (ListVerdaMachines (cluster_namespace cluster) (cluster_name cluster)) k = (k, Ok machines);
  co_machine m k : kube _ (GetOwnerMachine m) k = (k, Ok (owner m));
  co_update a keys b k : (kube _ (UpdateBackends a keys b) k).2 = Ok tt ∧
    stored (kube _ (UpdateBackends a keys b) k).1 = stored k ∧ pushed (kube _ (UpdateBackends a keys b) k).1 a = b;
  co_patch vc k : (kube _ (PatchVerdaCluster vc) k).2 = Ok tt ∧ stored (kube _ (PatchVerdaCluster vc) k).1 = vc ∧
    pushed (kube _ (PatchVerdaCluster vc) k).1 = pushed k
}.

(** A cluster with a control plane load balancer and no other, none of which is
    on record; the account has no instance under its tag. *)
Record lb_launchable (vc : VerdaCluster) (f : Fake) : Prop := {
  ll_deleting : deleting (VC_Meta vc) = false;
  ll_enabled : LoadBalancerEnabled vc = true;
  ll_service : ServiceLoadBalancerEnabled vc = false;
  ll_service_id : LBStatus_InstanceID (CStatus_ServiceLoadBalancer (VC_Status vc)) = "";
  ll_service_address : LBStatus_Address (CStatus_ServiceLoadBalancer (VC_Status vc)) = "";
  ll_backends : LBStatus_Backends (CStatus_LoadBalancer (VC_Status vc)) = [];
  ll_id : LBStatus_InstanceID (CStatus_LoadBalancer (VC_Status vc)) = "";
  ll_none id i : Fake_Instances f !! id = Some i → map_get (Instance_Tags i) TagLoadBalancer ≠ clusterTagValue vc;
  ll_hostname : fake_conflict (loadBalancerHostname vc) f = None
}.

Section pass.
Context (ns name : string) (stored : K → VerdaCluster) (pushed : K → string → list string) (cluster : Cluster).
Context (machines : list VerdaMachine) (owner : ObjectMeta → option Machine).
Context (Hob : cluster_obliging ns name stored pushed cluster machines owner).

(** The external addresses of the control plane machines that stay, sorted. *)
Definition is_cp (vm : VerdaMachine) : bool :=
  bool_decide (is_Some (Meta_Labels (VM_Meta vm) !! MachineControlPlaneLabel)) ||
  match owner (VM_Meta vm) with Some m => IsControlPlaneMachine m | None => false end.
Definition cp_addresses : list string :=
  Sort_strings (flat_map (λ vm, option_list (externalAddress (MStatus_Addresses (VM_Status vm))))
    (List.filter (λ vm, negb (deleting (VM_Meta vm)) && is_cp vm) machines)).

Lemma ensureKeys_wr n vc f k Q :
  (∀ keys k', stored k' = stored k → Q (f, k') vc (Ok keys)) → wr world (ensureKeys cluster n) vc (f, k) Q.
Proof using Hob.
  intros HQ. unfold ensureKeys, lift. wr_steps. cbn.
  destruct (co_secret _ _ _ _ _ _ _ Hob (vc_namespace vc) n k) as [Hk Hs].
  destruct (kube _ (GetSecret _ _) k) as [k' [secret|err]]; cbn in *; subst k'.
  - destruct Hs as [keys ->]. wr_step. by apply HQ.
  - rewrite Hs. cbn. wr_steps. cbn. destruct (co_generate _ _ _ _ _ _ _ Hob k) as [keys Hg]. rewrite Hg. cbn.
    wr_steps. cbn. match goal with |- context [CreateSecret ?s] =>
      destruct (co_create _ _ _ _ _ _ _ Hob s k) as [Hr Hst]; destruct (kube _ (CreateSecret s) k) as [k' x] end.
    cbn in *. subst x. wr_steps. by apply HQ.
Qed.

Lemma collectAddresses_wr vms vc s Q :
  Q s vc (Ok (flat_map (λ vm, option_list (externalAddress (MStatus_Addresses (VM_Status vm))))
    (List.filter (λ vm, negb (deleting (VM_Meta vm)) && is_cp vm) vms))) →
  wr world (collectAddresses vms) vc s Q.
Proof using Hob.
  revert Q. induction vms as [|vm vms IH]; intros Q HQ; cbn [collectAddresses]; [by wr_step|].
  cbn in HQ. destruct (deleting (VM_Meta vm)); cbn in HQ; [by apply IH|]. unfold isControlPlane, is_cp in *.
  wr_step. case_bool_decide; cbn in HQ.
  - wr_step. cbn [negb]. wr_step. apply IH. by wr_step.
  - wr_steps. destruct s as [f k]. cbn. rewrite (co_machine _ _ _ _ _ _ _ Hob). cbn. wr_steps.
    destruct (owner (VM_Meta vm)) as [m|]; cbn in *; [|by apply IH].
    destruct (IsControlPlaneMachine m); cbn in *; [|by apply IH]. wr_step. apply IH. by wr_step.
Qed.

(** What [trackLoadBalancer] keeps. *)
Definition same_cluster (vc vc' : VerdaCluster) : Prop :=
  VC_Meta vc' = VC_Meta vc ∧
  CSpec_ControlPlaneLoadBalancer (VC_Spec vc') = CSpec_ControlPlaneLoadBalancer (VC_Spec vc) ∧
  CSpec_ServiceLoadBalancer (VC_Spec vc') = CSpec_ServiceLoadBalancer (VC_Spec vc) ∧
  CSpec_Location (VC_Spec vc') = CSpec_Location (VC_Spec vc) ∧
  CStatus_ServiceLoadBalancer (VC_Status vc') = CStatus_ServiceLoadBalancer (VC_Status vc).

(** The load balancer is recorded and still starts. *)
Lemma track_provisioning_wr keys inst vc s Q :
  Instance_Status inst = "provisioning" →
  (∀ vc', same_cluster vc vc' → CStatus_LoadBalancer (VC_Status vc') = recordLB inst (CStatus_LoadBalancer (VC_Status vc)) →
     Q s vc' (Ok (mkResult lbPollInterval))) →
  wr world (trackLoadBalancer cluster keys inst) vc s Q.
Proof.
  intros Hst HQ. unfold trackLoadBalancer, modifyLB, setLBNotReady, setCondition. wr_steps.
  unfold instanceGone. rewrite Hst. cbn. wr_steps. cbn. wr_steps. by apply HQ.
Qed.

(** What the cluster says once its load balancer runs. *)
Record endpoint_at (inst : Instance) (vc vc' : VerdaCluster) : Prop := {
  ea_endpoint : CSpec_ControlPlaneEndpoint (VC_Spec vc') = mkAPIEndpoint (Instance_IP inst) Port;
  ea_provisioned : CStatus_Provisioned (VC_Status vc') = Some true;
  ea_id : LBStatus_InstanceID (CStatus_LoadBalancer (VC_Status vc')) = Instance_ID inst;
  ea_address : LBStatus_Address (CStatus_LoadBalancer (VC_Status vc')) = Instance_IP inst;
  ea_backends : LBStatus_Backends (CStatus_LoadBalancer (VC_Status vc')) = cp_addresses;
  ea_domains : CStatus_FailureDomains (VC_Status vc') = [mkFailureDomain (CSpec_Location (VC_Spec vc)) (Some true)];
  ea_same : same_cluster vc vc';
  ea_endpoint_ready : conditions_IsTrue (GetConditions vc') ControlPlaneEndpointReadyCondition = true;
  ea_lb_ready : conditions_IsTrue (GetConditions vc') LoadBalancerReadyCondition = true
}.

Lemma recordLB_id inst s : LBStatus_InstanceID (recordLB inst s) = Instance_ID inst.
Proof. unfold recordLB. by case_bool_decide. Qed.

Lemma recordLB_backends inst s : LBStatus_Backends (recordLB inst s) = LBStatus_Backends s.
Proof. unfold recordLB. by case_bool_decide. Qed.

Lemma track_running_wr `{!CapiUtilLaws} keys inst vc f k Q :
  Instance_Status inst = StatusRunning → Instance_IP inst ≠ "" →
  (∀ vc' k', endpoint_at inst vc vc' →
     (cp_addresses ≠ LBStatus_Backends (CStatus_LoadBalancer (VC_Status vc)) → pushed k' (Instance_IP inst) = cp_addresses) →
     Q (f, k') vc' (Ok (mkResult lbResyncInterval))) →
  wr world (trackLoadBalancer cluster keys inst) vc (f, k) Q.
Proof using Hob.
  intros Hst Hip HQ. unfold trackLoadBalancer, modifyLB. wr_steps.
  rewrite Hst, !bool_decide_eq_true_2 by done. cbn [andb].
  unfold updateBackends, modifyLB, setEndpointReady, setFailureDomains, setCondition, controlPlaneAddresses. wr_steps.
  cbn [with_client]. rewrite (co_list _ _ _ _ _ _ _ Hob). cbn [fst snd]. wr_steps. apply collectAddresses_wr.
  cbn beta iota. wr_steps. change (Sort_strings _) with cp_addresses.
  case_bool_decide as Hb.
  - wr_steps. cbn [with_client]. match goal with |- context [UpdateBackends ?a ?ks ?b] =>
      destruct (co_update _ _ _ _ _ _ _ Hob a ks b k) as (Hr & Hs & Hpu); destruct (kube _ (UpdateBackends a ks b) k) as [k' x] end.
    cbn [fst snd] in *. subst x. unfold modifyLB. wr_steps. apply HQ; [|by intros _].
    split; try (by cbn); try (by repeat split); cbn; first [apply recordLB_id|by rewrite !IsTrue_Set].
  - wr_steps. cbn in Hb. apply HQ; [|rewrite recordLB_backends in Hb; by intros []].
    split; try (by cbn); try (by repeat split); cbn; first [apply recordLB_id|by rewrite !IsTrue_Set].
Qed.

(** A whole pass is its handler, followed by the patch. *)
Lemma cluster_reconcile_wr f k (Q : Fake * K → result Result → Prop) :
  wr world (if deleting (VC_Meta (stored k)) then reconcileDelete c else reconcileNormal c cluster)
    (stored k) (f, k) (λ s' vc' r, ∀ k',
    stored k' = SetConditions (conditions_Set (clusterReadyCondition vc') (GetConditions vc')) vc' →
    pushed k' = pushed s'.2 → Q (s'.1, k') r) →
  Q (run world (Reconcile ns name) (f, k)).1 (run world (Reconcile ns name) (f, k)).2.
Proof using Hob.
  intros Hbody.
  assert (wr world reconcileObject (stored k) (f, k) (λ s' _ r, Q s' r)) as Hr.
  { unfold reconcileObject. wr_steps. cbn. rewrite (co_finalizer _ _ _ _ _ _ _ Hob). cbn.
    wr_steps. cbn. rewrite (co_owner _ _ _ _ _ _ _ Hob). cbn.
    wr_steps. cbn. rewrite (co_paused _ _ _ _ _ _ _ Hob). cbn.
    unfold reconcilePatched. wr_steps. cbn. rewrite (co_helper _ _ _ _ _ _ _ Hob). cbn.
    replace (vc_set_Conditions _ (stored k)) with (stored k) by (by destruct (stored k) as [? ? []]).
    apply wr_deferred. wr_steps. cbn [with_client]. rewrite (co_client _ _ _ _ _ _ _ Hob). cbn.
    eapply wr_mono; [exact Hbody|].
    intros [f1 k1] vc1 r Hpost. unfold patchVerdaCluster, setCondition. wr_steps. cbn.
    match goal with |- context [PatchVerdaCluster ?v] =>
      destruct (co_patch _ _ _ _ _ _ _ Hob v k1) as (Hp & Hs & Hpu); destruct (kube _ (PatchVerdaCluster v) k1) as [k2 x] end.
    cbn in *. subst x. specialize (Hpost k2 Hs Hpu). by destruct r. }
  unfold Reconcile, get_then. rewrite run_bind. cbn [run trigger with_client].
  rewrite (co_get _ _ _ _ _ _ _ Hob). cbn beta iota. rewrite run_bind. unfold wr in Hr.
  by destruct (run world (reconcileObject (stored k)) (f, k)) as [s' [o' r]].
Qed.

(** With no other load balancer, the handler is that of the endpoint. *)
Lemma endpoint_only_wr vc s Q :
  LoadBalancerEnabled vc = true → ServiceLoadBalancerEnabled vc = false →
  LBStatus_InstanceID (CStatus_ServiceLoadBalancer (VC_Status vc)) = "" →
  LBStatus_Address (CStatus_ServiceLoadBalancer (VC_Status vc)) = "" →
  wr world (reconcileLoadBalancer c cluster) vc s (λ s' vc' r,
    ∃ res, r = Ok res ∧ same_cluster vc vc' ∧
      Q s' (SetConditions (conditions_Delete ServiceLoadBalancerReadyCondition (GetConditions vc')) vc') (Ok res)) →
  wr world (reconcileNormal c cluster) vc s Q.
Proof.
  intros Hlb Hsv Hid Had Hbody. unfold reconcileNormal, reconcileEndpoint. wr_steps. rewrite Hlb.
  eapply wr_mono; [exact Hbody|]. intros s' vc' r (res & -> & (_ & _ & Hsp & _ & Hst) & HQ). wr_steps.
  unfold ServiceLoadBalancerEnabled in *. rewrite Hsp, Hsv. cbn [negb]. rewrite Hst, Hid, Had. cbn.
  unfold deleteCondition. by wr_steps.
Qed.

(** No load balancer is found, and one is created. *)
Lemma create_lb_wr vc f k :
  lb_launchable vc f →
  wr world (reconcileLoadBalancer c cluster) vc (f, k) (λ s' vc' r,
    r = Ok (mkResult lbPollInterval) ∧ same_cluster vc vc' ∧
    ∃ inst, Fake_Instances s'.1 !! Instance_ID inst = Some inst ∧ Instance_ID inst ≠ "" ∧
      Instance_Hostname inst = loadBalancerHostname vc ∧
      LBStatus_InstanceID (CStatus_LoadBalancer (VC_Status vc')) = Instance_ID inst ∧
      LBStatus_Backends (CStatus_LoadBalancer (VC_Status vc')) = []).
Proof using Hob.
  intros Hll. unfold reconcileLoadBalancer. wr_steps. apply ensureKeys_wr. intros keys k' Hk'. cbn beta iota.
  unfold findLoadBalancer, verda. wr_steps. rewrite (ll_id _ _ Hll), bool_decide_eq_false_2 by naive_solver.
  wr_steps.
  destruct (find_live (λ inst, bool_decide (map_get (Instance_Tags inst) TagLoadBalancer = clusterTagValue vc))
    (map_range (Fake_Instances f)).*2 None) as [i|] eqn:Hf.
  { exfalso. destruct (fake_find_sound (λ inst, bool_decide (map_get (Instance_Tags inst) TagLoadBalancer =
      clusterTagValue vc)) f i) as (Ht & id & Hi); [unfold fake_find; by rewrite Hf|].
    apply bool_decide_eq_true in Ht. by apply (ll_none _ _ Hll id i). }
  cbn [with_client fake]. unfold fake_FindInstanceByTag, fake_find. rewrite Hf. cbn [of_option fst snd].
  change (errors_Is ErrNotFound ErrNotFound) with true. cbn iota. wr_steps.
  unfold createLoadBalancer, verda. wr_steps. cbn [with_client fake].
  match goal with |- context [fake_CreateInstance ?sp f] =>
    destruct (create_succeeds sp f (ll_hostname _ _ Hll)) as (f' & inst & Hc & Hhn) end.
  rewrite Hc. cbn [fst snd]. destruct (fake_CreateInstance_ok _ _ _ _ Hc) as (Hid & _ & Hst & Hins & _).
  apply track_provisioning_wr; [done|]. intros vc' Hsame Hrec. split_and!; [done..|]. exists inst. cbn [fst].
  rewrite Hins, lookup_insert_eq. split_and!; try done; [by rewrite Hid|..]; rewrite Hrec; [by rewrite recordLB_id|].
  rewrite recordLB_backends. apply Hll.
Qed.

(** The recorded load balancer is found running. *)
Lemma running_lb_wr `{!CapiUtilLaws} vc f k inst :
  LBStatus_InstanceID (CStatus_LoadBalancer (VC_Status vc)) ≠ "" →
  Fake_Instances f !! LBStatus_InstanceID (CStatus_LoadBalancer (VC_Status vc)) = Some inst →
  Instance_Status inst = StatusRunning → Instance_IP inst ≠ "" →
  wr world (reconcileLoadBalancer c cluster) vc (f, k) (λ s' vc' r,
    r = Ok (mkResult lbResyncInterval) ∧ endpoint_at inst vc vc' ∧
    (cp_addresses ≠ LBStatus_Backends (CStatus_LoadBalancer (VC_Status vc)) →
       pushed s'.2 (Instance_IP inst) = cp_addresses)).
Proof using Hob.
  intros Hid Hi Hrun Hip. unfold reconcileLoadBalancer. wr_steps. apply ensureKeys_wr. intros keys k' _. cbn beta iota.
  unfold findLoadBalancer, verda. wr_steps. rewrite bool_decide_eq_true_2 by done. wr_steps.
  cbn [with_client fake]. unfold fake_GetInstance. rewrite Hi. cbn [of_option fst snd]. wr_steps.
  apply track_running_wr; [done..|]. by intros vc' k2 He Hpu.
Qed.

(** The summary of a cluster with its endpoint. *)
Lemma endpoint_ready `{!CapiUtilLaws} inst vc vc' conds :
  deleting (VC_Meta vc) = false → endpoint_at inst vc vc' →
  (∀ t, t ≠ ServiceLoadBalancerReadyCondition → conditions_IsTrue conds t = conditions_IsTrue (GetConditions vc') t) →
  let vc1 := SetConditions conds vc' in
  let vc2 := SetConditions (conditions_Set (clusterReadyCondition vc1) conds) vc1 in
  endpoint_at inst vc vc2 ∧ conditions_IsTrue (GetConditions vc2) ReadyCondition = true.
Proof.
  intros Hdel [H1 H2 H3 H4 H5 H6 H7 H8 H9] Hc vc1 vc2.
  assert (clusterReadyCondition vc1 = mkCondition ReadyCondition ConditionTrue ReadyReason "") as Hr.
  { unfold clusterReadyCondition. cbn -[deleting LoadBalancerEnabled]. rewrite (proj1 H7), Hdel, !Hc, H8, H9 by done.
    cbn. by rewrite andb_false_r. }
  subst vc2. rewrite Hr. split; [split; try done|]; cbn; rewrite IsTrue_Set; cbn; rewrite ?Hc by done; done.
Qed.

(** A cluster whose load balancer was created. *)
Lemma launch_lb_pass f k :
  lb_launchable (stored k) f →
  let s' := (run world (Reconcile ns name) (f, k)).1 in
  ∃ inst, Fake_Instances s'.1 !! Instance_ID inst = Some inst ∧ Instance_ID inst ≠ "" ∧
    Instance_Hostname inst = loadBalancerHostname (stored k) ∧
    LBStatus_InstanceID (CStatus_LoadBalancer (VC_Status (stored s'.2))) = Instance_ID inst ∧
    LBStatus_Backends (CStatus_LoadBalancer (VC_Status (stored s'.2))) = [] ∧
    same_cluster (stored k) (stored s'.2).
Proof using Hob.
  intros Hll. apply (cluster_reconcile_wr f k (λ s' _, ∃ inst, Fake_Instances s'.1 !! Instance_ID inst = Some inst ∧
    Instance_ID inst ≠ "" ∧ Instance_Hostname inst = loadBalancerHostname (stored k) ∧
    LBStatus_InstanceID (CStatus_LoadBalancer (VC_Status (stored s'.2))) = Instance_ID inst ∧
    LBStatus_Backends (CStatus_LoadBalancer (VC_Status (stored s'.2))) = [] ∧
    same_cluster (stored k) (stored s'.2))).
  rewrite (ll_deleting _ _ Hll). apply endpoint_only_wr; [apply Hll..|]. eapply wr_mono; [by apply create_lb_wr|].
  intros s' vc' r (-> & Hsame & inst & Hi & Hne & Hhn & Hid & Hbk). eexists. split_and!; [done..|].
  intros k' Hk' _. exists inst. cbn [fst snd]. rewrite Hk'. by split_and!.
Qed.

(** (C9) A cluster gets its endpoint, over the in-memory cloud: for a cluster
    that asks for a control plane load balancer (and no other) and has none,
    against a management cluster that answers, one pass of [Reconcile] creates an
    instance for it and records it, making the SSH keys if there are none; and
    once the instance runs with an address, the next pass publishes it: the
    endpoint is that address, the backends recorded, and pushed to that address
    if there are any, are the external addresses of the control plane machines
    of the owning Cluster that stay, the failure domain is the location, and the
    cluster is reported provisioned and ready. *)
Theorem cluster_endpoint_completes `{!CapiUtilLaws} f k :
  lb_launchable (stored k) f →
  ∃ inst, let s1 := (run world (Reconcile ns name) (f, k)).1 in
    Fake_Instances s1.1 !! Instance_ID inst = Some inst ∧
    Instance_Hostname inst = loadBalancerHostname (stored k) ∧
    LBStatus_InstanceID (CStatus_LoadBalancer (VC_Status (stored s1.2))) = Instance_ID inst ∧
    ∀ ip, ip ≠ "" →
      let s2 := (run world (Reconcile ns name) (fake_SetStatus (Instance_ID inst) StatusRunning ip s1.1, s1.2)).1 in
      endpoint_at (inst_with_IP ip (inst_with_status StatusRunning inst)) (stored k) (stored s2.2) ∧
      (cp_addresses ≠ [] → pushed s2.2 ip = cp_addresses) ∧
      conditions_IsTrue (GetConditions (stored s2.2)) ReadyCondition = true.
Proof using Hob.
  intros Hll. destruct (launch_lb_pass f k Hll) as (inst & Hi & Hne & Hhn & Hid & Hbk & Hsame).
  exists inst. destruct (run world (Reconcile ns name) (f, k)).1 as [f1 k1]. cbn [fst snd] in *.
  split_and!; [done..|]. intros ip Hip. pose proof Hsame as (Hm & Hlb & Hsv & Hloc & Hst).
  assert (deleting (VC_Meta (stored k1)) = false) as Hdel by (rewrite Hm; apply Hll).
  apply (cluster_reconcile_wr _ k1 (λ s _,
    endpoint_at (inst_with_IP ip (inst_with_status StatusRunning inst)) (stored k) (stored s.2) ∧
    (cp_addresses ≠ [] → pushed s.2 ip = cp_addresses) ∧
    conditions_IsTrue (GetConditions (stored s.2)) ReadyCondition = true)).
  rewrite Hdel. apply endpoint_only_wr.
  - unfold LoadBalancerEnabled. rewrite Hlb. apply Hll.
  - unfold ServiceLoadBalancerEnabled. rewrite Hsv. apply Hll.
  - rewrite Hst. apply Hll.
  - rewrite Hst. apply Hll.
  - eapply wr_mono; [eapply running_lb_wr|].
    + by rewrite Hid.
    + rewrite Hid. cbn. by rewrite lookup_alter_eq, Hi.
    + done.
    + done.
    + intros s' vc' r (-> & He & Hpu). eexists. split_and!; [done|apply He|]. intros k' Hk' Hk2. cbn [snd].
      rewrite Hk', Hk2. rewrite Hbk in Hpu.
      match goal with |- ?A ∧ _ ∧ ?C => cut (A ∧ C); [by intros [? ?]|] end.
      apply endpoint_ready; [apply Hll| |by intros t Ht; cbn; rewrite IsTrue_Delete, decide_False].
      destruct He as [H1 H2 H3 H4 H5 H6 (E1 & E2 & E3 & E4 & E5) H8 H9]. split; try done; [by rewrite <-Hloc|].
      split_and!; congruence.
Qed.
End pass.
End cluster_up.

(** ** Example *)

Module ClusterUpExamples.
Import ClusterExamples.
#[local] Existing Instance CapiExamples.capi.
#[local] Existing Instance CapiExamples.capi_laws.
#[local] Existing Instance FakeExamples.range_in_key_order.

Definition owner0 (m : ObjectMeta) : option Machine := Some WorldExamples.machine0.

(** [mgmt] with a load balancer that remembers what was pushed to it. *)
Record Site := mkSite { Site_mgmt : Mgmt; Site_pushed : gmap string (list string) }.

Definition site (X : Type) (e : CtrlE X) (k : Site) : Site * X :=
  match e in CtrlE X return Site * X with
  | UpdateBackends a _ b => (mkSite (Site_mgmt k) (<[a := b]> (Site_pushed k)), Ok tt)
  | ListVerdaMachines ns name =>
      (k, Ok (if bool_decide (ns = "default" ∧ name = "prod") then [cp0] else []))
  | e' => let '(m, x) := mgmt _ e' (Site_mgmt k) in (mkSite m (Site_pushed k), x)
  end.
Definition site_vc (k : Site) : VerdaCluster := Mgmt_vc (Site_mgmt k).
Definition site_pushed (k : Site) (a : string) : list string := default [] (Site_pushed k !! a).
Definition k0 : Site := mkSite (mkMgmt vc_new 1000000000) ∅.

Lemma site_obliging : cluster_obliging site 0 "default" "prod" site_vc site_pushed cluster0 [cp0] owner0.
Proof.
  split; try (by intros [[] ?]); try (by intros ? [[] ?]).
  - intros n s [[vc now] p]. split; [done|]. by exists keys0.
  - intros [[vc now] p]. by eexists.
  - intros a keys b [[vc now] p]. split_and!; [done..|]. unfold site_pushed. cbn. by rewrite lookup_insert_eq.
Qed.

Lemma new_lb_launchable : lb_launchable (site_vc k0) NewFake.
Proof. by split. Qed.

Example cp0_behind : cp_addresses [cp0] owner0 = ["203.0.113.20"].
Proof. vm_compute. reflexivity. Qed.

Lemma cluster_endpoint_completes_witness :
  ∃ inst, let s1 := (run (with_fake site) (Reconcile "default" "prod") (NewFake, k0)).1 in
    Fake_Instances s1.1 !! Instance_ID inst = Some inst ∧
    Instance_Hostname inst = loadBalancerHostname vc_new ∧
    LBStatus_InstanceID (CStatus_LoadBalancer (VC_Status (site_vc s1.2))) = Instance_ID inst ∧
    ∀ ip, ip ≠ "" →
      let s2 := (run (with_fake site) (Reconcile "default" "prod")
                   (fake_SetStatus (Instance_ID inst) StatusRunning ip s1.1, s1.2)).1 in
      endpoint_at [cp0] owner0 (inst_with_IP ip (inst_with_status StatusRunning inst)) vc_new (site_vc s2.2) ∧
      (cp_addresses [cp0] owner0 ≠ [] → site_pushed s2.2 ip = cp_addresses [cp0] owner0) ∧
      conditions_IsTrue (GetConditions (site_vc s2.2)) ReadyCondition = true.
Proof.
  exact (cluster_endpoint_completes site 0 "default" "prod" site_vc site_pushed cluster0 [cp0] owner0 site_obliging
    NewFake k0 new_lb_launchable).
Defined.
End ClusterUpExamples.
