(* ===== verification/ClusterDown.v ===== *)
(** * The deletion of a cluster comes to an end

    The counterpart of [Deletion.v] for the cluster controller: first the service
    load balancer goes, then the one of the control plane, then the finalizer. *)

From S2P Require Import Prelude GoStd GoTime Effects Api Cloud Fake Ctrl Machine Pass World ClusterCtl ClusterUp.
From stdpp Require Import options.

Local Open Scope go_scope.

Section cluster_down.
Context {range : MapRange} `{!CapiUtil}.
Context {K : Type} (kube : ∀ X, CtrlE X → K → K * X) (c : ClientRef).

Abbreviation world := (with_fake kube).

(** The instances on record. *)
Definition service_id (vc : VerdaCluster) : string := LBStatus_InstanceID (CStatus_ServiceLoadBalancer (VC_Status vc)).
Definition lb_id (vc : VerdaCluster) : string := LBStatus_InstanceID (CStatus_LoadBalancer (VC_Status vc)).

(** The instance on record exists. *)
Definition live_at (f : Fake) (id : string) : bool :=
  bool_decide (id ≠ "") && match Fake_Instances f !! id with Some i => negb (instanceGone i) | None => false end.

(** The startup script of a load balancer on record, and that no script is left
    of it: under that ID, or under the hostname if none is on record (for the
    control plane only if its load balancer is enabled). *)
Definition script_id (k : lbKind) (vc : VerdaCluster) : string := LBStatus_StartupScriptID (lb_status k vc).

Definition script_gone (k : lbKind) (vc : VerdaCluster) (f : Fake) : Prop :=
  if decide (script_id k vc = "")
  then k = ServiceLB ∨ LoadBalancerEnabled vc = true → ∀ sid, Fake_ScriptNames f !! sid ≠ Some (lb_hostname k vc)
  else Fake_Scripts f !! script_id k vc = None.

(** No script is added. *)
Definition fewer_scripts (f f' : Fake) : Prop :=
  Fake_Scripts f' ⊆ Fake_Scripts f ∧ Fake_ScriptNames f' ⊆ Fake_ScriptNames f.

#[local] Instance fewer_scripts_preorder : PreOrder fewer_scripts.
Proof. split; [by split|]. intros f1 f2 f3 [? ?] [? ?]. split; by etrans. Qed.

Lemma script_gone_fewer k vc f f' : fewer_scripts f f' → script_gone k vc f → script_gone k vc f'.
Proof.
  intros [Hs Hn] Hg. unfold script_gone in *. case_decide.
  - intros Hw sid Hsid. eapply Hg; [done|]. by eapply lookup_weaken.
  - destruct (Fake_Scripts f' !! _) eqn:Hl; [|done]. by eapply lookup_weaken in Hl as Hl'; [|exact Hs]; rewrite Hg in Hl'.
Qed.

Lemma foldr_delete_subseteq {A} (ids : list string) (m : gmap string A) : foldr delete m ids ⊆ m.
Proof. induction ids as [|id ids IH]; cbn; [done|]. etrans; [apply delete_subseteq|done]. Qed.

Lemma foldr_delete_none {A} (ids : list string) (m : gmap string A) id :
  id ∈ ids → foldr delete m ids !! id = None.
Proof.
  induction ids as [|x ids IH]; cbn; [by intros ?%not_elem_of_nil|]. intros [->|Hin]%elem_of_cons.
  - apply lookup_delete_eq.
  - apply lookup_delete_None. right. by apply IH.
Qed.

(** What [Fake] does with scripts. *)
Lemma fake_script_deleted id f :
  fewer_scripts f (fake_DeleteStartupScript id f).1 ∧ Fake_Scripts (fake_DeleteStartupScript id f).1 !! id = None.
Proof. split; [split; apply (foldr_delete_subseteq [id])|]. apply (foldr_delete_none [id]). by left. Qed.

Lemma fake_scripts_deleted name f :
  fewer_scripts f (fake_DeleteStartupScriptByName name f).1 ∧
  ∀ sid, Fake_ScriptNames (fake_DeleteStartupScriptByName name f).1 !! sid ≠ Some name.
Proof.
  split; [split; apply foldr_delete_subseteq|]. intros sid Hs. cbn in Hs.
  assert (Fake_ScriptNames f !! sid = Some name) as Hn by (eapply lookup_weaken; [exact Hs|apply foldr_delete_subseteq]).
  rewrite foldr_delete_none in Hs; [done|]. apply list_elem_of_In, in_map_iff. exists (sid, name). split; [done|].
  apply filter_In. split; [|by apply bool_decide_eq_true]. apply list_elem_of_In.
  rewrite map_range_perm. by apply elem_of_map_to_list.
Qed.

(** No existing instance carries the tag. *)
Definition none_live (key value : string) (f : Fake) : Prop :=
  ∀ id i, Fake_Instances f !! id = Some i → map_get (Instance_Tags i) key = value → instanceGone i = true.

(** No delete was requested yet. *)
Definition unasked (suffix : string) (vc : VerdaCluster) : Prop :=
  Meta_Annotations (VC_Meta vc) !! delete_key suffix = None.

(** A cluster that is being deleted: a load balancer that exists is on record,
    carries the tag of the provider and is not in the transient state [Fake]
    never leaves. *)
Record down_ok (vc : VerdaCluster) (f : Fake) : Prop := {
  dn_deleting : deleting (VC_Meta vc) = true;
  dn_ids id i : Fake_Instances f !! id = Some i → Instance_ID i = id;
  dn_service : service_id vc = "" → none_live TagServiceLoadBalancer (clusterTagValue vc) f;
  dn_lb : lb_id vc = "" → none_live TagLoadBalancer (clusterTagValue vc) f;
  dn_managed id i : id = service_id vc ∨ id = lb_id vc → Fake_Instances f !! id = Some i →
    instanceGone i = false → managed (Instance_Tags i) = true ∧ Instance_Status i ≠ StatusDeleting;
  dn_service_due : live_at f (service_id vc) = true → unasked "servicelb" vc;
  dn_lb_due : live_at f (lb_id vc) = true → unasked "lb" vc
}.

(** What a pass that only looks or asks keeps. *)
Definition same_down (vc vc' : VerdaCluster) : Prop :=
  deleting (VC_Meta vc') = deleting (VC_Meta vc) ∧ clusterTagValue vc' = clusterTagValue vc ∧
  service_id vc' = service_id vc ∧ lb_id vc' = lb_id vc ∧
  vc_name vc' = vc_name vc ∧ LoadBalancerEnabled vc' = LoadBalancerEnabled vc ∧
  script_id ControlPlaneLB vc' = script_id ControlPlaneLB vc.

(** ** Finding the instances *)

Lemma find_none_live_wr key value f k vc (Q : Fake * K → VerdaCluster → result Instance → Prop) :
  none_live key value f →
  Q (f, k) vc (Err ErrNotFound) →
  (∀ i, instanceGone i = true → Q (f, k) vc (Ok i)) →
  wr world (verda c (FindInstanceByTag key value)) vc (f, k) Q.
Proof.
  intros Hnone Hnf Hgone. unfold verda. wr_step. cbn [with_client fake]. unfold fake_FindInstanceByTag, fake_find.
  destruct (find_live _ _ _) as [i|] eqn:Hf; cbn [of_option fst snd]; [|done]. apply Hgone.
  destruct (fake_find_sound (λ inst, bool_decide (map_get (Instance_Tags inst) key = value)) f i) as (Ht & id & Hi);
    [unfold fake_find; by rewrite Hf|]. apply bool_decide_eq_true in Ht. by eapply Hnone.
Qed.

Lemma find_service_wr vc f k Q :
  (service_id vc = "" → none_live TagServiceLoadBalancer (clusterTagValue vc) f) →
  (service_id vc = "" → Q (f, k) vc (Ok None)) →
  (service_id vc ≠ "" → Q (f, k) vc (Ok (Some (default (missingInstance (service_id vc)) (Fake_Instances f !! service_id vc))))) →
  wr world (findInstanceByStatusOrTag c (service_id vc) TagServiceLoadBalancer (clusterTagValue vc)) vc (f, k) Q.
Proof.
  intros Hnone H0 H1. unfold findInstanceByStatusOrTag. case_bool_decide as Hid.
  - specialize (H1 Hid). wr_step. unfold verda. wr_step. cbn [with_client fake]. unfold fake_GetInstance.
    destruct (Fake_Instances f !! _); cbn [of_option fst snd]; [by wr_step|].
    change (errors_Is ErrNotFound ErrNotFound) with true. cbn [negb]. by wr_step.
  - wr_step. apply find_none_live_wr; [by apply Hnone|..].
    + change (errors_Is ErrNotFound ErrNotFound) with true. cbn iota. wr_step. by apply H0.
    + intros i ->. wr_step. by apply H0.
Qed.

Lemma find_lb_wr vc f k Q :
  (lb_id vc = "" → none_live TagLoadBalancer (clusterTagValue vc) f) →
  (lb_id vc = "" → Q (f, k) vc (Ok None)) →
  (∀ i, lb_id vc = "" → instanceGone i = true → Q (f, k) vc (Ok (Some i))) →
  (lb_id vc ≠ "" → Q (f, k) vc (Ok (Some (default (missingInstance (lb_id vc)) (Fake_Instances f !! lb_id vc))))) →
  wr world (findLoadBalancer c) vc (f, k) Q.
Proof.
  intros Hnone H0 Hg H1. unfold findLoadBalancer. wr_steps. fold (lb_id vc). case_bool_decide as Hid.
  - specialize (H1 Hid). wr_step. unfold verda. wr_step. cbn [with_client fake]. unfold fake_GetInstance.
    destruct (Fake_Instances f !! _); cbn [of_option fst snd]; [by wr_step|].
    change (errors_Is ErrNotFound ErrNotFound) with true. cbn [negb]. by wr_step.
  - wr_step. apply find_none_live_wr; [by apply Hnone|..].
    + change (errors_Is ErrNotFound ErrNotFound) with true. cbn iota. wr_step. by apply H0.
    + intros i Hi. wr_step. by apply Hg.
Qed.

(** ** Asking for a deletion *)

Lemma requestLBDelete_wr suffix inst report vc f k Q :
  unasked suffix vc → Fake_Instances f !! Instance_ID inst = Some inst → managed (Instance_Tags inst) = true →
  Instance_Status inst ≠ StatusDeleting →
  (∀ vc' k', same_down vc vc' → script_id ServiceLB vc' = script_id ServiceLB vc → (∀ s, s ≠ delete_key suffix → Meta_Annotations (VC_Meta vc') !! s = Meta_Annotations (VC_Meta vc) !! s) →
     wr world report vc' ((fake_DeleteInstance (Instance_ID inst) f).1, k') Q) →
  wr world (requestLBDelete c suffix inst report) vc (f, k) Q.
Proof.
  intros Hun Hi Hm Hd HQ. unfold requestLBDelete, deleteRequestDue. wr_step.
  rewrite bool_decide_eq_true_2 by done. do 2 wr_step.
  unfold Annotations at 1, map_get at 1. cbn [obj_meta VerdaCluster_Object]. unfold unasked in Hun. rewrite Hun.
  cbn [default Cut String.prefix from_option]. do 2 wr_step. cbn [with_client].
  destruct (kube Z Now k) as [k' now]. cbn [fst snd]. wr_steps. unfold verda. wr_steps. cbn [with_client fake].
  unfold fake_DeleteInstance in *. rewrite Hi, Hm in *. cbn [negb fst snd] in *. apply HQ.
  - by repeat split.
  - done.
  - intros s Hs. cbn. by rewrite lookup_insert_ne.
Qed.

(** What the deletion of an instance leaves. *)
Lemma delete_back f i :
  Fake_Instances f !! Instance_ID i = Some i → managed (Instance_Tags i) = true →
  let f' := (fake_DeleteInstance (Instance_ID i) f).1 in
  ∀ id j, Fake_Instances f' !! id = Some j →
    (id = Instance_ID i ∧ instanceGone j = true ∧ Instance_ID j = Instance_ID i) ∨
    (id ≠ Instance_ID i ∧ Fake_Instances f !! id = Some j).
Proof.
  intros Hi Hm f' id j. unfold f', fake_DeleteInstance. rewrite Hi, Hm. cbn. rewrite lookup_alter.
  case_decide as Heq; subst; [|by right]. rewrite Hi. cbn. intros [= <-]. by left.
Qed.

Lemma live_at_delete f i :
  Fake_Instances f !! Instance_ID i = Some i → managed (Instance_Tags i) = true →
  let f' := (fake_DeleteInstance (Instance_ID i) f).1 in
  live_at f' (Instance_ID i) = false ∧ ∀ id, live_at f' id = true → live_at f id = true.
Proof.
  intros Hi Hm f'. pose proof (delete_back f i Hi Hm) as Hb. fold f' in Hb. unfold live_at. split.
  - destruct (Fake_Instances f' !! _) as [j|] eqn:Hj; [|by rewrite andb_false_r].
    destruct (Hb _ _ Hj) as [(_ & -> & _)|[? _]]; [by rewrite andb_false_r|done].
  - intros id. destruct (Fake_Instances f' !! id) as [j|] eqn:Hj; [|by rewrite andb_false_r].
    destruct (Hb _ _ Hj) as [(_ & -> & _)|[_ ->]]; [by rewrite andb_false_r|done].
Qed.

Lemma delete_scripts_kept id f : fewer_scripts f (fake_DeleteInstance id f).1.
Proof. unfold fake_DeleteInstance. repeat case_match; done. Qed.

(** The load balancers that are left to delete. *)
Definition left_to_delete (vc : VerdaCluster) (f : Fake) : nat :=
  Nat.b2n (live_at f (service_id vc)) + Nat.b2n (live_at f (lb_id vc)).

(** Deleting the instance of a role is progress. *)
Lemma down_ok_delete vc vc' f i suffix :
  down_ok vc f → same_down vc vc' →
  (∀ s, s ≠ delete_key suffix → Meta_Annotations (VC_Meta vc') !! s = Meta_Annotations (VC_Meta vc) !! s) →
  Fake_Instances f !! Instance_ID i = Some i → managed (Instance_Tags i) = true →
  (suffix = "servicelb" ∧ Instance_ID i = service_id vc ∨ suffix = "lb" ∧ Instance_ID i = lb_id vc) →
  live_at f (Instance_ID i) = true →
  let f' := (fake_DeleteInstance (Instance_ID i) f).1 in
  down_ok vc' f' ∧ (left_to_delete vc' f' < left_to_delete vc f)%nat.
Proof.
  intros [D1 D2 D3 D4 D5 D6 D7] (S1 & S2 & S3 & S4 & _) Hann Hi Hm Hrole Hlive f'.
  pose proof (delete_back f i Hi Hm) as Hb. destruct (live_at_delete f i Hi Hm) as [Hoff Hon]. fold f' in Hb, Hoff, Hon.
  assert (∀ key value, none_live key value f → none_live key value f') as Hnone.
  { intros key value Hn id j [(_ & ? & _)|[_ Hj]]%Hb Ht; [done|by eapply Hn]. }
  split.
  - split; rewrite ?S1, ?S2, ?S3, ?S4; try done; auto.
    + intros id j [(-> & _ & ?)|[_ Hj]]%Hb; [done|by apply D2].
    + intros id j Hid [(_ & ? & _)|[_ Hj]]%Hb Hg; [congruence|by eapply D5].
    + intros Hl. destruct Hrole as [[-> Hr]|[-> Hr]]; [by rewrite <-Hr, Hoff in Hl|].
      unfold unasked. rewrite Hann by done. by apply D6, Hon.
    + intros Hl. destruct Hrole as [[-> Hr]|[-> Hr]]; [|by rewrite <-Hr, Hoff in Hl].
      unfold unasked. rewrite Hann by done. by apply D7, Hon.
  - unfold left_to_delete. rewrite S3, S4.
    assert (∀ id, (Nat.b2n (live_at f' id) ≤ Nat.b2n (live_at f id))%nat) as Hle.
    { intros id. specialize (Hon id). destruct (live_at f' id), (live_at f id); cbn; lia. }
    destruct Hrole as [[_ Hr]|[_ Hr]]; rewrite <-Hr, Hoff, Hlive; cbn.
    + specialize (Hle (lb_id vc)). lia.
    + specialize (Hle (service_id vc)). lia.
Qed.

(** Instances and identity are as before. *)
Definition quiet (f : Fake) (vc : VerdaCluster) (f' : Fake) (vc' : VerdaCluster) : Prop :=
  Fake_Instances f' = Fake_Instances f ∧ fewer_scripts f f' ∧ same_down vc vc' ∧
  Meta_Annotations (VC_Meta vc') = Meta_Annotations (VC_Meta vc).

Lemma quiet_live f vc f' vc' id : quiet f vc f' vc' → live_at f' id = live_at f id.
Proof. intros (Hi & _). unfold live_at. by rewrite Hi. Qed.

Lemma quiet_down f vc f' vc' : quiet f vc f' vc' → down_ok vc f → down_ok vc' f'.
Proof.
  intros Hq [D1 D2 D3 D4 D5 D6 D7]. pose proof Hq as (Hi & _ & (S1 & S2 & S3 & S4 & _) & Ha).
  split; rewrite ?S1, ?S2, ?S3, ?S4, ?(quiet_live _ _ _ _ _ Hq); unfold unasked, none_live; rewrite ?Hi, ?Ha; done.
Qed.

Lemma deleteServiceLBScript_wr vc f k Q :
  (∀ vc' f', quiet f vc f' vc' → script_gone ServiceLB vc f' → Q (f', k) vc' (Ok false)) →
  wr world (deleteServiceLBScript c) vc (f, k) Q.
Proof.
  intros HQ. unfold deleteServiceLBScript, verda, modifyServiceLB. wr_steps. unfold script_gone, script_id in HQ.
  cbn [lb_status lb_hostname] in HQ. case_bool_decide as Hid.
  - destruct (fake_script_deleted (LBStatus_StartupScriptID (CStatus_ServiceLoadBalancer (VC_Status vc))) f) as [Hf Hg].
    wr_steps. cbn [with_client fake fst snd]. wr_steps. apply HQ; [by repeat split; try apply Hf|by rewrite decide_False].
  - destruct (fake_scripts_deleted (serviceLoadBalancerHostname vc) f) as [Hf Hg].
    wr_steps. cbn [with_client fake fst snd]. wr_steps. apply HQ; [by repeat split; try apply Hf|].
    rewrite decide_True by done. done.
Qed.

(** The first half of the handler: the service load balancer. *)
Lemma delete_service_wr vc f k Q :
  down_ok vc f →
  (∀ vc' f' k', down_ok vc' f' → same_down vc vc' → (left_to_delete vc' f' < left_to_delete vc f)%nat →
     fewer_scripts f f' → script_id ServiceLB vc' = script_id ServiceLB vc → Q (f', k') vc' (Ok true)) →
  (∀ vc' f', quiet f vc f' vc' → script_gone ServiceLB vc f' → live_at f (service_id vc) = false → Q (f', k) vc' (Ok false)) →
  wr world (deleteServiceLoadBalancer c) vc (f, k) Q.
Proof.
  intros Hok Hmore Hdone. unfold deleteServiceLoadBalancer. wr_steps. apply find_service_wr; [apply Hok|..].
  - intros He. cbn beta iota. apply deleteServiceLBScript_wr. intros vc' f' Hq Hs. apply Hdone; [done|done|].
    unfold live_at. by rewrite bool_decide_eq_false_2 by naive_solver.
  - intros Hne. cbn beta iota. destruct (Fake_Instances f !! service_id vc) as [i|] eqn:Hi; cbn [default from_option id].
    + pose proof (dn_ids _ _ Hok _ _ Hi) as Hid. destruct (instanceGone i) eqn:Hg; cbn [negb].
      * assert (live_at f (service_id vc) = false) as Hl by (unfold live_at; by rewrite Hi, Hg, andb_false_r).
        case_bool_decide; [|apply deleteServiceLBScript_wr; by eauto].
        unfold verda. wr_steps. cbn [with_client fake]. unfold fake_PurgeInstanceVolumes. rewrite Hid, Hi. cbn.
        apply deleteServiceLBScript_wr. intros vc' f' (Hi' & Hq) Hs. by apply Hdone.
      * destruct (dn_managed _ _ Hok _ _ (or_introl eq_refl) Hi Hg) as [Hm Hd].
        assert (live_at f (service_id vc) = true) as Hl
          by (unfold live_at; by rewrite Hi, Hg, bool_decide_eq_true_2).
        wr_step. apply requestLBDelete_wr; [by apply Hok|by rewrite Hid|done..|]. intros vc1 k1 Hs Hsid Ha.
        unfold setServiceLBNotReady, setCondition. wr_steps.
        destruct (down_ok_delete vc (SetConditions (conditions_Set (mkCondition ServiceLoadBalancerReadyCondition
          ConditionFalse InstanceDeleteRequestedReason ("Delete requested for service load balancer instance " +:+
          Instance_ID i)) (GetConditions vc1)) vc1) f i "servicelb" Hok) as [Hok' Hlt];
          [done..|by rewrite Hid|done|by left|by rewrite Hid|]. apply Hmore; try done.
        by apply delete_scripts_kept.
    + apply deleteServiceLBScript_wr. intros vc' f' Hq Hs. apply Hdone; [done|done|].
      unfold live_at. by rewrite Hi, andb_false_r.
Qed.

(** Nothing of the cluster is left, and the object can go. *)
Definition torn_down (vc : VerdaCluster) (f : Fake) (vc' : VerdaCluster) : Prop :=
  (ClusterFinalizer ∉ Meta_Finalizers (VC_Meta vc')) ∧ left_to_delete vc f = 0%nat ∧ ∀ k, script_gone k vc f.

Lemma cluster_finishDelete_wr `{!CapiUtilLaws} vc f k Q :
  (∀ vc' f', Fake_Instances f' = Fake_Instances f → fewer_scripts f f' → script_gone ControlPlaneLB vc f' →
     ClusterFinalizer ∉ Meta_Finalizers (VC_Meta vc') → Q (f', k) vc' (Ok emptyResult)) →
  wr world (finishDelete c) vc (f, k) Q.
Proof.
  intros HQ. unfold finishDelete, verda, modifyLB. wr_steps.
  assert (∀ vc1 f1, Fake_Instances f1 = Fake_Instances f → fewer_scripts f f1 → script_gone ControlPlaneLB vc f1 →
    wr world (do! modify (λ vc, vc_set_meta (set_Finalizers
      (RemoveFinalizer ClusterFinalizer (Meta_Finalizers (VC_Meta vc))) (VC_Meta vc)) vc) in retM emptyResult)
      vc1 (f1, k) Q) as Hend.
  { intros vc1 f1 Hf Hs Hg. wr_steps. apply HQ; [done..|]. cbn. rewrite elem_of_RemoveFinalizer. naive_solver. }
  unfold script_gone, script_id in Hend. cbn [lb_status lb_hostname] in Hend. case_bool_decide as Hid.
  { destruct (fake_script_deleted (LBStatus_StartupScriptID (CStatus_LoadBalancer (VC_Status vc))) f) as [Hf Hg].
    do 2 wr_step. cbn [with_client fake fake_DeleteStartupScript fst snd]. do 2 wr_step. apply Hend; [done|done|]. by rewrite decide_False. }
  destruct (LoadBalancerEnabled vc) eqn:Hen.
  - destruct (fake_scripts_deleted (loadBalancerHostname vc) f) as [Hf Hg].
    do 2 wr_step. cbn [with_client fake fake_DeleteStartupScriptByName fst snd].
    apply Hend; [done|done|]. by rewrite decide_True.
  - apply Hend; [done|done|]. rewrite decide_True by done. intros [?|?]; [done|congruence].
Qed.

(** One pass: one load balancer less, or the end. *)
Definition one_less (vc : VerdaCluster) (f : Fake) (vc' : VerdaCluster) (f' : Fake) : Prop :=
  down_ok vc' f' ∧ same_down vc vc' ∧ (left_to_delete vc' f' < left_to_delete vc f)%nat ∧ fewer_scripts f f' ∧
  (script_id ServiceLB vc' = script_id ServiceLB vc ∨ script_gone ServiceLB vc f').

(** What was left to do for the object read later was left to do before. *)
Lemma torn_down_back vc vc1 vc' f1 f' :
  same_down vc vc1 → (script_id ServiceLB vc1 = script_id ServiceLB vc ∨ script_gone ServiceLB vc f1) →
  fewer_scripts f1 f' → torn_down vc1 f' vc' → torn_down vc f' vc'.
Proof.
  intros (_ & _ & S3 & S4 & S5 & S6 & S7) Hsc Hfew (Hfin & Hl & Hg). split_and!; [done| |].
  - unfold left_to_delete in *. by rewrite S3, S4 in Hl.
  - assert (∀ k, lb_hostname k vc1 = lb_hostname k vc) as Hh
      by (intros []; cbn; unfold loadBalancerHostname, serviceLoadBalancerHostname; by rewrite S5).
    assert (∀ k, script_id k vc1 = script_id k vc → script_gone k vc f') as Hk.
    { intros k Hid. specialize (Hg k). unfold script_gone in *. by rewrite Hid, Hh, S6 in Hg. }
    intros []; [by apply Hk|]. destruct Hsc as [?|?]; [by apply Hk|by eapply script_gone_fewer].
Qed.

Lemma cluster_reconcileDelete_wr `{!CapiUtilLaws} vc f k :
  down_ok vc f →
  wr world (reconcileDelete c) vc (f, k) (λ s' vc' r, one_less vc f vc' s'.1 ∨ torn_down vc s'.1 vc' ∧ fewer_scripts f s'.1).
Proof.
  intros Hok. unfold reconcileDelete. wr_step. apply delete_service_wr; [done|..].
  { intros vc' f' k' Hok' Hs Hlt Hsc Hsid. wr_step. left. split_and!; try done. by left. }
  intros vc1 f1 Hq Hsg Hsv. cbn beta iota. pose proof (quiet_down _ _ _ _ Hq Hok) as Hok1.
  pose proof Hq as (Hins & Hfew & Hs & _).
  assert (live_at f1 (service_id vc) = false) as Hsv1 by by rewrite (quiet_live _ _ _ _ _ Hq).
  assert (live_at f1 (lb_id vc) = false → ∀ f2, Fake_Instances f2 = Fake_Instances f1 → fewer_scripts f1 f2 →
    wr world (finishDelete c) vc1 (f2, k) (λ s' vc' r, one_less vc f vc' s'.1 ∨ torn_down vc s'.1 vc' ∧ fewer_scripts f s'.1)) as Hend.
  { intros Hl f2 Hf2 Hfew2. apply cluster_finishDelete_wr. intros vc' f' Hf' Hfew' Hg Hfin. right. cbn [fst].
    split; [split_and!; [done| |]|etrans; [exact Hfew|]; by etrans].
    - unfold left_to_delete. assert (∀ id, live_at f' id = live_at f1 id) as Heq
        by (intros id; unfold live_at; by rewrite Hf', Hf2). by rewrite !Heq, Hsv1, Hl.
    - intros [].
      + destruct Hs as (_ & _ & _ & _ & S5 & S6 & S7). unfold script_gone in *.
        cbn [lb_hostname] in *. unfold loadBalancerHostname in *. by rewrite S5, S6, S7 in Hg.
      + eapply script_gone_fewer; [|exact Hsg]. by etrans. }
  pose proof Hs as (S1 & S2 & S3 & S4 & _).
  wr_step. apply find_lb_wr; [apply Hok1|..].
  - intros He. cbn beta iota. apply Hend; [|done..]. unfold live_at. by rewrite <-S4, He.
  - intros i He Hg. cbn beta iota. rewrite Hg. cbn [negb].
    assert (live_at f1 (lb_id vc) = false) as Hl by (unfold live_at; by rewrite <-S4, He).
    case_bool_decide; [|by apply Hend]. unfold verda. wr_steps. cbn [with_client fake].
    unfold fake_PurgeInstanceVolumes. destruct (Fake_Instances f1 !! _); cbn; by apply Hend.
  - intros Hne. cbn beta iota. destruct (Fake_Instances f1 !! lb_id vc1) as [i|] eqn:Hi; cbn [default from_option id].
    + pose proof (dn_ids _ _ Hok1 _ _ Hi) as Hid. destruct (instanceGone i) eqn:Hg; cbn [negb].
      * assert (live_at f1 (lb_id vc) = false) as Hl by (unfold live_at; by rewrite <-S4, Hi, Hg, andb_false_r).
        case_bool_decide; [|by apply Hend]. unfold verda. wr_steps. cbn [with_client fake].
        unfold fake_PurgeInstanceVolumes. rewrite Hid, Hi. cbn. by apply Hend.
      * destruct (dn_managed _ _ Hok1 _ _ (or_intror eq_refl) Hi Hg) as [Hm Hd].
        assert (live_at f1 (lb_id vc1) = true) as Hl
          by (unfold live_at; by rewrite Hi, Hg, bool_decide_eq_true_2).
        wr_step. apply requestLBDelete_wr; [by apply Hok1|by rewrite Hid|done..|]. intros vc2 k2 Hs2 Hsid2 Ha.
        unfold setLBNotReady, setCondition. wr_steps. cbn [orb]. 
        destruct (down_ok_delete vc1 (SetConditions (conditions_Set (mkCondition LoadBalancerReadyCondition
          ConditionFalse InstanceDeleteRequestedReason ("Delete requested for load balancer instance " +:+
          Instance_ID i)) (GetConditions vc2)) vc2) f1 i "lb" Hok1) as [Hok' Hlt];
          [done..|by rewrite Hid|done|by right|by rewrite Hid|].
        left. split_and!; [done| | | |by right; eapply script_gone_fewer; [apply delete_scripts_kept|]].
        { destruct Hs as (? & ? & ? & ? & ? & ? & ?), Hs2 as (? & ? & ? & ? & ? & ? & ?). repeat split; etrans; eassumption. }
        2:{ etrans; [exact Hfew|apply delete_scripts_kept]. }
        eapply Nat.lt_le_trans; [exact Hlt|]. unfold left_to_delete.
        by rewrite !(quiet_live _ _ _ _ _ Hq), S3, S4.
    + apply Hend; [|done..]. unfold live_at. by rewrite <-S4, Hi, andb_false_r.
Qed.

(** ** Whole passes *)

(** (C10) The deletion of a cluster comes to an end, over the in-memory cloud,
    which deletes an instance in one step: from the first pass after the
    deletion was requested, when its load balancers that exist are on record,
    carry the tag of the provider and are not being deleted yet, at most three
    passes of [Reconcile] (against a management cluster that answers) delete the
    service load balancer, then that of the control plane, and remove the
    finalizer; then neither of the two exists, and no startup script of either
    is left: none under a recorded ID, and none under the hostname if no ID was
    recorded (for the control plane only if its load balancer is enabled). *)
Theorem cluster_deletion_terminates `{!CapiUtilLaws} ns name stored pushed cluster machines owner f k :
  cluster_obliging kube c ns name stored pushed cluster machines owner → down_ok (stored k) f →
  ∃ n, (n ≤ 1 + left_to_delete (stored k) f ∧ n ≤ 3)%nat ∧
    (let s' := Nat.iter n (λ s, (run world (Reconcile ns name) s).1) (f, k) in
     torn_down (stored k) s'.1 (stored s'.2)).
Proof.
  intros Hob. assert (∀ vc f, (left_to_delete vc f ≤ 2)%nat) as H2.
  { intros vc f0. unfold left_to_delete. destruct (live_at _ _), (live_at _ _); cbn; lia. }
  cut (∀ d f k, down_ok (stored k) f → (left_to_delete (stored k) f ≤ d)%nat → ∃ n, (n ≤ 1 + d)%nat ∧
    (let s' := Nat.iter n (λ s, (run world (Reconcile ns name) s).1) (f, k) in
     torn_down (stored k) s'.1 (stored s'.2) ∧ fewer_scripts f s'.1)).
  { intros Hd Hok. specialize (H2 (stored k) f). destruct (Hd _ f k Hok (le_n _)) as (n & Hn & Ht & _).
    exists n. split; [lia|done]. }
  clear f k. intros d. induction d as [d IH] using lt_wf_ind. intros f k Hok Hle.
  assert (let s' := (run world (Reconcile ns name) (f, k)).1 in
    one_less (stored k) f (stored s'.2) s'.1 ∨
    torn_down (stored k) s'.1 (stored s'.2) ∧ fewer_scripts f s'.1) as Hpass.
  { apply (cluster_reconcile_wr kube c ns name stored pushed cluster machines owner Hob f k (λ s' _,
      one_less (stored k) f (stored s'.2) s'.1 ∨ torn_down (stored k) s'.1 (stored s'.2) ∧ fewer_scripts f s'.1)).
    rewrite (dn_deleting _ _ Hok). eapply wr_mono; [by apply cluster_reconcileDelete_wr|].
    intros s' vc' r Hr k' Hk' _. cbn [fst snd]. rewrite Hk'. destruct Hr as [(Hok' & Hs & Hlt & Hf & Hsc)|Ht]; [left|by right].
    split_and!; try done. by destruct Hok'; split. }
  destruct (run world (Reconcile ns name) (f, k)).1 as [f1 k1] eqn:Hrun. cbn [fst snd] in Hpass.
  destruct Hpass as [(Hok1 & Hs & Hlt & Hfew & Hsc)|Ht].
  - destruct (IH (left_to_delete (stored k1) f1) ltac:(lia) f1 k1 Hok1 (le_n _)) as (n & Hn & Ht & Hfew2).
    exists (1 + n)%nat. split; [lia|]. rewrite Nat.add_comm, Nat.iter_add. cbn [Nat.iter nat_rect]. rewrite Hrun.
    cbn zeta in *. split; [|by etrans]. by eapply torn_down_back.
  - exists 1%nat. split; [lia|]. cbn [Nat.iter nat_rect]. by rewrite Hrun.
Qed.
End cluster_down.

(** ** Example *)

Module ClusterDownExamples.
Import ClusterExamples ClusterUpExamples.
#[local] Existing Instance CapiExamples.capi.
#[local] Existing Instance CapiExamples.capi_laws.
#[local] Existing Instance FakeExamples.range_in_key_order.

(** A cluster whose load balancer runs and whose deletion begins. *)
Definition lb0 : Instance :=
  mkInstance "inst-1" "prod-lb" StatusRunning "203.0.113.9" "FIN-01" "CPU.4V.16G" "" "vol-1"
    {[TagManagedBy := ManagedByValue; TagLoadBalancer := "default/prod"]}.
Definition f0 : Fake :=
  with_Scripts {["script-1" := "#!/bin/sh"]} {["script-1" := "prod-lb"]} (with_Instances {["inst-1" := lb0]} NewFake).
Definition vc_down : VerdaCluster :=
  vc_set_LoadBalancer (mkLoadBalancerStatus "inst-1" "script-1" "203.0.113.9" [] None) (vc_set_meta (meta (Some 1%Z)) vc_new).
Definition k1 : Site := mkSite (mkMgmt vc_down 1000000000) ∅.

Lemma f0_instance id i : Fake_Instances f0 !! id = Some i → id = "inst-1" ∧ i = lb0.
Proof. change (Fake_Instances f0) with ({["inst-1" := lb0]} : gmap string Instance). by intros [<- <-]%lookup_singleton_Some. Qed.

Lemma vc_down_ok : down_ok (site_vc k1) f0.
Proof.
  split; try done.
  - by intros id i [-> ->]%f0_instance.
  - intros _ id i [-> ->]%f0_instance. vm_compute. discriminate.
  - by intros id i _ [-> ->]%f0_instance _.
Qed.

Lemma cluster_deletion_terminates_witness :
  ∃ n, (n ≤ 1 + left_to_delete vc_down f0 ∧ n ≤ 3)%nat ∧
    (let s' := Nat.iter n (λ s, (run (with_fake site) (Reconcile "default" "prod") s).1) (f0, k1) in
     torn_down vc_down s'.1 (site_vc s'.2)).
Proof.
  exact (cluster_deletion_terminates site 0 "default" "prod" site_vc site_pushed cluster0 [cp0] owner0 f0 k1
    site_obliging vc_down_ok).
Defined.
End ClusterDownExamples.
