(* ===== verification/Account.v ===== *)
(** * Both controllers on shared accounts, call by call

    Up to [MaxConcurrentReconciles] passes of each controller run at the same
    time, and each of them is a sequence of calls.  Here the passes over any
    number of VerdaMachines and VerdaClusters interleave at every call: the
    state is the accounts of Verda and the passes under way, a step performs one
    call of one pass.  The management cluster answers its calls in any way (an
    object that is read has the name that was asked for), a pass may be cut off
    anywhere, as when the manager is killed, and Verda changes the state of
    instances and volumes by itself. *)

From S2P Require Import Prelude GoStd Effects Api Cloud Fake Ctrl Machine Pass World ClusterCtl.
From stdpp Require Import options.

(** ** Whose an instance is *)

(** A tag with its value. *)
Definition claim : Type := string * string.

Definition unique_claims (f : Fake) : Prop :=
  ∀ (kv : claim) id1 id2 i1 i2,
    kv.1 ∈ ownerKeys → kv.2 ≠ "" →
    Fake_Instances f !! id1 = Some i1 → live_tagged kv.1 kv.2 i1 →
    Fake_Instances f !! id2 = Some i2 → live_tagged kv.1 kv.2 i2 → id1 = id2.

(** An object a controller reconciles. *)
Inductive object := MachineObject (ns name : string) | ClusterObject (ns name : string).
#[export] Instance object_eq_dec : EqDecision object.
Proof. solve_decision. Defined.

Definition tagOf (ns name : string) : string := truncateTag (ns +:+ "/" +:+ name).

(** The tags under which the instances of an object are found. *)
Definition claims_of (o : object) : list claim :=
  match o with
  | MachineObject ns name => [(TagMachine, tagOf ns name)]
  | ClusterObject ns name => [(TagLoadBalancer, tagOf ns name); (TagServiceLoadBalancer, tagOf ns name)]
  end.

(** Names as Kubernetes has them: labels of at most 63 characters. *)
Definition valid_name (s : string) : Prop :=
  String.length s ≤ 63 ∧ ToLower s = s ∧ "/"%char ∉ chars s.

Definition valid_object (o : object) : Prop :=
  match o with MachineObject ns name | ClusterObject ns name => valid_name ns ∧ valid_name name end.

Lemma ToLower_app a b : ToLower (a +:+ b) = ToLower a +:+ ToLower b.
Proof. induction a as [|c a IH]; [done|]. rewrite !string_app_cons. cbn. rewrite IH. done. Qed.

(** The tag is never cut: 63 characters, a slash and 63 characters fit. *)
Lemma tagOf_valid ns name :
  valid_name ns → valid_name name → tagOf ns name = ns +:+ "/" +:+ name.
Proof.
  intros (Hl & Hc & _) (Hl' & Hc' & _). unfold tagOf, truncateTag.
  destruct (127 <? _)%nat eqn:Hlt.
  - apply Nat.ltb_lt in Hlt. rewrite !string_length_app in Hlt. cbn in Hlt. lia.
  - by rewrite !ToLower_app, Hc, Hc'.
Qed.

Lemma slash_inj a b c d :
  "/"%char ∉ chars a → "/"%char ∉ chars c → a +:+ "/" +:+ b = c +:+ "/" +:+ d → a = c ∧ b = d.
Proof.
  revert c. induction a as [|x a IH]; intros [|y c] Ha Hc; rewrite ?string_app_cons, ?string_app_nil_l.
  - by intros [= ->].
  - intros [= <- _]. cbn in Hc. set_solver.
  - intros [= -> _]. cbn in Ha. set_solver.
  - intros [= -> Heq]. cbn in Ha, Hc. destruct (IH c) as [-> ->]; set_solver.
Qed.

(** Tags tell objects apart. *)
Lemma tagOf_inj ns name ns' name' :
  valid_name ns → valid_name name → valid_name ns' → valid_name name' →
  tagOf ns name = tagOf ns' name' → ns = ns' ∧ name = name'.
Proof.
  intros H1 H2 H3 H4. rewrite !tagOf_valid by done. apply slash_inj; [apply H1|apply H3].
Qed.

Lemma claims_disjoint o o' kv :
  valid_object o → valid_object o' → kv ∈ claims_of o → kv ∈ claims_of o' → o = o'.
Proof.
  destruct o as [ns name|ns name], o' as [ns' name'|ns' name'];
    intros [Hn Hm] [Hn' Hm'] H1 H2; unfold claims_of in H1, H2;
    repeat (apply elem_of_cons in H1 as [->|H1]; [|]); repeat (apply elem_of_cons in H2 as [H2|H2]; [|]);
    try (by apply not_elem_of_nil in H1); try (by apply not_elem_of_nil in H2); try done.
  all: injection H2 as H2; apply tagOf_inj in H2 as [-> ->]; done.
Qed.

Lemma tagOf_ne ns name : tagOf ns name ≠ "".
Proof.
  unfold tagOf, truncateTag. intros Heq. apply (f_equal String.length) in Heq.
  assert (∀ s, String.length (ToLower s) = String.length s) as Hl by (intros s; induction s; cbn; auto).
  rewrite Hl in Heq. destruct (127 <? _)%nat.
  - rewrite str_take_length, !string_length_app in Heq. cbn [String.length] in Heq. lia.
  - rewrite !string_length_app in Heq. cbn in Heq. lia.
Qed.

Lemma claims_owner o kv : kv ∈ claims_of o → kv.1 ∈ ownerKeys ∧ kv.2 ≠ "".
Proof.
  unfold ownerKeys. destruct o as [ns name|ns name]; cbn; intros Hin; pose proof (tagOf_ne ns name); set_solver.
Qed.

(** ** What a pass promises to the others *)

(** The lookup by the tag found nothing that exists. *)
Definition looked (c : ClientRef) (kv : claim) (h : hist CtrlE) : Prop :=
  ∃ r, Obs (Verda c (FindInstanceByTag kv.1 kv.2)) r ∈ h ∧
    match r with
    | Ok i => instanceGone i = true
    | Err err => errors_Is err ErrNotFound = true
    end.

Definition not_created (kv : claim) (h : hist CtrlE) : Prop :=
  ∀ c spec r, Obs (Verda c (CreateInstance spec)) r ∈ h → map_get (InstanceSpec_Tags spec) kv.1 ≠ kv.2.

(** An instance is created under one claim of the pass, which was looked up
    before with the same client and not used yet. *)
Definition create_claimed (claims : list claim) (c : ClientRef) (h : hist CtrlE) (spec : InstanceSpec) : Prop :=
  ∃ kv, kv ∈ claims ∧ looked c kv h ∧ not_created kv h ∧ tagged_only (InstanceSpec_Tags spec) kv.1 kv.2.

(** An object that was read has the name that was asked for. *)
Definition named {X} (e : CtrlE X) : X → Prop :=
  match e in CtrlE X return X → Prop with
  | GetVerdaMachine ns name => λ r, ∀ vm, r = Ok vm → vm_namespace vm = ns ∧ vm_name vm = name
  | GetVerdaCluster ns name => λ r, ∀ vc, r = Ok vc → vc_namespace vc = ns ∧ vc_name vc = name
  | _ => λ _, True
  end.

Definition tenant (claims : list claim) : protocol CtrlE :=
  Protocol (λ h X e, match e with
                     | Verda c e' => match e' with
                                     | CreateInstance spec => create_claimed claims c h spec
                                     | _ => True
                                     end
                     | _ => True
                     end) (λ _ X e, named e).

Section tenants.
Context `{!CapiUtil}.

Lemma machine_guard_tenant vm h X (e : CtrlE X) :
  machine_guard vm h X e → guar (tenant [(TagMachine, machineTagValue vm)]) h X e.
Proof.
  destruct e as [? c e'| | | | | | | | | | | | | | | | | | | | | | | | | |]; try exact (λ _, I).
  destruct e'; try exact (λ _, I). intros (_ & _ & (_ & Hl) & Hno & _ & _ & Ht & _).
  exists (TagMachine, machineTagValue vm). split; [by apply list_elem_of_here|]. split; [exact Hl|]. split; [|done]. intros c' spec' r Hin. by apply Hno in Hin.
Qed.

Lemma cluster_guard_tenant vc h X (e : CtrlE X) :
  respects (cluster_protocol vc) h → cluster_guard vc h X e →
  guar (tenant [(TagLoadBalancer, clusterTagValue vc); (TagServiceLoadBalancer, clusterTagValue vc)]) h X e.
Proof.
  intros Hh. destruct e as [? c e'| | | | | | | | | | | | | | | | | | | | | | | | | |]; try exact (λ _, I).
  destruct e'; try exact (λ _, I). intros (k & _ & _ & (_ & Hl) & Hno & Hhost & _ & _ & Ht).
  exists (lb_tag k, clusterTagValue vc). split_and!; [destruct k; set_solver| | |done].
  { destruct Hl as (r & Hin & Hr). exists r. split; [done|]. by destruct r; [apply Hr|]. }
  intros c' spec' r Hin Heq. cbn [fst snd] in Heq. pose proof (Hno _ _ _ Hin) as Hne.
  destruct (respects_elem _ _ _ _ _ Hh Hin) as (h' & k' & _ & _ & _ & _ & Hhost' & _ & _ & [_ Hx]).
  destruct (decide (k' = k)) as [->|Hk]; [by rewrite Hhost, Hhost' in Hne|].
  rewrite Hx in Heq.
  - by destruct (tagOf_ne (vc_namespace vc) (vc_name vc)).
  - destruct k; set_solver.
  - by destruct k, k'.
Qed.
End tenants.

(** The program of a pass. *)
Definition pass_of `{CapiUtil, Bootstrapper} (o : object) : prog CtrlE (result Result) :=
  match o with
  | MachineObject ns name => Machine.Reconcile ns name
  | ClusterObject ns name => ClusterCtl.Reconcile ns name
  end.

(** Both controllers keep the promise. *)
Lemma pass_tenant `{!CapiUtil, !Bootstrapper} o :
  wp (tenant (claims_of o)) (pass_of o) [] (λ _ _, True).
Proof.
  destruct o as [ns name|ns name]; (split; [done|]); intros [x|err] Hn; cbn in Hn; try done.
  - destruct (Hn _ eq_refl) as [Hns Hname]. do 2 apply wp_bind.
    apply (wp_mono _ _ _ (λ _ '(_, _), True)); [by intros ? [] _|].
    eapply (wp_weaken (machine_protocol x)); [|done..|].
    + intros h X e _ Hg%machine_guard_tenant. unfold machineTagValue in Hg. by rewrite Hns, Hname in Hg.
    + apply (reconcileObject_wp x). set_solver.
  - destruct (Hn _ eq_refl) as [Hns Hname]. do 2 apply wp_bind.
    apply (wp_mono _ _ _ (λ _ '(_, _), True)); [by intros ? [] _|].
    eapply (wp_weaken (cluster_protocol x)); [|done..|].
    + intros h X e Hh Hg%cluster_guard_tenant; [|done].
      unfold clusterTagValue in Hg. by rewrite Hns, Hname in Hg.
    + apply (cluster_reconcileObject_wp x). intros c spec r Hin. set_solver.
Qed.

(** ** Interleaved passes *)

(** A pass under way: its object, the calls it made and the rest of it. *)
Record pass := mkPass {
  pass_object : object;
  pass_hist : hist CtrlE;
  pass_rest : prog CtrlE (result Result)
}.

Record world := mkWorld { w_accounts : nat → Fake; w_passes : gmap nat pass }.

Definition set_account (a : nat) (f : Fake) (accounts : nat → Fake) : nat → Fake :=
  λ a', if decide (a' = a) then f else accounts a'.

Section interleaving.
Context `{!MapRange, !CapiUtil, !Bootstrapper}.

(** The account a client acts on: two clients may share one. *)
Context (account_of : ClientRef → nat).

Inductive world_step : world → world → Prop :=
(* A pass begins; no other pass over the object is under way. *)
| ws_start accts ps t o :
    ps !! t = None → valid_object o → (∀ t' p, ps !! t' = Some p → pass_object p ≠ o) →
    world_step (mkWorld accts ps) (mkWorld accts (<[t := mkPass o [] (pass_of o)]> ps))
(* A call to Verda. *)
| ws_verda accts ps t o h c X (e : ClientE X) k :
    ps !! t = Some (mkPass o h (Vis (Verda c e) k)) →
    world_step (mkWorld accts ps)
      (mkWorld (set_account (account_of c) (fake X e (accts (account_of c))).1 accts)
         (<[t := mkPass o (Obs (Verda c e) (fake X e (accts (account_of c))).2 :: h)
                   (k (fake X e (accts (account_of c))).2)]> ps))
(* Any other call, with any answer. *)
| ws_kube accts ps t o h X (e : CtrlE X) k r :
    ps !! t = Some (mkPass o h (Vis e k)) →
    match e with Verda _ _ => False | _ => True end → named e r →
    world_step (mkWorld accts ps) (mkWorld accts (<[t := mkPass o (Obs e r :: h) (k r)]> ps))
(* A pass ends, or is cut off. *)
| ws_end accts ps t :
    world_step (mkWorld accts ps) (mkWorld accts (delete t ps))
(* Verda changes the status of an instance that exists, or of a volume. *)
| ws_instance accts ps a id status ip i :
    Fake_Instances (accts a) !! id = Some i → instanceGone i = false →
    status ≠ StatusDeleted → status ≠ StatusNotFound →
    world_step (mkWorld accts ps) (mkWorld (set_account a (fake_SetStatus id status ip (accts a)) accts) ps)
| ws_volume accts ps a id status :
    world_step (mkWorld accts ps) (mkWorld (set_account a (fake_SetVolumeStatus id status (accts a)) accts) ps).

Definition empty_world : world := mkWorld (λ _, NewFake) ∅.

(** The client of a call to Verda. *)
Definition client_of (o : obs CtrlE) : option ClientRef :=
  match o with
  | @Obs _ _ (Verda c _) _ => Some c
  | _ => None
  end.

(** ** The invariant *)

Record account_good (f : Fake) : Prop := {
  ag_wf : fake_wf f;
  ag_gone : gone_discontinued f;
  ag_unique : unique_claims f
}.

(** A claim that was looked up and not used is free in the account. *)
Definition claims_free (accts : nat → Fake) (o : object) (h : hist CtrlE) : Prop :=
  ∀ c kv, kv ∈ claims_of o → looked c kv h → not_created kv h →
    none_tagged kv.1 kv.2 (accts (account_of c)).

Record pass_good (accts : nat → Fake) (p : pass) : Prop := {
  pg_valid : valid_object (pass_object p);
  pg_wp : wp (tenant (claims_of (pass_object p))) (pass_rest p) (pass_hist p) (λ _ _, True);
  pg_free : claims_free accts (pass_object p) (pass_hist p)
}.

Record world_good (w : world) : Prop := {
  wg_account a : account_good (w_accounts w a);
  wg_pass t p : w_passes w !! t = Some p → pass_good (w_accounts w) p;
  wg_distinct t t' p p' : w_passes w !! t = Some p → w_passes w !! t' = Some p' →
    pass_object p = pass_object p' → t = t'
}.

(** The tags of an instance that was just created. *)
Lemma tagged_only_claim tags kv key value :
  tagged_only tags kv.1 kv.2 → key ∈ ownerKeys → value ≠ "" → map_get tags key = value → kv = (key, value).
Proof.
  intros [Hv Ho] Hk Hne Heq. destruct kv as [k v]. cbn in *. destruct (decide (key = k)) as [->|Hkk].
  - congruence.
  - by rewrite Ho in Heq.
Qed.

(** A call of a pass leaves a claim free that is not among its own, or that it
    did not use. *)
Lemma free_step claims c h X (e : ClientE X) f (kv : claim) :
  fake_wf f → guar (tenant claims) h X (Verda c e) →
  kv.1 ∈ ownerKeys → kv.2 ≠ "" →
  (kv ∉ claims ∨ ∀ spec, match e with CreateInstance spec' => spec = spec' | _ => False end →
     map_get (InstanceSpec_Tags spec) kv.1 ≠ kv.2) →
  none_tagged kv.1 kv.2 f → none_tagged kv.1 kv.2 (fake X e f).1.
Proof.
  intros Hwf Hg Hk Hv Hor Hnone id i Hi Hl.
  destruct (fake_tagged_back X e f id i kv.1 kv.2 Hwf Hi Hl) as [(i0 & Hi0 & Hl0)|(spec & He & Ht & _)];
    [by eapply Hnone|].
  destruct Hor as [Hnin|Hno]; [|by eapply Hno].
  destruct e; try done. subst. destruct Hg as (kv0 & Hin & _ & _ & Htags).
  apply Hnin. apply (tagged_only_claim _ _ kv.1 kv.2) in Htags as ->; [|done..]. by destruct kv.
Qed.

Lemma account_good_verda claims c h X (e : ClientE X) f :
  account_good f → guar (tenant claims) h X (Verda c e) →
  (∀ kv, kv ∈ claims → looked c kv h → not_created kv h → none_tagged kv.1 kv.2 f) →
  account_good (fake X e f).1.
Proof.
  intros [Hwf Hgone Hu] Hg Hfree. split; [by apply fake_wf_step|by apply fake_gone_discontinued|].
  assert (∀ kv id i spec, kv.1 ∈ ownerKeys → kv.2 ≠ "" →
    match e with CreateInstance spec' => spec = spec' | _ => False end →
    kv.2 = map_get (InstanceSpec_Tags spec) kv.1 →
    Fake_Instances f !! id = Some i → live_tagged kv.1 kv.2 i → False) as Hnew.
  { intros kv id i spec Hk Hv He Ht Hi Hl. destruct e; try done. subst spec0.
    destruct Hg as (kv0 & Hin & Hlook & Hnc & Htags).
    apply (tagged_only_claim _ _ kv.1 kv.2) in Htags; [|done..]. subst kv0.
    by eapply (Hfree _ Hin Hlook Hnc). }
  intros kv id1 id2 i1 i2 Hk Hv Hi1 Hl1 Hi2 Hl2.
  destruct (fake_tagged_back X e f id1 i1 kv.1 kv.2 Hwf Hi1 Hl1) as [(j1 & Hj1 & Hm1)|(s1 & He1 & Ht1 & ->)],
    (fake_tagged_back X e f id2 i2 kv.1 kv.2 Hwf Hi2 Hl2) as [(j2 & Hj2 & Hm2)|(s2 & He2 & Ht2 & ->)].
  - by eapply (Hu kv).
  - destruct (Hnew kv _ _ s2 Hk Hv He2 Ht2 Hj1 Hm1).
  - destruct (Hnew kv _ _ s1 Hk Hv He1 Ht1 Hj2 Hm2).
  - done.
Qed.

(** The pass that makes a call. *)
Lemma claims_free_own accts o h c X (e : ClientE X) :
  account_good (accts (account_of c)) →
  guar (tenant (claims_of o)) h X (Verda c e) → claims_free accts o h →
  claims_free (set_account (account_of c) (fake X e (accts (account_of c))).1 accts) o
    (Obs (Verda c e) (fake X e (accts (account_of c))).2 :: h).
Proof.
  intros [Hwf Hgone _] Hg Hfree c' kv Hin (r & Hr & Hans) Hnc.
  destruct (claims_owner _ _ Hin) as [Hk Hv].
  assert (not_created kv h) as Hnc'.
  { intros c1 spec r1 Hcr. by eapply Hnc, list_elem_of_further. }
  assert (none_tagged kv.1 kv.2 (accts (account_of c')) ) as Hnone.
  { apply elem_of_cons in Hr as [Heq|Hr]; [|eapply (Hfree c'); [done|by exists r|done]].
    pose proof (f_equal client_of Heq) as Hc. cbn in Hc. injection Hc as Hc.
    apply (f_equal tag_answer) in Heq. destruct e; cbn in Heq; try done.
    injection Heq as <- <- ->. rewrite <-Hc in *. by apply fake_FindInstanceByTag_none. }
  unfold set_account. case_decide as Ha; [|done]. rewrite Ha in Hnone.
  eapply free_step; [done|exact Hg|done|done| |done].
  right. intros spec He. destruct e; try done. subst. eapply Hnc, list_elem_of_here.
Qed.

(** The other passes. *)
Lemma claims_free_other accts o o' h h' c X (e : ClientE X) :
  valid_object o → valid_object o' → o ≠ o' → fake_wf (accts (account_of c)) →
  guar (tenant (claims_of o)) h X (Verda c e) → claims_free accts o' h' →
  claims_free (set_account (account_of c) (fake X e (accts (account_of c))).1 accts) o' h'.
Proof.
  intros Ho Ho' Hne Hwf Hg Hfree c' kv Hin Hl Hnc. destruct (claims_owner _ _ Hin) as [Hk Hv].
  unfold set_account. case_decide as Ha; [|by apply (Hfree c')].
  eapply free_step; [done|exact Hg|done|done|left|rewrite <-Ha; by apply (Hfree c')].
  intros Hin'. by apply Hne, (claims_disjoint _ _ kv).
Qed.

(** Accounts in which nothing new exists keep the claims free. *)
Lemma claims_free_fewer accts a f o h :
  (∀ kv, none_tagged kv.1 kv.2 (accts a) → none_tagged kv.1 kv.2 f) →
  claims_free accts o h → claims_free (set_account a f accts) o h.
Proof.
  intros Hf Hfree c kv Hin Hl Hnc. unfold set_account. case_decide as Ha; [|by apply (Hfree c)].
  apply Hf. rewrite <-Ha. by apply (Hfree c).
Qed.

Lemma world_good_account w a f :
  world_good w → account_good f →
  (∀ kv, none_tagged kv.1 kv.2 (w_accounts w a) → none_tagged kv.1 kv.2 f) →
  world_good (mkWorld (set_account a f (w_accounts w)) (w_passes w)).
Proof.
  intros [Ha Hp Hd] Hf Hless. split; cbn.
  - intros a'. unfold set_account. by case_decide.
  - intros t p Ht. destruct (Hp t p Ht) as [Hv Hwp Hfr]. split; [done|done|]. by apply claims_free_fewer.
  - done.
Qed.

(** A pass is added or goes on. *)
Lemma world_good_pass w accts' t p :
  world_good w → (∀ a, account_good (accts' a)) → pass_good accts' p →
  (∀ t' p', t' ≠ t → w_passes w !! t' = Some p' → pass_object p' ≠ pass_object p ∧ pass_good accts' p') →
  world_good (mkWorld accts' (<[t := p]> (w_passes w))).
Proof.
  intros [_ _ Hd] Ha Hp Hother. split; cbn; [done|..].
  - intros t' p' [[<- <-]|[Hne Hp']]%lookup_insert_Some; [done|]. by apply (Hother t').
  - intros t1 t2 p1 p2 [[<- <-]|[Hn1 Hp1]]%lookup_insert_Some [[<- <-]|[Hn2 Hp2]]%lookup_insert_Some Heq.
    + done.
    + by destruct (proj1 (Hother t2 p2 (not_eq_sym Hn2) Hp2)).
    + by destruct (proj1 (Hother t1 p1 (not_eq_sym Hn1) Hp1)).
    + by eapply Hd.
Qed.

(** The passes besides [t] are over other objects. *)
Lemma world_good_others w t t' p p' :
  world_good w → w_passes w !! t = Some p → w_passes w !! t' = Some p' → t' ≠ t →
  pass_object p' ≠ pass_object p.
Proof. intros [_ _ Hd] Ht Ht' Hne Heq. by apply Hne, (Hd t' t p' p). Qed.

Lemma world_good_verda accts ps t o h c X (e : ClientE X) k :
  world_good (mkWorld accts ps) → ps !! t = Some (mkPass o h (Vis (Verda c e) k)) →
  world_good (mkWorld (set_account (account_of c) (fake X e (accts (account_of c))).1 accts)
    (<[t := mkPass o (Obs (Verda c e) (fake X e (accts (account_of c))).2 :: h)
              (k (fake X e (accts (account_of c))).2)]> ps)).
Proof.
  intros Hw Ht. pose proof Hw as [Ha Hp _]. destruct (Hp t _ Ht) as [Hv [Hg Hwp] Hfr]; cbn in *.
  apply (world_good_pass (mkWorld accts ps)); [done|..].
  - intros a. unfold set_account. case_decide; [|done]. subst a.
    eapply account_good_verda; [done|exact Hg|]. intros kv Hin Hl Hnc. by apply (Hfr c).
  - split; cbn; [done|by apply Hwp|]. by apply claims_free_own.
  - intros t' p' Hne Hp'. pose proof (world_good_others _ _ _ _ _ Hw Ht Hp' Hne) as Ho. split; [done|].
    destruct (Hp t' p' Hp') as [Hv' Hwp' Hfr']. split; [done|done|].
    eapply claims_free_other; [exact Hv|done|by apply not_eq_sym|apply Ha|exact Hg|done].
Qed.

Lemma world_good_kube accts ps t o h X (e : CtrlE X) k r :
  world_good (mkWorld accts ps) → ps !! t = Some (mkPass o h (Vis e k)) →
  match e with Verda _ _ => False | _ => True end → named e r →
  world_good (mkWorld accts (<[t := mkPass o (Obs e r :: h) (k r)]> ps)).
Proof.
  intros Hw Ht He Hr. pose proof Hw as [Ha Hp _]. destruct (Hp t _ Ht) as [Hv [Hg Hwp] Hfr]; cbn in *.
  apply (world_good_pass (mkWorld accts ps)); [done|done|..].
  - split; cbn; [done|by apply Hwp|]. intros c kv Hin (x & Hx & Hans) Hnc. apply (Hfr c kv Hin).
    + exists x. split; [|done]. apply elem_of_cons in Hx as [Heq|Hx]; [|done].
      apply (f_equal client_of) in Heq. by destruct e.
    + intros c1 spec r1 Hcr. by eapply Hnc, list_elem_of_further.
  - intros t' p' Hne Hp'. split; [by apply (world_good_others _ _ _ _ _ Hw Ht Hp' Hne)|by apply (Hp t')].
Qed.

Lemma world_good_instance accts ps a id status ip i :
  world_good (mkWorld accts ps) →
  Fake_Instances (accts a) !! id = Some i → instanceGone i = false →
  status ≠ StatusDeleted → status ≠ StatusNotFound →
  world_good (mkWorld (set_account a (fake_SetStatus id status ip (accts a)) accts) ps).
Proof.
  intros Hw Hi Hl Hs1 Hs2. destruct (wg_account _ Hw a) as [Hwf Hgone Hu].
  assert (∀ key value id' i', Fake_Instances (fake_SetStatus id status ip (accts a)) !! id' = Some i' →
    live_tagged key value i' → ∃ i0, Fake_Instances (accts a) !! id' = Some i0 ∧ live_tagged key value i0)
    as Hback by (intros; by eapply fake_SetStatus_tagged).
  apply (world_good_account (mkWorld accts ps)); [done|split|].
  - by apply alter_Instances_wf.
  - by eapply gone_discontinued_SetStatus.
  - intros kv id1 id2 i1 i2 Hk Hv Hi1 Hl1 Hi2 Hl2.
    destruct (Hback _ _ _ _ Hi1 Hl1) as (j1 & Hj1 & Hm1), (Hback _ _ _ _ Hi2 Hl2) as (j2 & Hj2 & Hm2).
    by eapply (Hu kv).
  - intros kv Hn id' i' Hi' Hl'. destruct (Hback _ _ _ _ Hi' Hl') as (j & Hj & Hm). by eapply Hn.
Qed.

Lemma world_good_step w w' : world_step w w' → world_good w → world_good w'.
Proof.
  intros Hstep Hw. pose proof Hw as [Ha Hp Hd].
  destruct Hstep as [accts ps t o Ht Ho Hfresh| | |accts ps t| |accts ps a id status].
  - apply (world_good_pass (mkWorld accts ps)); [done|done|..].
    + split; cbn; [done|apply pass_tenant|]. intros c kv _ (r & Hin & _). by apply not_elem_of_nil in Hin.
    + intros t' p' _ Hp'. split; [by apply (Hfresh t')|by apply (Hp t')].
  - by apply world_good_verda.
  - by apply world_good_kube.
  - split; cbn; [done|..].
    + intros t' p' [_ Hp']%lookup_delete_Some. by apply (Hp t').
    + intros t1 t2 p1 p2 [_ Hp1]%lookup_delete_Some [_ Hp2]%lookup_delete_Some. by apply Hd.
  - by eapply world_good_instance.
  - destruct (Ha a) as [Hwf Hgone Hu]. apply (world_good_account (mkWorld accts ps)); [done|split|]; try done.
    apply with_Volumes_wf; [done|]. by apply alter_Volume_ID; [|apply Hwf].
Qed.

Lemma world_good_reachable w : rtc world_step empty_world w → world_good w.
Proof.
  apply (rtc_ind_r world_good).
  - split; cbn.
    + intros _. split; [apply NewFake_wf|..].
      * intros id i Hi. cbn in Hi. by rewrite lookup_empty in Hi.
      * intros kv id1 id2 i1 i2 _ _ Hi. cbn in Hi. by rewrite lookup_empty in Hi.
    + intros t p Ht. by rewrite lookup_empty in Ht.
    + intros t t' p p' Ht. by rewrite lookup_empty in Ht.
  - intros y z _ Hstep. by apply world_good_step.
Qed.

End interleaving.

(** ** Two passes, call by call *)
Module AccountExamples.
#[local] Existing Instance CapiExamples.capi.
#[local] Existing Instance FakeExamples.range_in_key_order.
#[local] Existing Instance WorldExamples.script_as_is.

Definition the_account (c : ClientRef) : nat := 0.

(** The management cluster of [WorldExamples], with a machine and a cluster that
    wants a load balancer. *)
Definition kube (X : Type) (e : CtrlE X) : WorldExamples.Kube → WorldExamples.Kube * X :=
  match e in CtrlE X return WorldExamples.Kube → WorldExamples.Kube * X with
  | GetVerdaMachine ns name =>
      λ k, (k, if bool_decide (ns = "default" ∧ name = "node-0") then Ok WorldExamples.vm_new
               else WorldExamples.notfound)
  | GetVerdaCluster ns name =>
      λ k, (k, if bool_decide (ns = "default" ∧ name = "prod") then Ok ClusterExamples.vc_new
               else WorldExamples.notfound)
  | GetSecret _ name =>
      λ k, (k, Ok (if bool_decide (name = "prod-lb-ssh")
                   then keysSecret ClusterExamples.cluster0 ClusterExamples.vc_new name ClusterExamples.keys0
                   else WorldExamples.secret0))
  | e' => WorldExamples.kube _ e'
  end.

Lemma kube_named X (e : CtrlE X) k : named e (kube X e k).2.
Proof.
  destruct e; try exact I; intros x; cbn; case_bool_decide as Hb; try done; destruct Hb as [-> ->];
    intros Heq; [assert (WorldExamples.vm_new = x) as <- by congruence
                |assert (ClusterExamples.vc_new = x) as <- by congruence]; done.
Qed.

(** One call of the pass [t]. *)
Definition answer (X : Type) (e : CtrlE X) :
    (nat → Fake) * WorldExamples.Kube → (nat → Fake) * WorldExamples.Kube * X :=
  match e in CtrlE X return (nat → Fake) * WorldExamples.Kube → (nat → Fake) * WorldExamples.Kube * X with
  | Verda c e' => λ '(accts, k),
      let a := the_account c in
      (set_account a (fake _ e' (accts a)).1 accts, k, (fake _ e' (accts a)).2)
  | e' => λ '(accts, k), (accts, (kube _ e' k).1, (kube _ e' k).2)
  end.

Definition advance (t : nat) (s : world * WorldExamples.Kube) : world * WorldExamples.Kube :=
  let '(w, k) := s in
  match w_passes w !! t with
  | Some (mkPass o h (Vis e kont)) =>
      let '(accts', k', r) := answer _ e (w_accounts w, k) in
      (mkWorld accts' (<[t := mkPass o (Obs e r :: h) (kont r)]> (w_passes w)), k')
  | _ => (w, k)
  end.

Lemma advance_steps t s : rtc (world_step the_account) s.1 (advance t s).1.
Proof.
  destruct s as [[accts ps] k]. unfold advance. cbn.
  destruct (ps !! t) as [[o h [a|X e kont]]|] eqn:Ht; cbn; [done| |done].
  destruct (answer X e (accts, k)) as [[accts' k'] r] eqn:Ha. cbn. apply rtc_once.
  destruct e; cbn [answer] in Ha; injection Ha as <- <- <-;
    first [by apply (ws_verda the_account)|eapply ws_kube; [exact Ht|exact I|exact (kube_named _ _ k)]].
Qed.

Fixpoint schedule (l : list nat) (s : world * WorldExamples.Kube) : world * WorldExamples.Kube :=
  match l with
  | [] => s
  | t :: l => schedule l (advance t s)
  end.

Lemma schedule_steps l s : rtc (world_step the_account) s.1 (schedule l s).1.
Proof.
  revert s. induction l as [|t l IH]; intros s; cbn; [done|].
  etrans; [apply advance_steps|apply IH].
Qed.

Definition node0 : object := MachineObject "default" "node-0".
Definition prod : object := ClusterObject "default" "prod".

Definition both : world :=
  mkWorld (λ _, NewFake) (<[2 := mkPass prod [] (pass_of prod)]> (<[1 := mkPass node0 [] (pass_of node0)]> ∅)).

Lemma both_started : rtc (world_step the_account) empty_world both.
Proof.
  eapply rtc_l; [apply (ws_start the_account _ _ 1 node0)|apply rtc_once, ws_start].
  - apply lookup_empty.
  - vm_compute. set_solver by lia.
  - intros t' p Hp. by rewrite lookup_empty in Hp.
  - done.
  - vm_compute. set_solver by lia.
  - intros t' p [[<- <-]|[_ Hp]]%lookup_insert_Some; [done|]. by rewrite lookup_empty in Hp.
Qed.

(** The two passes take turns. *)
Definition turns : list nat := flat_map (λ _, [1; 2]) (seq 0 40).
Definition later : world := (schedule turns (both, WorldExamples.mkKube None 0)).1.

Definition machine_claim : claim := (TagMachine, "default/node-0").
Definition lb_claim : claim := (TagLoadBalancer, "default/prod").

(** Both have created their instance. *)
Definition no_instance : Instance := missingInstance "".
Definition inst1 : Instance := default no_instance (Fake_Instances (w_accounts later 0) !! "inst-1").
Definition inst2 : Instance := default no_instance (Fake_Instances (w_accounts later 0) !! "inst-2").

Lemma later_reached : rtc (world_step the_account) empty_world later.
Proof. transitivity both; [exact both_started|exact (schedule_steps turns (both, _))]. Qed.

End AccountExamples.
