(* ===== verification/Stack.v ===== *)
(** * The controllers over the client over the Verda API

    [Machine.v] and [ClusterCtl.v] say which methods of the client a pass calls,
    [SdkClient.v] which API calls a method makes.  Here the client is put under
    the controllers: [stack] carries out every [Verda] call of a pass by
    [sdkClient], so a pass becomes a program over the calls of the Verda API and
    of the management cluster, and the theorem speaks about API calls. *)

From S2P Require Import Prelude GoStd Effects Api Cloud SdkClient Ctrl Machine Pass World ClusterCtl Account.
From stdpp Require Import options.

Inductive StackE : Type → Type :=
| KubeCall {X} (e : CtrlE X) : StackE X
| ApiCall {X} (c : ClientRef) (a : ApiE X) : StackE X.

Definition stack `{VerdaSDK, MapRange} (X : Type) (e : CtrlE X) : prog StackE X :=
  match e in CtrlE X return prog StackE X with
  | Verda c e' => translate (λ _ a, trigger (ApiCall c a)) (sdkClient _ e')
  | e' => trigger (KubeCall e')
  end.

(** ** What the client does below *)

(** An instance of the API that exists under a tag. *)
Definition api_live (key value : string) (inst : ApiInstance) : Prop :=
  live_tagged key value (toInstance inst).

(** The first instance of a listing under a tag that is not discontinued. *)
Definition api_first (key value : string) (l : list ApiInstance) : option ApiInstance :=
  List.find (λ i, bool_decide (map_get (Instance_Tags (toInstance i)) key = value) &&
                  bool_decide (ApiInstance_Status i ≠ StatusDiscontinued)) l.

(** A lookup by tag that takes a listing for empty: the first instance that is
    not discontinued, if there is one, is gone.  If the listing shows instances
    that are gone as discontinued only, then it has none that exists. *)
Definition free_listing (key value : string) (l : list ApiInstance) : Prop :=
  match api_first key value l with Some i => instanceGone (toInstance i) = true | None => True end ∧
  (Forall (λ i, ApiInstance_Status i ≠ StatusDeleted ∧ ApiInstance_Status i ≠ StatusNotFound) l →
   Forall (λ j, ¬ api_live key value j) l).

(** Errors of the SDK are not the sentinels of package cloud. *)
Definition api_answer {Y} (a : ApiE Y) : Y → Prop :=
  match a in ApiE Y return Y → Prop with
  | Instances_Get => λ r, match r with Ok _ => True | Err e => errors_Is e ErrNotFound = false end
  | _ => λ _, True
  end.

(** Which method makes a call that changes something. *)
Definition on_behalf {X} (e : ClientE X) {Y} (a : ApiE Y) : Prop :=
  match a with
  | Instances_Shutdown id => match e with DeleteInstance id' => id' = id | _ => False end
  | Instances_Delete ids _ _ => match e with DeleteInstance id' => ids = [id'] | _ => False end
  | Instances_Create _ => match e with CreateInstance _ => True | _ => False end
  | _ => True
  end.

Definition create_guard {X} (e : ClientE X) (t : hist ApiE) (Y : Type) (a : ApiE Y) : Prop :=
  match e with CreateInstance spec => create_ok spec t Y a | _ => True end.

Definition api_guar {X} (e : ClientE X) (t : hist ApiE) (Y : Type) (a : ApiE Y) : Prop :=
  destructive_ok t Y a ∧ on_behalf e a ∧ create_guard e t Y a.

(** What a result says about the API. *)
Definition api_post {X} (e : ClientE X) (t : hist ApiE) : X → Prop :=
  match e in ClientE X return X → Prop with
  | GetInstance id => λ r,
      ∀ i, r = Ok i → ∃ inst, Obs (Instances_GetByID id) (Ok inst) ∈ t ∧ i = toInstance inst
  | FindInstanceByTag k v => λ r,
      match r with
      | Ok i => ∃ l inst, Obs Instances_Get (Ok l) ∈ t ∧ inst ∈ l ∧ i = toInstance inst ∧
          map_get (Instance_Tags i) k = v ∧
          (instanceGone i = true → free_listing k v l)
      | Err err => errors_Is err ErrNotFound = true →
          ∃ l, Obs Instances_Get (Ok l) ∈ t ∧ free_listing k v l
      end
  | CreateInstance _ => λ r,
      ∀ i, r = Ok i → ∃ req inst, Obs (Instances_Create req) (Ok inst) ∈ t ∧ Instance_ID i = ApiInstance_ID inst
  | _ => λ _, True
  end.

Section client.
Context `{!VerdaSDK, !MapRange}.

(** [FindInstanceByTag] takes the first. *)
Lemma find_live_first key value l i :
  api_first key value l = Some i →
  find_live (λ inst, bool_decide (map_get (Instance_Tags inst) key = value)) (map toInstance l) None =
  Some (toInstance i).
Proof.
  intros Hf. rewrite find_live_spec.
  cut (List.find (live_match (λ inst, bool_decide (map_get (Instance_Tags inst) key = value))) (map toInstance l) =
    toInstance <$> api_first key value l); [by intros ->; rewrite Hf|].
  clear Hf. unfold api_first. induction l as [|x l IH]; [done|]. cbn [map List.find].
  change (live_match (λ inst, bool_decide (map_get (Instance_Tags inst) key = value)) (toInstance x))
    with (bool_decide (map_get (Instance_Tags (toInstance x)) key = value) &&
          bool_decide (ApiInstance_Status x ≠ StatusDiscontinued)).
  by destruct (_ && _).
Qed.

Lemma free_listing_intro key value l :
  match find_live (λ inst, bool_decide (map_get (Instance_Tags inst) key = value)) (map toInstance l) None with
  | Some i => instanceGone i = true
  | None => True
  end → free_listing key value l.
Proof.
  intros Hf. assert (match api_first key value l with Some i => instanceGone (toInstance i) = true | None => True end) as Hg.
  { destruct (api_first key value l) as [i|] eqn:Hi; [|done]. by rewrite (find_live_first _ _ _ _ Hi) in Hf. }
  split; [done|]. clear Hf. rename Hg into Hf. intros Hst. apply Forall_forall. intros j Hj [Ht Hl]. unfold api_first in Hf.
  destruct (List.find _ l) as [x|] eqn:Hx; cbn in Hf.
  - apply find_some in Hx as [Hin%list_elem_of_In Hmx]. rewrite Forall_forall in Hst. destruct (Hst _ Hin) as [Hd Hn].
    apply andb_true_iff in Hmx as [_ Hmx%bool_decide_eq_true].
    unfold instanceGone in Hf. cbn in Hf. by rewrite !bool_decide_eq_false_2 in Hf.
  - apply list_elem_of_In in Hj. apply (find_none _ _ Hx) in Hj. rewrite bool_decide_eq_true_2 in Hj by done.
    cbn in Hj. apply bool_decide_eq_false in Hj. unfold instanceGone in Hl. cbn in Hl.
    destruct (decide (ApiInstance_Status j = StatusDiscontinued)) as [Hd|?]; [|done]. by rewrite Hd in Hl.
Qed.

Definition quiet : protocol ApiE := Protocol (λ _ _ _, True) (λ _ Y a, api_answer a).

Lemma sdk_find_post key value :
  wp quiet (run_sdk (sdk_FindInstanceByTag key value)) [] (api_post (FindInstanceByTag key value)).
Proof.
  apply run_sdk_wp. unfold sdk_FindInstanceByTag, sdk_find. wp_step. wp_step; [done|].
  match goal with Hr : rely _ _ _ _ _ |- _ => rename Hr into Hl end. cbn in Hl.
  destruct r as [l|err]; cbn beta iota.
  - destruct (find_live _ _ _) as [i|] eqn:Hf; [apply wpM_ret|apply wpM_throw; intros _].
    + pose proof Hf as Hs. apply find_live_sound in Hs as [?|[Hin Ht]]; [done|].
      apply list_elem_of_In, in_map_iff in Hin as (inst & <- & Hin%list_elem_of_In).
      exists l, inst. split_and!; [by left|done|done|by apply bool_decide_eq_true in Ht|].
      intros Hg. apply free_listing_intro. by rewrite Hf.
    + exists l. split; [by left|]. apply free_listing_intro. by rewrite Hf.
  - apply wpM_throw. intros Hn. unfold errorf in Hn. rewrite errors_Is_wrap in Hn by done. congruence.
Qed.

Lemma delete_scripts_quiet scripts name h :
  wpM quiet (delete_scripts scripts name) tt h (λ _ _ _, True).
Proof. apply wp_any; [done|]. by intros ? []. Qed.

Lemma api_post_wp X (e : ClientE X) : wp quiet (sdkClient X e) [] (api_post e).
Proof.
  destruct e; try (apply wp_any; done); [|apply sdk_find_post|]; apply run_sdk_wp.
  - unfold sdk_GetInstance, orNotFound. wp_step. wp_step; [done|].
    destruct r as [inst|err]; [|destruct (isNotFound err)]; wp_steps; intros i Hi; simplify_eq.
    exists inst. split; [by left|done].
  - unfold sdk_CreateInstance, sdk_DeleteStartupScriptByName.
    wp_steps; try (by intros ? ?).
    eapply wpM_mono; [apply delete_scripts_quiet|]. intros h' [] [[]|err] _; [|by intros ? ?].
    wp_steps; intros ? ?; simplify_eq; eexists _, _; (split; [hist|]); done.
Qed.

(** Which calls a method makes. *)
Definition behalf {X} (e : ClientE X) : protocol ApiE := any_answer (λ _ Y a, on_behalf e a).

Lemma delete_scripts_behalf {X} (e : ClientE X) scripts name h :
  wpM (behalf e) (delete_scripts scripts name) tt h (λ _ _ _, True).
Proof.
  revert h. induction scripts as [|s scripts IH]; intros h; cbn [delete_scripts]; [done|].
  unfold sdk_DeleteStartupScript. case_bool_decide; [apply IH|]. wp_steps; apply IH.
Qed.

Lemma purge_loop_behalf {X} (e : ClientE X) ids trash n h :
  wpM (behalf e) (purge_loop ids trash n) tt h (λ _ _ _, True).
Proof.
  revert n h. induction ids as [|v ids IH]; intros n h; cbn [purge_loop]; [done|].
  wp_steps; apply IH.
Qed.

Lemma on_behalf_wp X (e : ClientE X) : wp (behalf e) (sdkClient X e) [] (λ _ _, True).
Proof.
  destruct e; apply run_sdk_wp;
    unfold sdk_GetInstanceType, sdk_GetInstance, sdk_FindInstanceByHostname,
      sdk_FindInstanceByTag, sdk_find, sdk_GetVolume, sdk_FindVolumeByName,
      sdk_DeleteStartupScriptByName, sdk_DeleteStartupScript, sdk_CloneVolume,
      sdk_EnsureVolumeTag, tagVolume, sdk_DeleteVolume, orNotFound, sdk_CreateInstance, sdk_DeleteInstance,
      sdk_PurgeInstanceVolumes, sdk_DeleteStartupScriptByName;
    wp_steps; try done; try apply delete_scripts_behalf;
    try (eapply wpM_mono; [apply purge_loop_behalf|]; by intros ? [] []).
  eapply wpM_mono; [apply delete_scripts_behalf|]. intros h' [] [[]|err] _; [|done]. wp_steps.
Qed.

(** All of it for one method. *)
Lemma sdkClient_api X (e : ClientE X) :
  wp (Protocol (api_guar e) (λ _ Y a, api_answer a)) (sdkClient X e) [] (λ t r, api_post e t r).
Proof.
  assert (wp (any_answer (create_guard e)) (sdkClient X e) [] (λ _ _, True)) as Hc.
  { destruct e; try (apply wp_any; done). eapply wp_mono; [|apply (sdk_CreateInstance_wp spec)]. done. }
  pose proof (wp_both (any_answer (create_guard e)) quiet (Protocol (create_guard e) (λ _ Y a, api_answer a))
    (sdkClient X e) [] _ _ ltac:(done) ltac:(done) Hc (api_post_wp X e)) as Hg1.
  pose proof (wp_both (behalf e) (Protocol (create_guard e) (λ _ Y a, api_answer a))
    (Protocol (λ t Y a, on_behalf e a ∧ create_guard e t Y a) (λ _ Y a, api_answer a))
    (sdkClient X e) [] _ _ ltac:(done) ltac:(done) (on_behalf_wp X e) Hg1) as Hg2.
  eapply wp_mono; [|eapply wp_both; [..|apply (sdkClient_managed_wp X e)|exact Hg2]]; [|done..].
  cbn. by intros t r (_ & _ & _ & ?).
Qed.
End client.

(** ** What a pass does above *)

(** A call to Verda is made for an object that was read, of the name that was
    asked for. *)
Definition pass_guard `{CapiUtil, Bootstrapper} (o : object) (h : hist CtrlE) (X : Type) (e : CtrlE X) : Prop :=
  match e with
  | Verda _ _ =>
      match o with
      | MachineObject ns name =>
          ∃ vm, Obs (GetVerdaMachine ns name) (Ok vm) ∈ h ∧
            vm_namespace vm = ns ∧ vm_name vm = name ∧ machine_guard vm h X e
      | ClusterObject ns name =>
          ∃ vc, Obs (GetVerdaCluster ns name) (Ok vc) ∈ h ∧
            vc_namespace vc = ns ∧ vc_name vc = name ∧ cluster_guard vc h X e
      end
  | _ => True
  end.

Definition pass_protocol `{CapiUtil, Bootstrapper} (o : object) : protocol CtrlE :=
  Protocol (pass_guard o) (λ _ X e, named e).

Lemma pass_wp `{!CapiUtil, !Bootstrapper} o : wp (pass_protocol o) (pass_of o) [] (λ _ _, True).
Proof.
  destruct o as [ns name|ns name]; (split; [done|]); intros [x|err] Hn; cbn in Hn; try done;
    destruct (Hn _ eq_refl) as [Hns Hname]; do 2 apply wp_bind;
    (eapply (wp_mono _ _ _ (λ _ '(_, _), True)); [by intros ? [] _|]).
  - apply (wp_weaken_inv (machine_protocol x) _ (λ h, Obs (GetVerdaMachine ns name) (Ok x) ∈ h));
      [by right| |done|by left|done|apply (reconcileObject_wp x); set_solver].
    intros h X e Hin _ Hg. destruct e; try exact I. by exists x.
  - apply (wp_weaken_inv (cluster_protocol x) _ (λ h, Obs (GetVerdaCluster ns name) (Ok x) ∈ h));
      [by right| |done|by left|done|apply (cluster_reconcileObject_wp x); intros c spec r Hin; set_solver].
    intros h X e Hin _ Hg. destruct e; try exact I. by exists x.
Qed.

(** ** Both together *)

Definition stack_answer {Y} (f : StackE Y) : Y → Prop :=
  match f in StackE Y return Y → Prop with
  | KubeCall e => named e
  | ApiCall _ a => api_answer a
  end.

(** API calls through the client [c]. *)
Definition api_hist (c : ClientRef) (t : hist ApiE) : hist StackE := embed_obs (λ X a, ApiCall c a) <$> t.

Definition stack_guar (X : Type) (e : CtrlE X) (t : hist StackE) (Y : Type) (f : StackE Y) : Prop :=
  match f with
  | KubeCall _ => True
  | ApiCall c' a =>
      match e with
      | Verda c e' => c' = c ∧ ∃ t0, t = api_hist c t0 ∧ api_guar e' t0 _ a
      | _ => False
      end
  end.

Definition stack_post (X : Type) (e : CtrlE X) (t : hist StackE) : X → Prop :=
  match e in CtrlE X return X → Prop with
  | Verda c e' => λ r, ∃ t0, t = api_hist c t0 ∧ api_post e' t0 r
  | e' => λ r, t = [Obs (KubeCall e') r]
  end.

Lemma object_cases (o : object) :
  (∃ ns name, o = MachineObject ns name) ∨ (∃ ns name, o = ClusterObject ns name).
Proof. destruct o; eauto. Qed.

Section stack.
Context `{!VerdaSDK, !MapRange, !CapiUtil, !Bootstrapper} (o : object).

Lemma stack_wp X (e : CtrlE X) :
  wp (Protocol (stack_guar X e) (λ _ Y f, stack_answer f)) (stack X e) []
    (λ t r, stack_post X e t r ∧ ∀ h, rely (pass_protocol o) h X e r).
Proof.
  destruct e; try (split; [exact I|]; intros r Hr; split; [reflexivity|exact (λ _, Hr)]).
  eapply wp_mono; [|eapply (wp_embed_protocol (λ X a, ApiCall c a) _ _ _ []); [| |apply sdkClient_api]].
  - cbn. intros hs r (t & -> & Hp). split; [by exists t|done].
  - intros t Y a Hg. cbn. split; [done|]. by exists t.
  - done.
Qed.

(** The pass with its client, as one program. *)
Definition stacked : prog StackE (result Result) := translate stack (pass_of o).

Abbreviation lower := (below (pass_protocol o) stack_guar stack_post (λ Y f, stack_answer f)).

Lemma stacked_wp : wp lower stacked [] (λ _ _, True).
Proof.
  eapply wp_mono; [|eapply (wp_compose stack); [apply stack_wp|apply pass_wp|constructor]]. done.
Qed.

(** ** Whose an instance of the API is *)

(** The object that was read records [id] as its instance. *)
Definition api_recorded (hs : hist StackE) (id : string) : Prop :=
  id ≠ "" ∧
  match o with
  | MachineObject ns name =>
      ∃ vm, Obs (KubeCall (GetVerdaMachine ns name)) (Ok vm) ∈ hs ∧ id = MStatus_InstanceID (VM_Status vm)
  | ClusterObject ns name =>
      ∃ vc k, Obs (KubeCall (GetVerdaCluster ns name)) (Ok vc) ∈ hs ∧ id = LBStatus_InstanceID (lb_status k vc)
  end.

(** The API showed the instance under the recorded ID or listed it under a tag
    of the object, or the pass created it. *)
Definition api_owned (c : ClientRef) (hs : hist StackE) (id : string) : Prop :=
  ∃ inst, ApiInstance_ID inst = id ∧
    ((∃ rid, api_recorded hs rid ∧ Obs (ApiCall c (Instances_GetByID rid)) (Ok inst) ∈ hs) ∨
     (∃ l kv, kv ∈ claims_of o ∧ Obs (ApiCall c Instances_Get) (Ok l) ∈ hs ∧ inst ∈ l ∧
        map_get (tags_map (ApiInstance_Tags inst)) kv.1 = kv.2) ∨
     (∃ req, Obs (ApiCall c (Instances_Create req)) (Ok inst) ∈ hs)).

(** The API showed the instance to be the provider's. *)
Definition shown_managed (c : ClientRef) (hs : hist StackE) (id : string) : Prop :=
  ∃ inst, Obs (ApiCall c (Instances_GetByID id)) (Ok inst) ∈ hs ∧
    managed (tags_map (ApiInstance_Tags inst)) = true.

(** A listing in which the lookup by the tag found nothing that exists. *)
Definition api_free (c : ClientRef) (hs : hist StackE) (kv : claim) : Prop :=
  ∃ l, Obs (ApiCall c Instances_Get) (Ok l) ∈ hs ∧ free_listing kv.1 kv.2 l.

(** ** From the calls above to the calls below *)

Section history.
Context (h : hist CtrlE) (hs : hist StackE).
Context (Hx : expands (pass_protocol o) stack_post h hs).

Lemma below_kube X (e : CtrlE X) r :
  match e with Verda _ _ => False | _ => True end → Obs e r ∈ h → Obs (KubeCall e) r ∈ hs.
Proof using Hx.
  intros He Hin. destruct (expands_elem _ _ _ _ _ _ _ Hx Hin) as (t & Ht & Hs).
  destruct e; try done; cbn in Ht; subst t; apply Hs; by left.
Qed.

Lemma below_api c X (e : ClientE X) r :
  Obs (Verda c e) r ∈ h → ∃ t, api_post e t r ∧ api_hist c t ⊆ hs.
Proof using Hx.
  intros Hin. destruct (expands_elem _ _ _ _ _ _ _ Hx Hin) as (t & (t0 & -> & Hp) & Hs).
  by exists t0.
Qed.

Lemma api_hist_elem c X (a : ApiE X) r t : Obs a r ∈ t → api_hist c t ⊆ hs → Obs (ApiCall c a) r ∈ hs.
Proof. intros Hin Hs. apply Hs. exact (embed_elem (λ X a, ApiCall c a) _ a r t Hin). Qed.

Lemma owned_recorded c rid i :
  api_recorded hs rid → Obs (Verda c (GetInstance rid)) (Ok i) ∈ h → api_owned c hs (Instance_ID i).
Proof using Hx.
  intros Hr Hin. destruct (below_api _ _ _ _ Hin) as (t & Hp & Hs).
  destruct (Hp i eq_refl) as (inst & Ht & ->). exists inst. split; [done|]. left. exists rid.
  split; [done|]. by eapply api_hist_elem.
Qed.

Lemma owned_tagged c (kv : claim) i :
  kv ∈ claims_of o → Obs (Verda c (FindInstanceByTag kv.1 kv.2)) (Ok i) ∈ h → api_owned c hs (Instance_ID i).
Proof using Hx.
  intros Hk Hin. destruct (below_api _ _ _ _ Hin) as (t & (l & inst & Ht & Hl & -> & Htag & _) & Hs).
  exists inst. split; [done|]. right. left. exists l, kv. split_and!; [done|by eapply api_hist_elem|done|done].
Qed.

Lemma owned_created c spec i :
  Obs (Verda c (CreateInstance spec)) (Ok i) ∈ h → api_owned c hs (Instance_ID i).
Proof using Hx.
  intros Hin. destruct (below_api _ _ _ _ Hin) as (t & Hp & Hs).
  destruct (Hp i eq_refl) as (req & inst & Ht & ->). exists inst. split; [done|]. right. right. exists req.
  by eapply api_hist_elem.
Qed.

Lemma free_looked c (kv : claim) : looked c kv h → api_free c hs kv.
Proof using Hx.
  intros (r & Hin & Hr). destruct (below_api _ _ _ _ Hin) as (t & Hp & Hs). destruct r as [i|err].
  - destruct Hp as (l & inst & Ht & _ & _ & _ & Hg). exists l. split; [by eapply api_hist_elem|auto].
  - destruct (Hp Hr) as (l & Ht & Hl). exists l. split; [by eapply api_hist_elem|done].
Qed.

(** What the controllers find is theirs. *)
Lemma machine_found_owned ns name vm c i :
  o = MachineObject ns name → Obs (GetVerdaMachine ns name) (Ok vm) ∈ h →
  vm_namespace vm = ns → vm_name vm = name → found_instance c vm h i →
  Instance_Status i ≠ StatusNotFound → api_owned c hs (Instance_ID i).
Proof using Hx.
  intros Ho Hin Hns Hname Hf Hst. unfold found_instance in Hf. case_decide as Hid.
  - apply (owned_tagged c (TagMachine, machineTagValue vm)); [|apply Hf].
    unfold claims_of, machineTagValue. rewrite Ho, Hns, Hname. by left.
  - destruct Hf as [Hf|[-> _]]; [|done]. eapply owned_recorded; [|exact Hf]. split; [done|].
    rewrite Ho. exists vm. split; [by apply below_kube|done].
Qed.

Lemma cluster_found_owned ns name vc c k i :
  o = ClusterObject ns name → Obs (GetVerdaCluster ns name) (Ok vc) ∈ h →
  vc_namespace vc = ns → vc_name vc = name → lb_found c k vc h i →
  Instance_Status i ≠ StatusNotFound → api_owned c hs (Instance_ID i).
Proof using Hx.
  intros Ho Hin Hns Hname Hf Hst. unfold lb_found in Hf. case_decide as Hid.
  - apply (owned_tagged c (lb_tag k, clusterTagValue vc)); [|apply Hf].
    unfold claims_of, clusterTagValue. rewrite Ho, Hns, Hname. destruct k; set_solver.
  - destruct Hf as [Hf|[-> _]]; [|done]. eapply owned_recorded; [|exact Hf]. split; [done|].
    rewrite Ho. exists vc, k. split; [by apply below_kube|done].
Qed.

Lemma gone_not_found i : instanceGone i = false → Instance_Status i ≠ StatusNotFound.
Proof. intros Hg Hs. unfold instanceGone in Hg. rewrite Hs in Hg. by vm_compute in Hg. Qed.

(** What they delete is theirs, and they create only what they looked for. *)
Lemma delete_owned c id : pass_guard o h _ (Verda c (DeleteInstance id)) → api_owned c hs id.
Proof using Hx.
  intros Hg. unfold pass_guard in Hg. destruct (object_cases o) as [(ns & name & Ho)|(ns & name & Ho)]; rewrite Ho in Hg.
  - destruct Hg as (vm & Hin & Hns & Hname & i & -> & Hd). destruct (deleting _).
    + destruct Hd as (Hf & Hg & _). eapply machine_found_owned; try done. by apply gone_not_found.
    + destruct Hd as [Hst [Hf|[spec Hc]]]; [|by eapply owned_created].
      eapply machine_found_owned; try done. by rewrite Hst.
  - destruct Hg as (vc & Hin & Hns & Hname & k & i & -> & Hf & Hg & _).
    eapply cluster_found_owned; try done. by apply gone_not_found.
Qed.

Lemma create_free c spec :
  pass_guard o h _ (Verda c (CreateInstance spec)) →
  ∃ kv, kv ∈ claims_of o ∧ api_free c hs kv ∧ tagged_only (InstanceSpec_Tags spec) kv.1 kv.2 ∧
    managed (InstanceSpec_Tags spec) = true.
Proof using Hx.
  intros Hg. unfold pass_guard in Hg. destruct (object_cases o) as [(ns & name & Ho)|(ns & name & Ho)]; rewrite Ho in Hg.
  - destruct Hg as (vm & Hin & Hns & Hname & Hc). destruct Hc as (_ & _ & (_ & Hl) & _ & _ & Hm & Ht & _).
    exists (TagMachine, machineTagValue vm). split_and!; [|by apply free_looked|done|done].
    unfold claims_of, machineTagValue. rewrite Ho, Hns, Hname. by left.
  - destruct Hg as (vc & Hin & Hns & Hname & k & _ & _ & (_ & r & Hr & Hl) & _ & _ & _ & Hm & Ht).
    exists (lb_tag k, clusterTagValue vc). split_and!; [| |done|done].
    + unfold claims_of, clusterTagValue. rewrite Ho, Hns, Hname. destruct k; set_solver.
    + apply free_looked. exists r. split; [done|]. by destruct r; [apply Hl|].
Qed.
End history.

Lemma api_owned_mono c hs hs' id : hs ⊆ hs' → api_owned c hs id → api_owned c hs' id.
Proof.
  intros Hs (inst & Hid & Hor). exists inst. split; [done|].
  destruct Hor as [(rid & [Hne Hrec] & Hin)|[(l & kv & Hk & Hin & ? & ?)|(req & Hin)]].
  - left. exists rid. split; [|by apply Hs]. split; [done|]. destruct o; naive_solver.
  - right. left. exists l, kv. split_and!; try done. by apply Hs.
  - right. right. exists req. by apply Hs.
Qed.

Lemma api_free_mono c hs hs' kv : hs ⊆ hs' → api_free c hs kv → api_free c hs' kv.
Proof. intros Hs (l & Hin & Hl). exists l. split; [by apply Hs|done]. Qed.

Lemma seen_shown c t0 hs0 id inst : seen_instance t0 id inst → shown_managed c (api_hist c t0 ++ hs0) id.
Proof.
  intros [Hin Hm]. exists inst. split; [|done]. apply elem_of_app. left. exact (embed_elem (λ X a, ApiCall c a) _ _ _ _ Hin).
Qed.

Lemma request_tag spec req key value :
  Req_Tags req ≡ₚ map (λ '(k, v), mkTag k v) (map_to_list (InstanceSpec_Tags spec)) →
  map_get (InstanceSpec_Tags spec) key = value → value ≠ "" → mkTag key value ∈ Req_Tags req.
Proof.
  intros Hp Hg Hne. rewrite Hp. apply list_elem_of_In, in_map_iff. exists (key, value). split; [done|].
  apply list_elem_of_In, elem_of_map_to_list. unfold map_get in Hg.
  by destruct (InstanceSpec_Tags spec !! key) as [v|]; cbn in Hg; subst.
Qed.

(** Answers as the API and the management cluster give them. *)
Definition stack_answers : protocol StackE := Protocol (λ _ _ _, True) (λ _ Y f, stack_answer f).

Lemma stacked_call hs r c X (a : ApiE X) x after before :
  exec stack_answers stacked [] hs r → hs = after ++ Obs (ApiCall c a) x :: before →
  ∃ h hs0 t0 Y (e : ClientE Y), expands (pass_protocol o) stack_post h hs0 ∧
    before = api_hist c t0 ++ hs0 ∧ pass_guard o h _ (Verda c e) ∧ api_guar e t0 X a.
Proof.
  intros Hex ->. apply (exec_rely _ lower) in Hex; [|done].
  destruct (wp_exec _ _ _ _ _ _ stacked_wp I Hex) as [_ Hr].
  apply respects_split in Hr as (h & hs0 & t & Y & e & Hexp & -> & Hg & Hs). cbn in Hs.
  destruct e; try done. destruct Hs as (-> & t0 & -> & Ha). by exists h, hs0, t0, _, e.
Qed.

(** (C3) End to end.  Run over the real client, whatever the Verda API answers
    (its errors not being the provider's own sentinels) and whatever the
    management cluster answers (an object read has the name asked for), a pass
    over a VerdaMachine or a VerdaCluster makes only these changes of instances
    at the API: it shuts down or deletes an instance only if the API showed it
    with the provider's tag in the same pass and it is the object's: shown under
    the ID the object records, listed under the object's own tag, or created in
    the pass; and it asks for a new instance, with the object's tag and the
    provider's, only after a listing in which the first instance under the
    object's tag that is not discontinued, if any, is gone; so there is none that
    exists, provided the listing shows no instance as deleted or not found. *)
Theorem stack_api_safe hs r c X (a : ApiE X) x after before :
  exec stack_answers stacked [] hs r → hs = after ++ Obs (ApiCall c a) x :: before →
  match a with
  | Instances_Shutdown id => shown_managed c before id ∧ api_owned c before id
  | Instances_Delete ids _ permanently =>
      permanently = false ∧ ∃ id, ids = [id] ∧ shown_managed c before id ∧ api_owned c before id
  | Instances_Create req =>
      ∃ kv, kv ∈ claims_of o ∧ api_free c before kv ∧
        mkTag kv.1 kv.2 ∈ Req_Tags req ∧ mkTag TagManagedBy ManagedByValue ∈ Req_Tags req
  | _ => True
  end.
Proof.
  intros Hex Hhs. destruct (stacked_call _ _ _ _ _ _ _ _ Hex Hhs)
    as (h & hs0 & t0 & Y & e & Hx & -> & Hg & Hd & Hb & Hc).
  assert (hs0 ⊆ api_hist c t0 ++ hs0) as Hsub by (intros y Hy; apply elem_of_app; by right).
  destruct a; try done; destruct e; try done; cbn in Hb, Hd, Hc.
  - destruct (create_free _ _ Hx _ _ Hg) as (kv & Hk & Hf & [Ht _] & Hm). destruct Hc as (_ & _ & _ & Htags & _).
    exists kv. split_and!; [done|by eapply api_free_mono| |].
    + eapply request_tag; [done|done|]. by apply (claims_owner o).
    + eapply request_tag; [done| |done]. by apply bool_decide_eq_true in Hm.
  - subst. destruct Hd as [inst Hi]. split; [by eapply seen_shown|].
    eapply api_owned_mono; [exact Hsub|]. by eapply delete_owned.
  - subst. destruct Hd as (id' & inst & [= <-] & Hi & _ & _ & ->). split; [done|]. exists id. split; [done|].
    split; [by eapply seen_shown|]. eapply api_owned_mono; [exact Hsub|]. by eapply delete_owned.
Qed.
End stack.

(** ** A machine being deleted whose instance runs *)
Module StackExamples.
#[local] Existing Instance CapiExamples.capi.
#[local] Existing Instance WorldExamples.script_as_is.
#[local] Existing Instance SdkExamples.sdk_constants.
#[local] Existing Instance SdkExamples.range_in_key_order.

Definition vm_del : VerdaMachine := WorldExamples.vm_of "" "i-1" "" (Some 1%Z).
Definition node0 : object := MachineObject "default" "node-0".

Definition running : ApiInstance :=
  mkApiInstance "i-1" "node-0" StatusRunning "FIN-01" "CPU.4V.16G" (Some "203.0.113.7") None (Some "v-os") ["v-os"]
    [mkTag TagManagedBy ManagedByValue; mkTag TagMachine "default/node-0"].

Definition missing {A} : result A := Err (APIError 404 "not found").

Definition api (X : Type) (a : ApiE X) : X :=
  match a in ApiE X return X with
  | InstanceTypes_Get => Ok []
  | Instances_Get => Ok [running]
  | Instances_GetByID id => if bool_decide (id = "i-1") then Ok running else missing
  | Instances_Create _ => missing
  | Instances_Shutdown _ | Instances_Delete _ _ _ | StartupScripts_Delete _ => Ok tt
  | StartupScripts_GetAll => Ok []
  | StartupScripts_Add _ _ => missing
  | Volumes_Get _ => missing
  | Volumes_List | Volumes_GetInTrash => Ok []
  | Volumes_Clone _ _ _ => missing
  | Volumes_AddTag _ _ | Volumes_Delete _ _ => Ok tt
  end.

Definition hdl (X : Type) (e : StackE X) (k : WorldExamples.Kube) : WorldExamples.Kube * X :=
  match e in StackE X return WorldExamples.Kube * X with
  | ApiCall _ a => (k, api _ a)
  | KubeCall e' =>
      match e' in CtrlE X return WorldExamples.Kube * X with
      | GetVerdaMachine ns name =>
          (k, if bool_decide (ns = "default" ∧ name = "node-0") then Ok vm_del else WorldExamples.notfound)
      | GetVerdaCluster _ _ => (k, WorldExamples.notfound)
      | e'' => WorldExamples.kube _ e'' k
      end
  end.

Lemma hdl_answers h X (e : StackE X) k : rely stack_answers h X e (hdl X e k).2.
Proof.
  destruct e as [Y e|Y c a]; [destruct e; try exact I|destruct a; try exact I].
  - intros vm. cbn. case_bool_decide as Hb; [|done]. destruct Hb as [-> ->]. intros Heq.
    assert (vm_del = vm) as <- by congruence. done.
  - done.
Qed.

Definition traced := trace hdl (stacked node0) (WorldExamples.mkKube None 0) [].
Definition calls : hist StackE := traced.1.2.

Lemma stack_api_safe_witness :
  shown_managed 0 (drop 2 calls) "i-1" ∧ api_owned node0 0 (drop 2 calls) "i-1".
Proof.
  apply (stack_api_safe node0 calls traced.2 0 _ (Instances_Shutdown "i-1") (Ok tt) (take 1 calls)).
  - exact (trace_exec_rely hdl stack_answers _ _ [] hdl_answers).
  - vm_compute. reflexivity.
Defined.

(** A new machine under whose tag the API lists two instances, first one it
    shows as deleted and then one that runs. *)
Definition listed_twice (id id' : string) (ip : option string) : list ApiInstance :=
  [mkApiInstance id "node-0" StatusDeleted "FIN-01" "CPU.4V.16G" None None None [] (ApiInstance_Tags running);
   mkApiInstance id' "node-0" StatusRunning "FIN-01" "CPU.4V.16G" ip None None [] (ApiInstance_Tags running)].

Definition hdl_listed (l : list ApiInstance) (X : Type) (e : StackE X) (k : WorldExamples.Kube) :
    WorldExamples.Kube * X :=
  match e in StackE X return WorldExamples.Kube * X with
  | ApiCall _ a =>
      match a in ApiE X return WorldExamples.Kube * X with
      | Instances_Get => (k, Ok l)
      | StartupScripts_Add name _ => (k, Ok (mkApiScript "s-2" name))
      | a' => (k, api _ a')
      end
  | KubeCall e' => WorldExamples.kube _ e' k
  end.

(** The calls of a pass over the machine, with this listing. *)
Definition pass_listed (l : list ApiInstance) : hist StackE :=
  (trace (hdl_listed l) (stacked node0) (WorldExamples.mkKube (Some WorldExamples.vm_new) 0) []).1.2.

End StackExamples.
