(* ===== verification/Template.v ===== *)
(** * The VerdaMachineTemplate controller

    [internal/controller/verdamachinetemplate_controller.go]: the capacity a
    machine of the template will have, read from the instance type catalog for
    the autoscaler.  A handler is a program over [CtrlE] that mutates the
    template; logging is left out. *)

From S2P Require Import Prelude GoStd GoTime Effects Api Cloud Fake Ctrl Pass World.
From stdpp Require Import options.

Local Open Scope go_scope.

Definition capacityResyncInterval : Z := 12 * 60 * Minute.
Definition gpuResourceName := "nvidia.com/gpu".

(** An [int64]: the value of a machine word with that many bits. *)
Definition int64 (z : Z) : Z := (z + 2 ^ 63) mod 2 ^ 64 - 2 ^ 63.

Definition capacityFor (info : InstanceTypeInfo) : ResourceList :=
  let capacity : ResourceList :=
    <["cpu" := int64 (InstanceTypeInfo_CPUs info)]>
      {["memory" := int64 (Z.shiftl (int64 (InstanceTypeInfo_MemoryGB info)) 30)]} in
  if (0 <? InstanceTypeInfo_GPUs info)%Z
  then <[gpuResourceName := int64 (InstanceTypeInfo_GPUs info)]> capacity else capacity.

Abbreviation MT := (M VerdaMachineTemplate CtrlE).

Section template.
Context `{!CapiUtil}.

Definition setCapacityNotReady (reason message : string) : MT unit :=
  setCondition (mkCondition CapacityReadyCondition ConditionFalse reason message).

(** The credentials of the cluster the template belongs to, if it can be
    found. *)
Definition templateIdentity : MT Identity :=
  let! t := getM in
  let ns := Meta_Namespace (VMT_Meta t) in
  let global : MT Identity := retM (mkIdentity ns "") in
  match Meta_Labels (VMT_Meta t) !! ClusterNameLabel with
  | None => global
  | Some clusterName =>
      let? c := call (GetCluster ns clusterName) in
      match c with
      | Err _ => global
      | Ok cluster =>
          if Cluster_InfrastructureRef_IsDefined cluster then
            let? v := call (GetVerdaCluster ns (Cluster_InfrastructureRef_Name cluster)) in
            match v with
            | Err _ => global
            | Ok verdaCluster => retM (mkIdentity ns (IdentitySecretName verdaCluster))
            end
          else global
      end
  end.

Definition set_Capacity (capacity : ResourceList) (t : VerdaMachineTemplate) : VerdaMachineTemplate :=
  mkVerdaMachineTemplate (VMT_Meta t) (VMT_Spec t)
    (mkVerdaMachineTemplateStatus capacity (mkNodeInfo "amd64" "linux") (TStatus_Conditions (VMT_Status t))).

(** The body of [Reconcile] under the deferred patch. *)
Definition reconcileCapacity : MT Result :=
  let! identity := templateIdentity in
  let? c := call (ClientFor identity) in
  match c with
  | Err err => do! setCapacityNotReady "CredentialsUnavailable" (Error err) in throw err
  | Ok verdaClient =>
      let! t := getM in
      let instanceType := MSpec_InstanceType (VMT_Spec t) in
      let? info := call (Verda verdaClient (GetInstanceType instanceType)) in
      match info with
      | Err err =>
          if errors_Is err ErrNotFound then
            do! setCapacityNotReady "UnknownInstanceType"
                  ("instance type " +:+ fmt_q instanceType +:+ " is not in the Verda catalog") in
            retM (mkResult capacityResyncInterval)
          else
            do! setCapacityNotReady "CatalogUnavailable" (Error err) in throw err
      | Ok info =>
          do! modify (set_Capacity (capacityFor info)) in
          do! setCondition (mkCondition CapacityReadyCondition ConditionTrue ReadyReason "") in
          retM (mkResult capacityResyncInterval)
      end
  end.

Definition reconcileTemplate : MT Result :=
  let! t := getM in
  if deleting (VMT_Meta t) then retM emptyResult
  else
    do! call (NewPatchHelper (VMT_Meta t)) in
    deferred reconcileCapacity (let! t := getM in call (PatchVerdaMachineTemplate t)).

Definition Reconcile (ns name : string) : prog CtrlE (result Result) :=
  get_then (GetVerdaMachineTemplate ns name) (λ err, if IsNotFound err then Ok emptyResult else Err err)
    reconcileTemplate.
End template.

(** ** The capacity is the catalog's *)

(** The capacity a catalog entry stands for: its CPUs, its gigabytes of memory
    as bytes, its GPUs under NVIDIA's resource name if it has any, and nothing
    else.  It is asked for of entries whose counts are not negative and fit a
    machine word (fewer than 2^33 GB of memory, so that the bytes fit too). *)
Definition capacity_of (info : InstanceTypeInfo) (capacity : ResourceList) : Prop :=
  (0 <= InstanceTypeInfo_MemoryGB info < 2 ^ 33)%Z →
  (0 <= InstanceTypeInfo_CPUs info < 2 ^ 63)%Z → (0 <= InstanceTypeInfo_GPUs info < 2 ^ 63)%Z →
  ∀ resource, capacity !! resource =
    if decide (resource = "cpu") then Some (InstanceTypeInfo_CPUs info)
    else if decide (resource = "memory") then Some (InstanceTypeInfo_MemoryGB info * 1024 * 1024 * 1024)%Z
    else if decide (resource = "nvidia.com/gpu" ∧ InstanceTypeInfo_GPUs info ≠ 0%Z)
    then Some (InstanceTypeInfo_GPUs info)
    else None.

Lemma int64_small z : (- 2 ^ 63 <= z < 2 ^ 63)%Z → int64 z = z.
Proof. intros Hz. unfold int64. rewrite Z.mod_small; lia. Qed.

Lemma int64_range z : (- 2 ^ 63 <= int64 z < 2 ^ 63)%Z.
Proof. unfold int64. pose proof (Z.mod_pos_bound (z + 2 ^ 63) (2 ^ 64)). lia. Qed.

Lemma capacityFor_catalog info : capacity_of info (capacityFor info).
Proof.
  intros Hm Hc Hg resource. unfold capacityFor, gpuResourceName.
  rewrite Z.shiftl_mul_pow2, !(int64_small (InstanceTypeInfo_MemoryGB info)), (int64_small (InstanceTypeInfo_CPUs info)),
    (int64_small (_ * _)), (int64_small (InstanceTypeInfo_GPUs info)) by lia.
  replace (InstanceTypeInfo_MemoryGB info * 2 ^ 30)%Z
    with (InstanceTypeInfo_MemoryGB info * 1024 * 1024 * 1024)%Z by lia.
  destruct (0 <? InstanceTypeInfo_GPUs info)%Z eqn:H0; bool_to_prop; repeat case_decide;
    destruct_and?; subst; simplify_map_eq; try done; try lia.
  rewrite lookup_insert_ne by naive_solver lia. by simplify_map_eq.
Qed.

(** Whatever the catalog says, every quantity is an [int64]. *)
Theorem capacity_machine_width info :
  map_Forall (λ _ q, (- 2 ^ 63 <= q < 2 ^ 63)%Z) (capacityFor info).
Proof.
  unfold capacityFor. destruct (0 <? _)%Z; repeat apply map_Forall_insert_2;
    try apply map_Forall_empty; apply int64_range.
Qed.

(** What a pass may write back. *)
Definition capacity_ok `{!CapiUtil} (t : VerdaMachineTemplate) (h : hist CtrlE) (t' : VerdaMachineTemplate) : Prop :=
  VMT_Meta t' = VMT_Meta t ∧ VMT_Spec t' = VMT_Spec t ∧
  ((∃ c info, Obs (Verda c (GetInstanceType (MSpec_InstanceType (VMT_Spec t)))) (Ok info) ∈ h ∧
      capacity_of info (TStatus_Capacity (VMT_Status t')) ∧
      TStatus_NodeInfo (VMT_Status t') = mkNodeInfo "amd64" "linux" ∧
      conditions_IsTrue (GetConditions t') CapacityReadyCondition = true) ∨
   (TStatus_Capacity (VMT_Status t') = TStatus_Capacity (VMT_Status t) ∧
    conditions_IsTrue (GetConditions t') CapacityReadyCondition = false)).

(** The credentials a pass may use: the manager's, or those of the VerdaCluster
    of the template's cluster, in the template's namespace. *)
Definition identity_ok (t : VerdaMachineTemplate) (h : hist CtrlE) (i : Identity) : Prop :=
  Identity_Namespace i = Meta_Namespace (VMT_Meta t) ∧
  (Identity_SecretName i = "" ∨
   ∃ clusterName cluster vc, Meta_Labels (VMT_Meta t) !! ClusterNameLabel = Some clusterName ∧
     Obs (GetCluster (Meta_Namespace (VMT_Meta t)) clusterName) (Ok cluster) ∈ h ∧
     Obs (GetVerdaCluster (Meta_Namespace (VMT_Meta t)) (Cluster_InfrastructureRef_Name cluster)) (Ok vc) ∈ h ∧
     Identity_SecretName i = IdentitySecretName vc).

Definition template_guard `{!CapiUtil} (t : VerdaMachineTemplate) (h : hist CtrlE) (X : Type) (e : CtrlE X) : Prop :=
  match e with
  | PatchVerdaMachineTemplate t' => deleting (VMT_Meta t) = false ∧ capacity_ok t h t'
  | Verda _ (GetInstanceType name) => name = MSpec_InstanceType (VMT_Spec t)
  | Verda _ _ => False
  | ClientFor i => identity_ok t h i
  | _ => True
  end.

Lemma capacity_ok_mono `{!CapiUtil} t h h' t' : h ⊆ h' → capacity_ok t h t' → capacity_ok t h' t'.
Proof.
  intros Hs (Hm & Hsp & [(c & info & ? & ? & ? & ?)|?]); (split; [done|]); (split; [done|]); [left|by right].
  exists c, info. auto.
Qed.

Section template_wp.
Context `{!CapiUtil} (t0 : VerdaMachineTemplate).
Abbreviation P := (any_answer (template_guard t0)).

Lemma templateIdentity_wp h (Q : hist CtrlE → VerdaMachineTemplate → result Identity → Prop) :
  (∀ h' i, identity_ok t0 h' i → Q h' t0 (Ok i)) → wpM P templateIdentity t0 h Q.
Proof.
  intros HQ. unfold templateIdentity. wp_steps; apply HQ; (split; [done|]); try (by left).
  right. eexists _, _, _. split_and!; [done|hist|hist|done].
Qed.

Lemma reconcileCapacity_wp `{!CapiUtilLaws} h : wpM P reconcileCapacity t0 h (λ h' t' _, capacity_ok t0 h' t').
Proof.
  unfold reconcileCapacity. wp_step. apply templateIdentity_wp. intros h1 identity Hid.
  unfold setCapacityNotReady, setCondition. wp_steps; try done.
  all: split; [done|]; (split; [done|]); cbn; rewrite ?IsTrue_Set; cbn.
  - left. eexists _, _. split_and!; [hist|apply capacityFor_catalog|done|done].
  - by right.
  - by right.
  - by right.
Qed.

Lemma reconcileTemplate_wp `{!CapiUtilLaws} h : wpM P reconcileTemplate t0 h (λ _ _ _, True).
Proof.
  unfold reconcileTemplate. do 2 wp_step. destruct (deleting (VMT_Meta t0)) eqn:Hdel; [by wp_step|].
  wp_step. wp_step; [exact I|]. wp_step; [|done].
  apply wpM_deferred. eapply wpM_mono; [apply reconcileCapacity_wp|].
  intros h' t' r Hok. do 2 wp_step. by wp_step.
Qed.
End template_wp.

Definition is_get_template (o : obs CtrlE) : bool :=
  match o with Obs (GetVerdaMachineTemplate _ _) _ => true | _ => false end.

Section template_theorems.
Context `{!CapiUtil}.

(** A pass reads the object first; every later call satisfies [template_guard]
    for the object read. *)
Lemma template_Reconcile_call `{!CapiUtilLaws} ns name h r X (e : CtrlE X) a after before :
  runs (Reconcile ns name) h r → h = after ++ Obs e a :: before →
  is_get_template (Obs e a) = false →
  ∃ t, Obs (GetVerdaMachineTemplate ns name) (Ok t) ∈ before ∧ template_guard t before X e.
Proof.
  apply (get_then_call _ _ _ template_guard); [done|done|]. intros t. exact (reconcileTemplate_wp t _).
Qed.

(** (C36) The capacity is the catalog's: a pass over a VerdaMachineTemplate makes
    no change at Verda; it asks the catalog for the template's own instance
    type, with credentials of the template's namespace; and the object it
    writes back has the metadata and spec it was read with, and either the
    capacity of the entry the catalog answered in this pass (its CPUs, its
    memory in bytes, its GPUs if it has any and nothing else, for counts that
    fit a machine word) together with a true CapacityReady, or the capacity it
    had before together with a false one. *)
Theorem template_capacity_truthful `{!CapiUtilLaws} ns name h r X (e : CtrlE X) a after before :
  runs (Reconcile ns name) h r → h = after ++ Obs e a :: before →
  match e with
  | Verda _ e' =>
      ∃ t, Obs (GetVerdaMachineTemplate ns name) (Ok t) ∈ before ∧
        match e' with GetInstanceType n => n = MSpec_InstanceType (VMT_Spec t) | _ => False end
  | ClientFor i => ∃ t, Obs (GetVerdaMachineTemplate ns name) (Ok t) ∈ before ∧ identity_ok t before i
  | PatchVerdaMachineTemplate t' =>
      ∃ t, Obs (GetVerdaMachineTemplate ns name) (Ok t) ∈ before ∧ capacity_ok t before t'
  | _ => True
  end.
Proof.
  intros Hex Hh. destruct e; try done.
  all: apply (template_Reconcile_call _ _ _ _ _ _ _ _ _ Hex) in Hh as (t0 & Hin & Hg); [|done].
  all: exists t0; (split; [done|]); try done. by destruct Hg.
Qed.
End template_theorems.

(** ** Examples *)

Module TemplateExamples.
#[local] Existing Instance CapiExamples.capi.
#[local] Existing Instance CapiExamples.capi_laws.
#[local] Existing Instance FakeExamples.range_in_key_order.

Definition template0 : VerdaMachineTemplate :=
  mkVerdaMachineTemplate (mkObjectMeta "md-0" "default" {[ClusterNameLabel := "prod"]} ∅ [] 0 None)
    (WorldExamples.spec_of "") (mkVerdaMachineTemplateStatus ∅ (mkNodeInfo "" "") []).

(** The management cluster of [WorldExamples] with one template in it. *)
Definition kube (X : Type) (e : CtrlE X) (k : WorldExamples.Kube) : WorldExamples.Kube * X :=
  match e in CtrlE X return WorldExamples.Kube * X with
  | GetVerdaMachineTemplate _ _ => (k, Ok template0)
  | e' => WorldExamples.kube _ e' k
  end.

Definition pass :=
  trace (with_fake kube) (Reconcile "default" "md-0") (NewFake, WorldExamples.mkKube None 0) [].
Definition written : VerdaMachineTemplate :=
  SetConditions [mkCondition CapacityReadyCondition ConditionTrue ReadyReason ""]
    (set_Capacity (capacityFor (mkInstanceTypeInfo "CPU.4V.16G" 4 16 0 "")) template0).

Lemma template_capacity_truthful_witness :
  (∃ t, Obs (GetVerdaMachineTemplate "default" "md-0") (Ok t) ∈ drop 1 pass.1.2 ∧
     capacity_ok t (drop 1 pass.1.2) written) ∧
  TStatus_Capacity (VMT_Status written) !! "memory" = Some 17179869184%Z.
Proof.
  split; [|vm_compute; reflexivity].
  apply (template_capacity_truthful "default" "md-0" pass.1.2 pass.2 _ (PatchVerdaMachineTemplate written)
    (Ok tt) []).
  - apply trace_exec.
  - vm_compute. reflexivity.
Defined.
End TemplateExamples.
