(* ===== verification/Credentials.v ===== *)
(** * Credentials ([internal/cloud/credentials.go])

    [LoadCredentials] combines the environment with the INI file of the verda
    command line tool.  The process environment and the file system are the
    calls of [ProcE]; the file is read by a [bufio.Scanner], whose line buffer
    is modelled.  The text of a credentials file is ASCII, as for all of
    package strings. *)

From S2P Require Import Prelude GoStd Effects Ctrl.
From stdpp Require Import options.

Local Open Scope go_scope.

Record Credentials := mkCredentials {
  BaseURL : string;
  ClientID : string;
  ClientSecret : string
}.
#[export] Instance Credentials_eq_dec : EqDecision Credentials.
Proof. solve_decision. Defined.

Definition set_BaseURL (v : string) (c : Credentials) : Credentials :=
  mkCredentials v (ClientID c) (ClientSecret c).
Definition set_ClientID (v : string) (c : Credentials) : Credentials :=
  mkCredentials (BaseURL c) v (ClientSecret c).
Definition set_ClientSecret (v : string) (c : Credentials) : Credentials :=
  mkCredentials (BaseURL c) (ClientID c) v.

Definition EnvBaseURL := "VERDA_BASE_URL".
Definition EnvClientID := "VERDA_CLIENT_ID".
Definition EnvClientSecret := "VERDA_CLIENT_SECRET".
Definition EnvProfile := "VERDA_PROFILE".

(** ** The credentials file *)

Module CredentialsFile.

(** [bufio.MaxScanTokenSize]: the buffer of a scanner, line end included. *)
Definition MaxScanTokenSize : Z := 64 * 1024.
Definition ErrTooLong : error := errorString "bufio.Scanner: token too long".

(** [bufio.ScanLines]: a carriage return before the line end is dropped. *)
Fixpoint dropCR (s : string) : string :=
  match s with
  | "" => ""
  | String c "" => if ascii_dec c (ascii_of_nat 13) then "" else s
  | String c s' => String c (dropCR s')
  end.

(** The lines of a text; nothing follows the last line end. *)
Fixpoint raw_lines (pieces : list string) : list string :=
  match pieces with
  | [] => []
  | [x] => if bool_decide (x = "") then [] else [x]
  | x :: l => x :: raw_lines l
  end.

(** The tokens of [scanner.Scan] and whether the buffer overflowed: a line
    that leaves no room for its line end stops the scanner. *)
Fixpoint scan_raw (l : list string) : list string * option error :=
  match l with
  | [] => ([], None)
  | x :: l =>
      if (MaxScanTokenSize <=? Z.of_nat (String.length x))%Z then ([], Some ErrTooLong)
      else let '(toks, err) := scan_raw l in (dropCR x :: toks, err)
  end.

Definition scan (text : string) : list string * option error :=
  scan_raw (raw_lines (split_char (ascii_of_nat 10) text)).

(** [line[1:len(line)-1]] *)
Definition inner (line : string) : string := str_take (String.length line - 2) (str_drop 1 line).

Definition setKey (key value : string) (creds : Credentials) : Credentials :=
  if bool_decide (key = "verda_base_url") then set_BaseURL value creds
  else if bool_decide (key = "verda_client_id") then set_ClientID value creds
  else if bool_decide (key = "verda_client_secret") then set_ClientSecret value creds
  else creds.

(** The body of the loop. *)
Definition parseLine (profile : string) (st : bool * Credentials) (text : string) : bool * Credentials :=
  let '(inProfile, creds) := st in
  let line := TrimSpace text in
  if bool_decide (line = "") || HasPrefix line "#" || HasPrefix line ";" then st
  else if HasPrefix line "[" && HasSuffix line "]" then
    (bool_decide (TrimSpace (inner line) = profile), creds)
  else if negb inProfile then st
  else match Cut line "=" with
       | None => st
       | Some (key, value) => (inProfile, setKey (TrimSpace key) (TrimSpace value) creds)
       end.

Definition parseLines (profile : string) (lines : list string) : Credentials :=
  (foldl (parseLine profile) (false, mkCredentials "" "" "") lines).2.

End CredentialsFile.
Import CredentialsFile.

(** ** Loading *)

(** The environment of the process.  Opening a file gives its text and, if
    reading stopped before the end, the error. *)
Inductive ProcE : Type → Type :=
| Getenv (key : string) : ProcE string
| UserHomeDir : ProcE (result string)
| Open (path : string) : ProcE (result (string * option error)).

Definition readCredentialsFile (path profile : string) : prog ProcE (result Credentials) :=
  bind (trigger (Open path)) (λ r, Ret
    match r with
    | Err err =>
        if errors_Is err ErrNotExist then Ok (mkCredentials "" "" "")
        else Err (wrapError "opening credentials file: " err "")
    | Ok (text, readErr) =>
        let '(lines, scanErr) := scan text in
        match from_option Some readErr scanErr with
        | Some err => Err (wrapError "reading credentials file: " err "")
        | None => Ok (parseLines profile lines)
        end
    end).

(** [filepath.Join(home, ".verda", "credentials")] *)
Definition defaultPath (home : string) : string := path_Clean (home +:+ "/.verda/credentials").

(** The part after the path is known. *)
Definition loadFromFile (creds : Credentials) (path : string) : prog ProcE (result Credentials) :=
  bind (trigger (Getenv EnvProfile)) (λ profile,
  let profile := orDefault profile "default" in
  bind (readCredentialsFile path profile) (λ r, Ret
    match r with
    | Err err => Err err
    | Ok fileCreds =>
        let creds := mkCredentials (orDefault (BaseURL creds) (BaseURL fileCreds))
                       (orDefault (ClientID creds) (ClientID fileCreds))
                       (orDefault (ClientSecret creds) (ClientSecret fileCreds)) in
        if bool_decide (ClientID creds = "") || bool_decide (ClientSecret creds = "") then
          Err (errorString ("no Verda credentials: set " +:+ EnvClientID +:+ " and " +:+ EnvClientSecret
                 +:+ " or add them to profile " +:+ fmt_q profile +:+ " in " +:+ path))
        else Ok creds
    end)).

Definition LoadCredentials (path : string) : prog ProcE (result Credentials) :=
  bind (trigger (Getenv EnvBaseURL)) (λ baseURL,
  bind (trigger (Getenv EnvClientID)) (λ clientID,
  bind (trigger (Getenv EnvClientSecret)) (λ clientSecret,
  let creds := mkCredentials baseURL clientID clientSecret in
  if negb (bool_decide (clientID = "")) && negb (bool_decide (clientSecret = "")) then Ret (Ok creds)
  else if bool_decide (path = "") then
    bind (trigger UserHomeDir) (λ r,
      match r with
      | Err err => Ret (Err (wrapError "resolving home directory: " err ""))
      | Ok home => loadFromFile creds (defaultPath home)
      end)
  else loadFromFile creds path))).

(** ** The parser against its specification *)

Inductive line_kind := Blank | Header (profile : string) | Assign (key value : string) | Junk.

Definition classify (text : string) : line_kind :=
  let line := TrimSpace text in
  if bool_decide (line = "") || HasPrefix line "#" || HasPrefix line ";" then Blank
  else if HasPrefix line "[" && HasSuffix line "]" then Header (TrimSpace (inner line))
  else match Cut line "=" with
       | Some (key, value) => Assign (TrimSpace key) (TrimSpace value)
       | None => Junk
       end.

Lemma parseLine_classify profile inP creds text :
  parseLine profile (inP, creds) text =
  match classify text with
  | Header p => (bool_decide (p = profile), creds)
  | Assign k v => (inP, if inP then setKey k v creds else creds)
  | _ => (inP, creds)
  end.
Proof. unfold parseLine, classify. destruct inP; repeat case_match; by simplify_eq/=. Qed.

Definition header_of (text : string) : option string :=
  match classify text with Header p => Some p | _ => None end.

(** The section line [i] belongs to: the last header before it. *)
Definition section_at (lines : list string) (i : nat) : option string :=
  last (omap header_of (take i lines)).

(** Line [i] assigns [value] to [key] in a section of [profile]. *)
Definition assigned (profile : string) (lines : list string) (key : string) (i : nat) (value : string) : Prop :=
  ∃ text, lines !! i = Some text ∧ classify text = Assign key value ∧ section_at lines i = Some profile.

Definition knownKey (key : string) : Prop :=
  key ∈ ["verda_base_url"; "verda_client_id"; "verda_client_secret"].

Definition fieldOf (key : string) (c : Credentials) : string :=
  if bool_decide (key = "verda_base_url") then BaseURL c
  else if bool_decide (key = "verda_client_id") then ClientID c
  else ClientSecret c.

(** [value] is what the file says about [key]: the last assignment in a
    section of [profile], or nothing. *)
Definition file_value (profile : string) (lines : list string) (key value : string) : Prop :=
  (∃ i, assigned profile lines key i value ∧ ∀ j v, assigned profile lines key j v → j ≤ i) ∨
  (value = "" ∧ ∀ j v, ¬ assigned profile lines key j v).

Lemma fieldOf_setKey key k v c :
  knownKey key → fieldOf key (setKey k v c) = if decide (k = key) then v else fieldOf key c.
Proof.
  unfold knownKey, fieldOf, setKey. intros Hk.
  repeat (apply elem_of_cons in Hk as [->|Hk]; [by repeat (case_match || case_bool_decide); simplify_eq|]).
  by apply not_elem_of_nil in Hk.
Qed.

Lemma section_at_snoc lines text i :
  i ≤ List.length lines → section_at (lines ++ [text]) i = section_at lines i.
Proof. intros Hi. unfold section_at. by rewrite take_app_le. Qed.

Lemma assigned_bound profile lines key i v : assigned profile lines key i v → i < List.length lines.
Proof. intros (text & Hl & _). by apply lookup_lt_Some in Hl. Qed.

Lemma assigned_snoc profile lines text key i v :
  assigned profile (lines ++ [text]) key i v ↔
  assigned profile lines key i v ∨
  (i = List.length lines ∧ classify text = Assign key v ∧ last (omap header_of lines) = Some profile).
Proof.
  unfold assigned. split.
  - intros (t & Hl & Hc & Hs). apply lookup_snoc_Some in Hl as [[Hi Hl]|[-> ->]].
    + left. exists t. by rewrite section_at_snoc in Hs by lia.
    + right. rewrite section_at_snoc in Hs by lia. unfold section_at in Hs. by rewrite firstn_all in Hs.
  - intros [(t & Hl & Hc & Hs)|(-> & Hc & Hs)].
    + pose proof (lookup_lt_Some _ _ _ Hl). exists t.
      rewrite section_at_snoc by lia. by rewrite lookup_app_l by lia.
    + exists text. rewrite section_at_snoc by lia. unfold section_at. rewrite firstn_all.
      by rewrite list_lookup_middle.
Qed.

(** A line that assigns nothing to the key, or assigns it in another section. *)
Lemma file_value_skip profile lines text key value :
  (∀ v, classify text = Assign key v → last (omap header_of lines) ≠ Some profile) →
  file_value profile lines key value → file_value profile (lines ++ [text]) key value.
Proof.
  intros Hno [(i & Hi & Hmax)|[-> Hnone]]; [left; exists i; split|right; split].
  - apply assigned_snoc. by left.
  - intros j v [Hj|(_ & Hc & Hs)]%assigned_snoc; [by apply (Hmax j v)|]. by destruct (Hno v).
  - done.
  - intros j v [Hj|(_ & Hc & Hs)]%assigned_snoc; [by apply (Hnone j v)|]. by destruct (Hno v).
Qed.

Lemma file_value_hit profile lines text key value :
  classify text = Assign key value → last (omap header_of lines) = Some profile →
  file_value profile (lines ++ [text]) key value.
Proof.
  intros Hc Hs. left. exists (List.length lines). split; [apply assigned_snoc; by right|].
  intros j v [Hj%assigned_bound|(-> & _)]%assigned_snoc; lia.
Qed.

Lemma file_value_unique profile lines key v w :
  file_value profile lines key v → file_value profile lines key w → v = w.
Proof.
  intros [(i & Hi & Hmi)|[-> Hn]] [(j & Hj & Hmj)|[-> Hn']]; try done; try naive_solver.
  assert (i = j) as -> by (apply Nat.le_antisymm; eauto).
  destruct Hi as (t & Hl & Hc & _), Hj as (t' & Hl' & Hc' & _). congruence.
Qed.

Lemma section_snoc lines text :
  last (omap header_of (lines ++ [text])) =
  match classify text with Header p => Some p | _ => last (omap header_of lines) end.
Proof.
  rewrite omap_app. cbn. unfold header_of at 2.
  destruct (classify text); cbn; by rewrite ?app_nil_r, ?last_snoc.
Qed.

Lemma parse_section profile lines :
  (foldl (parseLine profile) (false, mkCredentials "" "" "") lines).1 = true ↔
  last (omap header_of lines) = Some profile.
Proof.
  induction lines as [|text lines IH] using rev_ind; [done|].
  rewrite foldl_snoc, section_snoc. destruct (foldl _ _ lines) as [inP c]; cbn in IH.
  rewrite parseLine_classify. destruct (classify text); cbn; try done.
  rewrite bool_decide_eq_true. by split; [intros ->|intros [= ->]].
Qed.

(** The field the loop ends with. *)
Lemma parseLines_value profile lines key :
  knownKey key → file_value profile lines key (fieldOf key (parseLines profile lines)).
Proof.
  intros Hk. unfold parseLines. induction lines as [|text lines IH] using rev_ind.
  - right. split; [unfold fieldOf; by repeat case_match|]. by intros j v Hj%assigned_bound; cbn in Hj; lia.
  - rewrite foldl_snoc. pose proof (parse_section profile lines) as Hs.
    destruct (foldl _ _ lines) as [inP c]; cbn [fst snd] in *. rewrite parseLine_classify.
    destruct (classify text) as [|p|k v|] eqn:Hc; cbn;
      try (apply file_value_skip; [by rewrite Hc|done]).
    destruct inP; [|apply file_value_skip; [by intros _ _ ?%Hs|done]].
    rewrite fieldOf_setKey by done. specialize (proj1 Hs eq_refl) as Hs'.
    case_decide; subst; [by apply file_value_hit|]. apply file_value_skip; [|done].
    intros v' Hv. by rewrite Hc in Hv; simplify_eq.
Qed.

(** (C34) The parser of the credentials file finds, for each of the three keys,
    the value of the last assignment that stands in a section of the requested
    profile, and nothing if there is none; comments, other sections, lines
    before the first header and unknown keys have no effect. *)
Theorem credentials_file_spec profile lines key value :
  knownKey key → fieldOf key (parseLines profile lines) = value ↔ file_value profile lines key value.
Proof.
  intros Hk. pose proof (parseLines_value profile lines key Hk) as Hv.
  split; [by intros <-|]. intros Hw. by eapply file_value_unique.
Qed.

(** ** Where the credentials come from *)

(** The file [LoadCredentials] reads. *)
Definition source_path (path : string) (h : hist ProcE) (file : string) : Prop :=
  if bool_decide (path = "") then ∃ home, Obs UserHomeDir (Ok home) ∈ h ∧ file = defaultPath home
  else file = path.

(** What [file] says about [profile]: nothing if it does not exist. *)
Definition file_creds (h : hist ProcE) (file profile : string) (c : Credentials) : Prop :=
  (∃ err, Obs (Open file) (Err err) ∈ h ∧ errors_Is err ErrNotExist = true ∧ c = mkCredentials "" "" "") ∨
  (∃ text lines, Obs (Open file) (Ok (text, None)) ∈ h ∧ scan text = (lines, None) ∧
     ∀ key, knownKey key → file_value profile lines key (fieldOf key c)).

(** The file could not be read to the end. *)
Definition file_failed (h : hist ProcE) (file : string) : Prop :=
  (∃ err, Obs (Open file) (Err err) ∈ h ∧ errors_Is err ErrNotExist = false) ∨
  (∃ text readErr, Obs (Open file) (Ok (text, readErr)) ∈ h ∧ (is_Some readErr ∨ is_Some (scan text).2)).

Definition overlay (env file : Credentials) : Credentials :=
  mkCredentials (orDefault (BaseURL env) (BaseURL file)) (orDefault (ClientID env) (ClientID file))
    (orDefault (ClientSecret env) (ClientSecret file)).

Definition complete (c : Credentials) : Prop := ClientID c ≠ "" ∧ ClientSecret c ≠ "".
#[export] Instance complete_dec c : Decision (complete c).
Proof. unfold complete. apply _. Defined.

Lemma readCredentialsFile_sound path profile h0 h r :
  exec (any_answer (λ _ _ _, True)) (readCredentialsFile path profile) h0 h r →
  h0 ⊆ h ∧ match r with Ok c => file_creds h path profile c | Err _ => file_failed h path end.
Proof.
  intros Hex. cbn in Hex. destruct Hex as (a & _ & -> & ->). split; [hist|].
  destruct a as [[text readErr]|err]; [destruct (scan text) as [ls scanErr] eqn:Hs|].
  - destruct scanErr as [e|], readErr as [e'|]; cbn;
      try (right; eexists text, _; split; [hist|rewrite Hs; cbn; eauto]; fail).
    right. exists text, ls. split_and!; [hist|done|]. intros key Hk. by apply parseLines_value.
  - destruct (errors_Is err ErrNotExist) eqn:He; [left|left]; exists err; split_and!; try done; hist.
Qed.

Lemma loadFromFile_sound env path h0 h r :
  exec (any_answer (λ _ _ _, True)) (loadFromFile env path) h0 h r →
  h0 ⊆ h ∧ ∃ p, Obs (Getenv EnvProfile) p ∈ h ∧
  match r with
  | Ok c => complete c ∧ ∃ fc, file_creds h path (orDefault p "default") fc ∧ c = overlay env fc
  | Err _ => file_failed h path ∨
      ∃ fc, file_creds h path (orDefault p "default") fc ∧ ¬ complete (overlay env fc)
  end.
Proof.
  intros Hex. unfold loadFromFile in Hex. cbn [bind trigger exec] in Hex. destruct Hex as (p & _ & Hex).
  apply exec_bind in Hex as (h1 & r1 & [Hsub H1]%readCredentialsFile_sound & Hret).
  cbn in Hret. destruct Hret as [-> ->].
  split; [eapply hist_sub_trans; [apply hist_sub_cons|exact Hsub]|]. exists p. split; [apply Hsub; hist|].
  destruct r1 as [fc|err]; [|by left]. fold (overlay env fc).
  cbn [ClientID ClientSecret].
  destruct (bool_decide (orDefault (ClientID env) (ClientID fc) = "")) eqn:?,
    (bool_decide (orDefault (ClientSecret env) (ClientSecret fc) = "")) eqn:?; cbn [orb]; bool_to_prop;
    try (right; exists fc; split; [done|by intros [? ?]]; fail).
  split; [by split|]. by exists fc.
Qed.

(** (C33) Credentials are found or an error is returned, on every branch.  A pair
    of client ID and secret in the environment is used as it is, and no file is
    opened.  Otherwise each setting missing from the environment comes from the
    profile ([VERDA_PROFILE], or [default]) of the given or the default file, the
    environment taking precedence; the result always has an ID and a secret.
    An error means the environment is incomplete and the home directory is
    unknown, the file could not be read, or file and environment together
    still lack one of the two. *)
Theorem load_credentials_sources path h r :
  runs (LoadCredentials path) h r →
  ∃ url id secret, let env := mkCredentials url id secret in
  Obs (Getenv EnvBaseURL) url ∈ h ∧ Obs (Getenv EnvClientID) id ∈ h ∧
  Obs (Getenv EnvClientSecret) secret ∈ h ∧
  if decide (complete env) then r = Ok env ∧ ∀ file a, Obs (Open file) a ∉ h
  else
    (∃ e, path = "" ∧ Obs UserHomeDir (Err e) ∈ h ∧ ∃ e', r = Err e') ∨
    ∃ file p, source_path path h file ∧ Obs (Getenv EnvProfile) p ∈ h ∧
    match r with
    | Ok c => complete c ∧ ∃ fc, file_creds h file (orDefault p "default") fc ∧ c = overlay env fc
    | Err _ => file_failed h file ∨
        ∃ fc, file_creds h file (orDefault p "default") fc ∧ ¬ complete (overlay env fc)
    end.
Proof.
  intros Hex. unfold runs, LoadCredentials in Hex. cbn [bind trigger exec] in Hex.
  destruct Hex as (url & _ & id & _ & secret & _ & Hex). exists url, id, secret.
  set (h3 := [Obs (Getenv EnvClientSecret) secret; Obs (Getenv EnvClientID) id; Obs (Getenv EnvBaseURL) url]).
  assert (h3 ⊆ h) as Hh3.
  { destruct (exec_suffix _ _ _ _ _ Hex) as [t ->]. intros x Hx. apply elem_of_app. by right. }
  split; [apply Hh3; unfold h3; hist|]. split; [apply Hh3; unfold h3; hist|]. split; [apply Hh3; unfold h3; hist|].
  destruct (negb (bool_decide (id = "")) && negb (bool_decide (secret = ""))) eqn:Hc.
  - bool_to_prop. rewrite decide_True by done. destruct Hex as [-> ->]. split; [done|].
    intros file a Hin. unfold h3 in Hin.
    repeat (apply elem_of_cons in Hin as [Hin|Hin]; [discriminate Hin|]). by apply not_elem_of_nil in Hin.
  - rewrite decide_False
      by (intros [? ?]; cbn in *; by rewrite !bool_decide_eq_false_2 in Hc by done).
    unfold source_path. destruct (bool_decide (path = "")) eqn:Hp; [apply bool_decide_eq_true in Hp|].
    + destruct Hex as ([home|e] & _ & Hex).
      * apply loadFromFile_sound in Hex as [Hsub (p & Hpr & Hr)]. right.
        exists (defaultPath home), p. split; [|done]. exists home. split; [apply Hsub; hist|done].
      * destruct Hex as [-> ->]. left. exists e. split_and!; [done|hist|by eexists].
    + apply loadFromFile_sound in Hex as [_ (p & Hpr & Hr)]. right. by exists path, p.
Qed.

(** ** Writing a credentials file *)

Definition renderProfile (p : string * Credentials) : list string :=
  ["[" +:+ p.1 +:+ "]";
   "verda_base_url" +:+ " = " +:+ BaseURL p.2;
   "verda_client_id" +:+ " = " +:+ ClientID p.2;
   "verda_client_secret" +:+ " = " +:+ ClientSecret p.2].

Fixpoint unlines (l : list string) : string :=
  match l with [] => "" | x :: l => x +:+ nl +:+ unlines l end.

Definition renderFile (profiles : list (string * Credentials)) : string :=
  unlines (flat_map renderProfile profiles).

(** A name or value an INI file can hold: no line end, no surrounding space,
    and short enough for a line of the scanner. *)
Definition plain (v : string) : Prop :=
  TrimSpace v = v ∧ Forall (λ c, c ≠ ascii_of_nat 10) (chars v) ∧
  (Z.of_nat (String.length v) < MaxScanTokenSize - 32)%Z.

Definition plain_profile (p : string * Credentials) : Prop :=
  plain p.1 ∧ plain (BaseURL p.2) ∧ plain (ClientID p.2) ∧ plain (ClientSecret p.2).

Lemma trim_left_suffix s : ∃ a, s = a +:+ trim_left s.
Proof.
  induction s as [|c s [a IH]]; [by exists ""|]. cbn. case_match; [|by exists ""].
  exists (String c a). rewrite string_app_cons. by f_equal.
Qed.

Lemma trim_right_length s : String.length (trim_right s) ≤ String.length s.
Proof. induction s as [|c s IH]; cbn; [done|]. repeat case_match; cbn in *; lia. Qed.

Lemma TrimSpace_fixed v : TrimSpace v = v → trim_left v = v ∧ trim_right v = v.
Proof.
  unfold TrimSpace. intros Hv. destruct (trim_left_suffix v) as [[|c a] Ha].
  - rewrite string_app_nil_l in Ha. by rewrite <-Ha in Hv |- *.
  - exfalso. pose proof (trim_right_length (trim_left v)) as Hl. rewrite Hv in Hl.
    apply (f_equal String.length) in Ha. rewrite string_length_app in Ha. cbn in Ha. lia.
Qed.

Lemma trim_right_app a v : trim_right v ≠ "" → trim_right (a +:+ v) = a +:+ trim_right v.
Proof.
  intros Hv. induction a as [|c a IH]; [done|]. rewrite !string_app_cons. cbn. rewrite IH.
  destruct (a +:+ trim_right v) as [|d s] eqn:He; [|done]. by destruct a.
Qed.

Lemma dropCR_app a v : v ≠ "" → dropCR (a +:+ v) = a +:+ dropCR v.
Proof.
  intros Hv. induction a as [|c a IH]; [done|]. rewrite !string_app_cons. cbn -[ascii_dec].
  destruct (a +:+ v) as [|d s] eqn:He; [by destruct a|]. rewrite <-He in IH |- *. by rewrite IH.
Qed.

Lemma dropCR_fixed v : trim_right v = v → dropCR v = v.
Proof.
  induction v as [|c v IH]; [done|]. cbn -[ascii_dec]. destruct v as [|d v].
  - cbn. destruct (ascii_dec _ _) as [->|]; [|done]. cbn. done.
  - intros Hv. f_equal. apply IH. destruct (trim_right (String d v)) eqn:Ht; [|by simplify_eq].
    by destruct (is_space c).
Qed.

Definition good_line (l : string) : Prop :=
  Forall (λ c, c ≠ ascii_of_nat 10) (chars l) ∧ dropCR l = l ∧
  (Z.of_nat (String.length l) < MaxScanTokenSize)%Z.

Lemma scan_unlines ls : Forall good_line ls → scan (unlines ls) = (ls, None).
Proof.
  unfold scan. induction 1 as [|x ls (Hn & Hd & Hl) Hls IH]; [done|]. cbn [unlines].
  unfold nl. rewrite string_app_cons, string_app_nil_l, split_char_app by done.
  assert (∀ s, ∃ a l, split_char (ascii_of_nat 10) s = a :: l) as Hne.
  { intros [|c s]; cbn -[ascii_dec]; [by eexists _, _|].
    destruct (ascii_dec _ _); [by eexists _, _|]. by case_match; eexists _, _. }
  destruct (Hne (unlines ls)) as (a & l & Hs). rewrite Hs in IH |- *.
  change (raw_lines (x :: a :: l)) with (x :: raw_lines (a :: l)). cbn [scan_raw].
  by rewrite (proj2 (Z.leb_gt _ _) Hl), IH, Hd.
Qed.

Lemma HasSuffix_app a b : HasSuffix (a +:+ b) b = true.
Proof.
  unfold HasSuffix. rewrite string_length_app. apply andb_true_iff. split; [apply Nat.leb_le; lia|].
  apply bool_decide_eq_true. rewrite Nat.add_sub. apply str_drop_app.
Qed.

Lemma classify_header n : plain n → classify ("[" +:+ n +:+ "]") = Header n.
Proof.
  intros (Ht & _). unfold classify.
  assert (TrimSpace ("[" +:+ n +:+ "]") = "[" +:+ n +:+ "]") as ->.
  { unfold TrimSpace. cbn [trim_left]. change (trim_left ("[" +:+ n +:+ "]")) with ("[" +:+ n +:+ "]").
    rewrite <-string_app_assoc. by rewrite trim_right_app. }
  change (HasPrefix ("[" +:+ n +:+ "]") "[") with (String.prefix "" (n +:+ "]")).
  change (HasPrefix ("[" +:+ n +:+ "]") "#") with false.
  change (HasPrefix ("[" +:+ n +:+ "]") ";") with false.
  rewrite <-(string_app_assoc "[" n), HasSuffix_app.
  rewrite (string_app_assoc "[" n), (prefix_app "" (n +:+ "]") : String.prefix "" (n +:+ "]") = true).
  rewrite bool_decide_eq_false_2 by done. cbn [orb andb]. f_equal.
  unfold inner. change (str_drop 1 ("[" +:+ n +:+ "]")) with (n +:+ "]").
  replace (String.length ("[" +:+ n +:+ "]") - 2) with (String.length n)
    by (rewrite !string_length_app; cbn [String.length]; lia).
  by rewrite str_take_app.
Qed.

Lemma TrimSpace_line a v :
  trim_left (a +:+ v) = a +:+ v → trim_right v = v → v ≠ "" → TrimSpace (a +:+ v) = a +:+ v.
Proof. intros Hl Hr Hne. unfold TrimSpace. rewrite Hl, trim_right_app by congruence. by rewrite Hr. Qed.

Lemma string_app_ne a v : v ≠ "" → a +:+ v ≠ "".
Proof. by destruct a. Qed.

(** A line that starts with a letter. *)
Lemma classify_line c k v :
  is_space c = false → c ∉ ["#"; ";"; "["]%char → "="%char ∉ chars (String c k) →
  trim_right v = v → v ≠ "" →
  classify (String c k +:+ " = " +:+ v) = Assign (TrimSpace (String c k +:+ " ")) (TrimSpace (" " +:+ v)).
Proof.
  intros Hc Hn Heq Hr Hne. unfold classify.
  assert (∀ d s, d ∈ ["#"; ";"; "["]%char → HasPrefix (String c k +:+ s) (String d "") = false) as Hp.
  { intros d s Hd. rewrite string_app_cons. cbn -[ascii_dec]. destruct (ascii_dec d c); [congruence|done]. }
  rewrite <-string_app_assoc, TrimSpace_line; [|by rewrite !string_app_cons; cbn; rewrite Hc|done..].
  rewrite bool_decide_eq_false_2 by by apply string_app_ne.
  rewrite string_app_assoc, !Hp by set_solver. cbn [orb andb].
  change (" = " +:+ v) with (" " +:+ String "=" (" " +:+ v)). rewrite <-string_app_assoc.
  rewrite Cut_char; [done|]. rewrite chars_app, not_elem_of_app. by split; [|set_solver].
Qed.

Lemma classify_assign k v :
  knownKey k → plain v → classify (k +:+ " = " +:+ v) = Assign k v.
Proof.
  intros Hk (Ht & _). destruct (TrimSpace_fixed v Ht) as [Hl Hr]. unfold knownKey in *.
  destruct (decide (v = "")) as [->|Hne].
  { repeat (apply elem_of_cons in Hk as [->|Hk]; [reflexivity|]). by apply not_elem_of_nil in Hk. }
  assert (TrimSpace (" " +:+ v) = v) as Hv.
  { unfold TrimSpace. change (trim_left (" " +:+ v)) with (trim_left v). by rewrite Hl, Hr. }
  rewrite <-Hv at 2.
  repeat (apply elem_of_cons in Hk as [->|Hk]; [apply classify_line; [done|set_solver..|done|done]|]).
  by apply not_elem_of_nil in Hk.
Qed.

Lemma good_assign k v : knownKey k → plain v → good_line (k +:+ " = " +:+ v).
Proof.
  intros Hk (Ht & Hn & Hl). destruct (TrimSpace_fixed v Ht) as [_ Hr].
  assert (Forall (λ c, c ≠ ascii_of_nat 10) (chars (k +:+ " = ")) ∧
    dropCR (k +:+ " = ") = k +:+ " = " ∧ String.length (k +:+ " = ") ≤ 32) as (Hkn & Hkd & Hkl).
  { unfold knownKey in Hk. repeat (apply elem_of_cons in Hk as [->|Hk];
      [split_and!; [by apply (bool_decide_unpack _)|done|apply Nat.leb_le; reflexivity]|]). by apply not_elem_of_nil in Hk. }
  unfold good_line. rewrite <-string_app_assoc, chars_app, string_length_app. split_and!.
  - by apply Forall_app.
  - destruct (decide (v = "")) as [->|Hne]; [by rewrite string_app_nil_r|].
    rewrite dropCR_app by done. by rewrite dropCR_fixed.
  - lia.
Qed.

Lemma good_header n : plain n → good_line ("[" +:+ n +:+ "]").
Proof.
  intros (Ht & Hn & Hl). unfold good_line. rewrite <-string_app_assoc. split_and!.
  - rewrite !chars_app, !Forall_app. split_and!; [by apply (bool_decide_unpack _)|done|by apply (bool_decide_unpack _)].
  - by rewrite dropCR_app.
  - rewrite !string_length_app. cbn [String.length]. lia.
Qed.

Lemma good_profile p : plain_profile p → Forall good_line (renderProfile p).
Proof.
  intros (Hn & Hu & Hi & Hs). unfold renderProfile.
  repeat apply Forall_cons_2; [by apply good_header|..|done];
    apply good_assign; try done; unfold knownKey; set_solver.
Qed.

Lemma parse_profile q b c p :
  plain_profile p →
  foldl (parseLine q) (b, c) (renderProfile p) = (bool_decide (p.1 = q), if decide (p.1 = q) then p.2 else c).
Proof.
  intros (Hn & Hu & Hi & Hs). unfold renderProfile. cbn [foldl].
  rewrite parseLine_classify, classify_header by done.
  rewrite parseLine_classify, (classify_assign "verda_base_url") by (done || (unfold knownKey; set_solver)).
  rewrite parseLine_classify, (classify_assign "verda_client_id") by (done || (unfold knownKey; set_solver)).
  rewrite parseLine_classify, (classify_assign "verda_client_secret") by (done || (unfold knownKey; set_solver)).
  case_decide; [rewrite bool_decide_eq_true_2 by done|by rewrite bool_decide_eq_false_2].
  by destruct p as [n [u i s]].
Qed.

Lemma parse_profiles q ps b c :
  Forall plain_profile ps → NoDup ps.*1 →
  (foldl (parseLine q) (b, c) (flat_map renderProfile ps)).2 = default c (snd <$> List.find (λ p, bool_decide (p.1 = q)) ps).
Proof.
  intros Hps. revert b c. induction Hps as [|p ps Hp Hps IH]; intros b c; [done|].
  cbn [fmap list_fmap]. intros [Hnin Hnd]%NoDup_cons. cbn [flat_map]. rewrite foldl_app, parse_profile by done.
  rewrite IH by done. cbn [List.find]. case_decide as Hq.
  - rewrite bool_decide_eq_true_2 by done. cbn. destruct (List.find _ ps) as [x|] eqn:Hf; [|done].
    apply find_some in Hf as [Hx%list_elem_of_In Hx'%bool_decide_eq_true]. exfalso. apply Hnin.
    rewrite Hq, <-Hx'. by apply list_elem_of_fmap_2.
  - by rewrite bool_decide_eq_false_2.
Qed.

(** The answer of an [Open]. *)
Definition opened (o : obs ProcE) : option (result (string * option error)) :=
  match o with
  | Obs (Open _) r => Some r
  | _ => None
  end.

(** What is written into a credentials file is read back: of a file that
    holds any number of profiles, each with its own name, [readCredentialsFile]
    returns exactly the credentials of the profile it is asked for, empty ones
    for a profile the file does not have. *)
Theorem credentials_file_round_trip profiles path profile h r :
  Forall plain_profile profiles → NoDup profiles.*1 →
  runs (readCredentialsFile path profile) h r →
  h = [Obs (Open path) (Ok (renderFile profiles, None))] →
  r = Ok (default (mkCredentials "" "" "") (snd <$> List.find (λ p, bool_decide (p.1 = profile)) profiles)).
Proof.
  intros Hps Hnd Hex Hh. cbn in Hex. destruct Hex as (a & _ & Ha & ->).
  rewrite Ha in Hh. apply (f_equal (omap opened)) in Hh. cbn in Hh. injection Hh as ->.
  unfold renderFile. rewrite scan_unlines.
  - cbn. by rewrite <-(parse_profiles profile profiles false).
  - apply Forall_flat_map. eapply Forall_impl; [exact Hps|]. apply good_profile.
Qed.

(** ** Examples *)

Module CredentialsExamples.

Definition dev : Credentials := mkCredentials "https://dev.example" "dev-id" "dev-secret".
Definition prod : Credentials := mkCredentials "" "prod-id" "prod-secret".
Definition profiles : list (string * Credentials) := [("default", dev); ("prod", prod)].

(** A process with a client ID in its environment and the file in its home. *)
Definition hdl (X : Type) (e : ProcE X) : unit → unit * X :=
  match e in ProcE X return unit → unit * X with
  | Getenv key => λ s, (s, if bool_decide (key = EnvClientID) then "env-id"
                            else if bool_decide (key = EnvProfile) then "prod" else "")
  | UserHomeDir => λ s, (s, Ok "/root")
  | Open path => λ s,
      (s, if bool_decide (path = "/root/.verda/credentials") then Ok (renderFile profiles, None)
          else Err ErrNotExist)
  end.

Definition load := trace hdl (LoadCredentials "") tt [].

Example load_result : load.2 = Ok (mkCredentials "" "env-id" "prod-secret").
Proof. vm_compute. reflexivity. Qed.

Lemma load_credentials_sources_witness :
  ∃ url id secret, let env := mkCredentials url id secret in
  Obs (Getenv EnvBaseURL) url ∈ load.1.2 ∧ Obs (Getenv EnvClientID) id ∈ load.1.2 ∧
  Obs (Getenv EnvClientSecret) secret ∈ load.1.2 ∧
  if decide (complete env) then load.2 = Ok env ∧ ∀ file a, Obs (Open file) a ∉ load.1.2
  else
    (∃ e, "" = "" ∧ Obs UserHomeDir (Err e) ∈ load.1.2 ∧ ∃ e', load.2 = Err e') ∨
    ∃ file p, source_path "" load.1.2 file ∧ Obs (Getenv EnvProfile) p ∈ load.1.2 ∧
    match load.2 with
    | Ok c => complete c ∧ ∃ fc, file_creds load.1.2 file (orDefault p "default") fc ∧ c = overlay env fc
    | Err _ => file_failed load.1.2 file ∨
        ∃ fc, file_creds load.1.2 file (orDefault p "default") fc ∧ ¬ complete (overlay env fc)
    end.
Proof. exact (load_credentials_sources "" load.1.2 load.2 (trace_exec hdl _ _ _)). Defined.

(** The last assignment wins; the line of the other section does not count. *)
Definition sample : list string :=
  ["# comment"; "verda_client_id = early"; "[default]"; "verda_client_id = a"; "verda_client_id= b ";
   " [ other ] "; "verda_client_id = c"].

Lemma credentials_file_spec_witness : file_value "default" sample "verda_client_id" "b".
Proof.
  apply (credentials_file_spec "default" sample "verda_client_id" "b");
    [unfold knownKey; set_solver|vm_compute; reflexivity].
Defined.

Definition read := trace hdl (readCredentialsFile "/root/.verda/credentials" "prod") tt [].

Lemma credentials_file_round_trip_witness : read.2 = Ok prod.
Proof.
  refine (credentials_file_round_trip profiles "/root/.verda/credentials" "prod" read.1.2 read.2 _ _ _ _).
  - repeat constructor; cbn; try (apply (bool_decide_unpack _); vm_compute; exact I); done.
  - apply (bool_decide_unpack _). vm_compute. exact I.
  - exact (trace_exec hdl _ _ _).
  - reflexivity.
Defined.

End CredentialsExamples.
