(* ===== verification/Factory.v ===== *)
(** * Client factories ([internal/cloud/factory.go], [NewClient] of [internal/cloud/client.go])

    A [SecretFactory] is shared by the workers of all controllers.  A call
    reads the identity Secret without holding the mutex and then works on the
    cache under it, so the calls interleave at these two points: [step] is the
    relation on the factory and its pending calls. *)

From S2P Require Import Prelude GoStd Effects Cloud Ctrl Credentials.
From stdpp Require Import options.

Local Open Scope go_scope.

Definition SecretKeyClientID := "client-id".
Definition SecretKeyClientSecret := "client-secret".
Definition SecretKeyBaseURL := "base-url".

Record cachedClient := mkCachedClient { cached_resourceVersion : string; cached_client : ClientRef }.

(** The fields of the struct but for the reader, which is called; [NewClient]
    is a function of the caller's, so only whether it is set is kept.  A nil map
    is [None]. *)
Record SecretFactory := mkSecretFactory {
  Global : option ClientRef;
  has_NewClient : bool;
  cache : option (gmap string cachedClient)
}.

Definition set_cache (m : gmap string cachedClient) (f : SecretFactory) : SecretFactory :=
  mkSecretFactory (Global f) (has_NewClient f) (Some m).

(** [verda.ClientOption] *)
Inductive ClientOption :=
| WithClientID (id : string)
| WithClientSecret (secret : string)
| WithUserAgent (agent : string)
| WithBaseURL (url : string).

Inductive FactoryE : Type → Type :=
| ReaderGet (ns name : string) : FactoryE (result Secret)
| FieldNewClient (creds : Credentials) : FactoryE (result ClientRef)
| SdkNewClient (opts : list ClientOption) : FactoryE (result ClientRef).

Definition clientOptions (creds : Credentials) : list ClientOption :=
  [WithClientID (ClientID creds); WithClientSecret (ClientSecret creds);
   WithUserAgent "cluster-api-provider-verda"] ++
  (if bool_decide (BaseURL creds = "") then [] else [WithBaseURL (BaseURL creds)]).

Definition NewClient (creds : Credentials) : M SecretFactory FactoryE ClientRef :=
  let? r := call (SdkNewClient (clientOptions creds)) in
  match r with
  | Ok api => retM api
  | Err err => throw (wrapError "creating Verda client: " err "")
  end.

(** [client.ObjectKey.String] *)
Definition keyString (identity : Identity) : string :=
  Identity_Namespace identity +:+ "/" +:+ Identity_SecretName identity.

Definition secretCredentials (secret : Secret) : Credentials :=
  mkCredentials (map_get (Secret_Data secret) SecretKeyBaseURL)
    (map_get (Secret_Data secret) SecretKeyClientID)
    (map_get (Secret_Data secret) SecretKeyClientSecret).

(** Up to the lock: the global client, or the Secret with its credentials. *)
Definition readIdentity (identity : Identity) : M SecretFactory FactoryE (ClientRef + Secret * Credentials) :=
  if bool_decide (Identity_SecretName identity = "") then
    let! f := getM in
    match Global f with
    | None => throw (errorString "no identityRef set and the manager has no global Verda credentials")
    | Some c => retM (inl c)
    end
  else
    let? r := call (ReaderGet (Identity_Namespace identity) (Identity_SecretName identity)) in
    match r with
    | Err err => throw (wrapError ("getting identity secret " +:+ keyString identity +:+ ": ") err "")
    | Ok secret =>
        let creds := secretCredentials secret in
        if bool_decide (ClientID creds = "") || bool_decide (ClientSecret creds = "") then
          throw (errorString ("identity secret " +:+ keyString identity +:+ " must have "
                   +:+ SecretKeyClientID +:+ " and " +:+ SecretKeyClientSecret))
        else retM (inr (secret, creds))
    end.

(** A client for a version of the Secret the cache does not have. *)
Definition buildClient (cacheKey : string) (secret : Secret) (creds : Credentials) :
    M SecretFactory FactoryE ClientRef :=
  let! f := getM in
  let! c := (if has_NewClient f then call (FieldNewClient creds) else NewClient creds) in
  do! modify (λ f, set_cache (<[cacheKey := mkCachedClient (Secret_ResourceVersion secret) c]>
                               (default ∅ (cache f))) f) in
  retM c.

(** Under the lock. *)
Definition lockedClient (identity : Identity) (secret : Secret) (creds : Credentials) :
    M SecretFactory FactoryE ClientRef :=
  do! modify (λ f, match cache f with None => set_cache ∅ f | Some _ => f end) in
  let! f := getM in
  let cacheKey := keyString identity in
  match default ∅ (cache f) !! cacheKey with
  | Some c =>
      if bool_decide (cached_resourceVersion c = Secret_ResourceVersion secret)
      then retM (cached_client c) else buildClient cacheKey secret creds
  | None => buildClient cacheKey secret creds
  end.

Definition SecretFactory_ClientFor (identity : Identity) : M SecretFactory FactoryE ClientRef :=
  let! r := readIdentity identity in
  match r with
  | inl c => retM c
  | inr (secret, creds) => lockedClient identity secret creds
  end.

Definition StaticFactory_ClientFor (client : ClientRef) (identity : Identity) : result ClientRef := Ok client.

(** ** Concurrent calls *)

(** A call that has returned remembers the Secret it read, if it read one. *)
Inductive pending :=
| Reading (identity : Identity)
| Locking (identity : Identity) (secret : Secret) (creds : Credentials)
| Returned (identity : Identity) (read : option Secret) (r : result ClientRef).

Record config := mkConfig {
  cfg_factory : SecretFactory;
  cfg_calls : gmap nat pending;
  cfg_hist : hist FactoryE
}.

Definition after_read (identity : Identity) (r : result (ClientRef + Secret * Credentials)) : pending :=
  match r with
  | Err err => Returned identity None (Err err)
  | Ok (inl c) => Returned identity None (Ok c)
  | Ok (inr (secret, creds)) => Locking identity secret creds
  end.

Abbreviation anything := (any_answer (λ _ _ _, True)).

Inductive step : config → config → Prop :=
| step_call f calls h t identity :
    calls !! t = None →
    step (mkConfig f calls h) (mkConfig f (<[t := Reading identity]> calls) h)
| step_read f calls h t identity f' h' r :
    calls !! t = Some (Reading identity) →
    exec anything (readIdentity identity f) h h' (f', r) →
    step (mkConfig f calls h) (mkConfig f' (<[t := after_read identity r]> calls) h')
| step_lock f calls h t identity secret creds f' h' r :
    calls !! t = Some (Locking identity secret creds) →
    exec anything (lockedClient identity secret creds f) h h' (f', r) →
    step (mkConfig f calls h) (mkConfig f' (<[t := Returned identity (Some secret) r]> calls) h').

(** A factory as the manager creates it. *)
Definition fresh (g : option ClientRef) (custom : bool) : config :=
  mkConfig (mkSecretFactory g custom None) ∅ [].

(** A call that does not interleave with others is one of the interleavings. *)
Lemma sequential_call f calls h t identity f' h' r :
  calls !! t = None → exec anything (SecretFactory_ClientFor identity f) h h' (f', r) →
  ∃ read, rtc step (mkConfig f calls h) (mkConfig f' (<[t := Returned identity read r]> calls) h').
Proof.
  intros Ht Hex. apply exec_bindM in Hex as (h1 & f1 & r1 & Hread & Hrest).
  assert (rtc step (mkConfig f calls h) (mkConfig f1 (<[t := after_read identity r1]> calls) h1)) as Hstart.
  { eapply rtc_l; [by eapply (step_call _ _ _ t)|]. apply rtc_once.
    rewrite <-(insert_insert_eq calls t (after_read identity r1) (Reading identity)).
    by eapply step_read; [apply lookup_insert_eq|]. }
  destruct r1 as [[c|[secret creds]]|e]; cbn [after_read] in Hstart.
  - apply exec_retM in Hrest as (-> & -> & ->). by exists None.
  - exists (Some secret). eapply rtc_r; [exact Hstart|].
    rewrite <-(insert_insert_eq calls t (Returned identity (Some secret) r) (Locking identity secret creds)).
    by eapply step_lock; [apply lookup_insert_eq|].
  - destruct Hrest as (-> & -> & ->). by exists None.
Qed.

(** ** The cache only holds clients of the credentials it claims *)

(** [c] is a client made for [creds]. *)
Definition built (h : hist FactoryE) (creds : Credentials) (c : ClientRef) : Prop :=
  Obs (FieldNewClient creds) (Ok c) ∈ h ∨ Obs (SdkNewClient (clientOptions creds)) (Ok c) ∈ h.

Definition read_secret (h : hist FactoryE) (identity : Identity) (secret : Secret) : Prop :=
  Obs (ReaderGet (Identity_Namespace identity) (Identity_SecretName identity)) (Ok secret) ∈ h.

(** [c] was made for a Secret of that key and version. *)
Definition built_for (h : hist FactoryE) (key version : string) (c : ClientRef) : Prop :=
  ∃ identity secret, read_secret h identity secret ∧ keyString identity = key ∧
    Secret_ResourceVersion secret = version ∧ built h (secretCredentials secret) c.

Definition cache_ok (f : SecretFactory) (h : hist FactoryE) : Prop :=
  ∀ key e, default ∅ (cache f) !! key = Some e → built_for h key (cached_resourceVersion e) (cached_client e).

Definition pending_ok (g : option ClientRef) (h : hist FactoryE) (p : pending) : Prop :=
  match p with
  | Reading _ => True
  | Locking identity secret creds =>
      Identity_SecretName identity ≠ "" ∧ read_secret h identity secret ∧
      creds = secretCredentials secret ∧ complete creds
  | Returned identity read (Ok c) =>
      if bool_decide (Identity_SecretName identity = "") then g = Some c
      else ∃ secret, read = Some secret ∧ read_secret h identity secret ∧ complete (secretCredentials secret) ∧
             built_for h (keyString identity) (Secret_ResourceVersion secret) c
  | Returned identity _ (Err _) => True
  end.

Definition config_ok (g : option ClientRef) (cfg : config) : Prop :=
  Global (cfg_factory cfg) = g ∧ cache_ok (cfg_factory cfg) (cfg_hist cfg) ∧
  map_Forall (λ _, pending_ok g (cfg_hist cfg)) (cfg_calls cfg).

Lemma built_for_mono h h' key version c : h ⊆ h' → built_for h key version c → built_for h' key version c.
Proof.
  intros Hs (i & s & Hr & Hk & Hv & Hb). exists i, s. split_and!; [by apply Hs|done|done|].
  destruct Hb; [left|right]; auto.
Qed.

Lemma cache_ok_mono f h h' : h ⊆ h' → cache_ok f h → cache_ok f h'.
Proof. intros Hs Hc key e He. eapply built_for_mono; eauto. Qed.

Lemma pending_ok_mono g h h' p : h ⊆ h' → pending_ok g h p → pending_ok g h' p.
Proof.
  intros Hs. destruct p as [i|i s c|i read [c|e]]; cbn; [done| | |done].
  - intros (? & Hr & ? & ?). split_and!; try done. by apply Hs.
  - case_match; [done|]. intros (s & Hrd & Hr & Hc & Hb). exists s. split_and!; [done|by apply Hs|done|].
    by eapply built_for_mono.
Qed.

Lemma calls_ok_insert g h h' (calls : gmap nat pending) t p :
  h ⊆ h' → pending_ok g h' p → map_Forall (λ _, pending_ok g h) calls →
  map_Forall (λ _, pending_ok g h') (<[t := p]> calls).
Proof.
  intros Hs Hp Hc. apply map_Forall_insert_2; [done|]. intros t' p' Ht'.
  eapply pending_ok_mono; [exact Hs|]. by apply (Hc t').
Qed.

Lemma readIdentity_wp identity f h :
  wpM anything (readIdentity identity) f h
    (λ h' f' r, h ⊆ h' ∧ f' = f ∧ pending_ok (Global f) h' (after_read identity r)).
Proof.
  unfold readIdentity. wp_steps; try exact I; split_and!; try done; try hist; cbn.
  - by case_match.
  - bool_to_prop. split_and!; try done. unfold read_secret. hist.
Qed.

(** What the part under the lock leaves behind. *)
Definition locked_post (identity : Identity) (secret : Secret) (f : SecretFactory) (h h' : hist FactoryE)
    (f' : SecretFactory) (r : result ClientRef) : Prop :=
  h ⊆ h' ∧ Global f' = Global f ∧ cache_ok f' h' ∧ pending_ok (Global f) h' (Returned identity (Some secret) r).

Lemma NewClient_wp (custom : bool) creds f h :
  wpM anything (if custom then call (FieldNewClient creds) else NewClient creds) f h
    (λ h' f' r, h ⊆ h' ∧ f' = f ∧ ∀ c, r = Ok c → built h' creds c).
Proof.
  unfold NewClient. destruct custom; wp_steps; try exact I; split_and!; try done; try hist;
    intros c [= ->]; [left|right]; hist.
Qed.

Lemma buildClient_wp identity secret f h :
  cache_ok f h → pending_ok (Global f) h (Locking identity secret (secretCredentials secret)) →
  wpM anything (buildClient (keyString identity) secret (secretCredentials secret)) f h
    (locked_post identity secret f h).
Proof.
  intros Hok (Hn & Hread & _ & Hcomp). unfold buildClient. do 3 wp_step.
  eapply wpM_mono; [apply NewClient_wp|]. intros h' f' [c|e] (Hs & -> & Hb); cbn.
  - assert (built_for h' (keyString identity) (Secret_ResourceVersion secret) c) as Hbf
      by (exists identity, secret; split_and!; [by apply Hs|done|done|by apply Hb]).
    split_and!; [done|done| |].
    + intros key e. cbn. intros [[<- <-]|[_ He]]%lookup_insert_Some; [done|].
      eapply built_for_mono; [exact Hs|]. by apply Hok.
    + cbn. rewrite bool_decide_eq_false_2 by done. exists secret. split_and!; [done|by apply Hs|done|done].
  - split_and!; [done|done|by eapply cache_ok_mono|done].
Qed.

Lemma lockedClient_wp identity secret creds f h :
  cache_ok f h → pending_ok (Global f) h (Locking identity secret creds) →
  wpM anything (lockedClient identity secret creds) f h (locked_post identity secret f h).
Proof.
  intros Hc Hp. pose proof Hp as (Hn & Hread & -> & Hcomp). unfold lockedClient. do 2 wp_step. cbn beta iota.
  set (f1 := match cache f with None => set_cache ∅ f | Some _ => f end).
  assert (Global f1 = Global f ∧ default ∅ (cache f1) = default ∅ (cache f)) as [Hg1 Hc1]
    by (unfold f1; by destruct (cache f) eqn:Hf; cbn; rewrite ?Hf).
  assert (cache_ok f1 h) as Hok by (intros key e; rewrite Hc1; apply Hc). clearbody f1.
  do 2 wp_step. cbn beta iota zeta. unfold locked_post. rewrite <-Hg1 in Hp |- *.
  destruct (default ∅ (cache f1) !! keyString identity) as [e|] eqn:He; [|by apply buildClient_wp].
  case_bool_decide as Hv; [|by apply buildClient_wp]. wp_step. split_and!; [done..|]. cbn.
  rewrite bool_decide_eq_false_2 by done. exists secret. split_and!; [done|done|done|].
  rewrite <-Hv. by apply Hok.
Qed.

Lemma respects_any {E} (h : hist E) : respects (any_answer (λ _ _ _, True)) h.
Proof. induction h as [|[X e r] h IH]; by cbn. Qed.

Lemma wpM_exec_any {O E A} (m : M O E A) o h h' o' r (Q : hist E → O → result A → Prop) :
  wpM (any_answer (λ _ _ _, True)) m o h Q → exec (any_answer (λ _ _ _, True)) (m o) h h' (o', r) → Q h' o' r.
Proof. intros Hm Hex. exact (proj1 (wp_exec _ _ _ _ _ _ Hm (respects_any h) Hex)). Qed.

Lemma step_ok g cfg cfg' : step cfg cfg' → config_ok g cfg → config_ok g cfg'.
Proof.
  intros Hstep (Hg & Hc & Hcalls). destruct Hstep as [f calls h t i Ht|f calls h t i f' h' r Ht Hex|
    f calls h t i s c f' h' r Ht Hex]; cbn in *.
  - split_and!; [done|done|]. by apply calls_ok_insert with h.
  - apply (wpM_exec_any _ _ _ _ _ _ _ (readIdentity_wp i f h)) in Hex as (Hs & -> & Hp).
    rewrite Hg in Hp. split_and!; [done|by eapply cache_ok_mono|]. by apply calls_ok_insert with h.
  - pose proof (Hcalls t _ Ht) as Hp. rewrite <-Hg in Hp.
    apply (wpM_exec_any _ _ _ _ _ _ _ (lockedClient_wp i s c f h Hc Hp)) in Hex as (Hs & Hg' & Hc' & Hp').
    rewrite Hg in Hp', Hg'. split_and!; [done|done|]. by apply calls_ok_insert with h.
Qed.

Lemma reachable_ok g custom cfg : rtc step (fresh g custom) cfg → config_ok g cfg.
Proof.
  intros Hr. assert (config_ok g (fresh g custom)) as H0.
  { split_and!; [done| |apply map_Forall_empty]. intros key e He. by cbn in He. }
  revert H0. induction Hr as [|a b c Hab Hbc IH]; [done|]. intros Ha. by apply IH, (step_ok g a).
Qed.

Lemma Cut_keyString i :
  "/"%char ∉ chars (Identity_Namespace i) →
  Cut (keyString i) "/" = Some (Identity_Namespace i, Identity_SecretName i).
Proof. apply (Cut_char "/"). Qed.

Lemma keyString_inj a b :
  "/"%char ∉ chars (Identity_Namespace a) → "/"%char ∉ chars (Identity_Namespace b) →
  keyString a = keyString b → a = b.
Proof.
  intros Ha Hb Hk. apply (f_equal (λ s, Cut s "/")) in Hk. rewrite !Cut_keyString in Hk by done.
  destruct a, b. by simplify_eq/=.
Qed.

(** Namespaces are DNS labels, and a resource version stands for one state of an
    object: what the Kubernetes API promises about the answers in a history. *)
Record kubernetes_reads (h : hist FactoryE) : Prop := {
  namespace_label ns name r : Obs (ReaderGet ns name) r ∈ h → "/"%char ∉ chars ns;
  version_state ns name s s' :
    Obs (ReaderGet ns name) (Ok s) ∈ h → Obs (ReaderGet ns name) (Ok s') ∈ h →
    Secret_ResourceVersion s = Secret_ResourceVersion s' → Secret_Data s = Secret_Data s'
}.

(** (C18) A client never acts with other credentials than its cluster's.
    However the calls of [ClientFor] interleave, a call that succeeds for an
    identity with a Secret returns a client made from exactly the credentials in
    the Secret that this very call read, both non-empty, whether the client is
    new or cached (a resource version standing for one state of the Secret); a
    call without a Secret returns the global client. *)
Theorem factory_client_faithful g custom cfg t identity read c :
  rtc step (fresh g custom) cfg → kubernetes_reads (cfg_hist cfg) →
  cfg_calls cfg !! t = Some (Returned identity read (Ok c)) →
  if bool_decide (Identity_SecretName identity = "") then g = Some c
  else ∃ secret, read = Some secret ∧ read_secret (cfg_hist cfg) identity secret ∧
         complete (secretCredentials secret) ∧ built (cfg_hist cfg) (secretCredentials secret) c.
Proof.
  intros (_ & _ & Hcalls)%reachable_ok [Hns Hver] Ht. apply (Hcalls t) in Ht. cbn in Ht.
  case_match; [done|]. destruct Ht as (s & Hrd & Hs & Hc & i & s' & Hs' & Hk & Hv & Hb).
  exists s. split_and!; [done..|].
  assert (i = identity) as -> by (apply keyString_inj; [by eapply Hns|by eapply Hns|done]).
  unfold secretCredentials in *. by rewrite (Hver _ _ s s' Hs Hs').
Qed.

(** ** Reuse *)

(** The entry a successful call leaves in the cache. *)
Definition remembers (f : SecretFactory) (identity : Identity) (version : string) (c : ClientRef) : Prop :=
  default ∅ (cache f) !! keyString identity = Some (mkCachedClient version c).

Lemma lockedClient_remembers identity secret creds f h :
  wpM anything (lockedClient identity secret creds) f h
    (λ h' f' r, h ⊆ h' ∧ ∀ c, r = Ok c → remembers f' identity (Secret_ResourceVersion secret) c).
Proof.
  unfold lockedClient, buildClient, NewClient, remembers.
  wp_steps; try exact I; (split; [hist|]); intros c' Hc'; simplify_eq/=; try done;
    bool_to_prop; rewrite ?lookup_insert_eq; try done.
  match goal with H : _ !! _ = Some ?e |- _ => rewrite H; destruct e end. by simplify_eq/=.
Qed.

Lemma ClientFor_remembers identity f h :
  Identity_SecretName identity ≠ "" →
  wpM anything (SecretFactory_ClientFor identity) f h
    (λ h' f' r, ∀ c, r = Ok c → ∃ secret, read_secret h' identity secret ∧
       remembers f' identity (Secret_ResourceVersion secret) c).
Proof.
  intros Hn. unfold SecretFactory_ClientFor, readIdentity. rewrite bool_decide_eq_false_2 by done.
  wp_steps; try exact I; try done.
  eapply wpM_mono; [apply lockedClient_remembers|]. intros h2 f2 r [Hs Hm] c Hc.
  eexists. split; [|by apply Hm]. apply Hs. hist.
Qed.

Lemma lockedClient_hit identity secret creds f h c :
  remembers f identity (Secret_ResourceVersion secret) c →
  wpM anything (lockedClient identity secret creds) f h (λ h' f' r, h' = h ∧ f' = f ∧ r = Ok c).
Proof.
  unfold remembers, lockedClient. intros Hm. do 2 wp_step. cbn beta iota.
  destruct (cache f) as [m|] eqn:Hf; cbn in Hm; [|done]. do 2 wp_step. cbn beta iota zeta.
  rewrite Hf. cbn. rewrite Hm. cbn. rewrite bool_decide_eq_true_2 by done. by wp_step.
Qed.

(** Clients are reused: after a call of [ClientFor] that returned a client,
    the next one for the same identity only reads the Secret; as long as its
    version has not changed it returns the same client, builds none, and leaves
    the factory as it is. *)
Theorem factory_reuses_client identity f f1 f2 h1 h2 c r2 :
  Identity_SecretName identity ≠ "" →
  exec anything (SecretFactory_ClientFor identity f) [] h1 (f1, Ok c) →
  exec anything (SecretFactory_ClientFor identity f1) h1 h2 (f2, r2) →
  (∀ s s', read_secret h2 identity s → read_secret h2 identity s' →
     Secret_ResourceVersion s = Secret_ResourceVersion s') →
  f2 = f1 ∧ (∃ answer, h2 = Obs (ReaderGet (Identity_Namespace identity) (Identity_SecretName identity)) answer :: h1) ∧
  match r2 with Ok c' => c' = c | Err _ => True end.
Proof.
  intros Hn H1 H2 Hver. destruct (exec_suffix _ _ _ _ _ H2) as [t Ht].
  destruct (wpM_exec_any _ _ _ _ _ _ _ (ClientFor_remembers identity f [] Hn) H1 c eq_refl) as (s & Hs & Hm).
  assert (read_secret h2 identity s) as Hs2 by (unfold read_secret; rewrite Ht; apply elem_of_app; by right).
  revert Hver Hs2. pattern h2, f2, r2. match goal with |- ?Q _ _ _ => refine (wpM_exec_any _ _ _ _ _ _ Q _ H2) end.
  unfold SecretFactory_ClientFor, readIdentity. rewrite bool_decide_eq_false_2 by done.
  wp_steps; try exact I; try (intros; split_and!; [done|by eexists|done]; fail).
  destruct (decide (Secret_ResourceVersion a = Secret_ResourceVersion s)) as [Ha|Ha].
  - rewrite <-Ha in Hm. eapply wpM_mono; [by apply lockedClient_hit|].
    intros h' f' r (-> & -> & ->) _ _. split_and!; [done|by eexists|done].
  - eapply wpM_mono; [apply lockedClient_remembers|]. intros h' f' r [Hsub _] Hver Hs2. destruct Ha.
    apply Hver; [|done]. apply Hsub. hist.
Qed.

(** ** Examples *)

Module FactoryExamples.

Definition team : Identity := mkIdentity "ns" "creds".
Definition secretV (version secret : string) : Secret :=
  mkSecret "ns" "creds" version ∅ None
    (list_to_map [(SecretKeyClientID, "id"); (SecretKeyClientSecret, secret)]).

(** A management cluster with one Secret and a constructor that numbers its
    clients. *)
Definition hdl (X : Type) (e : FactoryE X) : (Secret * nat) → (Secret * nat) * X :=
  match e in FactoryE X return (Secret * nat) → (Secret * nat) * X with
  | ReaderGet ns name => λ s,
      (s, if bool_decide (ns = "ns") && bool_decide (name = "creds") then Ok s.1
          else Err (KubeError ReasonNotFound "not found"))
  | FieldNewClient _ | SdkNewClient _ => λ s, ((s.1, S s.2), Ok s.2)
  end.

Definition call1 := trace hdl (SecretFactory_ClientFor team (mkSecretFactory (Some 7) true None)) (secretV "1" "a", 10) [].
Definition f1 := call1.2.1.
Definition h1 := call1.1.2.
(* the Secret is rotated before the second call *)
Definition call2 := trace hdl (SecretFactory_ClientFor team f1) (secretV "2" "b", 11) h1.
Definition f2 := call2.2.1.
Definition h2 := call2.1.2.

Definition factory0 : SecretFactory := mkSecretFactory (Some 7) true None.

(** A call by itself, with the Secret it reads. *)
Lemma reads_then (f f' : SecretFactory) calls h t version secret n n' :
  let s := secretV version secret in
  let r1 := trace hdl (readIdentity team f) (s, n) h in
  let r2 := trace hdl (lockedClient team s (secretCredentials s) f) (s, n) r1.1.2 in
  calls !! t = None → r1.2 = (f, Ok (inr (s, secretCredentials s))) → r2.2 = (f', Ok n') →
  rtc step (mkConfig f calls h) (mkConfig f' (<[t := Returned team (Some s) (Ok n')]> calls) r2.1.2).
Proof.
  intros s r1 r2 Ht H1' H2'.
  eapply rtc_l; [by apply (step_call _ _ _ t team)|]. eapply rtc_l.
  { eapply step_read; [apply lookup_insert_eq|]. pose proof (trace_exec hdl (readIdentity team f) (s, n) h) as He.
    fold r1 in He. rewrite H1' in He. exact He. }
  cbn [after_read]. rewrite insert_insert_eq. apply rtc_once.
  rewrite <-(insert_insert_eq calls t (Returned team (Some s) (Ok n')) (Locking team s (secretCredentials s))).
  eapply step_lock; [apply lookup_insert_eq|].
  pose proof (trace_exec hdl (lockedClient team s (secretCredentials s) f) (s, n) r1.1.2) as He.
  fold r2 in He. rewrite H2' in He. exact He.
Qed.

Definition cfg2 : config :=
  mkConfig f2 (<[1 := Returned team (Some (secretV "2" "b")) (Ok 11)]>
               (<[0 := Returned team (Some (secretV "1" "a")) (Ok 10)]> ∅)) h2.

Lemma cfg2_reachable : rtc step (fresh (Some 7) true) cfg2.
Proof.
  etrans.
  - refine (reads_then factory0 f1 ∅ [] 0 "1" "a" 10 10 _ _ _); vm_compute; reflexivity.
  - refine (reads_then f1 f2 _ h1 1 "2" "b" 11 11 _ _ _); vm_compute; reflexivity.
Qed.

(** The Secret a call returned. *)
Definition secret_of (o : obs FactoryE) : option Secret :=
  match o with
  | Obs (ReaderGet _ _) (Ok s) => Some s
  | _ => None
  end.

Lemma reads_in ns name s (h : hist FactoryE) :
  Obs (ReaderGet ns name) (Ok s) ∈ h → s ∈ omap secret_of h.
Proof. intros Hin. apply list_elem_of_omap. by eexists. Qed.

Lemma reads2 : kubernetes_reads h2.
Proof.
  split.
  - intros ns name r Hin.
    assert (Forall (λ o, match o with Obs (ReaderGet ns _) _ => "/"%char ∉ chars ns | _ => True end) h2) as Hf
      by (repeat constructor; apply (bool_decide_unpack _); vm_compute; exact I).
    exact (proj1 (Forall_forall _ _) Hf _ Hin).
  - intros ns name s s' Hs Hs' Hv.
    apply reads_in in Hs, Hs'. change (omap secret_of h2) with [secretV "2" "b"; secretV "1" "a"] in *.
    rewrite !elem_of_cons, !elem_of_nil in Hs, Hs'.
    destruct Hs as [->|[->|[]]], Hs' as [->|[->|[]]]; done.
Qed.

(** After a rotation the new credentials are used. *)
Lemma factory_client_faithful_witness :
  ∃ secret, Some (secretV "2" "b") = Some secret ∧ read_secret h2 team secret ∧ complete (secretCredentials secret) ∧
    built h2 (secretCredentials secret) 11.
Proof.
  exact (factory_client_faithful (Some 7) true cfg2 1 team (Some (secretV "2" "b")) 11 cfg2_reachable reads2 eq_refl).
Defined.

Definition call3 := trace hdl (SecretFactory_ClientFor team f1) (secretV "1" "a", 11) h1.

Lemma factory_reuses_client_witness : call3.2.1 = f1 ∧ call3.2.2 = Ok 10.
Proof.
  split; [|reflexivity].
  refine (proj1 (factory_reuses_client team (mkSecretFactory (Some 7) true None) f1 call3.2.1 h1 call3.1.2 10
    call3.2.2 _ _ _ _)).
  - done.
  - exact (trace_exec hdl _ _ _).
  - exact (trace_exec hdl _ _ _).
  - intros s s' Hs%reads_in Hs'%reads_in. revert Hs Hs'.
    change (omap secret_of call3.1.2) with [secretV "1" "a"; secretV "1" "a"].
    rewrite !elem_of_cons, !elem_of_nil. intros [->|[->|[]]] [->|[->|[]]]; done.
Defined.

End FactoryExamples.
