(* ===== verification/Ssh.v ===== *)
(** * Keys and updates over SSH ([internal/loadbalancer/ssh.go], [haproxy.go])

    [SSHUpdater.run] and the two updates built on it, over the calls of
    [golang.org/x/crypto/ssh] and the dialer; and the updater the tests use.
    Handles of connections, clients and sessions are numbers. *)

From S2P Require Import Prelude GoStd GoTime Effects Ctrl LoadBalancer.
From stdpp Require Import options.

Local Open Scope go_scope.

(** ** The calls *)

(** [ssh.ClientConfig], with the key of [ssh.FixedHostKey] as [HostKey]. *)
Record ClientConfig := mkClientConfig {
  User : string;
  Auth : string;
  HostKey : string;
  HostKeyAlgorithms : list string;
  Timeout : Z
}.

Inductive SshE : Type → Type :=
| ParsePrivateKey (pem : string) : SshE (result string)
| ParseAuthorizedKey (line : string) : SshE (result string)
| DialContext (address : string) (timeout : Z) : SshE (result nat)
| Deadline : SshE (option Z)
| SetDeadline (conn : nat) (deadline : Z) : SshE (option error)
| NewClientConn (conn : nat) (addr : string) (config : ClientConfig) : SshE (result nat)
| CloseConn (conn : nat) : SshE (option error)
| NewSession (client : nat) : SshE (result nat)
| SessionRun (session : nat) (stdin command : string) : SshE (option error * string)
| CloseSession (session : nat) : SshE (option error)
| CloseClient (client : nat) : SshE (option error).

Definition KeyAlgoED25519 := "ssh-ed25519".

(** [net.JoinHostPort] *)
Definition JoinHostPort (host port : string) : string :=
  if bool_decide (":"%char ∈ chars host) then "[" +:+ host +:+ "]:" +:+ port
  else host +:+ ":" +:+ port.

(** [defer func() { _ = close() }()] before [body]. *)
Definition deferClose {A} (close : SshE (option error)) (body : M unit SshE A) : M unit SshE A :=
  let? r := body in
  do! ask close in
  match r with
  | Ok a => retM a
  | Err e => throw e
  end.

Definition orWrap {A} (pre : string) (m : M unit SshE A) : M unit SshE A :=
  let? r := m in
  match r with
  | Ok a => retM a
  | Err err => throw (wrapError pre err "")
  end.

(** ** [SSHUpdater] *)

Definition defaultTimeout : Z := 20 * Second.

Definition sshConfig (timeout : Z) (signer hostKey : string) : ClientConfig :=
  mkClientConfig "root" signer hostKey [KeyAlgoED25519] timeout.

(** The part that has a session. *)
Definition runSession (addr : string) (session : nat) (stdin command : string) : M unit SshE unit :=
  let! res := ask (SessionRun session stdin command) in
  match res with
  | (None, _) => retM tt
  | (Some err, stderr) =>
      throw (wrapError ("updating load balancer " +:+ addr +:+ ": ") err (": " +:+ TrimSpace stderr))
  end.

(** The part that has a client. *)
Definition runClient (addr : string) (client : nat) (stdin command : string) : M unit SshE unit :=
  let! session := orWrap "opening ssh session: " (call (NewSession client)) in
  deferClose (CloseSession session) (runSession addr session stdin command).

(** The handshake on a connection. *)
Definition handshake (addr : string) (conn : nat) (config : ClientConfig) : M unit SshE nat :=
  let! deadline := ask Deadline in
  do! match deadline with
      | Some d => let! _ := ask (SetDeadline conn d) in retM tt
      | None => retM tt
      end in
  let? r := call (NewClientConn conn addr config) in
  match r with
  | Err err =>
      do! ask (CloseConn conn) in
      throw (wrapError ("ssh handshake with load balancer " +:+ addr +:+ ": ") err "")
  | Ok client => retM client
  end.

Definition SSHUpdater_run (updaterTimeout : Z) (addr : string) (keys : Keys) (stdin command : string) :
    M unit SshE unit :=
  let! signer := orWrap "parsing client key: " (call (ParsePrivateKey (ClientPrivateKey keys))) in
  let! hostKey := orWrap "parsing host key: " (call (ParseAuthorizedKey (HostPublicKey keys))) in
  let timeout := if (updaterTimeout =? 0)%Z then defaultTimeout else updaterTimeout in
  let config := sshConfig timeout signer hostKey in
  let! conn := orWrap ("connecting to load balancer " +:+ addr +:+ ": ")
                 (call (DialContext (JoinHostPort addr "22") timeout)) in
  let! client := handshake addr conn config in
  deferClose (CloseClient client) (runClient addr client stdin command).

Definition SSHUpdater_UpdateBackends (timeout : Z) (addr : string) (keys : Keys) (backends : list string) :
    M unit SshE unit :=
  SSHUpdater_run timeout addr keys (Config backends) UpdateCommand.

Definition SSHUpdater_UpdateFiles (timeout : Z) (addr : string) (keys : Keys) (files : list File) (reload : string) :
    M unit SshE unit :=
  SSHUpdater_run timeout addr keys (InstallScript files reload) "bash -s".

(** ** Key pairs ([GenerateKeys] of [haproxy.go]) *)

Inductive KeyE : Type → Type :=
| Ed25519_GenerateKey : KeyE (result (string * string))
| MarshalPrivateKey (priv comment : string) : KeyE (result string)
| NewPublicKey (pub : string) : KeyE (result string).

(** The encodings of [encoding/pem] and [golang.org/x/crypto/ssh]. *)
Class KeyEncoding := {
  pem_EncodeToMemory : string → string;
  MarshalAuthorizedKey : string → string
}.

Section keys.
Context `{!KeyEncoding}.

Definition generateKeyPair (comment : string) : M unit KeyE (string * string) :=
  let! pair := call Ed25519_GenerateKey in
  let '(pub, priv) := pair in
  let! block := call (MarshalPrivateKey priv comment) in
  let! sshPub := call (NewPublicKey pub) in
  retM (pem_EncodeToMemory block, MarshalAuthorizedKey sshPub).

Definition LB_GenerateKeys : M unit KeyE Keys :=
  let? client := generateKeyPair "cluster-api-provider-verda" in
  match client with
  | Err err => throw (wrapError "generating client key: " err "")
  | Ok (clientPriv, clientPub) =>
      let? host := generateKeyPair "" in
      match host with
      | Err err => throw (wrapError "generating host key: " err "")
      | Ok (hostPriv, hostPub) => retM (mkKeys clientPriv clientPub hostPriv hostPub)
      end
  end.

(** [privPEM] and [pubLine] are the two halves of one generated pair. *)
Definition one_pair (h : hist KeyE) (privPEM pubLine : string) : Prop :=
  ∃ pub priv comment block sshPub,
    Obs Ed25519_GenerateKey (Ok (pub, priv)) ∈ h ∧
    Obs (MarshalPrivateKey priv comment) (Ok block) ∈ h ∧ Obs (NewPublicKey pub) (Ok sshPub) ∈ h ∧
    privPEM = pem_EncodeToMemory block ∧ pubLine = MarshalAuthorizedKey sshPub.

(** The keys belong together: the private and the public client key come from
    one generated pair, and so do the host keys. *)
Theorem generated_keys_paired h keys :
  runs (LB_GenerateKeys tt) h (tt, Ok keys) →
  one_pair h (ClientPrivateKey keys) (ClientPublicKey keys) ∧ one_pair h (HostPrivateKey keys) (HostPublicKey keys).
Proof.
  intros Hex. unfold runs in Hex. remember (Ok keys) as r eqn:Hr.
  revert Hr. exec_to_wp Hex. unfold LB_GenerateKeys, generateKeyPair. wp_steps; try exact I; intros Hks; simplify_eq/=.
  split; [exists s, s0, "cluster-api-provider-verda", a, a0|exists s1, s2, "", a1, a2]; split_and!; try done; hist.
Qed.
End keys.

(** ** [FakeUpdater] *)

Record FakeUpdater := mkFakeUpdater {
  Backends : option (gmap string (list string));
  Files : option (gmap string (list File));
  Calls : Z;
  Fake_Err : option error
}.

Definition FakeUpdater_UpdateFiles (addr : string) (files : list File) (f : FakeUpdater) : FakeUpdater * result unit :=
  let f := mkFakeUpdater (Backends f) (Files f) (Calls f + 1) (Fake_Err f) in
  match Fake_Err f with
  | Some err => (f, Err err)
  | None => (mkFakeUpdater (Backends f) (Some (<[addr := files]> (default ∅ (Files f)))) (Calls f) None, Ok tt)
  end.

Definition FakeUpdater_UpdateBackends (addr : string) (backends : list string) (f : FakeUpdater) :
    FakeUpdater * result unit :=
  let f := mkFakeUpdater (Backends f) (Files f) (Calls f + 1) (Fake_Err f) in
  match Fake_Err f with
  | Some err => (f, Err err)
  | None => (mkFakeUpdater (Some (<[addr := backends]> (default ∅ (Backends f)))) (Files f) (Calls f) None, Ok tt)
  end.

(** ** What a run leaves behind *)

(** Connections and sessions that were opened, and commands that succeeded. *)
Definition dialed (o : obs SshE) : option nat :=
  match o with Obs (DialContext _ _) (Ok conn) => Some conn | _ => None end.
Definition opened_session (o : obs SshE) : option nat :=
  match o with Obs (NewSession _) (Ok session) => Some session | _ => None end.
Definition succeeded (o : obs SshE) : option nat :=
  match o with Obs (SessionRun session _ _) (None, _) => Some session | _ => None end.
Definition commands (o : obs SshE) : option nat :=
  match o with Obs (SessionRun session _ _) _ => Some session | _ => None end.

(** [conn] was closed, by itself or with the client that owns it. *)
Definition released (h : hist SshE) (conn : nat) : Prop :=
  (∃ r, Obs (CloseConn conn) r ∈ h) ∨
  (∃ addr config client r, Obs (NewClientConn conn addr config) (Ok client) ∈ h ∧ Obs (CloseClient client) r ∈ h).

(** [session] belongs to a client that is connected to port 22 of [addr],
    authenticated with the client key and checked against the host key. *)
Definition pinned (addr : string) (keys : Keys) (h : hist SshE) (session : nat) : Prop :=
  ∃ conn client timeout signer hostKey,
    Obs (ParsePrivateKey (ClientPrivateKey keys)) (Ok signer) ∈ h ∧
    Obs (ParseAuthorizedKey (HostPublicKey keys)) (Ok hostKey) ∈ h ∧
    Obs (DialContext (JoinHostPort addr "22") timeout) (Ok conn) ∈ h ∧
    Obs (NewClientConn conn addr (sshConfig timeout signer hostKey)) (Ok client) ∈ h ∧
    Obs (NewSession client) (Ok session) ∈ h.

(** What is required of the commands. *)
Definition ssh_guar (addr : string) (keys : Keys) (stdin command : string)
    (h : hist SshE) (X : Type) (e : SshE X) : Prop :=
  match e with
  | SessionRun session i c => i = stdin ∧ c = command ∧ pinned addr keys h session ∧ omap commands h = []
  | _ => True
  end.

Definition ssh_post (h : hist SshE) (r : result unit) : Prop :=
  (∀ conn, conn ∈ omap dialed h → released h conn) ∧
  (∀ session, session ∈ omap opened_session h → ∃ x, Obs (CloseSession session) x ∈ h) ∧
  (r = Ok tt ↔ omap succeeded h ≠ []).

Ltac pin := do 5 eexists; split_and!; hist.

Lemma SSHUpdater_run_wp t addr keys stdin command :
  wpM (any_answer (ssh_guar addr keys stdin command)) (SSHUpdater_run t addr keys stdin command) tt []
    (λ h _ r, ssh_post h r).
Proof.
  unfold SSHUpdater_run, handshake, runClient, deferClose, runSession, orWrap.
  wp_steps; try exact I; try (split_and!; [done|done|pin|reflexivity]; fail).
  all: split_and!; cbn [omap list_omap dialed opened_session succeeded];
    try (intros ? []%not_elem_of_nil; fail); try (by split);
    intros ? ->%list_elem_of_singleton;
    first [left; eexists; hist | right; do 4 eexists; split; hist | eexists; hist].
Qed.

(** (C28) An update of a load balancer goes to the right machine and leaks
    nothing, on every branch.  The command is sent at most once, with exactly
    the given input, and only in a session to port 22 of the address whose
    handshake was authenticated with the stored client key and demanded the
    stored host key; every connection and session that was opened is closed
    when the call returns; and it reports success exactly if the command ran
    and succeeded. *)
Theorem ssh_run_safe t addr keys stdin command h r :
  runs (SSHUpdater_run t addr keys stdin command tt) h (tt, r) →
  (∀ after before session i c x,
     h = after ++ Obs (SessionRun session i c) x :: before →
     i = stdin ∧ c = command ∧ pinned addr keys before session ∧ omap commands before = []) ∧
  (∀ conn, conn ∈ omap dialed h → released h conn) ∧
  (∀ session, session ∈ omap opened_session h → ∃ x, Obs (CloseSession session) x ∈ h) ∧
  (r = Ok tt ↔ omap succeeded h ≠ []).
Proof.
  intros Hex.
  apply (exec_any _ (ssh_guar addr keys stdin command)) in Hex.
  destruct (wpM_exec _ _ _ _ _ _ _ (SSHUpdater_run_wp t addr keys stdin command) Hex) as [Hpost Hresp].
  split; [|exact Hpost]. intros after before session i c x ->.
  exact (respects_split _ _ _ _ _ _ Hresp).
Qed.

(** ** Examples *)

Module SshExamples.

Definition keys : Keys := mkKeys "client-pem" "client-pub" "host-pem" "host-pub".

(** A load balancer that accepts everything, or refuses the command. *)
Definition hdl (ok : bool) (X : Type) (e : SshE X) : nat → nat * X :=
  match e in SshE X return nat → nat * X with
  | ParsePrivateKey k => λ n, (n, Ok ("signer of " +:+ k))
  | ParseAuthorizedKey k => λ n, (n, Ok ("key of " +:+ k))
  | DialContext _ _ => λ n, (S n, Ok n)
  | Deadline => λ n, (n, None)
  | NewClientConn _ _ _ => λ n, (S n, Ok n)
  | NewSession _ => λ n, (S n, Ok n)
  | SessionRun _ _ _ => λ n, (n, if ok then (None, "") else (Some (errorString "exit status 1"), " bad config "))
  | SetDeadline _ _ | CloseConn _ | CloseSession _ | CloseClient _ => λ n, (n, None)
  end.

Definition refused :=
  trace (hdl false) (SSHUpdater_UpdateFiles 0 "10.0.0.9" keys [mkFile "/etc/envoy/lds.yaml" "x"] "" tt) 0 [].

(** The session of a refused update is closed, and the update failed. *)
Lemma ssh_run_safe_witness : (∃ x, Obs (CloseSession 2) x ∈ refused.1.2) ∧ refused.2.2 ≠ Ok tt.
Proof.
  destruct (ssh_run_safe 0 "10.0.0.9" keys (InstallScript [mkFile "/etc/envoy/lds.yaml" "x"] "") "bash -s"
    refused.1.2 refused.2.2 (trace_exec (hdl false) _ _ _)) as (_ & _ & Hs & Hr).
  split; [apply Hs; left|]. intros Hok. by apply Hr in Hok.
Defined.

End SshExamples.
