(* ===== verification/Main.v ===== *)
(** * The manager program ([cmd/main.go])

    [main] parses the command line, builds the manager and the client factory
    the controllers share, registers controllers, webhooks and health checks and
    starts the manager.  What controller-runtime is told (the options of the
    manager, the builders of [SetupWithManager] and of the webhooks) is data; its
    calls are the calls of [MainE].  [os.Exit] ends the program: it is a
    [throw] that nothing catches.  The object of the program is the factory,
    which the reconcilers hold by pointer. *)

From S2P Require Import Prelude GoStd GoFlag Effects Ctrl ClusterCtl Credentials Factory.
From stdpp Require Import options.

Local Open Scope go_scope.

(** ** The command line *)

Record Flags := mkFlags {
  watchFilterValue : string;
  credentialsFile : string;
  concurrency : Z;
  watchNamespace : string;
  metricsAddr : string;
  probeAddr : string;
  enableLeaderElection : bool;
  secureMetrics : bool;
  webhookCertPath : string;
  webhookCertName : string;
  webhookCertKey : string;
  metricsCertPath : string;
  metricsCertName : string;
  metricsCertKey : string;
  enableHTTP2 : bool
}.

Definition defaultFlags : Flags :=
  mkFlags "" "" 10 "" "0" ":8081" false true "" "tls.crt" "tls.key" "" "tls.crt" "tls.key" false.

(** The flags [main] registers, with the variables they set. *)
Definition ownFlags : list (string * Flag Flags) :=
  [("watch-filter", StringVar (λ x '(mkFlags _ b c d e f g h i j k l m n o), mkFlags x b c d e f g h i j k l m n o));
   ("credentials-file", StringVar (λ x '(mkFlags a _ c d e f g h i j k l m n o), mkFlags a x c d e f g h i j k l m n o));
   ("concurrency", IntVar (λ x '(mkFlags a b _ d e f g h i j k l m n o), mkFlags a b x d e f g h i j k l m n o));
   ("namespace", StringVar (λ x '(mkFlags a b c _ e f g h i j k l m n o), mkFlags a b c x e f g h i j k l m n o));
   ("metrics-bind-address", StringVar (λ x '(mkFlags a b c d _ f g h i j k l m n o), mkFlags a b c d x f g h i j k l m n o));
   ("health-probe-bind-address", StringVar (λ x '(mkFlags a b c d e _ g h i j k l m n o), mkFlags a b c d e x g h i j k l m n o));
   ("leader-elect", BoolVar (λ x '(mkFlags a b c d e f _ h i j k l m n o), mkFlags a b c d e f x h i j k l m n o));
   ("metrics-secure", BoolVar (λ x '(mkFlags a b c d e f g _ i j k l m n o), mkFlags a b c d e f g x i j k l m n o));
   ("webhook-cert-path", StringVar (λ x '(mkFlags a b c d e f g h _ j k l m n o), mkFlags a b c d e f g h x j k l m n o));
   ("webhook-cert-name", StringVar (λ x '(mkFlags a b c d e f g h i _ k l m n o), mkFlags a b c d e f g h i x k l m n o));
   ("webhook-cert-key", StringVar (λ x '(mkFlags a b c d e f g h i j _ l m n o), mkFlags a b c d e f g h i j x l m n o));
   ("metrics-cert-path", StringVar (λ x '(mkFlags a b c d e f g h i j k _ m n o), mkFlags a b c d e f g h i j k x m n o));
   ("metrics-cert-name", StringVar (λ x '(mkFlags a b c d e f g h i j k l _ n o), mkFlags a b c d e f g h i j k l x n o));
   ("metrics-cert-key", StringVar (λ x '(mkFlags a b c d e f g h i j k l m _ o), mkFlags a b c d e f g h i j k l m x o));
   ("enable-http2", BoolVar (λ x '(mkFlags a b c d e f g h i j k l m n _), mkFlags a b c d e f g h i j k l m n x))].

Fixpoint assoc {A} (l : list (string * A)) (name : string) : option A :=
  match l with
  | [] => None
  | (k, a) :: l => if bool_decide (k = name) then Some a else assoc l name
  end.

(** A flag of a library sets nothing [main] reads. *)
Definition foreign {V} (f : Flag unit) : Flag V :=
  mkFlag (IsBoolFlag f) (λ s v, (λ _, v) <$> Flag_Set f s tt).

(** The flags of the zap logger and of controller-runtime's configuration are
    the parameter. *)
Definition CommandLine (library : FlagSet unit) : FlagSet Flags :=
  λ name, match assoc ownFlags name with
          | Some f => Some f
          | None => foreign <$> library name
          end.

(** ** What the manager is told *)

(** A function of [TLSOpts]: [disableHTTP2] sets the protocols. *)
Record TlsConfig := mkTlsConfig { NextProtos : list string }.
Definition disableHTTP2 (c : TlsConfig) : TlsConfig := mkTlsConfig ["http/1.1"].

Record ServerOptions := mkServerOptions {
  TLSOpts : list (TlsConfig → TlsConfig);
  CertDir : string;
  CertName : string;
  KeyName : string
}.

Record MetricsOptions := mkMetricsOptions {
  BindAddress : string;
  SecureServing : bool;
  FilterProvider : bool;
  MetricsServer : ServerOptions
}.

(** [DefaultNamespaces] is nil for all namespaces.  [FilterProvider] is whether
    authentication and authorization are required. *)
Record ManagerOptions := mkManagerOptions {
  DefaultNamespaces : option (list string);
  Metrics : MetricsOptions;
  WebhookServer : ServerOptions;
  HealthProbeBindAddress : string;
  LeaderElection : bool;
  LeaderElectionID : string
}.

Definition tlsOpts (fl : Flags) : list (TlsConfig → TlsConfig) :=
  if negb (enableHTTP2 fl) then [disableHTTP2] else [].

Definition withCert (path name key : string) (o : ServerOptions) : ServerOptions :=
  if (0 <? String.length path)%nat then mkServerOptions (TLSOpts o) path name key else o.

Definition managerOptions (fl : Flags) : ManagerOptions :=
  let base := mkServerOptions (tlsOpts fl) "" "" "" in
  mkManagerOptions
    (if bool_decide (watchNamespace fl = "") then None else Some [watchNamespace fl])
    (mkMetricsOptions (metricsAddr fl) (secureMetrics fl) (secureMetrics fl)
       (withCert (metricsCertPath fl) (metricsCertName fl) (metricsCertKey fl) base))
    (withCert (webhookCertPath fl) (webhookCertName fl) (webhookCertKey fl) base)
    (probeAddr fl) (enableLeaderElection fl) "e4964426.cluster.x-k8s.io".

(** ** Controllers and webhooks, as their builders describe them *)

Inductive EventFilter := ResourceHasFilterLabel (value : string) | ResourceIsNotExternallyManaged.
Inductive ClusterPredicate := ClusterPausedTransitions | ClusterPausedTransitionsOrInfrastructureProvisioned.

(** The functions that map a watched object to requests. *)
Inductive MapFunc :=
| ClusterToInfrastructureMapFunc (kind : string)
| MachineToInfrastructureMapFunc (kind : string)
| ClusterToTypedObjectsMapper (list_kind : string)
| VerdaMachineToVerdaCluster.

Record Watch := mkWatch { Watch_Kind : string; Watch_Map : MapFunc; Watch_Predicates : list ClusterPredicate }.

(** A pointer to the factory of [main], or nil. *)
Inductive FactoryPtr := cloudFactory | nilFactory.
(** The zero value of [SSHUpdater]. *)
Inductive UpdaterPtr := SSHUpdater | nilUpdater.

Inductive Reconciler :=
| VerdaClusterReconciler (factory : FactoryPtr) (lb : UpdaterPtr) (workload : option nat) (filter : string)
| VerdaMachineReconciler (factory : FactoryPtr) (filter : string)
| VerdaMachineTemplateReconciler (factory : FactoryPtr) (filter : string).

Record ControllerSpec := mkControllerSpec {
  For : string;
  MaxConcurrentReconciles : Z;
  EventFilters : list EventFilter;
  Watches : list Watch;
  Named : string;
  Complete : Reconciler
}.

Record WebhookSpec := mkWebhookSpec { Webhook_For : string; WithValidator : string; WithDefaulter : string }.

(** Calls of libraries that report an error. *)
Inductive Setup :=
| LibraryAddToScheme (pkg : string)
| AddKnownTypes (group version : string) (kinds : list string)
| AddToGroupVersion (group version : string)
| NewManager (o : ManagerOptions)
| NewMapper (list_kind : string)
| NewController (c : ControllerSpec)
| NewWebhook (w : WebhookSpec)
| AddHealthzCheck (name check : string)
| AddReadyzCheck (name check : string)
| Start.

Inductive MainE : Type → Type :=
| EnvCall {X} (e : ProcE X) : MainE X
| FactoryCall {X} (e : FactoryE X) : MainE X
| SetupCall (s : Setup) : MainE (result unit)
| GetConfigOrDie : MainE (result unit)
| SetupSignalHandler : MainE unit.

Abbreviation MM := (M SecretFactory MainE).

Definition exited (code : Z) : error := errorString ("exit status " +:+ fmt_d code).
Lemma exited_inj a b : exited a = exited b → a = b.
Proof.
  intros Heq%(f_equal Error). apply string_app_eq_len in Heq as [_ Heq]; [|done]. by apply (inj pretty) in Heq.
Qed.

Definition os_Exit {A} (code : Z) : MM A := throw (exited code).

(** [if err := m; err != nil { ...; os.Exit(code) }] *)
Definition exitOn (code : Z) (m : MM unit) : MM unit :=
  let? r := m in
  match r with
  | Ok _ => retM tt
  | Err _ => os_Exit code
  end.

Abbreviation orExit := (exitOn 1).

(** [utilruntime.Must]: a panic ends a program with status 2. *)
Abbreviation Must := (exitOn 2).

Definition setup (s : Setup) : MM unit := call (SetupCall s).

(** *** The scheme ([api/v1beta1/groupversion_info.go] and the [init]s of the types) *)

Definition Group := "infrastructure.cluster.x-k8s.io".
Definition Version := "v1beta1".

(** The functions the [init]s of the types register. *)
Definition VerdaCluster_init : Setup := AddKnownTypes Group Version ["VerdaCluster"; "VerdaClusterList"].
Definition VerdaClusterTemplate_init : Setup :=
  AddKnownTypes Group Version ["VerdaClusterTemplate"; "VerdaClusterTemplateList"].
Definition VerdaMachine_init : Setup := AddKnownTypes Group Version ["VerdaMachine"; "VerdaMachineList"].
Definition VerdaMachineTemplate_init : Setup :=
  AddKnownTypes Group Version ["VerdaMachineTemplate"; "VerdaMachineTemplateList"].

(** The functions of [SchemeBuilder]: its own, and those of the [init]s, which Go
    runs in the order of the file names. *)
Definition SchemeBuilder : list Setup :=
  [AddToGroupVersion Group Version; VerdaCluster_init; VerdaClusterTemplate_init; VerdaMachine_init;
   VerdaMachineTemplate_init].

(** [SchemeBuilder.AddToScheme] stops at the first error. *)
Fixpoint AddToScheme (fs : list Setup) : MM unit :=
  match fs with
  | [] => retM tt
  | f :: fs => do! setup f in AddToScheme fs
  end.

Definition main_init : MM unit :=
  do! Must (setup (LibraryAddToScheme "clientgoscheme")) in
  do! Must (setup (LibraryAddToScheme "clusterv1")) in
  Must (AddToScheme SchemeBuilder).

(** *** [SetupWithManager] of the controllers *)

Definition clusterController (r : Reconciler) (filter : string) (concurrency : Z) : ControllerSpec :=
  mkControllerSpec "VerdaCluster" concurrency
    [ResourceHasFilterLabel filter; ResourceIsNotExternallyManaged]
    [mkWatch "Cluster" (ClusterToInfrastructureMapFunc "VerdaCluster") [ClusterPausedTransitions];
     mkWatch "VerdaMachine" VerdaMachineToVerdaCluster []]
    "verdacluster" r.

Definition VerdaCluster_SetupWithManager (r : Reconciler) (filter : string) (concurrency : Z) : MM unit :=
  setup (NewController (clusterController r filter concurrency)).

Definition machineController (r : Reconciler) (filter : string) (concurrency : Z) : ControllerSpec :=
  mkControllerSpec "VerdaMachine" concurrency
    [ResourceHasFilterLabel filter]
    [mkWatch "Machine" (MachineToInfrastructureMapFunc "VerdaMachine") [];
     mkWatch "Cluster" (ClusterToTypedObjectsMapper "VerdaMachineList")
       [ClusterPausedTransitionsOrInfrastructureProvisioned]]
    "verdamachine" r.

Definition VerdaMachine_SetupWithManager (r : Reconciler) (filter : string) (concurrency : Z) : MM unit :=
  let? m := setup (NewMapper "VerdaMachineList") in
  match m with
  | Err err => throw (wrapError "creating cluster to VerdaMachines mapper: " err "")
  | Ok _ => setup (NewController (machineController r filter concurrency))
  end.

Definition templateController (r : Reconciler) (filter : string) (concurrency : Z) : ControllerSpec :=
  mkControllerSpec "VerdaMachineTemplate" concurrency [ResourceHasFilterLabel filter] [] "verdamachinetemplate" r.

Definition VerdaMachineTemplate_SetupWithManager (r : Reconciler) (filter : string) (concurrency : Z) : MM unit :=
  setup (NewController (templateController r filter concurrency)).

(** *** The client of a workload cluster ([verdacluster_servicelb.go]) *)

(** A [rest.Config]: what the kubeconfig says, and the timeout of its requests. *)
Record RestConfig := mkRestConfig { Rest_Kubeconfig : string; Rest_Timeout : Z }.

Inductive WorkE : Type → Type :=
| FieldWorkloadClient (f : nat) (kubeconfig : string) : WorkE (result WorkloadRef)
| RESTConfigFromKubeConfig (kubeconfig : string) : WorkE (result RestConfig)
| NewWorkloadClient (c : RestConfig) : WorkE (result WorkloadRef).

Definition DefaultWorkloadClient (kubeconfig : string) : M unit WorkE WorkloadRef :=
  let! restConfig := call (RESTConfigFromKubeConfig kubeconfig) in
  call (NewWorkloadClient (mkRestConfig (Rest_Kubeconfig restConfig) lbPollInterval)).

Definition workloadClient (field : option nat) (kubeconfig : string) : M unit WorkE WorkloadRef :=
  match field with
  | Some f => call (FieldWorkloadClient f kubeconfig)
  | None => DefaultWorkloadClient kubeconfig
  end.

(** *** The webhooks *)

Definition clusterWebhook : WebhookSpec :=
  mkWebhookSpec "VerdaCluster" "VerdaClusterCustomValidator" "VerdaClusterCustomDefaulter".
Definition machineWebhook : WebhookSpec :=
  mkWebhookSpec "VerdaMachine" "VerdaMachineCustomValidator" "VerdaMachineCustomDefaulter".
Definition machineTemplateWebhook : WebhookSpec :=
  mkWebhookSpec "VerdaMachineTemplate" "VerdaMachineTemplateCustomValidator" "VerdaMachineTemplateCustomDefaulter".
Definition clusterTemplateWebhook : WebhookSpec :=
  mkWebhookSpec "VerdaClusterTemplate" "VerdaClusterTemplateCustomValidator" "VerdaClusterTemplateCustomDefaulter".

Definition SetupVerdaClusterWebhookWithManager : MM unit := setup (NewWebhook clusterWebhook).
Definition SetupVerdaMachineWebhookWithManager : MM unit := setup (NewWebhook machineWebhook).
Definition SetupVerdaMachineTemplateWebhookWithManager : MM unit := setup (NewWebhook machineTemplateWebhook).
Definition SetupVerdaClusterTemplateWebhookWithManager : MM unit := setup (NewWebhook clusterTemplateWebhook).

(** ** The program *)

(** A program of another component: its calls are calls of this one. *)
Definition proc {A} (p : prog ProcE A) : MM A :=
  λ f, bind (translate (λ _ e, trigger (EnvCall e)) p) (λ a, Ret (f, Ok a)).
Definition factory {A} (m : M SecretFactory FactoryE A) : MM A :=
  λ f, translate (λ _ e, trigger (FactoryCall e)) (m f).

Definition set_Global (c : ClientRef) (f : SecretFactory) : SecretFactory :=
  mkSecretFactory (Some c) (has_NewClient f) (cache f).

(** The factory and its global client. *)
Definition newFactory (credentialsFile : string) : MM unit :=
  do! modify (λ _, mkSecretFactory None false None) in
  let! creds := proc (LoadCredentials credentialsFile) in
  match creds with
  | Err _ => retM tt
  | Ok creds =>
      let? verdaClient := factory (NewClient creds) in
      match verdaClient with
      | Err _ => os_Exit 1
      | Ok c => modify (set_Global c)
      end
  end.

Definition unlessDisabled (m : MM unit) : MM unit :=
  let! v := ask (EnvCall (Getenv "ENABLE_WEBHOOKS")) in
  if bool_decide (v = "false") then retM tt else orExit m.

Definition registerAll (fl : Flags) : MM unit :=
  do! orExit (VerdaCluster_SetupWithManager
                (VerdaClusterReconciler cloudFactory SSHUpdater None (watchFilterValue fl))
                (watchFilterValue fl) (concurrency fl)) in
  do! orExit (VerdaMachine_SetupWithManager
                (VerdaMachineReconciler cloudFactory (watchFilterValue fl))
                (watchFilterValue fl) (concurrency fl)) in
  do! unlessDisabled SetupVerdaClusterWebhookWithManager in
  do! unlessDisabled SetupVerdaMachineWebhookWithManager in
  do! unlessDisabled SetupVerdaMachineTemplateWebhookWithManager in
  do! unlessDisabled SetupVerdaClusterTemplateWebhookWithManager in
  do! orExit (VerdaMachineTemplate_SetupWithManager
                (VerdaMachineTemplateReconciler cloudFactory (watchFilterValue fl))
                (watchFilterValue fl) (concurrency fl)) in
  do! orExit (setup (AddHealthzCheck "healthz" "healthz.Ping")) in
  orExit (setup (AddReadyzCheck "readyz" "healthz.Ping")).

Definition runManager (fl : Flags) : MM unit :=
  do! orExit (call GetConfigOrDie) in
  do! orExit (setup (NewManager (managerOptions fl))) in
  do! newFactory (credentialsFile fl) in
  do! ask SetupSignalHandler in
  do! registerAll fl in
  orExit (setup Start).

(** [init] and [main] on the arguments of the process; [flag.CommandLine] exits
    with 2 on an error and with 0 after printing the help. *)
Definition main (library : FlagSet unit) (args : list string) : MM unit :=
  do! main_init in
  match flag_Parse (CommandLine library) args defaultFlags with
  | ErrHelp => os_Exit 0
  | ParseFailed _ => os_Exit 2
  | Parsed fl _ => runManager fl
  end.

(** ** The plan [main] carries out *)

Definition setup_of (o : obs MainE) : option (Setup * result unit) :=
  match o with
  | @Obs _ _ (SetupCall s) r => Some (s, r)
  | _ => None
  end.

(** The calls of the libraries, in the order they were made. *)
Definition setups (h : hist MainE) : list (Setup * result unit) := reverse (omap setup_of h).

Definition oks (l : list Setup) : list (Setup * result unit) := (λ s, (s, Ok tt)) <$> l.

Definition init_plan : list Setup :=
  LibraryAddToScheme "clientgoscheme" :: LibraryAddToScheme "clusterv1" :: SchemeBuilder.

Definition webhook_plan : list Setup :=
  NewWebhook <$> [clusterWebhook; machineWebhook; machineTemplateWebhook; clusterTemplateWebhook].

(** Everything before the start, for a process with or without webhooks. *)
Definition setup_plan (fl : Flags) (webhooks : bool) : list Setup :=
  init_plan ++
  [NewManager (managerOptions fl);
   NewController (clusterController
     (VerdaClusterReconciler cloudFactory SSHUpdater None (watchFilterValue fl)) (watchFilterValue fl) (concurrency fl));
   NewMapper "VerdaMachineList";
   NewController (machineController
     (VerdaMachineReconciler cloudFactory (watchFilterValue fl)) (watchFilterValue fl) (concurrency fl))] ++
  (if webhooks then webhook_plan else []) ++
  [NewController (templateController
     (VerdaMachineTemplateReconciler cloudFactory (watchFilterValue fl)) (watchFilterValue fl) (concurrency fl));
   AddHealthzCheck "healthz" "healthz.Ping";
   AddReadyzCheck "readyz" "healthz.Ping"].

(** [log] carries out a proper part of the plan: it stops at a call that failed
    or between two calls. *)
Definition stops (plan : list Setup) (log : list (Setup * result unit)) : Prop :=
  ∃ pre s post, plan = pre ++ s :: post ∧ (log = oks pre ∨ ∃ err, log = oks pre ++ [(s, Err err)]).

(** The environment of the process does not change. *)
Definition process (env : string → string) : protocol MainE :=
  Protocol (λ _ _ _, True) (λ _ X e,
    match e in MainE X return X → Prop with
    | EnvCall e' =>
        match e' in ProcE X return X → Prop with
        | Getenv key => λ v, v = env key
        | _ => λ _, True
        end
    | _ => λ _, True
    end).

Definition webhooks_enabled (env : string → string) : bool := negb (bool_decide (env "ENABLE_WEBHOOKS" = "false")).

(** The factory as the controllers find it: nothing cached, no replacement for
    [NewClient], and a global client only if one was made for complete
    credentials. *)
Definition factory_wired (h : hist MainE) (f : SecretFactory) : Prop :=
  ∃ g, f = cfg_factory (fresh g false) ∧
    ∀ c, g = Some c → ∃ creds, complete creds ∧
      Obs (FactoryCall (SdkNewClient (clientOptions creds))) (Ok c) ∈ h.

Definition failure (e : error) : Prop := e = exited 1 ∨ e = exited 2.

Lemma oks_app l k : oks (l ++ k) = oks l ++ oks k.
Proof. apply fmap_app. Qed.

Lemma stops_app_l plan more log : stops plan log → stops (plan ++ more) log.
Proof. intros (pre & s & post & -> & Hs). exists pre, s, (post ++ more). by rewrite <-app_assoc. Qed.

Lemma stops_app_r plan more log : stops more log → stops (plan ++ more) (oks plan ++ log).
Proof.
  intros (pre & s & post & -> & Hs). exists (plan ++ pre), s, post. rewrite app_assoc, oks_app.
  split; [done|]. destruct Hs as [->|[err ->]]; [by left|right]. exists err. by rewrite app_assoc.
Qed.

Lemma stops_next s err : stops [s] [(s, Err err)].
Proof. exists [], s, []. split; [done|]. right. by exists err. Qed.

Lemma setups_cons_call s r h : setups (Obs (SetupCall s) r :: h) = setups h ++ [(s, r)].
Proof.
  unfold setups. replace (omap setup_of (Obs (SetupCall s) r :: h)) with ((s, r) :: omap setup_of h) by done.
  by rewrite reverse_cons.
Qed.

Lemma setups_embed {E : Type → Type} (inj : ∀ X, E X → MainE X) (t : hist E) h :
  (∀ X e r, setup_of (Obs (inj X e) r) = None) → setups ((embed_obs inj <$> t) ++ h) = setups h.
Proof.
  intros Hn. unfold setups. f_equal. induction t as [|[X e r] t IH]; [done|].
  cbn -[setup_of]. by rewrite Hn.
Qed.

Lemma LoadCredentials_complete path h :
  wp (any_answer (λ _ _ _, True)) (LoadCredentials path) h (λ _ r, ∀ c, r = Ok c → complete c).
Proof.
  assert (∀ creds path h, wp (any_answer (λ _ _ _, True)) (loadFromFile creds path) h
    (λ _ r, ∀ c, r = Ok c → complete c)) as Hfile.
  { intros creds p h0. cbn. split; [done|]. intros prof _. split; [done|]. intros r _.
    intros c Hc. unfold complete. split_cases; naive_solver. }
  cbn -[loadFromFile]. do 3 (split; [done|]; intros ? _).
  destruct (negb _ && negb _) eqn:Hc; bool_to_prop; [by intros c [= <-]|].
  destruct (bool_decide (path = "")); [|apply Hfile].
  split; [done|]. intros [home|err] _; [apply Hfile|done].
Qed.

(** ** The parts of the program follow the parts of the plan *)

Section follows.
Context (env : string → string).

(** Run after the calls [done], [m] makes the calls [steps] and establishes
    [J'], or stops early. *)
Definition follows (J J' : hist MainE → SecretFactory → Prop) (m : MM unit) (steps : list Setup) : Prop :=
  ∀ f h done, setups h = oks done → J h f →
  wpM (process env) m f h (λ h' f' r,
    match r with
    | Ok _ => setups h' = oks (done ++ steps) ∧ J' h' f'
    | Err e => failure e ∧ ∃ log, setups h' = oks done ++ log ∧ stops steps log
    end).

Lemma follows_seq J J1 J2 m1 m2 s1 s2 :
  follows J J1 m1 s1 → follows J1 J2 m2 s2 → follows J J2 (do! m1 in m2) (s1 ++ s2).
Proof.
  intros H1 H2 f h done Hd HJ. wp_step. eapply wpM_mono; [by apply H1|].
  intros h1 f1 [[]|e]; cbn beta iota.
  - intros [Hd1 HJ1]. eapply wpM_mono; [by apply H2|]. intros h2 f2 [[]|e]; cbn beta iota.
    + by rewrite app_assoc.
    + intros (He & log & Hlog & Hs). split; [done|]. exists (oks s1 ++ log).
      split; [by rewrite Hlog, oks_app, app_assoc|by apply stops_app_r].
  - intros (He & log & Hlog & Hs). split; [done|]. exists log. split; [done|]. by apply stops_app_l.
Qed.

(** A part that makes no call of the plan comes before one that does. *)
Lemma follows_skip {A} J J1 J2 (m1 : MM A) m2 steps :
  steps ≠ [] →
  (∀ f h, J h f → wpM (process env) m1 f h (λ h' f' r,
     setups h' = setups h ∧ match r with Ok _ => J1 h' f' | Err e => failure e end)) →
  follows J1 J2 m2 steps → follows J J2 (do! m1 in m2) steps.
Proof.
  intros Hne H1 H2 f h done Hd HJ. wp_step. eapply wpM_mono; [by apply H1|].
  intros h' f' [a|e] [Hs HJ']; cbn beta iota; [apply H2; [by rewrite Hs|done]|].
  split; [done|]. exists []. split; [by rewrite app_nil_r, Hs|].
  destruct steps as [|s steps]; [done|]. exists [], s, steps. split; [done|by left].
Qed.

(** Facts about the history and the factory that further calls keep. *)
Definition stable (J : hist MainE → SecretFactory → Prop) : Prop := ∀ o h f, J h f → J (o :: h) f.

(** The same without an exit of its own: any error is passed on. *)
Definition follows_err (J J' : hist MainE → SecretFactory → Prop) (m : MM unit) (steps : list Setup) : Prop :=
  ∀ f h done, setups h = oks done → J h f →
  wpM (process env) m f h (λ h' f' r,
    match r with
    | Ok _ => setups h' = oks (done ++ steps) ∧ J' h' f'
    | Err e => ∃ log, setups h' = oks done ++ log ∧ stops steps log
    end).

Lemma follows_exit J J' code m steps :
  code = 1%Z ∨ code = 2%Z → follows_err J J' m steps → follows J J' (exitOn code m) steps.
Proof.
  intros Hc Hm f h done Hd HJ. unfold exitOn. wp_step. eapply wpM_mono; [by apply Hm|].
  intros h' f' [[]|e]; cbn beta iota; [done|]. intros Hlog. apply wpM_throw. split; [|done].
  destruct Hc as [-> | ->]; [by left|by right].
Qed.

Lemma setup_follows J s : stable J → follows_err J J (setup s) [s].
Proof.
  intros HJ f h done Hd Hf. unfold setup. wp_step; [done|]. destruct r as [[]|err]; cbn beta iota.
  - rewrite setups_cons_call, Hd, oks_app. split; [done|]. by apply HJ.
  - exists [(s, Err err)]. split; [by rewrite setups_cons_call, Hd|]. apply stops_next.
Qed.

Lemma AddToScheme_follows J fs : stable J → follows_err J J (AddToScheme fs) fs.
Proof.
  intros HJ. induction fs as [|s fs IH]; intros f h done Hd Hf; cbn [AddToScheme].
  - apply wpM_ret. by rewrite app_nil_r.
  - wp_step. eapply wpM_mono; [by apply setup_follows|]. intros h1 f1 [[]|e]; cbn beta iota.
    + intros [Hd1 Hf1]. eapply wpM_mono; [by apply IH|]. intros h2 f2 [[]|e]; cbn beta iota.
      * by rewrite <-app_assoc.
      * intros (log & Hlog & Hs). exists (oks [s] ++ log).
        split; [by rewrite Hlog, oks_app, app_assoc|by apply (stops_app_r [s])].
    + intros (log & Hlog & Hs). exists log. split; [done|]. by apply (stops_app_l [s]).
Qed.

Lemma machine_setup_follows J r filter n :
  stable J → follows_err J J (VerdaMachine_SetupWithManager r filter n)
    [NewMapper "VerdaMachineList"; NewController (machineController r filter n)].
Proof.
  intros HJ f h done Hd Hf. unfold VerdaMachine_SetupWithManager. wp_step.
  eapply wpM_mono; [by apply (setup_follows J)|]. intros h1 f1 [[]|e]; cbn beta iota.
  - intros [Hd1 Hf1]. eapply wpM_mono; [by apply (setup_follows J)|]. intros h2 f2 [[]|e]; cbn beta iota.
    + by rewrite <-app_assoc.
    + intros (log & Hlog & Hs). exists (oks [NewMapper "VerdaMachineList"] ++ log).
      split; [by rewrite Hlog, oks_app, app_assoc|by apply (stops_app_r [NewMapper _])].
  - intros (log & Hlog & Hs). apply wpM_throw. exists log. split; [done|].
    by apply (stops_app_l [NewMapper "VerdaMachineList"]).
Qed.

Lemma webhook_follows J s :
  stable J → follows J J (unlessDisabled (setup s)) (if webhooks_enabled env then [s] else []).
Proof.
  intros HJ f h done Hd Hf. unfold unlessDisabled, webhooks_enabled. wp_step. wp_step; [done|].
  match goal with Hx : rely _ _ _ _ _ |- _ => cbn in Hx; subst x end.
  destruct (bool_decide _); cbn [negb].
  - apply wpM_ret. rewrite app_nil_r. split; [done|by apply HJ].
  - eapply follows_exit; [by left|by apply (setup_follows J)|done|by apply HJ].
Qed.

Lemma wpM_factory {A} (m : M SecretFactory FactoryE A) f h Q :
  wpM (any_answer (λ _ _ _, True)) m f [] Q →
  wpM (process env) (factory m) f h (λ h' f' r,
    ∃ t, h' = (embed_obs (@FactoryCall) <$> t) ++ h ∧ Q t f' r).
Proof.
  intros Hm. eapply wp_mono; [|by eapply (wp_embed (@FactoryCall))].
  intros h' [f' r] (t & -> & HQ). exists t. by rewrite app_nil_r in HQ.
Qed.

Lemma wpM_proc {A} (p : prog ProcE A) f h Q :
  wp (any_answer (λ _ _ _, True)) p [] Q →
  wpM (process env) (proc p) f h (λ h' f' r,
    f' = f ∧ ∃ t a, h' = (embed_obs (@EnvCall) <$> t) ++ h ∧ r = Ok a ∧ Q t a).
Proof.
  intros Hm. apply wp_bind. eapply wp_mono; [|by eapply (wp_embed (@EnvCall))].
  intros h' a (t & -> & HQ). cbn. split; [done|]. exists t, a. by rewrite app_nil_r in HQ.
Qed.

Lemma NewClient_built creds f :
  wpM (any_answer (λ _ _ _, True)) (NewClient creds) f [] (λ h f' r,
    f' = f ∧
    match r with
    | Ok c => Obs (SdkNewClient (clientOptions creds)) (Ok c) ∈ h
    | Err _ => ∃ err, h = [Obs (SdkNewClient (clientOptions creds)) (Err err)]
    end).
Proof.
  unfold NewClient. wp_step. wp_step; [done|]. destruct r as [api|err]; wp_step; (split; [done|]).
  - by left.
  - by exists err.
Qed.

Lemma newFactory_wired file f h :
  wpM (process env) (newFactory file) f h (λ h' f' r,
    setups h' = setups h ∧ match r with Ok _ => factory_wired h' f' | Err e => failure e end).
Proof.
  unfold newFactory. wp_step. wp_step. cbn beta iota. wp_step.
  eapply wpM_mono; [apply wpM_proc, LoadCredentials_complete|].
  intros h1 f1 r (-> & t & a & -> & -> & Hc). cbn beta iota.
  destruct a as [creds|err].
  - wp_step. eapply wpM_mono; [apply wpM_factory, NewClient_built|].
    intros h2 f2 r (t2 & -> & -> & Hb). destruct r as [c|err]; cbn beta iota.
    + wp_step. rewrite !setups_embed by done. split; [done|]. exists (Some c). split; [done|].
      intros c' [= <-]. exists creds. split; [by apply Hc|]. apply elem_of_app. left.
      apply list_elem_of_fmap. exists (Obs (SdkNewClient (clientOptions creds)) (Ok c)). by split.
    + apply wpM_throw. rewrite !setups_embed by done. split; [done|]. by left.
  - wp_step. rewrite setups_embed by done. split; [done|]. by exists None.
Qed.

Lemma follows_call J m s code :
  stable J → code = 1%Z ∨ code = 2%Z → m = setup s → follows J J (exitOn code m) [s].
Proof. intros HJ Hc ->. apply follows_exit; [done|]. by apply setup_follows. Qed.

Lemma follows_cons J J' m1 m2 s1 s2 :
  follows J J m1 [s1] → follows J J' m2 s2 → follows J J' (do! m1 in m2) (s1 :: s2).
Proof. apply (follows_seq J J J' m1 m2 [s1] s2). Qed.

Lemma init_follows : follows (λ _ _, True) (λ _ _, True) main_init init_plan.
Proof.
  unfold main_init, init_plan. do 2 (apply follows_cons; [apply follows_call; auto; done|]).
  apply follows_exit; [by right|]. by apply AddToScheme_follows.
Qed.

Lemma factory_wired_stable : stable factory_wired.
Proof.
  intros o h f (g & -> & Hg). exists g. split; [done|]. intros c Hc.
  destruct (Hg c Hc) as (creds & Hcr & Hin). exists creds. split; [done|]. by right.
Qed.
Local Hint Resolve factory_wired_stable : core.

Lemma register_follows fl :
  follows factory_wired factory_wired (registerAll fl) (drop 8 (setup_plan fl (webhooks_enabled env))).
Proof.
  unfold registerAll. apply follows_cons; [by apply follows_call; auto|].
  apply (follows_seq _ factory_wired _ _ _ [_; _] (_ ++ [_; _; _]));
    [apply follows_exit; [by left|by apply machine_setup_follows]|].
  set (ws := λ s : Setup, if webhooks_enabled env then [s] else []).
  replace (if webhooks_enabled env then webhook_plan else []) with
    (ws (NewWebhook clusterWebhook) ++ ws (NewWebhook machineWebhook) ++
     ws (NewWebhook machineTemplateWebhook) ++ ws (NewWebhook clusterTemplateWebhook))
    by (unfold ws; by destruct (webhooks_enabled env)).
  rewrite <-!app_assoc.
  do 4 (eapply follows_seq; [by apply webhook_follows|]).
  do 2 (apply follows_cons; [by apply follows_call; auto|]). by apply follows_call; auto.
Qed.
Lemma run_follows fl :
  follows (λ _ _, True) factory_wired (runManager fl) (drop 7 (setup_plan fl (webhooks_enabled env)) ++ [Start]).
Proof.
  unfold runManager. apply (follows_skip _ (λ _ _, True)); [done|..].
  { intros f h _. unfold exitOn. wp_step. wp_step; [done|]. destruct r as [[]|e]; [by wp_step|].
    apply wpM_throw. split; [done|by left]. }
  apply follows_cons; [by apply follows_call; auto|].
  apply (follows_skip _ factory_wired); [done|..].
  { intros f h _. apply newFactory_wired. }
  apply (follows_skip _ factory_wired); [done|..].
  { intros f h Hf. wp_step; [done|]. split; [done|]. by apply factory_wired_stable. }
  apply (follows_seq factory_wired factory_wired factory_wired _ _
    (drop 8 (setup_plan fl (webhooks_enabled env))) [Start]); [apply register_follows|]. by apply follows_call; auto.
Qed.
End follows.

Lemma setups_of_start plan log r : stops (plan ++ [Start]) log → (∀ s, s ∈ plan → s ≠ Start) → (Start, Ok r) ∉ log.
Proof.
  intros (pre & s & post & Heq & Hlog) Hplan.
  assert ((Start, Ok r) ∉ oks pre) as Hpre.
  { intros (x & [= <- _] & Hx)%list_elem_of_fmap.
    destruct post as [|y post _] using rev_ind.
    - apply app_inj_tail in Heq as [-> _]. by destruct (Hplan Start).
    - rewrite app_comm_cons, app_assoc in Heq. apply app_inj_tail in Heq as [-> _].
      destruct (Hplan Start); [|done]. apply elem_of_app. by left. }
  destruct Hlog as [->|[err ->]]; [done|]. rewrite elem_of_app, list_elem_of_singleton. by intros [?|?].
Qed.

(** ** What a command line asks for *)

(** What a server is told: with HTTP/2 disabled, the TLS configuration it ends up
    with offers HTTP/1.1 only, otherwise it is left alone; a certificate that was
    named is used. *)
Record server_asked (http2 : bool) (path name key : string) (o : ServerOptions) : Prop := {
  sa_tls c : foldl (λ c f, f c) c (TLSOpts o) = if http2 then c else mkTlsConfig ["http/1.1"];
  sa_cert : (CertDir o, CertName o, KeyName o) = if decide (path = "") then ("", "", "") else (path, name, key)
}.

(** What the manager is told: one namespace or all of them; where metrics and
    probes are served, metrics over HTTPS with authentication if they are to be
    secure; whether a leader is elected. *)
Record manager_asked (fl : Flags) (o : ManagerOptions) : Prop := {
  ma_namespaces : DefaultNamespaces o = if decide (watchNamespace fl = "") then None else Some [watchNamespace fl];
  ma_metrics : BindAddress (Metrics o) = metricsAddr fl;
  ma_secure : SecureServing (Metrics o) = secureMetrics fl;
  ma_filter : FilterProvider (Metrics o) = secureMetrics fl;
  ma_metrics_server :
    server_asked (enableHTTP2 fl) (metricsCertPath fl) (metricsCertName fl) (metricsCertKey fl) (MetricsServer (Metrics o));
  ma_webhook_server :
    server_asked (enableHTTP2 fl) (webhookCertPath fl) (webhookCertName fl) (webhookCertKey fl) (WebhookServer o);
  ma_probes : HealthProbeBindAddress o = probeAddr fl;
  ma_leader : LeaderElection o = enableLeaderElection fl;
  ma_leader_id : LeaderElectionID o = "e4964426.cluster.x-k8s.io"
}.

(** What a controller is told: the kind it reconciles and the kinds it watches,
    how many passes may run at a time, and that it only looks at objects with
    the watch filter's label. *)
Record controller_asked (fl : Flags) (kind name : string) (watched : list string) (r : Reconciler) (c : ControllerSpec) :
    Prop := {
  ca_for : For c = kind;
  ca_named : Named c = name;
  ca_concurrency : MaxConcurrentReconciles c = concurrency fl;
  ca_filter : ResourceHasFilterLabel (watchFilterValue fl) ∈ EventFilters c;
  ca_watches : Watch_Kind <$> Watches c = watched;
  ca_reconciler : Complete c = r
}.

(** What is left open by the names of the calls. *)
Record Parts := mkParts {
  part_manager : ManagerOptions;
  part_cluster : ControllerSpec;
  part_machine : ControllerSpec;
  part_template : ControllerSpec
}.

Record asked (fl : Flags) (p : Parts) : Prop := {
  as_manager : manager_asked fl (part_manager p);
  as_cluster : controller_asked fl "VerdaCluster" "verdacluster" ["Cluster"; "VerdaMachine"]
    (VerdaClusterReconciler cloudFactory SSHUpdater None (watchFilterValue fl)) (part_cluster p);
  as_machine : controller_asked fl "VerdaMachine" "verdamachine" ["Machine"; "Cluster"]
    (VerdaMachineReconciler cloudFactory (watchFilterValue fl)) (part_machine p);
  as_template : controller_asked fl "VerdaMachineTemplate" "verdamachinetemplate" []
    (VerdaMachineTemplateReconciler cloudFactory (watchFilterValue fl)) (part_template p)
}.

(** The types: those of Kubernetes, of Cluster API, and the four kinds of the
    provider with their lists. *)
Definition types_plan : list Setup :=
  [LibraryAddToScheme "clientgoscheme"; LibraryAddToScheme "clusterv1";
   AddToGroupVersion "infrastructure.cluster.x-k8s.io" "v1beta1"] ++
  ((λ kind, AddKnownTypes "infrastructure.cluster.x-k8s.io" "v1beta1" [kind; kind +:+ "List"]) <$>
   ["VerdaCluster"; "VerdaClusterTemplate"; "VerdaMachine"; "VerdaMachineTemplate"]).

(** The order of everything before the start. *)
Definition plan_of (p : Parts) (webhooks : bool) : list Setup :=
  types_plan ++
  [NewManager (part_manager p); NewController (part_cluster p);
   NewMapper "VerdaMachineList"; NewController (part_machine p)] ++
  (if webhooks then
     (λ kind, NewWebhook (mkWebhookSpec kind (kind +:+ "CustomValidator") (kind +:+ "CustomDefaulter"))) <$>
     ["VerdaCluster"; "VerdaMachine"; "VerdaMachineTemplate"; "VerdaClusterTemplate"]
   else []) ++
  [NewController (part_template p); AddHealthzCheck "healthz" "healthz.Ping"; AddReadyzCheck "readyz" "healthz.Ping"].

Lemma managerOptions_asked fl : manager_asked fl (managerOptions fl).
Proof.
  assert (∀ path name key, server_asked (enableHTTP2 fl) path name key
    (withCert path name key (mkServerOptions (tlsOpts fl) "" "" ""))) as Hs.
  { intros path name key. unfold withCert, tlsOpts. split.
    - intros c. destruct (0 <? _)%nat; cbn; by destruct (enableHTTP2 fl).
    - by destruct path. }
  split; try done; [|apply Hs..]. cbn. by repeat case_decide.
Qed.

Lemma setup_plan_asked fl : ∃ p, asked fl p ∧ ∀ webhooks, setup_plan fl webhooks = plan_of p webhooks.
Proof.
  exists (mkParts (managerOptions fl)
    (clusterController (VerdaClusterReconciler cloudFactory SSHUpdater None (watchFilterValue fl))
       (watchFilterValue fl) (concurrency fl))
    (machineController (VerdaMachineReconciler cloudFactory (watchFilterValue fl)) (watchFilterValue fl) (concurrency fl))
    (templateController (VerdaMachineTemplateReconciler cloudFactory (watchFilterValue fl))
       (watchFilterValue fl) (concurrency fl))).
  split; [|by intros []]. split; [apply managerOptions_asked|..]; split; try done; by left.
Qed.

(** What a run of [main] did, for the plan of the flags. *)
Lemma main_follows_plan library args env f h f' r :
  exec (process env) (main library args f) [] h (f', r) →
  match flag_Parse (CommandLine library) args defaultFlags, r with
  | Parsed fl _, Ok _ =>
      setups h = oks (setup_plan fl (webhooks_enabled env) ++ [Start]) ∧ factory_wired h f'
  | Parsed fl _, Err e =>
      failure e ∧ stops (setup_plan fl (webhooks_enabled env) ++ [Start]) (setups h) ∧ (Start, Ok tt) ∉ setups h
  | ErrHelp, r => ∃ e, r = Err e ∧ (e = exited 0 ∧ setups h = oks init_plan ∨ failure e ∧ stops init_plan (setups h))
  | ParseFailed _, r => ∃ e, r = Err e ∧ failure e ∧ (setups h = oks init_plan ∨ stops init_plan (setups h))
  end.
Proof.
  intros Hex. exec_to_wp Hex. unfold main. wp_step.
  eapply wpM_mono; [by apply (init_follows env f [] [])|].
  intros h1 f1 [[]|e]; cbn beta iota.
  - intros [Hd _]. destruct (flag_Parse _ _ _) as [fl rest| |msg].
    + eapply wpM_mono; [by apply (run_follows env fl f1 h1 init_plan)|].
      intros h2 f2 [[]|e]; cbn beta iota; [done|]. intros (He & log & -> & Hs). split; [done|].
      assert (stops (setup_plan fl (webhooks_enabled env) ++ [Start]) (oks init_plan ++ log)) as Hst
        by by apply (stops_app_r init_plan).
      split; [done|]. eapply setups_of_start; [done|]. unfold setup_plan, webhook_plan.
      destruct (webhooks_enabled env); set_solver.
    + apply wpM_throw. eexists. split; [done|]. by left.
    + apply wpM_throw. eexists. split; [done|]. split; [by right|by left].
  - intros (He & log & Hlog & Hs). cbn in Hlog. rewrite Hlog.
    destruct (flag_Parse _ _ _) as [fl rest| |msg]; [|eauto 7..].
    split; [done|].
    assert (stops (setup_plan fl (webhooks_enabled env) ++ [Start]) log) as Hst.
    { unfold setup_plan. rewrite <-app_assoc. by apply stops_app_l. }
    split; [done|]. eapply setups_of_start; [done|]. unfold setup_plan, webhook_plan.
    destruct (webhooks_enabled env); set_solver.
Qed.

(** (C25) [main] does what its command line asks for.  It registers every type of
    the API group, creates the manager with the options the flags ask for
    (namespace, metrics, probes, leader election, certificates, HTTP/2), registers
    the three controllers, with the concurrency and the watch filter of the
    flags, on the shared factory, the four webhooks unless the environment
    disables them, and both probes, in this order, and starts the manager only
    after all of this succeeded; it returns only when the manager ran and
    returned without error, with a factory whose cache is empty and whose global
    client, if any, was made for complete credentials.  Otherwise it stops at the
    first failure and exits with a status that is not zero, and the manager did
    not run to its end.  Arguments that ask for help exit with zero, bad ones
    with another status, and both before anything but the types is set up. *)
Theorem main_carries_out_plan library args env f h f' r :
  exec (process env) (main library args f) [] h (f', r) →
  match flag_Parse (CommandLine library) args defaultFlags with
  | Parsed fl _ =>
      ∃ p, asked fl p ∧
        let plan := plan_of p (webhooks_enabled env) ++ [Start] in
        match r with
        | Ok _ => setups h = oks plan ∧ factory_wired h f'
        | Err e => failure e ∧ stops plan (setups h) ∧ (Start, Ok tt) ∉ setups h
        end
  | ErrHelp => ∃ e, r = Err e ∧ (e = exited 0 ∧ setups h = oks types_plan ∨ failure e ∧ stops types_plan (setups h))
  | ParseFailed _ => ∃ e, r = Err e ∧ failure e ∧ (setups h = oks types_plan ∨ stops types_plan (setups h))
  end.
Proof.
  intros Hex%main_follows_plan. destruct (flag_Parse _ _ _) as [fl rest| |msg]; [|exact Hex..].
  destruct (setup_plan_asked fl) as (p & Hp & Heq). exists p. split; [done|]. cbn zeta. by rewrite <-Heq.
Qed.

(** ** The command line says everything *)

Definition flagValues (fl : Flags) : list (string * string) :=
  [("watch-filter", watchFilterValue fl); ("credentials-file", credentialsFile fl);
   ("concurrency", fmt_d (concurrency fl)); ("namespace", watchNamespace fl);
   ("metrics-bind-address", metricsAddr fl); ("health-probe-bind-address", probeAddr fl);
   ("leader-elect", FormatBool (enableLeaderElection fl)); ("metrics-secure", FormatBool (secureMetrics fl));
   ("webhook-cert-path", webhookCertPath fl); ("webhook-cert-name", webhookCertName fl);
   ("webhook-cert-key", webhookCertKey fl); ("metrics-cert-path", metricsCertPath fl);
   ("metrics-cert-name", metricsCertName fl); ("metrics-cert-key", metricsCertKey fl);
   ("enable-http2", FormatBool (enableHTTP2 fl))].

(** A configuration as arguments of the program. *)
Definition commandLine (fl : Flags) : list string := flag_arg <$> flagValues fl.

Lemma flagValues_plain fl : Forall (λ nv, plain_name nv.1) (flagValues fl).
Proof. repeat constructor; eexists _, _; (split; [reflexivity|]); repeat split; try done; set_solver. Qed.

(** (C26) Every configuration of the manager is the one its command line is
    read back as: each of the fifteen flags sets its own variable and no other,
    whatever text the values hold and whatever flags the libraries registered,
    for every 64-bit concurrency and over any values set before. *)
Theorem command_line_round_trip library fl fl0 :
  (- 2 ^ 63 <= concurrency fl < 2 ^ 63)%Z →
  flag_Parse (CommandLine library) (commandLine fl) fl0 = Parsed fl [].
Proof.
  intros Hc. apply flag_Parse_args; [apply flagValues_plain|].
  destruct fl, fl0. cbn in Hc. unfold flagValues.
  repeat (eapply set_all_cons; [reflexivity| |]; [first
    [by apply IntVar_Set|apply BoolVar_Set|reflexivity]|]).
  reflexivity.
Qed.

(** The reconciler [main] registers talks to workload clusters only with
    requests that time out, after the poll interval. *)
Definition workload_of (r : Reconciler) : option nat :=
  match r with
  | VerdaClusterReconciler _ _ workload _ => workload
  | _ => None
  end.

Definition timeout_of (o : obs WorkE) : option Z :=
  match o with
  | @Obs _ _ (NewWorkloadClient c) _ => Some (Rest_Timeout c)
  | _ => None
  end.

Theorem workload_requests_bounded fl webhooks spec kubeconfig h u r c x :
  NewController spec ∈ setup_plan fl webhooks →
  runs (workloadClient (workload_of (Complete spec)) kubeconfig tt) h (u, r) →
  Obs (NewWorkloadClient c) x ∈ h → Rest_Timeout c = lbPollInterval.
Proof.
  intros Hspec Hex. assert (workload_of (Complete spec) = None) as Hw.
  { unfold setup_plan, webhook_plan in Hspec. destruct webhooks; set_unfold; naive_solver. }
  rewrite Hw in Hex. unfold runs in Hex. revert c x. exec_to_wp Hex. cbn [workloadClient].
  unfold DefaultWorkloadClient. wp_step. wp_step; [done|]. destruct r0 as [rc|err]; cbn beta iota.
  - wp_step; [done|]. intros c x. rewrite !elem_of_cons.
    intros [Heq|[Heq|[]%not_elem_of_nil]]; apply (f_equal timeout_of) in Heq; by inv Heq.
  - intros c x. rewrite elem_of_cons. intros [Heq|[]%not_elem_of_nil]; by apply (f_equal timeout_of) in Heq.
Qed.

(** ** Sample runs *)
Module MainExamples.

Definition env (key : string) : string :=
  if bool_decide (key = EnvClientID) then "id" else if bool_decide (key = EnvClientSecret) then "secret" else "".

(** A process with credentials in its environment; the call [bad] fails. *)
Definition hdl (bad : Setup → bool) (X : Type) (e : MainE X) : unit → unit * X :=
  match e in MainE X return unit → unit * X with
  | EnvCall e' =>
      match e' in ProcE X return unit → unit * X with
      | Getenv key => λ u, (u, env key)
      | UserHomeDir => λ u, (u, Ok "/root")
      | Open _ => λ u, (u, Err ErrNotExist)
      end
  | FactoryCall e' =>
      match e' in FactoryE X return unit → unit * X with
      | ReaderGet _ _ => λ u, (u, Err ErrNotExist)
      | FieldNewClient _ => λ u, (u, Ok 8)
      | SdkNewClient _ => λ u, (u, Ok 7)
      end
  | SetupCall s => λ u, (u, if bad s then Err (errorString "refused") else Ok tt)
  | GetConfigOrDie => λ u, (u, Ok tt)
  | SetupSignalHandler => λ u, (u, tt)
  end.

Lemma hdl_process bad h X (e : MainE X) u : rely (process env) h X e (hdl bad X e u).2.
Proof. destruct e as [? []|? []| | |]; done. Qed.

Definition args : list string := ["--leader-elect"; "-namespace=team-a"; "--concurrency"; "0x10"].
Definition f0 : SecretFactory := mkSecretFactory None true None.
Definition no_library : FlagSet unit := λ _, None.

Definition traced (bad : Setup → bool) := trace (hdl bad) (main no_library args f0) tt [].
Definition calls (bad : Setup → bool) : hist MainE := (traced bad).1.2.

Definition flags : Flags :=
  mkFlags "" "" 16 "team-a" "0" ":8081" true true "" "tls.crt" "tls.key" "" "tls.crt" "tls.key" false.

Example args_parsed : flag_Parse (CommandLine no_library) args defaultFlags = Parsed flags [].
Proof. vm_compute. reflexivity. Qed.

Lemma main_carries_out_plan_witness :
  ∃ p, asked flags p ∧ setups (calls (λ _, false)) = oks (plan_of p true ++ [Start]) ∧
    factory_wired (calls (λ _, false)) (traced (λ _, false)).2.1.
Proof.
  pose proof (main_carries_out_plan no_library args env f0 (calls (λ _, false))
    (traced (λ _, false)).2.1 (traced (λ _, false)).2.2) as H.
  rewrite args_parsed in H. apply H.
  exact (trace_exec_rely (hdl (λ _, false)) (process env) _ tt [] (hdl_process _)).
Defined.

Lemma command_line_round_trip_witness :
  flag_Parse (CommandLine no_library) (commandLine flags) defaultFlags = Parsed flags [].
Proof. apply command_line_round_trip. cbn. lia. Defined.

End MainExamples.
