(* ===== verification/CcmMain.v ===== *)
(** * The cloud controller manager program

    [cmd/cloud-controller-manager/main.go], and of [internal/ccm/provider.go]
    what makes a provider: the registered constructor, [New], [Initialize] and
    the services a provider offers.  The cloud-provider framework is library
    code: its commands, its default controllers and the name of its route
    controller are parameters. *)

From S2P Require Import Prelude GoStd Effects Cloud Ctrl Credentials Factory Ccm Main.
From stdpp Require Import options.

Local Open Scope go_scope.

(** ** Providers *)

(** A client of the workload cluster, by the name it was asked for. *)
Definition KubeRef := string.

Record serviceLB := mkServiceLB { lb_kube : KubeRef; lb_updater : UpdaterPtr }.

Record Provider := mkProvider {
  Provider_client : ClientRef;
  Provider_kube : option KubeRef;
  Provider_lb : option serviceLB
}.

Definition New (client : ClientRef) : Provider := mkProvider client None None.

Definition WithKubeClient (kube : KubeRef) (updater : UpdaterPtr) (p : Provider) : Provider :=
  mkProvider (Provider_client p) (Some kube) (Some (mkServiceLB kube updater)).

(** [builder.ClientOrDie] gives the client of that name. *)
Definition Initialize (p : Provider) : Provider :=
  WithKubeClient "verda-service-load-balancer" SSHUpdater p.

Definition Provider_LoadBalancer (p : Provider) : option serviceLB :=
  match Provider_kube p with
  | None => None
  | Some _ => Provider_lb p
  end.

(** The services of [cloudprovider.Interface] a provider says it has. *)
Definition Provider_InstancesV2 (p : Provider) : option Provider := Some p.
Definition Provider_Instances (p : Provider) : option unit := None.
Definition Provider_Zones (p : Provider) : option unit := None.
Definition Provider_Clusters (p : Provider) : option unit := None.
Definition Provider_Routes (p : Provider) : option unit := None.
Definition Provider_HasClusterID (p : Provider) : bool := true.

(** The constructor [init] registers under [ProviderName]. *)
Definition newProvider : MM Provider :=
  let! creds := proc (LoadCredentials "") in
  match creds with
  | Err err => throw err
  | Ok creds =>
      let! client := factory (NewClient creds) in
      retM (New client)
  end.

(** ** The program *)

(** [cloudprovider.CloudProviderConfiguration] of the options. *)
Record CloudProviderConfig := mkCloudProviderConfig { CloudProvider_Name : string; CloudConfigFile : string }.

Definition set_CloudProvider_Name (name : string) (c : CloudProviderConfig) : CloudProviderConfig :=
  mkCloudProviderConfig name (CloudConfigFile c).

(** [app.ControllerInitFuncConstructor]: the context is a struct, the
    constructor a function of the library. *)
Record InitFuncConstructor := mkInitFuncConstructor { ClientName : string; Constructor : nat }.

Definition set_ClientName (name : string) (c : InitFuncConstructor) : InitFuncConstructor :=
  mkInitFuncConstructor name (Constructor c).

Inductive CcmMainE : Type → Type :=
| NewCloudControllerManagerOptions : CcmMainE (result CloudProviderConfig)
| RunCommand (o : CloudProviderConfig) (initializers : gmap string InitFuncConstructor) : CcmMainE Z
| InitCloudProvider (name file : string) : CcmMainE (result (option Provider)).

Abbreviation MCC := (M unit CcmMainE).

Section programs.
Context `{!MapRange}.

(** The body of the loop. *)
Definition nameClient (m : gmap string InitFuncConstructor) (e : string * InitFuncConstructor) :
    gmap string InitFuncConstructor :=
  <[e.1 := set_ClientName ("verda-external-" +:+ e.1) e.2]> m.

Definition clientNames (m : gmap string InitFuncConstructor) : gmap string InitFuncConstructor :=
  foldl nameClient m (map_range m).

Definition ccm_main (routes : string) (defaults : gmap string InitFuncConstructor) : MCC unit :=
  let? r := call NewCloudControllerManagerOptions in
  match r with
  | Err _ => throw (exited 1)
  | Ok ccmOptions =>
      let ccmOptions := set_CloudProvider_Name ProviderName ccmOptions in
      let controllerInitializers := clientNames (delete routes defaults) in
      let! code := ask (RunCommand ccmOptions controllerInitializers) in
      throw (exited code)
  end.

(** Called by the command with the completed configuration. *)
Definition cloudInitializer (cloudConfig : CloudProviderConfig) : MCC Provider :=
  let? cloud := call (InitCloudProvider (CloudProvider_Name cloudConfig) (CloudConfigFile cloudConfig)) in
  match cloud with
  | Err _ => throw (exited 1)
  | Ok None => throw (exited 1)
  | Ok (Some cloud) => retM cloud
  end.

(** ** The controllers that run *)

Lemma clientNames_fold (l : list (string * InitFuncConstructor)) (m : gmap string InitFuncConstructor) :
  NoDup l.*1 → (∀ name c, (name, c) ∈ l → m !! name = Some c) →
  ∀ name, foldl nameClient m l !! name =
    (if decide (name ∈ l.*1) then set_ClientName ("verda-external-" +:+ name) <$> m !! name else m !! name).
Proof.
  revert m. induction l as [|[k c] l IH]; intros m Hnd Hl name; [done|].
  cbn in Hnd. apply NoDup_cons in Hnd as [Hk Hnd]. cbn [foldl]. rewrite IH; [|done|]; unfold nameClient; cbn [fst snd].
  - cbn [fmap list_fmap fst]. destruct (decide (name = k)) as [->|Hne].
    + rewrite (decide_False (P := k ∈ l.*1)) by done. rewrite decide_True by set_solver.
      rewrite lookup_insert_eq. by rewrite (Hl k c) by set_solver.
    + rewrite lookup_insert_ne by done. repeat case_decide; set_solver.
  - intros n x Hin. rewrite lookup_insert_ne; [apply Hl; by right|].
    intros ->. apply Hk, list_elem_of_fmap. by exists (n, x).
Qed.

Lemma clientNames_lookup m name :
  clientNames m !! name = set_ClientName ("verda-external-" +:+ name) <$> m !! name.
Proof.
  unfold clientNames. pose proof (map_range_perm m) as Hp.
  rewrite clientNames_fold.
  - case_decide as Hin; [done|]. destruct (m !! name) as [c|] eqn:Hm; [|done].
    destruct Hin. rewrite Hp. apply list_elem_of_fmap. exists (name, c).
    split; [done|]. by apply elem_of_map_to_list.
  - rewrite Hp. apply NoDup_fst_map_to_list.
  - intros n c Hin. rewrite Hp in Hin. by apply elem_of_map_to_list.
Qed.

(** (C27) The cloud controller manager runs its controllers as the provider
    [verda]: the command gets every default controller but the route controller,
    each once, unchanged but for a client name of its own, in whatever order the
    map was walked; the program ends with the status of the command, and
    without running it when the options cannot be made. *)
Theorem ccm_runs_controllers routes defaults h u r :
  runs (ccm_main routes defaults tt) h (u, r) →
  (∃ err, h = [Obs NewCloudControllerManagerOptions (Err err)] ∧ r = Err (exited 1)) ∨
  ∃ o inits code,
    h = [Obs (RunCommand (mkCloudProviderConfig "verda" (CloudConfigFile o)) inits) code;
         Obs NewCloudControllerManagerOptions (Ok o)] ∧
    r = Err (exited code) ∧ inits !! routes = None ∧
    (∀ name, name ≠ routes →
      inits !! name = (λ c, mkInitFuncConstructor ("verda-external-" +:+ name) (Constructor c)) <$> defaults !! name).
Proof.
  unfold runs. intros Hex. exec_to_wp Hex. unfold ccm_main. wp_step. wp_step; [done|].
  destruct r0 as [o|err]; cbn beta iota.
  - wp_step. wp_step; [done|]. apply wpM_throw. right. exists o, (clientNames (delete routes defaults)), x.
    split; [done|]. split; [done|]. split.
    + by rewrite clientNames_lookup, lookup_delete_eq.
    + intros name Hne. by rewrite clientNames_lookup, lookup_delete_ne.
  - apply wpM_throw. left. by exists err.
Qed.
End programs.

(** ** A provider that was made *)

(** A client of the Verda API was made. *)
Definition client_made (o : obs MainE) : bool :=
  match o with
  | @Obs _ _ e r =>
      match e in MainE X return X → bool with
      | FactoryCall e' =>
          match e' in FactoryE X return X → bool with
          | SdkNewClient _ => λ r, match r with Ok _ => true | Err _ => false end
          | _ => λ _, false
          end
      | _ => λ _, false
      end r
  end.

(** A provider acts with the client of complete credentials, answers for nodes
    from the start and for load balancers once it is initialized, over SSH; the
    constructor fails only if there are no credentials or no client. *)
Theorem provider_ready env f h f' r :
  exec (process env) (newProvider f) [] h (f', r) →
  match r with
  | Ok p =>
      (∃ creds, complete creds ∧
         Obs (FactoryCall (SdkNewClient (clientOptions creds))) (Ok (Provider_client p)) ∈ h) ∧
      Provider_LoadBalancer p = None ∧
      Provider_LoadBalancer (Initialize p) = Some (mkServiceLB "verda-service-load-balancer" SSHUpdater) ∧
      Provider_InstancesV2 (Initialize p) = Some (Initialize p) ∧
      Provider_client (Initialize p) = Provider_client p
  | Err _ => Forall (λ o, client_made o = false) h
  end.
Proof.
  intros Hex. exec_to_wp Hex. unfold newProvider. wp_step.
  eapply wpM_mono; [apply wpM_proc, LoadCredentials_complete|].
  intros h1 f1 r1 (-> & t & a & -> & -> & Hc). cbn beta iota. rewrite app_nil_r.
  assert (Forall (λ o, client_made o = false) (embed_obs (@EnvCall) <$> t)) as Ht.
  { apply Forall_fmap, Forall_true. by intros []. }
  destruct a as [creds|err]; [|by apply wpM_throw].
  wp_step. eapply wpM_mono; [apply wpM_factory, NewClient_built|].
  intros h2 f2 [c|err] (t2 & -> & -> & Hb); cbn beta iota.
  - apply wpM_ret. split; [|done]. exists creds. split; [by apply Hc|]. apply elem_of_app. left.
    apply list_elem_of_fmap. by exists (Obs (SdkNewClient (clientOptions creds)) (Ok c)).
  - destruct Hb as [err' ->]. by constructor.
Qed.

(** The command only ever gets a provider, never nil. *)
Theorem cloudInitializer_provider cfg h u r :
  runs (cloudInitializer cfg tt) h (u, r) →
  match r with
  | Ok p => h = [Obs (InitCloudProvider (CloudProvider_Name cfg) (CloudConfigFile cfg)) (Ok (Some p))]
  | Err e => e = exited 1
  end.
Proof.
  unfold runs. intros Hex. exec_to_wp Hex. unfold cloudInitializer. wp_step. wp_step; [done|].
  destruct r0 as [[p|]|err]; by constructor.
Qed.

Module CcmMainExamples.

Instance range : MapRange := {| map_range A := map_to_list; map_range_perm A m := reflexivity _ |}.

Definition defaults : gmap string InitFuncConstructor :=
  {[ "service-lb-controller" := mkInitFuncConstructor "" 1; "node-route-controller" := mkInitFuncConstructor "" 2 ]}.

Definition hdl (X : Type) (e : CcmMainE X) : unit → unit * X :=
  match e in CcmMainE X return unit → unit * X with
  | NewCloudControllerManagerOptions => λ u, (u, Ok (mkCloudProviderConfig "" "cloud.conf"))
  | RunCommand _ _ => λ u, (u, 3%Z)
  | InitCloudProvider _ _ => λ u, (u, Ok None)
  end.

Definition traced := trace hdl (ccm_main "node-route-controller" defaults tt) tt [].

Lemma ccm_runs_controllers_witness :
  ∃ o inits,
    traced.1.2 = [Obs (RunCommand (mkCloudProviderConfig "verda" (CloudConfigFile o)) inits) 3%Z;
         Obs NewCloudControllerManagerOptions (Ok o)] ∧
    inits !! "node-route-controller" = None ∧
    inits !! "service-lb-controller" =
      Some (mkInitFuncConstructor "verda-external-service-lb-controller" 1).
Proof.
  destruct (ccm_runs_controllers "node-route-controller" defaults traced.1.2 traced.2.1 traced.2.2
    (trace_exec hdl (ccm_main "node-route-controller" defaults tt) tt []))
    as [(err & Hh & _)|(o & inits & code & Hh & Hr & Hroute & Hrest)].
  - exfalso. apply (f_equal List.length) in Hh. vm_compute in Hh. discriminate Hh.
  - exists o, inits. rewrite Hh.
    assert (code = 3%Z) as ->; [|split; [done|]; split; [done|]; by rewrite Hrest by done].
    symmetry. apply exited_inj. apply (f_equal err_of) in Hr. cbn [err_of] in Hr.
    exact (f_equal (default (exited 0)) Hr).
Defined.

End CcmMainExamples.
